(* ===== verification/_CoqProject ===== *)
-Q . S2P
Prelude.v
Machine.v
Rely.v
CommonUtil.v
Board.v
StdDescriptors.v
HIDReportData.v
Descriptors.v
HIDParser.v
ConfigDescriptors.v
Endpoint.v
FrameWait.v
EndpointWait.v
ControlStream.v
RingBuffer.v
UsbController.v
DeviceStandardReq.v
StatusRequests.v
EndpointStream.v
StreamEndian.v
HIDClass.v
ClassDriver.v
CDCClass.v
PrinterClass.v
MIDIClass.v
MassStorageClass.v
AudioClass.v
RNDISClass.v
UsbInterrupt.v
Safety.v
StreamErrors.v
Joystick.v
HIDRequests.v
Firmware.v
ReportLayout.v
HostApp.v
EndToEnd.v
Simulation.v
FirmwareSim.v
Pipe.v
HostController.v
HostStandardReq.v
HostTask.v
HostSafety.v
PipeStream.v
HostConfigDescriptor.v
HostTransfer.v
HostEnumeration.v
HostSim.v
PipeWait.v
HostClass.v
HostSearch.v
HostBulk.v
HIDClassHost.v
HIDHostSim.v
MassStorageClassHost.v
MSHostSim.v
PrinterClassHost.v
CDCClassHost.v
MIDIClassHost.v
StillImageClassHost.v
RNDISClassHost.v
AudioClassHost.v
AndroidAccessoryClassHost.v
HostDriversSim.v
