(* ===== verification/Prelude.v ===== *)
(** * A verification of the AVR joystick firmware

    The program is the firmware of a USB joystick on an ATmega32U4: the
    application in [src/src], its board drivers in [src/Board], and the parts of
    the LUFA library (release 140928, [src/lufa-LUFA-140928/LUFA], abbreviated
    [LUFA] below) that the firmware is linked with.  The build configuration is
    the one of [src/src/LUFAConfig.h] for AVR8: device mode only, descriptors in
    FLASH, a control endpoint of 8 bytes, one configuration, static options
    (full speed, regulator on, automatic PLL), polled control endpoint.  At the
    other end of the cable is the PC program in [src/host_app].

    ** The program

    An interrupt handler ([USB_GEN_vect]) follows the bus: it keeps the device
    state and counts frames.  The main loop alternates two tasks.
    [HID_Device_USBTask] builds a report from the port pins and sends it through
    the interrupt IN endpoint when it has changed or the idle period has passed.
    [USB_USBTask] looks for a SETUP packet on the control endpoint and has it
    processed: first by the application's event handler, which passes it to the
    HID class driver (GET_REPORT, SET_REPORT, idle and protocol requests), and
    then, if it is still pending, by the standard request code; what nobody
    handled is stalled.  Control transfers go through stream routines that fill
    and drain the 8-byte bank while they watch for the host to abort.

    The library is compiled as a whole, so the firmware is also linked with the
    device drivers of the other USB classes, which a second interface of the
    device would use.  The PC program opens the raw HID device, prints what it
    learns about it, and exchanges reports with it for ever.

    The library has a second half, host mode, in which the microcontroller is the
    host and a device such as the joystick is attached to it.  [USB_HostTask]
    drives the enumeration of the device, a state machine whose steps wait for
    frames, reset the bus, send control requests and configure the control pipe,
    while the interrupt handler reports attachment and disconnection; a class driver
    of the host (HID, mass storage, printer, CDC, MIDI, still image, RNDIS, audio,
    Android accessory) then binds an interface of the device, found in its
    configuration descriptor, and exchanges requests and data over pipes.
    It is translated as its host demos build it, for an AT90USB1287 with
    [USB_HOST_ONLY], static options and automatic VBUS management.

    ** How it is modelled

    - [Prelude] (this file): machine integers as [Z] with their wrap-around,
      bits, little-endian bytes, arrays of bytes.
    - [Machine]: the state and the monad.  A computation maps a state (the
      variables with static storage and the trace of all register accesses) to a
      result and a state, to [OutOfFuel], or to [Undefined] for behaviour that C
      leaves undefined (an access outside of an object).  The hardware is a
      parameter, the class [Env]: [respond] gives the value of a register as a
      function of all accesses made before, [async] what the interrupts that are
      taken before an access do to the state.  Nothing is assumed of it; what a
      theorem needs (for instance that a host carries out a control read) is a
      hypothesis about [respond], and [Simulation], [FirmwareSim], [HostSim],
      [HIDHostSim], [MSHostSim] and [HostDriversSim] show for each that there are
      machines that satisfy it.  [wp] is
      total correctness: termination without undefined behaviour in a state that
      satisfies a postcondition; [wlp] does not ask for termination, and is used
      where nothing at all is assumed of the hardware.
    - [Rely]: reasoning about code that can be interrupted.  [Calm] says that
      interrupts touch no endpoint register and no variable but the idle counter;
      [UsbInterrupt] proves it of the real handler while only start-of-frame
      interrupts occur.  [Masked] says that no interrupts are taken, for the
      theorems that list all accesses.
    - [CommonUtil]: [LUFA/Common/Common.h] and [Endianness.h].
    - [Board]: [src/Board/LEDs.h], [Buttons.h], [Joystick.h].
    - [StdDescriptors], [HIDReportData], [Descriptors]: the descriptor structures
      and macros of the library, and the firmware's descriptors as bytes in FLASH
      ([src/src/descriptors.c]) with [CALLBACK_USB_GetDescriptor].
    - [HIDParser]: [LUFA/Drivers/USB/Class/Common/HIDParser.c], the report
      descriptor parser with its tables, and the item getter and setter.
    - [ConfigDescriptors]: [LUFA/Drivers/USB/Core/ConfigDescriptors.c], the walk
      over a configuration descriptor.
    - [Endpoint], [EndpointWait]: [Endpoint_AVR8.h] and [.c].  [FrameWait]: waits
      that count the frames of the bus, for endpoints and for pipes.
    - [ControlStream], [EndpointStream]: [EndpointStream_AVR8.c] and the three
      templates it instantiates.  A template is a definition with the template
      macros as parameters; its instances are the library's functions.
      [StreamErrors]: their error codes and the unplugged device; [StreamEndian]:
      the big-endian instances.
    - [UsbController], [UsbInterrupt]: [USBController_AVR8], [USBInterrupt_AVR8]
      and [Device_AVR8], headers and sources.
    - [DeviceStandardReq], [StatusRequests]: [DeviceStandardReq.c] and
      [USBTask.c].  The class [USB_Application] is the interface to the
      application (its events and descriptor callback); theorems of the library
      are proved against its laws.
    - [HIDClass]: [HIDClassDevice.c] and [.h], against the class
      [HID_Application] of the two report callbacks; [HIDRequests]: its requests,
      with the joystick's callbacks.
    - [Joystick]: [src/src/joystick.c], the instances of both interfaces and their
      laws, hardware set-up and main loop.
    - [Safety]: rules for code that keeps an invariant of the state on arbitrary
      hardware with interrupts at any point; [Firmware]: the invariant of the
      firmware, its boot sequence and main loop.
    - [ReportLayout]: the report structure and the report descriptor together.
    - [RingBuffer]: [LUFA/Drivers/Misc/RingBuffer.h], with the steps of two threads.
    - [ClassDriver]: the code that several class drivers have in common, and what
      it does on a bulk endpoint; [CDCClass], [PrinterClass], [MIDIClass],
      [MassStorageClass], [AudioClass], [RNDISClass]: the drivers of
      [LUFA/Drivers/USB/Class/Device], each against a class of its application's
      events and callbacks.  Their interface structures are in [Machine].
    - [HostApp]: [src/host_app/linux.c], in a monad of its own; the kernel is the
      class [Kernel].  [EndToEnd]: the PC program and the firmware together.
    - [Simulation], [FirmwareSim]: simulated hosts, buses and kernels on which the
      theorems are applied.
    - Host mode.  [Pipe]: [Pipe.h], [Pipe_AVR8.h] and [.c].  [HostController]:
      [Host_AVR8.h], the host branches of [USBController_AVR8.c] and
      [USBInterrupt_AVR8.c], and the waits of [Host_AVR8.c].  [HostStandardReq]:
      [HostStandardReq.c] and [.h].  [HostTask]: the state machine of
      [Host_AVR8.c], [USB_HostTask] and the host half of the interrupt handler,
      against the class [USB_Host_Application] of the application's events.
      [PipeStream]: [PipeStream_AVR8.c] and its template.  [HostConfigDescriptor]:
      the function of [ConfigDescriptors.c] that reads a descriptor from a device.
      [HostClass]: the code that several class drivers of the host have in common,
      each routine once: the comparators of the configuration descriptor, the
      search for the endpoints of an interface, transfers over a pair of data pipes.
      [HIDClassHost], [MassStorageClassHost], [PrinterClassHost], [CDCClassHost],
      [MIDIClassHost], [StillImageClassHost], [RNDISClassHost], [AudioClassHost],
      [AndroidAccessoryClassHost]: the drivers of [LUFA/Drivers/USB/Class/Host]; an
      interface structure is passed to and returned from their functions.
    - The theorems about host mode: [HostSafety] (an invariant on arbitrary
      hardware), [HostTransfer] (control requests), [HostEnumeration] (the abstract
      host and the refinement), [PipeWait] (waiting for a pipe and writing a stream to
      it), [HostSearch] (the search for an interface against a reference definition
      on lists of descriptors), [HostBulk] (transfers over data pipes on arbitrary
      hardware).  [HostSim], [HIDHostSim]: an attached joystick;
      [MSHostSim]: an attached disk; [HostDriversSim]: a printer, a camera and a serial
      port.

    Definitions keep the names of the source.  A loop whose body is a statement
    of its own, or a branch of a large [switch], is a definition of its own,
    named after what it does.

    ** What is shown

    - Control transfers: a GET_DESCRIPTOR request is answered with exactly the
      right bytes in the right packets by the code from the SETUP packet to the
      status stage; SET_ADDRESS takes effect after the status stage;
      SET_CONFIGURATION, GET_STATUS, the feature requests, GET_CONFIGURATION and
      the serial number; unsupported requests are stalled.
    - Reports: the HID task sends a report exactly when it should; a report
      written by the host reaches port D; what the host reads with the parsed
      report descriptor are the axes and buttons the application stored.
    - Both ends: the counter of the PC program appears on port D in every round
      of its loop.
    - Class drivers: the bytes sent and received over the virtual serial port
      arrive, all of them and in order; its line encoding survives a round trip;
      the mass storage driver accepts exactly the valid command blocks; RNDIS
      messages are answered in their buffer with the length, status and information
      that a table of the adapter gives (unless the data of a SET message lies outside of
      the buffer).  The ring buffer is a queue under
      every interleaving of two threads.
    - Interrupts: the handler refines a state machine of the device; frame
      interrupts keep the rely condition of the other proofs.
    - The report parser is safe and total (without PUSH items); items are
      extracted correctly; the searches of the configuration descriptor parser
      refine a search in a list.
    - Waiting for an endpoint terminates with a justified result; control
      streams stay inside of their buffers and their return code is justified by
      what was seen, and no stream outlives the connection.
    - The whole firmware: from reset, on arbitrary hardware and with interrupts
      anywhere, it has no undefined behaviour as long as the host does not send an
      output report of fewer than two bytes; its variables stay in their ranges;
      the start of [main] terminates, having set the device up by exactly the
      writes of a boot sequence, the control endpoint before it is attached.
    - Host mode, with interrupts masked: each step of the host task returns and is a
      step of an abstract enumeration that its accesses justify, success included (a
      bus reset seen to end, a pipe accepted, a request acknowledged); a control
      request returns within its timeouts (for host-to-device data if the control
      pipe has a size above 0), has transferred exactly the data it reports and seen
      the device acknowledge it, and its error codes are justified.  With interrupts
      anywhere, and whatever a device sends, control requests, the configuration
      descriptor and reports (in report protocol) stay inside of their buffers, and
      the state machine stays well formed.  A simulated joystick is enumerated, bound and parsed with the
      firmware's own descriptors.
    - Class drivers of the host: binding a printer finds what the reference
      definition finds, on every chain of descriptors of their proper sizes that is
      followed by something else; any session over a serial port
      is free of undefined behaviour, whatever the device sends; every command block of the
      mass storage driver is accepted by the device driver and sent whole or
      reported as failed, and no disk makes the driver leave its buffers; the packet
      filter set by the host's RNDIS message is what the adapter uses and what the
      host's query reads back.
    - Utilities: bit reversal, byte order, bank sizes, item encoding, LEDs.
    - Where the code does not do what it means to do, the theorem says what it
      does instead: the item setter on unaligned items, PUSH items, short output
      reports, toggled LEDs, descriptors of size 0, the declared report size (with
      which the library's own host cannot receive the joystick's reports), the
      port status of a printer, 24-bit audio samples, the bound endpoint of a pipe,
      the device status, control endpoints of size 0, boot protocol reports, transfers
      of 64 kB from a disk, the device ID of a printer, the parameters of a camera's
      response.

    ** Bounds

    Polling loops run on the fuel of [Env]; a theorem asks for as much as the
    host's patience ([K] polls for each packet) requires, and proves that this is
    enough.  Loops that count down run on their counter.  The parser's fuel is
    the length of its input, the searches' the number of descriptors.  A host
    request needs the frames of its timeout (1000) and at most [K] polls for each
    of them; safety theorems ([wlp]) hold for every fuel.

    ** What is not modelled

    The timing of instructions and of the bus (the environment decides when a
    condition is seen); the [volatile] reads of multi-byte variables are single
    steps; the size of the stack.  Code for other targets (XMEGA, UC3, other AVR
    series), the choice between device and host mode at run time, and the parts of the
    library that the firmware does not use (peripheral drivers, demos, projects,
    bootloaders) are left out: they are separate programs and drivers for hardware
    that the joystick does not have.  The [stdio] stream constructors of the class
    drivers only fill in a structure of the C library.  Of the PC program, the text
    of error messages is the C library's.

    The class drivers of the host are modelled whole; theorems are stated for
    binding a printer, for the HID, mass storage and CDC drivers, and for the RNDIS
    messages.  The transfer functions of the printer and Android accessory drivers
    are those of the CDC driver; the containers of the still image driver are covered
    by examples only. *)
From stdpp Require Export base list numbers option.
From Stdlib Require Export ZArith Lia.
Global Open Scope Z_scope.

(** * Machine integers

    A [w]-bit unsigned C object is a [Z] in [0, 2^w); a store into it wraps
    modulo [2^w].  The target compiler is avr-gcc: [int] is 16 bits wide, there
    is no structure padding, and objects are stored least significant byte
    first. *)

Declare Scope cint_scope.
Delimit Scope cint_scope with cint.

Definition wrap (w : Z) (x : Z) : Z := x mod 2 ^ w.
Abbreviation u8 := (wrap 8).
Abbreviation u16 := (wrap 16).
Abbreviation u32 := (wrap 32).

(** The value of a [w]-bit object read as a two's complement signed integer. *)
Definition sgn (w : Z) (x : Z) : Z :=
  if wrap w x <? 2 ^ (w - 1) then wrap w x else wrap w x - 2 ^ w.
Abbreviation s8 := (sgn 8).

Definition fits (w : Z) (x : Z) : Prop := 0 <= x < 2 ^ w.
Abbreviation is_u8 := (fits 8).
Abbreviation is_u16 := (fits 16).
Abbreviation is_u32 := (fits 32).

(** The mask [1 << n], and the test [x & (1 << n)]. *)
Definition bit (n : Z) : Z := Z.shiftl 1 n.
Definition has_bit (x n : Z) : bool := negb (Z.land x (bit n) =? 0).

#[global] Instance fits_dec w x : Decision (fits w x).
Proof. unfold fits. apply _. Defined.

(** Linear arithmetic with division and remainder. *)
Ltac lia_div := Z.div_mod_to_equations; lia.

Create HintDb cint.
#[global] Create Rewrite HintDb bits.

Lemma wrap_fits w x : 0 <= w -> fits w (wrap w x).
Proof. intros. apply Z.mod_pos_bound. apply Z.pow_pos_nonneg; lia. Qed.

Lemma wrap_id w x : fits w x -> wrap w x = x.
Proof. apply Z.mod_small. Qed.

Lemma wrap_wrap w x : wrap w (wrap w x) = wrap w x.
Proof. unfold wrap. apply Zmod_mod. Qed.

Lemma land_255_fits x : is_u8 (Z.land x 0xFF).
Proof. change 0xFF with (Z.ones 8). rewrite Z.land_ones by lia. by apply wrap_fits. Qed.

Lemma fits_mono w w' x : w <= w' -> 0 <= w -> fits w x -> fits w' x.
Proof. intros ? ? []; split; [lia|]. eapply Z.lt_le_trans; [done|]. apply Z.pow_le_mono_r; lia. Qed.

Lemma wrap_land w x : 0 <= w -> wrap w x = Z.land x (Z.ones w).
Proof. intros. symmetry. by apply Z.land_ones. Qed.

#[export] Hint Resolve wrap_fits : cint.

Lemma has_bit_testbit x n : 0 <= n -> has_bit x n = Z.testbit x n.
Proof.
  intros Hn. unfold has_bit, bit.
  destruct (Z.testbit x n) eqn:Hb.
  - apply negb_true_iff, Z.eqb_neq. intros H0.
    assert (Z.testbit (Z.land x (Z.shiftl 1 n)) n = true) as Ht.
    { rewrite Z.land_spec, Hb, Z.shiftl_spec, Z.sub_diag by lia. done. }
    rewrite H0, Z.testbit_0_l in Ht. done.
  - apply negb_false_iff, Z.eqb_eq. apply Z.bits_inj'. intros m Hm.
    rewrite Z.land_spec, Z.testbit_0_l, Z.shiftl_spec by lia.
    destruct (decide (m = n)) as [->|]; [by rewrite Hb|].
    destruct (decide (m < n)); [rewrite (Z.testbit_neg_r 1) by lia; apply andb_false_r|].
    replace 1 with (2 ^ 0) by done.
    rewrite Z.pow2_bits_false by lia. apply andb_false_r.
Qed.

(** * Bitwise reasoning

    [bitwise] proves equalities between [Z] bit expressions by comparing the
    bits at an arbitrary index. *)

Lemma wrap_testbit w x i :
  0 <= w -> 0 <= i -> Z.testbit (wrap w x) i = (i <? w) && Z.testbit x i.
Proof.
  intros. unfold wrap. destruct (Z.ltb_spec i w); simpl.
  - apply Z.mod_pow2_bits_low; lia.
  - apply Z.mod_pow2_bits_high; lia.
Qed.

Lemma bit_testbit n i : 0 <= n -> 0 <= i -> Z.testbit (bit n) i = (i =? n).
Proof.
  intros. unfold bit. rewrite Z.shiftl_1_l, Z.pow2_bits_eqb by lia.
  rewrite Z.eqb_sym. done.
Qed.

Lemma fits_testbit w x i : fits w x -> 0 <= w <= i -> Z.testbit x i = false.
Proof.
  intros [? ?] ?. destruct (decide (x = 0)) as [->|]; [apply Z.testbit_0_l|].
  apply Z.bits_above_log2; [lia|]. apply Z.log2_lt_pow2; [lia|].
  eapply Z.lt_le_trans; [done|]. apply Z.pow_le_mono_r; lia.
Qed.

Lemma fits_bits w x :
  0 <= w -> 0 <= x -> (forall i, w <= i -> Z.testbit x i = false) -> fits w x.
Proof.
  intros Hw Hx Hbits. replace x with (wrap w x); [by apply wrap_fits|].
  apply Z.bits_inj'. intros i Hi. rewrite wrap_testbit by lia.
  destruct (Z.ltb_spec i w); [done|]. simpl. symmetry. by apply Hbits.
Qed.

#[export] Hint Rewrite Z.land_spec Z.lor_spec Z.lxor_spec Z.testbit_0_l
  andb_true_r andb_false_r orb_true_r orb_false_r : bits.
#[export] Hint Rewrite Z.shiftl_spec Z.shiftr_spec Z.lnot_spec wrap_testbit bit_testbit
  using lia : bits.

Ltac bitwise :=
  apply Z.bits_inj'; let i := fresh "i" in let Hi := fresh "Hi" in
  intros i Hi; autorewrite with bits.

Lemma fits_land w x y : 0 <= w -> fits w x -> fits w (Z.land x y).
Proof.
  intros ? Hx. apply fits_bits; [lia|apply Z.land_nonneg; left; apply Hx|].
  intros i Hi. autorewrite with bits. by rewrite (fits_testbit w x).
Qed.

Lemma fits_lor w x y : 0 <= w -> fits w x -> fits w y -> fits w (Z.lor x y).
Proof.
  intros ? Hx Hy. apply fits_bits; [lia|apply Z.lor_nonneg; split; [apply Hx|apply Hy]|].
  intros i Hi. autorewrite with bits. by rewrite (fits_testbit w x), (fits_testbit w y).
Qed.

Lemma fits_shiftr w x n : 0 <= n -> fits w x -> fits w (Z.shiftr x n).
Proof.
  intros ? [? ?]. rewrite Z.shiftr_div_pow2 by lia.
  assert (1 <= 2 ^ n) by (apply (Z.pow_le_mono_r 2 0); lia).
  split; [apply Z.div_pos; lia|].
  eapply Z.le_lt_trans; [|done]. apply Z.div_le_upper_bound; nia.
Qed.

#[export] Hint Resolve fits_land fits_lor fits_shiftr : cint.

(** The four operations by which the sources touch one bit of a register:
    [r |= (1 << n)], [r &= ~(1 << n)] and the test [r & (1 << n)]. *)
Definition set_bit (x n : Z) : Z := u8 (Z.lor x (bit n)).
Definition clear_bits (x m : Z) : Z := u8 (Z.land x (Z.lnot m)).

Lemma set_bit_testbit x n i :
  0 <= n -> 0 <= i < 8 -> Z.testbit (set_bit x n) i = Z.testbit x i || (i =? n).
Proof.
  intros. unfold set_bit. autorewrite with bits.
  destruct (Z.ltb_spec i 8); [done|lia].
Qed.

Lemma clear_bits_testbit x m i :
  0 <= i < 8 -> Z.testbit (clear_bits x m) i = Z.testbit x i && negb (Z.testbit m i).
Proof.
  intros. unfold clear_bits. autorewrite with bits.
  destruct (Z.ltb_spec i 8); [done|lia].
Qed.

Lemma has_bit_set x n : 0 <= n < 8 -> has_bit (set_bit x n) n = true.
Proof. intros. rewrite has_bit_testbit, set_bit_testbit, Z.eqb_refl, orb_true_r by lia. done. Qed.

Lemma has_bit_cleared x n : 0 <= n < 8 -> has_bit (clear_bits x (bit n)) n = false.
Proof.
  intros. rewrite has_bit_testbit, clear_bits_testbit by lia. unfold bit.
  rewrite Z.shiftl_spec, Z.sub_diag by lia. by rewrite andb_false_r.
Qed.

(** * Byte strings *)

Abbreviation bytes := (list Z).
Definition all_bytes (l : bytes) : Prop := Forall is_u8 l.

(** The storage of an [n]-byte unsigned object, and its value. *)
Fixpoint le_bytes (n : nat) (x : Z) : bytes :=
  match n with
  | O => []
  | S n => u8 x :: le_bytes n (Z.shiftr x 8)
  end.

Fixpoint le_val (l : bytes) : Z :=
  match l with
  | [] => 0
  | b :: l => Z.lor b (Z.shiftl (le_val l) 8)
  end.

(** Two fields put together. *)
Lemma lor_fields w h l : 0 <= w -> fits w l -> Z.lor (Z.shiftl h w) l = 2 ^ w * h + l.
Proof.
  intros Hw Hl. rewrite <- Z.lxor_lor, <- Z.add_nocarry_lxor, Z.shiftl_mul_pow2 by
    (lia || (apply Z.bits_inj'; intros i Hi; rewrite Z.land_spec, Z.bits_0;
     destruct (Z.ltb_spec i w);
       [by rewrite Z.shiftl_spec_low|by rewrite (fits_testbit w l) by done; rewrite andb_false_r])).
  lia.
Qed.

Lemma lor_bytes h l : 0 <= l < 256 -> Z.lor (Z.shiftl h 8) l = 256 * h + l.
Proof. intros Hl. by rewrite lor_fields. Qed.

Lemma length_le_bytes n x : length (le_bytes n x) = n.
Proof. revert x. induction n; simpl; auto. Qed.

Lemma le_bytes_all n x : all_bytes (le_bytes n x).
Proof.
  revert x. induction n as [|n IH]; intros x; simpl; constructor; [|apply IH].
  by apply wrap_fits.
Qed.

Lemma le_val_fits l : all_bytes l -> fits (8 * Z.of_nat (length l)) (le_val l).
Proof.
  induction 1 as [|b l Hb Hl IH]; [done|]. cbn [le_val length].
  apply fits_bits; [lia|apply Z.lor_nonneg; split; [apply Hb|apply Z.shiftl_nonneg, IH]|].
  intros i Hi. autorewrite with bits.
  rewrite (fits_testbit 8 b), (fits_testbit (8 * Z.of_nat (length l))) by (done || lia). done.
Qed.

Lemma le_val_bytes n x : le_val (le_bytes n x) = wrap (8 * Z.of_nat n) x.
Proof.
  revert x. induction n as [|n IH]; intros x; cbn [le_val le_bytes].
  - unfold wrap. by rewrite Z.mod_1_r.
  - rewrite IH. bitwise.
    destruct (Z.ltb_spec i 8); simpl.
    + rewrite (Z.testbit_neg_r _ (i - 8)) by lia.
      destruct (Z.ltb_spec i (8 * Z.of_nat (S n))); [by rewrite orb_false_r|lia].
    + rewrite wrap_testbit, Z.shiftr_spec by lia.
      replace (i - 8 + 8) with i by lia. f_equal.
      destruct (Z.ltb_spec (i - 8) (8 * Z.of_nat n)), (Z.ltb_spec i (8 * Z.of_nat (S n))); lia || done.
Qed.

Lemma le_bytes_val l : all_bytes l -> le_bytes (length l) (le_val l) = l.
Proof.
  induction 1 as [|b l Hb Hl IH]; [done|]. cbn [length le_bytes le_val]. f_equal.
  - bitwise. destruct (Z.ltb_spec i 8); simpl.
    + rewrite (Z.testbit_neg_r _ (i - 8)) by lia. by rewrite orb_false_r.
    + symmetry. apply (fits_testbit 8); [done|lia].
  - etransitivity; [|exact IH]. f_equal. bitwise.
    rewrite (fits_testbit 8 b) by (done || lia).
    by replace (i + 8 - 8) with i by lia.
Qed.

(** * Objects in memory

    [*p] and [*p = v] on an array of bytes, [p] being the offset of the pointer:
    [None] outside of the array. *)
Definition load_byte (Buffer : bytes) (p : Z) : option Z :=
  if 0 <=? p then Buffer !! Z.to_nat p else None.
Definition store_byte (Buffer : bytes) (p v : Z) : option bytes :=
  match load_byte Buffer p with Some _ => Some (<[Z.to_nat p := v]> Buffer) | None => None end.

Lemma load_byte_middle front b rest : load_byte (front ++ b :: rest) (Z.of_nat (length front)) = Some b.
Proof.
  unfold load_byte. destruct (Z.leb_spec 0 (Z.of_nat (length front))); [|lia].
  by rewrite Nat2Z.id, list_lookup_middle.
Qed.

Lemma load_byte_outside Buffer p : Z.of_nat (length Buffer) <= p -> load_byte Buffer p = None.
Proof.
  intros Hp. unfold load_byte. destruct (Z.leb_spec 0 p); [|lia]. apply lookup_ge_None_2. lia.
Qed.
