(* ===== verification/Machine.v ===== *)
(** * The machine the firmware runs on

    The firmware is translated into a state monad [M] over the record [st]:
    the global variables of the program, and the trace of every access it has
    made to an I/O register.  The microcontroller is not part of the sources,
    so it is a parameter (class [Env]): [respond] gives the value a register
    read returns, as a function of everything that happened before, and
    [async] is whatever interrupt handlers do between two accesses of the
    interrupted code.  Nothing is assumed of either here; a theorem that needs
    documented behaviour of the controller names it as a hypothesis.

    A computation ends in [Done], in [OutOfFuel] (a polling loop has been
    iterated [fuel] times) or in [Undefined] (the C code accesses an object
    out of bounds). *)
From S2P Require Import Prelude.

(** ** I/O registers of the ATmega32U4 used by the sources *)

Inductive reg : Set :=
  (* endpoint registers, banked by UENUM *)
  | UENUM | UEINTX | UECONX | UECFG0X | UECFG1X | UESTA0X | UEDATX
  | UEBCHX | UEBCLX | UEIENX | UERST | UEINT
  (* device controller *)
  | UDCON | UDINT | UDIEN | UDADDR | UDFNUM
  (* USB general, PLL, pad regulator *)
  | USBCON | USBSTA | USBINT | UHWCON | PLLCSR | PLLFRQ
  (* ports and CPU *)
  | DDRB | DDRD | DDRE | DDRF | PORTB | PORTD | PORTE | PORTF | PINB | PIND
  | MCUSR | SREG
  (* host mode of the AT90USB1287: pipe registers, banked by UPNUM *)
  | UPNUM | UPINTX | UPCONX | UPCFG0X | UPCFG1X | UPCFG2X | UPSTAX | UPDATX
  | UPBCX | UPIENX | UPRST | UPINT | UPERRX | UPINRQX
  (* host controller *)
  | UHCON | UHINT | UHIEN | UHADDR | UHFNUM | OTGCON | OTGINT | OTGIEN
  (* signature row byte at the given address, [boot_signature_byte_get] *)
  | SIGROW (addr : Z).

#[global] Instance reg_eq_dec : EqDecision reg.
Proof. solve_decision. Defined.

(** Bit numbers, from [<avr/io.h>]. *)
Definition FIFOCON := 7.
Definition RWAL := 5.
Definition RXSTPI := 3.
Definition RXOUTI := 2.
Definition TXINI := 0.
Definition STALLRQ := 5.
Definition STALLRQC := 4.
Definition RSTDT := 3.
Definition EPEN := 0.
Definition EPTYPE0 := 6.
Definition EPDIR := 0.
Definition EPSIZE0 := 4.
Definition EPBK0 := 2.
Definition ALLOC := 1.
Definition CFGOK := 7.
Definition NBUSYBK0 := 0.
Definition RXSTPE := 3.
Definition WAKEUPI := 4.
Definition EORSTI := 3.
Definition SOFI := 2.
Definition SUSPI := 0.
Definition WAKEUPE := 4.
Definition EORSTE := 3.
Definition SOFE := 2.
Definition SUSPE := 0.
Definition LSM := 2.
Definition RMWKUP := 1.
Definition DETACH := 0.
Definition ADDEN := 7.
Definition USBE := 7.
Definition FRZCLK := 5.
Definition OTGPADE := 4.
Definition VBUSTE := 0.
Definition VBUSTI := 0.
Definition VBUS := 0.
Definition UVREGE := 0.
Definition PLLE := 1.
Definition PLOCK := 0.
Definition PDIV2 := 2.
Definition WDRF := 3.

(** What an access to the outside of the CPU looks like. [wdt_disable],
    [clock_prescale_set] and [_delay_ms] are avr-libc routines with a timed
    sequence of their own, recorded as one event each; [sei] and [cli] are instructions. *)
Inductive event : Set :=
  | Rd (r : reg) (v : Z)
  | Wr (r : reg) (v : Z)
  | sei_ev
  | cli_ev
  | wdt_disable_ev
  | clock_prescale_set_ev (div : Z)
  | delay_ms_ev (ms : Z).

(** ** Program variables *)

(** [USB_Request_Header_t] *)
Record USB_Request_Header_t := {
  bmRequestType : Z;
  bRequest : Z;
  wValue : Z;
  wIndex : Z;
  wLength : Z
}.

(** [USB_Endpoint_Table_t] *)
Record USB_Endpoint_Table_t := {
  ep_Address : Z;
  ep_Size : Z;
  ep_Type : Z;
  ep_Banks : Z
}.

(** The statically allocated report buffer a [PrevReportINBuffer] pointer can
    hold the address of. *)
Inductive static_buffer : Set := PrevJoystickHIDReportBuffer_addr.

(** [USB_ClassInfo_HID_Device_t]: the [Config] and [State] members. *)
Record HID_Config_t := {
  InterfaceNumber : Z;
  ReportINEndpoint : USB_Endpoint_Table_t;
  PrevReportINBuffer : option static_buffer;
  PrevReportINBufferSize : Z
}.

Record HID_State_t := {
  UsingReportProtocol : bool;
  PrevFrameNum : Z;
  IdleCount : Z;
  IdleMSRemaining : Z
}.

Record USB_ClassInfo_HID_Device_t := {
  HID_Config : HID_Config_t;
  HID_State : HID_State_t
}.

(** [CDC_LineEncoding_t] and [USB_ClassInfo_CDC_Device_t] *)
Record CDC_LineEncoding_t := {
  BaudRateBPS : Z;
  CharFormat : Z;
  ParityType : Z;
  DataBits : Z
}.

Record CDC_Config_t := {
  CDC_ControlInterfaceNumber : Z;
  CDC_DataINEndpoint : USB_Endpoint_Table_t;
  CDC_DataOUTEndpoint : USB_Endpoint_Table_t;
  CDC_NotificationEndpoint : USB_Endpoint_Table_t
}.

Record CDC_State_t := {
  HostToDevice : Z;
  DeviceToHost : Z;
  LineEncoding : CDC_LineEncoding_t
}.

Record USB_ClassInfo_CDC_Device_t := { CDC_Config : CDC_Config_t; CDC_State : CDC_State_t }.

(** [USB_ClassInfo_MIDI_Device_t]; its [State] has no members in use. *)
Record USB_ClassInfo_MIDI_Device_t := {
  MIDI_StreamingInterfaceNumber : Z;
  MIDI_DataINEndpoint : USB_Endpoint_Table_t;
  MIDI_DataOUTEndpoint : USB_Endpoint_Table_t
}.

(** [USB_ClassInfo_MS_Device_t]; the packed wrappers [CommandBlock] and
    [CommandStatus] are their bytes in memory. *)
Record MS_Config_t := {
  MS_InterfaceNumber : Z;
  MS_DataINEndpoint : USB_Endpoint_Table_t;
  MS_DataOUTEndpoint : USB_Endpoint_Table_t;
  TotalLUNs : Z
}.

Record MS_State_t := {
  CommandBlock : bytes;
  CommandStatus : bytes;
  IsMassStoreReset : bool
}.

Record USB_ClassInfo_MS_Device_t := { MS_Config : MS_Config_t; MS_State : MS_State_t }.

(** [USB_ClassInfo_PRNT_Device_t]; [IEEE1284String] is the memory the pointer
    leads to, up to and with the terminator of the string. *)
Record PRNT_Config_t := {
  PRNT_InterfaceNumber : Z;
  PRNT_DataINEndpoint : USB_Endpoint_Table_t;
  PRNT_DataOUTEndpoint : USB_Endpoint_Table_t;
  IEEE1284String : bytes
}.

Record PRNT_State_t := { PortStatus : Z; IsPrinterReset : bool }.

Record USB_ClassInfo_PRNT_Device_t := { PRNT_Config : PRNT_Config_t; PRNT_State : PRNT_State_t }.

(** [USB_ClassInfo_Audio_Device_t] *)
Record Audio_Config_t := {
  Audio_ControlInterfaceNumber : Z;
  Audio_StreamingInterfaceNumber : Z;
  Audio_DataINEndpoint : USB_Endpoint_Table_t;
  Audio_DataOUTEndpoint : USB_Endpoint_Table_t
}.

Record USB_ClassInfo_Audio_Device_t := { Audio_Config : Audio_Config_t; InterfaceEnabled : bool }.

(** [USB_ClassInfo_RNDIS_Device_t]; [AdapterVendorDescription] and
    [MessageBuffer] are the memory their pointers lead to, [None] for [NULL]. *)
Record RNDIS_Config_t := {
  RNDIS_ControlInterfaceNumber : Z;
  RNDIS_DataINEndpoint : USB_Endpoint_Table_t;
  RNDIS_DataOUTEndpoint : USB_Endpoint_Table_t;
  RNDIS_NotificationEndpoint : USB_Endpoint_Table_t;
  AdapterVendorDescription : bytes;
  AdapterMACAddress : bytes;
  MessageBuffer : option bytes;
  MessageBufferLength : Z
}.

Record RNDIS_State_t := {
  ResponseReady : bool;
  CurrRNDISState : Z;
  CurrPacketFilter : Z
}.

Record USB_ClassInfo_RNDIS_Device_t := { RNDIS_Config : RNDIS_Config_t; RNDIS_State : RNDIS_State_t }.

(** The interface structures of the other class drivers that the firmware is
    linked with.  The joystick declares none of them; an application that does
    has one of each here. *)
Record class_interfaces := {
  CDC_Interface : USB_ClassInfo_CDC_Device_t;
  MIDI_Interface : USB_ClassInfo_MIDI_Device_t;
  MS_Interface : USB_ClassInfo_MS_Device_t;
  PRNT_Interface : USB_ClassInfo_PRNT_Device_t;
  Audio_Interface : USB_ClassInfo_Audio_Device_t;
  RNDIS_Interface : USB_ClassInfo_RNDIS_Device_t
}.

(** The variables of host mode, with the static variables of
    [USB_Host_ProcessNextHostState]. *)
Record host_vars := {
  USB_HostState : Z;
  USB_Host_ConfigurationNumber : Z;
  USB_Host_ControlPipeSize : Z;
  WaitMSRemaining : Z;
  PostWaitState : Z
}.

(** Objects with static storage and no initialiser are zero. *)
Definition zero_Endpoint_Table : USB_Endpoint_Table_t :=
  {| ep_Address := 0; ep_Size := 0; ep_Type := 0; ep_Banks := 0 |}.
Definition zero_CDC_State : CDC_State_t :=
  {| HostToDevice := 0; DeviceToHost := 0;
     LineEncoding := {| BaudRateBPS := 0; CharFormat := 0; ParityType := 0; DataBits := 0 |} |}.
Definition zero_MS_State : MS_State_t :=
  {| CommandBlock := replicate 31 0; CommandStatus := replicate 13 0; IsMassStoreReset := false |}.
Definition zero_RNDIS_State : RNDIS_State_t :=
  {| ResponseReady := false; CurrRNDISState := 0; CurrPacketFilter := 0 |}.
(** [USB_Host_ControlPipeSize] is initialised with the default pipe size. *)
Definition initial_host : host_vars :=
  {| USB_HostState := 0; USB_Host_ConfigurationNumber := 0; USB_Host_ControlPipeSize := 64;
     WaitMSRemaining := 0; PostWaitState := 0 |}.
Definition zero_interfaces : class_interfaces :=
  let e := zero_Endpoint_Table in
  {| CDC_Interface :=
       {| CDC_Config := {| CDC_ControlInterfaceNumber := 0; CDC_DataINEndpoint := e;
                           CDC_DataOUTEndpoint := e; CDC_NotificationEndpoint := e |};
          CDC_State := zero_CDC_State |};
     MIDI_Interface := {| MIDI_StreamingInterfaceNumber := 0; MIDI_DataINEndpoint := e;
                          MIDI_DataOUTEndpoint := e |};
     MS_Interface :=
       {| MS_Config := {| MS_InterfaceNumber := 0; MS_DataINEndpoint := e; MS_DataOUTEndpoint := e;
                          TotalLUNs := 0 |};
          MS_State := zero_MS_State |};
     PRNT_Interface :=
       {| PRNT_Config := {| PRNT_InterfaceNumber := 0; PRNT_DataINEndpoint := e;
                            PRNT_DataOUTEndpoint := e; IEEE1284String := [0] |};
          PRNT_State := {| PortStatus := 0; IsPrinterReset := false |} |};
     Audio_Interface :=
       {| Audio_Config := {| Audio_ControlInterfaceNumber := 0; Audio_StreamingInterfaceNumber := 0;
                             Audio_DataINEndpoint := e; Audio_DataOUTEndpoint := e |};
          InterfaceEnabled := false |};
     RNDIS_Interface :=
       {| RNDIS_Config := {| RNDIS_ControlInterfaceNumber := 0; RNDIS_DataINEndpoint := e;
                             RNDIS_DataOUTEndpoint := e; RNDIS_NotificationEndpoint := e;
                             AdapterVendorDescription := [0]; AdapterMACAddress := replicate 6 0;
                             MessageBuffer := None; MessageBufferLength := 0 |};
          RNDIS_State := zero_RNDIS_State |} |}.

(** All the variables with static storage the modelled code reads or writes,
    and the trace, newest event first. *)
Record st := {
  trace : list event;
  USB_IsInitialized : bool;
  USB_DeviceState : Z;
  USB_ControlRequest : USB_Request_Header_t;
  USB_Device_ConfigurationNumber : Z;
  USB_Device_CurrentlySelfPowered : bool;
  USB_Device_RemoteWakeupEnabled : bool;
  Joystick_HID_Interface : USB_ClassInfo_HID_Device_t;
  PrevJoystickHIDReportBuffer : bytes;
  mask : Z;
  saved : Z;
  Class_Interfaces : class_interfaces;
  Host : host_vars
}.

Definition set_trace (t : list event) (s : st) : st :=
  {| trace := t; USB_IsInitialized := USB_IsInitialized s;
     USB_DeviceState := USB_DeviceState s;
     USB_ControlRequest := USB_ControlRequest s;
     USB_Device_ConfigurationNumber := USB_Device_ConfigurationNumber s;
     USB_Device_CurrentlySelfPowered := USB_Device_CurrentlySelfPowered s;
     USB_Device_RemoteWakeupEnabled := USB_Device_RemoteWakeupEnabled s;
     Joystick_HID_Interface := Joystick_HID_Interface s;
     PrevJoystickHIDReportBuffer := PrevJoystickHIDReportBuffer s;
     mask := mask s; saved := saved s;
     Class_Interfaces := Class_Interfaces s; Host := Host s |}.

Definition log (e : event) (s : st) : st := set_trace (e :: trace s) s.

Definition set_USB_IsInitialized (b : bool) (s : st) : st :=
  {| trace := trace s; USB_IsInitialized := b;
     USB_DeviceState := USB_DeviceState s;
     USB_ControlRequest := USB_ControlRequest s;
     USB_Device_ConfigurationNumber := USB_Device_ConfigurationNumber s;
     USB_Device_CurrentlySelfPowered := USB_Device_CurrentlySelfPowered s;
     USB_Device_RemoteWakeupEnabled := USB_Device_RemoteWakeupEnabled s;
     Joystick_HID_Interface := Joystick_HID_Interface s;
     PrevJoystickHIDReportBuffer := PrevJoystickHIDReportBuffer s;
     mask := mask s; saved := saved s;
     Class_Interfaces := Class_Interfaces s; Host := Host s |}.

Definition set_USB_DeviceState (x : Z) (s : st) : st :=
  {| trace := trace s; USB_IsInitialized := USB_IsInitialized s;
     USB_DeviceState := x;
     USB_ControlRequest := USB_ControlRequest s;
     USB_Device_ConfigurationNumber := USB_Device_ConfigurationNumber s;
     USB_Device_CurrentlySelfPowered := USB_Device_CurrentlySelfPowered s;
     USB_Device_RemoteWakeupEnabled := USB_Device_RemoteWakeupEnabled s;
     Joystick_HID_Interface := Joystick_HID_Interface s;
     PrevJoystickHIDReportBuffer := PrevJoystickHIDReportBuffer s;
     mask := mask s; saved := saved s;
     Class_Interfaces := Class_Interfaces s; Host := Host s |}.

Definition set_USB_ControlRequest (x : USB_Request_Header_t) (s : st) : st :=
  {| trace := trace s; USB_IsInitialized := USB_IsInitialized s;
     USB_DeviceState := USB_DeviceState s;
     USB_ControlRequest := x;
     USB_Device_ConfigurationNumber := USB_Device_ConfigurationNumber s;
     USB_Device_CurrentlySelfPowered := USB_Device_CurrentlySelfPowered s;
     USB_Device_RemoteWakeupEnabled := USB_Device_RemoteWakeupEnabled s;
     Joystick_HID_Interface := Joystick_HID_Interface s;
     PrevJoystickHIDReportBuffer := PrevJoystickHIDReportBuffer s;
     mask := mask s; saved := saved s;
     Class_Interfaces := Class_Interfaces s; Host := Host s |}.

Definition set_USB_Device_ConfigurationNumber (x : Z) (s : st) : st :=
  {| trace := trace s; USB_IsInitialized := USB_IsInitialized s;
     USB_DeviceState := USB_DeviceState s;
     USB_ControlRequest := USB_ControlRequest s;
     USB_Device_ConfigurationNumber := x;
     USB_Device_CurrentlySelfPowered := USB_Device_CurrentlySelfPowered s;
     USB_Device_RemoteWakeupEnabled := USB_Device_RemoteWakeupEnabled s;
     Joystick_HID_Interface := Joystick_HID_Interface s;
     PrevJoystickHIDReportBuffer := PrevJoystickHIDReportBuffer s;
     mask := mask s; saved := saved s;
     Class_Interfaces := Class_Interfaces s; Host := Host s |}.

Definition set_USB_Device_CurrentlySelfPowered (b : bool) (s : st) : st :=
  {| trace := trace s; USB_IsInitialized := USB_IsInitialized s;
     USB_DeviceState := USB_DeviceState s;
     USB_ControlRequest := USB_ControlRequest s;
     USB_Device_ConfigurationNumber := USB_Device_ConfigurationNumber s;
     USB_Device_CurrentlySelfPowered := b;
     USB_Device_RemoteWakeupEnabled := USB_Device_RemoteWakeupEnabled s;
     Joystick_HID_Interface := Joystick_HID_Interface s;
     PrevJoystickHIDReportBuffer := PrevJoystickHIDReportBuffer s;
     mask := mask s; saved := saved s;
     Class_Interfaces := Class_Interfaces s; Host := Host s |}.

Definition set_USB_Device_RemoteWakeupEnabled (b : bool) (s : st) : st :=
  {| trace := trace s; USB_IsInitialized := USB_IsInitialized s;
     USB_DeviceState := USB_DeviceState s;
     USB_ControlRequest := USB_ControlRequest s;
     USB_Device_ConfigurationNumber := USB_Device_ConfigurationNumber s;
     USB_Device_CurrentlySelfPowered := USB_Device_CurrentlySelfPowered s;
     USB_Device_RemoteWakeupEnabled := b;
     Joystick_HID_Interface := Joystick_HID_Interface s;
     PrevJoystickHIDReportBuffer := PrevJoystickHIDReportBuffer s;
     mask := mask s; saved := saved s;
     Class_Interfaces := Class_Interfaces s; Host := Host s |}.

Definition set_Joystick_HID_Interface (x : USB_ClassInfo_HID_Device_t) (s : st) : st :=
  {| trace := trace s; USB_IsInitialized := USB_IsInitialized s;
     USB_DeviceState := USB_DeviceState s;
     USB_ControlRequest := USB_ControlRequest s;
     USB_Device_ConfigurationNumber := USB_Device_ConfigurationNumber s;
     USB_Device_CurrentlySelfPowered := USB_Device_CurrentlySelfPowered s;
     USB_Device_RemoteWakeupEnabled := USB_Device_RemoteWakeupEnabled s;
     Joystick_HID_Interface := x;
     PrevJoystickHIDReportBuffer := PrevJoystickHIDReportBuffer s;
     mask := mask s; saved := saved s;
     Class_Interfaces := Class_Interfaces s; Host := Host s |}.

Definition set_PrevJoystickHIDReportBuffer (x : bytes) (s : st) : st :=
  {| trace := trace s; USB_IsInitialized := USB_IsInitialized s;
     USB_DeviceState := USB_DeviceState s;
     USB_ControlRequest := USB_ControlRequest s;
     USB_Device_ConfigurationNumber := USB_Device_ConfigurationNumber s;
     USB_Device_CurrentlySelfPowered := USB_Device_CurrentlySelfPowered s;
     USB_Device_RemoteWakeupEnabled := USB_Device_RemoteWakeupEnabled s;
     Joystick_HID_Interface := Joystick_HID_Interface s;
     PrevJoystickHIDReportBuffer := x;
     mask := mask s; saved := saved s;
     Class_Interfaces := Class_Interfaces s; Host := Host s |}.

Definition set_saved (x : Z) (s : st) : st :=
  {| trace := trace s; USB_IsInitialized := USB_IsInitialized s;
     USB_DeviceState := USB_DeviceState s;
     USB_ControlRequest := USB_ControlRequest s;
     USB_Device_ConfigurationNumber := USB_Device_ConfigurationNumber s;
     USB_Device_CurrentlySelfPowered := USB_Device_CurrentlySelfPowered s;
     USB_Device_RemoteWakeupEnabled := USB_Device_RemoteWakeupEnabled s;
     Joystick_HID_Interface := Joystick_HID_Interface s;
     PrevJoystickHIDReportBuffer := PrevJoystickHIDReportBuffer s;
     mask := mask s; saved := x;
     Class_Interfaces := Class_Interfaces s; Host := Host s |}.

Definition set_Class_Interfaces (x : class_interfaces) (s : st) : st :=
  {| trace := trace s; USB_IsInitialized := USB_IsInitialized s;
     USB_DeviceState := USB_DeviceState s;
     USB_ControlRequest := USB_ControlRequest s;
     USB_Device_ConfigurationNumber := USB_Device_ConfigurationNumber s;
     USB_Device_CurrentlySelfPowered := USB_Device_CurrentlySelfPowered s;
     USB_Device_RemoteWakeupEnabled := USB_Device_RemoteWakeupEnabled s;
     Joystick_HID_Interface := Joystick_HID_Interface s;
     PrevJoystickHIDReportBuffer := PrevJoystickHIDReportBuffer s;
     mask := mask s; saved := saved s; Class_Interfaces := x; Host := Host s |}.

Definition set_Host (x : host_vars) (s : st) : st :=
  {| trace := trace s; USB_IsInitialized := USB_IsInitialized s;
     USB_DeviceState := USB_DeviceState s;
     USB_ControlRequest := USB_ControlRequest s;
     USB_Device_ConfigurationNumber := USB_Device_ConfigurationNumber s;
     USB_Device_CurrentlySelfPowered := USB_Device_CurrentlySelfPowered s;
     USB_Device_RemoteWakeupEnabled := USB_Device_RemoteWakeupEnabled s;
     Joystick_HID_Interface := Joystick_HID_Interface s;
     PrevJoystickHIDReportBuffer := PrevJoystickHIDReportBuffer s;
     mask := mask s; saved := saved s;
     Class_Interfaces := Class_Interfaces s; Host := x |}.

(** The address of an object with static storage. *)
Record address (A : Type) := { load : st -> A; store : A -> st -> st }.
Arguments load {A}.
Arguments store {A}.

(** ** The monad *)

Inductive outcome (A : Type) : Type :=
  | Done (a : A) (s : st)
  | OutOfFuel
  | Undefined.
Arguments Done {A} a s.
Arguments OutOfFuel {A}.
Arguments Undefined {A}.

Definition M (A : Type) : Type := st -> outcome A.

Definition ret {A} (a : A) : M A := fun s => Done a s.
Definition bind {A B} (m : M A) (k : A -> M B) : M B := fun s =>
  match m s with
  | Done a s' => k a s'
  | OutOfFuel => OutOfFuel
  | Undefined => Undefined
  end.

Declare Scope avr_scope.
Delimit Scope avr_scope with avr.
Notation "x ← y ; z" := (bind y (fun x : _ => z))
  (at level 20, y at level 100, z at level 200, only parsing) : avr_scope.
Notation "' x ← y ; z" := (bind y (fun x : _ => z))
  (at level 20, x pattern, y at level 100, z at level 200, only parsing) : avr_scope.
Notation "x ;; z" := (bind x (fun _ => z))
  (at level 100, z at level 200, only parsing, right associativity) : avr_scope.
Global Open Scope avr_scope.

(** An access the C standard leaves undefined. *)
Definition undefined {A} : M A := fun _ => Undefined.

(** Reading and assigning program variables. *)
Definition get {A} (f : st -> A) : M A := fun s => Done (f s) s.
Definition put (f : st -> st) : M unit := fun s => Done tt (f s).

(** [if (b) m] *)
Definition when (b : bool) (m : M unit) : M unit := if b then m else ret tt.

Class Env := {
  respond : list event -> reg -> Z;
  async : st -> st;
  fuel : nat
}.

(** The loop of a polling routine: [body] says whether to go round again with
    a new local state or to leave with a value. *)
Fixpoint loop {X A} (n : nat) (body : X -> M (X + A)) (x : X) : M A :=
  match n with
  | O => fun _ => OutOfFuel
  | S n => r ← body x; match r with inl x' => loop n body x' | inr a => ret a end
  end.

Section Access.
Context `{Env}.

(** A volatile read: pending interrupts are taken first. *)
Definition rd (r : reg) : M Z := fun s =>
  let s := async s in
  let v := respond (trace s) r in
  Done v (log (Rd r v) s).

Definition wr (r : reg) (v : Z) : M unit := fun s => Done tt (log (Wr r (u8 v)) s).

Definition emit (e : event) : M unit := fun s => Done tt (log e s).

(** [r |= (1 << n)] and [r &= ~m] *)
Definition reg_set (r : reg) (n : Z) : M unit := v ← rd r; wr r (set_bit v n).
Definition reg_clear (r : reg) (m : Z) : M unit := v ← rd r; wr r (clear_bits v m).

(** [(r & (1 << n)) ? true : false] *)
Definition reg_test (r : reg) (n : Z) : M bool := v ← rd r; ret (has_bit v n).

(** A read of a [volatile] variable that interrupt handlers assign. *)
Definition get_volatile {A} (f : st -> A) : M A := fun s =>
  let s := async s in Done (f s) s.

(** [while (!cond);] *)
Definition spin_until (cond : M bool) : M unit :=
  loop fuel (fun _ => b ← cond; ret (if b then inr tt else inl tt)) tt.
End Access.

(** ** Program logic

    [wp m Q s]: run from [s], [m] terminates without undefined behaviour in a
    state that satisfies [Q].  [wlp m Q s]: [m] has no undefined behaviour and
    if it terminates it satisfies [Q]. *)

Definition wp {A} (m : M A) (Q : A -> st -> Prop) (s : st) : Prop :=
  match m s with Done a s' => Q a s' | _ => False end.

Definition wlp {A} (m : M A) (Q : A -> st -> Prop) (s : st) : Prop :=
  match m s with Done a s' => Q a s' | OutOfFuel => True | Undefined => False end.

Lemma wp_wlp {A} (m : M A) Q s : wp m Q s -> wlp m Q s.
Proof. unfold wp, wlp. by destruct (m s). Qed.

Lemma wp_mono {A} (m : M A) (P Q : A -> st -> Prop) s :
  (forall a s', P a s' -> Q a s') -> wp m P s -> wp m Q s.
Proof. unfold wp. destruct (m s); auto. Qed.

Lemma wlp_mono {A} (m : M A) (P Q : A -> st -> Prop) s :
  (forall a s', P a s' -> Q a s') -> wlp m P s -> wlp m Q s.
Proof. unfold wlp. destruct (m s); auto. Qed.

Lemma wp_done {A} (m : M A) Q s : wp m Q s <-> exists a s', m s = Done a s' /\ Q a s'.
Proof.
  unfold wp. split.
  - destruct (m s) eqn:E; naive_solver.
  - by intros (a & s' & -> & ?).
Qed.

(** A computation that first terminates and then meets undefined behaviour. *)
Lemma undefined_after {A B} (m : M A) (k : A -> M B) s :
  wp m (fun a s' => k a s' = Undefined) s -> bind m k s = Undefined.
Proof. unfold wp, bind. destruct (m s); naive_solver. Qed.

(** A computation that first terminates and then goes on without end. *)
Lemma forever_after {A B} (m : M A) (k : A -> M B) s :
  wp m (fun a s' => k a s' = OutOfFuel) s -> bind m k s = OutOfFuel.
Proof. unfold wp, bind. destruct (m s); naive_solver. Qed.

Lemma forever_first {A B} (m : M A) (k : A -> M B) s : m s = OutOfFuel -> bind m k s = OutOfFuel.
Proof. unfold bind. by intros ->. Qed.

Lemma wp_ret {A} (a : A) Q s : wp (ret a) Q s <-> Q a s.
Proof. done. Qed.

Lemma wp_bind {A B} (m : M A) (k : A -> M B) Q s :
  wp (bind m k) Q s <-> wp m (fun a => wp (k a) Q) s.
Proof. unfold wp, bind. by destruct (m s). Qed.

Lemma wlp_ret {A} (a : A) Q s : wlp (ret a) Q s <-> Q a s.
Proof. done. Qed.

Lemma wlp_bind {A B} (m : M A) (k : A -> M B) Q s :
  wlp (bind m k) Q s <-> wlp m (fun a => wlp (k a) Q) s.
Proof. unfold wlp, bind. by destruct (m s). Qed.

Lemma wp_get {A} (f : st -> A) Q s : wp (get f) Q s <-> Q (f s) s.
Proof. done. Qed.

Lemma wp_put f Q s : wp (put f) Q s <-> Q tt (f s).
Proof. done. Qed.

Lemma wlp_get {A} (f : st -> A) Q s : wlp (get f) Q s <-> Q (f s) s.
Proof. done. Qed.

Lemma wlp_put f Q s : wlp (put f) Q s <-> Q tt (f s).
Proof. done. Qed.

(** A loop whose measure [n] decreases terminates if there is more fuel than
    the measure. *)
Lemma wp_loop {X A} (I : X -> nat -> st -> Prop) (body : X -> M (X + A)) Q :
  (forall x n s, I x n s ->
     wp (body x) (fun r s' => match r with
                              | inl x' => exists n', (n' < n)%nat /\ I x' n' s'
                              | inr a => Q a s'
                              end) s) ->
  forall f n x s, (n < f)%nat -> I x n s -> wp (loop f body x) Q s.
Proof.
  intros Hbody. induction f as [|f IH]; intros n x s Hn HI; [lia|].
  cbn [loop]. rewrite wp_bind. eapply wp_mono; [|by apply Hbody].
  intros [x'|a] s'; simpl; [|done]. intros (n' & ? & ?). apply (IH n'); [lia|done].
Qed.

Lemma wlp_loop {X A} (I : X -> st -> Prop) (body : X -> M (X + A)) Q :
  (forall x s, I x s ->
     wlp (body x) (fun r s' => match r with inl x' => I x' s' | inr a => Q a s' end) s) ->
  forall f x s, I x s -> wlp (loop f body x) Q s.
Proof.
  intros Hbody. induction f as [|f IH]; intros x s HI; [done|].
  cbn [loop]. rewrite wlp_bind. eapply wlp_mono; [|by apply Hbody].
  intros [x'|a] s'; simpl; auto.
Qed.

(** A loop whose body always goes round again, for every number of rounds. *)
Lemma loop_forever {X A} (I : X -> st -> Prop) (body : X -> M (X + A)) :
  (forall x s, I x s -> wp (body x) (fun r s' => match r with inl x' => I x' s' | inr _ => False end) s) ->
  forall n x s, I x s -> loop n body x s = OutOfFuel.
Proof.
  intros Hbody. induction n as [|n IH]; intros x s HI; [done|]. cbn [loop]. apply forever_after.
  eapply wp_mono; [|by apply Hbody]. intros [x'|a] s' HI'; [by apply IH|done].
Qed.

(** More fuel never changes a result. *)
Lemma loop_fuel_mono {X A} (body : X -> M (X + A)) f f' x s :
  (f <= f')%nat -> loop f body x s <> OutOfFuel -> loop f' body x s = loop f body x s.
Proof.
  revert f' x s. induction f as [|f IH]; intros f' x s Hle Hne; [done|].
  destruct f' as [|f']; [lia|]. cbn [loop] in *. unfold bind in *.
  destruct (body x s) as [[x'|a] s'| |]; try done. apply IH; [lia|done].
Qed.
