(* ===== verification/Rely.v ===== *)
(** * Reasoning about interrupted code

    The proofs about the endpoint code look at the trace through the accesses to
    the endpoint registers only ([ep_trace]); the accesses an interrupt handler
    makes to the device registers in between do not matter to them.  The class
    [Calm] is what they rely on: while the code runs, interrupt handlers touch
    no endpoint register and no variable but the idle counter that the
    start-of-frame event decrements.  [UsbInterrupt] shows that the interrupt
    handler keeps this promise as long as only start-of-frame interrupts are
    pending. *)
From S2P Require Import Prelude Machine.

Definition is_ep (r : reg) : bool :=
  match r with
  | UENUM | UEINTX | UECONX | UECFG0X | UECFG1X | UESTA0X | UEDATX
  | UEBCHX | UEBCLX | UEIENX | UERST | UEINT => true
  | _ => false
  end.

Definition ep_event (e : event) : bool :=
  match e with Rd r _ => is_ep r | Wr r _ => is_ep r | _ => false end.

Definition ep_trace (t : list event) : list event := filter (fun e => Is_true (ep_event e)) t.

(** The program variables without the idle counter. *)
Definition no_idle (h : USB_ClassInfo_HID_Device_t) : USB_ClassInfo_HID_Device_t :=
  {| HID_Config := HID_Config h;
     HID_State := {| UsingReportProtocol := UsingReportProtocol (HID_State h);
                     PrevFrameNum := PrevFrameNum (HID_State h);
                     IdleCount := IdleCount (HID_State h);
                     IdleMSRemaining := 0 |} |}.

Definition core (s : st) : st :=
  set_Joystick_HID_Interface (no_idle (Joystick_HID_Interface s)) (set_trace [] s).

(** [evolves l s s']: from [s] to [s'] the variables kept their values, accesses
    were added to the trace, and of these the endpoint accesses are [l] (newest
    first). *)
Definition evolves (l : list event) (s s' : st) : Prop :=
  core s' = core s /\ ep_trace (trace s') = l ++ ep_trace (trace s) /\
  suffix (trace s) (trace s').

Class Calm `{Env} : Prop := calm : forall s, evolves [] s (async s).

Lemma ep_trace_cons e t :
  ep_trace (e :: t) = if ep_event e then e :: ep_trace t else ep_trace t.
Proof. unfold ep_trace. rewrite filter_cons. by destruct (ep_event e). Qed.

Lemma evolves_refl s : evolves [] s s.
Proof. done. Qed.

Lemma evolves_trans l l' s s' s'' :
  evolves l s s' -> evolves l' s' s'' -> evolves (l' ++ l) s s''.
Proof.
  intros (? & ? & ?) (? & ? & ?). split; [congruence|]. split; [|by etrans].
  rewrite <- app_assoc. congruence.
Qed.

Lemma evolves_nil_l l s s' s'' : evolves l s s' -> evolves [] s' s'' -> evolves l s s''.
Proof. intros H H'. apply (evolves_trans _ _ _ _ _ H H'). Qed.

Lemma evolves_nil_r l s s' s'' : evolves [] s s' -> evolves l s' s'' -> evolves l s s''.
Proof. intros H H'. pose proof (evolves_trans _ _ _ _ _ H H') as E. by rewrite app_nil_r in E. Qed.

Lemma evolves_log e s : ep_event e = true -> evolves [e] s (log e s).
Proof.
  intros He. split; [done|]. cbn [trace log set_trace]. rewrite ep_trace_cons, He.
  split; [done|by exists [e]].
Qed.

Lemma evolves_log_other e s : ep_event e = false -> evolves [] s (log e s).
Proof.
  intros He. split; [done|]. cbn [trace log set_trace]. rewrite ep_trace_cons, He.
  split; [done|by exists [e]].
Qed.

Lemma evolves_DeviceState l s s' : evolves l s s' -> USB_DeviceState s' = USB_DeviceState s.
Proof. intros [H _]. apply (f_equal USB_DeviceState) in H. done. Qed.

Lemma evolves_ControlRequest l s s' : evolves l s s' -> USB_ControlRequest s' = USB_ControlRequest s.
Proof. intros [H _]. apply (f_equal USB_ControlRequest) in H. done. Qed.

Lemma evolves_trace l s s' : evolves l s s' -> ep_trace (trace s') = l ++ ep_trace (trace s).
Proof. by intros (_ & ? & _). Qed.

Lemma evolves_suffix l s s' : evolves l s s' -> suffix (trace s) (trace s').
Proof. by intros (_ & _ & ?). Qed.

(** Assigning a variable commutes with [evolves]. *)
Lemma evolves_set_ControlRequest l r s s' :
  evolves l s s' -> evolves l (set_USB_ControlRequest r s) (set_USB_ControlRequest r s').
Proof.
  intros [Hc Ht]. split; [|exact Ht].
  change (set_USB_ControlRequest r (core s') = set_USB_ControlRequest r (core s)). by rewrite Hc.
Qed.

Lemma evolves_set_Class_Interfaces l c s s' :
  evolves l s s' -> evolves l (set_Class_Interfaces c s) (set_Class_Interfaces c s').
Proof.
  intros [Hc Ht]. split; [|exact Ht].
  change (set_Class_Interfaces c (core s') = set_Class_Interfaces c (core s)). by rewrite Hc.
Qed.

Lemma evolves_Class_Interfaces l s s' : evolves l s s' -> Class_Interfaces s' = Class_Interfaces s.
Proof. intros [H _]. apply (f_equal Class_Interfaces) in H. done. Qed.

(** [recorded e s s']: the access [e] was made between [s] and [s']. *)
Definition recorded (e : event) (s s' : st) : Prop :=
  exists l, trace s' = l ++ trace s /\ e ∈ l.

Lemma recorded_suffix e s0 s s' s'' :
  recorded e s s' -> suffix (trace s0) (trace s) -> suffix (trace s') (trace s'') ->
  recorded e s0 s''.
Proof.
  intros (l & Hl & He) [l0 H0] [l1 H1]. exists (l1 ++ l ++ l0). split.
  - by rewrite H1, Hl, H0, !app_assoc.
  - rewrite !elem_of_app. auto.
Qed.

(** A value the controller may return for [r] after the endpoint accesses [l]. *)
Definition answer `{Env} (l : list event) (r : reg) (v : Z) : Prop :=
  exists t, ep_trace t = l /\ v = respond t r.

Section Rules.
Context `{Calm}.

Lemma wp_rd_ep r Q s :
  is_ep r = true ->
  (forall v s', evolves [Rd r v] s s' -> answer (ep_trace (trace s)) r v -> Q v s') ->
  wp (rd r) Q s.
Proof.
  intros Hr HQ. unfold rd, wp. pose proof (calm s) as Hc. apply HQ.
  - eapply evolves_nil_r; [exact Hc|]. by apply evolves_log.
  - exists (trace (async s)). split; [apply Hc|done].
Qed.

Lemma wp_wr_ep r v Q s :
  is_ep r = true -> (forall s', evolves [Wr r (u8 v)] s s' -> Q tt s') -> wp (wr r v) Q s.
Proof. intros Hr HQ. unfold wr, wp. apply HQ. by apply evolves_log. Qed.

(** A read of a register that is not an endpoint register. *)
Lemma evolves_rd r s :
  is_ep r = false -> evolves [] s (log (Rd r (respond (trace (async s)) r)) (async s)).
Proof. intros Hr. eapply evolves_nil_l; [apply calm|]. by apply evolves_log_other. Qed.

Lemma recorded_rd r s :
  recorded (Rd r (respond (trace (async s)) r)) s (log (Rd r (respond (trace (async s)) r)) (async s)).
Proof.
  destruct (evolves_suffix _ _ _ (calm s)) as [l Hl]. exists (Rd r (respond (trace (async s)) r) :: l).
  split; [cbn; by rewrite Hl|]. apply elem_of_cons. auto.
Qed.

Lemma wp_rd_other r Q s :
  is_ep r = false -> (forall v s', evolves [] s s' -> Q v s') -> wp (rd r) Q s.
Proof. intros Hr HQ. apply HQ. by apply evolves_rd. Qed.

Lemma wp_wr_other r v Q s :
  is_ep r = false -> (forall s', evolves [] s s' -> Q tt s') -> wp (wr r v) Q s.
Proof. intros Hr HQ. unfold wr, wp. apply HQ. by apply evolves_log_other. Qed.

Lemma wp_get_volatile {A} (f : st -> A) Q s :
  (forall s', evolves [] s s' -> Q (f s') s') -> wp (get_volatile f) Q s.
Proof. intros HQ. apply HQ, calm. Qed.

Lemma wp_reg_test r n Q s :
  is_ep r = true ->
  (forall v s', evolves [Rd r v] s s' -> answer (ep_trace (trace s)) r v -> Q (has_bit v n) s') ->
  wp (reg_test r n) Q s.
Proof. intros Hr HQ. unfold reg_test. rewrite wp_bind. by apply wp_rd_ep. Qed.

Lemma wp_reg_clear r m Q s :
  is_ep r = true ->
  (forall v s', evolves [Wr r (clear_bits v m); Rd r v] s s' ->
                answer (ep_trace (trace s)) r v -> Q tt s') ->
  wp (reg_clear r m) Q s.
Proof.
  intros Hr HQ. unfold reg_clear. rewrite wp_bind. apply wp_rd_ep; [done|].
  intros v s1 H1 Ha. apply wp_wr_ep; [done|]. intros s2 H2.
  unfold clear_bits in H2. rewrite wrap_wrap in H2.
  eapply HQ; [|exact Ha]. eapply (evolves_trans [_] [_]); eauto.
Qed.

(** The same rules relative to an earlier state [s0], for following the
    accesses of a whole transfer. *)
Lemma at_rd s0 l s r Q :
  evolves l s0 s -> is_ep r = true ->
  (forall v s', evolves (Rd r v :: l) s0 s' -> answer (l ++ ep_trace (trace s0)) r v -> Q v s') ->
  wp (rd r) Q s.
Proof.
  intros Hev Hr HQ. apply wp_rd_ep; [done|]. intros v s' Hev' Ha.
  rewrite (evolves_trace _ _ _ Hev) in Ha. apply HQ; [|done].
  by apply (evolves_trans _ [_] _ _ _ Hev).
Qed.

Lemma at_wr s0 l s r v Q :
  evolves l s0 s -> is_ep r = true ->
  (forall s', evolves (Wr r (u8 v) :: l) s0 s' -> Q tt s') -> wp (wr r v) Q s.
Proof.
  intros Hev Hr HQ. apply wp_wr_ep; [done|]. intros s' Hev'. apply HQ.
  by apply (evolves_trans _ [_] _ _ _ Hev).
Qed.

Lemma at_test s0 l s r n Q :
  evolves l s0 s -> is_ep r = true ->
  (forall v s', evolves (Rd r v :: l) s0 s' -> answer (l ++ ep_trace (trace s0)) r v ->
                Q (has_bit v n) s') ->
  wp (reg_test r n) Q s.
Proof. intros Hev Hr HQ. unfold reg_test. rewrite wp_bind. by eapply at_rd. Qed.

Lemma at_clear s0 l s r m Q :
  evolves l s0 s -> is_ep r = true ->
  (forall v s', evolves (Wr r (clear_bits v m) :: Rd r v :: l) s0 s' ->
                answer (l ++ ep_trace (trace s0)) r v -> Q tt s') ->
  wp (reg_clear r m) Q s.
Proof.
  intros Hev Hr HQ. apply wp_reg_clear; [done|]. intros v s' Hev' Ha.
  rewrite (evolves_trace _ _ _ Hev) in Ha. eapply HQ; [|done].
  by apply (evolves_trans _ [_; _] _ _ _ Hev).
Qed.

Lemma at_set s0 l s r n Q :
  evolves l s0 s -> is_ep r = true ->
  (forall v s', evolves (Wr r (set_bit v n) :: Rd r v :: l) s0 s' -> Q tt s') ->
  wp (reg_set r n) Q s.
Proof.
  intros Hev Hr HQ. unfold reg_set. rewrite wp_bind. eapply at_rd; [exact Hev|done|]. intros v s1 H1 _.
  eapply at_wr; [exact H1|done|]. intros s2 H2. unfold set_bit in H2 at 1.
  rewrite wrap_wrap in H2. by eapply HQ.
Qed.

Lemma at_volatile {A} s0 l s (f : st -> A) Q :
  evolves l s0 s -> (forall s', evolves l s0 s' -> Q (f s') s') -> wp (get_volatile f) Q s.
Proof. intros Hev HQ. apply wp_get_volatile. intros s' Hev'. eauto using evolves_nil_l. Qed.
End Rules.

(** ** Code that keeps the program variables

    [keeps m]: [m] terminates without undefined behaviour, leaves all program
    variables (but the idle counter) as they are, and only adds to the trace.  The hint database [keeps]
    follows the structure of the code. *)

Definition kept (s s' : st) : Prop := core s' = core s /\ suffix (trace s) (trace s').
Definition keeps {A} (m : M A) : Prop := forall s, wp m (fun _ s' => kept s s') s.

Lemma kept_refl s : kept s s.
Proof. by split. Qed.
Lemma kept_trans s1 s2 s3 : kept s1 s2 -> kept s2 s3 -> kept s1 s3.
Proof. intros [? ?] [? ?]. split; [congruence|by etrans]. Qed.
Lemma kept_log e s : kept s (log e s).
Proof. split; [done|by exists [e]]. Qed.
Lemma evolves_kept l s s' : evolves l s s' -> kept s s'.
Proof. by intros (? & _ & ?). Qed.

Create HintDb keeps.

Lemma keeps_ret {A} (a : A) : keeps (ret a).
Proof. intros s. apply kept_refl. Qed.

Lemma keeps_bind {A B} (m : M A) (k : A -> M B) :
  keeps m -> (forall a, keeps (k a)) -> keeps (bind m k).
Proof.
  intros Hm Hk s. rewrite wp_bind. eapply wp_mono; [|apply Hm]. intros a s1 H1.
  eapply wp_mono; [|apply Hk]. intros b s2 H2. exact (kept_trans _ _ _ H1 H2).
Qed.

Lemma keeps_get {A} (f : st -> A) : keeps (get f).
Proof. intros s. apply kept_refl. Qed.

Lemma keeps_when b m : keeps m -> keeps (when b m).
Proof. destruct b; [done|]. intros _. apply keeps_ret. Qed.

Lemma keeps_if {A} (b : bool) (m n : M A) : keeps m -> keeps n -> keeps (if b then m else n).
Proof. by destruct b. Qed.

Section Keeps.
Context `{Calm}.

Lemma keeps_rd r : keeps (rd r).
Proof.
  intros s. eapply kept_trans; [apply (evolves_kept []), calm|apply kept_log].
Qed.
Lemma keeps_wr r v : keeps (wr r v).
Proof. intros s. apply kept_log. Qed.
Lemma keeps_emit e : keeps (emit e).
Proof. intros s. apply kept_log. Qed.
Lemma keeps_get_volatile {A} (f : st -> A) : keeps (get_volatile f).
Proof. intros s. apply (evolves_kept []), calm. Qed.
Lemma keeps_reg_set r n : keeps (reg_set r n).
Proof. apply keeps_bind; [apply keeps_rd|intros; apply keeps_wr]. Qed.
Lemma keeps_reg_clear r m : keeps (reg_clear r m).
Proof. apply keeps_bind; [apply keeps_rd|intros; apply keeps_wr]. Qed.
Lemma keeps_reg_test r n : keeps (reg_test r n).
Proof. apply keeps_bind; [apply keeps_rd|intros; apply keeps_ret]. Qed.
End Keeps.

#[export] Hint Resolve keeps_ret keeps_get keeps_when keeps_if keeps_rd keeps_wr keeps_emit
  keeps_get_volatile keeps_reg_set keeps_reg_clear keeps_reg_test : keeps.
#[export] Hint Extern 2 (keeps (bind _ _)) => apply keeps_bind; [|intros] : keeps.
#[export] Hint Extern 0 (@Calm _) => typeclasses eauto : keeps.

(** ** Uninterrupted code

    Where the complete order of accesses matters, the code is followed with
    interrupts masked: [runs l s s'] says that exactly the accesses [l] (newest
    first) were made and the program variables are unchanged. *)

Class Masked `{Env} : Prop := masked : forall s, async s = s.

#[export] Instance masked_calm `{Masked} : Calm.
Proof. intros s. rewrite masked. apply evolves_refl. Qed.

Definition runs (l : list event) (s s' : st) : Prop := s' = set_trace (l ++ trace s) s.

Lemma runs_refl s : runs [] s s.
Proof. by destruct s. Qed.

Lemma runs_trans l l' s s' s'' : runs l s s' -> runs l' s' s'' -> runs (l' ++ l) s s''.
Proof. unfold runs. intros -> ->. cbn. by rewrite app_assoc. Qed.

Section Runs.
Context `{Masked}.

Lemma run_rd s0 l s r Q :
  runs l s0 s ->
  (forall v s', runs (Rd r v :: l) s0 s' -> v = respond (l ++ trace s0) r -> Q v s') ->
  wp (rd r) Q s.
Proof. intros -> HQ. unfold rd, wp. rewrite masked. by apply HQ. Qed.

Lemma run_wr s0 l s r v Q :
  runs l s0 s -> (forall s', runs (Wr r (u8 v) :: l) s0 s' -> Q tt s') -> wp (wr r v) Q s.
Proof. intros -> HQ. unfold wr, wp. by apply HQ. Qed.

Lemma run_test s0 l s r n Q :
  runs l s0 s ->
  (forall v s', runs (Rd r v :: l) s0 s' -> v = respond (l ++ trace s0) r -> Q (has_bit v n) s') ->
  wp (reg_test r n) Q s.
Proof. intros Hr HQ. unfold reg_test. rewrite wp_bind. by eapply run_rd. Qed.

Lemma run_clear s0 l s r m Q :
  runs l s0 s ->
  (forall v s', runs (Wr r (clear_bits v m) :: Rd r v :: l) s0 s' ->
     v = respond (l ++ trace s0) r -> Q tt s') ->
  wp (reg_clear r m) Q s.
Proof.
  intros Hr HQ. unfold reg_clear. rewrite wp_bind. eapply run_rd; [exact Hr|]. intros v s1 H1 Hv.
  eapply run_wr; [exact H1|]. intros s2 H2. unfold clear_bits in H2 at 1.
  rewrite wrap_wrap in H2. by eapply HQ.
Qed.

Lemma run_set s0 l s r n Q :
  runs l s0 s ->
  (forall v s', runs (Wr r (set_bit v n) :: Rd r v :: l) s0 s' ->
     v = respond (l ++ trace s0) r -> Q tt s') ->
  wp (reg_set r n) Q s.
Proof.
  intros Hr HQ. unfold reg_set. rewrite wp_bind. eapply run_rd; [exact Hr|]. intros v s1 H1 Hv.
  eapply run_wr; [exact H1|]. intros s2 H2. unfold set_bit in H2 at 1.
  rewrite wrap_wrap in H2. by eapply HQ.
Qed.

Lemma run_volatile {A} s0 l s (f : st -> A) Q :
  runs l s0 s -> Q (f s) s -> wp (get_volatile f) Q s.
Proof. intros _ HQ. unfold wp, get_volatile. by rewrite masked. Qed.
End Runs.
