(* ===== verification/CommonUtil.v ===== *)
(** * Common utilities

    [LUFA/Common/Common.h] and [Endianness.h]: bit reversal and byte order
    conversion. *)
From S2P Require Import Prelude.
From Stdlib Require Import Btauto.

Definition BitReverse (Byte : Z) : Z :=
  let Byte := u8 (Z.lor (Z.shiftr (Z.land Byte 0xF0) 4) (Z.shiftl (Z.land Byte 0x0F) 4)) in
  let Byte := u8 (Z.lor (Z.shiftr (Z.land Byte 0xCC) 2) (Z.shiftl (Z.land Byte 0x33) 2)) in
  u8 (Z.lor (Z.shiftr (Z.land Byte 0xAA) 1) (Z.shiftl (Z.land Byte 0x55) 1)).

Definition SWAPENDIAN_16 (x : Z) : Z :=
  u16 (Z.lor (Z.shiftr (Z.land x 0xFF00) 8) (Z.shiftl (Z.land x 0x00FF) 8)).
Definition SWAPENDIAN_32 (x : Z) : Z :=
  u32 (Z.lor (Z.lor (Z.lor (Z.shiftr (Z.land x 0xFF000000) 24) (Z.shiftr (Z.land x 0x00FF0000) 8))
                    (Z.shiftl (Z.land x 0x0000FF00) 8))
             (Z.shiftl (Z.land x 0x000000FF) 24)).

(** The union: the word's bytes are exchanged in place.  [compile_const] is
    [GCC_IS_COMPILE_CONST] of the argument. *)
Definition SwapEndian_16 (compile_const : bool) (Word : Z) : Z :=
  if compile_const then SWAPENDIAN_16 Word
  else
    let Data := le_bytes 2 Word in
    let Temp := nth 0 Data 0 in
    let Data := <[0%nat := nth 1 Data 0]> Data in
    let Data := <[1%nat := Temp]> Data in
    le_val Data.

Definition SwapEndian_32 (compile_const : bool) (DWord : Z) : Z :=
  if compile_const then SWAPENDIAN_32 DWord
  else
    let Data := le_bytes 4 DWord in
    let Temp := nth 0 Data 0 in
    let Data := <[0%nat := nth 3 Data 0]> Data in
    let Data := <[3%nat := Temp]> Data in
    let Temp := nth 1 Data 0 in
    let Data := <[1%nat := nth 2 Data 0]> Data in
    let Data := <[2%nat := Temp]> Data in
    le_val Data.

(** [while (Length > 1)]; [None] when the buffer is accessed out of bounds.
    [Length] falls by 2 in each round. *)
Fixpoint swap_bytes (n : nat) (Data : bytes) (CurrDataPos Length : nat) : option bytes :=
  if (Length <=? 1)%nat then Some Data
  else
    match n with
    | O => None
    | S n =>
        match Data !! CurrDataPos, Data !! (CurrDataPos + Length - 1)%nat with
        | Some Temp, Some last =>
            swap_bytes n (<[(CurrDataPos + Length - 1)%nat := Temp]> (<[CurrDataPos := last]> Data))
              (S CurrDataPos) (Length - 2)
        | _, _ => None
        end
    end.
Definition SwapEndian_n (Data : bytes) (Length : nat) : option bytes :=
  swap_bytes Length Data 0 Length.

(** ** Properties *)

(** The bytes below 256, for decision by evaluation. *)
Lemma byte_cases (P : Z -> bool) :
  forallb P (map Z.of_nat (seq 0 256)) = true -> forall b, is_u8 b -> P b = true.
Proof.
  intros Hall b [? ?]. rewrite forallb_forall in Hall. apply Hall.
  apply in_map_iff. exists (Z.to_nat b). split; [lia|]. apply in_seq. lia.
Qed.

(** [BitReverse] moves bit [i] of a byte to bit [7 - i], and is its own
    inverse. *)
Lemma BitReverse_correct b :
  is_u8 b ->
  (forall i, 0 <= i < 8 -> Z.testbit (BitReverse b) i = Z.testbit b (7 - i)) /\
  BitReverse (BitReverse b) = b.
Proof.
  intros Hb. split.
  - intros i Hi.
    pose proof (byte_cases (fun b => forallb (fun i => Bool.eqb (Z.testbit (BitReverse b) i)
      (Z.testbit b (7 - i))) [0; 1; 2; 3; 4; 5; 6; 7])) as Hc.
    specialize (Hc ltac:(vm_compute; reflexivity) b Hb). cbv beta in Hc.
    rewrite forallb_forall in Hc. apply eqb_prop, Hc. simpl. lia.
  - apply Z.eqb_eq. revert b Hb. apply byte_cases. vm_compute. reflexivity.
Qed.

Lemma insert_middle {A} (l1 l2 : list A) x y n :
  n = length l1 -> <[n := y]> (l1 ++ x :: l2) = l1 ++ y :: l2.
Proof. intros ->. rewrite insert_app_r_alt, Nat.sub_diag by lia. done. Qed.

(** A list of at least two elements has a first and a last one. *)
Lemma list_ends {A} (l : list A) :
  (2 <= length l)%nat -> exists x m y, l = x :: m ++ [y].
Proof.
  destruct l as [|x l]; cbn; [lia|]. intros Hl.
  destruct (exists_last (l := l)) as (m & y & ->); [by destruct l; cbn in Hl; [lia|]|].
  by exists x, m, y.
Qed.

Lemma swap_bytes_spec n : forall pre mid suf,
  (length mid <= n)%nat ->
  swap_bytes n (pre ++ mid ++ suf) (length pre) (length mid) = Some (pre ++ rev mid ++ suf).
Proof.
  induction n as [|n IH]; intros pre mid suf Hn.
  { by destruct mid; [|cbn in Hn; lia]. }
  destruct (Nat.leb_spec (length mid) 1) as [Hs|Hs].
  { destruct mid as [|x [|x' mid]]; [done..|cbn in Hs; lia]. }
  destruct (list_ends mid Hs) as (x & m & y & ->).
  cbn [length] in *. rewrite length_app in *. cbn [length] in *. rewrite Nat.add_1_r in *.
  cbn [swap_bytes Nat.leb].
  replace (pre ++ (x :: m ++ [y]) ++ suf) with (pre ++ x :: m ++ y :: suf)
    by (cbn; by rewrite <- app_assoc).
  replace (length pre + S (S (length m)) - 1)%nat with (length (pre ++ x :: m))
    by (rewrite length_app; cbn; lia).
  rewrite list_lookup_middle by done.
  replace (pre ++ x :: m ++ y :: suf) with ((pre ++ x :: m) ++ y :: suf) at 1
    by (by rewrite <- app_assoc).
  rewrite list_lookup_middle by done. rewrite insert_middle by done.
  replace (pre ++ y :: m ++ y :: suf) with ((pre ++ y :: m) ++ y :: suf) by (by rewrite <- app_assoc).
  rewrite insert_middle by (rewrite !length_app; done).
  replace (S (S (length m)) - 2)%nat with (length m) by lia.
  specialize (IH (pre ++ [y]) m (x :: suf)).
  rewrite length_app in IH. cbn [length] in IH. rewrite Nat.add_1_r in IH.
  rewrite <- app_assoc in *. cbn [app] in *. rewrite IH by lia. f_equal.
  rewrite <- app_assoc. cbn [app rev]. rewrite rev_app_distr. cbn [app rev].
  by rewrite <- app_assoc.
Qed.

(** [SwapEndian_n] on a buffer of [Length] bytes reverses it, without
    accessing anything outside of it. *)
Lemma SwapEndian_n_rev Data : SwapEndian_n Data (length Data) = Some (rev Data).
Proof.
  unfold SwapEndian_n. pose proof (swap_bytes_spec (length Data) [] Data []) as E.
  rewrite !app_nil_r in E. by apply E.
Qed.

(** Equality of words below [2 ^ n], compared bit by bit at each index. *)
Lemma fits_eq_bits n x y :
  fits (Z.of_nat n) x -> fits (Z.of_nat n) y ->
  Forall (fun i => Z.testbit x (Z.of_nat i) = Z.testbit y (Z.of_nat i)) (seq 0 n) -> x = y.
Proof.
  intros Hx Hy Hall. apply Z.bits_inj'. intros i Hi. destruct (decide (i < Z.of_nat n)).
  - rewrite Forall_forall in Hall. specialize (Hall (Z.to_nat i)).
    rewrite Z2Nat.id in Hall by lia. apply Hall, in_seq. lia.
  - by rewrite !(fits_testbit (Z.of_nat n)) by (done || lia).
Qed.

(** Evaluates the indices of the bits in the goal, and the bits of constants. *)
Ltac eval_bits :=
  repeat match goal with
  | |- context [Z.testbit ?x ?i] =>
      match eval vm_compute in (Z.testbit x i) with
      | true => change (Z.testbit x i) with true
      | false => change (Z.testbit x i) with false
      end
  | |- context [Z.testbit ?x ?i] =>
      let z := eval vm_compute in i in progress change (Z.testbit x i) with (Z.testbit x z)
  | |- context [?a <? ?b] =>
      match eval vm_compute in (a <? b) with
      | true => change (a <? b) with true
      | false => change (a <? b) with false
      end
  end.

Ltac bits_at_each_index :=
  repeat apply Forall_cons_2; [..|apply Forall_nil_2];
  autorewrite with bits; repeat (rewrite wrap_testbit by lia); autorewrite with bits; eval_bits;
  rewrite ?Z.testbit_neg_r by lia; btauto.

Lemma SWAPENDIAN_16_bytes w : is_u16 w -> SWAPENDIAN_16 w = le_val (rev (le_bytes 2 w)).
Proof.
  intros Hw. unfold SWAPENDIAN_16. cbn [le_bytes rev app le_val].
  apply (fits_eq_bits 16).
  - by apply wrap_fits.
  - apply (le_val_fits [_; _]). repeat constructor; by apply wrap_fits.
  - cbn [seq]. bits_at_each_index.
Qed.

Lemma SWAPENDIAN_32_bytes d : is_u32 d -> SWAPENDIAN_32 d = le_val (rev (le_bytes 4 d)).
Proof.
  intros Hd. unfold SWAPENDIAN_32. cbn [le_bytes rev app le_val].
  apply (fits_eq_bits 32).
  - by apply wrap_fits.
  - apply (le_val_fits [_; _; _; _]). repeat constructor; by apply wrap_fits.
  - cbn [seq]. bits_at_each_index.
Qed.

(** The run-time and the compile-time versions of the 16- and 32-bit byte
    order conversions compute the same value, that of the bytes in reverse
    order. *)
Lemma SwapEndian_agree w d c :
  is_u16 w -> is_u32 d ->
  SwapEndian_16 c w = le_val (rev (le_bytes 2 w)) /\
  SwapEndian_32 c d = le_val (rev (le_bytes 4 d)).
Proof.
  intros Hw Hd. unfold SwapEndian_16, SwapEndian_32.
  destruct c; [by rewrite SWAPENDIAN_16_bytes, SWAPENDIAN_32_bytes|]. by split.
Qed.
