(* ===== verification/Board.v ===== *)
(** * Board drivers

    [src/Board/LEDs.h], [Buttons.h] and [Joystick.h]. *)
From S2P Require Import Prelude Machine Rely.

Module LEDs.
Section LEDs.
Context `{Env}.

Definition LEDS_LED1 := Z.shiftl 1 6.
Definition LEDS_LED2 := 0.
Definition LEDS_LED3 := 0.
Definition LEDS_LED4 := 0.
Definition LEDS_ALL_LEDS := Z.lor (Z.lor (Z.lor LEDS_LED1 LEDS_LED2) LEDS_LED3) LEDS_LED4.
Definition LEDS_NO_LEDS := 0.

Definition LEDs_Init : M unit := wr DDRE 0xFF.
Definition LEDs_Disable : M unit := wr DDRE 0x0.
Definition LEDs_TurnOnLEDs (LEDMask : Z) : M unit := v ← rd PORTE; wr PORTE (Z.lor v LEDMask).
Definition LEDs_TurnOffLEDs (LEDMask : Z) : M unit :=
  v ← rd PORTE; wr PORTE (Z.land v (Z.lnot LEDMask)).
Definition LEDs_SetAllLEDs (LEDMask : Z) : M unit := wr PORTE 0xFF.
Definition LEDs_ChangeLEDs (LEDMask ActiveMask : Z) : M unit := ret tt.
Definition LEDs_ToggleLEDs (LEDMask : Z) : M unit :=
  v ← rd PORTE;
  let fixed_value := Z.land v (Z.lnot LEDMask) in
  v ← rd PORTE;
  let moving_value := Z.land v LEDMask in
  let moving_value := Z.lnot moving_value in
  wr PORTE (Z.lor moving_value fixed_value).
Definition LEDs_GetLEDs : M Z := rd PORTE.
End LEDs.
End LEDs.

Module Buttons.
Section Buttons.
Context `{Env}.

Definition BUTTONS_BUTTON1 := 0.
Definition Buttons_Init : M unit :=
  wr DDRB 0x00 ;; wr DDRD 0xFF ;; wr DDRF 0xFF ;;
  wr PORTB 0xFF ;; wr PORTD 0xFF ;; wr PORTF 0xFF.
Definition Buttons_Disable : M unit := ret tt.
Definition Buttons_GetStatus : M Z :=
  d ← rd PIND; b ← rd PINB; ret (u16 (Z.lor (Z.shiftl d 8) b)).
End Buttons.
End Buttons.

Module JoystickBoard.
Definition Joystick_Init : M unit := ret tt.
Definition Joystick_Disable : M unit := ret tt.
Definition Joystick_GetStatus : M Z := ret 0.
End JoystickBoard.

(** ** The LED port

    Each routine that changes single LEDs reads the port and writes it back. *)
Section LedProofs.
Context `{Masked}.
Import LEDs.

Lemma port_bit v i : 0 <= i < 8 -> Z.testbit (u8 v) i = Z.testbit v i.
Proof. intros Hi. rewrite wrap_testbit by lia. by destruct (Z.ltb_spec i 8); [|lia]. Qed.

(** Turning LEDs on and off changes exactly the masked pins: the value written
    to port E has the masked bits set (or clear) and the other bits as they were
    read. *)
Lemma LEDs_TurnOnOff LEDMask s :
  wp (LEDs_TurnOnLEDs LEDMask ;; LEDs_TurnOffLEDs LEDMask) (fun _ s' => exists v on v' off,
    runs [Wr PORTE off; Rd PORTE v'; Wr PORTE on; Rd PORTE v] s s' /\
    (forall i, 0 <= i < 8 -> Z.testbit on i = Z.testbit LEDMask i || Z.testbit v i) /\
    (forall i, 0 <= i < 8 -> Z.testbit off i = negb (Z.testbit LEDMask i) && Z.testbit v' i)) s.
Proof.
  unfold LEDs_TurnOnLEDs, LEDs_TurnOffLEDs. rewrite !wp_bind.
  eapply run_rd; [apply runs_refl|]. intros v s1 Hr1 _.
  eapply run_wr; [exact Hr1|]. intros s2 Hr2. rewrite wp_bind.
  eapply run_rd; [exact Hr2|]. intros v' s3 Hr3 _.
  eapply run_wr; [exact Hr3|]. intros s4 Hr4.
  exists v, (u8 (Z.lor v LEDMask)), v', (u8 (Z.land v' (Z.lnot LEDMask))). split; [exact Hr4|].
  split; intros i Hi; rewrite port_bit by done.
  - by rewrite Z.lor_spec, orb_comm.
  - by rewrite Z.land_spec, Z.lnot_spec, andb_comm by lia.
Qed.

(** Toggling LEDs disturbs the other pins: the masked pins are complemented, but
    every pin outside of the mask is driven high, whatever it was. *)
Lemma LEDs_ToggleLEDs_sets_others LEDMask s :
  wp (LEDs_ToggleLEDs LEDMask) (fun _ s' => exists v v' w,
    runs [Wr PORTE w; Rd PORTE v'; Rd PORTE v] s s' /\
    forall i, 0 <= i < 8 -> Z.testbit w i =
      if Z.testbit LEDMask i then negb (Z.testbit v' i) else true) s.
Proof.
  unfold LEDs_ToggleLEDs. rewrite wp_bind.
  eapply run_rd; [apply runs_refl|]. intros v s1 Hr1 _. cbv zeta. rewrite wp_bind.
  eapply run_rd; [exact Hr1|]. intros v' s2 Hr2 _.
  eapply run_wr; [exact Hr2|]. intros s3 Hr3. exists v, v'. eexists. split; [exact Hr3|].
  intros i Hi. rewrite port_bit, Z.lor_spec, Z.lnot_spec, !Z.land_spec, Z.lnot_spec by lia.
  by destruct (Z.testbit LEDMask i), (Z.testbit v i), (Z.testbit v' i).
Qed.
End LedProofs.
