(* ===== verification/StdDescriptors.v ===== *)
(** * Standard and HID descriptors

    The packed descriptor structures of [LUFA/Drivers/USB/Core/StdDescriptors.h]
    and [LUFA/Drivers/USB/Class/Common/HIDClassCommon.h], their constants, and
    their storage: [bytes_of_*] is the byte image of a structure in memory
    ([ATTR_PACKED], little endian), so [sizeof] is the length of that image. *)
From S2P Require Import Prelude.
From stdpp Require Import strings.
From Stdlib Require Import Ascii.
Local Open Scope Z_scope.

(** ** Constants *)

Definition NO_DESCRIPTOR := 0.
Definition LANGUAGE_ID_ENG := 0x0409.
Definition USB_CONFIG_ATTR_RESERVED := 0x80.
Definition USB_CONFIG_ATTR_SELFPOWERED := 0x40.
Definition USB_CONFIG_ATTR_REMOTEWAKEUP := 0x20.
Definition ENDPOINT_ATTR_NO_SYNC := Z.shiftl 0 2.
Definition ENDPOINT_USAGE_DATA := Z.shiftl 0 4.

Definition USB_CONFIG_POWER_MA (mA : Z) : Z := Z.shiftr mA 1.

(** [VERSION_BCD]: the target is little endian, so [CPU_TO_LE16] is the
    identity. *)
Definition VERSION_BCD (Major Minor Revision : Z) : Z :=
  Z.lor (Z.lor (Z.shiftl (Z.land Major 0xFF) 8) (Z.shiftl (Z.land Minor 0x0F) 4))
        (Z.land Revision 0x0F).

(** [enum USB_DescriptorTypes_t] *)
Definition DTYPE_Device := 0x01.
Definition DTYPE_Configuration := 0x02.
Definition DTYPE_String := 0x03.
Definition DTYPE_Interface := 0x04.
Definition DTYPE_Endpoint := 0x05.

(** [enum HID_DescriptorTypes_t] *)
Definition HID_DTYPE_HID := 0x21.
Definition HID_DTYPE_Report := 0x22.

(** [enum USB_Descriptor_ClassSubclassProtocol_t],
    [enum HID_Descriptor_ClassSubclassProtocol_t] *)
Definition USB_CSCP_NoDeviceClass := 0x00.
Definition USB_CSCP_NoDeviceSubclass := 0x00.
Definition USB_CSCP_NoDeviceProtocol := 0x00.
Definition HID_CSCP_HIDClass := 0x03.
Definition HID_CSCP_NonBootSubclass := 0x00.
Definition HID_CSCP_NonBootProtocol := 0x00.

(** ** Structures *)

Record USB_Descriptor_Header_t := {
  hdr_Size : Z;
  hdr_Type : Z
}.

Record USB_Descriptor_Device_t := {
  dev_Header : USB_Descriptor_Header_t;
  dev_USBSpecification : Z;
  dev_Class : Z;
  dev_SubClass : Z;
  dev_Protocol : Z;
  dev_Endpoint0Size : Z;
  dev_VendorID : Z;
  dev_ProductID : Z;
  dev_ReleaseNumber : Z;
  dev_ManufacturerStrIndex : Z;
  dev_ProductStrIndex : Z;
  dev_SerialNumStrIndex : Z;
  dev_NumberOfConfigurations : Z
}.

Record USB_Descriptor_Configuration_Header_t := {
  cfg_Header : USB_Descriptor_Header_t;
  cfg_TotalConfigurationSize : Z;
  cfg_TotalInterfaces : Z;
  cfg_ConfigurationNumber : Z;
  cfg_ConfigurationStrIndex : Z;
  cfg_ConfigAttributes : Z;
  cfg_MaxPowerConsumption : Z
}.

Record USB_Descriptor_Interface_t := {
  itf_Header : USB_Descriptor_Header_t;
  itf_InterfaceNumber : Z;
  itf_AlternateSetting : Z;
  itf_TotalEndpoints : Z;
  itf_Class : Z;
  itf_SubClass : Z;
  itf_Protocol : Z;
  itf_InterfaceStrIndex : Z
}.

Record USB_HID_Descriptor_HID_t := {
  hid_Header : USB_Descriptor_Header_t;
  hid_HIDSpec : Z;
  hid_CountryCode : Z;
  hid_TotalReportDescriptors : Z;
  hid_HIDReportType : Z;
  hid_HIDReportLength : Z
}.

Record USB_Descriptor_Endpoint_t := {
  epd_Header : USB_Descriptor_Header_t;
  epd_EndpointAddress : Z;
  epd_Attributes : Z;
  epd_EndpointSize : Z;
  epd_PollingIntervalMS : Z
}.

Record USB_Descriptor_String_t := {
  str_Header : USB_Descriptor_Header_t;
  str_UnicodeString : list Z
}.

(** ** Storage *)

Abbreviation b8 := (le_bytes 1).
Abbreviation b16 := (le_bytes 2).
Abbreviation b32 := (le_bytes 4).

Definition bytes_of_Header (h : USB_Descriptor_Header_t) : bytes :=
  b8 (hdr_Size h) ++ b8 (hdr_Type h).

Definition bytes_of_Device (d : USB_Descriptor_Device_t) : bytes :=
  bytes_of_Header (dev_Header d) ++ b16 (dev_USBSpecification d) ++
  b8 (dev_Class d) ++ b8 (dev_SubClass d) ++ b8 (dev_Protocol d) ++
  b8 (dev_Endpoint0Size d) ++ b16 (dev_VendorID d) ++ b16 (dev_ProductID d) ++
  b16 (dev_ReleaseNumber d) ++ b8 (dev_ManufacturerStrIndex d) ++
  b8 (dev_ProductStrIndex d) ++ b8 (dev_SerialNumStrIndex d) ++
  b8 (dev_NumberOfConfigurations d).

Definition bytes_of_Configuration_Header (c : USB_Descriptor_Configuration_Header_t) : bytes :=
  bytes_of_Header (cfg_Header c) ++ b16 (cfg_TotalConfigurationSize c) ++
  b8 (cfg_TotalInterfaces c) ++ b8 (cfg_ConfigurationNumber c) ++
  b8 (cfg_ConfigurationStrIndex c) ++ b8 (cfg_ConfigAttributes c) ++
  b8 (cfg_MaxPowerConsumption c).

Definition bytes_of_Interface (i : USB_Descriptor_Interface_t) : bytes :=
  bytes_of_Header (itf_Header i) ++ b8 (itf_InterfaceNumber i) ++
  b8 (itf_AlternateSetting i) ++ b8 (itf_TotalEndpoints i) ++ b8 (itf_Class i) ++
  b8 (itf_SubClass i) ++ b8 (itf_Protocol i) ++ b8 (itf_InterfaceStrIndex i).

Definition bytes_of_HID (h : USB_HID_Descriptor_HID_t) : bytes :=
  bytes_of_Header (hid_Header h) ++ b16 (hid_HIDSpec h) ++ b8 (hid_CountryCode h) ++
  b8 (hid_TotalReportDescriptors h) ++ b8 (hid_HIDReportType h) ++
  b16 (hid_HIDReportLength h).

Definition bytes_of_Endpoint (e : USB_Descriptor_Endpoint_t) : bytes :=
  bytes_of_Header (epd_Header e) ++ b8 (epd_EndpointAddress e) ++
  b8 (epd_Attributes e) ++ b16 (epd_EndpointSize e) ++ b8 (epd_PollingIntervalMS e).

Definition bytes_of_String (d : USB_Descriptor_String_t) : bytes :=
  bytes_of_Header (str_Header d) ++ concat (map b16 (str_UnicodeString d)).

(** [sizeof] of each structure. *)
Definition sizeof_Header := 2.
Definition sizeof_Device := 18.
Definition sizeof_Configuration_Header := 9.
Definition sizeof_Interface := 9.
Definition sizeof_HID := 9.
Definition sizeof_Endpoint := 7.

(** ** String descriptors *)

Definition USB_STRING_LEN (UnicodeChars : Z) : Z := sizeof_Header + Z.shiftl UnicodeChars 1.

(** The [wchar_t] array of a wide string literal, terminator included;
    [wchar_t] is two bytes wide on the target. *)
Definition wide_literal (s : string) : list Z :=
  map (fun c => Z.of_N (N_of_ascii c)) (String.list_ascii_of_string s) ++ [0].

Definition USB_STRING_DESCRIPTOR (s : list Z) : USB_Descriptor_String_t :=
  {| str_Header := {| hdr_Size := sizeof_Header + (2 * Z.of_nat (length s) - 2);
                      hdr_Type := DTYPE_String |};
     str_UnicodeString := s |}.

(** [sizeof((uint16_t){...})] is the size of one [uint16_t], whatever the
    number of elements. *)
Definition USB_STRING_DESCRIPTOR_ARRAY (l : list Z) : USB_Descriptor_String_t :=
  {| str_Header := {| hdr_Size := sizeof_Header + 2; hdr_Type := DTYPE_String |};
     str_UnicodeString := l |}.

Lemma length_bytes_of_Device d : Z.of_nat (length (bytes_of_Device d)) = sizeof_Device.
Proof. unfold bytes_of_Device, bytes_of_Header. by rewrite !length_app, !length_le_bytes. Qed.

Lemma length_bytes_of_Configuration_Header c :
  Z.of_nat (length (bytes_of_Configuration_Header c)) = sizeof_Configuration_Header.
Proof.
  unfold bytes_of_Configuration_Header, bytes_of_Header. by rewrite !length_app, !length_le_bytes.
Qed.

Lemma length_bytes_of_Interface i :
  Z.of_nat (length (bytes_of_Interface i)) = sizeof_Interface.
Proof. unfold bytes_of_Interface, bytes_of_Header. by rewrite !length_app, !length_le_bytes. Qed.

Lemma length_bytes_of_HID h : Z.of_nat (length (bytes_of_HID h)) = sizeof_HID.
Proof. unfold bytes_of_HID, bytes_of_Header. by rewrite !length_app, !length_le_bytes. Qed.

Lemma length_bytes_of_Endpoint e :
  Z.of_nat (length (bytes_of_Endpoint e)) = sizeof_Endpoint.
Proof. unfold bytes_of_Endpoint, bytes_of_Header. by rewrite !length_app, !length_le_bytes. Qed.
