(* ===== verification/HIDReportData.v ===== *)
(** * HID report descriptor items

    The item macros of [LUFA/Drivers/USB/Class/Common/HIDReportData.h].  A
    macro invocation such as [HID_RI_USAGE(8, 0x04)] expands to a comma
    separated list of byte initialisers; here it is the list of those bytes. *)
From S2P Require Import Prelude.

Definition HID_RI_DATA_SIZE_MASK := 0x03.
Definition HID_RI_TYPE_MASK := 0x0C.
Definition HID_RI_TAG_MASK := 0xF0.

Definition HID_RI_TYPE_MAIN := 0x00.
Definition HID_RI_TYPE_GLOBAL := 0x04.
Definition HID_RI_TYPE_LOCAL := 0x08.

(** The [DataBits] argument of the macros: the tokens 0, 8, 16 and 32. *)
Inductive databits : Set := Bits0 | Bits8 | Bits16 | Bits32.

#[global] Instance databits_eq_dec : EqDecision databits.
Proof. solve_decision. Defined.

Definition HID_RI_DATA_BITS_0 := 0x00.
Definition HID_RI_DATA_BITS_8 := 0x01.
Definition HID_RI_DATA_BITS_16 := 0x02.
Definition HID_RI_DATA_BITS_32 := 0x03.
Definition HID_RI_DATA_BITS (b : databits) : Z :=
  match b with
  | Bits0 => HID_RI_DATA_BITS_0
  | Bits8 => HID_RI_DATA_BITS_8
  | Bits16 => HID_RI_DATA_BITS_16
  | Bits32 => HID_RI_DATA_BITS_32
  end.

Definition HID_RI_ENCODE_8 (Data : Z) : bytes := [u8 (Z.land Data 0xFF)].
Definition HID_RI_ENCODE_16 (Data : Z) : bytes :=
  HID_RI_ENCODE_8 Data ++ HID_RI_ENCODE_8 (Z.shiftr Data 8).
Definition HID_RI_ENCODE_32 (Data : Z) : bytes :=
  HID_RI_ENCODE_16 Data ++ HID_RI_ENCODE_16 (Z.shiftr Data 16).
Definition HID_RI_ENCODE (b : databits) (Data : Z) : bytes :=
  match b with
  | Bits0 => []
  | Bits8 => HID_RI_ENCODE_8 Data
  | Bits16 => HID_RI_ENCODE_16 Data
  | Bits32 => HID_RI_ENCODE_32 Data
  end.

Definition HID_RI_ENTRY (Type_ Tag : Z) (b : databits) (Data : Z) : bytes :=
  Z.lor (Z.lor Type_ Tag) (HID_RI_DATA_BITS b) :: HID_RI_ENCODE b Data.

(** Item flags *)
Definition HID_IOF_CONSTANT := Z.shiftl 1 0.
Definition HID_IOF_DATA := Z.shiftl 0 0.
Definition HID_IOF_VARIABLE := Z.shiftl 1 1.
Definition HID_IOF_ABSOLUTE := Z.shiftl 0 2.
Definition HID_IOF_NON_VOLATILE := Z.shiftl 0 7.

Definition HID_RI_INPUT := HID_RI_ENTRY HID_RI_TYPE_MAIN 0x80.
Definition HID_RI_OUTPUT := HID_RI_ENTRY HID_RI_TYPE_MAIN 0x90.
Definition HID_RI_COLLECTION := HID_RI_ENTRY HID_RI_TYPE_MAIN 0xA0.
Definition HID_RI_FEATURE := HID_RI_ENTRY HID_RI_TYPE_MAIN 0xB0.
Definition HID_RI_END_COLLECTION := HID_RI_ENTRY HID_RI_TYPE_MAIN 0xC0.
Definition HID_RI_USAGE_PAGE := HID_RI_ENTRY HID_RI_TYPE_GLOBAL 0x00.
Definition HID_RI_LOGICAL_MINIMUM := HID_RI_ENTRY HID_RI_TYPE_GLOBAL 0x10.
Definition HID_RI_LOGICAL_MAXIMUM := HID_RI_ENTRY HID_RI_TYPE_GLOBAL 0x20.
Definition HID_RI_PHYSICAL_MINIMUM := HID_RI_ENTRY HID_RI_TYPE_GLOBAL 0x30.
Definition HID_RI_PHYSICAL_MAXIMUM := HID_RI_ENTRY HID_RI_TYPE_GLOBAL 0x40.
Definition HID_RI_UNIT_EXPONENT := HID_RI_ENTRY HID_RI_TYPE_GLOBAL 0x50.
Definition HID_RI_UNIT := HID_RI_ENTRY HID_RI_TYPE_GLOBAL 0x60.
Definition HID_RI_REPORT_SIZE := HID_RI_ENTRY HID_RI_TYPE_GLOBAL 0x70.
Definition HID_RI_REPORT_ID := HID_RI_ENTRY HID_RI_TYPE_GLOBAL 0x80.
Definition HID_RI_REPORT_COUNT := HID_RI_ENTRY HID_RI_TYPE_GLOBAL 0x90.
Definition HID_RI_PUSH := HID_RI_ENTRY HID_RI_TYPE_GLOBAL 0xA0.
Definition HID_RI_POP := HID_RI_ENTRY HID_RI_TYPE_GLOBAL 0xB0.
Definition HID_RI_USAGE := HID_RI_ENTRY HID_RI_TYPE_LOCAL 0x00.
Definition HID_RI_USAGE_MINIMUM := HID_RI_ENTRY HID_RI_TYPE_LOCAL 0x10.
Definition HID_RI_USAGE_MAXIMUM := HID_RI_ENTRY HID_RI_TYPE_LOCAL 0x20.

(** The parser's [case HID_RI_...(0):] labels: with no data the macro is the
    single byte holding type and tag. *)
Definition item_code (entry : databits -> Z -> bytes) : Z := hd 0 (entry Bits0 0).

Definition RI_INPUT := item_code HID_RI_INPUT.
Definition RI_OUTPUT := item_code HID_RI_OUTPUT.
Definition RI_COLLECTION := item_code HID_RI_COLLECTION.
Definition RI_FEATURE := item_code HID_RI_FEATURE.
Definition RI_END_COLLECTION := item_code HID_RI_END_COLLECTION.
Definition RI_USAGE_PAGE := item_code HID_RI_USAGE_PAGE.
Definition RI_LOGICAL_MINIMUM := item_code HID_RI_LOGICAL_MINIMUM.
Definition RI_LOGICAL_MAXIMUM := item_code HID_RI_LOGICAL_MAXIMUM.
Definition RI_PHYSICAL_MINIMUM := item_code HID_RI_PHYSICAL_MINIMUM.
Definition RI_PHYSICAL_MAXIMUM := item_code HID_RI_PHYSICAL_MAXIMUM.
Definition RI_UNIT_EXPONENT := item_code HID_RI_UNIT_EXPONENT.
Definition RI_UNIT := item_code HID_RI_UNIT.
Definition RI_REPORT_SIZE := item_code HID_RI_REPORT_SIZE.
Definition RI_REPORT_ID := item_code HID_RI_REPORT_ID.
Definition RI_REPORT_COUNT := item_code HID_RI_REPORT_COUNT.
Definition RI_PUSH := item_code HID_RI_PUSH.
Definition RI_POP := item_code HID_RI_POP.
Definition RI_USAGE := item_code HID_RI_USAGE.
Definition RI_USAGE_MINIMUM := item_code HID_RI_USAGE_MINIMUM.
Definition RI_USAGE_MAXIMUM := item_code HID_RI_USAGE_MAXIMUM.
