(* ===== verification/Descriptors.v ===== *)
(** * Descriptors of the device

    [src/descriptors.c] and [src/descriptors.h]: the report descriptor, the
    device, configuration and string descriptors in FLASH, and
    [CALLBACK_USB_GetDescriptor].  FLASH objects are named by [flash_object];
    an address is an object and a byte offset into it. *)
From S2P Require Import Prelude StdDescriptors HIDReportData.
From stdpp Require Import strings.
Local Open Scope Z_scope.

(** ** Constants of the configuration: [src/LUFAConfig.h], [src/descriptors.h] *)

Definition FIXED_CONTROL_ENDPOINT_SIZE := 8.
Definition FIXED_NUM_CONFIGURATIONS := 1.

Definition ENDPOINT_DIR_OUT := 0x00.
Definition ENDPOINT_DIR_IN := 0x80.
Definition EP_TYPE_CONTROL := 0x00.
Definition EP_TYPE_ISOCHRONOUS := 0x01.
Definition EP_TYPE_BULK := 0x02.
Definition EP_TYPE_INTERRUPT := 0x03.

Definition INTERFACE_ID_Joystick := 0.
Definition STRING_ID_Language := 0.
Definition STRING_ID_Manufacturer := 1.
Definition STRING_ID_Product := 2.
Definition JOYSTICK_IN_EPADDR := Z.lor ENDPOINT_DIR_IN 1.
Definition JOYSTICK_IN_EPSIZE := 32.

(** ** The HID report descriptor *)

Definition MinAxisVal := -127.
Definition MaxAxisVal := 127.
Definition MinPhysicalVal := -1.
Definition MaxPhysicalVal := 1.
Definition Buttons := 32.

Definition JoystickReport : bytes :=
  HID_RI_USAGE_PAGE Bits8 0x01 ++
  HID_RI_USAGE Bits8 0x04 ++
  HID_RI_COLLECTION Bits8 0x01 ++
    HID_RI_USAGE Bits8 0x01 ++
    (* Axes *)
    HID_RI_COLLECTION Bits8 0x00 ++
      HID_RI_USAGE Bits8 0x30 ++ (* X *)
      HID_RI_USAGE Bits8 0x31 ++ (* Y *)
      HID_RI_USAGE Bits8 0x32 ++ (* Z *)
      HID_RI_USAGE Bits8 0x33 ++ (* RX *)
      HID_RI_USAGE Bits8 0x34 ++ (* RY *)
      HID_RI_USAGE Bits8 0x35 ++ (* RZ *)
      HID_RI_LOGICAL_MINIMUM Bits16 MinAxisVal ++
      HID_RI_LOGICAL_MAXIMUM Bits16 MaxAxisVal ++
      HID_RI_PHYSICAL_MINIMUM Bits16 MinPhysicalVal ++
      HID_RI_PHYSICAL_MAXIMUM Bits16 MaxPhysicalVal ++
      HID_RI_REPORT_COUNT Bits8 6 ++
      HID_RI_REPORT_SIZE Bits8 8 ++
      HID_RI_INPUT Bits8 (Z.lor (Z.lor HID_IOF_DATA HID_IOF_VARIABLE) HID_IOF_ABSOLUTE) ++
    HID_RI_END_COLLECTION Bits0 0 ++
    (* Buttons *)
    HID_RI_USAGE_PAGE Bits8 0x09 ++
    HID_RI_USAGE_MINIMUM Bits8 0x01 ++
    HID_RI_USAGE_MAXIMUM Bits8 0x02 ++
    HID_RI_LOGICAL_MINIMUM Bits8 0x00 ++
    HID_RI_LOGICAL_MAXIMUM Bits8 0x01 ++
    HID_RI_REPORT_SIZE Bits8 1 ++
    HID_RI_REPORT_COUNT Bits8 Buttons ++
    HID_RI_INPUT Bits8 (Z.lor (Z.lor HID_IOF_DATA HID_IOF_VARIABLE) HID_IOF_ABSOLUTE) ++
    (* Padding *)
    HID_RI_REPORT_SIZE Bits8 8 ++
    HID_RI_REPORT_COUNT Bits8 24 ++
    HID_RI_INPUT Bits8 HID_IOF_CONSTANT ++
    (* HOST OUT data *)
    HID_RI_USAGE Bits8 0x01 ++
    HID_RI_REPORT_SIZE Bits8 0x08 ++
    HID_RI_REPORT_COUNT Bits8 64 ++
    HID_RI_OUTPUT Bits8
      (Z.lor (Z.lor (Z.lor HID_IOF_DATA HID_IOF_VARIABLE) HID_IOF_ABSOLUTE) HID_IOF_NON_VOLATILE) ++
  HID_RI_END_COLLECTION Bits0 0.

Definition sizeof_JoystickReport : Z := Z.of_nat (length JoystickReport).

(** ** Device, configuration and string descriptors *)

Definition DeviceDescriptor : USB_Descriptor_Device_t :=
  {| dev_Header := {| hdr_Size := sizeof_Device; hdr_Type := DTYPE_Device |};
     dev_USBSpecification := VERSION_BCD 1 1 0;
     dev_Class := USB_CSCP_NoDeviceClass;
     dev_SubClass := USB_CSCP_NoDeviceSubclass;
     dev_Protocol := USB_CSCP_NoDeviceProtocol;
     dev_Endpoint0Size := FIXED_CONTROL_ENDPOINT_SIZE;
     dev_VendorID := 0x1337;
     dev_ProductID := 0xBEEF;
     dev_ReleaseNumber := VERSION_BCD 0 0 1;
     dev_ManufacturerStrIndex := STRING_ID_Manufacturer;
     dev_ProductStrIndex := STRING_ID_Product;
     dev_SerialNumStrIndex := NO_DESCRIPTOR;
     dev_NumberOfConfigurations := FIXED_NUM_CONFIGURATIONS |}.

Record USB_Descriptor_Configuration_t := {
  Config : USB_Descriptor_Configuration_Header_t;
  HID_Interface : USB_Descriptor_Interface_t;
  HID_JoystickHID : USB_HID_Descriptor_HID_t;
  HID_ReportINEndpoint : USB_Descriptor_Endpoint_t
}.

Definition bytes_of_Configuration (c : USB_Descriptor_Configuration_t) : bytes :=
  bytes_of_Configuration_Header (Config c) ++ bytes_of_Interface (HID_Interface c) ++
  bytes_of_HID (HID_JoystickHID c) ++ bytes_of_Endpoint (HID_ReportINEndpoint c).

Definition sizeof_Configuration : Z :=
  sizeof_Configuration_Header + sizeof_Interface + sizeof_HID + sizeof_Endpoint.

(** [offsetof(USB_Descriptor_Configuration_t, HID_JoystickHID)] *)
Definition offsetof_HID_JoystickHID : Z := sizeof_Configuration_Header + sizeof_Interface.

Definition ConfigurationDescriptor : USB_Descriptor_Configuration_t :=
  {| Config :=
       {| cfg_Header := {| hdr_Size := sizeof_Configuration_Header; hdr_Type := DTYPE_Configuration |};
          cfg_TotalConfigurationSize := sizeof_Configuration;
          cfg_TotalInterfaces := 1;
          cfg_ConfigurationNumber := 1;
          cfg_ConfigurationStrIndex := NO_DESCRIPTOR;
          cfg_ConfigAttributes := Z.lor USB_CONFIG_ATTR_RESERVED USB_CONFIG_ATTR_SELFPOWERED;
          cfg_MaxPowerConsumption := USB_CONFIG_POWER_MA 100 |};
     HID_Interface :=
       {| itf_Header := {| hdr_Size := sizeof_Interface; hdr_Type := DTYPE_Interface |};
          itf_InterfaceNumber := INTERFACE_ID_Joystick;
          itf_AlternateSetting := 0x00;
          itf_TotalEndpoints := 1;
          itf_Class := HID_CSCP_HIDClass;
          itf_SubClass := HID_CSCP_NonBootSubclass;
          itf_Protocol := HID_CSCP_NonBootProtocol;
          itf_InterfaceStrIndex := NO_DESCRIPTOR |};
     HID_JoystickHID :=
       {| hid_Header := {| hdr_Size := sizeof_HID; hdr_Type := HID_DTYPE_HID |};
          hid_HIDSpec := VERSION_BCD 1 1 1;
          hid_CountryCode := 0x00;
          hid_TotalReportDescriptors := 1;
          hid_HIDReportType := HID_DTYPE_Report;
          hid_HIDReportLength := sizeof_JoystickReport |};
     HID_ReportINEndpoint :=
       {| epd_Header := {| hdr_Size := sizeof_Endpoint; hdr_Type := DTYPE_Endpoint |};
          epd_EndpointAddress := JOYSTICK_IN_EPADDR;
          epd_Attributes := Z.lor (Z.lor EP_TYPE_INTERRUPT ENDPOINT_ATTR_NO_SYNC) ENDPOINT_USAGE_DATA;
          epd_EndpointSize := 64;
          epd_PollingIntervalMS := 0x05 |} |}.

Definition LanguageString : USB_Descriptor_String_t :=
  USB_STRING_DESCRIPTOR_ARRAY [LANGUAGE_ID_ENG].
Definition ManufacturerString : USB_Descriptor_String_t :=
  USB_STRING_DESCRIPTOR (wide_literal "Sam Kerr").
Definition ProductString : USB_Descriptor_String_t :=
  USB_STRING_DESCRIPTOR (wide_literal "Cessna 172 I/O Board").

(** ** FLASH *)

Inductive flash_object : Set :=
  | JoystickReport_obj | DeviceDescriptor_obj | ConfigurationDescriptor_obj
  | LanguageString_obj | ManufacturerString_obj | ProductString_obj.

#[global] Instance flash_object_eq_dec : EqDecision flash_object.
Proof. solve_decision. Defined.

Definition flash_bytes (o : flash_object) : bytes :=
  match o with
  | JoystickReport_obj => JoystickReport
  | DeviceDescriptor_obj => bytes_of_Device DeviceDescriptor
  | ConfigurationDescriptor_obj => bytes_of_Configuration ConfigurationDescriptor
  | LanguageString_obj => bytes_of_String LanguageString
  | ManufacturerString_obj => bytes_of_String ManufacturerString
  | ProductString_obj => bytes_of_String ProductString
  end.

(** A [const void*] into FLASH; [None] is [NULL]. *)
Abbreviation flash_ptr := (option (flash_object * Z)).

(** [pgm_read_byte]: [None] when the address is outside of the object. *)
Definition pgm_read_byte (p : flash_ptr) : option Z :=
  match p with
  | Some (o, off) => if 0 <=? off then flash_bytes o !! Z.to_nat off else None
  | None => None
  end.

(** The bytes from an address to the end of its object. *)
Definition flash_from (p : flash_ptr) : bytes :=
  match p with
  | Some (o, off) => drop (Z.to_nat off) (flash_bytes o)
  | None => []
  end.

(** [pgm_read_byte(&S.Header.Size)] for a string descriptor [S]. *)
Definition string_size (o : flash_object) : Z := default 0 (pgm_read_byte (Some (o, 0))).

(** ** [CALLBACK_USB_GetDescriptor]: the size and the address. *)
Definition CALLBACK_USB_GetDescriptor (wValue wIndex : Z) : Z * flash_ptr :=
  let DescriptorType := u8 (Z.shiftr wValue 8) in
  let DescriptorNumber := u8 (Z.land wValue 0xFF) in
  if DescriptorType =? DTYPE_Device then
    (sizeof_Device, Some (DeviceDescriptor_obj, 0))
  else if DescriptorType =? DTYPE_Configuration then
    (sizeof_Configuration, Some (ConfigurationDescriptor_obj, 0))
  else if DescriptorType =? DTYPE_String then
    if DescriptorNumber =? STRING_ID_Language then
      (string_size LanguageString_obj, Some (LanguageString_obj, 0))
    else if DescriptorNumber =? STRING_ID_Manufacturer then
      (string_size ManufacturerString_obj, Some (ManufacturerString_obj, 0))
    else if DescriptorNumber =? STRING_ID_Product then
      (string_size ProductString_obj, Some (ProductString_obj, 0))
    else (NO_DESCRIPTOR, None)
  else if DescriptorType =? HID_DTYPE_HID then
    (sizeof_HID, Some (ConfigurationDescriptor_obj, offsetof_HID_JoystickHID))
  else if DescriptorType =? HID_DTYPE_Report then
    (sizeof_JoystickReport, Some (JoystickReport_obj, 0))
  else (NO_DESCRIPTOR, None).

Lemma flash_bytes_all o : all_bytes (flash_bytes o).
Proof.
  unfold all_bytes. apply (bool_decide_eq_true (Forall is_u8 (flash_bytes o))).
  destruct o; vm_compute; reflexivity.
Qed.
