(* ===== verification/HIDParser.v ===== *)
(** * The HID report parser

    [LUFA/Drivers/USB/Class/Common/HIDParser.c] and [HIDParser.h]:
    [USB_ProcessHIDReport], [USB_GetHIDReportItemInfo],
    [USB_SetHIDReportItemInfo] and [USB_GetHIDReportSize].  Arrays are lists of
    their declared length, pointers into them are indices, and an access out of
    bounds is the outcome [Faulted] (for the accessors: [None]).  The values of
    uninitialised objects ([indet]) and the application's filter callback are
    parameters. *)
From S2P Require Import Prelude HIDReportData.
From Stdlib Require Import Btauto.

(** ** Limits and codes *)

Definition HID_STATETABLE_STACK_DEPTH := 2%nat.
Definition HID_USAGE_STACK_DEPTH := 8%nat.
Definition HID_MAX_COLLECTIONS := 10%nat.
Definition HID_MAX_REPORTITEMS := 20%nat.
Definition HID_MAX_REPORT_IDS := 10%nat.

Inductive HID_Parse_ErrorCodes_t : Set :=
  | HID_PARSE_Successful
  | HID_PARSE_HIDStackOverflow
  | HID_PARSE_HIDStackUnderflow
  | HID_PARSE_InsufficientReportItems
  | HID_PARSE_UnexpectedEndCollection
  | HID_PARSE_InsufficientCollectionPaths
  | HID_PARSE_UsageListOverflow
  | HID_PARSE_InsufficientReportIDItems
  | HID_PARSE_NoUnfilteredReportItems.

(** [enum HID_ReportItemTypes_t] *)
Definition HID_REPORT_ITEM_In := 0%nat.
Definition HID_REPORT_ITEM_Out := 1%nat.
Definition HID_REPORT_ITEM_Feature := 2%nat.

(** ** Data *)

Record HID_MinMax_t := { Minimum : Z; Maximum : Z }.
Record HID_Unit_t := { Unit_Type : Z; Exponent : Z }.
Record HID_Usage_t := { Page : Z; Usage : Z }.

Record HID_CollectionPath_t := {
  col_Type : Z;
  col_Usage : HID_Usage_t;
  Parent : option nat
}.

Record HID_ReportItem_Attributes_t := {
  BitSize : Z;
  attr_Usage : HID_Usage_t;
  attr_Unit : HID_Unit_t;
  Logical : HID_MinMax_t;
  Physical : HID_MinMax_t
}.

Record HID_ReportItem_t := {
  BitOffset : Z;
  ItemType : nat;
  ItemFlags : Z;
  item_ReportID : Z;
  CollectionPath : option nat;
  Attributes : HID_ReportItem_Attributes_t;
  Value : Z;
  PreviousValue : Z
}.

Record HID_ReportSizeInfo_t := {
  size_ReportID : Z;
  ReportSizeBits : list Z
}.

Record HID_ReportInfo_t := {
  TotalReportItems : nat;
  ReportItems : list HID_ReportItem_t;
  CollectionPaths : list HID_CollectionPath_t;
  TotalDeviceReports : nat;
  ReportIDSizes : list HID_ReportSizeInfo_t;
  LargestReportSizeBits : Z;
  UsingReportIDs : bool
}.

Record HID_StateTable_t := {
  st_Attributes : HID_ReportItem_Attributes_t;
  ReportCount : Z;
  st_ReportID : Z
}.

(** [sizeof] on the target: no padding, two-byte pointers. *)
Definition sizeof_HID_ReportItem_Attributes_t := 1 + 4 + 5 + 8 + 8.
Definition sizeof_HID_ReportItem_t :=
  2 + 1 + 2 + 1 + 2 + sizeof_HID_ReportItem_Attributes_t + 4 + 4.
Definition sizeof_HID_StateTable_t := sizeof_HID_ReportItem_Attributes_t + 1 + 1.

(** ** Field assignments *)

Definition set_Page (x : Z) (a : HID_ReportItem_Attributes_t) :=
  {| BitSize := BitSize a; attr_Usage := {| Page := x; Usage := Usage (attr_Usage a) |};
     attr_Unit := attr_Unit a; Logical := Logical a; Physical := Physical a |}.
Definition set_Usage (x : Z) (a : HID_ReportItem_Attributes_t) :=
  {| BitSize := BitSize a; attr_Usage := {| Page := Page (attr_Usage a); Usage := x |};
     attr_Unit := attr_Unit a; Logical := Logical a; Physical := Physical a |}.
Definition set_Logical (m : HID_MinMax_t) (a : HID_ReportItem_Attributes_t) :=
  {| BitSize := BitSize a; attr_Usage := attr_Usage a;
     attr_Unit := attr_Unit a; Logical := m; Physical := Physical a |}.
Definition set_Physical (m : HID_MinMax_t) (a : HID_ReportItem_Attributes_t) :=
  {| BitSize := BitSize a; attr_Usage := attr_Usage a;
     attr_Unit := attr_Unit a; Logical := Logical a; Physical := m |}.
Definition set_Unit (u : HID_Unit_t) (a : HID_ReportItem_Attributes_t) :=
  {| BitSize := BitSize a; attr_Usage := attr_Usage a;
     attr_Unit := u; Logical := Logical a; Physical := Physical a |}.
Definition set_BitSize (x : Z) (a : HID_ReportItem_Attributes_t) :=
  {| BitSize := x; attr_Usage := attr_Usage a;
     attr_Unit := attr_Unit a; Logical := Logical a; Physical := Physical a |}.

Definition on_Attributes (f : HID_ReportItem_Attributes_t -> HID_ReportItem_Attributes_t)
    (t : HID_StateTable_t) : HID_StateTable_t :=
  {| st_Attributes := f (st_Attributes t); ReportCount := ReportCount t;
     st_ReportID := st_ReportID t |}.
Definition set_ReportCount (x : Z) (t : HID_StateTable_t) : HID_StateTable_t :=
  {| st_Attributes := st_Attributes t; ReportCount := x; st_ReportID := st_ReportID t |}.
Definition set_st_ReportID (x : Z) (t : HID_StateTable_t) : HID_StateTable_t :=
  {| st_Attributes := st_Attributes t; ReportCount := ReportCount t; st_ReportID := x |}.

(** ** Zeroed objects ([memset]) *)

Definition zero_Attributes : HID_ReportItem_Attributes_t :=
  {| BitSize := 0; attr_Usage := {| Page := 0; Usage := 0 |};
     attr_Unit := {| Unit_Type := 0; Exponent := 0 |};
     Logical := {| Minimum := 0; Maximum := 0 |};
     Physical := {| Minimum := 0; Maximum := 0 |} |}.
Definition zero_ReportItem : HID_ReportItem_t :=
  {| BitOffset := 0; ItemType := 0; ItemFlags := 0; item_ReportID := 0;
     CollectionPath := None; Attributes := zero_Attributes; Value := 0; PreviousValue := 0 |}.
Definition zero_CollectionPath : HID_CollectionPath_t :=
  {| col_Type := 0; col_Usage := {| Page := 0; Usage := 0 |}; Parent := None |}.
Definition zero_ReportSizeInfo : HID_ReportSizeInfo_t :=
  {| size_ReportID := 0; ReportSizeBits := [0; 0; 0] |}.
Definition zero_StateTable : HID_StateTable_t :=
  {| st_Attributes := zero_Attributes; ReportCount := 0; st_ReportID := 0 |}.
Definition zero_ReportInfo : HID_ReportInfo_t :=
  {| TotalReportItems := 0;
     ReportItems := replicate HID_MAX_REPORTITEMS zero_ReportItem;
     CollectionPaths := replicate HID_MAX_COLLECTIONS zero_CollectionPath;
     TotalDeviceReports := 0;
     ReportIDSizes := replicate HID_MAX_REPORT_IDS zero_ReportSizeInfo;
     LargestReportSizeBits := 0;
     UsingReportIDs := false |}.

(** ** Parser state: the local variables of [USB_ProcessHIDReport] *)

Record parser := {
  StateTable : list HID_StateTable_t;
  CurrStateTable : nat;
  CurrCollectionPath : option nat;
  CurrReportIDInfo : nat;
  UsageList : list Z;
  UsageListSize : nat;
  UsageMinMax : HID_MinMax_t;
  ParserData : HID_ReportInfo_t
}.

Definition set_ParserData (d : HID_ReportInfo_t) (p : parser) : parser :=
  {| StateTable := StateTable p; CurrStateTable := CurrStateTable p;
     CurrCollectionPath := CurrCollectionPath p; CurrReportIDInfo := CurrReportIDInfo p;
     UsageList := UsageList p; UsageListSize := UsageListSize p;
     UsageMinMax := UsageMinMax p; ParserData := d |}.
Definition set_StateTable (l : list HID_StateTable_t) (i : nat) (p : parser) : parser :=
  {| StateTable := l; CurrStateTable := i;
     CurrCollectionPath := CurrCollectionPath p; CurrReportIDInfo := CurrReportIDInfo p;
     UsageList := UsageList p; UsageListSize := UsageListSize p;
     UsageMinMax := UsageMinMax p; ParserData := ParserData p |}.
Definition set_CurrCollectionPath (c : option nat) (p : parser) : parser :=
  {| StateTable := StateTable p; CurrStateTable := CurrStateTable p;
     CurrCollectionPath := c; CurrReportIDInfo := CurrReportIDInfo p;
     UsageList := UsageList p; UsageListSize := UsageListSize p;
     UsageMinMax := UsageMinMax p; ParserData := ParserData p |}.
Definition set_CurrReportIDInfo (i : nat) (p : parser) : parser :=
  {| StateTable := StateTable p; CurrStateTable := CurrStateTable p;
     CurrCollectionPath := CurrCollectionPath p; CurrReportIDInfo := i;
     UsageList := UsageList p; UsageListSize := UsageListSize p;
     UsageMinMax := UsageMinMax p; ParserData := ParserData p |}.
Definition set_UsageList (l : list Z) (n : nat) (p : parser) : parser :=
  {| StateTable := StateTable p; CurrStateTable := CurrStateTable p;
     CurrCollectionPath := CurrCollectionPath p; CurrReportIDInfo := CurrReportIDInfo p;
     UsageList := l; UsageListSize := n;
     UsageMinMax := UsageMinMax p; ParserData := ParserData p |}.
Definition set_UsageMinMax (m : HID_MinMax_t) (p : parser) : parser :=
  {| StateTable := StateTable p; CurrStateTable := CurrStateTable p;
     CurrCollectionPath := CurrCollectionPath p; CurrReportIDInfo := CurrReportIDInfo p;
     UsageList := UsageList p; UsageListSize := UsageListSize p;
     UsageMinMax := m; ParserData := ParserData p |}.

(** What one iteration of the parsing loop does. *)
Inductive step : Type :=
  | Next (p : parser)
  | Stop (code : HID_Parse_ErrorCodes_t) (p : parser)
  | Fault.

(** What a call of [USB_ProcessHIDReport] does. *)
Inductive parse_result : Type :=
  | Returned (code : HID_Parse_ErrorCodes_t) (ParserData : HID_ReportInfo_t)
  | Faulted
  | NoFuel.

(** ** [USB_ProcessHIDReport] *)

(** [for (i = 1; i < UsageListSize; i++) UsageList[i - 1] = UsageList[i];] *)
Fixpoint shift_usages (i n : nat) (l : list Z) : option (list Z) :=
  match n with
  | O => Some l
  | S n =>
      match l !! i with
      | Some u => shift_usages (S i) n (<[(i - 1)%nat := u]> l)
      | None => None
      end
  end.

(** The usage of the next collection or report item: the oldest of the queued
    usages if there is one, else the next of the usage range, else the current
    value [u] is left alone.  [None] is an access outside of [UsageList]. *)
Definition take_usage (u : Z) (p : parser) : option (Z * parser) :=
  if (0 <? UsageListSize p)%nat then
    match UsageList p !! 0%nat, shift_usages 1 (UsageListSize p - 1) (UsageList p) with
    | Some u, Some l => Some (u, set_UsageList l (UsageListSize p - 1) p)
    | _, _ => None
    end
  else if Minimum (UsageMinMax p) <=? Maximum (UsageMinMax p) then
    Some (u16 (Minimum (UsageMinMax p)),
          set_UsageMinMax {| Minimum := u32 (Minimum (UsageMinMax p) + 1);
                             Maximum := Maximum (UsageMinMax p) |} p)
  else Some (u, p).

(** [CurrStateTable->...= ...;] *)
Definition on_CurrStateTable (f : HID_StateTable_t -> HID_StateTable_t) (p : parser) : step :=
  match StateTable p !! CurrStateTable p with
  | Some t => Next (set_StateTable (<[CurrStateTable p := f t]> (StateTable p)) (CurrStateTable p) p)
  | None => Fault
  end.

(** [case HID_RI_PUSH(0)]: the [memcpy] moves [sizeof(HID_ReportItem_t)] bytes
    between entries of an array of [HID_StateTable_t]; it is defined only if the
    destination stays inside of the array and the two regions are disjoint. *)
Definition push_memcpy_ok (CurrStateTable : nat) : bool :=
  (Z.of_nat (CurrStateTable + 1) * sizeof_HID_StateTable_t + sizeof_HID_ReportItem_t
     <=? Z.of_nat HID_STATETABLE_STACK_DEPTH * sizeof_HID_StateTable_t)
  && (sizeof_HID_ReportItem_t <=? sizeof_HID_StateTable_t).

Definition do_PUSH (p : parser) : step :=
  if (CurrStateTable p =? HID_STATETABLE_STACK_DEPTH - 1)%nat then
    Stop HID_PARSE_HIDStackOverflow p
  else if push_memcpy_ok (CurrStateTable p) then
    match StateTable p !! CurrStateTable p with
    | Some t => Next (set_StateTable (<[(CurrStateTable p + 1)%nat := t]> (StateTable p))
                                     (CurrStateTable p + 1) p)
    | None => Fault
    end
  else Fault.

Definition do_POP (p : parser) : step :=
  if (CurrStateTable p =? 0)%nat then Stop HID_PARSE_HIDStackUnderflow p
  else Next (set_StateTable (StateTable p) (CurrStateTable p - 1) p).

(** The search [for (i = 0; i < TotalDeviceReports; i++)] of the entry with the
    given report ID. *)
Fixpoint find_ReportID (i n : nat) (ReportID : Z) (l : list HID_ReportSizeInfo_t) : option nat :=
  match n with
  | O => None
  | S n =>
      match l !! i with
      | Some e => if size_ReportID e =? ReportID then Some i else find_ReportID (S i) n ReportID l
      | None => None
      end
  end.

Definition set_ReportIDSizes (l : list HID_ReportSizeInfo_t) (n : nat) (u : bool)
    (d : HID_ReportInfo_t) : HID_ReportInfo_t :=
  {| TotalReportItems := TotalReportItems d; ReportItems := ReportItems d;
     CollectionPaths := CollectionPaths d; TotalDeviceReports := n; ReportIDSizes := l;
     LargestReportSizeBits := LargestReportSizeBits d; UsingReportIDs := u |}.

(** The end of [case HID_RI_REPORT_ID(0)]: [UsingReportIDs = true] and
    [CurrReportIDInfo->ReportID = CurrStateTable->ReportID]. *)
Definition assign_ReportID (i : nat) (ReportID : Z) (p : parser) : step :=
  let d := ParserData p in
  match ReportIDSizes d !! i with
  | Some e =>
      Next (set_CurrReportIDInfo i (set_ParserData
        (set_ReportIDSizes
           (<[i := {| size_ReportID := ReportID; ReportSizeBits := ReportSizeBits e |}]>
              (ReportIDSizes d))
           (TotalDeviceReports d) true d) p))
  | None => Fault
  end.

Definition do_REPORT_ID (ReportItemData : Z) (p : parser) : step :=
  match on_CurrStateTable (set_st_ReportID (u8 ReportItemData)) p with
  | Next p =>
      let d := ParserData p in
      let ReportID := u8 ReportItemData in
      if UsingReportIDs d then
        match find_ReportID 0 (TotalDeviceReports d) ReportID (ReportIDSizes d) with
        | Some i => assign_ReportID i ReportID p
        | None =>
            if (TotalDeviceReports d =? HID_MAX_REPORT_IDS)%nat then
              Stop HID_PARSE_InsufficientReportIDItems p
            else
              let i := TotalDeviceReports d in
              assign_ReportID i ReportID (set_ParserData
                (set_ReportIDSizes (<[i := zero_ReportSizeInfo]> (ReportIDSizes d))
                                   (TotalDeviceReports d + 1) (UsingReportIDs d) d) p)
        end
      else assign_ReportID (CurrReportIDInfo p) ReportID p
  | r => r
  end.

Definition do_USAGE (ReportItemData : Z) (p : parser) : step :=
  if (UsageListSize p =? HID_USAGE_STACK_DEPTH)%nat then Stop HID_PARSE_UsageListOverflow p
  else if (UsageListSize p <? length (UsageList p))%nat then
    Next (set_UsageList (<[UsageListSize p := u16 ReportItemData]> (UsageList p))
                        (UsageListSize p + 1) p)
  else Fault.

(** [while (CurrCollectionPath->Parent != NULL) ...] from
    [CollectionPaths[i]]: [Some i] the free entry found, [None] when the table
    is full. The table has [n] more entries after the [i]th. *)
Fixpoint free_collection (i n : nat) (l : list HID_CollectionPath_t) : option nat :=
  match l !! i with
  | Some c =>
      match Parent c with
      | None => Some i
      | Some _ => match n with O => None | S n => free_collection (S i) n l end
      end
  | None => None
  end.

Definition set_CollectionPaths (l : list HID_CollectionPath_t) (d : HID_ReportInfo_t)
    : HID_ReportInfo_t :=
  {| TotalReportItems := TotalReportItems d; ReportItems := ReportItems d;
     CollectionPaths := l; TotalDeviceReports := TotalDeviceReports d;
     ReportIDSizes := ReportIDSizes d; LargestReportSizeBits := LargestReportSizeBits d;
     UsingReportIDs := UsingReportIDs d |}.

(** The assignments to the entry [i] the search ended at. *)
Definition open_collection (i : nat) (Parent_ : option nat) (ReportItemData : Z) (p : parser) : step :=
  match CollectionPaths (ParserData p) !! i, StateTable p !! CurrStateTable p with
  | Some c, Some t =>
      match take_usage (Usage (col_Usage c)) p with
      | None => Fault
      | Some (u, p) =>
          let c := {| col_Type := u8 ReportItemData;
                      col_Usage := {| Page := Page (attr_Usage (st_Attributes t)); Usage := u |};
                      Parent := Parent_ |} in
          Next (set_CurrCollectionPath (Some i) (set_ParserData
                 (set_CollectionPaths (<[i := c]> (CollectionPaths (ParserData p)))
                                      (ParserData p)) p))
      end
  | _, _ => Fault
  end.

Definition do_COLLECTION (ReportItemData : Z) (p : parser) : step :=
  let d := ParserData p in
  match CurrCollectionPath p with
  | None =>
      match CollectionPaths d !! 0%nat with
      | Some c => open_collection 0 (Parent c) ReportItemData p
      | None => Fault
      end
  | Some parent =>
      match free_collection 1 (HID_MAX_COLLECTIONS - 2) (CollectionPaths d) with
      | Some i => open_collection i (Some parent) ReportItemData p
      | None => Stop HID_PARSE_InsufficientCollectionPaths p
      end
  end.

Definition do_END_COLLECTION (p : parser) : step :=
  match CurrCollectionPath p with
  | None => Stop HID_PARSE_UnexpectedEndCollection p
  | Some i =>
      match CollectionPaths (ParserData p) !! i with
      | Some c => Next (set_CurrCollectionPath (Parent c) p)
      | None => Fault
      end
  end.

Section Parser.
(** Value of uninitialised storage, and
    [CALLBACK_HIDParser_FilterHIDReportItem]. *)
Context (indet : Z).
Context (CALLBACK_HIDParser_FilterHIDReportItem : HID_ReportItem_t -> bool).

Definition indet_StateTable : HID_StateTable_t :=
  {| st_Attributes :=
       {| BitSize := indet; attr_Usage := {| Page := indet; Usage := indet |};
          attr_Unit := {| Unit_Type := indet; Exponent := indet |};
          Logical := {| Minimum := indet; Maximum := indet |};
          Physical := {| Minimum := indet; Maximum := indet |} |};
     ReportCount := indet; st_ReportID := indet |}.

Definition item_type (ItemTypeTag : Z) : nat :=
  if ItemTypeTag =? RI_INPUT then HID_REPORT_ITEM_In
  else if ItemTypeTag =? RI_OUTPUT then HID_REPORT_ITEM_Out
  else HID_REPORT_ITEM_Feature.

Definition set_items (n : nat) (items : list HID_ReportItem_t)
    (sizes : list HID_ReportSizeInfo_t) (largest : Z) (d : HID_ReportInfo_t) : HID_ReportInfo_t :=
  {| TotalReportItems := n; ReportItems := items; CollectionPaths := CollectionPaths d;
     TotalDeviceReports := TotalDeviceReports d; ReportIDSizes := sizes;
     LargestReportSizeBits := largest; UsingReportIDs := UsingReportIDs d |}.

(** The iteration after the usage [u] of [NewReportItem] is known: the report's
    size grows, and the item is stored and kept unless it is constant or the
    application filters it out. *)
Definition append_item (t : HID_StateTable_t) (u : Z) (ItemTypeTag ReportItemData : Z)
    (p : parser) : step :=
  let d := ParserData p in
  let ty := item_type ItemTypeTag in
  match ReportIDSizes d !! CurrReportIDInfo p with
  | None => Fault
  | Some e =>
      match ReportSizeBits e !! ty with
      | None => Fault
      | Some off =>
          let NewReportItem :=
            {| BitOffset := off; ItemType := ty; ItemFlags := u16 ReportItemData;
               item_ReportID := st_ReportID t;
               CollectionPath := CurrCollectionPath p;
               Attributes := set_Usage u (st_Attributes t);
               Value := indet; PreviousValue := indet |} in
          let bits := u16 (off + BitSize (st_Attributes t)) in
          let sizes := <[CurrReportIDInfo p :=
                          {| size_ReportID := size_ReportID e;
                             ReportSizeBits := <[ty := bits]> (ReportSizeBits e) |}]>
                         (ReportIDSizes d) in
          let largest := Z.max (LargestReportSizeBits d) bits in
          if (TotalReportItems d =? HID_MAX_REPORTITEMS)%nat then
            Stop HID_PARSE_InsufficientReportItems (set_ParserData
              (set_items (TotalReportItems d) (ReportItems d) sizes largest d) p)
          else if (TotalReportItems d <? length (ReportItems d))%nat then
            let kept := negb (has_bit ReportItemData 0)
                        && CALLBACK_HIDParser_FilterHIDReportItem NewReportItem in
            Next (set_ParserData
              (set_items (if kept then TotalReportItems d + 1 else TotalReportItems d)%nat
                         (<[TotalReportItems d := NewReportItem]> (ReportItems d))
                         sizes largest d) p)
          else Fault
      end
  end.

(** One iteration of the loop over [ReportItemNum]. *)
Definition do_item (ItemTypeTag ReportItemData : Z) (p : parser) : step :=
  match StateTable p !! CurrStateTable p with
  | None => Fault
  | Some t =>
      match take_usage (Usage (attr_Usage (st_Attributes t))) p with
      | None => Fault
      | Some (u, p) => append_item t u ItemTypeTag ReportItemData p
      end
  end.

Fixpoint do_items (n : nat) (ItemTypeTag ReportItemData : Z) (p : parser) : step :=
  match n with
  | O => Next p
  | S n =>
      match do_item ItemTypeTag ReportItemData p with
      | Next p => do_items n ItemTypeTag ReportItemData p
      | r => r
      end
  end.

(** [case HID_RI_INPUT(0): case HID_RI_OUTPUT(0): case HID_RI_FEATURE(0):] *)
Definition do_MAIN (ItemTypeTag ReportItemData : Z) (p : parser) : step :=
  match StateTable p !! CurrStateTable p with
  | Some t => do_items (Z.to_nat (ReportCount t)) ItemTypeTag ReportItemData p
  | None => Fault
  end.

(** [switch (HIDReportItem & (HID_RI_TYPE_MASK | HID_RI_TAG_MASK))] *)
Definition do_tag (HIDReportItem ReportItemData : Z) (p : parser) : step :=
  let tag := Z.land HIDReportItem (Z.lor HID_RI_TYPE_MASK HID_RI_TAG_MASK) in
  let attr f := on_CurrStateTable (on_Attributes f) p in
  if tag =? RI_PUSH then do_PUSH p
  else if tag =? RI_POP then do_POP p
  else if tag =? RI_USAGE_PAGE then attr (set_Page (u16 ReportItemData))
  else if tag =? RI_LOGICAL_MINIMUM then
    attr (fun a => set_Logical {| Minimum := ReportItemData; Maximum := Maximum (Logical a) |} a)
  else if tag =? RI_LOGICAL_MAXIMUM then
    attr (fun a => set_Logical {| Minimum := Minimum (Logical a); Maximum := ReportItemData |} a)
  else if tag =? RI_PHYSICAL_MINIMUM then
    attr (fun a => set_Physical {| Minimum := ReportItemData; Maximum := Maximum (Physical a) |} a)
  else if tag =? RI_PHYSICAL_MAXIMUM then
    attr (fun a => set_Physical {| Minimum := Minimum (Physical a); Maximum := ReportItemData |} a)
  else if tag =? RI_UNIT_EXPONENT then
    attr (fun a => set_Unit {| Unit_Type := Unit_Type (attr_Unit a); Exponent := u8 ReportItemData |} a)
  else if tag =? RI_UNIT then
    attr (fun a => set_Unit {| Unit_Type := ReportItemData; Exponent := Exponent (attr_Unit a) |} a)
  else if tag =? RI_REPORT_SIZE then attr (set_BitSize (u8 ReportItemData))
  else if tag =? RI_REPORT_COUNT then on_CurrStateTable (set_ReportCount (u8 ReportItemData)) p
  else if tag =? RI_REPORT_ID then do_REPORT_ID ReportItemData p
  else if tag =? RI_USAGE then do_USAGE ReportItemData p
  else if tag =? RI_USAGE_MINIMUM then
    Next (set_UsageMinMax {| Minimum := ReportItemData; Maximum := Maximum (UsageMinMax p) |} p)
  else if tag =? RI_USAGE_MAXIMUM then
    Next (set_UsageMinMax {| Minimum := Minimum (UsageMinMax p); Maximum := ReportItemData |} p)
  else if tag =? RI_COLLECTION then do_COLLECTION ReportItemData p
  else if tag =? RI_END_COLLECTION then do_END_COLLECTION p
  else if (tag =? RI_INPUT) || (tag =? RI_OUTPUT) || (tag =? RI_FEATURE) then
    do_MAIN tag ReportItemData p
  else Next p.

(** After the switch, main items reset the local state. *)
Definition end_item (HIDReportItem : Z) (p : parser) : parser :=
  if Z.land HIDReportItem HID_RI_TYPE_MASK =? HID_RI_TYPE_MAIN then
    set_UsageList (UsageList p) 0 (set_UsageMinMax {| Minimum := 0; Maximum := 0 |} p)
  else p.

(** [switch (HIDReportItem & HID_RI_DATA_SIZE_MASK)]: the item's data, the
    number of data bytes and the descriptor after them; [None] if they are
    not all inside of the buffer. *)
Definition item_data (HIDReportItem : Z) (ReportData : bytes) : option (Z * Z * bytes) :=
  let sz := Z.land HIDReportItem HID_RI_DATA_SIZE_MASK in
  if sz =? HID_RI_DATA_BITS_32 then
    match ReportData with
    | d0 :: d1 :: d2 :: d3 :: rest =>
        Some (Z.lor (Z.lor (Z.shiftl d3 24) (Z.shiftl d2 16)) (Z.lor (Z.shiftl d1 8) d0), 4, rest)
    | _ => None
    end
  else if sz =? HID_RI_DATA_BITS_16 then
    match ReportData with
    | d0 :: d1 :: rest => Some (Z.lor (Z.shiftl d1 8) d0, 2, rest)
    | _ => None
    end
  else if sz =? HID_RI_DATA_BITS_8 then
    match ReportData with
    | d0 :: rest => Some (d0, 1, rest)
    | _ => None
    end
  else Some (0, 0, ReportData).

(** [while (ReportSize)], and what follows it. *)
Fixpoint process (n : nat) (ReportData : bytes) (ReportSize : Z) (p : parser) : parse_result :=
  match n with
  | O => NoFuel
  | S n =>
      if ReportSize =? 0 then
        Returned (if (TotalReportItems (ParserData p) =? 0)%nat
                  then HID_PARSE_NoUnfilteredReportItems else HID_PARSE_Successful)
                 (ParserData p)
      else
        match ReportData with
        | [] => Faulted
        | HIDReportItem :: ReportData =>
            match item_data HIDReportItem ReportData with
            | None => Faulted
            | Some (ReportItemData, len, ReportData) =>
                match do_tag HIDReportItem ReportItemData p with
                | Next p => process n ReportData (u16 (u16 (ReportSize - 1) - len))
                                    (end_item HIDReportItem p)
                | Stop code p => Returned code (ParserData p)
                | Fault => Faulted
                end
            end
        end
  end.

Definition initial_parser : parser :=
  {| StateTable := zero_StateTable :: replicate (HID_STATETABLE_STACK_DEPTH - 1) indet_StateTable;
     CurrStateTable := 0;
     CurrCollectionPath := None;
     CurrReportIDInfo := 0;
     UsageList := replicate HID_USAGE_STACK_DEPTH indet;
     UsageListSize := 0;
     UsageMinMax := {| Minimum := 0; Maximum := 0 |};
     ParserData := set_ReportIDSizes (ReportIDSizes zero_ReportInfo) 1 false zero_ReportInfo |}.

Definition USB_ProcessHIDReport (ReportData : bytes) (ReportSize : Z) : parse_result :=
  process (S (length ReportData)) ReportData ReportSize initial_parser.
End Parser.

(** ** Report item access *)

Definition set_item_value (v prev : Z) (i : HID_ReportItem_t) : HID_ReportItem_t :=
  {| BitOffset := BitOffset i; ItemType := ItemType i; ItemFlags := ItemFlags i;
     item_ReportID := item_ReportID i; CollectionPath := CollectionPath i;
     Attributes := Attributes i; Value := v; PreviousValue := prev |}.

(** [ReportData[i]] *)
Definition byte_at (ReportData : bytes) (i : Z) : option Z := ReportData !! Z.to_nat i.

(** The [while (DataBitsRem--)] loop of [USB_GetHIDReportItemInfo]. *)
Fixpoint get_bits (DataBitsRem : nat) (ReportData : bytes) (CurrentBit BitMask Value_ : Z)
    : option Z :=
  match DataBitsRem with
  | O => Some Value_
  | S n =>
      match byte_at ReportData (CurrentBit / 8) with
      | None => None
      | Some b =>
          get_bits n ReportData (u16 (CurrentBit + 1)) (u32 (Z.shiftl BitMask 1))
            (if negb (Z.land b (Z.shiftl 1 (CurrentBit mod 8)) =? 0)
             then Z.lor Value_ BitMask else Value_)
      end
  end.

(** The returned flag and the updated item; [None] when the report is read out
    of bounds. A [NULL] item pointer is [None]. *)
Definition USB_GetHIDReportItemInfo (ReportData : bytes) (ReportItem : option HID_ReportItem_t)
    : option (bool * option HID_ReportItem_t) :=
  match ReportItem with
  | None => Some (false, None)
  | Some item =>
      let extract data :=
        v ← get_bits (Z.to_nat (BitSize (Attributes item))) data (BitOffset item) 1 0;
        Some (true, Some (set_item_value v (Value item) item)) in
      if negb (item_ReportID item =? 0) then
        match ReportData with
        | [] => None
        | id :: data => if negb (item_ReportID item =? id) then Some (false, ReportItem)
                        else extract data
        end
      else extract ReportData
  end.

(** The loop of [USB_SetHIDReportItemInfo]: the value is tested with
    [1 << (CurrentBit % 8)] and the report byte is or-ed with [BitMask]. *)
Fixpoint set_bits (DataBitsRem : nat) (ReportData : bytes) (CurrentBit BitMask Value_ : Z)
    : option bytes :=
  match DataBitsRem with
  | O => Some ReportData
  | S n =>
      let k := Z.to_nat (CurrentBit / 8) in
      if negb (Z.land Value_ (Z.shiftl 1 (CurrentBit mod 8)) =? 0) then
        match ReportData !! k with
        | None => None
        | Some b => set_bits n (<[k := u8 (Z.lor b BitMask)]> ReportData)
                      (u16 (CurrentBit + 1)) (u32 (Z.shiftl BitMask 1)) Value_
        end
      else set_bits n ReportData (u16 (CurrentBit + 1)) (u32 (Z.shiftl BitMask 1)) Value_
  end.

Definition USB_SetHIDReportItemInfo (ReportData : bytes) (ReportItem : option HID_ReportItem_t)
    : option (bytes * option HID_ReportItem_t) :=
  match ReportItem with
  | None => Some (ReportData, None)
  | Some item =>
      let insert data := set_bits (Z.to_nat (BitSize (Attributes item))) data (BitOffset item) 1 (Value item) in
      let item' := set_item_value (Value item) (Value item) item in
      if negb (item_ReportID item =? 0) then
        match ReportData with
        | [] => None
        | _ :: data => data' ← insert data; Some (item_ReportID item :: data', Some item')
        end
      else data' ← insert ReportData; Some (data', Some item')
  end.

(** [for (i = 0; i < HID_MAX_REPORT_IDS; i++)] over [ReportIDSizes]. *)
Fixpoint report_size (l : list HID_ReportSizeInfo_t) (ReportID : Z) (ReportType : nat) : option Z :=
  match l with
  | [] => Some 0
  | e :: l =>
      match ReportSizeBits e !! ReportType with
      | None => None
      | Some bits => if size_ReportID e =? ReportID
                     then Some (u16 (bits / 8 + (if bits mod 8 =? 0 then 0 else 1)))
                     else report_size l ReportID ReportType
      end
  end.

Definition USB_GetHIDReportSize (ParserData : HID_ReportInfo_t) (ReportID : Z) (ReportType : nat)
    : option Z :=
  report_size (take HID_MAX_REPORT_IDS (ReportIDSizes ParserData)) ReportID ReportType.

(** ** Well-formedness of the parser state *)

Record wf_info (d : HID_ReportInfo_t) : Prop := {
  wf_items : length (ReportItems d) = HID_MAX_REPORTITEMS;
  wf_total : (TotalReportItems d <= HID_MAX_REPORTITEMS)%nat;
  wf_paths : length (CollectionPaths d) = HID_MAX_COLLECTIONS;
  wf_parents : Forall (fun c => from_option (fun i => i < HID_MAX_COLLECTIONS)%nat True (Parent c))
                      (CollectionPaths d);
  wf_ids : length (ReportIDSizes d) = HID_MAX_REPORT_IDS;
  wf_reports : (1 <= TotalDeviceReports d <= HID_MAX_REPORT_IDS)%nat;
  wf_sizes : Forall (fun e => length (ReportSizeBits e) = 3%nat) (ReportIDSizes d)
}.

Record wf_parser (p : parser) : Prop := {
  wf_table : length (StateTable p) = HID_STATETABLE_STACK_DEPTH;
  wf_curr : (CurrStateTable p < HID_STATETABLE_STACK_DEPTH)%nat;
  wf_path : from_option (fun i => i < HID_MAX_COLLECTIONS)%nat True (CurrCollectionPath p);
  wf_id : (CurrReportIDInfo p < HID_MAX_REPORT_IDS)%nat;
  wf_usages : length (UsageList p) = HID_USAGE_STACK_DEPTH;
  wf_usage_size : (UsageListSize p <= HID_USAGE_STACK_DEPTH)%nat;
  wf_data : wf_info (ParserData p)
}.

Create HintDb hidparser.
#[export] Hint Constructors wf_info wf_parser : hidparser.
#[export] Hint Resolve wf_items wf_total wf_paths wf_parents wf_ids wf_reports wf_sizes
  wf_table wf_curr wf_path wf_id wf_usages wf_usage_size wf_data : hidparser.

(** Outcome of a step: either well-formed, or a fault. *)
Definition wf_step (fault_ok : Prop) (r : step) : Prop :=
  match r with
  | Next p => wf_parser p
  | Stop _ p => wf_parser p
  | Fault => fault_ok
  end.

Lemma shift_usages_total i n l :
  (i + n <= length l)%nat -> exists l', shift_usages i n l = Some l' /\ length l' = length l.
Proof.
  revert i l. induction n as [|n IH]; intros i l Hl; simpl; [eauto|].
  destruct (lookup_lt_is_Some_2 l i) as [u ->]; [lia|].
  destruct (IH (S i) (<[(i - 1)%nat := u]> l)) as (l' & -> & ?); rewrite length_insert in *;
    [lia|eauto].
Qed.

Lemma wf_curr_lookup p : wf_parser p -> exists t, StateTable p !! CurrStateTable p = Some t.
Proof. intros Hp. apply lookup_lt_is_Some_2. rewrite (wf_table p Hp). apply Hp. Qed.

Lemma wf_id_lookup p :
  wf_parser p -> exists e, ReportIDSizes (ParserData p) !! CurrReportIDInfo p = Some e.
Proof. intros Hp. apply lookup_lt_is_Some_2. rewrite wf_ids by apply Hp. apply Hp. Qed.

Lemma wf_size_lookup d i e ty :
  wf_info d -> ReportIDSizes d !! i = Some e -> (ty < 3)%nat ->
  exists off, ReportSizeBits e !! ty = Some off.
Proof.
  intros Hd He Hty. apply lookup_lt_is_Some_2.
  by rewrite (Forall_lookup_1 _ _ _ _ (wf_sizes d Hd) He).
Qed.

Lemma take_usage_wf u p :
  wf_parser p -> exists u' q, take_usage u p = Some (u', q) /\ wf_parser q.
Proof.
  intros Hp. unfold take_usage. pose proof (wf_usage_size p Hp). pose proof (wf_usages p Hp).
  destruct (0 <? UsageListSize p)%nat eqn:Hn; [apply Nat.ltb_lt in Hn|].
  - destruct (lookup_lt_is_Some_2 (UsageList p) 0) as [v ->]; [lia|].
    destruct (shift_usages_total 1 (UsageListSize p - 1) (UsageList p)) as (l & -> & Hl); [lia|].
    do 2 eexists. split; [done|]. constructor; simpl; try apply Hp; [congruence|lia].
  - case_match; do 2 eexists; (split; [done|]); [|done]. constructor; simpl; apply Hp.
Qed.

Lemma set_ParserData_wf d p : wf_parser p -> wf_info d -> wf_parser (set_ParserData d p).
Proof. intros [] ?. by constructor. Qed.

Lemma on_CurrStateTable_wf f p : wf_parser p -> wf_step False (on_CurrStateTable f p).
Proof.
  intros Hp. unfold on_CurrStateTable. destruct (wf_curr_lookup p Hp) as [t ->]. simpl.
  constructor; simpl; try apply Hp. by rewrite length_insert, wf_table.
Qed.

Lemma do_POP_wf p : wf_parser p -> wf_step False (do_POP p).
Proof.
  intros Hp. unfold do_POP. case_match; simpl; [done|].
  constructor; simpl; try apply Hp. pose proof (wf_curr p Hp). lia.
Qed.

(** With two table entries there is never room for the oversized copy. *)
Lemma push_memcpy_never_ok i : push_memcpy_ok i = false.
Proof. unfold push_memcpy_ok. apply andb_false_r. Qed.

Lemma do_PUSH_wf p : wf_parser p -> wf_step True (do_PUSH p).
Proof. intros Hp. unfold do_PUSH. rewrite push_memcpy_never_ok. by case_match. Qed.

Lemma set_ReportIDSizes_wf l n u d :
  wf_info d -> length l = HID_MAX_REPORT_IDS -> (1 <= n <= HID_MAX_REPORT_IDS)%nat ->
  Forall (fun e => length (ReportSizeBits e) = 3%nat) l ->
  wf_info (set_ReportIDSizes l n u d).
Proof. intros []. by constructor. Qed.

Lemma assign_ReportID_wf i id p :
  wf_parser p -> (i < HID_MAX_REPORT_IDS)%nat -> wf_step False (assign_ReportID i id p).
Proof.
  intros Hp Hi. unfold assign_ReportID. pose proof (wf_data p Hp) as Hd.
  destruct (lookup_lt_is_Some_2 (ReportIDSizes (ParserData p)) i) as [e He].
  { by rewrite wf_ids. }
  rewrite He. simpl. constructor; simpl; try apply Hp; [done|].
  apply set_ReportIDSizes_wf; try apply Hd.
  - by rewrite length_insert, wf_ids.
  - apply Forall_insert; [apply Hd|]. simpl.
    apply (Forall_lookup_1 _ _ _ _ (wf_sizes _ Hd) He).
Qed.

Lemma find_ReportID_bound i n id l k : find_ReportID i n id l = Some k -> (k < length l)%nat.
Proof.
  revert i. induction n as [|n IH]; intros i; simpl; [done|].
  destruct (l !! i) eqn:E; [|done]. case_match; [|apply IH].
  intros [= <-]. by eapply lookup_lt_Some.
Qed.

Lemma do_REPORT_ID_wf data p : wf_parser p -> wf_step False (do_REPORT_ID data p).
Proof.
  intros Hp. unfold do_REPORT_ID.
  pose proof (on_CurrStateTable_wf (set_st_ReportID (u8 data)) p Hp) as Hq.
  destruct (on_CurrStateTable _ p) as [q| |]; simpl in *; [|done..].
  pose proof (wf_data q Hq) as Hd.
  case_match; [|apply assign_ReportID_wf; [done|apply Hq]].
  destruct (find_ReportID _ _ _ _) as [i|] eqn:Hf.
  - apply assign_ReportID_wf; [done|]. rewrite <- (wf_ids _ Hd).
    by eapply find_ReportID_bound.
  - destruct (Nat.eqb_spec (TotalDeviceReports (ParserData q)) HID_MAX_REPORT_IDS); simpl; [done|].
    pose proof (wf_reports _ Hd). apply assign_ReportID_wf; [|lia].
    apply set_ParserData_wf; [done|].
    apply set_ReportIDSizes_wf; [done| |lia|].
    + by rewrite length_insert, wf_ids.
    + apply Forall_insert; [apply Hd|done].
Qed.

Lemma do_USAGE_wf data p : wf_parser p -> wf_step False (do_USAGE data p).
Proof.
  intros Hp. unfold do_USAGE.
  destruct (Nat.eqb_spec (UsageListSize p) HID_USAGE_STACK_DEPTH); simpl; [done|].
  pose proof (wf_usage_size p Hp). rewrite wf_usages by done.
  destruct (Nat.ltb_spec (UsageListSize p) HID_USAGE_STACK_DEPTH); [|lia].
  constructor; simpl; try apply Hp; [|lia]. by rewrite length_insert, wf_usages.
Qed.

Lemma free_collection_bound i n l k :
  free_collection i n l = Some k -> (k < length l)%nat.
Proof.
  revert i. induction n as [|n IH]; intros i; simpl; destruct (l !! i) eqn:E; try done;
    destruct (Parent _); try done; try (intros [= <-]; by eapply lookup_lt_Some).
  apply IH.
Qed.

Lemma open_collection_wf i par data p :
  wf_parser p -> (i < HID_MAX_COLLECTIONS)%nat ->
  from_option (fun j => j < HID_MAX_COLLECTIONS)%nat True par ->
  wf_step False (open_collection i par data p).
Proof.
  intros Hp Hi Hpar. unfold open_collection. pose proof (wf_data p Hp) as Hd.
  destruct (lookup_lt_is_Some_2 (CollectionPaths (ParserData p)) i) as [c ->].
  { by rewrite wf_paths. }
  destruct (wf_curr_lookup p Hp) as [t ->].
  destruct (take_usage_wf (Usage (col_Usage c)) p Hp) as (u & q & -> & Hq).
  simpl. destruct (wf_data q Hq). constructor; simpl; try apply Hq; [done|].
  constructor; simpl; try done.
  - by rewrite length_insert.
  - by apply Forall_insert.
Qed.

Lemma do_COLLECTION_wf data p : wf_parser p -> wf_step False (do_COLLECTION data p).
Proof.
  intros Hp. unfold do_COLLECTION. pose proof (wf_data p Hp) as Hd.
  destruct (CurrCollectionPath p) as [par|] eqn:E.
  - destruct (free_collection _ _ _) as [i|] eqn:Hf; [|done].
    apply open_collection_wf; [done| |].
    + rewrite <- (wf_paths _ Hd). by eapply free_collection_bound.
    + pose proof (wf_path p Hp) as Hpath. by rewrite E in Hpath.
  - destruct (lookup_lt_is_Some_2 (CollectionPaths (ParserData p)) 0) as [c Hc].
    { rewrite wf_paths by done. unfold HID_MAX_COLLECTIONS. lia. }
    rewrite Hc. apply open_collection_wf; [done|unfold HID_MAX_COLLECTIONS; lia|].
    apply (Forall_lookup_1 _ _ _ _ (wf_parents _ Hd) Hc).
Qed.

Lemma do_END_COLLECTION_wf p : wf_parser p -> wf_step False (do_END_COLLECTION p).
Proof.
  intros Hp. unfold do_END_COLLECTION. pose proof (wf_data p Hp) as Hd.
  destruct (CurrCollectionPath p) as [i|] eqn:E; [|done].
  pose proof (wf_path p Hp) as Hpath. rewrite E in Hpath. simpl in Hpath.
  destruct (lookup_lt_is_Some_2 (CollectionPaths (ParserData p)) i) as [c Hc].
  { by rewrite wf_paths. }
  rewrite Hc. simpl. constructor; simpl; try apply Hp.
  apply (Forall_lookup_1 _ _ _ _ (wf_parents _ Hd) Hc).
Qed.

Section ParserProofs.
Context (indet : Z) (keep : HID_ReportItem_t -> bool).

Lemma item_type_bound tag : (item_type tag < 3)%nat.
Proof. unfold item_type, HID_REPORT_ITEM_In, HID_REPORT_ITEM_Out, HID_REPORT_ITEM_Feature.
  repeat case_match; lia. Qed.

Lemma set_items_wf n items sizes largest d :
  wf_info d -> (n <= HID_MAX_REPORTITEMS)%nat -> length items = HID_MAX_REPORTITEMS ->
  length sizes = HID_MAX_REPORT_IDS ->
  Forall (fun e => length (ReportSizeBits e) = 3%nat) sizes ->
  wf_info (set_items n items sizes largest d).
Proof. intros []. by constructor. Qed.

Lemma append_item_wf t u tag data q :
  wf_parser q -> wf_step False (append_item indet keep t u tag data q).
Proof.
  intros Hq. unfold append_item. pose proof (wf_data q Hq) as Hd.
  destruct (wf_id_lookup q Hq) as [e He]. rewrite He.
  destruct (wf_size_lookup _ _ _ (item_type tag) Hd He (item_type_bound tag)) as [off ->].
  assert (forall b : Z, Forall (fun e => length (ReportSizeBits e) = 3%nat)
    (<[CurrReportIDInfo q := {| size_ReportID := size_ReportID e;
        ReportSizeBits := <[item_type tag := b]> (ReportSizeBits e) |}]>
      (ReportIDSizes (ParserData q)))) as Hsz.
  { intros b. apply Forall_insert; [apply Hd|]. simpl. rewrite length_insert.
    apply (Forall_lookup_1 _ _ _ _ (wf_sizes _ Hd) He). }
  pose proof (wf_total _ Hd).
  case_match eqn:Hfull; [|apply Nat.eqb_neq in Hfull; rewrite (proj2 (Nat.ltb_lt _ _))
      by (rewrite wf_items by done; lia)];
    simpl; (apply set_ParserData_wf; [done|]); apply set_items_wf;
    rewrite ?length_insert; try apply Hd; auto.
  case_match; lia.
Qed.

Lemma do_item_wf tag data p : wf_parser p -> wf_step False (do_item indet keep tag data p).
Proof.
  intros Hp. unfold do_item. destruct (wf_curr_lookup p Hp) as [t ->].
  destruct (take_usage_wf (Usage (attr_Usage (st_Attributes t))) p Hp) as (u & q & -> & Hq).
  by apply append_item_wf.
Qed.

Lemma do_items_wf n tag data p : wf_parser p -> wf_step False (do_items indet keep n tag data p).
Proof.
  revert p. induction n as [|n IH]; intros p Hp; simpl; [done|].
  pose proof (do_item_wf tag data p Hp).
  destruct (do_item indet keep tag data p); simpl in *; auto.
Qed.

Lemma do_MAIN_wf tag data p : wf_parser p -> wf_step False (do_MAIN indet keep tag data p).
Proof.
  intros Hp. unfold do_MAIN. destruct (wf_curr_lookup p Hp) as [t ->]. by apply do_items_wf.
Qed.

Lemma wf_step_mono (P Q : Prop) r : (P -> Q) -> wf_step P r -> wf_step Q r.
Proof. destruct r; simpl; auto. Qed.

(** Every item leaves the parser well-formed, and only PUSH can fault. *)
Lemma do_tag_wf item data p :
  wf_parser p ->
  wf_step (Z.land item (Z.lor HID_RI_TYPE_MASK HID_RI_TAG_MASK) = RI_PUSH)
          (do_tag indet keep item data p).
Proof.
  intros Hp. unfold do_tag. cbv zeta.
  destruct (Z.eqb_spec (Z.land item (Z.lor HID_RI_TYPE_MASK HID_RI_TAG_MASK)) RI_PUSH) as [e|e].
  { eapply wf_step_mono; [|by apply do_PUSH_wf]. done. }
  apply (wf_step_mono False); [done|].
  repeat (case_match; [solve [ apply do_POP_wf, Hp | apply on_CurrStateTable_wf, Hp
    | apply do_REPORT_ID_wf, Hp | apply do_USAGE_wf, Hp | apply do_COLLECTION_wf, Hp
    | apply do_END_COLLECTION_wf, Hp | apply do_MAIN_wf, Hp
    | destruct Hp; by constructor ]|]).
  done.
Qed.

Lemma end_item_wf item p : wf_parser p -> wf_parser (end_item item p).
Proof.
  intros Hp. unfold end_item. case_match; [|done].
  destruct Hp. constructor; simpl; try done. lia.
Qed.

Lemma initial_parser_wf : wf_parser (initial_parser indet).
Proof.
  constructor; simpl; try done; unfold HID_STATETABLE_STACK_DEPTH, HID_MAX_REPORT_IDS,
    HID_USAGE_STACK_DEPTH; try lia.
  constructor; simpl; try done; unfold HID_MAX_REPORT_IDS; try lia; repeat constructor.
Qed.

(** Descriptors made of complete items, none of them a PUSH. *)
Fixpoint items_ok (n : nat) (data : bytes) : bool :=
  match n, data with
  | _, [] => true
  | O, _ => false
  | S n, item :: rest =>
      negb (Z.land item (Z.lor HID_RI_TYPE_MASK HID_RI_TAG_MASK) =? RI_PUSH) &&
      match item_data item rest with
      | Some (_, _, rest) => items_ok n rest
      | None => false
      end
  end.

Lemma item_data_length item data v len rest :
  item_data item data = Some (v, len, rest) ->
  Z.of_nat (length data) = len + Z.of_nat (length rest) /\ 0 <= len.
Proof.
  unfold item_data. repeat case_match; intros; simplify_eq; cbn [length]; lia.
Qed.

Lemma process_ok n data p :
  wf_parser p -> items_ok n data = true -> (length data <= n)%nat ->
  Z.of_nat (length data) < 2 ^ 16 ->
  exists code d, process indet keep (S n) data (Z.of_nat (length data)) p = Returned code d
                 /\ wf_info d.
Proof.
  revert data p. induction n as [|n IH]; intros data p Hp Hok Hn Hlen.
  { destruct data; [|cbn [length] in Hn; lia]. cbn. eexists _, _. split; [done|apply Hp]. }
  destruct data as [|item data].
  { cbn. eexists _, _. split; [done|apply Hp]. }
  cbn [items_ok] in Hok. apply andb_true_iff in Hok as [Hpush Hok].
  apply negb_true_iff, Z.eqb_neq in Hpush.
  destruct (item_data item data) as [[[v len] rest]|] eqn:Hd; [|done].
  destruct (item_data_length _ _ _ _ _ Hd) as [Hl Hl0].
  cbn [length] in Hn, Hlen.
  remember (S n) as n1. cbn [process]. subst n1.
  destruct (Z.eqb_spec (Z.of_nat (length (item :: data))) 0); [done|].
  rewrite Hd. pose proof (do_tag_wf item v p Hp) as Htag.
  destruct (do_tag indet keep item v p) as [p'|code p'|]; simpl in Htag; [| |done].
  - rewrite wrap_id, wrap_id by (rewrite ?wrap_id; unfold fits; cbn [length]; lia).
    replace (Z.of_nat (length (item :: data)) - 1 - len) with (Z.of_nat (length rest))
      by (cbn [length]; lia).
    apply IH; [by apply end_item_wf|done|lia|lia].
  - eexists _, _. split; [done|apply Htag].
Qed.
End ParserProofs.

(** ** Extraction and insertion of item values *)

(** Bit [k] of a report, numbered from the least significant bit of its first
    byte. *)
Definition report_bit (data : bytes) (k : Z) : bool :=
  match byte_at data (k / 8) with Some b => Z.testbit b (k mod 8) | None => false end.

Lemma byte_at_lt data k :
  0 <= k < 8 * Z.of_nat (length data) -> exists b, byte_at data (k / 8) = Some b.
Proof.
  intros [? ?]. apply lookup_lt_is_Some_2. apply Nat2Z.inj_lt.
  assert (0 <= k / 8) by (apply Z.div_pos; lia).
  rewrite Z2Nat.id by done. apply Z.div_lt_upper_bound; lia.
Qed.

Lemma shift_mask j : 0 <= j < 32 -> u32 (Z.shiftl (u32 (bit j)) 1) = u32 (bit (j + 1)).
Proof.
  intros. unfold bit. rewrite (wrap_id 32 (Z.shiftl 1 j)).
  - by rewrite Z.shiftl_shiftl by lia.
  - rewrite Z.shiftl_1_l. split; [apply Z.pow_nonneg; lia|apply Z.pow_lt_mono_r; lia].
Qed.

Lemma get_bits_spec n : forall data c j v,
  0 <= c -> c + Z.of_nat n <= 8 * Z.of_nat (length data) < 2 ^ 16 ->
  0 <= j -> j + Z.of_nat n <= 32 -> 0 <= v ->
  (forall i, j <= i -> Z.testbit v i = false) ->
  exists v', get_bits n data c (u32 (bit j)) v = Some v' /\ 0 <= v' /\
    forall i, 0 <= i -> Z.testbit v' i =
      if i <? j then Z.testbit v i else (i <? j + Z.of_nat n) && report_bit data (c + i - j).
Proof.
  induction n as [|n IH]; intros data c j v Hc Hcn Hj Hjn Hv Hhi.
  { exists v. split; [done|]. split; [done|]. intros i Hi.
    destruct (Z.ltb_spec i j); [done|]. rewrite Hhi by lia.
    destruct (Z.ltb_spec i (j + Z.of_nat 0)); [lia|done]. }
  cbn [get_bits]. destruct (byte_at_lt data c) as [b Hb]; [lia|]. rewrite Hb.
  change (negb (Z.land b (Z.shiftl 1 (c mod 8)) =? 0)) with (has_bit b (c mod 8)).
  assert (0 <= c mod 8 < 8) by (apply Z.mod_pos_bound; lia).
  rewrite has_bit_testbit by lia.
  set (v1 := if Z.testbit b (c mod 8) then Z.lor v (u32 (bit j)) else v).
  assert (Hbits : forall i, 0 <= i -> Z.testbit v1 i =
            if i =? j then report_bit data c else Z.testbit v i).
  { intros i Hi. unfold v1, report_bit. rewrite Hb.
    destruct (Z.testbit b (c mod 8)); autorewrite with bits;
      destruct (Z.eqb_spec i j) as [->|]; rewrite ?Hhi by lia;
      try destruct (Z.ltb_spec j 32); try lia; autorewrite with bits; done. }
  assert (0 <= v1).
  { unfold v1. case_match; [|done]. apply Z.lor_nonneg. split; [done|].
    apply (wrap_fits 32). lia. }
  rewrite shift_mask, (wrap_id 16) by (unfold fits; lia).
  destruct (IH data (c + 1) (j + 1) v1) as (v' & Hget & Hv' & Htb); try lia.
  { intros i Hi. rewrite Hbits by lia. destruct (Z.eqb_spec i j); [lia|]. apply Hhi. lia. }
  exists v'. split; [done|]. split; [done|]. intros i Hi. rewrite Htb, Hbits by lia.
  destruct (Z.ltb_spec i (j + 1)), (Z.ltb_spec i j); try lia.
  - destruct (Z.eqb_spec i j); [lia|done].
  - destruct (Z.eqb_spec i j); [|lia]. subst i. replace (c + j - j) with c by lia.
    destruct (Z.ltb_spec j (j + Z.of_nat (S n))); [done|lia].
  - replace (c + 1 + i - (j + 1)) with (c + i - j) by lia. f_equal.
    destruct (Z.ltb_spec i (j + 1 + Z.of_nat n)), (Z.ltb_spec i (j + Z.of_nat (S n))); lia || done.
Qed.

(** The part of a report after the report ID byte, for items that have one. *)
Definition payload (item : HID_ReportItem_t) (data : bytes) : bytes :=
  if item_ReportID item =? 0 then data else tail data.

(** The item is in the report: it belongs to it and its bits are inside. *)
Definition in_report (item : HID_ReportItem_t) (data : bytes) : Prop :=
  (item_ReportID item = 0 \/ hd_error data = Some (item_ReportID item)) /\
  0 <= BitOffset item /\ 0 <= BitSize (Attributes item) /\
  BitOffset item + BitSize (Attributes item) <= 8 * Z.of_nat (length (payload item data)) < 2 ^ 16.

Lemma GetItem_spec item data :
  in_report item data -> BitSize (Attributes item) <= 32 ->
  exists v, USB_GetHIDReportItemInfo data (Some item)
              = Some (true, Some (set_item_value v (Value item) item)) /\
    0 <= v /\
    forall i, 0 <= i -> Z.testbit v i =
      (i <? BitSize (Attributes item)) && report_bit (payload item data) (BitOffset item + i).
Proof.
  intros (Hid & Ho & Hb & Hin) H32.
  destruct (get_bits_spec (Z.to_nat (BitSize (Attributes item))) (payload item data)
              (BitOffset item) 0 0) as (v & Hv & Hv0 & Hbits); rewrite ?Z2Nat.id; try lia.
  { intros. apply Z.testbit_0_l. }
  exists v. split; [|split; [done|]].
  - unfold USB_GetHIDReportItemInfo. unfold payload in Hv. change (u32 (bit 0)) with 1 in Hv.
    destruct (Z.eqb_spec (item_ReportID item) 0); simpl; [by rewrite Hv|].
    destruct Hid as [|Hid]; [done|]. destruct data as [|id data]; [done|].
    injection Hid as ->. rewrite Z.eqb_refl. simpl in *. by rewrite Hv.
  - intros i Hi. rewrite Hbits by done. rewrite Z2Nat.id by lia.
    destruct (Z.ltb_spec i 0); [lia|]. by rewrite Z.sub_0_r.
Qed.

(** What [USB_SetHIDReportItemInfo] writes for an item that starts on a byte
    boundary: the low eight bits of the value, in the first byte of the item. *)
Lemma set_bits_aligned n : forall data k j v b,
  0 <= k -> 0 <= j -> j + Z.of_nat n <= 32 ->
  8 * k + j + Z.of_nat n <= 8 * Z.of_nat (length data) < 2 ^ 16 -> all_bytes data ->
  data !! Z.to_nat k = Some b ->
  exists b', set_bits n data (8 * k + j) (u32 (bit j)) v = Some (<[Z.to_nat k := b']> data) /\
    is_u8 b' /\
    forall i, 0 <= i -> Z.testbit b' i =
      Z.testbit b i || ((j <=? i) && (i <? j + Z.of_nat n) && (i <? 8) && Z.testbit v i).
Proof.
  induction n as [|n IH]; intros data k j v b Hk Hj Hjn Hlen Hall Hb.
  { exists b. split; [by rewrite list_insert_id|].
    split; [by eapply Forall_lookup_1|]. intros i Hi.
    destruct (Z.leb_spec j i), (Z.ltb_spec i (j + Z.of_nat 0)); simpl; rewrite ?orb_false_r; lia || done. }
  assert (Hb8 : is_u8 b) by (by eapply Forall_lookup_1).
  cbn [set_bits]. rewrite shift_mask, (wrap_id 16) by (unfold fits; lia).
  replace (8 * k + j + 1) with (8 * k + (j + 1)) by lia.
  change (negb (Z.land v (Z.shiftl 1 ((8 * k + j) mod 8)) =? 0))
    with (has_bit v ((8 * k + j) mod 8)).
  replace ((8 * k + j) mod 8) with (j mod 8)
    by (rewrite (Z.add_comm (8 * k)), (Z.mul_comm 8 k), Z_mod_plus_full; done).
  replace ((8 * k + j) / 8) with (k + j / 8)
    by (rewrite (Z.add_comm (8 * k)), (Z.mul_comm 8 k), Z.div_add by lia; lia).
  assert (0 <= j mod 8 < 8) by (apply Z.mod_pos_bound; lia).
  rewrite has_bit_testbit by lia.
  destruct (Z.testbit v (j mod 8)) eqn:Hv.
  - destruct (decide (j < 8)) as [Hj8|Hj8].
    + rewrite Z.div_small, Z.add_0_r, Hb by lia.
      set (b1 := u8 (Z.lor b (u32 (bit j)))).
      assert (Hb1 : forall i, 0 <= i -> Z.testbit b1 i = Z.testbit b i || (i =? j)).
      { intros i Hi. unfold b1. autorewrite with bits.
        destruct (Z.ltb_spec i 8), (Z.ltb_spec i 32), (Z.eqb_spec i j); simpl;
          rewrite ?orb_false_r; try lia; try done.
        all: symmetry; apply (fits_testbit 8); [done|lia]. }
      destruct (IH (<[Z.to_nat k := b1]> data) k (j + 1) v b1) as (b' & Hset & Hb' & Hbits);
        rewrite ?length_insert; try lia.
      { apply Forall_insert; [done|]. by apply wrap_fits. }
      { apply list_lookup_insert_eq. by eapply lookup_lt_Some. }
      exists b'. rewrite list_insert_insert_eq in Hset. split; [done|]. split; [done|].
      intros i Hi. rewrite Hbits, Hb1 by done. rewrite Z.mod_small in Hv by lia.
      destruct (Z.eqb_spec i j) as [->|].
      * rewrite Hv. destruct (Z.leb_spec j j), (Z.ltb_spec j 8), (Z.ltb_spec j (j + Z.of_nat (S n)));
          try lia; by rewrite !orb_true_r.
      * rewrite orb_false_r. do 3 f_equal.
        destruct (Z.leb_spec (j + 1) i), (Z.leb_spec j i),
          (Z.ltb_spec i (j + 1 + Z.of_nat n)), (Z.ltb_spec i (j + Z.of_nat (S n))); lia || done.
    + destruct (lookup_lt_is_Some_2 data (Z.to_nat (k + j / 8))) as [bj Hbj].
      { apply Nat2Z.inj_lt. rewrite Z2Nat.id by (assert (0 <= j / 8) by (apply Z.div_pos; lia); lia).
        assert (8 * (j / 8) <= j) by (apply Z.mul_div_le; lia). lia. }
      rewrite Hbj. replace (u8 (Z.lor bj (u32 (bit j)))) with bj.
      2: { assert (is_u8 bj) by (by eapply Forall_lookup_1). bitwise.
           destruct (Z.ltb_spec i 8); simpl; [|by apply (fits_testbit 8)].
           destruct (Z.eqb_spec i j); [lia|]. autorewrite with bits. done. }
      rewrite list_insert_id by done.
      destruct (IH data k (j + 1) v b) as (b' & Hset & Hb' & Hbits); try lia; try done.
      exists b'. split; [done|]. split; [done|]. intros i Hi. rewrite Hbits by done. f_equal.
      destruct (Z.ltb_spec i 8); [|by rewrite !andb_false_r].
      destruct (Z.leb_spec j i), (Z.leb_spec (j + 1) i); lia || done.
  - destruct (IH data k (j + 1) v b) as (b' & Hset & Hb' & Hbits); try lia; try done.
    exists b'. split; [done|]. split; [done|]. intros i Hi. rewrite Hbits by done. f_equal.
    destruct (Z.ltb_spec i 8); [|by rewrite !andb_false_r].
    destruct (decide (i = j)) as [->|].
    + rewrite Z.mod_small in Hv by lia. by rewrite Hv, !andb_false_r.
    + do 2 f_equal. destruct (Z.leb_spec (j + 1) i), (Z.leb_spec j i),
        (Z.ltb_spec i (j + 1 + Z.of_nat n)), (Z.ltb_spec i (j + Z.of_nat (S n))); lia || done.
Qed.

(** The bits of a report are the bits of its little-endian value. *)
Lemma report_bit_le_val data k :
  all_bytes data -> 0 <= k -> report_bit data k = Z.testbit (le_val data) k.
Proof.
  intros Hall. revert k. induction Hall as [|b data Hb Hall IH]; intros k Hk.
  { unfold report_bit, byte_at. by rewrite Z.testbit_0_l. }
  cbn [le_val]. autorewrite with bits. unfold report_bit, byte_at in *.
  destruct (decide (k < 8)).
  - rewrite Z.div_small, Z.mod_small, (Z.testbit_neg_r _ (k - 8)) by lia. by rewrite orb_false_r.
  - rewrite (fits_testbit 8 b) by (done || lia). rewrite <- (IH (k - 8)) by lia.
    replace k with (k - 8 + 1 * 8) by lia. rewrite Z.div_add, Z_mod_plus_full by lia.
    replace (k - 8 + 1 * 8 - 8) with (k - 8) by lia.
    assert (0 <= (k - 8) / 8) by (apply Z.div_pos; lia).
    by replace (Z.to_nat ((k - 8) / 8 + 1)) with (S (Z.to_nat ((k - 8) / 8))) by lia.
Qed.

Lemma payload_all item data : all_bytes data -> all_bytes (payload item data).
Proof. unfold payload. intros H. case_match; [done|]. by destruct H; [constructor|]. Qed.

Lemma in_report_length item data data' :
  item_ReportID item = 0 -> in_report item data -> length data' = length data ->
  in_report (set_item_value (Value item) (Value item) item) data'.
Proof.
  unfold in_report, payload. simpl. intros -> (? & ? & ? & Hl) Hlen. simpl in *.
  rewrite Hlen. by split; [left|].
Qed.

Lemma report_bit_insert data k b b' i :
  0 <= k -> 0 <= i -> data !! Z.to_nat k = Some b ->
  report_bit (<[Z.to_nat k := b']> data) i =
    if i / 8 =? k then Z.testbit b' (i mod 8) else report_bit data i.
Proof.
  intros Hk Hi Hb. unfold report_bit, byte_at.
  assert (0 <= i / 8) by (apply Z.div_pos; lia).
  destruct (Z.eqb_spec (i / 8) k) as [->|].
  - by rewrite list_lookup_insert_eq by (by eapply lookup_lt_Some).
  - by rewrite list_lookup_insert_ne by lia.
Qed.

(** [USB_GetHIDReportItemInfo] extracts exactly the item's bits.  For an
    item that lies inside of the report and is at most 32 bits wide, the call
    succeeds, keeps the old value in [PreviousValue], and the new [Value] is the
    [BitSize] bits at [BitOffset] of the report (after the report ID byte) read
    as one little-endian number. *)
Lemma USB_GetHIDReportItemInfo_value item data :
  all_bytes data -> in_report item data -> BitSize (Attributes item) <= 32 ->
  USB_GetHIDReportItemInfo data (Some item) =
    Some (true, Some (set_item_value
      (Z.land (Z.shiftr (le_val (payload item data)) (BitOffset item))
              (Z.ones (BitSize (Attributes item))))
      (Value item) item)).
Proof.
  intros Hall Hin H32. destruct (GetItem_spec item data Hin H32) as (v & -> & _ & Hbits).
  destruct Hin as (_ & ? & ? & _). do 4 f_equal. apply Z.bits_inj'. intros i Hi.
  rewrite Hbits by done. autorewrite with bits. rewrite Z.testbit_ones_nonneg by lia.
  rewrite report_bit_le_val by (by apply payload_all || lia). rewrite andb_comm.
  by rewrite (Z.add_comm i).
Qed.

Definition example_item (id off size v : Z) : HID_ReportItem_t :=
  {| BitOffset := off; ItemType := HID_REPORT_ITEM_In; ItemFlags := 2; item_ReportID := id;
     CollectionPath := None; Attributes := set_BitSize size zero_Attributes;
     Value := v; PreviousValue := 0 |}.

(** For a byte-aligned item of at most 8 bits, [USB_SetHIDReportItemInfo] or-s
    the value into the item's bits. *)
Lemma SetItem_spec item data :
  all_bytes data -> item_ReportID item = 0 -> in_report item data ->
  BitOffset item mod 8 = 0 -> 1 <= BitSize (Attributes item) <= 8 ->
  exists data', USB_SetHIDReportItemInfo data (Some item)
                  = Some (data', Some (set_item_value (Value item) (Value item) item)) /\
    length data' = length data /\
    forall i, 0 <= i -> report_bit data' i =
      report_bit data i || ((BitOffset item <=? i)
                            && (i <? BitOffset item + BitSize (Attributes item))
                            && Z.testbit (Value item) (i - BitOffset item)).
Proof.
  intros Hall Hid (_ & Ho & _ & Hfit) Hal Hsz.
  unfold payload in Hfit. rewrite Hid in Hfit. simpl in Hfit.
  set (size := BitSize (Attributes item)) in *. set (k := BitOffset item / 8).
  assert (Hk : BitOffset item = 8 * k + 0) by (pose proof (Z.div_mod (BitOffset item) 8); lia).
  destruct (byte_at_lt data (BitOffset item)) as [b Hb]; [lia|].
  destruct (set_bits_aligned (Z.to_nat size) data k 0 (Value item) b)
    as (b' & Hset & Hb' & Hbits); try done; try lia.
  rewrite <- Hk in Hset. change (u32 (bit 0)) with 1 in Hset.
  eexists. split; [|split; [apply length_insert|]].
  { unfold USB_SetHIDReportItemInfo. rewrite Hid. simpl. fold size. by rewrite Hset. }
  intros i Hi. rewrite (report_bit_insert data k b b') by (done || lia).
  pose proof (Z.div_mod i 8). destruct (Z.eqb_spec (i / 8) k) as [Hik|Hik].
  - assert (0 <= i mod 8 < 8) by (apply Z.mod_pos_bound; lia).
    rewrite Hbits by lia. unfold report_bit. rewrite Hik. unfold k, byte_at in *. rewrite Hb.
    replace (i - BitOffset item) with (i mod 8) by lia. do 2 f_equal.
    destruct (Z.leb_spec 0 (i mod 8)), (Z.ltb_spec (i mod 8) (0 + Z.of_nat (Z.to_nat size))),
      (Z.ltb_spec (i mod 8) 8), (Z.leb_spec (BitOffset item) i),
      (Z.ltb_spec i (BitOffset item + size)); lia || done.
  - destruct (Z.leb_spec (BitOffset item) i), (Z.ltb_spec i (BitOffset item + size));
      simpl; rewrite ?orb_false_r; try done. destruct Hik. symmetry.
    apply (Z.div_unique i 8 k (i - BitOffset item)); lia.
Qed.

(** an item that [USB_SetHIDReportItemInfo] stores can be read back by
    [USB_GetHIDReportItemInfo], provided that it starts on a byte boundary, is
    at most 8 bits wide and its bits of the report were clear. *)
Lemma USB_SetHIDReportItemInfo_roundtrip item data :
  all_bytes data -> item_ReportID item = 0 -> in_report item data ->
  BitOffset item mod 8 = 0 -> 1 <= BitSize (Attributes item) <= 8 ->
  fits (BitSize (Attributes item)) (Value item) ->
  (forall k, BitOffset item <= k < BitOffset item + BitSize (Attributes item) ->
     report_bit data k = false) ->
  exists data', USB_SetHIDReportItemInfo data (Some item)
                  = Some (data', Some (set_item_value (Value item) (Value item) item)) /\
    USB_GetHIDReportItemInfo data' (Some (set_item_value (Value item) (Value item) item))
      = Some (true, Some (set_item_value (Value item) (Value item) item)) /\
    forall k, 0 <= k -> ~ (BitOffset item <= k < BitOffset item + BitSize (Attributes item)) ->
      report_bit data' k = report_bit data k.
Proof.
  intros Hall Hid Hin Hal Hsz Hv Hclear.
  destruct (SetItem_spec item data) as (data' & Hset & Hlen & Hrb); try done.
  set (item' := set_item_value (Value item) (Value item) item) in *.
  exists data'. split; [done|]. split.
  - assert (Hin' : in_report item' data') by (by apply (in_report_length item data)).
    destruct (GetItem_spec item' data' Hin') as (v & -> & ? & Hvb); [simpl; lia|].
    replace v with (Value item); [done|]. apply Z.bits_inj'. intros i Hi.
    destruct Hin as (_ & ? & _).
    rewrite Hvb by done. unfold payload. simpl. rewrite Hid. simpl. rewrite Hrb by lia.
    replace (BitOffset item + i - BitOffset item) with i by lia.
    destruct (Z.ltb_spec i (BitSize (Attributes item))); simpl.
    + rewrite Hclear by lia. simpl.
      destruct (Z.leb_spec (BitOffset item) (BitOffset item + i)),
        (Z.ltb_spec (BitOffset item + i) (BitOffset item + BitSize (Attributes item)));
        lia || done.
    + apply (fits_testbit (BitSize (Attributes item))); [done|lia].
  - intros i Hi Hout. rewrite Hrb by done.
    destruct (Z.leb_spec (BitOffset item) i),
      (Z.ltb_spec i (BitOffset item + BitSize (Attributes item)));
      simpl; rewrite ?orb_false_r; lia || done.
Qed.

(** For an item that does not start on a byte boundary the setter loses the
    value: a one-bit item (a button) with value 1 at such an offset leaves the
    report as it was, so that reading the item back gives 0.  (The source tests
    the value with the report bit's mask and sets the report with the value
    bit's mask.) *)
Lemma USB_SetHIDReportItemInfo_unaligned_lost item data :
  item_ReportID item = 0 -> in_report item data ->
  BitOffset item mod 8 <> 0 -> BitSize (Attributes item) = 1 -> Value item = 1 ->
  report_bit data (BitOffset item) = false ->
  USB_SetHIDReportItemInfo data (Some item) = Some (data, Some (set_item_value 1 1 item)) /\
  USB_GetHIDReportItemInfo data (Some (set_item_value 1 1 item))
    = Some (true, Some (set_item_value 0 1 item)).
Proof.
  intros Hid Hin Hal Hsz Hv Hclear. split.
  - unfold USB_SetHIDReportItemInfo. rewrite Hid, Hsz, Hv. simpl.
    change (Z.shiftl 1 (BitOffset item mod 8)) with (bit (BitOffset item mod 8)).
    fold (has_bit 1 (BitOffset item mod 8)).
    assert (0 <= BitOffset item mod 8 < 8) by (apply Z.mod_pos_bound; lia).
    rewrite has_bit_testbit by lia. change 1 with (2 ^ 0). by rewrite Z.pow2_bits_false by lia.
  - set (item' := set_item_value 1 1 item).
    destruct (GetItem_spec item' data) as (v & -> & _ & Hb); [done|simpl; lia|].
    replace v with 0; [done|]. apply Z.bits_inj'. intros i Hi. rewrite Hb by done.
    unfold payload. simpl. rewrite Hid, Hsz, Z.testbit_0_l. simpl.
    destruct (Z.ltb_spec i 1); [|done]. replace (BitOffset item + i) with (BitOffset item) by lia.
    by rewrite Hclear.
Qed.

(** C7: [USB_ProcessHIDReport] is safe and total on descriptors made of complete
    items without PUSH: whatever they contain, and whatever the filter callback
    answers, the parser terminates with a result code, never accesses one of its
    tables out of bounds, and leaves all the tables of [HID_ReportInfo_t] within
    their limits. *)
Theorem USB_ProcessHIDReport_total indet keep data :
  items_ok (length data) data = true -> Z.of_nat (length data) < 2 ^ 16 ->
  exists code d, USB_ProcessHIDReport indet keep data (Z.of_nat (length data)) = Returned code d
                 /\ wf_info d.
Proof. intros. apply process_ok; auto using initial_parser_wf. Qed.

Lemma USB_ProcessHIDReport_total_witness :
  exists code d, USB_ProcessHIDReport 0 (fun _ => true)
    (HID_RI_REPORT_SIZE Bits8 8 ++ HID_RI_REPORT_COUNT Bits8 2 ++ HID_RI_INPUT Bits8 2) 6
    = Returned code d /\ wf_info d.
Proof. apply (USB_ProcessHIDReport_total 0 (fun _ => true)); vm_compute; reflexivity. Defined.

(** A PUSH item with an empty state stack is undefined behaviour: the
    [memcpy] moves [sizeof(HID_ReportItem_t)] = 42 bytes between adjacent
    28-byte entries of a two-entry table. *)
Lemma USB_ProcessHIDReport_push indet keep rest size :
  0 < size < 2 ^ 16 ->
  USB_ProcessHIDReport indet keep (HID_RI_PUSH Bits0 0 ++ rest) size = Faulted.
Proof.
  intros Hs. unfold USB_ProcessHIDReport. cbn [app length process].
  destruct (Z.eqb_spec size 0); [lia|]. reflexivity.
Qed.

Lemma USB_ProcessHIDReport_push_witness :
  USB_ProcessHIDReport 0 (fun _ => true) (HID_RI_PUSH Bits0 0 ++ [192]) 2 = Faulted.
Proof. apply USB_ProcessHIDReport_push. lia. Defined.

(** ** Encoding and decoding of items *)

Definition data_bytes (b : databits) : nat :=
  match b with Bits0 => 0 | Bits8 => 1 | Bits16 => 2 | Bits32 => 4 end.

Lemma HID_RI_ENCODE_le b x : HID_RI_ENCODE b x = le_bytes (data_bytes b) x.
Proof.
  assert (forall y, u8 (Z.land y 255) = u8 y) as E.
  { intros y. change 255 with (Z.ones 8). rewrite <- wrap_land by lia. apply wrap_wrap. }
  destruct b; cbn; unfold HID_RI_ENCODE_32, HID_RI_ENCODE_16, HID_RI_ENCODE_8; simpl;
    rewrite ?E, ?Z.shiftr_shiftr by lia; done.
Qed.

Lemma land_disjoint x m n : Z.land m n = 0 -> Z.land (Z.land x m) n = 0.
Proof. intros H. by rewrite <- Z.land_assoc, H, Z.land_0_r. Qed.

Lemma item_data_le b h t rest :
  Z.land h HID_RI_DATA_SIZE_MASK = HID_RI_DATA_BITS b -> length t = data_bytes b ->
  item_data h (t ++ rest) = Some (le_val t, Z.of_nat (data_bytes b), rest).
Proof.
  intros Hh Ht. unfold item_data. rewrite Hh.
  destruct b; cbn -[Z.shiftl Z.lor] in *; repeat (destruct t as [|? t]; try done);
    cbn [app le_val]; do 3 f_equal; rewrite ?Z.shiftl_0_l, ?Z.lor_0_r; try done.
  - by rewrite Z.lor_comm.
  - rewrite !Z.shiftl_lor, !Z.shiftl_shiftl by lia.
    change (8 + 8) with 16. change (8 + 16) with 24. change (16 + 8) with 24. bitwise. btauto.
Qed.

(** The parser decodes what the item macros encode: an entry made with type
    [ty], tag [tag] and [b] bits of data starts with a byte from which the
    parser recovers type and tag, and the data bytes after it are decoded to the
    data modulo the data width, leaving the rest of the descriptor. *)
Lemma HID_RI_ENTRY_decode b ty tag x rest :
  Z.land ty HID_RI_TYPE_MASK = ty -> Z.land tag HID_RI_TAG_MASK = tag ->
  exists h t, HID_RI_ENTRY ty tag b x ++ rest = h :: t /\
    Z.land h (Z.lor HID_RI_TYPE_MASK HID_RI_TAG_MASK) = Z.lor ty tag /\
    item_data h t = Some (wrap (8 * Z.of_nat (data_bytes b)) x, Z.of_nat (data_bytes b), rest).
Proof.
  intros Hty Htag. do 2 eexists. split; [reflexivity|].
  assert (Hd : Z.land (HID_RI_DATA_BITS b) HID_RI_DATA_SIZE_MASK = HID_RI_DATA_BITS b)
    by (by destruct b).
  assert (Z.land ty 3 = 0) by (rewrite <- Hty; by apply land_disjoint).
  assert (Z.land ty 240 = 0) by (rewrite <- Hty; by apply land_disjoint).
  assert (Z.land tag 3 = 0) by (rewrite <- Htag; by apply land_disjoint).
  assert (Z.land tag 12 = 0) by (rewrite <- Htag; by apply land_disjoint).
  unfold HID_RI_DATA_SIZE_MASK, HID_RI_TYPE_MASK, HID_RI_TAG_MASK in *. split.
  - rewrite !Z.land_lor_distr_l, !Z.land_lor_distr_r.
    rewrite Hty, Htag, H0, H2, Z.lor_0_r, Z.lor_0_l. destruct b; by rewrite Z.lor_0_r.
  - rewrite <- le_val_bytes, HID_RI_ENCODE_le. apply item_data_le; [|apply length_le_bytes].
    unfold HID_RI_DATA_SIZE_MASK. rewrite !Z.land_lor_distr_l, H, H1. by rewrite Hd.
Qed.

Lemma HID_RI_ENTRY_decode_witness :
  exists h t, HID_RI_ENTRY HID_RI_TYPE_GLOBAL 0x10 Bits16 (-127) ++ [192] = h :: t /\
    Z.land h (Z.lor HID_RI_TYPE_MASK HID_RI_TAG_MASK) = RI_LOGICAL_MINIMUM /\
    item_data h t = Some (65409, 2, [192]).
Proof. apply (HID_RI_ENTRY_decode Bits16 HID_RI_TYPE_GLOBAL 0x10 (-127) [192]); reflexivity. Defined.
