(* ===== verification/ConfigDescriptors.v ===== *)
(** * The configuration descriptor parser

    [LUFA/Drivers/USB/Core/ConfigDescriptors.c] and [.h]: walking the chain of
    sub-descriptors of a configuration descriptor in memory.  The state of a
    walk is the number of bytes remaining, [*BytesRem], and the offset of
    [*CurrConfigLoc] in the buffer. *)
From S2P Require Import Prelude StdDescriptors Descriptors.

(** ** The code *)

(** A search stops with a value, reads outside of the buffer, or has not ended
    when the fuel is used up. *)
Inductive search (A : Type) : Type :=
  | Stops (a : A)
  | Faults
  | Runs_on.
Arguments Stops {A} a.
Arguments Faults {A}.
Arguments Runs_on {A}.

Inductive DSearch_Return_ErrorCodes_t : Set :=
  | DESCRIPTOR_SEARCH_Found
  | DESCRIPTOR_SEARCH_Fail
  | DESCRIPTOR_SEARCH_NotFound.

Inductive DSearch_Comp_Return_ErrorCodes_t : Set :=
  | DESCRIPTOR_SEARCH_COMP_Found
  | DESCRIPTOR_SEARCH_COMP_Fail
  | DESCRIPTOR_SEARCH_COMP_EndOfDescriptor.

#[global] Instance DSearch_Return_eq_dec : EqDecision DSearch_Return_ErrorCodes_t.
Proof. solve_decision. Defined.

Definition DESCRIPTOR_SIZE (Data : bytes) (p : Z) : option Z := load_byte Data p.
Definition DESCRIPTOR_TYPE (Data : bytes) (p : Z) : option Z := load_byte Data (p + 1).

Definition USB_GetNextDescriptor (Data : bytes) (BytesRem CurrConfigLoc : Z) : option (Z * Z) :=
  match DESCRIPTOR_SIZE Data CurrConfigLoc with
  | None => None
  | Some CurrDescriptorSize =>
      let CurrDescriptorSize :=
        if BytesRem <? CurrDescriptorSize then BytesRem else CurrDescriptorSize in
      Some (u16 (BytesRem - CurrDescriptorSize), CurrConfigLoc + CurrDescriptorSize)
  end.

(** The loops take as fuel a bound on the number of rounds. *)
Fixpoint USB_GetNextDescriptorOfType (fuel : nat) (Data : bytes) (Type_ : Z)
    (BytesRem CurrConfigLoc : Z) : search (Z * Z) :=
  match fuel with
  | O => Runs_on
  | S fuel =>
      if BytesRem =? 0 then Stops (BytesRem, CurrConfigLoc)
      else match USB_GetNextDescriptor Data BytesRem CurrConfigLoc with
           | None => Faults
           | Some (BytesRem, CurrConfigLoc) =>
               match DESCRIPTOR_TYPE Data CurrConfigLoc with
               | None => Faults
               | Some t =>
                   if t =? Type_ then Stops (BytesRem, CurrConfigLoc)
                   else USB_GetNextDescriptorOfType fuel Data Type_ BytesRem CurrConfigLoc
               end
           end
  end.

Fixpoint USB_GetNextDescriptorOfTypeBefore (fuel : nat) (Data : bytes) (Type_ BeforeType : Z)
    (BytesRem CurrConfigLoc : Z) : search (Z * Z) :=
  match fuel with
  | O => Runs_on
  | S fuel =>
      if BytesRem =? 0 then Stops (BytesRem, CurrConfigLoc)
      else match USB_GetNextDescriptor Data BytesRem CurrConfigLoc with
           | None => Faults
           | Some (BytesRem, CurrConfigLoc) =>
               match DESCRIPTOR_TYPE Data CurrConfigLoc with
               | None => Faults
               | Some t =>
                   if t =? Type_ then Stops (BytesRem, CurrConfigLoc)
                   else if t =? BeforeType then Stops (0, CurrConfigLoc)
                   else USB_GetNextDescriptorOfTypeBefore fuel Data Type_ BeforeType BytesRem CurrConfigLoc
               end
           end
  end.

Definition USB_GetNextDescriptorOfTypeAfter (fuel : nat) (Data : bytes) (Type_ AfterType : Z)
    (BytesRem CurrConfigLoc : Z) : search (Z * Z) :=
  match USB_GetNextDescriptorOfType fuel Data AfterType BytesRem CurrConfigLoc with
  | Stops (BytesRem, CurrConfigLoc) =>
      if negb (BytesRem =? 0) then USB_GetNextDescriptorOfType fuel Data Type_ BytesRem CurrConfigLoc
      else Stops (BytesRem, CurrConfigLoc)
  | r => r
  end.

(** [ComparatorRoutine] is the caller's; it looks at the descriptor at an
    offset of the buffer ([None]: it reads outside of the buffer). *)
Fixpoint USB_GetNextDescriptorComp (fuel : nat) (Data : bytes)
    (ComparatorRoutine : Z -> option DSearch_Return_ErrorCodes_t) (BytesRem CurrConfigLoc : Z)
    : search (DSearch_Comp_Return_ErrorCodes_t * Z * Z) :=
  match fuel with
  | O => Runs_on
  | S fuel =>
      if BytesRem =? 0 then Stops (DESCRIPTOR_SEARCH_COMP_EndOfDescriptor, BytesRem, CurrConfigLoc)
      else
        let PrevDescLoc := CurrConfigLoc in
        let PrevBytesRem := BytesRem in
        match USB_GetNextDescriptor Data BytesRem CurrConfigLoc with
        | None => Faults
        | Some (BytesRem, CurrConfigLoc) =>
            match ComparatorRoutine CurrConfigLoc with
            | None => Faults
            | Some DESCRIPTOR_SEARCH_Found =>
                Stops (DESCRIPTOR_SEARCH_COMP_Found, BytesRem, CurrConfigLoc)
            | Some DESCRIPTOR_SEARCH_Fail =>
                Stops (DESCRIPTOR_SEARCH_COMP_Fail, PrevBytesRem, PrevDescLoc)
            | Some DESCRIPTOR_SEARCH_NotFound =>
                USB_GetNextDescriptorComp fuel Data ComparatorRoutine BytesRem CurrConfigLoc
            end
        end
  end.

(** ** Chains of descriptors

    A descriptor starts with its size and its type. *)
Definition is_descriptor (d : bytes) : Prop :=
  exists ty body, d = Z.of_nat (length d) :: ty :: body /\ (length d < 256)%nat.
Definition type_of (d : bytes) : Z := default 0 (d !! 1%nat).

Lemma is_descriptor_length d : is_descriptor d -> (2 <= length d < 256)%nat.
Proof. intros (ty & body & Hd & Hl). rewrite Hd in *. simpl in *. lia. Qed.

Abbreviation len l := (Z.of_nat (length l)).

Section Chains.
Context (front : bytes).

(** Skipping the descriptor [d] at the current location. *)
Lemma GetNextDescriptor_skips d rest slack :
  is_descriptor d -> len (d ++ rest) < 2 ^ 16 ->
  USB_GetNextDescriptor (front ++ d ++ rest ++ slack) (len (d ++ rest)) (len front)
    = Some (len rest, len (front ++ d)).
Proof.
  intros Hd H16. pose proof (is_descriptor_length d Hd) as Hlen.
  destruct Hd as (ty & body & Hd & _). unfold USB_GetNextDescriptor, DESCRIPTOR_SIZE.
  replace (front ++ d ++ rest ++ slack)
    with (front ++ len d :: (ty :: body) ++ rest ++ slack) by (by rewrite Hd at 2).
  rewrite load_byte_middle, !length_app in *.
  destruct (Z.ltb_spec (Z.of_nat (length d + length rest)) (len d)); [lia|].
  rewrite wrap_id by (unfold fits; lia). f_equal. f_equal; lia.
Qed.

Lemma DESCRIPTOR_TYPE_at d rest :
  is_descriptor d -> DESCRIPTOR_TYPE (front ++ d ++ rest) (len front) = Some (type_of d).
Proof.
  intros (ty & body & Hd & _). unfold DESCRIPTOR_TYPE.
  replace (type_of d) with ty by (by rewrite Hd).
  replace (front ++ d ++ rest) with ((front ++ [len d]) ++ ty :: body ++ rest)
    by (rewrite <- app_assoc; by rewrite Hd at 2).
  etransitivity; [|apply load_byte_middle]. f_equal. rewrite length_app. simpl. lia.
Qed.
End Chains.

(** ** Searching a chain

    The searches look at the descriptors after the current one, [d0]; in the
    statements [ds] are those descriptors, [front] is what precedes the current
    one in the buffer and [slack] what follows the configuration descriptor. *)

Section Searches.
Context (slack : bytes).

(** One round, when there is a next descriptor. *)
Lemma next_type front d0 d rest :
  is_descriptor d0 -> is_descriptor d -> len (d0 ++ d ++ rest) < 2 ^ 16 ->
  let Data := front ++ d0 ++ d ++ rest ++ slack in
  len (d0 ++ d ++ rest) <> 0 /\
  USB_GetNextDescriptor Data (len (d0 ++ d ++ rest)) (len front)
    = Some (len (d ++ rest), len (front ++ d0)) /\
  DESCRIPTOR_TYPE Data (len (front ++ d0)) = Some (type_of d).
Proof.
  intros H0 Hd H16 Data. pose proof (is_descriptor_length _ H0). split; [|split].
  - rewrite length_app. lia.
  - unfold Data. rewrite (app_assoc d rest). by apply GetNextDescriptor_skips.
  - unfold Data. rewrite (app_assoc front). by apply DESCRIPTOR_TYPE_at.
Qed.

(** One round, at the last descriptor. *)
Lemma next_end front d0 :
  is_descriptor d0 ->
  len d0 <> 0 /\
  USB_GetNextDescriptor (front ++ d0 ++ slack) (len d0) (len front) = Some (0, len (front ++ d0)) /\
  DESCRIPTOR_TYPE (front ++ d0 ++ slack) (len (front ++ d0)) = slack !! 1%nat.
Proof.
  intros H0. pose proof (is_descriptor_length _ H0). split; [lia|]. split.
  - pose proof (GetNextDescriptor_skips front d0 [] slack H0) as E. rewrite app_nil_r in E.
    apply E. lia.
  - unfold DESCRIPTOR_TYPE, load_byte. rewrite (app_assoc front).
    destruct (Z.leb_spec 0 (len (front ++ d0) + 1)); [|lia].
    rewrite lookup_app_r by lia. f_equal. lia.
Qed.

(** Where a search that selects the [i]-th of [ds] stops. *)
Definition stopped_at (front d0 : bytes) (ds : list bytes) (i : nat) : Z * Z :=
  (len (concat (drop i ds)), len (front ++ d0 ++ concat (take i ds))).

Lemma stopped_at_S front d0 d ds i :
  stopped_at front d0 (d :: ds) (S i) = stopped_at (front ++ d0) d ds i.
Proof. unfold stopped_at. cbn [drop take concat]. by rewrite <- (app_assoc front). Qed.

(** The search with a bound, of which the one without is a special case. *)
Lemma search_before front d0 ds fuel Type_ BeforeType :
  is_descriptor d0 -> Forall is_descriptor ds -> len (d0 ++ concat ds) < 2 ^ 16 ->
  (length ds + 1 < fuel)%nat ->
  USB_GetNextDescriptorOfTypeBefore fuel (front ++ d0 ++ concat ds ++ slack) Type_ BeforeType
      (len (d0 ++ concat ds)) (len front) =
    match list_find (fun d => type_of d = Type_ \/ type_of d = BeforeType) ds with
    | Some (i, d) => let '(BytesRem, CurrConfigLoc) := stopped_at front d0 ds i in
                     Stops (if type_of d =? Type_ then BytesRem else 0, CurrConfigLoc)
    | None => if (2 <=? length slack)%nat then Stops (0, len (front ++ d0 ++ concat ds)) else Faults
    end.
Proof.
  revert front d0 fuel. induction ds as [|d ds IH]; intros front d0 fuel H0 Hds H16 Hf;
    (destruct fuel as [|fuel]; [lia|]); cbn [USB_GetNextDescriptorOfTypeBefore].
  - cbn [concat list_find app]. rewrite app_nil_r.
    destruct (next_end front d0 H0) as (Hne & -> & ->).
    rewrite (proj2 (Z.eqb_neq _ _) Hne).
    destruct (slack !! 1%nat) as [t|] eqn:Ht.
    + apply lookup_lt_Some in Ht. destruct (Nat.leb_spec 2 (length slack)); [|lia].
      destruct (t =? Type_); [done|]. destruct (t =? BeforeType); [done|].
      destruct fuel; [simpl in Hf; lia|done].
    + apply lookup_ge_None_1 in Ht. by destruct (Nat.leb_spec 2 (length slack)); [lia|].
  - apply Forall_cons_1 in Hds as [Hd Hds]. cbn [concat] in *. rewrite <- (app_assoc d).
    destruct (next_type front d0 d (concat ds) H0 Hd H16) as (Hne & -> & ->).
    rewrite (proj2 (Z.eqb_neq _ _) Hne). cbn [list_find].
    destruct (decide (type_of d = Type_ \/ type_of d = BeforeType)) as [E|E].
    + unfold stopped_at. cbn [drop take concat]. rewrite app_nil_r.
      destruct (Z.eqb_spec (type_of d) Type_) as [|E']; [done|].
      destruct E as [E|E]; [done|]. by rewrite E, Z.eqb_refl.
    + rewrite (proj2 (Z.eqb_neq (type_of d) Type_)), (proj2 (Z.eqb_neq (type_of d) BeforeType)) by tauto.
      rewrite (app_assoc front). rewrite IH; [|done|done|rewrite !length_app in *; lia|simpl in Hf; lia].
      destruct (list_find _ ds) as [[i d']|]; cbn [fmap option_fmap option_map prod_map fst snd].
      * by rewrite stopped_at_S.
      * by rewrite <- !app_assoc.
Qed.

Lemma OfType_as_Before fuel Data Type_ BytesRem CurrConfigLoc :
  USB_GetNextDescriptorOfType fuel Data Type_ BytesRem CurrConfigLoc =
  USB_GetNextDescriptorOfTypeBefore fuel Data Type_ Type_ BytesRem CurrConfigLoc.
Proof.
  revert BytesRem CurrConfigLoc. induction fuel as [|fuel IH]; intros; [done|]. simpl.
  repeat case_match; done || apply IH.
Qed.

(** C40: a search by type finds the next descriptor of that type.  On a chain of
    descriptors, [USB_GetNextDescriptorOfType] ends, and stops at the first
    descriptor of the given type after the current one, with the number of bytes
    from there to the end of the configuration.  When there is none it stops at
    the end with no bytes remaining, provided that at least two more bytes of
    the buffer follow; otherwise it reads outside of the buffer, for it looks at
    the type of a descriptor after the last. *)
Theorem GetNextDescriptorOfType_first front d0 ds fuel Type_ :
  is_descriptor d0 -> Forall is_descriptor ds -> len (d0 ++ concat ds) < 2 ^ 16 ->
  (length ds + 1 < fuel)%nat ->
  USB_GetNextDescriptorOfType fuel (front ++ d0 ++ concat ds ++ slack) Type_
      (len (d0 ++ concat ds)) (len front) =
    match list_find (fun d => type_of d = Type_) ds with
    | Some (i, _) => Stops (stopped_at front d0 ds i)
    | None => if (2 <=? length slack)%nat then Stops (0, len (front ++ d0 ++ concat ds)) else Faults
    end.
Proof.
  intros H0 Hds H16 Hf. rewrite OfType_as_Before, search_before by done.
  rewrite (list_find_ext _ (fun d => type_of d = Type_)) by tauto.
  destruct (list_find _ ds) as [[i d]|] eqn:Hfind; [|done].
  apply list_find_Some in Hfind as (_ & -> & _). by rewrite Z.eqb_refl.
Qed.

(** A search by type bounded by another type.  On a chain of descriptors,
    [USB_GetNextDescriptorOfTypeBefore] ends, and looks at the descriptors up to
    the first one that has either type: if that one has the wanted type it is
    found, if it has the other type no bytes remain.  (The end of the chain is
    treated as in the unbounded search.) *)
Lemma GetNextDescriptorOfTypeBefore_first front d0 ds fuel Type_ BeforeType :
  is_descriptor d0 -> Forall is_descriptor ds -> len (d0 ++ concat ds) < 2 ^ 16 ->
  (length ds + 1 < fuel)%nat ->
  USB_GetNextDescriptorOfTypeBefore fuel (front ++ d0 ++ concat ds ++ slack) Type_ BeforeType
      (len (d0 ++ concat ds)) (len front) =
    match list_find (fun d => type_of d = Type_ \/ type_of d = BeforeType) ds with
    | Some (i, d) => let '(BytesRem, CurrConfigLoc) := stopped_at front d0 ds i in
                     Stops (if type_of d =? Type_ then BytesRem else 0, CurrConfigLoc)
    | None => if (2 <=? length slack)%nat then Stops (0, len (front ++ d0 ++ concat ds)) else Faults
    end.
Proof. apply search_before. Qed.

(** The comparator routine of a search, as a judgement on the descriptors of a kind:
    it answers for a descriptor whatever follows it. *)
Definition judges (kind : bytes -> Prop) (Comparator : bytes -> option DSearch_Return_ErrorCodes_t)
    (judge : bytes -> DSearch_Return_ErrorCodes_t) : Prop :=
  forall d rest, kind d -> Comparator (d ++ rest) = Some (judge d).

(** The routine looks at the buffer from the location it is given. *)
Definition at_location (Data : bytes) (Comparator : bytes -> option DSearch_Return_ErrorCodes_t)
    (p : Z) : option DSearch_Return_ErrorCodes_t := Comparator (drop (Z.to_nat p) Data).

Lemma at_location_app front rest Comparator :
  at_location (front ++ rest) Comparator (len front) = Comparator rest.
Proof. unfold at_location. by rewrite Nat2Z.id, drop_app_length. Qed.

(** A search with a comparator routine.  On a chain of descriptors,
    [USB_GetNextDescriptorComp] ends, at the first descriptor after the current
    one that the routine accepts or rejects: an accepted one is found, at a
    rejected one the search fails and the caller is left at the descriptor before
    it.  When the routine has no opinion on any of them, nor on what follows the
    last, the end of the configuration is reported. *)
Lemma GetNextDescriptorComp_first kind front d0 ds fuel Comparator judge :
  judges kind Comparator judge -> Comparator slack = Some DESCRIPTOR_SEARCH_NotFound ->
  (forall d, kind d -> is_descriptor d) -> is_descriptor d0 -> Forall kind ds -> len (d0 ++ concat ds) < 2 ^ 16 ->
  (length ds + 1 < fuel)%nat ->
  let Data := front ++ d0 ++ concat ds ++ slack in
  USB_GetNextDescriptorComp fuel Data (at_location Data Comparator)
      (len (d0 ++ concat ds)) (len front) =
    match list_find (fun d => judge d <> DESCRIPTOR_SEARCH_NotFound) ds with
    | Some (i, d) =>
        if decide (judge d = DESCRIPTOR_SEARCH_Found) then
          let '(BytesRem, CurrConfigLoc) := stopped_at front d0 ds i in
          Stops (DESCRIPTOR_SEARCH_COMP_Found, BytesRem, CurrConfigLoc)
        else
          let '(BytesRem, CurrConfigLoc) := stopped_at front [] (d0 :: ds) i in
          Stops (DESCRIPTOR_SEARCH_COMP_Fail, BytesRem, CurrConfigLoc)
    | None => Stops (DESCRIPTOR_SEARCH_COMP_EndOfDescriptor, 0, len (front ++ d0 ++ concat ds))
    end.
Proof.
  intros Hj Hend Hkind. revert front d0 fuel. induction ds as [|d ds IH]; intros front d0 fuel H0 Hds H16 Hf Data;
    (destruct fuel as [|fuel]; [lia|]); cbn [USB_GetNextDescriptorComp]; unfold Data.
  - cbn [concat list_find app]. rewrite app_nil_r.
    destruct (next_end front d0 H0) as (Hne & -> & _). rewrite (proj2 (Z.eqb_neq _ _) Hne).
    rewrite (app_assoc front), at_location_app, Hend. destruct fuel; [simpl in Hf; lia|done].
  - apply Forall_cons_1 in Hds as [Hd Hds]. cbn [concat] in *. rewrite <- (app_assoc d).
    destruct (next_type front d0 d (concat ds) H0 (Hkind _ Hd) H16) as (Hne & -> & _).
    rewrite (proj2 (Z.eqb_neq _ _) Hne).
    rewrite (app_assoc front d0), at_location_app, (Hj d) by done. cbn [list_find].
    destruct (decide (judge d <> DESCRIPTOR_SEARCH_NotFound)) as [E|E].
    + destruct (judge d) eqn:Ej; [| |done]; simpl; unfold stopped_at; cbn [drop take concat];
        by rewrite ?app_nil_r.
    + destruct (judge d) eqn:Ej; [by destruct E|by destruct E|].
      rewrite IH; [|by apply Hkind|done|rewrite !length_app in *; lia|simpl in Hf; lia].
      destruct (list_find _ ds) as [[i d']|]; cbn [fmap option_fmap option_map prod_map fst snd].
      * rewrite stopped_at_S. destruct (decide _); [done|].
        rewrite stopped_at_S, app_nil_r. unfold stopped_at. cbn [app]. by rewrite <- (app_assoc front).
      * by rewrite <- !app_assoc.
Qed.
End Searches.

(** The firmware's configuration descriptor as a chain: configuration, interface,
    HID and endpoint descriptor. *)
Definition joystick_chain : list bytes :=
  [bytes_of_Interface (HID_Interface ConfigurationDescriptor);
   bytes_of_HID (HID_JoystickHID ConfigurationDescriptor);
   bytes_of_Endpoint (HID_ReportINEndpoint ConfigurationDescriptor)].
Definition joystick_config : bytes := bytes_of_Configuration_Header (Config ConfigurationDescriptor).

Lemma joystick_config_descriptor : is_descriptor joystick_config.
Proof. do 2 eexists. split; [vm_compute; reflexivity|vm_compute; lia]. Defined.

Lemma joystick_chain_descriptors : Forall is_descriptor joystick_chain.
Proof.
  repeat (apply List.Forall_cons || apply List.Forall_nil);
    (do 2 eexists; split; [vm_compute; reflexivity|vm_compute; lia]).
Defined.

(** The endpoint of the joystick, and the end of the chain without two more bytes to
    read. *)
Lemma GetNextDescriptorOfType_first_witness :
  USB_GetNextDescriptorOfType 5 (joystick_config ++ concat joystick_chain ++ [0; 0]) DTYPE_Endpoint 34 0 = Stops (7, 27) /\
  USB_GetNextDescriptorOfType 5 (joystick_config ++ concat joystick_chain ++ [0]) DTYPE_String 34 0 = Faults.
Proof.
  split.
  - apply (GetNextDescriptorOfType_first [0; 0] [] joystick_config joystick_chain 5 DTYPE_Endpoint).
    + apply joystick_config_descriptor.
    + apply joystick_chain_descriptors.
    + vm_compute. reflexivity.
    + vm_compute. lia.
  - apply (GetNextDescriptorOfType_first [0] [] joystick_config joystick_chain 5 DTYPE_String).
    + apply joystick_config_descriptor.
    + apply joystick_chain_descriptors.
    + vm_compute. reflexivity.
    + vm_compute. lia.
Defined.

(** A comparator that accepts endpoint descriptors. *)
Definition endpoint_comparator (b : bytes) : option DSearch_Return_ErrorCodes_t :=
  match b !! 1%nat with
  | Some t => Some (if t =? DTYPE_Endpoint then DESCRIPTOR_SEARCH_Found else DESCRIPTOR_SEARCH_NotFound)
  | None => None
  end.

(** A descriptor of size 0 stops the searches: [USB_GetNextDescriptorOfType]
    goes round for ever at a descriptor whose size byte is 0 (unless its type is
    the wanted one), whatever the rest of the buffer is. *)
Lemma GetNextDescriptorOfType_stuck fuel front ty rest Type_ BytesRem :
  0 < BytesRem < 2 ^ 16 -> ty <> Type_ ->
  USB_GetNextDescriptorOfType fuel (front ++ 0 :: ty :: rest) Type_ BytesRem (len front) = Runs_on.
Proof.
  intros Hrem Hty. induction fuel as [|fuel IH]; [done|]. cbn [USB_GetNextDescriptorOfType].
  destruct (Z.eqb_spec BytesRem 0); [lia|].
  unfold USB_GetNextDescriptor, DESCRIPTOR_SIZE. rewrite load_byte_middle.
  destruct (Z.ltb_spec BytesRem 0); [lia|]. rewrite Z.sub_0_r, Z.add_0_r, wrap_id by (unfold fits; lia).
  assert (DESCRIPTOR_TYPE (front ++ 0 :: ty :: rest) (len front) = Some ty) as ->.
  { unfold DESCRIPTOR_TYPE. replace (front ++ 0 :: ty :: rest) with ((front ++ [0]) ++ ty :: rest)
      by (by rewrite <- app_assoc).
    etransitivity; [|apply load_byte_middle]. f_equal. rewrite length_app. simpl. lia. }
  by rewrite (proj2 (Z.eqb_neq _ _) Hty).
Qed.

(** ** The firmware's descriptors *)

(** The requests for which the firmware has a descriptor: descriptor type and
    number. *)
Definition available (ty number : Z) : bool :=
  (ty =? DTYPE_Device) || (ty =? DTYPE_Configuration) || (ty =? HID_DTYPE_HID) ||
  (ty =? HID_DTYPE_Report) || ((ty =? DTYPE_String) && (number <=? STRING_ID_Product)).

(** What a host expects of the bytes of a descriptor: a chain whose total size is
    announced in its configuration descriptor, a report descriptor of the size
    announced in the HID descriptor, or a single descriptor of the type it asked
    for. *)
Definition well_formed (ty : Z) (data : bytes) : Prop :=
  if ty =? DTYPE_Configuration then
    exists ds, data = concat ds /\ Forall is_descriptor ds /\
      map type_of ds = [DTYPE_Configuration; DTYPE_Interface; HID_DTYPE_HID; DTYPE_Endpoint] /\
      le_val (take 2 (drop 2 data)) = len data
  else if ty =? HID_DTYPE_Report then
    exists hid, hid = bytes_of_HID (HID_JoystickHID ConfigurationDescriptor) /\
      le_val (take 2 (drop 7 hid)) = len data
  else is_descriptor data /\ type_of data = ty.

Lemma single_descriptor data ty :
  data = Z.of_nat (length data) :: ty :: drop 2 data -> (length data < 256)%nat ->
  is_descriptor data /\ type_of data = ty.
Proof.
  intros Hd Hl. split; [by exists ty, (drop 2 data)|]. unfold type_of. by rewrite Hd.
Qed.

(** C38: every descriptor request is answered correctly: the callback knows exactly
    the available descriptors, and the size it returns is the number of bytes of
    a well-formed descriptor of the requested type at the address it returns. *)
Theorem GetDescriptor_wellformed wValue wIndex :
  let ty := u8 (Z.shiftr wValue 8) in
  let number := u8 (Z.land wValue 0xFF) in
  let '(size, p) := CALLBACK_USB_GetDescriptor wValue wIndex in
  let data := take (Z.to_nat size) (flash_from p) in
  if available ty number then len data = size /\ well_formed ty data
  else size = NO_DESCRIPTOR.
Proof.
  assert (Hnum : 0 <= u8 (Z.land wValue 0xFF)) by (apply (wrap_fits 8); lia).
  unfold CALLBACK_USB_GetDescriptor. cbv zeta. unfold available, well_formed.
  set (ty := u8 (Z.shiftr wValue 8)). set (number := u8 (Z.land wValue 0xFF)) in *.
  destruct (Z.eqb_spec ty DTYPE_Device) as [->|Hdev].
  { split; [reflexivity|]. apply single_descriptor; vm_compute; [reflexivity|lia]. }
  destruct (Z.eqb_spec ty DTYPE_Configuration) as [->|Hcfg].
  { split; [reflexivity|]. exists (joystick_config :: joystick_chain).
    split; [reflexivity|]. split; [|split; reflexivity].
    constructor; [apply joystick_config_descriptor|apply joystick_chain_descriptors]. }
  destruct (Z.eqb_spec ty DTYPE_String) as [->|Hstr].
  { unfold STRING_ID_Language, STRING_ID_Manufacturer, STRING_ID_Product. simpl (_ || _).
    destruct (Z.eqb_spec number 0) as [->|]; [split; [reflexivity|]|].
    { apply single_descriptor; vm_compute; [reflexivity|lia]. }
    destruct (Z.eqb_spec number 1) as [->|]; [split; [reflexivity|]|].
    { apply single_descriptor; vm_compute; [reflexivity|lia]. }
    destruct (Z.eqb_spec number 2) as [->|]; [split; [reflexivity|]|].
    { apply single_descriptor; vm_compute; [reflexivity|lia]. }
    by destruct (Z.leb_spec number 2); [lia|]. }
  destruct (Z.eqb_spec ty HID_DTYPE_HID) as [->|Hhid].
  { split; [reflexivity|]. apply single_descriptor; vm_compute; [reflexivity|lia]. }
  destruct (Z.eqb_spec ty HID_DTYPE_Report) as [->|Hrep]; [|done].
  split; [reflexivity|]. eexists. split; [reflexivity|]. reflexivity.
Qed.
