(* ===== verification/Endpoint.v ===== *)
(** * Endpoint management

    [LUFA/Drivers/USB/Core/AVR8/Endpoint_AVR8.h] and [Endpoint_AVR8.c]: the
    primitive operations on the currently selected endpoint, endpoint
    configuration, and the status stage of control transfers.  Every function is
    the sequence of register accesses its C body makes. *)
From S2P Require Import Prelude Machine Rely Descriptors.

(** ** Constants *)

Definition ENDPOINT_EPNUM_MASK := 0x0F.
Definition ENDPOINT_CONTROLEP := 0.
Definition ENDPOINT_TOTAL_ENDPOINTS := 7.
Definition USB_Device_ControlEndpointSize := FIXED_CONTROL_ENDPOINT_SIZE.
Definition USB_STREAM_TIMEOUT_MS := 100.

(** [enum USB_Device_States_t] *)
Definition DEVICE_STATE_Unattached := 0.
Definition DEVICE_STATE_Powered := 1.
Definition DEVICE_STATE_Default := 2.
Definition DEVICE_STATE_Addressed := 3.
Definition DEVICE_STATE_Configured := 4.
Definition DEVICE_STATE_Suspended := 5.

Inductive Endpoint_WaitUntilReady_ErrorCodes_t : Set :=
  | ENDPOINT_READYWAIT_NoError
  | ENDPOINT_READYWAIT_EndpointStalled
  | ENDPOINT_READYWAIT_DeviceDisconnected
  | ENDPOINT_READYWAIT_BusSuspended
  | ENDPOINT_READYWAIT_Timeout.

(** [StdRequestType.h]: the direction bit of [bmRequestType]. *)
Definition REQDIR_HOSTTODEVICE := 0x00.
Definition REQDIR_DEVICETOHOST := 0x80.

Section Endpoint.
Context `{Env}.

(** ** [Endpoint_AVR8.h] *)

(** The loop doubles [CheckBytes] in 16 bits; it reaches 0 after 13 rounds and
    would then go on for ever, so 16 rounds decide it. *)
Definition Endpoint_BytesToEPSizeMask (Bytes : Z) : M Z :=
  loop 16 (fun '(MaskVal, CheckBytes) =>
             ret (if CheckBytes <? Bytes
                  then inl (u8 (MaskVal + 1), u16 (Z.shiftl CheckBytes 1))
                  else inr (u8 (Z.shiftl MaskVal EPSIZE0))))
       (0, 8).

Definition Endpoint_BytesInEndpoint : M Z :=
  h ← rd UEBCHX; l ← rd UEBCLX; ret (Z.lor (Z.shiftl h 8) l).

Definition Endpoint_GetEndpointDirection : M Z :=
  b ← reg_test UECFG0X EPDIR; ret (if b then ENDPOINT_DIR_IN else ENDPOINT_DIR_OUT).

Definition Endpoint_GetCurrentEndpoint : M Z :=
  n ← rd UENUM; d ← Endpoint_GetEndpointDirection;
  ret (Z.lor (Z.land n ENDPOINT_EPNUM_MASK) d).

Definition Endpoint_SelectEndpoint (Address : Z) : M unit :=
  wr UENUM (Z.land Address ENDPOINT_EPNUM_MASK).

Definition Endpoint_ResetEndpoint (Address : Z) : M unit :=
  wr UERST (Z.shiftl 1 (Z.land Address ENDPOINT_EPNUM_MASK)) ;; wr UERST 0.

Definition Endpoint_EnableEndpoint : M unit := reg_set UECONX EPEN.
Definition Endpoint_DisableEndpoint : M unit := reg_clear UECONX (bit EPEN).
Definition Endpoint_IsEnabled : M bool := reg_test UECONX EPEN.

Definition Endpoint_GetBusyBanks : M Z := v ← rd UESTA0X; ret (Z.land v (Z.shiftl 0x03 NBUSYBK0)).

Definition Endpoint_AbortPendingIN : M unit :=
  loop fuel (fun _ : unit =>
    b ← Endpoint_GetBusyBanks;
    if negb (b =? 0) then
      reg_set UEINTX RXOUTI ;;
      spin_until (b ← reg_test UEINTX RXOUTI; ret (negb b)) ;;
      ret (inl tt)
    else ret (inr tt)) tt.

Definition Endpoint_IsReadWriteAllowed : M bool := reg_test UEINTX RWAL.
Definition Endpoint_IsConfigured : M bool := reg_test UESTA0X CFGOK.
Definition Endpoint_GetEndpointInterrupts : M Z := rd UEINT.
Definition Endpoint_HasEndpointInterrupted (Address : Z) : M bool :=
  v ← Endpoint_GetEndpointInterrupts; ret (has_bit v (Z.land Address ENDPOINT_EPNUM_MASK)).
Definition Endpoint_IsINReady : M bool := reg_test UEINTX TXINI.
Definition Endpoint_IsOUTReceived : M bool := reg_test UEINTX RXOUTI.
Definition Endpoint_IsSETUPReceived : M bool := reg_test UEINTX RXSTPI.
Definition Endpoint_ClearSETUP : M unit := reg_clear UEINTX (bit RXSTPI).
Definition Endpoint_ClearIN : M unit := reg_clear UEINTX (Z.lor (bit TXINI) (bit FIFOCON)).
Definition Endpoint_ClearOUT : M unit := reg_clear UEINTX (Z.lor (bit RXOUTI) (bit FIFOCON)).
Definition Endpoint_StallTransaction : M unit := reg_set UECONX STALLRQ.
Definition Endpoint_ClearStall : M unit := reg_set UECONX STALLRQC.
Definition Endpoint_IsStalled : M bool := reg_test UECONX STALLRQ.
Definition Endpoint_ResetDataToggle : M unit := reg_set UECONX RSTDT.

Definition Endpoint_SetEndpointDirection (DirectionMask : Z) : M unit :=
  v ← rd UECFG0X;
  wr UECFG0X (Z.lor (Z.land v (Z.lnot (bit EPDIR)))
                    (if DirectionMask =? 0 then 0 else bit EPDIR)).

Definition Endpoint_Read_8 : M Z := rd UEDATX.
Definition Endpoint_Write_8 (Data : Z) : M unit := wr UEDATX Data.
Definition Endpoint_Discard_8 : M unit := rd UEDATX ;; ret tt.

(** The unions: the stored bytes read as one little-endian object. *)
Definition Endpoint_Read_16_LE : M Z :=
  b0 ← rd UEDATX; b1 ← rd UEDATX; ret (le_val [b0; b1]).
Definition Endpoint_Read_16_BE : M Z :=
  b1 ← rd UEDATX; b0 ← rd UEDATX; ret (le_val [b0; b1]).
Definition Endpoint_Write_16_LE (Data : Z) : M unit :=
  wr UEDATX (Z.land Data 0xFF) ;; wr UEDATX (Z.shiftr Data 8).
Definition Endpoint_Write_16_BE (Data : Z) : M unit :=
  wr UEDATX (Z.shiftr Data 8) ;; wr UEDATX (Z.land Data 0xFF).
Definition Endpoint_Discard_16 : M unit := rd UEDATX ;; rd UEDATX ;; ret tt.
Definition Endpoint_Read_32_LE : M Z :=
  b0 ← rd UEDATX; b1 ← rd UEDATX; b2 ← rd UEDATX; b3 ← rd UEDATX; ret (le_val [b0; b1; b2; b3]).
Definition Endpoint_Read_32_BE : M Z :=
  b3 ← rd UEDATX; b2 ← rd UEDATX; b1 ← rd UEDATX; b0 ← rd UEDATX; ret (le_val [b0; b1; b2; b3]).
Definition Endpoint_Write_32_LE (Data : Z) : M unit :=
  wr UEDATX (Z.land Data 0xFF) ;; wr UEDATX (Z.shiftr Data 8) ;;
  wr UEDATX (Z.shiftr Data 16) ;; wr UEDATX (Z.shiftr Data 24).
Definition Endpoint_Write_32_BE (Data : Z) : M unit :=
  wr UEDATX (Z.shiftr Data 24) ;; wr UEDATX (Z.shiftr Data 16) ;;
  wr UEDATX (Z.shiftr Data 8) ;; wr UEDATX (Z.land Data 0xFF).
Definition Endpoint_Discard_32 : M unit :=
  rd UEDATX ;; rd UEDATX ;; rd UEDATX ;; rd UEDATX ;; ret tt.

(** ** [Endpoint_AVR8.c] *)

(** [for (EPNum = Number; EPNum < ENDPOINT_TOTAL_ENDPOINTS; EPNum++)]: [n] more
    rounds from [EPNum]; the result is [false] on the early return. *)
Fixpoint configure_from (n : nat) (EPNum Number UECFG0XData UECFG1XData : Z) : M bool :=
  match n with
  | O => ret true
  | S n =>
      Endpoint_SelectEndpoint EPNum ;;
      '(c0, c1, ien) ← (if EPNum =? Number then ret (UECFG0XData, UECFG1XData, 0)
                        else a ← rd UECFG0X; b ← rd UECFG1X; c ← rd UEIENX; ret (a, b, c));
      if negb (has_bit c1 ALLOC) then configure_from n (EPNum + 1) Number UECFG0XData UECFG1XData
      else
        Endpoint_DisableEndpoint ;;
        reg_clear UECFG1X (bit ALLOC) ;;
        Endpoint_EnableEndpoint ;;
        wr UECFG0X c0 ;;
        wr UECFG1X c1 ;;
        wr UEIENX ien ;;
        ok ← Endpoint_IsConfigured;
        if negb ok then ret false
        else configure_from n (EPNum + 1) Number UECFG0XData UECFG1XData
  end.

Definition Endpoint_ConfigureEndpoint_Prv (Number UECFG0XData UECFG1XData : Z) : M bool :=
  ok ← configure_from (Z.to_nat (ENDPOINT_TOTAL_ENDPOINTS - Number)) Number Number
         UECFG0XData UECFG1XData;
  if ok then Endpoint_SelectEndpoint Number ;; ret true else ret false.

Definition Endpoint_ConfigureEndpoint (Address Type_ Size Banks : Z) : M bool :=
  let Number := Z.land Address ENDPOINT_EPNUM_MASK in
  if ENDPOINT_TOTAL_ENDPOINTS <=? Number then ret false
  else
    size ← Endpoint_BytesToEPSizeMask Size;
    Endpoint_ConfigureEndpoint_Prv Number
      (u8 (Z.lor (Z.shiftl Type_ EPTYPE0)
                 (if Z.land Address ENDPOINT_DIR_IN =? 0 then 0 else bit EPDIR)))
      (u8 (Z.lor (Z.lor (bit ALLOC) (if 1 <? Banks then bit EPBK0 else 0)) size)).

Fixpoint Endpoint_ConfigureEndpointTable (Table : list USB_Endpoint_Table_t) : M bool :=
  match Table with
  | [] => ret true
  | e :: Table =>
      if ep_Address e =? 0 then Endpoint_ConfigureEndpointTable Table
      else
        ok ← Endpoint_ConfigureEndpoint (ep_Address e) (ep_Type e) (ep_Size e) (ep_Banks e);
        if negb ok then ret false else Endpoint_ConfigureEndpointTable Table
  end.

Fixpoint clear_endpoints (n : nat) (EPNum : Z) : M unit :=
  match n with
  | O => ret tt
  | S n =>
      Endpoint_SelectEndpoint EPNum ;;
      wr UEIENX 0 ;; wr UEINTX 0 ;; wr UECFG1X 0 ;;
      Endpoint_DisableEndpoint ;;
      clear_endpoints n (EPNum + 1)
  end.

Definition Endpoint_ClearEndpoints : M unit :=
  wr UEINT 0 ;; clear_endpoints (Z.to_nat ENDPOINT_TOTAL_ENDPOINTS) 0.

(** [while (!ready()) if (USB_DeviceState == DEVICE_STATE_Unattached) return;]:
    [true] if the condition came true. *)
Definition wait_attached (ready : M bool) : M bool :=
  loop fuel (fun _ : unit =>
    b ← ready;
    if b then ret (inr true)
    else
      d ← get_volatile USB_DeviceState;
      ret (if d =? DEVICE_STATE_Unattached then inr false else inl tt)) tt.

Definition Endpoint_ClearStatusStage : M unit :=
  req ← get USB_ControlRequest;
  if negb (Z.land (bmRequestType req) REQDIR_DEVICETOHOST =? 0) then
    ok ← wait_attached Endpoint_IsOUTReceived;
    when ok Endpoint_ClearOUT
  else
    ok ← wait_attached Endpoint_IsINReady;
    when ok Endpoint_ClearIN.

(** [USB_Device_GetFrameNumber], of [Device_AVR8.h]. *)
Definition USB_Device_GetFrameNumber : M Z := rd UDFNUM.

Definition Endpoint_WaitUntilReady : M Endpoint_WaitUntilReady_ErrorCodes_t :=
  PreviousFrameNumber ← USB_Device_GetFrameNumber;
  loop fuel (fun '(TimeoutMSRem, PreviousFrameNumber) =>
    dir ← Endpoint_GetEndpointDirection;
    ready ← (if dir =? ENDPOINT_DIR_IN then Endpoint_IsINReady else Endpoint_IsOUTReceived);
    if (ready : bool) then ret (inr ENDPOINT_READYWAIT_NoError)
    else
      USB_DeviceState_LCL ← get_volatile USB_DeviceState;
      if USB_DeviceState_LCL =? DEVICE_STATE_Unattached then
        ret (inr ENDPOINT_READYWAIT_DeviceDisconnected)
      else if USB_DeviceState_LCL =? DEVICE_STATE_Suspended then
        ret (inr ENDPOINT_READYWAIT_BusSuspended)
      else
        stalled ← Endpoint_IsStalled;
        if stalled then ret (inr ENDPOINT_READYWAIT_EndpointStalled)
        else
          CurrentFrameNumber ← USB_Device_GetFrameNumber;
          ret (if CurrentFrameNumber =? PreviousFrameNumber
               then inl (TimeoutMSRem, PreviousFrameNumber)
               else if TimeoutMSRem =? 0 then inr ENDPOINT_READYWAIT_Timeout
               else inl (u8 (TimeoutMSRem - 1), CurrentFrameNumber)))
    (USB_STREAM_TIMEOUT_MS, PreviousFrameNumber).
End Endpoint.

(** ** Bank sizes *)

(** The size code of the hardware: a bank of code [m] has [8 * 2 ^ m] bytes. *)
Definition size_code (Bytes : Z) : Z := Z.max 0 (Z.log2_up Bytes - 3).

Lemma size_code_le Bytes m :
  0 <= m -> (Bytes <= 8 * 2 ^ m <-> size_code Bytes <= m).
Proof.
  intros Hm. unfold size_code. change 8 with (2 ^ 3). rewrite <- Z.pow_add_r by lia.
  destruct (decide (0 < Bytes)).
  - rewrite Z.log2_up_le_pow2 by lia. lia.
  - rewrite Z.log2_up_eqn0 by lia. pose proof (Z.pow_pos_nonneg 2 (3 + m)). lia.
Qed.

Section BankSize.
Context (Bytes : Z).
Let body : Z * Z -> M (Z * Z + Z) := fun '(MaskVal, CheckBytes) =>
  ret (if CheckBytes <? Bytes
       then inl (u8 (MaskVal + 1), u16 (Z.shiftl CheckBytes 1))
       else inr (u8 (Z.shiftl MaskVal EPSIZE0))).

Lemma size_loop k : forall m s, 0 <= m -> m <= size_code Bytes <= 12 ->
  (size_code Bytes - m < Z.of_nat k) ->
  loop k body (m, 8 * 2 ^ m) s = Done (u8 (Z.shiftl (size_code Bytes) EPSIZE0)) s.
Proof.
  induction k as [|k IH]; intros m s Hm Hle Hk; [lia|]. cbn [loop]. unfold bind, body at 1, ret.
  pose proof (size_code_le Bytes m Hm) as Hiff.
  destruct (Z.ltb_spec (8 * 2 ^ m) Bytes).
  - assert (2 ^ m <= 2 ^ 11) by (apply Z.pow_le_mono_r; lia).
    assert (0 < 2 ^ m) by (apply Z.pow_pos_nonneg; lia).
    rewrite (wrap_id 8) by (unfold fits; lia).
    rewrite Z.shiftl_mul_pow2, (wrap_id 16) by (unfold fits; lia).
    replace (8 * 2 ^ m * 2 ^ 1) with (8 * 2 ^ (m + 1)) by (rewrite Z.pow_add_r by lia; lia).
    apply IH; lia.
  - by replace m with (size_code Bytes) by lia.
Qed.
End BankSize.

(** [Endpoint_BytesToEPSizeMask] computes the size code of the smallest bank
    that holds the given number of bytes, in the position of the EPSIZE bits, for
    any size the loop can represent (up to 32768 bytes). *)
Lemma Endpoint_BytesToEPSizeMask_correct Bytes s :
  Bytes <= 0x8000 ->
  exists m, Endpoint_BytesToEPSizeMask Bytes s = Done (u8 (Z.shiftl m EPSIZE0)) s /\
    0 <= m <= 12 /\ Bytes <= 8 * 2 ^ m /\ (0 < m -> 8 * 2 ^ (m - 1) < Bytes).
Proof.
  intros HB. assert (H12 : size_code Bytes <= 12) by (apply size_code_le; lia).
  assert (H0 : 0 <= size_code Bytes) by (unfold size_code; lia).
  exists (size_code Bytes). split; [apply (size_loop Bytes 16 0); lia|]. split; [done|].
  split; [apply size_code_le; lia|]. intros Hm.
  pose proof (size_code_le Bytes (size_code Bytes - 1)). lia.
Qed.

(** ** Endpoint operations keep the program variables *)

Section EndpointKeeps.
Context `{Calm}.

Lemma keeps_size_mask n : n <= 0x8000 -> keeps (Endpoint_BytesToEPSizeMask n).
Proof.
  intros HB s. assert (H12 : size_code n <= 12) by (apply size_code_le; lia).
  assert (H0' : 0 <= size_code n) by (unfold size_code; lia).
  unfold wp, Endpoint_BytesToEPSizeMask. by rewrite (size_loop n 16 0) by lia.
Qed.

Lemma keeps_configure_from n : forall e k c0 c1, keeps (configure_from n e k c0 c1).
Proof.
  induction n as [|n IH]; intros e k c0 c1; cbn [configure_from]; [auto with keeps|].
  unfold Endpoint_SelectEndpoint, Endpoint_DisableEndpoint, Endpoint_EnableEndpoint,
    Endpoint_IsConfigured.
  apply keeps_bind; [auto with keeps|intros _]. apply keeps_bind; [auto 6 with keeps|].
  intros [[a b] c]. auto 20 with keeps.
Qed.

Lemma keeps_ConfigureEndpoint a t n b : n <= 0x8000 -> keeps (Endpoint_ConfigureEndpoint a t n b).
Proof.
  intros Hn. unfold Endpoint_ConfigureEndpoint, Endpoint_ConfigureEndpoint_Prv, Endpoint_SelectEndpoint.
  pose proof (keeps_size_mask n Hn). auto 10 using keeps_configure_from with keeps.
Qed.
End EndpointKeeps.
