(* ===== verification/FrameWait.v ===== *)
(** * Waiting with a timeout in frames

    The waits of the library count changes of the frame number, in device mode
    ([Endpoint_WaitUntilReady]) and in host mode ([Pipe_WaitUntilReady]): what the
    frame numbers read in a trace say about the time that has passed, and the
    termination of such a wait. *)
From S2P Require Import Prelude Machine Rely Descriptors Endpoint.

(** ** Frames in a trace

    The values read from a frame number register, newest first; how often two
    successive ones differ; and how often the newest was read again. *)
Fixpoint frame_readings (r : reg) (l : list event) : list Z :=
  match l with
  | [] => []
  | Rd r' v :: l => if decide (r' = r) then v :: frame_readings r l else frame_readings r l
  | _ :: l => frame_readings r l
  end.

Fixpoint frame_changes (vs : list Z) : nat :=
  match vs with
  | v :: (w :: _) as vs' => (if v =? w then 0 else 1) + frame_changes vs'
  | _ => 0
  end.

Fixpoint frame_repeats (vs : list Z) : nat :=
  match vs with
  | v :: (w :: _) as vs' => if v =? w then S (frame_repeats vs') else 0
  | _ => 0
  end.

(** Documented behaviour of an attached bus: a frame lasts a millisecond, so the
    frame number changes at the latest after [K] repeated readings. *)
Definition frames_advance `{Env} (r : reg) (t0 : list event) (K : nat) : Prop :=
  forall l v vs, frame_readings r l = v :: vs -> (K <= frame_repeats (v :: vs))%nat ->
    respond (l ++ t0) r <> v.

Lemma frame_readings_here r v l : frame_readings r (Rd r v :: l) = v :: frame_readings r l.
Proof. cbn. by rewrite decide_True. Qed.

Lemma frame_readings_app r l l' : frame_readings r (l' ++ l) = frame_readings r l' ++ frame_readings r l.
Proof.
  induction l' as [|[r' v|r' v| | | | |] l' IH]; cbn; rewrite ?IH; try done. by destruct (decide _).
Qed.

(** ** A wait of [USB_STREAM_TIMEOUT_MS] *)

Section FrameWait.
Context `{Env} (r : reg) (t0 : list event) (K : nat).
Hypothesis frames : frames_advance r t0 K.

(** The state of the loop after the accesses [l]: the time left, the newest frame
    number, and a bound on the number of rounds that are left. *)
Definition waiting (x : Z * Z) (n : nat) (l : list event) : Prop :=
  let '(TimeoutMSRem, PreviousFrameNumber) := x in
  exists vs, frame_readings r l = PreviousFrameNumber :: vs /\
    (frame_repeats (PreviousFrameNumber :: vs) <= K)%nat /\
    (frame_changes (PreviousFrameNumber :: vs) <= 100)%nat /\
    TimeoutMSRem = 100 - Z.of_nat (frame_changes (PreviousFrameNumber :: vs)) /\
    n = ((100 - frame_changes (PreviousFrameNumber :: vs)) * (K + 1) +
         (K - frame_repeats (PreviousFrameNumber :: vs)))%nat.

(** The first reading. *)
Lemma waiting_start v : waiting (USB_STREAM_TIMEOUT_MS, v) (100 * (K + 1) + K) [Rd r v].
Proof.
  exists []. split; [by rewrite frame_readings_here|].
  cbn [frame_repeats frame_changes]. repeat split; lia.
Qed.

(** The end of a round: a frame number is read and compared. *)
Lemma waiting_next {C} (timeout : C) TimeoutMSRem Prev n l v :
  v = respond (l ++ t0) r -> waiting (TimeoutMSRem, Prev) n l ->
  match (if v =? Prev then inl (TimeoutMSRem, Prev)
         else if TimeoutMSRem =? 0 then inr timeout
         else inl (u8 (TimeoutMSRem - 1), v)) with
  | inl x => exists n', (n' < n)%nat /\ waiting x n' (Rd r v :: l)
  | inr c => c = timeout /\
             frame_changes (frame_readings r (Rd r v :: l)) = S (Z.to_nat USB_STREAM_TIMEOUT_MS)
  end.
Proof.
  intros Hv (vs & Hf & Hrep & Hch & -> & ->). destruct (Z.eqb_spec v Prev) as [->|Hne].
  - assert (frame_repeats (Prev :: vs) < K)%nat.
    { destruct (decide (K <= frame_repeats (Prev :: vs))%nat) as [Hge|]; [|lia].
      by destruct (frames l Prev vs Hf Hge). }
    assert (Hc' : frame_changes (Prev :: Prev :: vs) = frame_changes (Prev :: vs))
      by (cbn [frame_changes]; by rewrite Z.eqb_refl).
    assert (Hr' : frame_repeats (Prev :: Prev :: vs) = S (frame_repeats (Prev :: vs)))
      by (cbn [frame_repeats]; by rewrite Z.eqb_refl).
    eexists. split; [|exists (Prev :: vs); split; [by rewrite frame_readings_here, Hf|];
      rewrite Hc', Hr'; repeat split; lia || reflexivity]. lia.
  - assert (Hc' : frame_changes (v :: Prev :: vs) = S (frame_changes (Prev :: vs)))
      by (cbn [frame_changes]; by rewrite (proj2 (Z.eqb_neq _ _) Hne)).
    assert (Hr' : frame_repeats (v :: Prev :: vs) = 0%nat)
      by (cbn [frame_repeats]; by rewrite (proj2 (Z.eqb_neq _ _) Hne)).
    destruct (Z.eqb_spec (100 - Z.of_nat (frame_changes (Prev :: vs))) 0).
    + split; [done|]. rewrite frame_readings_here, Hf, Hc'.
      change (Z.to_nat USB_STREAM_TIMEOUT_MS) with 100%nat. lia.
    + eexists. split; [|exists (Prev :: vs); split; [by rewrite frame_readings_here, Hf|];
        rewrite Hc', Hr'; repeat split; (rewrite wrap_id by (unfold fits; lia)) || idtac; lia || reflexivity]. nia.
Qed.
End FrameWait.
