(* ===== verification/EndpointWait.v ===== *)
(** * Waiting for an endpoint

    [Endpoint_WaitUntilReady] of [Endpoint_AVR8.c]: its result and its
    termination. *)
From S2P Require Import Prelude Machine Rely Descriptors Endpoint FrameWait.

(** What a return code says about the accesses [l] the call made (newest first)
    in device state [d]. *)
Definition wait_result (d : Z) (l : list event) (c : Endpoint_WaitUntilReady_ErrorCodes_t) : Prop :=
  match c with
  | ENDPOINT_READYWAIT_NoError => exists v cfg l',
      l = Rd UEINTX v :: Rd UECFG0X cfg :: l' /\
      has_bit v (if has_bit cfg EPDIR then TXINI else RXOUTI) = true
  | ENDPOINT_READYWAIT_DeviceDisconnected => d = DEVICE_STATE_Unattached
  | ENDPOINT_READYWAIT_BusSuspended => d = DEVICE_STATE_Suspended
  | ENDPOINT_READYWAIT_EndpointStalled => exists v l',
      l = Rd UECONX v :: l' /\ has_bit v STALLRQ = true
  | ENDPOINT_READYWAIT_Timeout =>
      frame_changes (frame_readings UDFNUM l) = S (Z.to_nat USB_STREAM_TIMEOUT_MS)
  end.

Section WaitProofs.
Context `{Masked} (s0 : st) (K : nat).
Hypothesis frames : frames_advance UDFNUM (trace s0) K.

(** C10: [Endpoint_WaitUntilReady] always returns.  With interrupts masked, and as
    long as the frame number advances, it terminates within a number of rounds fixed by the timeout; it
    changes no variable, and its return code is right: the endpoint was seen
    ready for its direction, the device is unattached or suspended, the endpoint
    was seen stalled, or more than 100 changes of the frame number were seen. *)
Theorem Endpoint_WaitUntilReady_returns :
  (101 * (K + 1) < fuel)%nat ->
  wp Endpoint_WaitUntilReady (fun c s' => exists l, runs l s0 s' /\
    wait_result (USB_DeviceState s0) l c) s0.
Proof.
  intros Hfuel. unfold Endpoint_WaitUntilReady, USB_Device_GetFrameNumber.
  rewrite wp_bind. eapply run_rd; [apply runs_refl|]. intros f0 s1 Hr1 _.
  apply (wp_loop (fun x n s => exists l, runs l s0 s /\ waiting UDFNUM K x n l))
    with (n := (100 * (K + 1) + K)%nat); [|lia|eexists; split; [exact Hr1|apply waiting_start]].
  intros [TimeoutMSRem Prev] n s2 (l & Hr2 & Hw).
  unfold Endpoint_GetEndpointDirection. rewrite !wp_bind.
  eapply run_test; [exact Hr2|]. intros cfg s3 Hr3 _. rewrite wp_ret, wp_bind.
  assert (Hready : wp (if (if has_bit cfg EPDIR then ENDPOINT_DIR_IN else ENDPOINT_DIR_OUT) =? ENDPOINT_DIR_IN
                       then Endpoint_IsINReady else Endpoint_IsOUTReceived)
            (fun b s4 => exists v, runs (Rd UEINTX v :: Rd UECFG0X cfg :: l) s0 s4 /\
               b = has_bit v (if has_bit cfg EPDIR then TXINI else RXOUTI)) s3).
  { destruct (has_bit cfg EPDIR); (eapply run_test; [exact Hr3|]); intros v s4 Hr4 _; by exists v. }
  eapply wp_mono; [|exact Hready]. intros b s4 (v & Hr4 & ->).
  destruct (has_bit v _) eqn:Hb.
  { rewrite wp_ret. eexists. split; [exact Hr4|]. by eexists _, _, _. }
  rewrite wp_bind. eapply run_volatile; [exact Hr4|].
  assert (USB_DeviceState s4 = USB_DeviceState s0) as -> by (by rewrite Hr4).
  destruct (Z.eqb_spec (USB_DeviceState s0) DEVICE_STATE_Unattached) as [|_].
  { rewrite wp_ret. by eexists. }
  destruct (Z.eqb_spec (USB_DeviceState s0) DEVICE_STATE_Suspended) as [|_].
  { rewrite wp_ret. by eexists. }
  rewrite wp_bind. eapply run_test; [exact Hr4|]. intros c s5 Hr5 _.
  destruct (has_bit c STALLRQ) eqn:Hst.
  { rewrite wp_ret. eexists. split; [exact Hr5|]. by eexists _, _. }
  rewrite wp_bind. eapply run_rd; [exact Hr5|]. intros w s6 Hr6 Hv. rewrite wp_ret.
  pose proof (waiting_next UDFNUM _ K frames ENDPOINT_READYWAIT_Timeout _ _ _ _ _ Hv Hw) as Hnext.
  destruct (_ =? Prev); [|destruct (_ =? 0)].
  - destruct Hnext as (n' & ? & ?). exists n'. split; [done|]. by eexists.
  - destruct Hnext as [_ Hc]. by eexists.
  - destruct Hnext as (n' & ? & ?). exists n'. split; [done|]. by eexists.
Qed.
End WaitProofs.
