(* ===== verification/ControlStream.v ===== *)
(** * Control endpoint streams

    [LUFA/Drivers/USB/Core/AVR8/Template/Template_Endpoint_Control_W.c] and
    [Template_Endpoint_Control_R.c] with their instances in
    [EndpointStream_AVR8.c].  A stream pointer is an offset into the object
    being transferred; dereferencing it outside of the object is
    [undefined]. *)
From S2P Require Import Prelude Machine Rely Descriptors Endpoint.

(** [enum Endpoint_ControlStream_RW_ErrorCodes_t] *)
Inductive Endpoint_ControlStream_RW_ErrorCodes_t : Set :=
  | ENDPOINT_RWCSTREAM_NoError
  | ENDPOINT_RWCSTREAM_HostAborted
  | ENDPOINT_RWCSTREAM_DeviceDisconnected
  | ENDPOINT_RWCSTREAM_BusSuspended.

(** The macros a template is instantiated with. *)
Record stream_template := {
  TEMPLATE_BUFFER_OFFSET : Z -> Z;
  TEMPLATE_BUFFER_MOVE : Z -> Z -> Z
}.

Definition LE_stream : stream_template :=
  {| TEMPLATE_BUFFER_OFFSET := fun _ => 0; TEMPLATE_BUFFER_MOVE := fun p n => p + n |}.
Definition BE_stream : stream_template :=
  {| TEMPLATE_BUFFER_OFFSET := fun Length => Length - 1; TEMPLATE_BUFFER_MOVE := fun p n => p - n |}.

Section ControlStream.
Context `{Env}.

(** [Endpoint_Write_8] of the byte [DataStream] points to. *)
Definition transfer_out (read_byte : Z -> option Z) (DataStream : Z) : M unit :=
  match read_byte DataStream with Some b => Endpoint_Write_8 b | None => undefined end.

(** [while (Length && (BytesInEndpoint < USB_Device_ControlEndpointSize))]; each
    round decrements [Length]. Returns [DataStream], [Length] and
    [BytesInEndpoint]. *)
Definition fill_bank (T : stream_template) (read_byte : Z -> option Z)
    (DataStream Length BytesInEndpoint : Z) : M (Z * Z * Z) :=
  loop (S (Z.to_nat Length)) (fun '(DataStream, Length, BytesInEndpoint) =>
    if negb (Length =? 0) && (BytesInEndpoint <? USB_Device_ControlEndpointSize) then
      transfer_out read_byte DataStream ;;
      ret (inl (TEMPLATE_BUFFER_MOVE T DataStream 1, u16 (Length - 1), u16 (BytesInEndpoint + 1)))
    else ret (inr (DataStream, Length, BytesInEndpoint)))
  (DataStream, Length, BytesInEndpoint).

(** The data stage, [while (Length || LastPacketFull)]: [Some code] on an early
    return, [None] when the loop is left. *)
Definition control_W_data (T : stream_template) (read_byte : Z -> option Z)
    (DataStream Length : Z) : M (option Endpoint_ControlStream_RW_ErrorCodes_t) :=
  loop fuel (fun '(DataStream, Length, LastPacketFull) =>
    if (Length =? 0) && negb LastPacketFull then ret (inr None)
    else
      USB_DeviceState_LCL ← get_volatile USB_DeviceState;
      if USB_DeviceState_LCL =? DEVICE_STATE_Unattached then
        ret (inr (Some ENDPOINT_RWCSTREAM_DeviceDisconnected))
      else if USB_DeviceState_LCL =? DEVICE_STATE_Suspended then
        ret (inr (Some ENDPOINT_RWCSTREAM_BusSuspended))
      else
        setup ← Endpoint_IsSETUPReceived;
        if (setup : bool) then ret (inr (Some ENDPOINT_RWCSTREAM_HostAborted))
        else
          out ← Endpoint_IsOUTReceived;
          if (out : bool) then ret (inr None)
          else
            ready ← Endpoint_IsINReady;
            if (ready : bool) then
              BytesInEndpoint ← Endpoint_BytesInEndpoint;
              '(DataStream, Length, BytesInEndpoint) ←
                fill_bank T read_byte DataStream Length BytesInEndpoint;
              Endpoint_ClearIN ;;
              ret (inl (DataStream, Length,
                        BytesInEndpoint =? USB_Device_ControlEndpointSize))
            else ret (inl (DataStream, Length, LastPacketFull)))
  (DataStream, Length, false).

(** The status stage, [while (!(Endpoint_IsOUTReceived()))]. *)
Definition control_W_status : M Endpoint_ControlStream_RW_ErrorCodes_t :=
  loop fuel (fun _ : unit =>
    out ← Endpoint_IsOUTReceived;
    if (out : bool) then ret (inr ENDPOINT_RWCSTREAM_NoError)
    else
      USB_DeviceState_LCL ← get_volatile USB_DeviceState;
      if USB_DeviceState_LCL =? DEVICE_STATE_Unattached then
        ret (inr ENDPOINT_RWCSTREAM_DeviceDisconnected)
      else if USB_DeviceState_LCL =? DEVICE_STATE_Suspended then
        ret (inr ENDPOINT_RWCSTREAM_BusSuspended)
      else
        setup ← Endpoint_IsSETUPReceived;
        ret (if (setup : bool) then inr ENDPOINT_RWCSTREAM_HostAborted else inl tt)) tt.

Definition Template_Endpoint_Control_W (T : stream_template) (read_byte : Z -> option Z)
    (Length : Z) : M Endpoint_ControlStream_RW_ErrorCodes_t :=
  let DataStream := TEMPLATE_BUFFER_OFFSET T Length in
  req ← get USB_ControlRequest;
  Length ← (if wLength req <? Length then ret (wLength req)
            else when (Length =? 0) Endpoint_ClearIN ;; ret Length);
  r ← control_W_data T read_byte DataStream Length;
  match r with
  | Some code => ret code
  | None => control_W_status
  end.

(** [*DataStream = Endpoint_Read_8()] *)
Definition transfer_in (Buffer : bytes) (DataStream : Z) : M bytes :=
  b ← Endpoint_Read_8;
  match store_byte Buffer DataStream b with Some Buffer => ret Buffer | None => undefined end.

(** [while (Length && Endpoint_BytesInEndpoint())] *)
Definition drain_bank (T : stream_template) (Buffer : bytes) (DataStream Length : Z)
    : M (bytes * Z * Z) :=
  loop (S (Z.to_nat Length)) (fun '(Buffer, DataStream, Length) =>
    if Length =? 0 then ret (inr (Buffer, DataStream, Length))
    else
      n ← Endpoint_BytesInEndpoint;
      if n =? 0 then ret (inr (Buffer, DataStream, Length))
      else
        Buffer ← transfer_in Buffer DataStream;
        ret (inl (Buffer, TEMPLATE_BUFFER_MOVE T DataStream 1, u16 (Length - 1))))
  (Buffer, DataStream, Length).

Definition control_R_data (T : stream_template) (Buffer : bytes) (DataStream Length : Z)
    : M (option Endpoint_ControlStream_RW_ErrorCodes_t * bytes) :=
  loop fuel (fun '(Buffer, DataStream, Length) =>
    if Length =? 0 then ret (inr (None, Buffer))
    else
      USB_DeviceState_LCL ← get_volatile USB_DeviceState;
      if USB_DeviceState_LCL =? DEVICE_STATE_Unattached then
        ret (inr (Some ENDPOINT_RWCSTREAM_DeviceDisconnected, Buffer))
      else if USB_DeviceState_LCL =? DEVICE_STATE_Suspended then
        ret (inr (Some ENDPOINT_RWCSTREAM_BusSuspended, Buffer))
      else
        setup ← Endpoint_IsSETUPReceived;
        if (setup : bool) then ret (inr (Some ENDPOINT_RWCSTREAM_HostAborted, Buffer))
        else
          out ← Endpoint_IsOUTReceived;
          if (out : bool) then
            '(Buffer, DataStream, Length) ← drain_bank T Buffer DataStream Length;
            Endpoint_ClearOUT ;;
            ret (inl (Buffer, DataStream, Length))
          else ret (inl (Buffer, DataStream, Length)))
  (Buffer, DataStream, Length).

(** [while (!(Endpoint_IsINReady()))] *)
Definition control_R_status : M Endpoint_ControlStream_RW_ErrorCodes_t :=
  loop fuel (fun _ : unit =>
    ready ← Endpoint_IsINReady;
    if (ready : bool) then ret (inr ENDPOINT_RWCSTREAM_NoError)
    else
      USB_DeviceState_LCL ← get_volatile USB_DeviceState;
      ret (if USB_DeviceState_LCL =? DEVICE_STATE_Unattached then
             inr ENDPOINT_RWCSTREAM_DeviceDisconnected
           else if USB_DeviceState_LCL =? DEVICE_STATE_Suspended then
             inr ENDPOINT_RWCSTREAM_BusSuspended
           else inl tt)) tt.

Definition Template_Endpoint_Control_R (T : stream_template) (Buffer : bytes) (Length : Z)
    : M (Endpoint_ControlStream_RW_ErrorCodes_t * bytes) :=
  let DataStream := TEMPLATE_BUFFER_OFFSET T Length in
  when (Length =? 0) Endpoint_ClearOUT ;;
  '(r, Buffer) ← control_R_data T Buffer DataStream Length;
  match r with
  | Some code => ret (code, Buffer)
  | None => code ← control_R_status; ret (code, Buffer)
  end.

(** ** Instances. The [Buffer] of an [EStream] is an object in EEPROM, that of a
    [PStream] an address in FLASH. *)

Definition Endpoint_Write_Control_Stream_LE (Buffer : bytes) (Length : Z) :=
  Template_Endpoint_Control_W LE_stream (load_byte Buffer) Length.
Definition Endpoint_Write_Control_Stream_BE (Buffer : bytes) (Length : Z) :=
  Template_Endpoint_Control_W BE_stream (load_byte Buffer) Length.
Definition Endpoint_Read_Control_Stream_LE (Buffer : bytes) (Length : Z) :=
  Template_Endpoint_Control_R LE_stream Buffer Length.
Definition Endpoint_Read_Control_Stream_BE (Buffer : bytes) (Length : Z) :=
  Template_Endpoint_Control_R BE_stream Buffer Length.

Definition flash_offset (p : flash_ptr) (n : Z) : flash_ptr :=
  match p with Some (o, off) => Some (o, off + n) | None => None end.
Definition Endpoint_Write_Control_PStream_LE (Buffer : flash_ptr) (Length : Z) :=
  Template_Endpoint_Control_W LE_stream (fun p => pgm_read_byte (flash_offset Buffer p)) Length.
Definition Endpoint_Write_Control_PStream_BE (Buffer : flash_ptr) (Length : Z) :=
  Template_Endpoint_Control_W BE_stream (fun p => pgm_read_byte (flash_offset Buffer p)) Length.

Definition Endpoint_Write_Control_EStream_LE (Buffer : bytes) (Length : Z) :=
  Template_Endpoint_Control_W LE_stream (load_byte Buffer) Length.
Definition Endpoint_Write_Control_EStream_BE (Buffer : bytes) (Length : Z) :=
  Template_Endpoint_Control_W BE_stream (load_byte Buffer) Length.
Definition Endpoint_Read_Control_EStream_LE (Buffer : bytes) (Length : Z) :=
  Template_Endpoint_Control_R LE_stream Buffer Length.
Definition Endpoint_Read_Control_EStream_BE (Buffer : bytes) (Length : Z) :=
  Template_Endpoint_Control_R BE_stream Buffer Length.
End ControlStream.

(** ** What the host sees of a control read

    Over the endpoint accesses [l] made since the start of the transfer (newest
    first): the bytes in the IN bank, the packets sent (the bank is sent when
    TXINI is cleared), and how often the firmware has polled the endpoint status
    since it last wrote it. *)

Fixpoint in_bank (l : list event) : bytes :=
  match l with
  | [] => []
  | Wr UEDATX v :: l => in_bank l ++ [v]
  | Wr UEINTX v :: l => if has_bit v TXINI then in_bank l else []
  | _ :: l => in_bank l
  end.

Fixpoint in_packets (l : list event) : list bytes :=
  match l with
  | [] => []
  | Wr UEINTX v :: l => if has_bit v TXINI then in_packets l else in_packets l ++ [in_bank l]
  | _ :: l => in_packets l
  end.

Fixpoint polls (l : list event) : nat :=
  match l with
  | [] => 0
  | Rd UEINTX _ :: l => S (polls l)
  | Wr UEINTX _ :: _ => 0
  | _ :: l => polls l
  end.

(** A host that asked for [W] bytes expects more data as long as all the packets
    were full and together shorter than [W] (USB 2.0, 5.5.3). *)
Definition full_packet (p : bytes) : bool := Z.of_nat (length p) =? USB_Device_ControlEndpointSize.
Definition wants_data (W : Z) (ps : list bytes) : bool :=
  forallb full_packet ps && (Z.of_nat (length (concat ps)) <? W).

(** Documented behaviour of the controller and of a host that carries out a
    control read of at most [W] bytes, starting after the endpoint accesses
    [l0]: the byte count register counts the bank; no new SETUP packet arrives;
    as long as the host expects data it starts no status stage and takes a
    packet within [K] polls; afterwards it starts the status stage within [K]
    polls. *)
Record host_reads `{Env} (l0 : list event) (W : Z) (K : nat) : Prop := {
  hr_count_low : forall l v, answer (l ++ l0) UEBCLX v ->
    (length (in_bank l) <= 8)%nat -> v = Z.of_nat (length (in_bank l));
  hr_count_high : forall l v, answer (l ++ l0) UEBCHX v ->
    (length (in_bank l) <= 8)%nat -> v = 0;
  hr_setup : forall l v, answer (l ++ l0) UEINTX v -> has_bit v RXSTPI = false;
  hr_no_status : forall l v, answer (l ++ l0) UEINTX v ->
    wants_data W (in_packets l) = true -> has_bit v RXOUTI = false;
  hr_takes : forall l v, answer (l ++ l0) UEINTX v ->
    wants_data W (in_packets l) = true -> (K <= polls l)%nat -> has_bit v TXINI = true;
  hr_status : forall l v, answer (l ++ l0) UEINTX v ->
    wants_data W (in_packets l) = false -> (K <= polls l)%nat -> has_bit v RXOUTI = true
}.

Lemma ClearIN_TXINI v : has_bit (clear_bits v (Z.lor (bit TXINI) (bit FIFOCON))) TXINI = false.
Proof.
  rewrite has_bit_testbit by (unfold TXINI; lia).
  rewrite clear_bits_testbit by (unfold TXINI; lia). apply andb_false_r.
Qed.

Section WriteControlProofs.
Context `{Calm}.
Context (read_byte : Z -> option Z) (data : bytes).
Hypothesis data_bytes_ok : all_bytes data.
Hypothesis read_ok : forall i, 0 <= i < Z.of_nat (length data) -> read_byte i = data !! Z.to_nat i.

(** The bank is filled with the next bytes of the data. *)
Lemma fill_bank_spec s0 l s p len :
  evolves l s0 s -> in_bank l = [] ->
  0 <= p -> 0 <= len < 2 ^ 16 -> p + len <= Z.of_nat (length data) ->
  wp (fill_bank LE_stream read_byte p len 0)
     (fun '(p', len', b') s' => exists l', evolves (l' ++ l) s0 s' /\
        p' = p + b' /\ len' = len - b' /\ b' = Z.min len 8 /\
        in_bank (l' ++ l) = take (Z.to_nat b') (drop (Z.to_nat p) data) /\
        in_packets (l' ++ l) = in_packets l) s.
Proof.
  intros Hev Hbank Hp Hlen Hfit. unfold fill_bank.
  apply (wp_loop (fun '(p', len', b') n s' => exists l', evolves (l' ++ l) s0 s' /\
    p' = p + b' /\ len' = len - b' /\ 0 <= b' <= Z.min len 8 /\ n = Z.to_nat len' /\
    in_bank (l' ++ l) = take (Z.to_nat b') (drop (Z.to_nat p) data) /\
    in_packets (l' ++ l) = in_packets l)) with (n := Z.to_nat len); [|lia|].
  2: { exists []. simpl. rewrite Z.add_0_r, Z.sub_0_r, Hbank. repeat split; try done; apply Hev || lia. }
  intros [[p' len'] b'] n s1 (l' & Hev1 & -> & -> & Hb & -> & Hbk & Hpk).
  unfold USB_Device_ControlEndpointSize, FIXED_CONTROL_ENDPOINT_SIZE.
  destruct (Z.eqb_spec (len - b') 0) as [E|E]; simpl.
  { exists l'. repeat split; try done; apply Hev1 || lia. }
  destruct (Z.ltb_spec b' 8) as [E8|E8].
  2: { exists l'. repeat split; try done; apply Hev1 || lia. }
  rewrite wp_bind. unfold transfer_out. rewrite read_ok by lia.
  destruct (lookup_lt_is_Some_2 data (Z.to_nat (p + b'))) as [v Hv]; [lia|]. rewrite Hv.
  apply wp_wr_ep; [done|]. intros s2 Hev2.
  assert (is_u8 v) by (by eapply Forall_lookup_1). rewrite wrap_id in Hev2 by done.
  rewrite !wrap_id by (unfold fits; lia).
  exists (Z.to_nat (len - b') - 1)%nat. split; [lia|].
  exists (Wr UEDATX v :: l'). cbn [app in_bank in_packets].
  split; [apply (evolves_trans _ [_] _ _ _ Hev1 Hev2)|].
  repeat split; try lia; [|done]. rewrite Hbk.
  replace (Z.to_nat (b' + 1)) with (S (Z.to_nat b')) by lia.
  symmetry. apply take_S_r. rewrite lookup_drop. by rewrite <- Z2Nat.inj_add by lia.
Qed.

(** The packets [ps] carry the first [p] bytes of the data, all but the last of
    them full. *)
Record packetised (p : Z) (ps : list bytes) : Prop := {
  pk_data : concat ps = take (Z.to_nat p) data;
  pk_full : Forall (fun q => full_packet q = true) (removelast ps);
  pk_size : Forall (fun q => length q <= 8)%nat ps
}.

Lemma removelast_snoc {A} (l : list A) x : removelast (l ++ [x]) = l.
Proof. rewrite removelast_app by done. apply app_nil_r. Qed.

(** Sending one more packet after full ones. *)
Lemma packetised_snoc p ps k :
  0 <= p -> 0 <= k <= 8 -> packetised p ps -> forallb full_packet ps = true ->
  packetised (p + k) (ps ++ [take (Z.to_nat k) (drop (Z.to_nat p) data)]).
Proof.
  intros Hp Hk [Hd _ Hs] Hfull. constructor.
  - rewrite concat_app, Hd. simpl. rewrite app_nil_r, Z2Nat.inj_add by lia.
    by rewrite take_take_drop.
  - rewrite removelast_snoc. by apply Forall_forall, forallb_forall.
  - apply Forall_app. split; [done|]. apply Forall_singleton. rewrite length_take. lia.
Qed.

Lemma packetised_length p ps :
  0 <= p <= Z.of_nat (length data) -> packetised p ps -> Z.of_nat (length (concat ps)) = p.
Proof. intros ? Hp. rewrite (pk_data _ _ Hp), length_take. lia. Qed.

Context (s0 : st) (W N : Z) (K : nat).
Hypothesis host : host_reads (ep_trace (trace s0)) W K.
Hypothesis attached : USB_DeviceState s0 <> DEVICE_STATE_Unattached.
Hypothesis active : USB_DeviceState s0 <> DEVICE_STATE_Suspended.
Hypothesis N_ok : 0 <= N <= Z.of_nat (length data) /\ N <= W /\ N < 2 ^ 16.

(** Invariant of the data stage. *)
Definition data_stage (p len : Z) (full : bool) (l : list event) : Prop :=
  0 <= p /\ 0 <= len /\ p + len = N /\ in_bank l = [] /\ packetised p (in_packets l) /\
  (if full || negb (len =? 0) then forallb full_packet (in_packets l) = true
   else wants_data W (in_packets l) = false).

Definition data_measure (len : Z) (full : bool) (l : list event) : nat :=
  (Z.to_nat len + (if full then 1 else 0)) * (K + 1) + (K - polls l).

Lemma device_active l s : evolves l s0 s ->
  (USB_DeviceState s =? DEVICE_STATE_Unattached) = false /\
  (USB_DeviceState s =? DEVICE_STATE_Suspended) = false.
Proof. intros Hev. rewrite (evolves_DeviceState _ _ _ Hev). by rewrite !Z.eqb_neq. Qed.

(** Sending a packet: one round of the data stage with the endpoint ready. *)
Lemma send_packet p len full l s :
  evolves l s0 s -> data_stage p len full l -> full || negb (len =? 0) = true ->
  wp (BytesInEndpoint ← Endpoint_BytesInEndpoint;
      '(DataStream, Length, BytesInEndpoint) ← fill_bank LE_stream read_byte p len BytesInEndpoint;
      Endpoint_ClearIN ;;
      ret (inl (B := option Endpoint_ControlStream_RW_ErrorCodes_t)
             (DataStream, Length, BytesInEndpoint =? USB_Device_ControlEndpointSize)))
     (fun r s' => exists p' len' full' l', r = inl (p', len', full') /\ evolves l' s0 s' /\
        data_stage p' len' full' l' /\ (data_measure len' full' l' < data_measure len full l)%nat) s.
Proof.
  intros Hev (Hp & Hlen & HN & Hbk & Hpk & Hfull) Hgo. rewrite Hgo in Hfull.
  unfold Endpoint_BytesInEndpoint. rewrite !wp_bind.
  eapply at_rd; [exact Hev|done|]. intros vh s1 Hev1 Hh.
  rewrite wp_bind. eapply at_rd; [exact Hev1|done|]. intros vl s2 Hev2 Hl. cbn beta.
  apply (hr_count_high _ _ _ host l) in Hh; [|rewrite Hbk; simpl; lia].
  apply (hr_count_low _ _ _ host (Rd UEBCHX vh :: l)) in Hl; [|simpl; rewrite Hbk; simpl; lia].
  simpl in Hl. rewrite Hbk in Hl. change (vl = 0) in Hl. subst vh vl. rewrite wp_ret, wp_bind.
  eapply wp_mono; [|apply (fill_bank_spec s0 _ s2 p len Hev2); simpl; lia || done].
  intros [[p' len'] b'] s3 (l' & Hev3 & -> & -> & Hb & Hbk' & Hpk'). cbn in Hbk', Hpk'.
  rewrite wp_bind. eapply at_clear; [exact Hev3|done|]. intros v s4 Hev4 _.
  eexists _, _, _, _. split; [done|]. split; [exact Hev4|].
  assert (Hpk4 : in_packets (Wr UEINTX (clear_bits v (Z.lor (bit TXINI) (bit FIFOCON)))
                   :: Rd UEINTX v :: l' ++ Rd UEBCLX 0 :: Rd UEBCHX 0 :: l)
                 = in_packets l ++ [take (Z.to_nat b') (drop (Z.to_nat p) data)]).
  { cbn [in_packets]. rewrite ClearIN_TXINI, Hpk'. cbn [in_bank]. by rewrite Hbk'. }
  unfold USB_Device_ControlEndpointSize, FIXED_CONTROL_ENDPOINT_SIZE in *.
  assert (Hlast : full_packet (take (Z.to_nat b') (drop (Z.to_nat p) data)) = (b' =? 8)).
  { unfold full_packet, USB_Device_ControlEndpointSize, FIXED_CONTROL_ENDPOINT_SIZE.
    rewrite length_take, length_drop.
    destruct (Z.eqb_spec b' 8); [apply Z.eqb_eq|apply Z.eqb_neq]; lia. }
  split.
  - unfold data_stage. rewrite Hpk4. cbn [in_bank]. rewrite ClearIN_TXINI.
    do 4 (split; [lia || done|]). split; [apply packetised_snoc; done || lia|].
    rewrite forallb_app, Hfull. simpl. rewrite Hlast, andb_true_r.
    destruct (Z.eqb_spec b' 8) as [E|E]; simpl; [done|].
    destruct (Z.eqb_spec (len - b') 0); simpl; [|lia].
    unfold wants_data. rewrite forallb_app, Hfull. simpl. rewrite Hlast.
    by destruct (Z.eqb_spec b' 8).
  - unfold data_measure. cbn [polls].
    destruct (Z.eqb_spec b' 8); destruct full; destruct (Z.eqb_spec len 0); simpl in Hgo; try done; nia.
Qed.

(** The data stage delivers the first [N] bytes, and the host knows that it has
    ended. *)
Lemma control_W_data_spec l s :
  evolves l s0 s -> data_stage 0 N false l -> ((Z.to_nat N + 1) * (K + 1) <= fuel)%nat ->
  wp (control_W_data LE_stream read_byte 0 N)
     (fun r s' => r = None /\ exists l', evolves l' s0 s' /\ packetised N (in_packets l') /\
                  wants_data W (in_packets l') = false) s.
Proof.
  intros Hev Hds Hfuel. unfold control_W_data.
  apply (wp_loop (fun '(p, len, full) n s' => exists l', evolves l' s0 s' /\
           data_stage p len full l' /\ n = data_measure len full l'))
    with (n := data_measure N false l).
  2: { unfold data_measure. nia. }
  2: { exists l. done. }
  clear l s Hev Hds. intros [[p len] full] n s (l & Hev & Hds & ->).
  pose proof Hds as (Hp & Hlen & HN & Hbk & Hpk & Hphase).
  destruct ((len =? 0) && negb full) eqn:Hend.
  { apply andb_true_iff in Hend as [->%Z.eqb_eq ->%negb_true_iff]. simpl in Hphase.
    split; [done|]. exists l. by replace N with p by lia. }
  assert (Hgo : full || negb (len =? 0) = true) by (by destruct full, (len =? 0)).
  rewrite Hgo in Hphase.
  rewrite wp_bind. eapply at_volatile; [exact Hev|]. intros s1 Hev1.
  destruct (device_active l s1 Hev1) as [-> ->].
  rewrite wp_bind. eapply at_test; [exact Hev1|done|]. intros v1 s2 Hev2 Ha1.
  rewrite (hr_setup _ _ _ host l v1 Ha1).
  rewrite wp_bind. eapply at_test; [exact Hev2|done|]. intros v2 s3 Hev3 Ha2.
  destruct (has_bit v2 RXOUTI) eqn:Hout.
  { split; [done|]. eexists. split; [exact Hev3|]. cbn [in_packets].
    destruct (wants_data W (in_packets l)) eqn:Hw.
    { by rewrite (hr_no_status _ _ _ host (Rd UEINTX v1 :: l) v2 Ha2) in Hout. }
    split; [|done]. unfold wants_data in Hw. rewrite Hphase in Hw. simpl in Hw.
    apply Z.ltb_ge in Hw. rewrite (packetised_length p) in Hw by (done || lia).
    by replace N with p by lia. }
  rewrite wp_bind. eapply at_test; [exact Hev3|done|]. intros v3 s4 Hev4 Ha3.
  destruct (has_bit v3 TXINI) eqn:Hin.
  { eapply wp_mono; [|apply (send_packet p len full _ s4 Hev4); [|done]].
    - intros r s' (p' & len' & full' & l' & -> & ? & ? & Hm).
      eexists. split; [|eauto]. eapply Nat.lt_le_trans; [exact Hm|].
      unfold data_measure. cbn [polls]. lia.
    - unfold data_stage. cbn [in_bank in_packets]. rewrite Hgo. done. }
  exists (data_measure len full (Rd UEINTX v3 :: Rd UEINTX v2 :: Rd UEINTX v1 :: l)). split.
  - unfold data_measure. cbn [polls].
    assert (polls l < K)%nat; [|lia]. destruct (wants_data W (in_packets l)) eqn:Hw.
    + destruct (decide (K <= S (S (polls l)))%nat); [|lia].
      by rewrite (hr_takes _ _ _ host (Rd UEINTX v2 :: Rd UEINTX v1 :: l) v3 Ha3) in Hin.
    + destruct (decide (K <= S (polls l))%nat); [|lia].
      by rewrite (hr_status _ _ _ host (Rd UEINTX v1 :: l) v2 Ha2) in Hout.
  - eexists. split; [exact Hev4|]. split; [|done].
    unfold data_stage. cbn [in_bank in_packets]. rewrite Hgo. done.
Qed.

Lemma control_W_status_spec l s :
  evolves l s0 s -> wants_data W (in_packets l) = false -> (K < fuel)%nat ->
  wp control_W_status
     (fun r s' => r = ENDPOINT_RWCSTREAM_NoError /\
        exists l', evolves l' s0 s' /\ in_packets l' = in_packets l) s.
Proof.
  intros Hev Hw Hfuel. unfold control_W_status.
  apply (wp_loop (fun _ n s' => exists l', evolves l' s0 s' /\ in_packets l' = in_packets l /\
           n = (K - polls l')%nat)) with (n := (K - polls l)%nat).
  2: lia.
  2: { by exists l. }
  clear s Hev. intros _ n s (l' & Hev & Hpk & ->).
  rewrite wp_bind. eapply at_test; [exact Hev|done|]. intros v1 s1 Hev1 Ha1.
  destruct (has_bit v1 RXOUTI) eqn:Hout.
  { split; [done|]. eexists. split; [exact Hev1|done]. }
  rewrite wp_bind. eapply at_volatile; [exact Hev1|]. intros s2 Hev2.
  destruct (device_active _ s2 Hev2) as [-> ->].
  rewrite wp_bind. eapply at_test; [exact Hev2|done|]. intros v2 s3 Hev3 Ha2.
  rewrite (hr_setup _ _ _ host _ v2 Ha2).
  eexists. split; [|eexists; split; [exact Hev3|]; split; [exact Hpk|reflexivity]].
  cbn [polls]. assert (polls l' < K)%nat; [|lia].
  destruct (decide (K <= polls l')%nat); [|lia].
  rewrite (hr_status _ _ _ host l' v1 Ha1) in Hout; [done| |done]. by rewrite Hpk.
Qed.
End WriteControlProofs.

(** What a completed control read has delivered: the first [N] bytes of the
    object, in packets of 8 bytes all but the last, ended the way the host
    expects. *)
Definition delivered (data : bytes) (W N : Z) (l : list event) : Prop :=
  packetised data N (in_packets l) /\ wants_data W (in_packets l) = false.

Lemma data_stage_start `{Env} data W N l :
  0 <= N <= W -> in_bank l = [] ->
  (in_packets l = [] /\ (N = 0 -> W = 0)) \/ (N = 0 /\ in_packets l = [[]]) ->
  data_stage data W N 0 N false l.
Proof.
  intros HN Hb Hps. unfold data_stage.
  assert (packetised data 0 (in_packets l)).
  { destruct Hps as [[-> _]|[_ ->]]; constructor; simpl; try done; repeat constructor; simpl; lia. }
  do 5 (split; [lia || done|]). simpl. destruct (Z.eqb_spec N 0) as [HN0|]; simpl.
  - unfold wants_data. destruct Hps as [[-> HW]|[_ ->]]; simpl; [|done]. apply Z.ltb_ge. lia.
  - by destruct Hps as [[-> _]|[? _]].
Qed.

Lemma Template_W_spec `{Calm} (read_byte : Z -> option Z) (data : bytes) (Length W : Z) (K : nat) s :
  all_bytes data -> Z.of_nat (length data) = Length -> 0 <= Length < 2 ^ 16 ->
  (forall i, 0 <= i < Length -> read_byte i = data !! Z.to_nat i) ->
  wLength (USB_ControlRequest s) = W -> 0 <= W ->
  host_reads (ep_trace (trace s)) W K ->
  USB_DeviceState s <> DEVICE_STATE_Unattached -> USB_DeviceState s <> DEVICE_STATE_Suspended ->
  ((Z.to_nat Length + 1) * (K + 1) <= fuel)%nat ->
  wp (Template_Endpoint_Control_W LE_stream read_byte Length)
     (fun r s' => r = ENDPOINT_RWCSTREAM_NoError /\
        exists l, evolves l s s' /\ delivered data W (Z.min Length W) l) s.
Proof.
  intros Hall Hlen HL Hread HW HW0 Hhost Hatt Hact Hfuel.
  assert (HN : 0 <= Z.min Length W <= Z.of_nat (length data) /\ Z.min Length W <= W /\
               Z.min Length W < 2 ^ 16) by lia.
  assert (Hrest : forall l s1, evolves l s s1 ->
    in_bank l = [] -> (in_packets l = [] /\ (Z.min Length W = 0 -> W = 0)) \/ (Z.min Length W = 0 /\ in_packets l = [[]]) ->
    wp (r ← control_W_data LE_stream read_byte 0 (Z.min Length W);
        match r with Some code => ret code | None => control_W_status end)
     (fun r s' => r = ENDPOINT_RWCSTREAM_NoError /\
        exists l, evolves l s s' /\ delivered data W (Z.min Length W) l) s1).
  { intros l s1 Hev Hb Hp. rewrite wp_bind.
    eapply wp_mono; [|eapply (control_W_data_spec read_byte data) with (l := l); eauto].
    3: { apply data_stage_start; [lia|done|done]. }
    2: { by rewrite Hlen. }
    2: { nia. }
    intros r s2 (-> & l2 & Hev2 & Hpk & Hw).
    eapply wp_mono; [|eapply control_W_status_spec; eauto; nia].
    intros code s3 (-> & l3 & Hev3 & Hpk3). split; [done|]. exists l3. split; [done|].
    unfold delivered. by rewrite Hpk3. }
  unfold Template_Endpoint_Control_W. cbn [TEMPLATE_BUFFER_OFFSET LE_stream].
  rewrite wp_bind, wp_get, wp_bind, HW.
  destruct (Z.ltb_spec W Length).
  - replace (Z.min Length W) with W in * by lia. apply (Hrest []); [done|done|left; split; [done|lia]].
  - replace (Z.min Length W) with Length in * by lia. rewrite wp_bind.
    destruct (Z.eqb_spec Length 0); cbn [when].
    + eapply at_clear; [apply evolves_refl|done|]. intros v s1 Hev1 _.
      eapply Hrest; [exact Hev1| |]; cbn [in_bank in_packets]; rewrite ClearIN_TXINI; [done|].
      by right.
    + apply (Hrest []); [done|done|left; split; [done|lia]].
Qed.

(** ** Control writes

    Over the endpoint accesses [l] made since the start of the transfer: how many
    OUT packets have been acknowledged and how many bytes of the current one have
    been read, and whether the firmware has seen the current one arrive. *)

Fixpoint out_view (l : list event) : nat * nat :=
  match l with
  | [] => (0, 0)%nat
  | Rd UEDATX _ :: l => let '(k, j) := out_view l in (k, S j)
  | Wr UEINTX v :: l => if has_bit v RXOUTI then out_view l else (S (out_view l).1, 0%nat)
  | _ :: l => out_view l
  end.

Fixpoint out_seen (l : list event) : bool :=
  match l with
  | [] => false
  | Rd UEINTX v :: l => has_bit v RXOUTI || out_seen l
  | Wr UEINTX v :: l => if has_bit v RXOUTI then out_seen l else false
  | _ :: l => out_seen l
  end.

(** Documented behaviour of the controller and of a host that sends the packets
    [ps] of a control write, starting after the accesses [l0]: no new SETUP packet
    arrives; the next packet arrives within [K] polls; once it has been seen, the
    byte count register holds the number of its unread bytes and the data register
    returns them in order; after the last packet the status stage begins within
    [K] polls. *)
Record host_writes `{Env} (l0 : list event) (ps : list bytes) (K : nat) : Prop := {
  hw_setup : forall l v, answer (l ++ l0) UEINTX v -> has_bit v RXSTPI = false;
  hw_arrives : forall l v, answer (l ++ l0) UEINTX v ->
    ((out_view l).1 < length ps)%nat -> (K <= polls l)%nat -> has_bit v RXOUTI = true;
  hw_count_low : forall l v p, answer (l ++ l0) UEBCLX v -> out_seen l = true ->
    ps !! (out_view l).1 = Some p -> v = Z.of_nat (length p - (out_view l).2);
  hw_count_high : forall l v, answer (l ++ l0) UEBCHX v -> out_seen l = true -> v = 0;
  hw_data : forall l v p b, answer (l ++ l0) UEDATX v -> out_seen l = true ->
    ps !! (out_view l).1 = Some p -> p !! (out_view l).2 = Some b -> v = b;
  hw_status : forall l v, answer (l ++ l0) UEINTX v ->
    (length ps <= (out_view l).1)%nat -> (K <= polls l)%nat -> has_bit v TXINI = true
}.

Lemma ClearOUT_RXOUTI v : has_bit (clear_bits v (Z.lor (bit RXOUTI) (bit FIFOCON))) RXOUTI = false.
Proof.
  rewrite has_bit_testbit by (unfold RXOUTI; lia).
  rewrite clear_bits_testbit by (unfold RXOUTI; lia). apply andb_false_r.
Qed.

(** The buffer after its first [n] bytes have been received. *)
Definition received (data Buffer0 : bytes) (n : nat) : bytes := take n data ++ drop n Buffer0.

Lemma store_received data Buffer0 n b :
  (length data <= length Buffer0)%nat -> data !! n = Some b ->
  store_byte (received data Buffer0 n) (Z.of_nat n) b = Some (received data Buffer0 (S n)).
Proof.
  intros Hlen Hb. pose proof (lookup_lt_Some _ _ _ Hb) as Hn. unfold store_byte, load_byte, received.
  destruct (Z.leb_spec 0 (Z.of_nat n)); [|lia]. rewrite Nat2Z.id.
  assert (Ht : length (take n data) = n) by (rewrite length_take; lia).
  destruct (lookup_lt_is_Some_2 Buffer0 n) as [x Hx]; [lia|].
  rewrite lookup_app_r, Ht, Nat.sub_diag by lia. rewrite lookup_drop, Nat.add_0_r, Hx.
  rewrite insert_app_r_alt, Ht, Nat.sub_diag by lia.
  rewrite (drop_S _ _ _ Hx). cbn [insert list_insert]. rewrite (take_S_r _ _ _ Hb).
  by rewrite <- app_assoc.
Qed.

(** ** Positions in a sequence of packets *)

Section Position.
Context (ps : list bytes).

(** The position in the data of byte [j] of packet [k]. *)
Definition position (k j : nat) : nat := (length (concat (take k ps)) + j)%nat.

Lemma concat_split k : concat ps = concat (take k ps) ++ concat (drop k ps).
Proof. by rewrite <- concat_app, take_drop. Qed.

Lemma position_lookup k j p b :
  ps !! k = Some p -> p !! j = Some b -> concat ps !! position k j = Some b.
Proof.
  intros Hp Hb. unfold position. rewrite (concat_split k), lookup_app_r by lia.
  rewrite (drop_S _ _ _ Hp). simpl. rewrite Nat.add_comm, Nat.add_sub.
  by apply lookup_app_l_Some.
Qed.

Lemma position_next k p : ps !! k = Some p -> position (S k) 0 = position k (length p).
Proof.
  intros Hp. unfold position. rewrite (take_S_r _ _ _ Hp), concat_app, length_app. simpl.
  rewrite app_nil_r. lia.
Qed.

Lemma position_bound k j p :
  ps !! k = Some p -> (j <= length p)%nat -> (position k j <= length (concat ps))%nat.
Proof.
  intros Hp Hj. unfold position. rewrite (concat_split k), length_app, (drop_S _ _ _ Hp).
  simpl. rewrite length_app. lia.
Qed.

Lemma position_end k : (length ps <= k)%nat -> position k 0 = length (concat ps).
Proof. intros Hk. unfold position. rewrite take_ge by lia. lia. Qed.

End Position.

Section ReadControlProofs.
Context `{Calm}.
Context (s0 : st) (ps : list bytes) (Buffer0 : bytes) (K : nat).
Hypothesis host : host_writes (ep_trace (trace s0)) ps K.
Hypothesis sizes : Forall (fun p => 0 < length p <= 8)%nat ps.
Hypothesis fits_buffer : length Buffer0 = length (concat ps).
Hypothesis short : Z.of_nat (length (concat ps)) < 2 ^ 16.
Hypothesis attached : USB_DeviceState s0 <> DEVICE_STATE_Unattached.
Hypothesis active : USB_DeviceState s0 <> DEVICE_STATE_Suspended.

Let data := concat ps.
Let N := length data.

(** The byte count of the packet being read. *)
Lemma count_spec l s k j p Q :
  evolves l s0 s -> out_view l = (k, j) -> out_seen l = true -> ps !! k = Some p ->
  (forall l' s', evolves l' s0 s' -> out_view l' = (k, j) -> out_seen l' = true ->
     Q (Z.of_nat (length p - j)) s') ->
  wp Endpoint_BytesInEndpoint Q s.
Proof.
  intros Hev Hv Hs Hp HQ. unfold Endpoint_BytesInEndpoint. rewrite wp_bind.
  eapply at_rd; [exact Hev|done|]. intros vh s1 Hev1 Hh. rewrite wp_bind.
  eapply at_rd; [exact Hev1|done|]. intros vl s2 Hev2 Hl. rewrite wp_ret.
  apply (hw_count_high _ _ _ host l) in Hh; [|done]. subst vh.
  apply (hw_count_low _ _ _ host (Rd UEBCHX 0 :: l) _ p) in Hl; cbn [out_seen out_view];
    rewrite ?Hv; try done.
  cbn [out_view] in Hl. rewrite Hv in Hl. cbn [snd] in Hl. subst vl.
  rewrite Z.shiftl_0_l, Z.lor_0_l. by eapply HQ.
Qed.

(** The bytes of a packet are read into the buffer. *)
Lemma drain_bank_spec l s k p :
  evolves l s0 s -> out_view l = (k, 0%nat) -> out_seen l = true -> ps !! k = Some p ->
  wp (drain_bank LE_stream (received data Buffer0 (position ps k 0)) (Z.of_nat (position ps k 0))
        (Z.of_nat (N - position ps k 0)))
     (fun r s' => exists l', evolves l' s0 s' /\ out_view l' = (k, length p) /\
        r = (received data Buffer0 (position ps (S k) 0), Z.of_nat (position ps (S k) 0),
             Z.of_nat (N - position ps (S k) 0))) s.
Proof.
  intros Hev Hview Hseen Hp. rewrite (position_next ps k p Hp). unfold drain_bank.
  pose proof (position_bound ps k (length p) p Hp (Nat.le_refl _)) as Hbound.
  change (length (concat ps)) with N in Hbound.
  apply (wp_loop (fun '(B, pos, len) n s' => exists l' j, evolves l' s0 s' /\
    out_view l' = (k, j) /\ out_seen l' = true /\ (j <= length p)%nat /\
    B = received data Buffer0 (position ps k j) /\ pos = Z.of_nat (position ps k j) /\
    len = Z.of_nat (N - position ps k j) /\ n = (length p - j)%nat)) with (n := length p).
  2: { unfold position in *. lia. }
  2: { exists l, 0%nat. repeat split; try done; try apply Hev; lia. }
  intros [[B pos] len] n s1 (l' & j & Hev1 & Hv1 & Hs1 & Hj & -> & -> & -> & ->).
  destruct (Z.eqb_spec (Z.of_nat (N - position ps k j)) 0).
  { replace j with (length p) in * by (unfold position in *; lia). by exists l'. }
  rewrite wp_bind. eapply count_spec; [exact Hev1|exact Hv1|done|exact Hp|].
  clear l' Hev1 Hv1 Hs1. intros l' s2 Hev1 Hv1 Hs1.
  destruct (Z.eqb_spec (Z.of_nat (length p - j)) 0).
  { replace j with (length p) in * by lia. by exists l'. }
  rewrite wp_bind. unfold transfer_in. rewrite wp_bind.
  eapply at_rd; [exact Hev1|done|]. intros b s4 Hev4 Hb.
  destruct (lookup_lt_is_Some_2 p j) as [b' Hb']; [lia|].
  apply (hw_data _ _ _ host l' _ p b') in Hb; rewrite ?Hv1; try done. subst b.
  rewrite store_received by ((by rewrite fits_buffer) || by eapply position_lookup).
  rewrite !wp_ret. exists (length p - S j)%nat. split; [lia|].
  eexists _, (S j). split; [exact Hev4|]. cbn [out_view out_seen]. rewrite Hv1, Hs1.
  replace (position ps k (S j)) with (S (position ps k j)) by (unfold position; lia).
  repeat split; try done; try lia; cbn [TEMPLATE_BUFFER_MOVE LE_stream]; try lia.
  fold data N in short. rewrite wrap_id by (unfold fits; lia). lia.
Qed.

(** The data stage fills the buffer. *)
Lemma control_R_data_spec :
  ((length ps + 1) * (K + 1) <= fuel)%nat ->
  forall l s, evolves l s0 s -> out_view l = (0, 0)%nat ->
  wp (control_R_data LE_stream Buffer0 0 (Z.of_nat N))
     (fun r s' => r = (None, data) /\ exists l', evolves l' s0 s' /\ out_view l' = (length ps, 0%nat)) s.
Proof.
  intros Hfuel l s Hev Hv. unfold control_R_data.
  apply (wp_loop (fun '(B, pos, len) n s' => exists l' k, evolves l' s0 s' /\
    out_view l' = (k, 0%nat) /\ (k <= length ps)%nat /\
    B = received data Buffer0 (position ps k 0) /\ pos = Z.of_nat (position ps k 0) /\
    len = Z.of_nat (N - position ps k 0) /\ n = ((length ps - k) * (K + 1) + (K - polls l'))%nat))
    with (n := (length ps * (K + 1) + (K - polls l))%nat).
  2: nia.
  2: { exists l, 0%nat. unfold position. cbn [take concat length Nat.add].
       rewrite !Nat.sub_0_r. repeat split; try done; try apply Hev; try lia. }
  clear l s Hev Hv. intros [[B pos] len] n s (l & k & Hev & Hv & Hk & -> & -> & -> & ->).
  destruct (decide (k = length ps)) as [->|Hlt].
  { rewrite position_end by lia. rewrite Nat.sub_diag. cbn [Z.of_nat Z.eqb].
    split; [|by exists l]. f_equal. unfold received, N. rewrite take_ge, drop_ge by (unfold data; lia).
    apply app_nil_r. }
  destruct (lookup_lt_is_Some_2 ps k) as [p Hp]; [lia|].
  assert (0 < length p <= 8)%nat as Hsz by (by apply (Forall_lookup_1 _ _ _ _ sizes Hp)).
  pose proof (position_bound ps k (length p) p Hp (Nat.le_refl _)) as Hbound.
  change (length (concat ps)) with N in Hbound.
  destruct (Z.eqb_spec (Z.of_nat (N - position ps k 0)) 0); [unfold position in *; lia|].
  rewrite wp_bind. eapply at_volatile; [exact Hev|]. intros s1 Hev1.
  destruct (device_active s0 attached active l s1 Hev1) as [-> ->].
  rewrite wp_bind. eapply at_test; [exact Hev1|done|]. intros v1 s2 Hev2 Ha1.
  rewrite (hw_setup _ _ _ host l v1 Ha1).
  rewrite wp_bind. eapply at_test; [exact Hev2|done|]. intros v2 s3 Hev3 Ha2.
  destruct (has_bit v2 RXOUTI) eqn:Hout.
  - rewrite wp_bind. eapply wp_mono; [|eapply (drain_bank_spec _ s3 k p Hev3); try done].
    2: { cbn [out_seen]. by rewrite Hout. }
    intros r s4 (l4 & Hev4 & Hv4 & ->). rewrite wp_bind.
    eapply at_clear; [exact Hev4|done|]. intros v s5 Hev5 _. rewrite wp_ret.
    eexists. split; [|eexists _, (S k); split; [exact Hev5|]; cbn [out_view];
      rewrite ClearOUT_RXOUTI, Hv4; repeat split; try done; lia].
    cbn [polls]. nia.
  - rewrite wp_ret. eexists. split; [|eexists _, k; split; [exact Hev3|]; repeat split; done].
    cbn [polls]. assert (polls l < K)%nat; [|lia].
    destruct (decide (K <= S (polls l))%nat); [|lia].
    rewrite (hw_arrives _ _ _ host (Rd UEINTX v1 :: l) v2 Ha2) in Hout; [done| |done].
    cbn [out_view]. rewrite Hv. simpl. lia.
Qed.

Lemma control_R_status_spec l s :
  evolves l s0 s -> out_view l = (length ps, 0%nat) -> (K < fuel)%nat ->
  wp control_R_status (fun r s' => r = ENDPOINT_RWCSTREAM_NoError /\
    exists l', evolves l' s0 s' /\ out_view l' = (length ps, 0%nat)) s.
Proof.
  intros Hev Hv Hfuel. unfold control_R_status.
  apply (wp_loop (fun _ n s' => exists l', evolves l' s0 s' /\ out_view l' = (length ps, 0%nat) /\
           n = (K - polls l')%nat)) with (n := (K - polls l)%nat); [|lia|by exists l].
  clear l s Hev Hv. intros _ n s (l & Hev & Hv & ->).
  rewrite wp_bind. eapply at_test; [exact Hev|done|]. intros v1 s1 Hev1 Ha1.
  destruct (has_bit v1 TXINI) eqn:Hin.
  { rewrite wp_ret. split; [done|]. eexists. split; [exact Hev1|done]. }
  rewrite wp_bind. eapply at_volatile; [exact Hev1|]. intros s2 Hev2.
  destruct (device_active s0 attached active _ s2 Hev2) as [-> ->].
  eexists. split; [|eexists; split; [exact Hev2|]; split; [exact Hv|reflexivity]].
  cbn [polls]. assert (polls l < K)%nat; [|lia].
  destruct (decide (K <= polls l)%nat); [|lia].
  rewrite (hw_status _ _ _ host l v1 Ha1) in Hin; [done| |done]. rewrite Hv. simpl. lia.
Qed.
End ReadControlProofs.

Lemma Template_R_spec `{Calm} (ps : list bytes) (Buffer0 : bytes) (K : nat) s :
  host_writes (ep_trace (trace s)) ps K ->
  Forall (fun p => 0 < length p <= 8)%nat ps -> ps <> [] ->
  length Buffer0 = length (concat ps) -> Z.of_nat (length (concat ps)) < 2 ^ 16 ->
  USB_DeviceState s <> DEVICE_STATE_Unattached -> USB_DeviceState s <> DEVICE_STATE_Suspended ->
  ((length ps + 1) * (K + 1) <= fuel)%nat ->
  wp (Template_Endpoint_Control_R LE_stream Buffer0 (Z.of_nat (length (concat ps))))
     (fun r s' => r = (ENDPOINT_RWCSTREAM_NoError, concat ps) /\
        exists l, evolves l s s' /\ out_view l = (length ps, 0%nat)) s.
Proof.
  intros Hhost Hsz Hne Hlen Hshort Hatt Hact Hfuel. unfold Template_Endpoint_Control_R.
  cbn [TEMPLATE_BUFFER_OFFSET LE_stream].
  assert (0 < length (concat ps))%nat.
  { destruct Hsz as [|p ps Hp]; [done|]. simpl. rewrite length_app. lia. }
  destruct (Z.eqb_spec (Z.of_nat (length (concat ps))) 0); [lia|]. cbn [when].
  rewrite wp_bind, wp_ret, wp_bind.
  eapply wp_mono; [|eapply (control_R_data_spec s ps Buffer0 K) with (l := []); try done].
  intros r s1 (-> & l1 & Hev1 & Hv1). rewrite wp_bind.
  eapply wp_mono; [|eapply (control_R_status_spec s ps Buffer0 K); try done; nia].
  intros code s2 (-> & l2 & Hev2 & Hv2). rewrite wp_ret. split; [done|]. by exists l2.
Qed.
