(* ===== verification/RingBuffer.v ===== *)
(** * The byte ring buffer

    [LUFA/Drivers/Misc/RingBuffer.h].  The storage array is a list of bytes and
    the pointers into it are indices; an access outside of it is [None].
    Insertion and removal may run in different threads (the main program and an
    interrupt handler), so each is split into the accesses the other one may
    interleave with; the update of [Count], made with interrupts disabled, is
    one of them.  [RingBuffer_fifo] is about every interleaving. *)
From S2P Require Import Prelude.

Record RingBuffer_t := {
  In : Z;
  Out : Z;
  Start : Z;
  End_ : Z;
  Size : Z;
  Count : Z
}.

(** The structure, and the array it points into. *)
Record ring := { Buffer : RingBuffer_t; storage : bytes }.

(** ** Field assignments *)

Definition set_In (x : Z) (r : ring) : ring :=
  let b := Buffer r in
  {| Buffer := {| In := x; Out := Out b; Start := Start b; End_ := End_ b; Size := Size b;
                  Count := Count b |}; storage := storage r |}.
Definition set_Out (x : Z) (r : ring) : ring :=
  let b := Buffer r in
  {| Buffer := {| In := In b; Out := x; Start := Start b; End_ := End_ b; Size := Size b;
                  Count := Count b |}; storage := storage r |}.
Definition set_Count (x : Z) (r : ring) : ring :=
  let b := Buffer r in
  {| Buffer := {| In := In b; Out := Out b; Start := Start b; End_ := End_ b; Size := Size b;
                  Count := x |}; storage := storage r |}.

(** ** Operations *)

Definition RingBuffer_InitBuffer (Data : bytes) (Size : Z) : ring :=
  {| Buffer := {| In := 0; Out := 0; Start := 0; End_ := Size; Size := Size; Count := 0 |};
     storage := Data |}.

Definition RingBuffer_GetCount (r : ring) : Z := Count (Buffer r).
Definition RingBuffer_GetFreeCount (r : ring) : Z := u16 (Size (Buffer r) - RingBuffer_GetCount r).
Definition RingBuffer_IsEmpty (r : ring) : bool := RingBuffer_GetCount r =? 0.
Definition RingBuffer_IsFull (r : ring) : bool := RingBuffer_GetCount r =? Size (Buffer r).

(** [if (++p == End) p = Start;] *)
Definition advance (p : Z) (r : ring) : Z :=
  if p + 1 =? End_ (Buffer r) then Start (Buffer r) else p + 1.

(** [*Buffer->In = Data;] *)
Definition insert_store (Data : Z) (r : ring) : option ring :=
  match store_byte (storage r) (In (Buffer r)) (u8 Data) with
  | Some m => Some {| Buffer := Buffer r; storage := m |}
  | None => None
  end.
Definition insert_advance (r : ring) : ring := set_In (advance (In (Buffer r)) r) r.
(** [Buffer->Count++;] *)
Definition insert_count (r : ring) : ring := set_Count (u16 (Count (Buffer r) + 1)) r.

Definition RingBuffer_Insert (Data : Z) (r : ring) : option ring :=
  match insert_store Data r with
  | Some r => Some (insert_count (insert_advance r))
  | None => None
  end.

(** [*Buffer->Out] *)
Definition RingBuffer_Peek (r : ring) : option Z := load_byte (storage r) (Out (Buffer r)).
Definition remove_advance (r : ring) : ring := set_Out (advance (Out (Buffer r)) r) r.
(** [Buffer->Count--;] *)
Definition remove_count (r : ring) : ring := set_Count (u16 (Count (Buffer r) - 1)) r.

Definition RingBuffer_Remove (r : ring) : option (Z * ring) :=
  match RingBuffer_Peek r with
  | Some Data => Some (Data, remove_count (remove_advance r))
  | None => None
  end.

(** ** Two threads

    What each thread has left to do of the operation it is in. *)
Inductive producer_at : Set :=
  | P_idle
  | P_stored (Data : Z)
  | P_advanced (Data : Z).

Inductive consumer_at : Set :=
  | C_idle
  | C_loaded (Data : Z)
  | C_advanced (Data : Z).

(** [inserted] and [removed]: the completed operations, oldest first. *)
Record threads := {
  shared : ring;
  producer : producer_at;
  consumer : consumer_at;
  inserted : list Z;
  removed : list Z
}.

(** The next access is the producer's, which inserts [Data] if it is not in the
    middle of an insertion, or the consumer's. *)
Inductive turn : Set := Produce (Data : Z) | Consume.

(** Each thread tests the count before it starts an operation, as the
    documentation asks for. *)
Definition turn_step (a : turn) (c : threads) : option threads :=
  let '{| shared := r; producer := p; consumer := k; inserted := is_; removed := rs |} := c in
  let at_ r p k is_ rs :=
    {| shared := r; producer := p; consumer := k; inserted := is_; removed := rs |} in
  match a with
  | Produce Data =>
      match p with
      | P_idle =>
          if RingBuffer_IsFull r then Some c
          else match insert_store Data r with
               | Some r => Some (at_ r (P_stored (u8 Data)) k is_ rs)
               | None => None
               end
      | P_stored d => Some (at_ (insert_advance r) (P_advanced d) k is_ rs)
      | P_advanced d => Some (at_ (insert_count r) P_idle k (is_ ++ [d]) rs)
      end
  | Consume =>
      match k with
      | C_idle =>
          if RingBuffer_IsEmpty r then Some c
          else match RingBuffer_Peek r with
               | Some d => Some (at_ r p (C_loaded d) is_ rs)
               | None => None
               end
      | C_loaded d => Some (at_ (remove_advance r) p (C_advanced d) is_ rs)
      | C_advanced d => Some (at_ (remove_count r) p C_idle is_ (rs ++ [d]))
      end
  end.

Fixpoint run_turns (l : list turn) (c : threads) : option threads :=
  match l with
  | [] => Some c
  | a :: l => match turn_step a c with Some c => run_turns l c | None => None end
  end.

Definition start_threads (r : ring) : threads :=
  {| shared := r; producer := P_idle; consumer := C_idle; inserted := []; removed := [] |}.

(** Uninterrupted, the turns of an insertion are [RingBuffer_Insert], and those
    of a removal [RingBuffer_Remove]. *)
Lemma insert_turns d d' d'' c :
  producer c = P_idle -> RingBuffer_IsFull (shared c) = false ->
  run_turns [Produce d; Produce d'; Produce d''] c =
    option_map (fun r => {| shared := r; producer := P_idle; consumer := consumer c;
                            inserted := inserted c ++ [u8 d]; removed := removed c |})
               (RingBuffer_Insert d (shared c)).
Proof.
  destruct c as [r p k is_ rs]. cbn. intros -> ->. unfold RingBuffer_Insert.
  by destruct (insert_store d r).
Qed.

Lemma remove_turns c :
  consumer c = C_idle -> RingBuffer_IsEmpty (shared c) = false ->
  run_turns [Consume; Consume; Consume] c =
    option_map (fun '(d, r) => {| shared := r; producer := producer c; consumer := C_idle;
                                  inserted := inserted c; removed := removed c ++ [d] |})
               (RingBuffer_Remove (shared c)).
Proof.
  destruct c as [r p k is_ rs]. cbn. intros -> ->. unfold RingBuffer_Remove.
  by destruct (RingBuffer_Peek r).
Qed.

(** ** Invariant

    Positions count from the start of time; position [i] lives in slot
    [i mod N].  The producer is ahead of [inserted] by the byte it is about to
    count, the consumer ahead of [removed] by the one it has loaded. *)
Definition producer_ok (N nI nR : nat) (m : bytes) (p : producer_at) (i : Z) : Prop :=
  match p with
  | P_idle => i = Z.of_nat (nI mod N)
  | P_stored d => i = Z.of_nat (nI mod N) /\ (nI < nR + N)%nat /\ m !! (nI mod N)%nat = Some d
  | P_advanced d => i = Z.of_nat (S nI mod N) /\ (nI < nR + N)%nat /\ m !! (nI mod N)%nat = Some d
  end.

Definition consumer_ok (N nR : nat) (is_ : list Z) (k : consumer_at) (o : Z) : Prop :=
  match k with
  | C_idle => o = Z.of_nat (nR mod N)
  | C_loaded d => o = Z.of_nat (nR mod N) /\ is_ !! nR = Some d
  | C_advanced d => o = Z.of_nat (S nR mod N) /\ is_ !! nR = Some d
  end.

Record ring_ok (N : nat) (c : threads) : Prop := {
  ok_start : Start (Buffer (shared c)) = 0;
  ok_end : End_ (Buffer (shared c)) = Z.of_nat N;
  ok_size : Size (Buffer (shared c)) = Z.of_nat N;
  ok_storage : length (storage (shared c)) = N;
  ok_lengths : (length (removed c) <= length (inserted c) <= length (removed c) + N)%nat;
  ok_count : Count (Buffer (shared c)) = Z.of_nat (length (inserted c) - length (removed c));
  ok_prefix : removed c = take (length (removed c)) (inserted c);
  ok_slots : forall i, (length (removed c) <= i < length (inserted c))%nat ->
    storage (shared c) !! (i mod N)%nat = inserted c !! i;
  ok_producer : producer_ok N (length (inserted c)) (length (removed c)) (storage (shared c))
    (producer c) (In (Buffer (shared c)));
  ok_consumer : consumer_ok N (length (removed c)) (inserted c) (consumer c) (Out (Buffer (shared c)))
}.

(** Advancing a pointer moves to the slot of the next position. *)
Lemma advance_mod N n r :
  (0 < N)%nat -> Start (Buffer r) = 0 -> End_ (Buffer r) = Z.of_nat N ->
  advance (Z.of_nat (n mod N)) r = Z.of_nat (S n mod N).
Proof.
  intros HN Hs He. unfold advance. rewrite Hs, He.
  pose proof (Nat.mod_upper_bound n N). pose proof (Nat.div_mod_eq n N).
  destruct (Z.eqb_spec (Z.of_nat (n mod N) + 1) (Z.of_nat N)).
  - replace (S n) with (0 + (n / N + 1) * N)%nat by nia.
    rewrite Nat.Div0.mod_add, Nat.Div0.mod_0_l. done.
  - replace (S n) with (S (n mod N) + n / N * N)%nat by lia.
    rewrite Nat.Div0.mod_add, (Nat.mod_small (S _)) by lia. lia.
Qed.

(** Positions less than a whole turn apart are in different slots. *)
Lemma mod_distinct N i j : (i < j < i + N)%nat -> (i mod N <> j mod N)%nat.
Proof.
  intros Hij E. pose proof (Nat.div_mod_eq i N). pose proof (Nat.div_mod_eq j N).
  assert (N * (j / N - i / N) = j - i)%nat by nia. nia.
Qed.

Section Fifo.
Context (N : nat).
Hypothesis N_pos : (0 < N)%nat.
Hypothesis N_16 : Z.of_nat N < 2 ^ 16.

Lemma produce_ok Data c :
  ring_ok N c -> exists c', turn_step (Produce Data) c = Some c' /\ ring_ok N c'.
Proof.
  intros [Hs He Hsz Hst Hl Hc Hp Hsl Hpr Hco]. destruct c as [[b m] p k is_ rs]. cbn in *.
  destruct p as [|d|d]; cbn in Hpr.
  - unfold RingBuffer_IsFull, RingBuffer_GetCount, insert_store. cbn. rewrite Hc, Hsz.
    destruct (Z.eqb_spec (Z.of_nat (length is_ - length rs)) (Z.of_nat N)).
    { eexists. split; [done|]. by constructor. }
    assert (length is_ mod N < N)%nat by (apply Nat.mod_upper_bound; lia).
    assert (Hin : Z.to_nat (In b) = (length is_ mod N)%nat) by lia.
    unfold store_byte, load_byte. destruct (Z.leb_spec 0 (In b)); [|lia]. rewrite Hin.
    destruct (lookup_lt_is_Some_2 m (length is_ mod N)) as [x ->]; [lia|].
    eexists. split; [done|]. constructor; cbn; try done; rewrite ?length_insert; try done.
    + intros i Hi. rewrite list_lookup_insert_ne; [by apply Hsl|].
      intros E. symmetry in E. revert E. apply mod_distinct. lia.
    + split; [done|]. split; [lia|]. apply list_lookup_insert_eq. lia.
  - destruct Hpr as (Hi & Hlt & Hd). eexists. split; [done|]. constructor; cbn; try done.
    rewrite Hi, (advance_mod N) by done. done.
  - destruct Hpr as (Hi & Hlt & Hd). eexists. split; [done|].
    constructor; cbn; rewrite ?length_app, ?Nat.add_1_r; cbn; try done; try lia.
    + rewrite Hc, wrap_id by (unfold fits; lia). lia.
    + rewrite take_app_le by lia. done.
    + intros i Hi'. destruct (decide (i = length is_)) as [->|].
      * by rewrite Hd, list_lookup_middle.
      * rewrite lookup_app_l by lia. apply Hsl. lia.
    + destruct k as [|e|e]; cbn in *; [done|..]; destruct Hco as [Ho Hk];
        (split; [done|by apply lookup_app_l_Some]).
Qed.

Lemma consume_ok c : ring_ok N c -> exists c', turn_step Consume c = Some c' /\ ring_ok N c'.
Proof.
  intros [Hs He Hsz Hst Hl Hc Hp Hsl Hpr Hco]. destruct c as [[b m] p k is_ rs]. cbn in *.
  destruct k as [|d|d]; cbn in Hco.
  - unfold RingBuffer_IsEmpty, RingBuffer_GetCount, RingBuffer_Peek. cbn. rewrite Hc.
    destruct (Z.eqb_spec (Z.of_nat (length is_ - length rs)) 0).
    { eexists. split; [done|]. by constructor. }
    assert (Hout : Z.to_nat (Out b) = (length rs mod N)%nat) by lia.
    unfold load_byte. destruct (Z.leb_spec 0 (Out b)); [|lia].
    destruct (lookup_lt_is_Some_2 is_ (length rs)) as [x Hx]; [lia|].
    rewrite Hout, Hsl, Hx by lia. eexists. split; [done|]. by constructor.
  - destruct Hco as [Ho Hd]. eexists. split; [done|]. constructor; cbn; try done.
    split; [|done]. by rewrite Ho, (advance_mod N).
  - destruct Hco as [Ho Hd]. pose proof (lookup_lt_Some _ _ _ Hd). eexists. split; [done|].
    constructor; cbn; rewrite ?length_app, ?Nat.add_1_r; cbn; try done; try lia.
    + rewrite Hc, wrap_id by (unfold fits; lia). lia.
    + rewrite (take_S_r _ _ _ Hd). by rewrite <- Hp.
    + intros i Hi. apply Hsl. lia.
    + destruct p as [|e|e]; cbn in *; [done|..]; destruct Hpr as (? & ? & ?); repeat split; done || lia.
Qed.

Lemma run_turns_ok l : forall c, ring_ok N c -> exists c', run_turns l c = Some c' /\ ring_ok N c'.
Proof.
  induction l as [|a l IH]; intros c Hc; cbn [run_turns]; [eauto|].
  destruct a as [Data|]; [destruct (produce_ok Data c Hc) as (c1 & -> & H1)|
                          destruct (consume_ok c Hc) as (c1 & -> & H1)]; by apply IH.
Qed.
End Fifo.

Lemma start_ok Data :
  ring_ok (length Data)
    (start_threads (RingBuffer_InitBuffer Data (Z.of_nat (length Data)))).
Proof.
  constructor; cbn; try done; try lia; by rewrite Nat.Div0.mod_0_l.
Qed.

(** C24: the ring buffer is a first-in first-out queue, also between threads.  However
    the accesses of an inserting and a removing thread interleave, no access is
    outside of the storage array; the bytes removed are the bytes inserted, in
    the same order, none lost and none twice; at most [Size] bytes are held,
    [RingBuffer_GetCount] and [RingBuffer_GetFreeCount] are exact, and when the
    removing thread is idle the next byte to be removed is the one in front. *)
Theorem RingBuffer_fifo Data l :
  (0 < length Data)%nat -> Z.of_nat (length Data) < 2 ^ 16 ->
  exists c, run_turns l (start_threads (RingBuffer_InitBuffer Data (Z.of_nat (length Data)))) = Some c /\
    exists held, inserted c = removed c ++ held /\ (length held <= length Data)%nat /\
      RingBuffer_GetCount (shared c) = Z.of_nat (length held) /\
      RingBuffer_GetFreeCount (shared c) = Z.of_nat (length Data - length held) /\
      (consumer c = C_idle -> held <> [] -> RingBuffer_Peek (shared c) = head held).
Proof.
  intros HN H16.
  destruct (run_turns_ok _ HN H16 l _ (start_ok Data)) as (c & Hrun & [_ _ Hsz Hst Hl Hc Hp Hsl _ Hco]).
  exists c. split; [done|]. exists (drop (length (removed c)) (inserted c)).
  rewrite length_drop. split; [rewrite Hp at 1; by rewrite take_drop|]. split; [lia|].
  unfold RingBuffer_GetFreeCount, RingBuffer_GetCount. rewrite Hc, Hsz.
  split; [done|]. split; [rewrite wrap_id by (unfold fits; lia); lia|].
  intros Hidle Hne. rewrite Hidle in Hco. cbn in Hco.
  assert (length (removed c) < length (inserted c))%nat as Hlt.
  { destruct (decide (length (removed c) < length (inserted c))%nat); [done|].
    by rewrite drop_ge in Hne by lia. }
  unfold RingBuffer_Peek, load_byte. rewrite Hco.
  destruct (Z.leb_spec 0 (Z.of_nat (length (removed c) mod length Data))); [|lia].
  rewrite Nat2Z.id, Hsl by lia. by rewrite head_lookup, lookup_drop, Nat.add_0_r.
Qed.

Lemma RingBuffer_fifo_witness :
  exists c, run_turns [Produce 1; Produce 1; Consume; Produce 1; Produce 2; Consume; Produce 2;
                       Consume; Produce 2; Consume; Produce 3]
              (start_threads (RingBuffer_InitBuffer [0; 0] 2)) = Some c /\
    exists held, inserted c = removed c ++ held /\ (length held <= 2)%nat /\
      RingBuffer_GetCount (shared c) = Z.of_nat (length held) /\
      RingBuffer_GetFreeCount (shared c) = Z.of_nat (2 - length held) /\
      (consumer c = C_idle -> held <> [] -> RingBuffer_Peek (shared c) = head held).
Proof. apply (RingBuffer_fifo [0; 0]); [simpl; lia|reflexivity]. Defined.
