(* ===== verification/UsbController.v ===== *)
(** * The USB controller

    [LUFA/Drivers/USB/Core/AVR8]: [USBController_AVR8.h] and [.c],
    [USBInterrupt_AVR8.h] and the interrupt mask routines of
    [USBInterrupt_AVR8.c], [Device_AVR8.h] and [.c], as configured by
    [src/LUFAConfig.h] for the ATmega32U4 in device-only mode. *)
From S2P Require Import Prelude Machine Descriptors Endpoint.

(** ** Options *)

Definition USB_DEVICE_OPT_FULLSPEED := Z.shiftl 0 0.
Definition USB_DEVICE_OPT_LOWSPEED := Z.shiftl 1 0.
Definition USB_OPT_REG_DISABLED := Z.shiftl 1 1.
Definition USB_OPT_REG_ENABLED := Z.shiftl 0 1.
Definition USB_OPT_REG_KEEP_ENABLED := Z.shiftl 1 3.
Definition USB_OPT_MANUAL_PLL := Z.shiftl 1 2.
Definition USB_OPT_AUTO_PLL := Z.shiftl 0 2.

(** [USE_STATIC_OPTIONS] of [src/LUFAConfig.h]. *)
Definition USB_Options :=
  Z.lor (Z.lor USB_DEVICE_OPT_FULLSPEED USB_OPT_REG_ENABLED) USB_OPT_AUTO_PLL.
Definition option_set (o : Z) : bool := negb (Z.land USB_Options o =? 0).

(** [USB_PLL_PSC] for [F_USB] = 8 MHz. *)
Definition USB_PLL_PSC := 0.

(** [enum USB_Interrupts_t]: the sources of device mode, then those of host mode;
    [USB_INT_IDTI] exists only where both modes are compiled in. *)
Inductive USB_Interrupts_t : Set :=
  | USB_INT_VBUSTI | USB_INT_WAKEUPI | USB_INT_SUSPI | USB_INT_EORSTI | USB_INT_SOFI
  | USB_INT_RXSTPI
  | USB_INT_HSOFI | USB_INT_DCONNI | USB_INT_DDISCI | USB_INT_RSTI | USB_INT_BCERRI
  | USB_INT_VBERRI | USB_INT_SRPI.

(** Bit numbers of the host interrupts; the enable bit of each has the same
    number as its flag. *)
Definition HSOFI := 5.
Definition RSTI := 2.
Definition DDISCI := 1.
Definition DCONNI := 0.
Definition BCERRI := 2.
Definition VBERRI := 1.
Definition SRPI := 0.

Section UsbController.
Context `{Env}.

(** ** [USBController_AVR8.h] *)

Definition USB_VBUS_GetStatus : M bool := reg_test USBSTA VBUS.
Definition USB_Detach : M unit := reg_set UDCON DETACH.
Definition USB_Attach : M unit := reg_clear UDCON (bit DETACH).
Definition USB_PLL_On : M unit :=
  wr PLLCSR USB_PLL_PSC ;; wr PLLCSR (Z.lor USB_PLL_PSC (bit PLLE)).
Definition USB_PLL_Off : M unit := wr PLLCSR 0.
Definition USB_PLL_IsReady : M bool := reg_test PLLCSR PLOCK.
Definition USB_REG_On : M unit := reg_set UHWCON UVREGE.
Definition USB_REG_Off : M unit := reg_clear UHWCON (bit UVREGE).
Definition USB_OTGPAD_On : M unit := reg_set USBCON OTGPADE.
Definition USB_OTGPAD_Off : M unit := reg_clear USBCON (bit OTGPADE).
Definition USB_CLK_Freeze : M unit := reg_set USBCON FRZCLK.
Definition USB_CLK_Unfreeze : M unit := reg_clear USBCON (bit FRZCLK).
Definition USB_Controller_Enable : M unit := reg_set USBCON USBE.
Definition USB_Controller_Disable : M unit := reg_clear USBCON (bit USBE).
Definition USB_Controller_Reset : M unit :=
  reg_clear USBCON (bit USBE) ;; reg_set USBCON USBE.

(** ** [USBInterrupt_AVR8.h] *)

(** The enable register and bit, and the flag register and bit, each [switch]
    selects. *)
Definition int_enable (i : USB_Interrupts_t) : reg * Z :=
  match i with
  | USB_INT_VBUSTI => (USBCON, VBUSTE)
  | USB_INT_WAKEUPI => (UDIEN, WAKEUPE)
  | USB_INT_SUSPI => (UDIEN, SUSPE)
  | USB_INT_EORSTI => (UDIEN, EORSTE)
  | USB_INT_SOFI => (UDIEN, SOFE)
  | USB_INT_RXSTPI => (UEIENX, RXSTPE)
  | USB_INT_HSOFI => (UHIEN, HSOFI)
  | USB_INT_DCONNI => (UHIEN, DCONNI)
  | USB_INT_DDISCI => (UHIEN, DDISCI)
  | USB_INT_RSTI => (UHIEN, RSTI)
  | USB_INT_BCERRI => (OTGIEN, BCERRI)
  | USB_INT_VBERRI => (OTGIEN, VBERRI)
  | USB_INT_SRPI => (OTGIEN, SRPI)
  end.
Definition int_flag (i : USB_Interrupts_t) : reg * Z :=
  match i with
  | USB_INT_VBUSTI => (USBINT, VBUSTI)
  | USB_INT_WAKEUPI => (UDINT, WAKEUPI)
  | USB_INT_SUSPI => (UDINT, SUSPI)
  | USB_INT_EORSTI => (UDINT, EORSTI)
  | USB_INT_SOFI => (UDINT, SOFI)
  | USB_INT_RXSTPI => (UEINTX, RXSTPI)
  | USB_INT_HSOFI => (UHINT, HSOFI)
  | USB_INT_DCONNI => (UHINT, DCONNI)
  | USB_INT_DDISCI => (UHINT, DDISCI)
  | USB_INT_RSTI => (UHINT, RSTI)
  | USB_INT_BCERRI => (OTGINT, BCERRI)
  | USB_INT_VBERRI => (OTGINT, VBERRI)
  | USB_INT_SRPI => (OTGINT, SRPI)
  end.

Definition USB_INT_Enable (i : USB_Interrupts_t) : M unit :=
  reg_set (fst (int_enable i)) (snd (int_enable i)).
Definition USB_INT_Disable (i : USB_Interrupts_t) : M unit :=
  reg_clear (fst (int_enable i)) (bit (snd (int_enable i))).
Definition USB_INT_Clear (i : USB_Interrupts_t) : M unit :=
  reg_clear (fst (int_flag i)) (bit (snd (int_flag i))).
Definition USB_INT_IsEnabled (i : USB_Interrupts_t) : M bool :=
  reg_test (fst (int_enable i)) (snd (int_enable i)).
Definition USB_INT_HasOccurred (i : USB_Interrupts_t) : M bool :=
  reg_test (fst (int_flag i)) (snd (int_flag i)).

(** ** [USBInterrupt_AVR8.c]: all interrupts *)

Definition USB_INT_DisableAllInterrupts : M unit :=
  reg_clear USBCON (bit VBUSTE) ;; wr UDIEN 0.
Definition USB_INT_ClearAllInterrupts : M unit := wr USBINT 0 ;; wr UDINT 0.

(** ** [Device_AVR8.h] *)

Definition USB_Device_EnableSOFEvents : M unit := USB_INT_Enable USB_INT_SOFI.
Definition USB_Device_DisableSOFEvents : M unit := USB_INT_Disable USB_INT_SOFI.
Definition USB_Device_SetLowSpeed : M unit := reg_set UDCON LSM.
Definition USB_Device_SetFullSpeed : M unit := reg_clear UDCON (bit LSM).
Definition USB_Device_SetDeviceAddress (Address : Z) : M unit :=
  v ← rd UDADDR; wr UDADDR (Z.lor (Z.land v (bit ADDEN)) (Z.land Address 0x7F)).
Definition USB_Device_EnableDeviceAddress (Address : Z) : M unit := reg_set UDADDR ADDEN.
Definition USB_Device_IsAddressSet : M bool := reg_test UDADDR ADDEN.

Definition INTERNAL_SERIAL_LENGTH_BITS := 80.
Definition INTERNAL_SERIAL_START_ADDRESS := 0x0E.

(** [Platform]: [GetGlobalInterruptMask], [GlobalInterruptDisable],
    [SetGlobalInterruptMask] and [GlobalInterruptEnable]. *)
Definition GetGlobalInterruptMask : M Z := rd SREG.
Definition GlobalInterruptDisable : M unit := emit cli_ev.
Definition GlobalInterruptEnable : M unit := emit sei_ev.
Definition SetGlobalInterruptMask (m : Z) : M unit := wr SREG m.

(** The character of a hexadecimal digit. *)
Definition hex_char (d : Z) : Z := if 10 <=? d then (65 - 10) + d else 48 + d.

(** [for (SerialCharNum = 0; ...; SerialCharNum++)], [n] more rounds. *)
Fixpoint serial_chars (n : nat) (SerialCharNum SigReadAddress : Z) : M (list Z) :=
  match n with
  | O => ret []
  | S n =>
      b ← rd (SIGROW SigReadAddress);
      let odd := negb (Z.land SerialCharNum 0x01 =? 0) in
      let SerialByte := Z.land (if odd then Z.shiftr b 4 else b) 0x0F in
      rest ← serial_chars n (SerialCharNum + 1)
               (if odd then u8 (SigReadAddress + 1) else SigReadAddress);
      ret (hex_char SerialByte :: rest)
  end.

(** Fills the [UnicodeString] array of 20 characters. *)
Definition USB_Device_GetSerialString : M (list Z) :=
  CurrentGlobalInt ← GetGlobalInterruptMask;
  GlobalInterruptDisable ;;
  s ← serial_chars (Z.to_nat (INTERNAL_SERIAL_LENGTH_BITS / 4)) 0 INTERNAL_SERIAL_START_ADDRESS;
  SetGlobalInterruptMask CurrentGlobalInt ;;
  ret s.

(** ** [Device_AVR8.c] *)

Definition USB_Device_SendRemoteWakeup : M unit :=
  when (negb (option_set USB_OPT_MANUAL_PLL)) (USB_PLL_On ;; spin_until USB_PLL_IsReady) ;;
  USB_CLK_Unfreeze ;;
  reg_set UDCON RMWKUP ;;
  spin_until (b ← reg_test UDCON RMWKUP; ret (negb b)).

(** ** [USBController_AVR8.c] *)

Definition USB_Init_Device : M unit :=
  put (set_USB_DeviceState DEVICE_STATE_Unattached) ;;
  put (set_USB_Device_ConfigurationNumber 0) ;;
  put (set_USB_Device_RemoteWakeupEnabled false) ;;
  put (set_USB_Device_CurrentlySelfPowered false) ;;
  (if option_set USB_DEVICE_OPT_LOWSPEED then USB_Device_SetLowSpeed else USB_Device_SetFullSpeed) ;;
  USB_INT_Enable USB_INT_VBUSTI ;;
  Endpoint_ConfigureEndpoint ENDPOINT_CONTROLEP EP_TYPE_CONTROL USB_Device_ControlEndpointSize 1 ;;
  USB_INT_Clear USB_INT_SUSPI ;;
  USB_INT_Enable USB_INT_SUSPI ;;
  USB_INT_Enable USB_INT_EORSTI ;;
  USB_Attach.

(** [USB_CurrentMode] is the constant [USB_MODE_Device]. *)
Definition USB_ResetInterface : M unit :=
  USB_INT_DisableAllInterrupts ;;
  USB_INT_ClearAllInterrupts ;;
  USB_Controller_Reset ;;
  USB_CLK_Unfreeze ;;
  when (negb (option_set USB_OPT_MANUAL_PLL)) USB_PLL_Off ;;
  USB_Init_Device ;;
  USB_OTGPAD_On.

Definition USB_Init : M unit :=
  USB_OTGPAD_Off ;;
  (if negb (option_set USB_OPT_REG_DISABLED) then USB_REG_On else USB_REG_Off) ;;
  when (negb (option_set USB_OPT_MANUAL_PLL)) (wr PLLFRQ (bit PDIV2)) ;;
  put (set_USB_IsInitialized true) ;;
  USB_ResetInterface.

Definition USB_Disable : M unit :=
  USB_INT_DisableAllInterrupts ;;
  USB_INT_ClearAllInterrupts ;;
  USB_Detach ;;
  USB_Controller_Disable ;;
  when (negb (option_set USB_OPT_MANUAL_PLL)) USB_PLL_Off ;;
  when (negb (option_set USB_OPT_REG_KEEP_ENABLED)) USB_REG_Off ;;
  USB_OTGPAD_Off ;;
  put (set_USB_IsInitialized false).
End UsbController.
