(* ===== verification/DeviceStandardReq.v ===== *)
(** * Standard control requests

    [LUFA/Drivers/USB/Core/DeviceStandardReq.c] and the device task of
    [USBTask.c].  The application's event handlers and its descriptor callback
    are the class [USB_Application]; [Joystick] gives the instance of this
    firmware. *)
From S2P Require Import Prelude Machine Rely StdDescriptors Descriptors Endpoint ControlStream UsbController.

(** ** [StdRequestType.h] *)

Definition CONTROL_REQTYPE_RECIPIENT := 0x1F.
Definition REQTYPE_STANDARD := Z.shiftl 0 5.
Definition REQTYPE_CLASS := Z.shiftl 1 5.
Definition REQREC_DEVICE := Z.shiftl 0 0.
Definition REQREC_INTERFACE := Z.shiftl 1 0.
Definition REQREC_ENDPOINT := Z.shiftl 2 0.

Definition REQ_GetStatus := 0.
Definition REQ_ClearFeature := 1.
Definition REQ_SetFeature := 3.
Definition REQ_SetAddress := 5.
Definition REQ_GetDescriptor := 6.
Definition REQ_GetConfiguration := 8.
Definition REQ_SetConfiguration := 9.
Definition REQ_SetInterface := 11.

Definition FEATURE_SEL_EndpointHalt := 0.
Definition FEATURE_SEL_DeviceRemoteWakeup := 1.
Definition FEATURE_SELFPOWERED_ENABLED := Z.shiftl 1 0.
Definition FEATURE_REMOTE_WAKEUP_ENABLED := Z.shiftl 1 1.

Definition USE_INTERNAL_SERIAL := 0xDC.

(** [(dir | type | recipient)] *)
Definition request_type (dir ty rec : Z) : Z := Z.lor (Z.lor dir ty) rec.

Definition CONTROL_REQTYPE_TYPE := 0x60.

(** What the library requires of the application: the event handlers of
    [Events.h] and [CALLBACK_USB_GetDescriptor]. *)
Class USB_Application := {
  EVENT_USB_Device_Connect : M unit;
  EVENT_USB_Device_Disconnect : M unit;
  EVENT_USB_Device_Suspend : M unit;
  EVENT_USB_Device_WakeUp : M unit;
  EVENT_USB_Device_Reset : M unit;
  EVENT_USB_Device_ConfigurationChanged : M unit;
  EVENT_USB_Device_ControlRequest : M unit;
  EVENT_USB_Device_StartOfFrame : M unit;
  GetDescriptor : Z -> Z -> Z * flash_ptr
}.

Section DeviceStandardReq.
Context `{Env} `{USB_Application}.

Definition USB_Device_SetAddress : M unit :=
  req ← get USB_ControlRequest;
  let DeviceAddress := Z.land (wValue req) 0x7F in
  USB_Device_SetDeviceAddress DeviceAddress ;;
  Endpoint_ClearSETUP ;;
  Endpoint_ClearStatusStage ;;
  spin_until Endpoint_IsINReady ;;
  USB_Device_EnableDeviceAddress DeviceAddress ;;
  put (set_USB_DeviceState (if DeviceAddress =? 0 then DEVICE_STATE_Default
                            else DEVICE_STATE_Addressed)).

Definition USB_Device_SetConfiguration : M unit :=
  req ← get USB_ControlRequest;
  if FIXED_NUM_CONFIGURATIONS <? u8 (wValue req) then ret tt
  else
    Endpoint_ClearSETUP ;;
    put (set_USB_Device_ConfigurationNumber (u8 (wValue req))) ;;
    Endpoint_ClearStatusStage ;;
    n ← get USB_Device_ConfigurationNumber;
    (if negb (n =? 0) then put (set_USB_DeviceState DEVICE_STATE_Configured)
     else
       a ← USB_Device_IsAddressSet;
       put (set_USB_DeviceState (if (a : bool) then DEVICE_STATE_Configured
                                 else DEVICE_STATE_Powered))) ;;
    EVENT_USB_Device_ConfigurationChanged.

Definition USB_Device_GetConfiguration : M unit :=
  Endpoint_ClearSETUP ;;
  n ← get USB_Device_ConfigurationNumber;
  Endpoint_Write_8 n ;;
  Endpoint_ClearIN ;;
  Endpoint_ClearStatusStage.

(** The [SignatureDescriptor] structure: a header and 20 characters. *)
Definition SignatureDescriptor (UnicodeString : list Z) : bytes :=
  bytes_of_Header {| hdr_Size := USB_STRING_LEN (INTERNAL_SERIAL_LENGTH_BITS / 4);
                     hdr_Type := DTYPE_String |}
  ++ flat_map (le_bytes 2) UnicodeString.
Definition sizeof_SignatureDescriptor : Z := 2 + 2 * (INTERNAL_SERIAL_LENGTH_BITS / 4).

Definition USB_Device_GetInternalSerialDescriptor : M unit :=
  s ← USB_Device_GetSerialString;
  Endpoint_ClearSETUP ;;
  Endpoint_Write_Control_Stream_LE (SignatureDescriptor s) sizeof_SignatureDescriptor ;;
  Endpoint_ClearOUT.

Definition USB_Device_GetDescriptor : M unit :=
  req ← get USB_ControlRequest;
  if wValue req =? Z.lor (Z.shiftl DTYPE_String 8) USE_INTERNAL_SERIAL then
    USB_Device_GetInternalSerialDescriptor
  else
    let '(DescriptorSize, DescriptorPointer) := GetDescriptor (wValue req) (wIndex req) in
    if DescriptorSize =? NO_DESCRIPTOR then ret tt
    else
      Endpoint_ClearSETUP ;;
      Endpoint_Write_Control_PStream_LE DescriptorPointer DescriptorSize ;;
      Endpoint_ClearOUT.

(** The answer to GET_STATUS, [None] for the [default: return;] case. *)
Definition current_status : M (option Z) :=
  req ← get USB_ControlRequest;
  if bmRequestType req =? request_type REQDIR_DEVICETOHOST REQTYPE_STANDARD REQREC_DEVICE then
    p ← get USB_Device_CurrentlySelfPowered;
    w ← get USB_Device_RemoteWakeupEnabled;
    ret (Some (Z.lor (if (p : bool) then FEATURE_SELFPOWERED_ENABLED else 0)
                     (if (w : bool) then FEATURE_REMOTE_WAKEUP_ENABLED else 0)))
  else if bmRequestType req =? request_type REQDIR_DEVICETOHOST REQTYPE_STANDARD REQREC_ENDPOINT then
    Endpoint_SelectEndpoint (Z.land (u8 (wIndex req)) ENDPOINT_EPNUM_MASK) ;;
    b ← Endpoint_IsStalled;
    Endpoint_SelectEndpoint ENDPOINT_CONTROLEP ;;
    ret (Some (Z.b2z b))
  else ret None.

Definition USB_Device_GetStatus : M unit :=
  r ← current_status;
  match r with
  | None => ret tt
  | Some CurrentStatus =>
      Endpoint_ClearSETUP ;;
      Endpoint_Write_16_LE CurrentStatus ;;
      Endpoint_ClearIN ;;
      Endpoint_ClearStatusStage
  end.

(** The [switch] of [USB_Device_ClearSetFeature]: [false] on its early
    returns. *)
Definition clear_set_feature : M bool :=
  req ← get USB_ControlRequest;
  let recipient := Z.land (bmRequestType req) CONTROL_REQTYPE_RECIPIENT in
  if recipient =? REQREC_DEVICE then
    if u8 (wValue req) =? FEATURE_SEL_DeviceRemoteWakeup then
      put (set_USB_Device_RemoteWakeupEnabled (bRequest req =? REQ_SetFeature)) ;; ret true
    else ret false
  else if recipient =? REQREC_ENDPOINT then
    if u8 (wValue req) =? FEATURE_SEL_EndpointHalt then
      let EndpointIndex := Z.land (u8 (wIndex req)) ENDPOINT_EPNUM_MASK in
      if EndpointIndex =? ENDPOINT_CONTROLEP then ret false
      else
        Endpoint_SelectEndpoint EndpointIndex ;;
        enabled ← Endpoint_IsEnabled;
        when enabled
          (if bRequest req =? REQ_SetFeature then Endpoint_StallTransaction
           else
             Endpoint_ClearStall ;;
             Endpoint_ResetEndpoint EndpointIndex ;;
             Endpoint_ResetDataToggle) ;;
        ret true
    else ret true
  else ret false.

Definition USB_Device_ClearSetFeature : M unit :=
  ok ← clear_set_feature;
  if (ok : bool) then
    Endpoint_SelectEndpoint ENDPOINT_CONTROLEP ;;
    Endpoint_ClearSETUP ;;
    Endpoint_ClearStatusStage
  else ret tt.

(** The eight bytes of the SETUP packet, read into [USB_ControlRequest]. *)
Fixpoint read_setup (n : nat) : M bytes :=
  match n with
  | O => ret []
  | S n => b ← Endpoint_Read_8; rest ← read_setup n; ret (b :: rest)
  end.
Definition request_of_bytes (b : bytes) : USB_Request_Header_t :=
  let byte i := nth i b 0 in
  {| bmRequestType := byte 0%nat; bRequest := byte 1%nat;
     wValue := le_val [byte 2%nat; byte 3%nat];
     wIndex := le_val [byte 4%nat; byte 5%nat];
     wLength := le_val [byte 6%nat; byte 7%nat] |}.

(** [switch (USB_ControlRequest.bRequest)] *)
Definition standard_request : M unit :=
  req ← get USB_ControlRequest;
  let bmRequestType := bmRequestType req in
  let matches dir rec := bmRequestType =? request_type dir REQTYPE_STANDARD rec in
  if bRequest req =? REQ_GetStatus then
    when (matches REQDIR_DEVICETOHOST REQREC_DEVICE || matches REQDIR_DEVICETOHOST REQREC_ENDPOINT)
      USB_Device_GetStatus
  else if (bRequest req =? REQ_ClearFeature) || (bRequest req =? REQ_SetFeature) then
    when (matches REQDIR_HOSTTODEVICE REQREC_DEVICE || matches REQDIR_HOSTTODEVICE REQREC_ENDPOINT)
      USB_Device_ClearSetFeature
  else if bRequest req =? REQ_SetAddress then
    when (matches REQDIR_HOSTTODEVICE REQREC_DEVICE) USB_Device_SetAddress
  else if bRequest req =? REQ_GetDescriptor then
    when (matches REQDIR_DEVICETOHOST REQREC_DEVICE || matches REQDIR_DEVICETOHOST REQREC_INTERFACE)
      USB_Device_GetDescriptor
  else if bRequest req =? REQ_GetConfiguration then
    when (matches REQDIR_DEVICETOHOST REQREC_DEVICE) USB_Device_GetConfiguration
  else if bRequest req =? REQ_SetConfiguration then
    when (matches REQDIR_HOSTTODEVICE REQREC_DEVICE) USB_Device_SetConfiguration
  else ret tt.

Definition USB_Device_ProcessControlRequest : M unit :=
  b ← read_setup 8;
  put (set_USB_ControlRequest (request_of_bytes b)) ;;
  EVENT_USB_Device_ControlRequest ;;
  setup ← Endpoint_IsSETUPReceived;
  when setup standard_request ;;
  setup ← Endpoint_IsSETUPReceived;
  when setup (Endpoint_ClearSETUP ;; Endpoint_StallTransaction).

(** ** [USBTask.c] *)

Definition USB_DeviceTask : M unit :=
  d ← get_volatile USB_DeviceState;
  if d =? DEVICE_STATE_Unattached then ret tt
  else
    PrevEndpoint ← Endpoint_GetCurrentEndpoint;
    Endpoint_SelectEndpoint ENDPOINT_CONTROLEP ;;
    setup ← Endpoint_IsSETUPReceived;
    when setup USB_Device_ProcessControlRequest ;;
    Endpoint_SelectEndpoint PrevEndpoint.

Definition USB_USBTask : M unit := USB_DeviceTask.
End DeviceStandardReq.

(** ** Interface law of the descriptor callback

    A descriptor the application offers lies inside of one FLASH object. *)
Class Descriptor_Law `{USB_Application} : Prop := descriptor_law :
  forall v i size p, GetDescriptor v i = (size, p) -> size <> NO_DESCRIPTOR ->
    0 <= size < 2 ^ 16 /\
    exists o off, p = Some (o, off) /\ 0 <= off /\ off + size <= Z.of_nat (length (flash_bytes o)).

(** The SETUP packet has been acknowledged: the accesses of [Endpoint_ClearSETUP],
    and those of [Endpoint_ClearOUT]. *)
Definition setup_ack (v : Z) : list event :=
  [Wr UEINTX (clear_bits v (bit RXSTPI)); Rd UEINTX v].
Definition out_ack (v : Z) : list event :=
  [Wr UEINTX (clear_bits v (Z.lor (bit RXOUTI) (bit FIFOCON))); Rd UEINTX v].

(** The host reads at most [W] bytes once its SETUP packet is acknowledged in
    state [s]. *)
Definition control_read_follows `{Env} (s : st) (W : Z) (K : nat) : Prop :=
  forall v, answer (ep_trace (trace s)) UEINTX v ->
    host_reads (setup_ack v ++ ep_trace (trace s)) W K.

(** The bytes of the descriptor a request gets. *)
Definition descriptor_bytes `{USB_Application} (v i : Z) : bytes :=
  let '(size, p) := GetDescriptor v i in take (Z.to_nat size) (flash_from p).

Section GetDescriptorProofs.
Context `{Calm} `{USB_Application} `{!Descriptor_Law}.

(** Acknowledge the SETUP packet, write a stream, acknowledge the status
    stage. *)
Lemma control_read_spec (stream : M Endpoint_ControlStream_RW_ErrorCodes_t) data Length W K s :
  wLength (USB_ControlRequest s) = W ->
  control_read_follows s W K ->
  (forall s1, USB_DeviceState s1 = USB_DeviceState s -> wLength (USB_ControlRequest s1) = W ->
     host_reads (ep_trace (trace s1)) W K ->
     wp stream (fun r s2 => r = ENDPOINT_RWCSTREAM_NoError /\
          exists l, evolves l s1 s2 /\ delivered data W (Z.min Length W) l) s1) ->
  wp (Endpoint_ClearSETUP ;; stream ;; Endpoint_ClearOUT)
     (fun _ s' => exists v l v', evolves (out_ack v' ++ l ++ setup_ack v) s s' /\
        delivered data W (Z.min Length W) l) s.
Proof.
  intros HW Hhost Hstream. rewrite wp_bind.
  eapply at_clear; [apply evolves_refl|done|]. intros v s1 Hev1 Ha. simpl in Ha.
  rewrite wp_bind. eapply wp_mono; [|apply Hstream].
  - intros r s2 (_ & l & Hev2 & Hd).
    eapply at_clear; [exact (evolves_trans _ _ _ _ _ Hev1 Hev2)|done|].
    intros v' s3 Hev3 _. by exists v, l, v'.
  - by apply evolves_DeviceState in Hev1.
  - by rewrite (evolves_ControlRequest _ _ _ Hev1).
  - rewrite (evolves_trace _ _ _ Hev1). apply Hhost, Ha.
Qed.

(** [USB_Device_GetDescriptor] sends the descriptor to a host that carries out
    the control read, and changes no variable. *)
Lemma GetDescriptor_spec K s :
  let req := USB_ControlRequest s in
  let data := descriptor_bytes (wValue req) (wIndex req) in
  wValue req <> Z.lor (Z.shiftl DTYPE_String 8) USE_INTERNAL_SERIAL ->
  fst (GetDescriptor (wValue req) (wIndex req)) <> NO_DESCRIPTOR ->
  0 <= wLength req ->
  USB_DeviceState s <> DEVICE_STATE_Unattached -> USB_DeviceState s <> DEVICE_STATE_Suspended ->
  control_read_follows s (wLength req) K ->
  ((length data + 1) * (K + 1) <= fuel)%nat ->
  wp USB_Device_GetDescriptor
     (fun _ s' => exists v l v', evolves (out_ack v' ++ l ++ setup_ack v) s s' /\
        delivered data (wLength req) (Z.min (Z.of_nat (length data)) (wLength req)) l) s.
Proof.
  intros req data Hser Hdesc HW Hatt Hact Hhost Hfuel.
  unfold USB_Device_GetDescriptor. rewrite wp_bind, wp_get. fold req.
  rewrite (proj2 (Z.eqb_neq _ _) Hser).
  unfold data, descriptor_bytes in *. clear data.
  destruct (GetDescriptor (wValue req) (wIndex req)) as [size p] eqn:Hget. simpl in Hdesc.
  destruct (descriptor_law _ _ _ _ Hget Hdesc) as (Hsize & o & off & -> & Hoff & Hin).
  rewrite (proj2 (Z.eqb_neq _ _) Hdesc).
  set (data := take (Z.to_nat size) (flash_from (Some (o, off)))) in *.
  assert (Hlen : Z.of_nat (length data) = size).
  { unfold data, flash_from. rewrite length_take, length_drop. lia. }
  rewrite Hlen. apply control_read_spec with (K := K); [done|done|].
  intros s1 Hd1 HW1 Hh1. apply (Template_W_spec _ data) with (K := K); try done; try congruence.
  - apply Forall_take, Forall_drop, flash_bytes_all.
  - intros i Hi. unfold pgm_read_byte, flash_offset, data, flash_from.
    destruct (Z.leb_spec 0 (off + i)); [|lia]. rewrite lookup_take_lt by lia.
    rewrite lookup_drop. f_equal. lia.
  - replace (Z.to_nat size) with (length data) by lia. done.
Qed.
End GetDescriptorProofs.

(** ** The SETUP stage *)

Definition is_read (e : event) : bool := match e with Rd _ _ => true | _ => false end.

(** How many bytes of the endpoint bank have been read. *)
Fixpoint data_reads (l : list event) : nat :=
  match l with
  | [] => 0
  | Rd UEDATX _ :: l => S (data_reads l)
  | _ :: l => data_reads l
  end.

(** The controller holds the SETUP packet [pkt] for the firmware: after the
    endpoint accesses [l0], until the endpoint is written to, its bytes are read
    from the bank one after the other and RXSTPI is set. *)
Record setup_pending `{Env} (l0 : list event) (pkt : bytes) : Prop := {
  sp_data : forall l v, answer (l ++ l0) UEDATX v -> forallb is_read l = true ->
    (data_reads l < 8)%nat -> pkt !! data_reads l = Some v;
  sp_flag : forall l v, answer (l ++ l0) UEINTX v -> forallb is_read l = true ->
    has_bit v RXSTPI = true
}.

Lemma read_setup_spec `{Calm} s0 pkt n : forall l s,
  setup_pending (ep_trace (trace s0)) pkt -> length pkt = 8%nat ->
  evolves l s0 s -> forallb is_read l = true -> (data_reads l + n)%nat = 8%nat ->
  wp (read_setup n) (fun b s' => b = drop (data_reads l) pkt /\
    exists l', evolves l' s0 s' /\ forallb is_read l' = true /\ data_reads l' = 8%nat) s.
Proof.
  intros l s Hset Hlen. revert l s. induction n as [|n IH]; intros l s Hev Hrd Hn; cbn [read_setup].
  { rewrite wp_ret. split; [by rewrite drop_ge by lia|]. exists l. split; [done|]. split; [done|lia]. }
  rewrite wp_bind. eapply at_rd; [exact Hev|done|]. intros v s1 Hev1 Ha.
  apply (sp_data _ _ Hset l) in Ha; [|done|lia].
  rewrite wp_bind. eapply wp_mono; [|apply (IH _ s1 Hev1); simpl; [done|lia]].
  intros b s2 (-> & Hl'). rewrite wp_ret. split; [|done]. cbn [data_reads].
  by apply drop_S in Ha.
Qed.

(** Interface law of the control request event: the application leaves standard
    requests to the library; it only polls the endpoint. *)
Class Standard_Request_Law `{Env} `{USB_Application} : Prop := standard_request_law :
  forall s, Z.land (bmRequestType (USB_ControlRequest s)) CONTROL_REQTYPE_TYPE = REQTYPE_STANDARD ->
    wp EVENT_USB_Device_ControlRequest
       (fun _ s' => exists l, evolves l s s' /\ forallb is_read l = true) s.

(** GET_DESCRIPTOR for the device or an interface. *)
Definition is_GetDescriptor (req : USB_Request_Header_t) : Prop :=
  bRequest req = REQ_GetDescriptor /\
  (bmRequestType req = request_type REQDIR_DEVICETOHOST REQTYPE_STANDARD REQREC_DEVICE \/
   bmRequestType req = request_type REQDIR_DEVICETOHOST REQTYPE_STANDARD REQREC_INTERFACE).

Lemma standard_GetDescriptor `{Env} `{USB_Application} s Q :
  is_GetDescriptor (USB_ControlRequest s) -> wp USB_Device_GetDescriptor Q s -> wp standard_request Q s.
Proof.
  intros [Hreq Hty] Hwp. unfold standard_request. rewrite wp_bind, wp_get. cbv zeta.
  rewrite Hreq. cbn [REQ_GetDescriptor REQ_GetStatus REQ_ClearFeature REQ_SetFeature REQ_SetAddress
    Z.eqb Pos.eqb orb].
  destruct Hty as [-> | ->]; exact Hwp.
Qed.

Lemma is_GetDescriptor_standard req : is_GetDescriptor req ->
  Z.land (bmRequestType req) CONTROL_REQTYPE_TYPE = REQTYPE_STANDARD.
Proof. by intros [_ [-> | ->]]. Qed.

Section ProcessControlRequestProofs.
Context `{Calm} `{USB_Application} `{!Descriptor_Law} `{!Standard_Request_Law}.

(** Up to the [switch]: the request is read and the application is asked; the
    library handles it. *)
Lemma setup_stage_spec pkt s Q :
  length pkt = 8%nat -> setup_pending (ep_trace (trace s)) pkt ->
  Z.land (bmRequestType (request_of_bytes pkt)) CONTROL_REQTYPE_TYPE = REQTYPE_STANDARD ->
  (forall l s1, evolves l (set_USB_ControlRequest (request_of_bytes pkt) s) s1 ->
     forallb is_read l = true ->
     wp (standard_request ;; setup ← Endpoint_IsSETUPReceived;
         when setup (Endpoint_ClearSETUP ;; Endpoint_StallTransaction)) Q s1) ->
  wp USB_Device_ProcessControlRequest Q s.
Proof.
  intros Hlen Hset Hstd Hrest. unfold USB_Device_ProcessControlRequest.
  rewrite wp_bind. eapply wp_mono; [|apply (read_setup_spec s pkt 8 [] s); done].
  intros b s1 (-> & l1 & Hev1 & Hrd1 & _). cbn [data_reads drop].
  rewrite wp_bind, wp_put. apply (evolves_set_ControlRequest _ (request_of_bytes pkt)) in Hev1.
  set (s0 := set_USB_ControlRequest (request_of_bytes pkt) s) in *.
  rewrite wp_bind. eapply wp_mono; [|apply standard_request_law; done].
  intros [] s2 (l2 & Hev2 & Hrd2). pose proof (evolves_trans _ _ _ _ _ Hev1 Hev2) as Hev.
  assert (Hrd : forallb is_read (l2 ++ l1) = true) by (by rewrite forallb_app, Hrd1, Hrd2).
  rewrite wp_bind. eapply at_test; [exact Hev|done|]. intros v s3 Hev3 Ha.
  change (ep_trace (trace s0)) with (ep_trace (trace s)) in Ha.
  rewrite (sp_flag _ _ Hset _ _ Ha Hrd). cbn [when]. by eapply Hrest.
Qed.

(** C1: a GET_DESCRIPTOR request is answered with the descriptor.  When the
    SETUP packet of a GET_DESCRIPTOR request for a descriptor that the
    application has is pending, the device is attached and not suspended, and
    the host carries out the control read, [USB_Device_ProcessControlRequest]
    terminates having sent exactly the first [min(size, wLength)] bytes of the
    descriptor, in packets of 8 bytes ended as the host expects (by a short
    packet or by having sent [wLength] bytes); it acknowledges the SETUP packet
    before and the status stage after, does not stall, and changes no variable
    but [USB_ControlRequest].  Proved for any application that keeps the two
    interface laws. *)
Theorem ProcessControlRequest_GetDescriptor pkt K s :
  let req := request_of_bytes pkt in
  let data := descriptor_bytes (wValue req) (wIndex req) in
  let t0 := ep_trace (trace s) in
  length pkt = 8%nat -> setup_pending t0 pkt ->
  is_GetDescriptor req -> 0 <= wLength req ->
  wValue req <> Z.lor (Z.shiftl DTYPE_String 8) USE_INTERNAL_SERIAL ->
  fst (GetDescriptor (wValue req) (wIndex req)) <> NO_DESCRIPTOR ->
  USB_DeviceState s <> DEVICE_STATE_Unattached -> USB_DeviceState s <> DEVICE_STATE_Suspended ->
  (forall l v, forallb is_read l = true -> answer (l ++ t0) UEINTX v ->
     host_reads (setup_ack v ++ l ++ t0) (wLength req) K) ->
  (forall l v w, answer (out_ack v ++ l ++ t0) UEINTX w -> has_bit w RXSTPI = false) ->
  ((length data + 1) * (K + 1) <= fuel)%nat ->
  wp USB_Device_ProcessControlRequest
     (fun _ s' => exists l0 v l v' w,
        evolves (Rd UEINTX w :: out_ack v' ++ l ++ setup_ack v ++ l0)
                (set_USB_ControlRequest req s) s' /\
        forallb is_read l0 = true /\
        delivered data (wLength req) (Z.min (Z.of_nat (length data)) (wLength req)) l) s.
Proof.
  intros req data t0 Hlen Hset Hget HW Hser Hdesc Hatt Hact Hhost Hdone Hfuel.
  apply (setup_stage_spec pkt); [done|done|by apply is_GetDescriptor_standard|].
  fold req. intros l0 s1 Hev1 Hrd. pose proof (evolves_ControlRequest _ _ _ Hev1) as Hreq.
  simpl in Hreq. rewrite wp_bind. apply standard_GetDescriptor; [by rewrite Hreq|].
  eapply wp_mono; [|apply (GetDescriptor_spec K); rewrite ?Hreq; try done].
  - rewrite Hreq. intros _ s2 (v & l & v' & Hev2 & Hd).
    pose proof (evolves_trans _ _ _ _ _ Hev1 Hev2) as Hev.
    rewrite wp_bind. eapply at_test; [exact Hev|done|]. intros w s3 Hev3 Ha.
    rewrite <- !app_assoc in *. rewrite (Hdone (l ++ setup_ack v ++ l0) v').
    + exists l0, v, l, v', w. done.
    + rewrite <- !app_assoc. exact Ha.
  - by rewrite (evolves_DeviceState _ _ _ Hev1).
  - by rewrite (evolves_DeviceState _ _ _ Hev1).
  - intros v Ha. rewrite (evolves_trace _ _ _ Hev1) in *. by apply Hhost.
Qed.
End ProcessControlRequestProofs.

(** ** SET_ADDRESS *)

(** The host starts the IN status stage of a control write within [K] polls of
    the endpoint, whatever else the firmware has done. *)
Definition flag_follows `{Env} (n : Z) (t0 : list event) (K : nat) : Prop :=
  forall l, (K <= polls l)%nat -> has_bit (respond (l ++ t0) UEINTX) n = true.
Definition status_stage_follows `{Env} : list event -> nat -> Prop := flag_follows TXINI.

(** Polling of the endpoint status. *)
Definition is_poll (e : event) : bool := match e with Rd UEINTX _ => true | _ => false end.

(** The accesses of [Endpoint_ClearIN]. *)
Definition in_ack (v : Z) : list event :=
  [Wr UEINTX (clear_bits v (Z.lor (bit TXINI) (bit FIFOCON))); Rd UEINTX v].

Section StatusStageProofs.
Context `{Masked}.
Context (n : Z) (s0 : st) (K : nat).
Hypothesis host : flag_follows n (trace s0) K.
Hypothesis enough : (K < fuel)%nat.
Hypothesis attached : USB_DeviceState s0 <> DEVICE_STATE_Unattached.

Lemma wait_flag l s :
  runs l s0 s ->
  wp (wait_attached (reg_test UEINTX n))
     (fun ok s' => ok = true /\
        exists l', runs (l' ++ l) s0 s' /\ forallb is_poll l' = true) s.
Proof.
  intros Hr. unfold wait_attached.
  apply (wp_loop (fun _ m s' => exists l', runs (l' ++ l) s0 s' /\ forallb is_poll l' = true /\
    m = (K - polls (l' ++ l))%nat)) with (n := (K - polls l)%nat); [|lia|by exists []].
  intros _ m s1 (l' & Hr1 & Hu & ->). rewrite wp_bind.
  eapply run_test; [exact Hr1|]. intros v s2 Hr2 Hv.
  destruct (has_bit v n) eqn:Hin.
  { rewrite wp_ret. split; [done|]. by exists (Rd UEINTX v :: l'). }
  rewrite wp_bind. eapply run_volatile; [exact Hr2|]. rewrite wp_ret.
  assert (USB_DeviceState s2 = USB_DeviceState s0) as -> by (by rewrite Hr2).
  rewrite (proj2 (Z.eqb_neq _ _) attached).
  exists (K - polls (Rd UEINTX v :: l' ++ l))%nat. split; [|by exists (Rd UEINTX v :: l')].
  cbn [polls]. destruct (decide (K <= polls (l' ++ l))%nat) as [Hk|]; [|lia].
  by rewrite Hv, (host _ Hk) in Hin.
Qed.

Lemma spin_flag l s :
  runs l s0 s ->
  wp (spin_until (reg_test UEINTX n))
     (fun _ s' => exists l', runs (l' ++ l) s0 s' /\ forallb is_poll l' = true) s.
Proof.
  intros Hr. unfold spin_until.
  apply (wp_loop (fun _ m s' => exists l', runs (l' ++ l) s0 s' /\ forallb is_poll l' = true /\
    m = (K - polls (l' ++ l))%nat)) with (n := (K - polls l)%nat); [|lia|by exists []].
  intros _ m s1 (l' & Hr1 & Hu & ->). rewrite wp_bind.
  eapply run_test; [exact Hr1|]. intros v s2 Hr2 Hv. rewrite wp_ret.
  destruct (has_bit v n) eqn:Hin; [by exists (Rd UEINTX v :: l')|].
  exists (K - polls (Rd UEINTX v :: l' ++ l))%nat. split; [|by exists (Rd UEINTX v :: l')].
  cbn [polls]. destruct (decide (K <= polls (l' ++ l))%nat) as [Hk|]; [|lia].
  by rewrite Hv, (host _ Hk) in Hin.
Qed.

End StatusStageProofs.

(** The status stage of a control write: poll, and send the empty packet. *)
Lemma ClearStatusStage_IN `{Masked} s0 K l s :
  status_stage_follows (trace s0) K -> (K < fuel)%nat ->
  USB_DeviceState s0 <> DEVICE_STATE_Unattached ->
  Z.land (bmRequestType (USB_ControlRequest s0)) REQDIR_DEVICETOHOST = 0 ->
  runs l s0 s ->
  wp Endpoint_ClearStatusStage
     (fun _ s' => exists v l', runs (in_ack v ++ l' ++ l) s0 s' /\ forallb is_poll l' = true) s.
Proof.
  intros Hhost Hfuel Hatt Hdir Hr. unfold Endpoint_ClearStatusStage. rewrite wp_bind, wp_get.
  assert (USB_ControlRequest s = USB_ControlRequest s0) as -> by (by rewrite Hr).
  rewrite Hdir. cbn [Z.eqb negb]. rewrite wp_bind.
  eapply wp_mono; [|by apply (wait_flag TXINI s0 K Hhost Hfuel Hatt l)]. intros ok s1 (-> & l' & Hr1 & Hp). cbn [when].
  eapply run_clear; [exact Hr1|]. intros v s2 Hr2 _. by exists v, l'.
Qed.

(** The status stage of a control read: poll, and accept the empty packet. *)
Lemma ClearStatusStage_OUT `{Masked} s0 K l s :
  flag_follows RXOUTI (trace s0) K -> (K < fuel)%nat ->
  USB_DeviceState s0 <> DEVICE_STATE_Unattached ->
  Z.land (bmRequestType (USB_ControlRequest s0)) REQDIR_DEVICETOHOST <> 0 ->
  runs l s0 s ->
  wp Endpoint_ClearStatusStage
     (fun _ s' => exists v l', runs (out_ack v ++ l' ++ l) s0 s' /\ forallb is_poll l' = true) s.
Proof.
  intros Hhost Hfuel Hatt Hdir Hr. unfold Endpoint_ClearStatusStage. rewrite wp_bind, wp_get.
  assert (USB_ControlRequest s = USB_ControlRequest s0) as -> by (by rewrite Hr).
  rewrite (proj2 (Z.eqb_neq _ _) Hdir). cbn [negb]. rewrite wp_bind.
  eapply wp_mono; [|by apply (wait_flag RXOUTI s0 K Hhost Hfuel Hatt l)].
  intros ok s1 (-> & l' & Hr1 & Hp). cbn [when].
  eapply run_clear; [exact Hr1|]. intros v s2 Hr2 _. by exists v, l'.
Qed.

(** C11: SET_ADDRESS takes effect after the status stage.  With interrupts masked
    and a host that starts the status stage, [USB_Device_SetAddress] terminates, having made
    exactly these accesses: the address is written with the enable bit as it was,
    the SETUP packet acknowledged, the endpoint polled and the empty status packet
    sent, the endpoint polled until that packet is taken, and only then the
    enable bit set.  The device becomes addressed (for address 0 it returns to the
    default state); no other variable changes. *)
Theorem USB_Device_SetAddress_order `{Masked} K s :
  let DeviceAddress := Z.land (wValue (USB_ControlRequest s)) 0x7F in
  (forall v, status_stage_follows (Wr UDADDR v :: Rd UDADDR (respond (trace s) UDADDR) :: trace s) K) ->
  (K < fuel)%nat ->
  USB_DeviceState s <> DEVICE_STATE_Unattached ->
  Z.land (bmRequestType (USB_ControlRequest s)) REQDIR_DEVICETOHOST = 0 ->
  wp USB_Device_SetAddress (fun _ s' => exists v0 v1 v2 v3 l1 l2,
    s' = set_USB_DeviceState
           (if DeviceAddress =? 0 then DEVICE_STATE_Default else DEVICE_STATE_Addressed)
           (set_trace ([Wr UDADDR (set_bit v3 ADDEN); Rd UDADDR v3] ++ l2 ++ in_ack v2 ++ l1 ++
                       setup_ack v1 ++
                       [Wr UDADDR (u8 (Z.lor (Z.land v0 (bit ADDEN)) (Z.land DeviceAddress 0x7F)));
                        Rd UDADDR v0] ++ trace s) s) /\
    forallb is_poll l1 = true /\ forallb is_poll l2 = true) s.
Proof.
  intros DeviceAddress Hhost Hfuel Hatt Hdir. unfold USB_Device_SetAddress, USB_Device_SetDeviceAddress.
  rewrite wp_bind, wp_get. fold DeviceAddress. rewrite !wp_bind.
  eapply run_rd; [apply runs_refl|]. intros v0 s1 Hr1 Hv0. cbn [app] in Hv0.
  eapply run_wr; [exact Hr1|]. intros s2 Hr2.
  set (w := u8 _) in *. specialize (Hhost w). rewrite <- Hv0 in Hhost.
  assert (Ht2 : trace s2 = Wr UDADDR w :: Rd UDADDR v0 :: trace s) by (by rewrite Hr2).
  rewrite <- Ht2 in Hhost.
  assert (HD : USB_DeviceState s2 <> DEVICE_STATE_Unattached) by (by rewrite Hr2).
  assert (HR : Z.land (bmRequestType (USB_ControlRequest s2)) REQDIR_DEVICETOHOST = 0)
    by (by rewrite Hr2).
  rewrite wp_bind. eapply run_clear; [apply (runs_refl s2)|]. intros v1 s3 Hr3 _.
  rewrite wp_bind. eapply wp_mono; [|by eapply (ClearStatusStage_IN s2 K)].
  intros _ s4 (v2 & l1 & Hr4 & Hp1).
  rewrite wp_bind. eapply wp_mono; [|by eapply (spin_flag TXINI s2 K Hhost Hfuel)].
  intros _ s5 (l2 & Hr5 & Hp2). unfold USB_Device_EnableDeviceAddress.
  rewrite wp_bind. eapply run_set; [exact Hr5|]. intros v3 s6 Hr6 _. rewrite wp_put.
  exists v0, v1, v2, v3, l1, l2. split; [|done]. f_equal. rewrite Hr6. unfold set_trace at 1.
  rewrite Ht2, Hr2. unfold set_trace. f_equal. cbn. rewrite <- !app_assoc. cbn. by rewrite <- !app_assoc.
Qed.

(** ** SET_CONFIGURATION *)

(** The state the device enters with configuration [n]; [addr] is the value of
    the address register. *)
Definition configured_device_state (n addr : Z) : Z :=
  if negb (n =? 0) then DEVICE_STATE_Configured
  else if has_bit addr ADDEN then DEVICE_STATE_Configured else DEVICE_STATE_Powered.

(** The accesses of a SET_CONFIGURATION request up to the application's event: the
    SETUP packet is acknowledged, the status stage awaited and completed, and for
    configuration 0 the address register read. *)
Definition configuration_accepted (n addr : Z) (l : list event) : Prop :=
  exists v v' polled, forallb is_poll polled = true /\
    l = (if n =? 0 then [Rd UDADDR addr] else []) ++ in_ack v' ++ polled ++ setup_ack v.

(** For a configuration that exists, the request is acknowledged, the number and
    the state assigned, and the application told. *)
Lemma SetConfiguration_spec `{Masked} `{USB_Application} K s Q :
  let n := u8 (wValue (USB_ControlRequest s)) in
  n <= FIXED_NUM_CONFIGURATIONS ->
  status_stage_follows (trace s) K -> (K < fuel)%nat ->
  USB_DeviceState s <> DEVICE_STATE_Unattached ->
  Z.land (bmRequestType (USB_ControlRequest s)) REQDIR_DEVICETOHOST = 0 ->
  (forall addr l, configuration_accepted n addr l -> wp EVENT_USB_Device_ConfigurationChanged Q
     (set_USB_DeviceState (configured_device_state n addr)
        (set_USB_Device_ConfigurationNumber n (set_trace (l ++ trace s) s)))) ->
  wp USB_Device_SetConfiguration Q s.
Proof.
  intros n Hn Hhost Hfuel Hatt Hdir HQ. unfold USB_Device_SetConfiguration.
  rewrite wp_bind, wp_get. fold n. destruct (Z.ltb_spec FIXED_NUM_CONFIGURATIONS n); [lia|].
  rewrite wp_bind. eapply run_clear; [apply runs_refl|]. intros v s1 Hr1 _.
  rewrite wp_bind, wp_put. set (s1' := set_USB_Device_ConfigurationNumber n s1).
  set (s0 := set_USB_Device_ConfigurationNumber n s).
  assert (Hr1' : runs (setup_ack v) s0 s1') by (unfold s1'; by rewrite Hr1).
  rewrite wp_bind. eapply wp_mono; [|by eapply (ClearStatusStage_IN s0 K)].
  intros [] s2 (v2 & l & Hr2 & Hp). rewrite wp_bind, wp_get.
  assert (USB_Device_ConfigurationNumber s2 = n) as -> by (by rewrite Hr2).
  unfold configured_device_state, configuration_accepted in HQ.
  destruct (n =? 0) eqn:Hn0; cbn [negb] in *.
  - rewrite !wp_bind. unfold USB_Device_IsAddressSet. eapply run_test; [exact Hr2|].
    intros a s3 Hr3 _. rewrite wp_put, Hr3.
    apply (HQ a (Rd UDADDR a :: in_ack v2 ++ l ++ setup_ack v)). by exists v, v2, l.
  - rewrite wp_bind, wp_put, Hr2. apply (HQ 0 (in_ack v2 ++ l ++ setup_ack v)).
    by exists v, v2, l.
Qed.

(** ** Rejected requests *)

(** The accesses of [Endpoint_StallTransaction]. *)
Definition stall (v : Z) : list event := [Wr UECONX (set_bit v STALLRQ); Rd UECONX v].

(** The standard requests the library does not carry out: those it does not know,
    those with the wrong direction or recipient, a descriptor the application does
    not have and a configuration that does not exist. *)
Definition rejected `{USB_Application} (req : USB_Request_Header_t) : bool :=
  let matches dir rec := bmRequestType req =? request_type dir REQTYPE_STANDARD rec in
  if bRequest req =? REQ_GetStatus then
    negb (matches REQDIR_DEVICETOHOST REQREC_DEVICE || matches REQDIR_DEVICETOHOST REQREC_ENDPOINT)
  else if (bRequest req =? REQ_ClearFeature) || (bRequest req =? REQ_SetFeature) then
    negb (matches REQDIR_HOSTTODEVICE REQREC_DEVICE || matches REQDIR_HOSTTODEVICE REQREC_ENDPOINT)
  else if bRequest req =? REQ_SetAddress then negb (matches REQDIR_HOSTTODEVICE REQREC_DEVICE)
  else if bRequest req =? REQ_GetDescriptor then
    negb (matches REQDIR_DEVICETOHOST REQREC_DEVICE || matches REQDIR_DEVICETOHOST REQREC_INTERFACE)
    || (negb (wValue req =? Z.lor (Z.shiftl DTYPE_String 8) USE_INTERNAL_SERIAL)
        && (fst (GetDescriptor (wValue req) (wIndex req)) =? NO_DESCRIPTOR))
  else if bRequest req =? REQ_GetConfiguration then negb (matches REQDIR_DEVICETOHOST REQREC_DEVICE)
  else if bRequest req =? REQ_SetConfiguration then
    negb (matches REQDIR_HOSTTODEVICE REQREC_DEVICE) || (FIXED_NUM_CONFIGURATIONS <? u8 (wValue req))
  else true.

Lemma standard_request_rejected `{Env} `{USB_Application} s :
  rejected (USB_ControlRequest s) = true -> standard_request s = Done tt s.
Proof.
  intros Hrej. unfold standard_request, bind at 1, get at 1. cbv zeta.
  unfold rejected in Hrej. cbv zeta in Hrej.
  repeat match type of Hrej with (if ?b then _ else _) = true => destruct b end;
    try (apply negb_true_iff in Hrej; by rewrite Hrej); try done.
  - match goal with |- when ?b _ _ = _ => destruct b; [|done] end.
    simpl in Hrej. apply andb_true_iff in Hrej as [Hser Hnone].
    apply negb_true_iff in Hser. cbn [when]. unfold USB_Device_GetDescriptor, bind at 1, get at 1.
    rewrite Hser. destruct (GetDescriptor _ _). simpl in Hnone. by rewrite Hnone.
  - match goal with |- when ?b _ _ = _ => destruct b; [|done] end. simpl in Hrej. cbn [when].
    unfold USB_Device_SetConfiguration, bind at 1, get at 1. by rewrite Hrej.
Qed.

(** C12: a standard request that the library does not carry out is refused.  When
    its SETUP packet is pending, [USB_Device_ProcessControlRequest] terminates
    having done nothing but read the packet and poll the endpoint, acknowledge the
    SETUP packet and then request a STALL handshake; no variable but
    [USB_ControlRequest] changes. *)
Theorem ProcessControlRequest_stalls `{Calm} `{USB_Application} `{!Standard_Request_Law} pkt s :
  let req := request_of_bytes pkt in
  length pkt = 8%nat -> setup_pending (ep_trace (trace s)) pkt ->
  Z.land (bmRequestType req) CONTROL_REQTYPE_TYPE = REQTYPE_STANDARD ->
  rejected req = true ->
  wp USB_Device_ProcessControlRequest
     (fun _ s' => exists l v w, evolves (stall w ++ setup_ack v ++ l) (set_USB_ControlRequest req s) s' /\
        forallb is_read l = true) s.
Proof.
  intros req Hlen Hset Hstd Hrej. apply (setup_stage_spec pkt); [done..|].
  fold req. intros l s1 Hev Hrd. rewrite wp_bind. unfold wp at 1.
  rewrite standard_request_rejected by (by rewrite (evolves_ControlRequest _ _ _ Hev)).
  rewrite wp_bind. eapply at_test; [exact Hev|done|]. intros v s2 Hev2 Ha.
  change (ep_trace (trace (set_USB_ControlRequest req s))) with (ep_trace (trace s)) in Ha.
  rewrite (sp_flag _ _ Hset _ _ Ha Hrd). cbn [when]. rewrite wp_bind.
  eapply at_clear; [exact Hev2|done|]. intros v2 s3 Hev3 _.
  unfold Endpoint_StallTransaction, reg_set. rewrite wp_bind.
  eapply at_rd; [exact Hev3|done|]. intros w s4 Hev4 _.
  eapply at_wr; [exact Hev4|done|]. intros s5 Hev5.
  unfold set_bit in Hev5. rewrite wrap_wrap in Hev5. fold (set_bit w STALLRQ) in Hev5.
  by exists (Rd UEINTX v :: l), v2, w.
Qed.
