(* ===== verification/StatusRequests.v ===== *)
(** * Status, feature and serial number requests

    Theorems about GET_STATUS, CLEAR_FEATURE, SET_FEATURE, GET_CONFIGURATION and
    the serial number string of [DeviceStandardReq.c] and [Device_AVR8.h], which
    [DeviceStandardReq] and [UsbController] model.  They give the complete
    sequence of register accesses, with interrupts masked. *)
From S2P Require Import Prelude Machine Rely StdDescriptors Descriptors Endpoint ControlStream UsbController DeviceStandardReq.

(** Selecting an endpoint by its number. *)
Lemma select_number x :
  u8 (Z.land (Z.land x ENDPOINT_EPNUM_MASK) ENDPOINT_EPNUM_MASK) = Z.land x ENDPOINT_EPNUM_MASK.
Proof.
  rewrite <- Z.land_assoc, Z.land_diag. apply wrap_id.
  change ENDPOINT_EPNUM_MASK with (Z.ones 4). rewrite Z.land_ones by lia.
  unfold fits. pose proof (Z.mod_pos_bound x (2 ^ 4)). lia.
Qed.

Section Requests.
Context `{Masked} `{USB_Application}.
Context (K : nat) (s : st).
Hypothesis enough : (K < fuel)%nat.
Hypothesis attached : USB_DeviceState s <> DEVICE_STATE_Unattached.

Let req : USB_Request_Header_t := USB_ControlRequest s.
(** The endpoint that the request names. *)
Let ep : Z := Z.land (u8 (wIndex req)) ENDPOINT_EPNUM_MASK.

(** ** GET_STATUS and GET_CONFIGURATION *)

(** The data and status stages of an answer that fits one packet. *)
Definition answered (data : bytes) (l : list event) : Prop :=
  exists v v' v'' polled, forallb is_poll polled = true /\
    l = out_ack v'' ++ polled ++ in_ack v' ++ rev (map (Wr UEDATX) data) ++ setup_ack v.

(** The status word of the device. *)
Definition device_status (x : st) : Z :=
  Z.lor (if USB_Device_CurrentlySelfPowered x then FEATURE_SELFPOWERED_ENABLED else 0)
        (if USB_Device_RemoteWakeupEnabled x then FEATURE_REMOTE_WAKEUP_ENABLED else 0).

Lemma answer_status (status : Z) l s1 :
  flag_follows RXOUTI (trace s) K ->
  Z.land (bmRequestType req) REQDIR_DEVICETOHOST <> 0 -> fits 8 status ->
  runs l s s1 ->
  wp (Endpoint_ClearSETUP ;; Endpoint_Write_16_LE status ;; Endpoint_ClearIN ;; Endpoint_ClearStatusStage)
     (fun _ s' => exists l', runs (l' ++ l) s s' /\ answered [status; 0] l') s1.
Proof.
  intros Hhost Hdir Hst Hr. rewrite wp_bind. eapply run_clear; [exact Hr|]. intros v s2 Hr2 _.
  unfold Endpoint_Write_16_LE. rewrite !wp_bind.
  eapply run_wr; [exact Hr2|]. intros s3 Hr3. eapply run_wr; [exact Hr3|]. intros s4 Hr4.
  rewrite wp_bind. eapply run_clear; [exact Hr4|]. intros v' s5 Hr5 _.
  eapply wp_mono; [|by eapply (ClearStatusStage_OUT s K)].
  intros [] s6 (v'' & polled & Hr6 & Hp).
  replace (u8 (Z.shiftr status 8)) with 0 in Hr6.
  2: { rewrite Z.shiftr_div_pow2, Z.div_small by (apply Hst || lia). done. }
  replace (u8 (Z.land status 0xFF)) with status in Hr6.
  2: { change 0xFF with (Z.ones 8). rewrite Z.land_ones, Z.mod_small by (apply Hst || lia).
       symmetry. by apply wrap_id. }
  eexists. split; [|by exists v, v', v'', polled].
  rewrite <- !app_assoc in *. exact Hr6.
Qed.

(** GET_STATUS answers with the status.  For the device the two bytes sent are
    the self-powered and remote wake-up flags; for an endpoint, the halt state
    read from that endpoint, after which the control endpoint is selected again.
    The SETUP packet is acknowledged first, and the status stage of the host
    afterwards; no variable changes. *)
Lemma USB_Device_GetStatus_answers :
  flag_follows RXOUTI (trace s) K ->
  let device := request_type REQDIR_DEVICETOHOST REQTYPE_STANDARD REQREC_DEVICE in
  let endpoint := request_type REQDIR_DEVICETOHOST REQTYPE_STANDARD REQREC_ENDPOINT in
  bmRequestType req = device \/ bmRequestType req = endpoint ->
  wp USB_Device_GetStatus (fun _ s' =>
    if bmRequestType req =? device then exists l, runs l s s' /\ answered [device_status s; 0] l
    else exists v l, runs (l ++ [Wr UENUM ENDPOINT_CONTROLEP; Rd UECONX v; Wr UENUM ep]) s s' /\
                     answered [Z.b2z (has_bit v STALLRQ); 0] l) s.
Proof.
  intros Hhost device endpoint Hty. unfold USB_Device_GetStatus, current_status. fold req.
  rewrite !wp_bind, wp_get. fold req device endpoint.
  assert (Hdir : Z.land (bmRequestType req) REQDIR_DEVICETOHOST <> 0)
    by (destruct Hty as [-> | ->]; vm_compute; discriminate).
  destruct (Z.eqb_spec (bmRequestType req) device) as [E|E].
  - rewrite wp_bind, wp_get, wp_bind, wp_get, wp_ret. fold (device_status s).
    eapply wp_mono; [|apply (answer_status (device_status s) [] s Hhost Hdir); [|apply runs_refl]].
    + intros [] s' (l & Hr & Ha). rewrite app_nil_r in Hr. by exists l.
    + unfold device_status. destruct (USB_Device_CurrentlySelfPowered s), (USB_Device_RemoteWakeupEnabled s);
        vm_compute; done.
  - destruct Hty as [|Hty]; [done|]. rewrite Hty, Z.eqb_refl. fold ep. rewrite !wp_bind.
    unfold Endpoint_SelectEndpoint. eapply run_wr; [apply runs_refl|]. intros s1 Hr1.
    unfold ep in Hr1. rewrite select_number in Hr1. fold ep in Hr1.
    rewrite wp_bind. eapply run_test; [exact Hr1|]. intros v s2 Hr2 _.
    rewrite wp_bind. eapply run_wr; [exact Hr2|]. intros s3 Hr3. rewrite wp_ret.
    eapply wp_mono; [|eapply (answer_status (Z.b2z (has_bit v STALLRQ)) _ s3 Hhost Hdir); [|exact Hr3]].
    + intros [] s' (l & Hr & Ha). exists v, l. by split.
    + destruct (has_bit v STALLRQ); vm_compute; done.
Qed.

(** GET_CONFIGURATION answers with the number of the current configuration, in
    one byte; no variable changes. *)
Lemma USB_Device_GetConfiguration_answers :
  flag_follows RXOUTI (trace s) K ->
  Z.land (bmRequestType req) REQDIR_DEVICETOHOST <> 0 ->
  is_u8 (USB_Device_ConfigurationNumber s) ->
  wp USB_Device_GetConfiguration (fun _ s' =>
    exists l, runs l s s' /\ answered [USB_Device_ConfigurationNumber s] l) s.
Proof.
  intros Hhost Hdir Hn. unfold USB_Device_GetConfiguration.
  rewrite wp_bind. eapply run_clear; [apply runs_refl|]. intros v s1 Hr1 _.
  rewrite wp_bind, wp_get, wp_bind.
  assert (USB_Device_ConfigurationNumber s1 = USB_Device_ConfigurationNumber s) as -> by (by rewrite Hr1).
  eapply run_wr; [exact Hr1|]. intros s2 Hr2. rewrite wrap_id in Hr2 by done.
  rewrite wp_bind. eapply run_clear; [exact Hr2|]. intros v' s3 Hr3 _.
  eapply wp_mono; [|by eapply (ClearStatusStage_OUT s K)].
  intros [] s4 (v'' & polled & Hr4 & Hp). eexists. split; [exact Hr4|].
  by exists v, v', v'', polled.
Qed.

(** ** CLEAR_FEATURE and SET_FEATURE *)

(** The acknowledgement of a feature request: the control endpoint is selected,
    the SETUP packet acknowledged and the status stage completed. *)
Definition accepted (l : list event) : Prop :=
  exists v v' polled, forallb is_poll polled = true /\
    l = in_ack v' ++ polled ++ setup_ack v ++ [Wr UENUM ENDPOINT_CONTROLEP].

Lemma accept_feature s0 l s1 :
  status_stage_follows (trace s0) K -> USB_DeviceState s0 <> DEVICE_STATE_Unattached ->
  Z.land (bmRequestType (USB_ControlRequest s0)) REQDIR_DEVICETOHOST = 0 ->
  runs l s0 s1 ->
  wp (Endpoint_SelectEndpoint ENDPOINT_CONTROLEP ;; Endpoint_ClearSETUP ;; Endpoint_ClearStatusStage)
     (fun _ s' => exists l', runs (l' ++ l) s0 s' /\ accepted l') s1.
Proof.
  intros Hhost Hatt Hdir Hr. rewrite wp_bind. unfold Endpoint_SelectEndpoint.
  eapply run_wr; [exact Hr|]. intros s2 Hr2.
  rewrite wp_bind. eapply run_clear; [exact Hr2|]. intros v s3 Hr3 _.
  eapply wp_mono; [|by eapply (ClearStatusStage_IN s0 K)].
  intros [] s4 (v' & polled & Hr4 & Hp). eexists. split; [|by exists v, v', polled].
  rewrite <- !app_assoc. exact Hr4.
Qed.

(** What the request does to the endpoint that it names: nothing if it is not
    enabled ([c] is the value of its control register), otherwise it is halted,
    or its halt cleared, the endpoint reset and its data toggle reset. *)
Definition halt_changed (c : Z) (set : bool) (l : list event) : Prop :=
  if has_bit c EPEN then
    if set then exists v, l = [Wr UECONX (set_bit v STALLRQ); Rd UECONX v]
    else exists v v', l = [Wr UECONX (set_bit v' RSTDT); Rd UECONX v';
                           Wr UERST 0; Wr UERST (u8 (Z.shiftl 1 ep));
                           Wr UECONX (set_bit v STALLRQC); Rd UECONX v]
  else l = [].

(** Halting an endpoint.  SET_FEATURE and CLEAR_FEATURE of the halt feature for
    an endpoint other than the control endpoint select that endpoint, halt or
    release it if it is enabled, and only then, back on the control endpoint,
    acknowledge the request; no variable changes. *)
Lemma USB_Device_ClearSetFeature_halt :
  status_stage_follows (trace s) K ->
  bmRequestType req = request_type REQDIR_HOSTTODEVICE REQTYPE_STANDARD REQREC_ENDPOINT ->
  u8 (wValue req) = FEATURE_SEL_EndpointHalt -> ep <> ENDPOINT_CONTROLEP ->
  wp USB_Device_ClearSetFeature (fun _ s' => exists c l l',
    runs (l' ++ l ++ [Rd UECONX c; Wr UENUM ep]) s s' /\
    halt_changed c (bRequest req =? REQ_SetFeature) l /\ accepted l') s.
Proof.
  intros Hhost Hty Hval Hep. unfold USB_Device_ClearSetFeature, clear_set_feature.
  rewrite !wp_bind, wp_get. fold req. rewrite Hty, Hval.
  change (Z.land _ CONTROL_REQTYPE_RECIPIENT) with REQREC_ENDPOINT.
  change (REQREC_ENDPOINT =? REQREC_DEVICE) with false. rewrite !Z.eqb_refl. fold ep.
  rewrite (proj2 (Z.eqb_neq _ _) Hep), wp_bind. unfold Endpoint_SelectEndpoint at 1.
  eapply run_wr; [apply runs_refl|]. intros s1 Hr1.
  unfold ep in Hr1. rewrite select_number in Hr1. fold ep in Hr1.
  rewrite wp_bind. eapply run_test; [exact Hr1|]. intros c s2 Hr2 _. rewrite wp_bind.
  eapply (wp_mono _ (fun _ s3 => exists l, runs (l ++ [Rd UECONX c; Wr UENUM ep]) s s3 /\
            halt_changed c (bRequest req =? REQ_SetFeature) l)).
  - intros [] s3 (l & Hr3 & Hh). rewrite wp_ret.
    eapply wp_mono; [|eapply (accept_feature s _ s3 Hhost attached); [|exact Hr3]].
    + intros [] s' (l' & Hr' & Ha). by exists c, l, l'.
    + fold req. rewrite Hty. reflexivity.
  - unfold halt_changed. destruct (has_bit c EPEN); cbn [when]; [|by exists []].
    destruct (bRequest req =? REQ_SetFeature).
    + eapply run_set; [exact Hr2|]. intros v s3 Hr3 _. eexists [_; _]. split; [exact Hr3|by eexists].
    + rewrite wp_bind. eapply run_set; [exact Hr2|]. intros v s3 Hr3 _.
      unfold Endpoint_ResetEndpoint. rewrite !wp_bind. eapply run_wr; [exact Hr3|]. intros s4 Hr4.
      eapply run_wr; [exact Hr4|]. intros s5 Hr5.
      eapply run_set; [exact Hr5|]. intros v' s6 Hr6 _.
      eexists [_; _; _; _; _; _]. split; [exact Hr6|]. exists v, v'.
      unfold ep. rewrite <- Z.land_assoc, Z.land_diag. reflexivity.
Qed.

(** Remote wake-up, enabled or disabled. *)
Lemma ClearSetFeature_wakeup :
  status_stage_follows (trace s) K ->
  bmRequestType req = request_type REQDIR_HOSTTODEVICE REQTYPE_STANDARD REQREC_DEVICE ->
  u8 (wValue req) = FEATURE_SEL_DeviceRemoteWakeup ->
  wp USB_Device_ClearSetFeature (fun _ s' => exists l,
    runs l (set_USB_Device_RemoteWakeupEnabled (bRequest req =? REQ_SetFeature) s) s' /\ accepted l) s.
Proof.
  intros Hhost Hty Hval. unfold USB_Device_ClearSetFeature, clear_set_feature.
  rewrite !wp_bind, wp_get. fold req. rewrite Hty, Hval.
  change (Z.land _ CONTROL_REQTYPE_RECIPIENT) with REQREC_DEVICE. rewrite !Z.eqb_refl.
  rewrite wp_bind, wp_put, wp_ret.
  set (s1 := set_USB_Device_RemoteWakeupEnabled _ s).
  eapply wp_mono; [|apply (accept_feature s1 [] s1 Hhost attached); [|apply runs_refl]].
  - intros [] s' (l & Hr & Ha). rewrite app_nil_r in Hr. by exists l.
  - change (USB_ControlRequest s1) with req. rewrite Hty. reflexivity.
Qed.
End Requests.

(** The specification of GET_STATUS for the device, as a lemma. *)
Lemma GetStatus_device `{Masked} K s :
  (K < fuel)%nat -> USB_DeviceState s <> DEVICE_STATE_Unattached ->
  flag_follows RXOUTI (trace s) K ->
  bmRequestType (USB_ControlRequest s)
    = request_type REQDIR_DEVICETOHOST REQTYPE_STANDARD REQREC_DEVICE ->
  wp USB_Device_GetStatus (fun _ s' => exists l, runs l s s' /\ answered [device_status s; 0] l) s.
Proof.
  intros Hfuel Hatt Hhost Hty. unfold USB_Device_GetStatus, current_status.
  rewrite !wp_bind, wp_get, Hty, Z.eqb_refl. rewrite wp_bind, wp_get, wp_bind, wp_get, wp_ret.
  fold (device_status s).
  eapply wp_mono; [|apply (answer_status K s Hfuel Hatt (device_status s) [] s Hhost); [| |apply runs_refl]].
  - intros [] s' (l & Hr & Ha). rewrite app_nil_r in Hr. by exists l.
  - rewrite Hty. vm_compute. discriminate.
  - unfold device_status. destruct (USB_Device_CurrentlySelfPowered s), (USB_Device_RemoteWakeupEnabled s);
      vm_compute; done.
Qed.

(** Remote wake-up is remembered.  After SET_FEATURE or CLEAR_FEATURE of the
    remote wake-up feature, a GET_STATUS request of the device is answered with
    the remote wake-up bit set or clear accordingly, next to the self-powered
    bit. *)
Lemma remote_wakeup_roundtrip `{Masked} K s status_request :
  let req := USB_ControlRequest s in
  (K < fuel)%nat -> USB_DeviceState s <> DEVICE_STATE_Unattached ->
  status_stage_follows (trace s) K ->
  (forall l, flag_follows RXOUTI (l ++ trace s) K) ->
  bmRequestType req = request_type REQDIR_HOSTTODEVICE REQTYPE_STANDARD REQREC_DEVICE ->
  u8 (wValue req) = FEATURE_SEL_DeviceRemoteWakeup ->
  bmRequestType status_request = request_type REQDIR_DEVICETOHOST REQTYPE_STANDARD REQREC_DEVICE ->
  wp (USB_Device_ClearSetFeature ;; put (set_USB_ControlRequest status_request) ;; USB_Device_GetStatus)
     (fun _ s' => exists l l', trace s' = l' ++ l ++ trace s /\ accepted l /\
        answered [Z.lor (if USB_Device_CurrentlySelfPowered s then FEATURE_SELFPOWERED_ENABLED else 0)
                        (if bRequest req =? REQ_SetFeature then FEATURE_REMOTE_WAKEUP_ENABLED else 0); 0] l') s.
Proof.
  intros req Hfuel Hatt Hin Hout Hty Hval Hst. rewrite wp_bind.
  eapply wp_mono; [|by apply (ClearSetFeature_wakeup K s Hfuel Hatt)].
  intros [] s1 (l & Hr & Hacc). rewrite wp_bind, wp_put.
  assert (Ht : trace s1 = l ++ trace s) by (by rewrite Hr).
  eapply wp_mono; [|apply (GetStatus_device K (set_USB_ControlRequest status_request s1) Hfuel)].
  - intros [] s2 (l' & Hr2 & Ha). exists l, l'. split; [rewrite Hr2; cbn; by rewrite Ht|].
    split; [done|]. rewrite Hr in Ha. exact Ha.
  - rewrite Hr. exact Hatt.
  - cbn. rewrite Ht. apply Hout.
  - exact Hst.
Qed.

(** ** The serial number *)

(** The characters of a byte of the signature row: low digit first. *)
Definition serial_digits (b : Z) : list Z :=
  [hex_char (Z.land b 0x0F); hex_char (Z.land (Z.shiftr b 4) 0x0F)].

Definition is_signature_read (e : event) : bool :=
  match e with Rd (SIGROW _) _ => true | _ => false end.

Section Serial.
Context `{Masked} (row : Z -> Z).
(** The signature row does not change. *)
Hypothesis constant : forall t a, respond t (SIGROW a) = row a.

(** Two rounds of the loop: one byte. *)
Lemma serial_chars_bytes n : forall i a l s0 s,
  Z.even i = true -> 0 <= a -> a + Z.of_nat n < 256 -> runs l s0 s ->
  wp (serial_chars (2 * n) i a)
     (fun r s' => r = flat_map serial_digits (map (fun k => row (a + Z.of_nat k)) (seq 0 n)) /\
        exists l', runs (l' ++ l) s0 s' /\ forallb is_signature_read l' = true) s.
Proof.
  induction n as [|n IH]; intros i a l s0 s Hi Ha Hn Hr.
  { split; [done|]. by exists []. }
  replace (2 * S n)%nat with (S (S (2 * n))) by lia. cbn [serial_chars].
  assert (Hodd : forall j, (Z.land j 0x01 =? 0) = Z.even j).
  { intros j. change 0x01 with (Z.ones 1). rewrite Z.land_ones by lia.
    rewrite Zmod_even. by destruct (Z.even j). }
  assert (Hi1 : Z.even (i + 1) = false) by (by rewrite Z.even_add, Hi).
  assert (Hi2 : Z.even (i + 1 + 1) = true) by (by rewrite Z.even_add, Hi1).
  rewrite !Hodd, Hi, Hi1. cbn [negb].
  rewrite !wp_bind. eapply run_rd; [exact Hr|]. intros v s1 Hr1 ->. rewrite constant in Hr1 |- *.
  rewrite !wp_bind. eapply run_rd; [exact Hr1|]. intros v s2 Hr2 ->. rewrite constant in Hr2 |- *.
  rewrite wrap_id by (unfold fits; lia). rewrite wp_bind.
  eapply wp_mono; [|eapply (IH _ (a + 1) _ s0 s2); [exact Hi2|lia|lia|exact Hr2]].
  intros r s3 (-> & l' & Hr3 & Hp). rewrite !wp_ret. split.
  - cbn [seq map flat_map app serial_digits]. rewrite Z.add_0_r, <- seq_shift, map_map.
    do 3 f_equal. apply map_ext. intros k. f_equal. lia.
  - eexists (l' ++ [_; _]). split; [rewrite <- app_assoc; exact Hr3|].
    rewrite forallb_app, Hp. done.
Qed.

(** The serial number string is the signature row in hexadecimal.  With the ten
    bytes at address 0x0E of the signature row, [USB_Device_GetSerialString] gives
    twenty characters, two digits for each byte, low digit first; it reads the
    row with interrupts disabled and restores the interrupt state it found; no
    variable changes. *)
Lemma USB_Device_GetSerialString_hex s :
  wp USB_Device_GetSerialString (fun r s' =>
    r = flat_map serial_digits (map (fun k => row (0x0E + Z.of_nat k)) (seq 0 10)) /\
    length r = 20%nat /\
    exists l v, runs (Wr SREG (u8 v) :: l ++ [cli_ev; Rd SREG v]) s s' /\
                forallb is_signature_read l = true) s.
Proof.
  unfold USB_Device_GetSerialString, GetGlobalInterruptMask, GlobalInterruptDisable, SetGlobalInterruptMask.
  rewrite wp_bind. eapply run_rd; [apply runs_refl|]. intros v s1 Hr1 _.
  rewrite wp_bind. change (wp (emit cli_ev) ?Q s1) with (Q tt (log cli_ev s1)). cbv beta.
  assert (Hr2 : runs [cli_ev; Rd SREG v] s (log cli_ev s1)) by (by rewrite Hr1).
  rewrite wp_bind. eapply wp_mono; [|eapply (serial_chars_bytes 10 0 0x0E _ s _); [done|lia|lia|exact Hr2]].
  intros r s2 (-> & l & Hr3 & Hp). rewrite wp_bind. eapply run_wr; [exact Hr3|]. intros s3 Hr4.
  rewrite wp_ret. split; [done|]. split; [done|]. by exists l, v.
Qed.
End Serial.
