(* ===== verification/EndpointStream.v ===== *)
(** * Data endpoint streams

    [LUFA/Drivers/USB/Core/AVR8/EndpointStream_AVR8.c] and
    [Template/Template_Endpoint_RW.c].  While a stream waits for the next bank
    it runs [USB_USBTask], so these functions depend on the application's event
    handlers. *)
From S2P Require Import Prelude Machine Rely Descriptors Endpoint ControlStream DeviceStandardReq.

(** [enum Endpoint_Stream_RW_ErrorCodes_t] *)
Inductive Endpoint_Stream_RW_ErrorCodes_t : Set :=
  | ENDPOINT_RWSTREAM_NoError
  | ENDPOINT_RWSTREAM_EndpointStalled
  | ENDPOINT_RWSTREAM_DeviceDisconnected
  | ENDPOINT_RWSTREAM_BusSuspended
  | ENDPOINT_RWSTREAM_Timeout
  | ENDPOINT_RWSTREAM_IncompleteTransfer.

(** [if ((ErrorCode = Endpoint_WaitUntilReady())) return ErrorCode;]: the codes of
    the two enumerations have the same numbers; [None] is no error. *)
Definition ready_error (c : Endpoint_WaitUntilReady_ErrorCodes_t)
    : option Endpoint_Stream_RW_ErrorCodes_t :=
  match c with
  | ENDPOINT_READYWAIT_NoError => None
  | ENDPOINT_READYWAIT_EndpointStalled => Some ENDPOINT_RWSTREAM_EndpointStalled
  | ENDPOINT_READYWAIT_DeviceDisconnected => Some ENDPOINT_RWSTREAM_DeviceDisconnected
  | ENDPOINT_READYWAIT_BusSuspended => Some ENDPOINT_RWSTREAM_BusSuspended
  | ENDPOINT_READYWAIT_Timeout => Some ENDPOINT_RWSTREAM_Timeout
  end.

Section EndpointStream.
Context `{Env} `{USB_Application}.

(** [while (Length)]: the state is that of the buffer, the stream pointer,
    [Length] and [BytesInTransfer]; [BytesProcessed] is [None] for [NULL].
    Returns the code, the final [*BytesProcessed] and the buffer. *)
Definition stream_loop {X} (T : stream_template) (clear_endpoint background : M unit)
    (transfer : X -> Z -> M X) (buffer : X) (DataStream Length : Z) (BytesProcessed : option Z)
    : M (Endpoint_Stream_RW_ErrorCodes_t * option Z * X) :=
  loop fuel (fun '(buffer, DataStream, Length, BytesInTransfer) =>
    if Length =? 0 then ret (inr (ENDPOINT_RWSTREAM_NoError, BytesProcessed, buffer))
    else
      allowed ← Endpoint_IsReadWriteAllowed;
      if negb allowed then
        clear_endpoint ;;
        background ;;
        match BytesProcessed with
        | Some n => ret (inr (ENDPOINT_RWSTREAM_IncompleteTransfer,
                              Some (u16 (n + BytesInTransfer)), buffer))
        | None =>
            c ← Endpoint_WaitUntilReady;
            match ready_error c with
            | Some e => ret (inr (e, BytesProcessed, buffer))
            | None => ret (inl (buffer, DataStream, Length, BytesInTransfer))
            end
        end
      else
        buffer ← transfer buffer DataStream;
        ret (inl (buffer, TEMPLATE_BUFFER_MOVE T DataStream 1, u16 (Length - 1),
                  u16 (BytesInTransfer + 1))))
  (buffer, DataStream, Length, 0).

Definition Template_Endpoint_RW {X} (T : stream_template) (clear_endpoint : M unit)
    (transfer : X -> Z -> M X) (buffer : X) (Length : Z) (BytesProcessed : option Z)
    : M (Endpoint_Stream_RW_ErrorCodes_t * option Z * X) :=
  let DataStream := TEMPLATE_BUFFER_OFFSET T Length in
  c ← Endpoint_WaitUntilReady;
  match ready_error c with
  | Some e => ret (e, BytesProcessed, buffer)
  | None =>
      let '(DataStream, Length) :=
        match BytesProcessed with
        | Some n => (TEMPLATE_BUFFER_MOVE T DataStream n, u16 (Length - n))
        | None => (DataStream, Length)
        end in
      stream_loop T clear_endpoint USB_USBTask transfer buffer DataStream Length BytesProcessed
  end.

(** [Endpoint_Discard_Stream] and [Endpoint_Null_Stream] do not run
    [USB_USBTask]. *)
Definition no_buffer : stream_template := LE_stream.
Definition simple_stream (clear_endpoint transfer_byte : M unit) (Length : Z)
    (BytesProcessed : option Z) : M (Endpoint_Stream_RW_ErrorCodes_t * option Z) :=
  c ← Endpoint_WaitUntilReady;
  match ready_error c with
  | Some e => ret (e, BytesProcessed)
  | None =>
      let Length := match BytesProcessed with Some n => u16 (Length - n) | None => Length end in
      '(code, BytesProcessed, _) ←
        stream_loop no_buffer clear_endpoint (ret tt) (fun (_ : unit) _ => transfer_byte) tt 0
          Length BytesProcessed;
      ret (code, BytesProcessed)
  end.

Definition Endpoint_Discard_Stream := simple_stream Endpoint_ClearOUT Endpoint_Discard_8.
Definition Endpoint_Null_Stream := simple_stream Endpoint_ClearIN (Endpoint_Write_8 0).

(** ** Instances *)

Definition write_stream (T : stream_template) (read_byte : Z -> option Z) (Length : Z)
    (BytesProcessed : option Z) : M (Endpoint_Stream_RW_ErrorCodes_t * option Z) :=
  '(code, BytesProcessed, _) ←
    Template_Endpoint_RW T Endpoint_ClearIN (fun (_ : unit) p => transfer_out read_byte p) tt
      Length BytesProcessed;
  ret (code, BytesProcessed).
Definition read_stream (T : stream_template) (Buffer : bytes) :=
  Template_Endpoint_RW T Endpoint_ClearOUT transfer_in Buffer.

Definition Endpoint_Write_Stream_LE (Buffer : bytes) := write_stream LE_stream (load_byte Buffer).
Definition Endpoint_Write_Stream_BE (Buffer : bytes) := write_stream BE_stream (load_byte Buffer).
Definition Endpoint_Read_Stream_LE := read_stream LE_stream.
Definition Endpoint_Read_Stream_BE := read_stream BE_stream.
Definition Endpoint_Write_PStream_LE (Buffer : flash_ptr) :=
  write_stream LE_stream (fun p => pgm_read_byte (flash_offset Buffer p)).
Definition Endpoint_Write_PStream_BE (Buffer : flash_ptr) :=
  write_stream BE_stream (fun p => pgm_read_byte (flash_offset Buffer p)).
Definition Endpoint_Write_EStream_LE (Buffer : bytes) := write_stream LE_stream (load_byte Buffer).
Definition Endpoint_Write_EStream_BE (Buffer : bytes) := write_stream BE_stream (load_byte Buffer).
Definition Endpoint_Read_EStream_LE := read_stream LE_stream.
Definition Endpoint_Read_EStream_BE := read_stream BE_stream.
End EndpointStream.

(** ** Sending one bank

    Documented behaviour of an IN endpoint whose bank of [size] bytes is free
    after the accesses [l0]: it is ready, and data may be written as long as the
    bank is not full. *)
Record bank_free `{Env} (l0 : list event) (size : nat) : Prop := {
  bf_dir : forall l v, answer (l ++ l0) UECFG0X v -> has_bit v EPDIR = true;
  bf_ready : forall l v, answer (l ++ l0) UEINTX v -> in_bank l = [] -> in_packets l = [] ->
    has_bit v TXINI = true;
  bf_allowed : forall l v, answer (l ++ l0) UEINTX v -> in_packets l = [] ->
    (length (in_bank l) < size)%nat -> has_bit v RWAL = true
}.

(** Reading the status of the endpoint does not change that. *)
Lemma in_bank_read l v : in_bank (l ++ [Rd UEINTX v]) = in_bank l.
Proof. induction l as [|[[]| | | | | |] l IH]; simpl; rewrite ?IH; done. Qed.

Lemma in_packets_read l v : in_packets (l ++ [Rd UEINTX v]) = in_packets l.
Proof. induction l as [|[[]|[]| | | | |] l IH]; simpl; rewrite ?in_bank_read, ?IH; done. Qed.

Lemma bank_free_read `{Env} l0 size v : bank_free l0 size -> bank_free (Rd UEINTX v :: l0) size.
Proof.
  intros [Hdir Hready Hallowed].
  assert (Hcons : forall l, l ++ Rd UEINTX v :: l0 = (l ++ [Rd UEINTX v]) ++ l0)
    by (intros; by rewrite <- app_assoc).
  split; intros l w; rewrite Hcons.
  - apply Hdir.
  - intros Ha Hb Hp. eapply Hready; [exact Ha|by rewrite in_bank_read|by rewrite in_packets_read].
  - intros Ha Hp Hl. eapply Hallowed; [exact Ha|by rewrite in_packets_read|by rewrite in_bank_read].
Qed.

Section WriteStreamProofs.
Context `{Calm} `{USB_Application}.
Context (s0 : st) (size : nat).
Hypothesis free : bank_free (ep_trace (trace s0)) size.

Lemma WaitUntilReady_free l s :
  evolves l s0 s -> in_bank l = [] -> in_packets l = [] -> (0 < fuel)%nat ->
  wp Endpoint_WaitUntilReady (fun c s' => c = ENDPOINT_READYWAIT_NoError /\
    exists l', evolves l' s0 s' /\ in_bank l' = [] /\ in_packets l' = []) s.
Proof.
  intros Hev Hb Hp Hf. unfold Endpoint_WaitUntilReady, USB_Device_GetFrameNumber.
  rewrite wp_bind. apply wp_rd_other; [done|]. intros fr s1 Hev1.
  pose proof (evolves_nil_l _ _ _ _ Hev Hev1) as Hev2. clear Hev Hev1.
  destruct fuel as [|f]; [lia|]. cbn [loop]. rewrite !wp_bind.
  unfold Endpoint_GetEndpointDirection. rewrite wp_bind.
  eapply at_test; [exact Hev2|done|]. intros v s2 Hev3 Ha.
  rewrite (bf_dir _ _ free l v Ha). rewrite wp_ret. cbn [Z.eqb ENDPOINT_DIR_IN Pos.eqb].
  rewrite wp_bind. eapply at_test; [exact Hev3|done|]. intros v2 s3 Hev4 Ha2.
  rewrite (bf_ready _ _ free (Rd UECFG0X v :: l) v2 Ha2) by done. rewrite !wp_ret.
  split; [done|]. eexists. split; [exact Hev4|done].
Qed.

Lemma stream_loop_free data l s :
  evolves l s0 s -> in_bank l = [] -> in_packets l = [] ->
  all_bytes data -> (length data <= size)%nat -> (length data < fuel)%nat ->
  Z.of_nat (length data) < 2 ^ 16 ->
  wp (stream_loop LE_stream Endpoint_ClearIN USB_USBTask
        (fun (_ : unit) p => transfer_out (load_byte data) p) tt 0 (Z.of_nat (length data)) None)
     (fun r s' => r = (ENDPOINT_RWSTREAM_NoError, None, tt) /\
        exists l', evolves l' s0 s' /\ in_bank l' = data /\ in_packets l' = []) s.
Proof.
  intros Hev Hb Hp Hall Hsize Hf H16. unfold stream_loop.
  apply (wp_loop (fun '(_, p, len, _) n s' => exists l' k, evolves l' s0 s' /\
    (k <= length data)%nat /\ p = Z.of_nat k /\ len = Z.of_nat (length data - k) /\
    n = (length data - k)%nat /\ in_bank l' = take k data /\ in_packets l' = []))
    with (n := length data); [|lia|].
  2: { exists l, 0%nat. rewrite Nat.sub_0_r. repeat split; try done; apply Hev || lia. }
  intros [[[[] p] len] bt] n s1 (l' & k & Hev1 & Hk & -> & -> & -> & Hb1 & Hp1).
  destruct (Z.eqb_spec (Z.of_nat (length data - k)) 0).
  { split; [done|]. exists l'. split; [done|]. split; [|done]. by rewrite Hb1, take_ge by lia. }
  rewrite wp_bind. eapply at_test; [exact Hev1|done|]. intros v s2 Hev2 Ha.
  rewrite (bf_allowed _ _ free l' v Ha Hp1) by (rewrite Hb1, length_take; lia). cbn [negb].
  destruct (lookup_lt_is_Some_2 data k) as [b Hbk]; [lia|].
  rewrite wp_bind. unfold transfer_out, load_byte.
  destruct (Z.leb_spec 0 (Z.of_nat k)); [|lia]. rewrite Nat2Z.id, Hbk.
  eapply at_wr; [exact Hev2|done|]. intros s3 Hev3. rewrite wp_ret.
  rewrite wrap_id in Hev3 by (by eapply Forall_lookup_1).
  exists (length data - S k)%nat. split; [lia|]. eexists _, (S k). split; [exact Hev3|].
  cbn [in_bank in_packets]. rewrite Hb1. cbn [TEMPLATE_BUFFER_MOVE LE_stream].
  repeat split; try done; try lia.
  - rewrite wrap_id by (unfold fits; lia). lia.
  - symmetry. by apply take_S_r.
Qed.

(** A transfer that fits the free bank is written to it, and the task of the
    library is not run. *)
Lemma Write_Stream_free data l s :
  evolves l s0 s -> in_bank l = [] -> in_packets l = [] ->
  all_bytes data -> (length data <= size)%nat -> (length data < fuel)%nat ->
  Z.of_nat (length data) < 2 ^ 16 ->
  wp (Endpoint_Write_Stream_LE data (Z.of_nat (length data)) None)
     (fun r s' => r = (ENDPOINT_RWSTREAM_NoError, None) /\
        exists l', evolves l' s0 s' /\ in_bank l' = data /\ in_packets l' = []) s.
Proof.
  intros Hev Hb Hp Hall Hsize Hf H16.
  unfold Endpoint_Write_Stream_LE, write_stream, Template_Endpoint_RW.
  rewrite wp_bind, wp_bind. eapply wp_mono; [|apply (WaitUntilReady_free l s Hev Hb Hp); lia].
  intros c s1 (-> & l1 & Hev1 & Hb1 & Hp1). cbn [ready_error].
  eapply wp_mono; [|apply (stream_loop_free data l1 s1); done].
  intros r s2 (-> & Hl2). rewrite wp_ret. by split.
Qed.
End WriteStreamProofs.
