(* ===== verification/StreamEndian.v ===== *)
(** * Big-endian streams

    The stream templates are instantiated twice, walking the buffer upwards or
    downwards.  Here: a big-endian stream is the little-endian stream of the
    reversed buffer, access for access, on every machine and in every state. *)
From S2P Require Import Prelude Machine Descriptors Endpoint ControlStream DeviceStandardReq EndpointStream.

(** Two computations that make the same accesses and end in the same state, with
    results related by [R]. *)
Definition alike {A B} (R : A -> B -> Prop) (m : M A) (m' : M B) : Prop := forall s,
  match m s, m' s with
  | Done a s1, Done b s2 => s1 = s2 /\ R a b
  | OutOfFuel, OutOfFuel => True
  | Undefined, Undefined => True
  | _, _ => False
  end.

Lemma alike_refl {A} (m : M A) : alike eq m m.
Proof. intros s. by destruct (m s). Qed.

Lemma alike_eq {A} (m m' : M A) : alike eq m m' -> forall s, m s = m' s.
Proof. intros Hm s. specialize (Hm s). destruct (m s), (m' s); try done. by destruct Hm as [-> ->]. Qed.

Lemma alike_ret {A B} (R : A -> B -> Prop) a b : R a b -> alike R (ret a) (ret b).
Proof. by intros ? s. Qed.

Lemma alike_bind {A A' B B'} (R : A -> A' -> Prop) (S : B -> B' -> Prop) m m' k k' :
  alike R m m' -> (forall a a', R a a' -> alike S (k a) (k' a')) -> alike S (bind m k) (bind m' k').
Proof.
  intros Hm Hk s. specialize (Hm s). unfold bind.
  destruct (m s), (m' s); try done. destruct Hm as [<- HR]. by apply Hk.
Qed.

(** The part of the code that is the same. *)
Lemma alike_same {A B B'} (S : B -> B' -> Prop) (m : M A) k k' :
  (forall a, alike S (k a) (k' a)) -> alike S (bind m k) (bind m k').
Proof. intros Hk. eapply alike_bind; [apply alike_refl|]. by intros a ? <-. Qed.

Definition sum_rel {A A' B B'} (R : A -> A' -> Prop) (S : B -> B' -> Prop) (x : A + B) (y : A' + B') : Prop :=
  match x, y with inl a, inl a' => R a a' | inr b, inr b' => S b b' | _, _ => False end.

Lemma alike_loop {X X' A A'} (R : X -> X' -> Prop) (S : A -> A' -> Prop) body body' n :
  (forall x x', R x x' -> alike (sum_rel R S) (body x) (body' x')) ->
  forall x x', R x x' -> alike S (loop n body x) (loop n body' x').
Proof.
  intros Hb. induction n as [|n IH]; intros x x' Hx; [done|]. cbn [loop].
  eapply alike_bind; [by apply Hb|]. intros [y|a] [y'|a'] Hy; [by apply IH|done|done|by apply alike_ret].
Qed.

(** ** The reversed buffer *)

Section Reversed.
Context (N : Z).

(** The stream pointer at the same distance from the other end. *)
Definition other_end (p : Z) : Z := N - 1 - p.

Lemma load_byte_reverse Buffer p :
  Z.of_nat (length Buffer) = N -> load_byte Buffer (other_end p) = load_byte (reverse Buffer) p.
Proof.
  intros HN. unfold load_byte, other_end.
  destruct (Z.leb_spec 0 p), (Z.leb_spec 0 (N - 1 - p)); try done.
  - rewrite <- (reverse_involutive Buffer) at 1. rewrite reverse_lookup by (rewrite length_reverse; lia).
    f_equal. rewrite length_reverse. lia.
  - symmetry. apply lookup_ge_None_2. rewrite length_reverse. lia.
  - apply lookup_ge_None_2. lia.
Qed.

Lemma insert_reverse Buffer i (v : Z) :
  (i < length Buffer)%nat ->
  <[i := v]> (reverse Buffer) = reverse (<[(length Buffer - 1 - i)%nat := v]> Buffer).
Proof.
  intros Hi. apply list_eq. intros j.
  destruct (decide (j < length Buffer)%nat) as [Hj|Hj].
  2: { rewrite !lookup_ge_None_2; rewrite ?length_insert, ?length_reverse, ?length_insert; [done|lia|lia]. }
  rewrite (reverse_lookup (<[_ := v]> Buffer)) by (rewrite length_insert; lia).
  rewrite length_insert. destruct (decide (j = i)) as [->|Hne].
  - rewrite list_lookup_insert_eq by (rewrite length_reverse; lia).
    replace (length Buffer - S i)%nat with (length Buffer - 1 - i)%nat by lia.
    by rewrite list_lookup_insert_eq by lia.
  - rewrite !list_lookup_insert_ne by lia. by rewrite reverse_lookup by lia.
Qed.

Lemma store_byte_reverse Buffer p v :
  Z.of_nat (length Buffer) = N ->
  store_byte (reverse Buffer) p v = reverse <$> store_byte Buffer (other_end p) v.
Proof.
  intros HN. unfold store_byte. rewrite (load_byte_reverse Buffer p HN).
  destruct (load_byte (reverse Buffer) p) as [x|] eqn:Hx; [|done]. simpl. f_equal.
  unfold load_byte in Hx. destruct (Z.leb_spec 0 p); [|done].
  apply lookup_lt_Some in Hx. rewrite length_reverse in Hx.
  rewrite insert_reverse by lia. do 2 f_equal. unfold other_end. lia.
Qed.

Lemma length_store_byte Buffer p v Buffer' :
  store_byte Buffer p v = Some Buffer' -> length Buffer' = length Buffer.
Proof. unfold store_byte. destruct (load_byte _ _); [|done]. intros [= <-]. apply length_insert. Qed.
End Reversed.

(** ** Control streams *)

Section Control.
Context `{Env} (N : Z).

(** Stream pointers at corresponding positions, with the same length to go. *)
Definition opposite (x x' : Z * Z * Z) : Prop :=
  let '(p, len, b) := x in x' = (other_end N p, len, b).

Lemma other_end_move p : TEMPLATE_BUFFER_MOVE BE_stream (other_end N p) 1 = other_end N (p + 1).
Proof. unfold other_end. simpl. lia. Qed.
Lemma other_end_start : TEMPLATE_BUFFER_OFFSET BE_stream N = other_end N 0.
Proof. unfold other_end. simpl. lia. Qed.

Section Write.
Context (read_byte read_byte' : Z -> option Z).
Hypothesis mirrored : forall p, read_byte (other_end N p) = read_byte' p.

Lemma fill_bank_BE p len b :
  alike opposite (fill_bank LE_stream read_byte' p len b) (fill_bank BE_stream read_byte (other_end N p) len b).
Proof.
  apply (alike_loop opposite opposite); [|done]. clear p len b. intros [[p len] b] ? ->.
  destruct (_ && _); [|by apply alike_ret]. unfold transfer_out. rewrite mirrored.
  apply alike_same. intros _. rewrite other_end_move. by apply alike_ret.
Qed.

Lemma control_W_data_BE p len :
  alike eq (control_W_data LE_stream read_byte' p len) (control_W_data BE_stream read_byte (other_end N p) len).
Proof.
  apply (alike_loop (fun '(p, len, full) x' => x' = (other_end N p, len, full)) eq); [|done].
  clear p len. intros [[p len] full] ? ->.
  destruct (_ && _); [by apply alike_ret|]. apply alike_same. intros d.
  destruct (_ =? _); [by apply alike_ret|]. destruct (_ =? _); [by apply alike_ret|].
  apply alike_same. intros []; [by apply alike_ret|].
  apply alike_same. intros []; [by apply alike_ret|].
  apply alike_same. intros []; [|by apply alike_ret].
  apply alike_same. intros n. eapply alike_bind; [apply fill_bank_BE|]. intros [[p2 len2] b2] ? ->.
  apply alike_same. intros _. by apply alike_ret.
Qed.

Lemma Control_W_BE s :
  Template_Endpoint_Control_W BE_stream read_byte N s = Template_Endpoint_Control_W LE_stream read_byte' N s.
Proof.
  symmetry. apply alike_eq. unfold Template_Endpoint_Control_W.
  apply alike_same. intros req. apply alike_same. intros len. rewrite other_end_start.
  eapply alike_bind; [apply control_W_data_BE|]. intros r ? <-. apply alike_refl.
Qed.
End Write.

(** Read buffers: one is the other reversed. *)
Definition reversed (b b' : bytes) : Prop := b = reverse b' /\ Z.of_nat (length b') = N.

Definition reading (x x' : bytes * Z * Z) : Prop :=
  let '(b, p, len) := x in let '(b', p', len') := x' in
  reversed b b' /\ p' = other_end N p /\ len' = len.

Lemma transfer_in_BE b b' p :
  reversed b b' -> alike reversed (transfer_in b p) (transfer_in b' (other_end N p)).
Proof.
  intros [-> HN]. apply alike_same. intros v. rewrite (store_byte_reverse N b' p v HN).
  destruct (store_byte b' (other_end N p) v) as [b2|] eqn:Hs; [|done]. apply alike_ret.
  split; [done|]. by rewrite (length_store_byte _ _ _ _ Hs).
Qed.

Lemma drain_bank_BE b b' p len :
  reversed b b' -> alike reading (drain_bank LE_stream b p len) (drain_bank BE_stream b' (other_end N p) len).
Proof.
  intros Hb. apply (alike_loop reading reading); [|done]. clear b b' p len Hb.
  intros [[b p] len] [[b' p'] len'] (Hb & -> & ->). destruct (_ =? _); [by apply alike_ret|].
  apply alike_same. intros n. destruct (_ =? _); [by apply alike_ret|].
  eapply alike_bind; [by apply transfer_in_BE|]. intros c c' Hc. apply alike_ret.
  by rewrite other_end_move.
Qed.

Lemma Control_R_BE b b' :
  reversed b b' ->
  alike (fun r r' => fst r = fst r' /\ reversed (snd r) (snd r'))
    (Template_Endpoint_Control_R LE_stream b N) (Template_Endpoint_Control_R BE_stream b' N).
Proof.
  intros Hb. unfold Template_Endpoint_Control_R. apply alike_same. intros _. rewrite other_end_start.
  eapply (alike_bind (fun r r' => fst r = fst r' /\ reversed (snd r) (snd r'))).
  - apply (alike_loop reading (fun r r' => fst r = fst r' /\ reversed (snd r) (snd r'))); [|done].
    clear b b' Hb. intros [[b p] len] [[b' p'] len'] (Hb & -> & ->).
    destruct (_ =? _); [by apply alike_ret|]. apply alike_same. intros d.
    destruct (_ =? _); [by apply alike_ret|]. destruct (_ =? _); [by apply alike_ret|].
    apply alike_same. intros []; [by apply alike_ret|].
    apply alike_same. intros []; [|by apply alike_ret].
    eapply alike_bind; [by apply drain_bank_BE|].
    intros [[c q] l] [[c' q'] l'] Hr. apply alike_same. intros _. by apply alike_ret.
  - intros [[code|] c] [r' c'] [Hr Hc]; cbn in Hr; subst r'; [by apply alike_ret|].
    apply alike_same. intros code. by apply alike_ret.
Qed.

(** ** Data streams *)

Section Data.
Context `{USB_Application}.

(** Transfers of one byte that correspond keep the whole streams alike, with or
    without a count of the bytes already processed. *)
Lemma Template_RW_BE {X X'} (S : X -> X' -> Prop) clear transfer transfer' x x' done_ :
  (forall x x' p, S x x' -> alike S (transfer x p) (transfer' x' (other_end N p))) ->
  S x x' ->
  alike (fun r r' => fst r = fst r' /\ S (snd r) (snd r'))
    (Template_Endpoint_RW LE_stream clear transfer x N done_)
    (Template_Endpoint_RW BE_stream clear transfer' x' N done_).
Proof.
  intros Ht Hx. unfold Template_Endpoint_RW. apply alike_same. intros c.
  destruct (ready_error c) as [e|]; [by apply alike_ret|]. rewrite other_end_start.
  assert (Hloop : forall p len, alike (fun r r' => fst r = fst r' /\ S (snd r) (snd r'))
    (stream_loop LE_stream clear USB_USBTask transfer x p len done_)
    (stream_loop BE_stream clear USB_USBTask transfer' x' (other_end N p) len done_)).
  { intros p len.
    apply (alike_loop (fun '(x, p, len, n) '(x', p', len', n') =>
             S x x' /\ p' = other_end N p /\ len' = len /\ n' = n)); [|done].
    clear x x' Hx p len. intros [[[x p] len] n] [[[x' p'] len'] n'] (Hx & -> & -> & ->).
    destruct (_ =? _); [by apply alike_ret|]. apply alike_same. intros allowed.
    destruct (negb allowed).
    - apply alike_same. intros _. apply alike_same. intros _.
      destruct done_; [by apply alike_ret|]. apply alike_same. intros c'.
      destruct (ready_error c'); by apply alike_ret.
    - eapply alike_bind; [by apply Ht|]. intros y y' Hy. apply alike_ret. by rewrite other_end_move. }
  destruct done_ as [n|]; [|apply (Hloop 0)].
  replace (TEMPLATE_BUFFER_MOVE BE_stream (other_end N 0) n) with (other_end N (0 + n));
    [apply Hloop|unfold other_end; simpl; lia].
Qed.
End Data.
End Control.

(** Computations that are alike up to a function of the result. *)
Lemma alike_map {A B} (R : A -> B -> Prop) (f : A -> B) (m : M A) (m' : M B) :
  (forall a b, R a b -> b = f a) -> alike R m m' -> forall s, m' s = (a ← m; ret (f a)) s.
Proof.
  intros Hf Hm s. specialize (Hm s). unfold bind.
  destruct (m s), (m' s); try done. destruct Hm as [-> HR]. by rewrite (Hf _ _ HR).
Qed.

Lemma reversed_swap N b b' : reversed N b b' -> b' = reverse b.
Proof. intros [-> _]. by rewrite reverse_involutive. Qed.

(** C35: the big-endian streams transfer the buffer in the reverse order.  On every
    machine and from every state, a big-endian stream over the whole of a buffer
    makes the same accesses and has the same outcome (errors and early ends
    included) as the little-endian stream over the reversed buffer; a buffer that
    was read into holds the same bytes in reverse.  This holds of the control
    streams and of the data streams, also when a data stream is resumed. *)
Theorem BE_streams_reverse `{Env} `{USB_Application} (Buffer : bytes) (BytesProcessed : option Z) s :
  let N := Z.of_nat (length Buffer) in
  Endpoint_Write_Control_Stream_BE Buffer N s = Endpoint_Write_Control_Stream_LE (reverse Buffer) N s /\
  Endpoint_Read_Control_Stream_BE Buffer N s =
    ('(code, b) ← Endpoint_Read_Control_Stream_LE (reverse Buffer) N; ret (code, reverse b)) s /\
  Endpoint_Write_Stream_BE Buffer N BytesProcessed s =
    Endpoint_Write_Stream_LE (reverse Buffer) N BytesProcessed s /\
  Endpoint_Read_Stream_BE Buffer N BytesProcessed s =
    ('(code, n, b) ← Endpoint_Read_Stream_LE (reverse Buffer) N BytesProcessed; ret (code, n, reverse b)) s.
Proof.
  intros N. assert (Hm : forall p, load_byte Buffer (other_end N p) = load_byte (reverse Buffer) p)
    by (intros p; by apply load_byte_reverse).
  assert (Hb : reversed N (reverse Buffer) Buffer) by done.
  split; [|split; [|split]].
  - by apply Control_W_BE.
  - etransitivity.
    + eapply (alike_map _ (fun r => (fst r, reverse (snd r)))); [|by apply Control_R_BE].
      intros [c b] [c' b'] [Hc Hr]. cbn in *. by rewrite Hc, (reversed_swap _ _ _ Hr).
    + unfold Endpoint_Read_Control_Stream_LE, bind. by destruct (Template_Endpoint_Control_R _ _ _ s) as [[] ?| |].
  - symmetry. apply alike_eq. eapply alike_bind.
    + apply (Template_RW_BE N eq); [|done]. intros [] [] p _. unfold transfer_out. rewrite Hm.
      apply alike_refl.
    + intros [[c n] []] [[c' n'] []] [Hr _]. cbn in Hr. injection Hr as -> ->. apply alike_refl.
  - etransitivity.
    + eapply (alike_map _ (fun r => (fst r, reverse (snd r))));
        [|apply (Template_RW_BE N (reversed N)); [|done]; intros b b' p; apply transfer_in_BE].
      intros [c b] [c' b'] [Hc Hr]. cbn in *. by rewrite Hc, (reversed_swap _ _ _ Hr).
    + unfold Endpoint_Read_Stream_LE, read_stream, bind. by destruct (Template_Endpoint_RW _ _ _ _ _ _ s) as [[[] ?] ?| |].
Qed.
