(* ===== verification/HIDClass.v ===== *)
(** * The HID class driver

    [LUFA/Drivers/USB/Class/Device/HIDClassDevice.c] and [.h].  The interface
    structure is passed by address; an address is a pair of accessors into the
    program state.  The application's report callbacks are the class
    [HID_Application]. *)
From S2P Require Import Prelude Machine Rely Descriptors HIDParser Endpoint ControlStream UsbController DeviceStandardReq EndpointStream.

Definition HID_REQ_GetReport := 0x01.
Definition HID_REQ_GetIdle := 0x02.
Definition HID_REQ_GetProtocol := 0x03.
Definition HID_REQ_SetReport := 0x09.
Definition HID_REQ_SetIdle := 0x0A.
Definition HID_REQ_SetProtocol := 0x0B.

(** The buffer a [PrevReportINBuffer] points to. *)
Definition buffer_at (b : static_buffer) : address bytes :=
  match b with
  | PrevJoystickHIDReportBuffer_addr =>
      {| load := PrevJoystickHIDReportBuffer; store := set_PrevJoystickHIDReportBuffer |}
  end.

Abbreviation HIDInterface := (address USB_ClassInfo_HID_Device_t).

(** [HIDInterfaceInfo->State.field = x] *)
Definition on_State (f : HID_State_t -> HID_State_t) (i : USB_ClassInfo_HID_Device_t) :=
  {| HID_Config := HID_Config i; HID_State := f (HID_State i) |}.
Definition set_UsingReportProtocol (x : bool) (t : HID_State_t) :=
  {| UsingReportProtocol := x; PrevFrameNum := PrevFrameNum t; IdleCount := IdleCount t;
     IdleMSRemaining := IdleMSRemaining t |}.
Definition set_PrevFrameNum (x : Z) (t : HID_State_t) :=
  {| UsingReportProtocol := UsingReportProtocol t; PrevFrameNum := x; IdleCount := IdleCount t;
     IdleMSRemaining := IdleMSRemaining t |}.
Definition set_IdleCount (x : Z) (t : HID_State_t) :=
  {| UsingReportProtocol := UsingReportProtocol t; PrevFrameNum := PrevFrameNum t; IdleCount := x;
     IdleMSRemaining := IdleMSRemaining t |}.
Definition set_IdleMSRemaining (x : Z) (t : HID_State_t) :=
  {| UsingReportProtocol := UsingReportProtocol t; PrevFrameNum := PrevFrameNum t;
     IdleCount := IdleCount t; IdleMSRemaining := x |}.

Definition modify_State (i : HIDInterface) (f : HID_State_t -> HID_State_t) (s : st) : st :=
  store i (on_State f (load i s)) s.

(** [memcpy(dst, src, n)] onto the first [n] bytes of an object; [None] if one of
    the two is shorter. *)
Definition memcpy (dst src : bytes) (n : Z) : option bytes :=
  if (n <=? Z.of_nat (length dst)) && (n <=? Z.of_nat (length src)) then
    Some (take (Z.to_nat n) src ++ drop (Z.to_nat n) dst)
  else None.
(** [memcmp(a, b, n) != 0] *)
Definition memcmp_differ (a b : bytes) (n : Z) : option bool :=
  if (n <=? Z.of_nat (length a)) && (n <=? Z.of_nat (length b)) then
    Some (negb (bool_decide (take (Z.to_nat n) a = take (Z.to_nat n) b)))
  else None.

(** A C access that may be out of bounds. *)
Definition checked {A} (o : option A) : M A :=
  match o with Some a => ret a | None => undefined end.

(** The report callbacks: [CALLBACK_HID_Device_CreateHIDReport] takes the report
    ID, type, the report buffer and returns its result, the new ID, the buffer
    and the size; [CALLBACK_HID_Device_ProcessHIDReport] takes the ID, type, the
    buffer and the size. *)
Class HID_Application := {
  CALLBACK_HID_Device_CreateHIDReport : HIDInterface -> Z -> Z -> bytes -> M (bool * Z * bytes * Z);
  CALLBACK_HID_Device_ProcessHIDReport : HIDInterface -> Z -> Z -> bytes -> Z -> M unit
}.

Section HIDClass.
Context `{Env} `{HID_Application}.
Context (HIDInterfaceInfo : HIDInterface).

Let config : st -> HID_Config_t := fun s => HID_Config (load HIDInterfaceInfo s).
Let state : st -> HID_State_t := fun s => HID_State (load HIDInterfaceInfo s).

Definition HID_Device_MillisecondElapsed : M unit :=
  r ← get (fun s => IdleMSRemaining (state s));
  when (negb (r =? 0)) (put (modify_State HIDInterfaceInfo (set_IdleMSRemaining (r - 1)))).

(** [if (PrevReportINBuffer != NULL) memcpy(PrevReportINBuffer, data, size);] *)
Definition save_report (data : bytes) : M unit :=
  c ← get config;
  match PrevReportINBuffer c with
  | None => ret tt
  | Some b =>
      old ← get (load (buffer_at b));
      new ← checked (memcpy old data (PrevReportINBufferSize c));
      put (store (buffer_at b) new)
  end.

Definition get_report : M unit :=
  req ← get USB_ControlRequest;
  c ← get config;
  let ReportID := u8 (Z.land (wValue req) 0xFF) in
  let ReportType := u8 (Z.shiftr (wValue req) 8 - 1) in
  let ReportData := replicate (Z.to_nat (PrevReportINBufferSize c)) 0 in
  '(_, ReportID, ReportData, ReportSize) ←
    CALLBACK_HID_Device_CreateHIDReport HIDInterfaceInfo ReportID ReportType ReportData;
  save_report ReportData ;;
  Endpoint_SelectEndpoint ENDPOINT_CONTROLEP ;;
  Endpoint_ClearSETUP ;;
  when (negb (ReportID =? 0)) (Endpoint_Write_8 ReportID) ;;
  Endpoint_Write_Control_Stream_LE ReportData ReportSize ;;
  Endpoint_ClearOUT.

(** The first half of SET_REPORT: the data stage into [ReportData]. *)
Definition receive_report (indet : bytes) : M bytes :=
  req ← get USB_ControlRequest;
  let ReportSize := wLength req in
  let ReportData := take (Z.to_nat ReportSize) indet in
  Endpoint_ClearSETUP ;;
  '(_, ReportData) ← Endpoint_Read_Control_Stream_LE ReportData ReportSize;
  Endpoint_ClearIN ;;
  ret ReportData.

Definition set_report (indet : bytes) : M unit :=
  req ← get USB_ControlRequest;
  let ReportSize := wLength req in
  let ReportID := u8 (Z.land (wValue req) 0xFF) in
  let ReportType := u8 (Z.shiftr (wValue req) 8 - 1) in
  ReportData ← receive_report indet;
  let skip := if ReportID =? 0 then 0 else 1 in
  CALLBACK_HID_Device_ProcessHIDReport HIDInterfaceInfo ReportID ReportType
    (drop (Z.to_nat skip) ReportData) (u16 (ReportSize - skip)).

Definition get_protocol : M unit :=
  Endpoint_ClearSETUP ;;
  spin_until Endpoint_IsINReady ;;
  b ← get (fun s => UsingReportProtocol (state s));
  Endpoint_Write_8 (Z.b2z b) ;;
  Endpoint_ClearIN ;;
  Endpoint_ClearStatusStage.

Definition set_protocol : M unit :=
  Endpoint_ClearSETUP ;;
  Endpoint_ClearStatusStage ;;
  req ← get USB_ControlRequest;
  put (modify_State HIDInterfaceInfo
         (set_UsingReportProtocol (negb (Z.land (wValue req) 0xFF =? 0x00)))).

Definition set_idle : M unit :=
  Endpoint_ClearSETUP ;;
  Endpoint_ClearStatusStage ;;
  req ← get USB_ControlRequest;
  put (modify_State HIDInterfaceInfo
         (set_IdleCount (Z.shiftr (Z.land (wValue req) 0xFF00) 6))).

Definition get_idle : M unit :=
  Endpoint_ClearSETUP ;;
  spin_until Endpoint_IsINReady ;;
  n ← get (fun s => IdleCount (state s));
  Endpoint_Write_8 (u8 (Z.shiftr n 2)) ;;
  Endpoint_ClearIN ;;
  Endpoint_ClearStatusStage.

(** [indet]: what the uninitialised [ReportData] array of SET_REPORT holds; it
    has at least [wLength] bytes. *)
Definition HID_Device_ProcessControlRequest (indet : bytes) : M unit :=
  setup ← Endpoint_IsSETUPReceived;
  if negb setup then ret tt
  else
    req ← get USB_ControlRequest;
    c ← get config;
    if negb (wIndex req =? InterfaceNumber c) then ret tt
    else
      let matches dir :=
        bmRequestType req =? request_type dir REQTYPE_CLASS REQREC_INTERFACE in
      if bRequest req =? HID_REQ_GetReport then when (matches REQDIR_DEVICETOHOST) get_report
      else if bRequest req =? HID_REQ_SetReport then
        when (matches REQDIR_HOSTTODEVICE) (set_report indet)
      else if bRequest req =? HID_REQ_GetProtocol then
        when (matches REQDIR_DEVICETOHOST) get_protocol
      else if bRequest req =? HID_REQ_SetProtocol then
        when (matches REQDIR_HOSTTODEVICE) set_protocol
      else if bRequest req =? HID_REQ_SetIdle then when (matches REQDIR_HOSTTODEVICE) set_idle
      else if bRequest req =? HID_REQ_GetIdle then when (matches REQDIR_DEVICETOHOST) get_idle
      else ret tt.

Definition set_ep_Type (t : Z) (e : USB_Endpoint_Table_t) : USB_Endpoint_Table_t :=
  {| ep_Address := ep_Address e; ep_Size := ep_Size e; ep_Type := t; ep_Banks := ep_Banks e |}.

(** The class state after [memset], and its initial values. *)
Definition configured_interface (i : USB_ClassInfo_HID_Device_t) : USB_ClassInfo_HID_Device_t :=
  let c := HID_Config i in
  {| HID_Config := {| InterfaceNumber := InterfaceNumber c;
                      ReportINEndpoint := set_ep_Type EP_TYPE_INTERRUPT (ReportINEndpoint c);
                      PrevReportINBuffer := PrevReportINBuffer c;
                      PrevReportINBufferSize := PrevReportINBufferSize c |};
     HID_State := {| UsingReportProtocol := true; PrevFrameNum := 0; IdleCount := 500;
                     IdleMSRemaining := 0 |} |}.

Definition HID_Device_ConfigureEndpoints : M bool :=
  put (fun s => store HIDInterfaceInfo (configured_interface (load HIDInterfaceInfo s)) s) ;;
  c ← get config;
  ok ← Endpoint_ConfigureEndpointTable [ReportINEndpoint c];
  if negb ok then ret false else ret true.
End HIDClass.

Section HIDTask.
Context `{Env} `{USB_Application} `{HID_Application}.
Context (HIDInterfaceInfo : HIDInterface).

Let config : st -> HID_Config_t := fun s => HID_Config (load HIDInterfaceInfo s).
Let state : st -> HID_State_t := fun s => HID_State (load HIDInterfaceInfo s).

(** The comparison with the previous report, and its replacement. *)
Definition states_changed (ReportINData : bytes) (ReportINSize : Z) : M bool :=
  c ← get config;
  match PrevReportINBuffer c with
  | None => ret false
  | Some b =>
      old ← get (load (buffer_at b));
      changed ← checked (memcmp_differ ReportINData old ReportINSize);
      new ← checked (memcpy old ReportINData (PrevReportINBufferSize c));
      put (store (buffer_at b) new) ;;
      ret changed
  end.

Definition send_report (ReportID : Z) (ReportINData : bytes) (ReportINSize : Z) : M unit :=
  c ← get config;
  idle ← get (fun s => IdleCount (state s));
  put (modify_State HIDInterfaceInfo (set_IdleMSRemaining idle)) ;;
  Endpoint_SelectEndpoint (ep_Address (ReportINEndpoint c)) ;;
  when (negb (ReportID =? 0)) (Endpoint_Write_8 ReportID) ;;
  Endpoint_Write_Stream_LE ReportINData ReportINSize None ;;
  Endpoint_ClearIN.

(** The body of [if (Endpoint_IsReadWriteAllowed())]. *)
Definition create_and_send (c : HID_Config_t) : M unit :=
  '(ForceSend, ReportID, ReportINData, ReportINSize) ←
    CALLBACK_HID_Device_CreateHIDReport HIDInterfaceInfo 0 (Z.of_nat HID_REPORT_ITEM_In)
      (replicate (Z.to_nat (PrevReportINBufferSize c)) 0);
  t ← get_volatile state;
  let IdlePeriodElapsed := negb (IdleCount t =? 0) && (IdleMSRemaining t =? 0) in
  StatesChanged ← states_changed ReportINData ReportINSize;
  when (negb (ReportINSize =? 0) && (ForceSend || StatesChanged || IdlePeriodElapsed))
    (send_report ReportID ReportINData ReportINSize) ;;
  frame ← USB_Device_GetFrameNumber;
  put (modify_State HIDInterfaceInfo (set_PrevFrameNum frame)).

Definition HID_Device_USBTask : M unit :=
  d ← get_volatile USB_DeviceState;
  if negb (d =? DEVICE_STATE_Configured) then ret tt
  else
    prev ← get (fun s => PrevFrameNum (state s));
    frame ← USB_Device_GetFrameNumber;
    if (prev =? frame) && negb (option_set USB_DEVICE_OPT_LOWSPEED) then ret tt
    else
      c ← get config;
      Endpoint_SelectEndpoint (ep_Address (ReportINEndpoint c)) ;;
      allowed ← Endpoint_IsReadWriteAllowed;
      if (allowed : bool) then create_and_send c else ret tt.
End HIDTask.

(** The driver leaves standard requests alone. *)
Lemma HID_standard_request `{Calm} `{HID_Application} i indet s :
  Z.land (bmRequestType (USB_ControlRequest s)) CONTROL_REQTYPE_TYPE = REQTYPE_STANDARD ->
  wp (HID_Device_ProcessControlRequest i indet)
     (fun _ s' => exists l, evolves l s s' /\ forallb is_read l = true) s.
Proof.
  intros Hstd. unfold HID_Device_ProcessControlRequest. rewrite wp_bind.
  eapply at_test; [apply evolves_refl|done|]. intros v s1 Hev1 _.
  assert (Hdone : exists l, evolves l s s1 /\ forallb is_read l = true) by (by eexists).
  destruct (has_bit v RXSTPI); [|exact Hdone]. cbn [negb].
  rewrite wp_bind, wp_get, wp_bind, wp_get. rewrite (evolves_ControlRequest _ _ _ Hev1).
  destruct (wIndex (USB_ControlRequest s) =? _); [|exact Hdone]. cbn [negb]. cbv zeta.
  assert (Hno : forall dir, dir = REQDIR_DEVICETOHOST \/ dir = REQDIR_HOSTTODEVICE ->
    (bmRequestType (USB_ControlRequest s) =? request_type dir REQTYPE_CLASS REQREC_INTERFACE) = false).
  { intros dir Hdir. apply Z.eqb_neq. intros E. rewrite E in Hstd. by destruct Hdir as [-> | ->]. }
  rewrite !Hno by auto. cbn [when]. repeat case_match; exact Hdone.
Qed.

(** ** SET_REPORT *)

(** The request is SET_REPORT for interface [i], for a report without ID. *)
Definition is_SetReport (i : HIDInterface) (s : st) : Prop :=
  let req := USB_ControlRequest s in
  bRequest req = HID_REQ_SetReport /\
  bmRequestType req = request_type REQDIR_HOSTTODEVICE REQTYPE_CLASS REQREC_INTERFACE /\
  wIndex req = InterfaceNumber (HID_Config (load i s)).

(** What the data stage [data] holds of the report: the number of a numbered
    report comes first. *)
Definition report_payload (req : USB_Request_Header_t) (data : bytes) : bytes :=
  drop (if (Z.land (wValue req) 0xFF =? 0)%Z then 0 else 1)%nat data.

(** Its SETUP packet is pending in state [s], and the host then sends the packets
    [ps]. *)
Definition control_write_follows `{Env} (s : st) (ps : list bytes) (K : nat) : Prop :=
  forall l v, forallb is_read l = true -> answer (l ++ ep_trace (trace s)) UEINTX v ->
    has_bit v RXSTPI = true /\ host_writes (setup_ack v ++ l ++ ep_trace (trace s)) ps K.

(** What every interface address used here satisfies: its configuration is not
    touched by accesses to the endpoint. *)
Definition stable_config (i : HIDInterface) : Prop :=
  forall l s s', evolves l s s' -> HID_Config (load i s') = HID_Config (load i s).

Lemma SetReport_dispatch `{Calm} `{HID_Application} i indet ps K s :
  is_SetReport i s -> stable_config i -> control_write_follows s ps K ->
  exists v s1, evolves [Rd UEINTX v] s s1 /\
    HID_Device_ProcessControlRequest i indet s = set_report i indet s1.
Proof.
  intros (Hr & Ht & Hi) Hst Hw.
  assert (Hrd : wp Endpoint_IsSETUPReceived
            (fun b s1 => b = true /\ exists v, evolves [Rd UEINTX v] s s1) s).
  { eapply at_test; [apply evolves_refl|done|]. intros v s1 Hev Ha.
    split; [apply (Hw [] v); done|]. by exists v. }
  apply wp_done in Hrd as (b & s1 & Hrun & -> & v & Hev). exists v, s1. split; [done|].
  unfold HID_Device_ProcessControlRequest. unfold bind at 1. rewrite Hrun. cbn [negb].
  unfold bind, get. rewrite (evolves_ControlRequest _ _ _ Hev), (Hst _ _ _ Hev), <- Hi, Z.eqb_refl.
  cbn [negb]. cbv zeta. by rewrite Hr, Ht.
Qed.

(** The data stage of SET_REPORT. *)
Lemma receive_report_spec `{Calm} indet ps K l s s1 :
  wLength (USB_ControlRequest s) = Z.of_nat (length (concat ps)) ->
  control_write_follows s ps K -> evolves l s s1 -> forallb is_read l = true ->
  Forall (fun p => 0 < length p <= 8)%nat ps -> ps <> [] ->
  (length (concat ps) <= length indet)%nat -> Z.of_nat (length (concat ps)) < 2 ^ 16 ->
  USB_DeviceState s <> DEVICE_STATE_Unattached -> USB_DeviceState s <> DEVICE_STATE_Suspended ->
  ((length ps + 1) * (K + 1) <= fuel)%nat ->
  wp (receive_report indet)
     (fun data s2 => data = concat ps /\ exists l2, evolves l2 s s2) s1.
Proof.
  intros HL Hw Hev Hrd Hsz Hne Hind Hshort Hatt Hact Hfuel. unfold receive_report.
  rewrite wp_bind, wp_get, (evolves_ControlRequest _ _ _ Hev), HL, wp_bind.
  eapply at_clear; [exact Hev|done|]. intros v s2 Hev2 Ha.
  rewrite wp_bind, Nat2Z.id. eapply wp_mono.
  2: { eapply (Template_R_spec ps _ K s2); try done.
       - rewrite (evolves_trace _ _ _ Hev2). by apply (Hw l v Hrd Ha).
       - rewrite length_take. lia.
       - by rewrite (evolves_DeviceState _ _ _ Hev2).
       - by rewrite (evolves_DeviceState _ _ _ Hev2). }
  intros r s3 (-> & l3 & Hev3 & _). rewrite wp_bind.
  eapply at_clear; [exact (evolves_trans _ _ _ _ _ Hev2 Hev3)|done|]. intros v4 s4 Hev4 _.
  rewrite wp_ret. split; [done|]. by eexists.
Qed.
