(* ===== verification/ClassDriver.v ===== *)
(** * What the class drivers share

    The firmware is linked with every device class driver of
    [LUFA/Drivers/USB/Class/Device/].  The CDC and printer drivers transfer bytes
    over a pair of bulk endpoints with the same code, the mass storage and
    printer drivers reset their endpoints with the same code; this file holds
    that code once, and what it does on endpoints that behave as documented. *)
From S2P Require Import Prelude Machine Rely Descriptors Endpoint ControlStream DeviceStandardReq EndpointStream.

(** [p->member = x] on an object with static storage. *)
Definition assign {A} (p : address A) (f : A -> A) : M unit := put (fun s => store p (f (load p s)) s).

(** An object that the endpoint code and interrupt handlers leave alone. *)
Definition stable_object {A} (p : address A) : Prop :=
  forall l s s', evolves l s s' -> load p s' = load p s.

(** [strlen]: the string ends at the first zero byte; [None] if there is none. *)
Fixpoint strlen (String : bytes) : option Z :=
  match String with
  | [] => None
  | c :: String => if c =? 0 then Some 0 else option_map (Z.add 1) (strlen String)
  end.

Section ClassDriver.
Context `{Env} `{USB_Application}.

(** [USB_DeviceState != DEVICE_STATE_Configured] *)
Definition not_configured : M bool :=
  d ← get_volatile USB_DeviceState; ret (negb (d =? DEVICE_STATE_Configured)).

(** The end of [CDC_Device_SendData] and [PRNT_Device_SendData]. *)
Definition bulk_send_data (IN : Z) (Buffer : bytes) (Length : Z) : M Endpoint_Stream_RW_ErrorCodes_t :=
  Endpoint_SelectEndpoint IN ;;
  '(ErrorCode, _) ← Endpoint_Write_Stream_LE Buffer Length None;
  ret ErrorCode.

Definition bulk_send_string (IN : Z) (String : bytes) : M Endpoint_Stream_RW_ErrorCodes_t :=
  match strlen String with
  | Some n => bulk_send_data IN String (u16 n)
  | None => undefined
  end.

Definition bulk_send_byte (IN Data : Z) : M Endpoint_Stream_RW_ErrorCodes_t :=
  Endpoint_SelectEndpoint IN ;;
  allowed ← Endpoint_IsReadWriteAllowed;
  ErrorCode ← (if negb allowed then
                 Endpoint_ClearIN ;;
                 c ← Endpoint_WaitUntilReady;
                 ret (ready_error c)
               else ret None);
  match ErrorCode with
  | Some e => ret e
  | None => Endpoint_Write_8 Data ;; ret ENDPOINT_RWSTREAM_NoError
  end.

(** A bank that was full is followed by an empty packet, so that the host sees
    the end of the transfer. *)
Definition bulk_flush (IN : Z) : M Endpoint_Stream_RW_ErrorCodes_t :=
  Endpoint_SelectEndpoint IN ;;
  n ← Endpoint_BytesInEndpoint;
  if n =? 0 then ret ENDPOINT_RWSTREAM_NoError
  else
    allowed ← Endpoint_IsReadWriteAllowed;
    let BankFull := negb allowed in
    Endpoint_ClearIN ;;
    if BankFull then
      c ← Endpoint_WaitUntilReady;
      match ready_error c with
      | Some e => ret e
      | None => Endpoint_ClearIN ;; ret ENDPOINT_RWSTREAM_NoError
      end
    else ret ENDPOINT_RWSTREAM_NoError.

Definition bulk_bytes_received (OUT : Z) : M Z :=
  Endpoint_SelectEndpoint OUT ;;
  received ← Endpoint_IsOUTReceived;
  if received then
    n ← Endpoint_BytesInEndpoint;
    if n =? 0 then Endpoint_ClearOUT ;; ret 0 else Endpoint_BytesInEndpoint
  else ret 0.

(** The byte, or -1. *)
Definition bulk_receive_byte (OUT : Z) : M Z :=
  Endpoint_SelectEndpoint OUT ;;
  received ← Endpoint_IsOUTReceived;
  if received then
    n ← Endpoint_BytesInEndpoint;
    ReceivedByte ← (if negb (n =? 0) then Endpoint_Read_8 else ret (-1));
    n ← Endpoint_BytesInEndpoint;
    when (n =? 0) Endpoint_ClearOUT ;;
    ret ReceivedByte
  else ret (-1).

(** [if (Endpoint_IsINReady()) Flush();] of the class tasks. *)
Definition autoflush {A} (IN : Z) (Flush : M A) : M unit :=
  Endpoint_SelectEndpoint IN ;;
  ready ← Endpoint_IsINReady;
  if (ready : bool) then Flush ;; ret tt else ret tt.

(** The endpoint resets of [MS_Device_USBTask] and [PRNT_Device_USBTask]. *)
Definition reset_bulk_endpoints (OUT IN : Z) : M unit :=
  Endpoint_ResetEndpoint OUT ;;
  Endpoint_ResetEndpoint IN ;;
  Endpoint_SelectEndpoint OUT ;;
  Endpoint_ClearStall ;;
  Endpoint_ResetDataToggle ;;
  Endpoint_SelectEndpoint IN ;;
  Endpoint_ClearStall ;;
  Endpoint_ResetDataToggle.

(** The tables are configured one after the other; the first failure ends it. *)
Fixpoint configure_tables (l : list USB_Endpoint_Table_t) : M bool :=
  match l with
  | [] => ret true
  | e :: l =>
      ok ← Endpoint_ConfigureEndpointTable [e];
      if negb ok then ret false else configure_tables l
  end.
End ClassDriver.

(** ** Sending bytes

    Documented behaviour of an IN endpoint with a bank of [size] bytes that is
    free after the accesses [l0]: a bank that has been sent is free again within
    [K] polls of the endpoint status; the byte count register counts the bytes in
    the bank; in a free bank more data is allowed until it is full. *)
Record in_endpoint `{Env} (l0 : list event) (size K : nat) : Prop := {
  ie_dir : forall l v, answer (l ++ l0) UECFG0X v -> has_bit v EPDIR = true;
  ie_stall : forall l v, answer (l ++ l0) UECONX v -> has_bit v STALLRQ = false;
  ie_free : forall l v, answer (l ++ l0) UEINTX v ->
    in_packets l = [] \/ in_bank l <> [] \/ (K <= polls l)%nat -> has_bit v TXINI = true;
  ie_allowed : forall l v, answer (l ++ l0) UEINTX v -> has_bit v TXINI = true ->
    has_bit v RWAL = (length (in_bank l) <? size)%nat;
  ie_count_low : forall l v, answer (l ++ l0) UEBCLX v ->
    v = Z.of_nat (length (in_bank l)) mod 256;
  ie_count_high : forall l v, answer (l ++ l0) UEBCHX v ->
    v = Z.of_nat (length (in_bank l)) / 256
}.

(** [packets size data ps]: the packets [ps] carry [data] and end with a packet
    that is not full, which tells the host where the data ends. *)
Record packets (size : nat) (data : bytes) (ps : list bytes) : Prop := {
  pk_data : concat ps = data;
  pk_end : data <> [] -> exists front last, ps = front ++ [last] /\
    Forall (fun p => length p = size) front /\ (length last < size)%nat;
  pk_none : data = [] -> ps = []
}.

(** While data is being sent: full packets, and the rest in the bank, which is
    empty only before the first byte. *)
Record sending (size : nat) (data : bytes) (l : list event) : Prop := {
  sd_data : concat (in_packets l) ++ in_bank l = data;
  sd_full : Forall (fun p => length p = size) (in_packets l);
  sd_bank : (length (in_bank l) <= size)%nat;
  sd_empty : in_bank l = [] -> in_packets l = []
}.

Section SendProofs.
Context `{Calm} `{USB_Application}.
Context (s0 : st) (size K : nat).
Hypothesis endpoint : in_endpoint (ep_trace (trace s0)) size K.
Hypothesis size_pos : (0 < size)%nat.
Hypothesis size_16 : Z.of_nat size < 2 ^ 16.
Hypothesis K_100 : (K <= 100)%nat.
Hypothesis enough : (K < fuel)%nat.
Hypothesis attached : USB_DeviceState s0 <> DEVICE_STATE_Unattached.
Hypothesis active : USB_DeviceState s0 <> DEVICE_STATE_Suspended.

(** Waiting with [t] more frames to go, the bank last sent [n] polls before it is
    free at the latest. *)
Definition bank_waiting (ps : list bytes) (x : Z * Z) (n : nat) (s : st) : Prop :=
  exists l, evolves l s0 s /\ in_bank l = [] /\ in_packets l = ps /\ (polls l <= K)%nat /\
    n = (K - polls l)%nat /\ 100 - Z.of_nat (polls l) <= fst x <= 100.

(** Waiting for the bank to be free leaves the packets as they are. *)
Lemma WaitUntilReady_sent l s :
  evolves l s0 s -> in_bank l = [] -> polls l = 0%nat ->
  wp Endpoint_WaitUntilReady (fun c s' => c = ENDPOINT_READYWAIT_NoError /\
    exists l', evolves l' s0 s' /\ in_bank l' = [] /\ in_packets l' = in_packets l) s.
Proof.
  intros Hev Hb Hpl. unfold Endpoint_WaitUntilReady, USB_Device_GetFrameNumber.
  rewrite wp_bind. apply wp_rd_other; [done|]. intros fr s1 Hev1.
  pose proof (evolves_nil_l _ _ _ _ Hev Hev1) as Hev2.
  apply (wp_loop (bank_waiting (in_packets l))) with (n := K); [|lia|].
  2: { exists l. rewrite Hpl, Nat.sub_0_r. unfold USB_STREAM_TIMEOUT_MS. repeat split; try done; apply Hev2 || lia. }
  clear Hev Hb Hpl Hev1 Hev2. intros [t prev] n s2 (l' & Hev & Hb & Hp & Hle & -> & Ht).
  unfold Endpoint_GetEndpointDirection. rewrite !wp_bind.
  eapply at_test; [exact Hev|done|]. intros v s3 Hev3 Ha.
  rewrite (ie_dir _ _ _ endpoint l' v Ha), wp_ret, wp_bind. cbn [Z.eqb ENDPOINT_DIR_IN Pos.eqb].
  eapply at_test; [exact Hev3|done|]. intros v2 s4 Hev4 Ha2.
  destruct (has_bit v2 TXINI) eqn:Hrdy.
  { rewrite wp_ret. split; [done|]. eexists. by split; [exact Hev4|]. }
  assert (polls l' < K)%nat.
  { destruct (decide (K <= polls l')%nat); [|lia].
    by rewrite (ie_free _ _ _ endpoint _ v2 Ha2) in Hrdy by (cbn [polls]; auto). }
  rewrite wp_bind. eapply at_volatile; [exact Hev4|]. intros s5 Hev5.
  rewrite (evolves_DeviceState _ _ _ Hev5), (proj2 (Z.eqb_neq _ _) attached),
    (proj2 (Z.eqb_neq _ _) active), wp_bind.
  eapply at_test; [exact Hev5|done|]. intros v3 s6 Hev6 Ha3.
  rewrite (ie_stall _ _ _ endpoint _ v3 Ha3), wp_bind.
  apply wp_rd_other; [done|]. intros frame s7 Hev7. rewrite wp_ret.
  pose proof (evolves_nil_l _ _ _ _ Hev6 Hev7) as Hev8.
  assert (Hin : forall x, 100 - Z.of_nat (S (polls l')) <= fst x <= 100 ->
    exists n', (n' < K - polls l')%nat /\ bank_waiting (in_packets l) x n' s7).
  { intros x Hx. exists (K - S (polls l'))%nat. split; [lia|]. eexists. split; [exact Hev8|].
    cbn [in_bank in_packets polls]. repeat split; done || lia. }
  cbn [fst] in Ht. destruct (frame =? prev); [apply Hin; cbn [fst]; lia|].
  destruct (Z.eqb_spec t 0); [lia|]. rewrite wrap_id by (unfold fits; lia). apply Hin. cbn [fst]. lia.
Qed.

Lemma BytesInEndpoint_spec l s :
  evolves l s0 s ->
  wp Endpoint_BytesInEndpoint (fun n s' => n = Z.of_nat (length (in_bank l)) /\
    exists l', evolves l' s0 s' /\ in_bank l' = in_bank l /\ in_packets l' = in_packets l) s.
Proof.
  intros Hev. unfold Endpoint_BytesInEndpoint. rewrite wp_bind.
  eapply at_rd; [exact Hev|done|]. intros h s1 Hev1 Hh. rewrite wp_bind.
  eapply at_rd; [exact Hev1|done|]. intros v s2 Hev2 Hv. rewrite wp_ret.
  apply (ie_count_high _ _ _ endpoint l) in Hh. apply (ie_count_low _ _ _ endpoint (_ :: l)) in Hv.
  cbn [in_bank] in Hv. split; [|by eexists; split; [exact Hev2|]].
  rewrite Hh, Hv, lor_bytes by (try apply Z.mod_pos_bound; try apply Z.div_pos; lia).
  symmetry. apply Z.div_mod. lia.
Qed.

(** The endpoint can be written to, or its bank is full. *)
Lemma IsReadWriteAllowed_sending data l s Q :
  evolves l s0 s -> sending size data l ->
  (forall v s', evolves (Rd UEINTX v :: l) s0 s' -> Q (length (in_bank l) <? size)%nat s') ->
  wp Endpoint_IsReadWriteAllowed Q s.
Proof.
  intros Hev [Hd _ _ He] HQ. eapply at_test; [exact Hev|done|]. intros v s1 Hev1 Ha.
  rewrite (ie_allowed _ _ _ endpoint l v Ha); [by eapply HQ|].
  apply (ie_free _ _ _ endpoint l v Ha). destruct (decide (in_bank l = [])); auto.
Qed.

Lemma bulk_send_byte_spec IN b data l s :
  evolves l s0 s -> sending size data l -> is_u8 b ->
  wp (bulk_send_byte IN b) (fun r s' => r = ENDPOINT_RWSTREAM_NoError /\
    exists l', evolves l' s0 s' /\ sending size (data ++ [b]) l') s.
Proof.
  intros Hev Hs Hb. unfold bulk_send_byte, Endpoint_SelectEndpoint. rewrite wp_bind.
  eapply at_wr; [exact Hev|done|]. intros s1 Hev1. rewrite wp_bind.
  eapply (IsReadWriteAllowed_sending data); [exact Hev1|by destruct Hs|]. intros v s2 Hev2.
  cbn [in_bank]. destruct Hs as [Hd Hf Hbk He]. rewrite wp_bind.
  destruct (Nat.ltb_spec (length (in_bank l)) size); cbn [negb].
  - rewrite wp_ret, wp_bind. eapply at_wr; [exact Hev2|done|]. intros s3 Hev3. rewrite wp_ret.
    split; [done|]. eexists. split; [exact Hev3|]. rewrite wrap_id by done.
    constructor; cbn [in_bank in_packets]; rewrite ?length_app; cbn [length]; try done; try lia.
    + by rewrite app_assoc, Hd.
    + by intros [_ [=]]%app_nil.
  - rewrite wp_bind. eapply at_clear; [exact Hev2|done|]. intros v' s3 Hev3 _. rewrite wp_bind.
    eapply wp_mono; [|apply (WaitUntilReady_sent _ s3 Hev3); [|done]];
      [|cbn [in_bank]; by rewrite ClearIN_TXINI].
    intros c s4 (-> & l4 & Hev4 & Hb4 & Hp4). cbn [ready_error]. rewrite wp_ret, wp_bind.
    eapply at_wr; [exact Hev4|done|]. intros s5 Hev5. rewrite wp_ret. split; [done|].
    eexists. split; [exact Hev5|]. rewrite wrap_id by done. cbn [in_packets] in Hp4.
    rewrite ClearIN_TXINI in Hp4. cbn [in_bank] in Hp4.
    constructor; cbn [in_bank in_packets]; rewrite ?Hb4, ?Hp4; try done.
    + rewrite concat_app. cbn [concat]. rewrite app_nil_r, Hd. done.
    + apply Forall_app. split; [done|]. constructor; [lia|done].
Qed.

Lemma bulk_flush_spec IN data l s :
  evolves l s0 s -> sending size data l ->
  wp (bulk_flush IN) (fun r s' => r = ENDPOINT_RWSTREAM_NoError /\
    exists l', evolves l' s0 s' /\ in_bank l' = [] /\ packets size data (in_packets l')) s.
Proof.
  intros Hev Hs. unfold bulk_flush, Endpoint_SelectEndpoint. rewrite wp_bind.
  eapply at_wr; [exact Hev|done|]. intros s1 Hev1. rewrite wp_bind.
  eapply wp_mono; [|apply (BytesInEndpoint_spec _ s1 Hev1)]. cbn [in_bank in_packets].
  intros n s2 (-> & l2 & Hev2 & Hb2 & Hp2). destruct Hs as [Hd Hf Hbk He].
  destruct (Z.eqb_spec (Z.of_nat (length (in_bank l))) 0) as [E|E].
  { rewrite wp_ret. split; [done|]. exists l2. rewrite Hb2, Hp2. split; [done|].
    assert (Hb0 : in_bank l = []) by (apply nil_length_inv; lia). specialize (He Hb0).
    split; [done|]. rewrite He, Hb0 in Hd. cbn in Hd. subst data. rewrite He. by constructor. }
  rewrite wp_bind. eapply (IsReadWriteAllowed_sending data); [exact Hev2| |].
  { constructor; rewrite ?Hb2, ?Hp2; done. }
  intros v s3 Hev3. rewrite Hb2, wp_bind.
  eapply at_clear; [exact Hev3|done|]. intros v' s4 Hev4 _.
  assert (data <> []) by (intros ->; apply app_nil in Hd as [_ Hd]; by rewrite Hd in E).
  assert (Hcat : concat (in_packets l ++ [in_bank l]) = data)
    by (rewrite concat_app; cbn [concat]; by rewrite app_nil_r).
  destruct (Nat.ltb_spec (length (in_bank l)) size) as [Hlt|Hge]; cbn [negb].
  - rewrite wp_ret. split; [done|]. eexists. split; [exact Hev4|]. cbn [in_bank in_packets].
    rewrite ClearIN_TXINI, Hb2, Hp2. split; [done|]. constructor; [done| |done].
    intros _. by eexists _, _.
  - rewrite wp_bind. eapply wp_mono; [|apply (WaitUntilReady_sent _ s4 Hev4); [|done]];
      [|cbn [in_bank]; by rewrite ClearIN_TXINI].
    intros c s5 (-> & l5 & Hev5 & Hb5 & Hp5). cbn [ready_error]. rewrite wp_bind.
    eapply at_clear; [exact Hev5|done|]. intros v5 s6 Hev6 _. rewrite wp_ret. split; [done|].
    eexists. split; [exact Hev6|]. cbn [in_packets in_bank] in *. rewrite ClearIN_TXINI in *.
    rewrite Hp5, Hb5, Hb2, Hp2. split; [done|].
    constructor; [rewrite concat_app; cbn [concat]; by rewrite !app_nil_r| |done].
    intros _. exists (in_packets l ++ [in_bank l]), []. split; [done|]. split; [|done].
    apply Forall_app. split; [done|]. constructor; [lia|done].
Qed.
End SendProofs.

(** [send] is called for every byte of [data] until it fails. *)
Fixpoint send_each (send : Z -> M Endpoint_Stream_RW_ErrorCodes_t) (data : bytes)
    : M Endpoint_Stream_RW_ErrorCodes_t :=
  match data with
  | [] => ret ENDPOINT_RWSTREAM_NoError
  | b :: data =>
      ErrorCode ← send b;
      match ErrorCode with
      | ENDPOINT_RWSTREAM_NoError => send_each send data
      | e => ret e
      end
  end.

Lemma send_each_spec send s0 size data :
  (forall b done_ l s, evolves l s0 s -> sending size done_ l -> is_u8 b ->
     wp (send b) (fun r s' => r = ENDPOINT_RWSTREAM_NoError /\
       exists l', evolves l' s0 s' /\ sending size (done_ ++ [b]) l') s) ->
  all_bytes data -> forall done_ l s, evolves l s0 s -> sending size done_ l ->
  wp (send_each send data) (fun r s' => r = ENDPOINT_RWSTREAM_NoError /\
    exists l', evolves l' s0 s' /\ sending size (done_ ++ data) l') s.
Proof.
  intros Hsend Hall. induction Hall as [|b data Hb Hall IH]; intros done_ l s Hev Hs; cbn [send_each].
  - rewrite wp_ret. split; [done|]. exists l. by rewrite app_nil_r.
  - rewrite wp_bind. eapply wp_mono; [|by apply (Hsend b done_ l s)].
    intros r s1 (-> & l1 & Hev1 & Hs1). eapply wp_mono; [|by apply (IH (done_ ++ [b]) l1 s1)].
    intros r s2 (-> & l2 & Hev2 & Hs2). split; [done|]. exists l2. by rewrite <- app_assoc in Hs2.
Qed.

(** ** Receiving bytes

    Documented behaviour of an OUT endpoint to which a host sends the packets
    [ps] after the accesses [l0]: the next packet arrives within [K] polls, and
    none after the last; a packet that has been seen stays until it is
    acknowledged; the byte count register holds the number of its unread bytes,
    and the data register returns them in order. *)
Record out_endpoint `{Env} (l0 : list event) (ps : list bytes) (K : nat) : Prop := {
  oe_arrives : forall l v, answer (l ++ l0) UEINTX v ->
    ((out_view l).1 < length ps)%nat -> out_seen l = true \/ (K <= polls l)%nat ->
    has_bit v RXOUTI = true;
  oe_none : forall l v, answer (l ++ l0) UEINTX v ->
    (length ps <= (out_view l).1)%nat -> has_bit v RXOUTI = false;
  oe_count_low : forall l v p, answer (l ++ l0) UEBCLX v -> out_seen l = true ->
    ps !! (out_view l).1 = Some p -> v = Z.of_nat (length p - (out_view l).2) mod 256;
  oe_count_high : forall l v p, answer (l ++ l0) UEBCHX v -> out_seen l = true ->
    ps !! (out_view l).1 = Some p -> v = Z.of_nat (length p - (out_view l).2) / 256;
  oe_data : forall l v p b, answer (l ++ l0) UEDATX v -> out_seen l = true ->
    ps !! (out_view l).1 = Some p -> p !! (out_view l).2 = Some b -> v = b
}.

(** After [n] bytes have been received in [m] calls: where in the packets the
    endpoint is, and how many calls can have been in vain. *)
Definition receiving (ps : list bytes) (K n m : nat) (l : list event) : Prop :=
  exists k j, out_view l = (k, j) /\ n = position ps k j /\ (n <= m)%nat /\
    ((exists p, ps !! k = Some p /\ (j < length p)%nat /\
        ((out_seen l = true /\ m - n <= k * K + K)%nat \/
         (out_seen l = false /\ j = 0 /\ polls l <= K /\ m - n <= k * K + polls l)%nat))
     \/ (k = length ps /\ j = 0%nat)).

Section ReceiveProofs.
Context `{Calm} (s0 : st) (ps : list bytes) (K : nat).
Hypothesis endpoint : out_endpoint (ep_trace (trace s0)) ps K.
Hypothesis nonempty : Forall (fun p => p <> []) ps.

Lemma BytesInEndpoint_unread l s k j p Q :
  evolves l s0 s -> out_view l = (k, j) -> out_seen l = true -> ps !! k = Some p ->
  (forall l' s', evolves l' s0 s' -> out_view l' = (k, j) -> out_seen l' = true ->
     Q (Z.of_nat (length p - j)) s') ->
  wp Endpoint_BytesInEndpoint Q s.
Proof.
  intros Hev Hv Hs Hp HQ. unfold Endpoint_BytesInEndpoint. rewrite wp_bind.
  eapply at_rd; [exact Hev|done|]. intros h s1 Hev1 Hh. rewrite wp_bind.
  eapply at_rd; [exact Hev1|done|]. intros v s2 Hev2 Hl. rewrite wp_ret.
  apply (oe_count_high _ _ _ endpoint l _ p) in Hh; rewrite ?Hv; try done.
  apply (oe_count_low _ _ _ endpoint (_ :: l) _ p) in Hl; cbn [out_seen out_view];
    rewrite ?Hv; try done.
  cbn [out_view] in Hl. rewrite Hv in Hh, Hl. cbn [snd] in Hh, Hl.
  rewrite Hh, Hl, lor_bytes by (try apply Z.mod_pos_bound; try apply Z.div_pos; lia).
  rewrite <- Z.div_mod by lia. by eapply HQ.
Qed.

Lemma bulk_receive_byte_spec OUT n m l s :
  evolves l s0 s -> receiving ps K n m l ->
  wp (bulk_receive_byte OUT) (fun r s' => exists l', evolves l' s0 s' /\
    (r = -1 /\ receiving ps K n (S m) l' \/
     concat ps !! n = Some r /\ receiving ps K (S n) (S m) l')) s.
Proof.
  intros Hev (k & j & Hv & -> & Hnm & Hwhere). unfold bulk_receive_byte, Endpoint_SelectEndpoint.
  rewrite wp_bind. eapply at_wr; [exact Hev|done|]. intros s1 Hev1. rewrite wp_bind.
  eapply at_test; [exact Hev1|done|]. intros v s2 Hev2 Ha.
  destruct Hwhere as [(p & Hp & Hj & Hcalls)|[-> ->]].
  2: { rewrite (oe_none _ _ _ endpoint _ v Ha) by (cbn [out_view]; rewrite Hv; done).
       rewrite wp_ret. eexists. split; [exact Hev2|]. left. split; [done|].
       exists (length ps), 0%nat. cbn [out_view]. repeat split; auto. }
  destruct (has_bit v RXOUTI) eqn:Hout.
  2: { rewrite wp_ret. eexists. split; [exact Hev2|]. left. split; [done|].
       exists k, j. cbn [out_view]. split; [done|]. split; [done|]. split; [lia|]. left.
       exists p. split; [done|]. split; [done|].
       pose proof (lookup_lt_Some _ _ _ Hp).
       assert (Hno : ~ (out_seen l = true \/ (K <= polls l)%nat)).
       { intros Hor. rewrite (oe_arrives _ _ _ endpoint _ v Ha) in Hout; [done| |exact Hor].
         cbn [out_view]. by rewrite Hv. }
       destruct Hcalls as [[Hs _]|(Hs & Hj0 & Hpk & Hm)]; [by destruct Hno; left|].
       right. cbn [out_seen polls]. rewrite Hout. repeat split; try done; lia. }
  set (l2 := Rd UEINTX v :: Wr UENUM (u8 (Z.land OUT ENDPOINT_EPNUM_MASK)) :: l) in *.
  assert (Hv2 : out_view l2 = (k, j)) by done.
  assert (Hs2 : out_seen l2 = true) by (unfold l2; cbn [out_seen]; by rewrite Hout).
  assert (Hm : (m - position ps k j <= k * K + K)%nat) by (destruct Hcalls as [[_ ?]|(_ & _ & ? & ?)]; lia).
  destruct (lookup_lt_is_Some_2 p j Hj) as [b Hb].
  rewrite wp_bind. eapply BytesInEndpoint_unread; [exact Hev2|exact Hv2|done|exact Hp|].
  intros l3 s3 Hev3 Hv3 Hs3. destruct (Z.eqb_spec (Z.of_nat (length p - j)) 0); [lia|]. cbn [negb].
  rewrite wp_bind. eapply at_rd; [exact Hev3|done|]. intros x s4 Hev4 Hx.
  apply (oe_data _ _ _ endpoint l3 _ p b) in Hx; rewrite ?Hv3; try done. subst x.
  rewrite wp_bind. eapply BytesInEndpoint_unread; [exact Hev4| |exact Hs3|exact Hp|].
  { cbn [out_view]. by rewrite Hv3. }
  intros l5 s5 Hev5 Hv5 Hs5.
  assert (Hpos : concat ps !! position ps k j = Some b) by (by eapply position_lookup).
  assert (HS : position ps k (S j) = S (position ps k j)) by (unfold position; lia).
  rewrite wp_bind. destruct (Z.eqb_spec (Z.of_nat (length p - S j)) 0); cbn [when].
  - eapply at_clear; [exact Hev5|done|]. intros w s6 Hev6 _. rewrite wp_ret.
    eexists. split; [exact Hev6|]. right. split; [done|]. exists (S k), 0%nat.
    cbn [out_view out_seen polls]. rewrite ClearOUT_RXOUTI, Hv5. cbn [fst].
    rewrite (position_next ps k p Hp). replace (length p) with (S j) by lia. rewrite HS.
    split; [done|]. split; [done|]. split; [lia|].
    destruct (ps !! S k) as [q|] eqn:Hq.
    + left. exists q. split; [done|]. pose proof (Forall_lookup_1 _ _ _ _ nonempty Hq).
      split; [destruct q; [done|cbn; lia]|]. right. repeat split; lia.
    + right. apply lookup_ge_None in Hq. pose proof (lookup_lt_Some _ _ _ Hp). split; [lia|done].
  - rewrite wp_ret. cbn beta. rewrite wp_ret. eexists. split; [exact Hev5|]. right. split; [done|].
    exists k, (S j). rewrite HS. split; [done|]. split; [done|]. split; [lia|]. left.
    exists p. split; [done|]. split; [lia|]. left. split; [done|]. lia.
Qed.

End ReceiveProofs.

Lemma receiving_start ps K : Forall (fun p => p <> []) ps -> receiving ps K 0 0 [].
Proof.
  intros nonempty.
  exists 0%nat, 0%nat. split; [done|]. split; [done|]. split; [lia|].
  destruct ps as [|p qs]; [by right|]. left. exists p. split; [done|].
  pose proof (Forall_inv nonempty). split; [destruct p; [done|cbn; lia]|]. right.
  cbn. repeat split; lia.
Qed.

(** Enough calls receive everything. *)
Lemma receiving_all ps K n m l :
  receiving ps K n m l -> (length (concat ps) + length ps * K <= m)%nat -> n = length (concat ps).
Proof.
  intros (k & j & _ & -> & _ & [(p & Hp & Hj & Hcalls)|[-> ->]]) Hm.
  - pose proof (lookup_lt_Some _ _ _ Hp).
    assert (position ps k j < length (concat ps))%nat.
    { destruct (lookup_lt_is_Some_2 p j Hj) as [b Hb].
      apply (lookup_lt_Some _ _ b). by eapply position_lookup. }
    assert ((k + 1) * K <= length ps * K)%nat by (apply Nat.mul_le_mono_r; lia).
    destruct Hcalls as [[_ ?]|(_ & _ & ? & ?)]; lia.
  - by rewrite position_end.
Qed.

(** [m] calls of [receive], and the bytes among their results. *)
Fixpoint receive_calls (receive : M Z) (m : nat) : M (list Z) :=
  match m with
  | O => ret []
  | S m => r ← receive; rs ← receive_calls receive m; ret (r :: rs)
  end.
Definition bytes_among (rs : list Z) : bytes := filter (fun r => 0 <= r) rs.

Lemma receive_calls_spec receive s0 ps K :
  all_bytes (concat ps) ->
  (forall n m l s, evolves l s0 s -> receiving ps K n m l ->
    wp receive (fun r s' => exists l', evolves l' s0 s' /\
      (r = -1 /\ receiving ps K n (S m) l' \/
       concat ps !! n = Some r /\ receiving ps K (S n) (S m) l')) s) ->
  forall c n m l s, evolves l s0 s -> receiving ps K n m l ->
  wp (receive_calls receive c) (fun rs s' => exists l' n', evolves l' s0 s' /\
    receiving ps K n' (m + c) l' /\ take n (concat ps) ++ bytes_among rs = take n' (concat ps)) s.
Proof.
  intros Hall Hrec. induction c as [|c IH]; intros n m l s Hev Hr; cbn [receive_calls].
  - rewrite wp_ret. exists l, n. rewrite Nat.add_0_r. cbn. by rewrite app_nil_r.
  - rewrite wp_bind. eapply wp_mono; [|by apply (Hrec n m l s)]. intros r s1 (l1 & Hev1 & Hcase).
    rewrite wp_bind, <- Nat.add_succ_comm.
    destruct Hcase as [[-> Hr1]|[Hb Hr1]];
      (eapply wp_mono; [|by eapply (IH _ _ l1 s1)]); intros rs s2 (l2 & n2 & Hev2 & Hr2 & Heq);
      rewrite wp_ret; exists l2, n2; (split; [done|]); (split; [done|]); unfold bytes_among in *.
    + by rewrite filter_cons_False by lia.
    + pose proof (Forall_lookup_1 _ _ _ _ Hall Hb) as [? ?]. rewrite filter_cons_True by done.
      rewrite <- Heq, (take_S_r _ _ _ Hb), <- app_assoc. done.
Qed.
