(* ===== verification/CDCClass.v ===== *)
(** * The CDC class driver

    [LUFA/Drivers/USB/Class/Device/CDCClassDevice.c]: a virtual serial port.  The
    interface structure is passed by address, as in [HIDClass]; the events of the
    driver are the class [CDC_Application]. *)
From S2P Require Import Prelude Machine Rely Descriptors Endpoint ControlStream DeviceStandardReq EndpointStream HIDClass ClassDriver.

Definition CDC_REQ_SetLineEncoding := 0x20.
Definition CDC_REQ_GetLineEncoding := 0x21.
Definition CDC_REQ_SetControlLineState := 0x22.
Definition CDC_REQ_SendBreak := 0x23.
Definition CDC_NOTIF_SerialState := 0x20.

(** [stdio] codes *)
Definition FDEV_ERR := -1.
Definition FDEV_EOF := -2.

Abbreviation CDCInterface := (address USB_ClassInfo_CDC_Device_t).

(** ** Field assignments *)

Definition set_CDC_State (f : CDC_State_t -> CDC_State_t) (i : USB_ClassInfo_CDC_Device_t) :=
  {| CDC_Config := CDC_Config i; CDC_State := f (CDC_State i) |}.
Definition set_HostToDevice (x : Z) (t : CDC_State_t) :=
  {| HostToDevice := x; DeviceToHost := DeviceToHost t; LineEncoding := LineEncoding t |}.
Definition set_LineEncoding (f : CDC_LineEncoding_t -> CDC_LineEncoding_t) (t : CDC_State_t) :=
  {| HostToDevice := HostToDevice t; DeviceToHost := DeviceToHost t;
     LineEncoding := f (LineEncoding t) |}.
Definition set_BaudRateBPS (x : Z) (e : CDC_LineEncoding_t) :=
  {| BaudRateBPS := x; CharFormat := CharFormat e; ParityType := ParityType e; DataBits := DataBits e |}.
Definition set_CharFormat (x : Z) (e : CDC_LineEncoding_t) :=
  {| BaudRateBPS := BaudRateBPS e; CharFormat := x; ParityType := ParityType e; DataBits := DataBits e |}.
Definition set_ParityType (x : Z) (e : CDC_LineEncoding_t) :=
  {| BaudRateBPS := BaudRateBPS e; CharFormat := CharFormat e; ParityType := x; DataBits := DataBits e |}.
Definition set_DataBits (x : Z) (e : CDC_LineEncoding_t) :=
  {| BaudRateBPS := BaudRateBPS e; CharFormat := CharFormat e; ParityType := ParityType e; DataBits := x |}.

(** The events of the driver, weak symbols an application may define. *)
Class CDC_Application := {
  EVENT_CDC_Device_LineEncodingChanged : CDCInterface -> M unit;
  EVENT_CDC_Device_ControLineStateChanged : CDCInterface -> M unit;
  EVENT_CDC_Device_BreakSent : CDCInterface -> Z -> M unit
}.

(** [CDC_Device_Event_Stub], the alias of those that are not defined. *)
Definition CDC_Device_Event_Stub : M unit := ret tt.
Definition CDC_no_events : CDC_Application :=
  {| EVENT_CDC_Device_LineEncodingChanged _ := CDC_Device_Event_Stub;
     EVENT_CDC_Device_ControLineStateChanged _ := CDC_Device_Event_Stub;
     EVENT_CDC_Device_BreakSent _ _ := CDC_Device_Event_Stub |}.

Section CDCClass.
Context `{Env} `{USB_Application} `{CDC_Application}.
Context (CDCInterfaceInfo : CDCInterface).

Let config : st -> CDC_Config_t := fun s => CDC_Config (load CDCInterfaceInfo s).
Let state : st -> CDC_State_t := fun s => CDC_State (load CDCInterfaceInfo s).
Let line : st -> CDC_LineEncoding_t := fun s => LineEncoding (state s).

Definition get_line_encoding : M unit :=
  Endpoint_ClearSETUP ;;
  spin_until Endpoint_IsINReady ;;
  x ← get (fun s => BaudRateBPS (line s)); Endpoint_Write_32_LE x ;;
  x ← get (fun s => CharFormat (line s)); Endpoint_Write_8 x ;;
  x ← get (fun s => ParityType (line s)); Endpoint_Write_8 x ;;
  x ← get (fun s => DataBits (line s)); Endpoint_Write_8 x ;;
  Endpoint_ClearIN ;;
  Endpoint_ClearStatusStage.

(** [State.LineEncoding.field = Endpoint_Read...();] *)
Definition read_field (read : M Z) (set : Z -> CDC_LineEncoding_t -> CDC_LineEncoding_t) : M unit :=
  x ← read; assign CDCInterfaceInfo (set_CDC_State (set_LineEncoding (set x))).

Definition set_line_encoding : M unit :=
  Endpoint_ClearSETUP ;;
  ok ← wait_attached Endpoint_IsOUTReceived;
  if negb ok then ret tt
  else
    read_field Endpoint_Read_32_LE set_BaudRateBPS ;;
    read_field Endpoint_Read_8 set_CharFormat ;;
    read_field Endpoint_Read_8 set_ParityType ;;
    read_field Endpoint_Read_8 set_DataBits ;;
    Endpoint_ClearOUT ;;
    Endpoint_ClearStatusStage ;;
    EVENT_CDC_Device_LineEncodingChanged CDCInterfaceInfo.

Definition set_control_line_state : M unit :=
  Endpoint_ClearSETUP ;;
  Endpoint_ClearStatusStage ;;
  req ← get USB_ControlRequest;
  assign CDCInterfaceInfo (set_CDC_State (set_HostToDevice (wValue req))) ;;
  EVENT_CDC_Device_ControLineStateChanged CDCInterfaceInfo.

Definition send_break : M unit :=
  Endpoint_ClearSETUP ;;
  Endpoint_ClearStatusStage ;;
  req ← get USB_ControlRequest;
  EVENT_CDC_Device_BreakSent CDCInterfaceInfo (u8 (wValue req)).

Definition CDC_Device_ProcessControlRequest : M unit :=
  setup ← Endpoint_IsSETUPReceived;
  if negb setup then ret tt
  else
    req ← get USB_ControlRequest;
    c ← get config;
    if negb (wIndex req =? CDC_ControlInterfaceNumber c) then ret tt
    else
      let matches dir :=
        bmRequestType req =? request_type dir REQTYPE_CLASS REQREC_INTERFACE in
      if bRequest req =? CDC_REQ_GetLineEncoding then
        when (matches REQDIR_DEVICETOHOST) get_line_encoding
      else if bRequest req =? CDC_REQ_SetLineEncoding then
        when (matches REQDIR_HOSTTODEVICE) set_line_encoding
      else if bRequest req =? CDC_REQ_SetControlLineState then
        when (matches REQDIR_HOSTTODEVICE) set_control_line_state
      else if bRequest req =? CDC_REQ_SendBreak then when (matches REQDIR_HOSTTODEVICE) send_break
      else ret tt.

Definition configured_CDC (i : USB_ClassInfo_CDC_Device_t) : USB_ClassInfo_CDC_Device_t :=
  let c := CDC_Config i in
  {| CDC_Config :=
       {| CDC_ControlInterfaceNumber := CDC_ControlInterfaceNumber c;
          CDC_DataINEndpoint := set_ep_Type EP_TYPE_BULK (CDC_DataINEndpoint c);
          CDC_DataOUTEndpoint := set_ep_Type EP_TYPE_BULK (CDC_DataOUTEndpoint c);
          CDC_NotificationEndpoint := set_ep_Type EP_TYPE_INTERRUPT (CDC_NotificationEndpoint c) |};
     CDC_State := zero_CDC_State |}.

Definition CDC_Device_ConfigureEndpoints : M bool :=
  assign CDCInterfaceInfo configured_CDC ;;
  c ← get config;
  configure_tables [CDC_DataINEndpoint c; CDC_DataOUTEndpoint c; CDC_NotificationEndpoint c].

(** [(USB_DeviceState != DEVICE_STATE_Configured) || !(...BaudRateBPS)] *)
Definition CDC_offline : M bool :=
  off ← not_configured;
  if (off : bool) then ret true else b ← get (fun s => BaudRateBPS (line s)); ret (b =? 0).

(** [if (offline) return x;] *)
Definition unless_offline {A} (x : A) (m : CDC_Config_t -> M A) : M A :=
  off ← CDC_offline;
  if (off : bool) then ret x else c ← get config; m c.

Definition CDC_Device_SendString (String : bytes) : M Endpoint_Stream_RW_ErrorCodes_t :=
  unless_offline ENDPOINT_RWSTREAM_DeviceDisconnected
    (fun c => bulk_send_string (ep_Address (CDC_DataINEndpoint c)) String).

Definition CDC_Device_SendData (Buffer : bytes) (Length : Z) : M Endpoint_Stream_RW_ErrorCodes_t :=
  unless_offline ENDPOINT_RWSTREAM_DeviceDisconnected
    (fun c => bulk_send_data (ep_Address (CDC_DataINEndpoint c)) Buffer Length).

Definition CDC_Device_SendByte (Data : Z) : M Endpoint_Stream_RW_ErrorCodes_t :=
  unless_offline ENDPOINT_RWSTREAM_DeviceDisconnected
    (fun c => bulk_send_byte (ep_Address (CDC_DataINEndpoint c)) Data).

Definition CDC_Device_Flush : M Endpoint_Stream_RW_ErrorCodes_t :=
  unless_offline ENDPOINT_RWSTREAM_DeviceDisconnected
    (fun c => bulk_flush (ep_Address (CDC_DataINEndpoint c))).

Definition CDC_Device_BytesReceived : M Z :=
  unless_offline 0 (fun c => bulk_bytes_received (ep_Address (CDC_DataOUTEndpoint c))).

Definition CDC_Device_ReceiveByte : M Z :=
  unless_offline (-1) (fun c => bulk_receive_byte (ep_Address (CDC_DataOUTEndpoint c))).

Definition CDC_Device_USBTask : M unit :=
  unless_offline tt (fun c => autoflush (ep_Address (CDC_DataINEndpoint c)) CDC_Device_Flush).

(** The bytes of [Notification]. *)
Definition serial_state_notification : bytes :=
  [request_type REQDIR_DEVICETOHOST REQTYPE_CLASS REQREC_INTERFACE; CDC_NOTIF_SerialState]
  ++ le_bytes 2 0 ++ le_bytes 2 0 ++ le_bytes 2 2.

Definition CDC_Device_SendControlLineStateChange : M unit :=
  unless_offline tt (fun c =>
    Endpoint_SelectEndpoint (ep_Address (CDC_NotificationEndpoint c)) ;;
    Endpoint_Write_Stream_LE serial_state_notification 8 None ;;
    x ← get (fun s => DeviceToHost (state s));
    Endpoint_Write_Stream_LE (le_bytes 2 x) 2 None ;;
    Endpoint_ClearIN).

(** ** The [stdio] stream of the interface *)

Definition CDC_Device_putchar (c : Z) : M Z :=
  ErrorCode ← CDC_Device_SendByte (u8 c);
  ret (match ErrorCode with ENDPOINT_RWSTREAM_NoError => 0 | _ => FDEV_ERR end).

Definition CDC_Device_getchar : M Z :=
  ReceivedByte ← CDC_Device_ReceiveByte;
  ret (if ReceivedByte <? 0 then FDEV_EOF else ReceivedByte).

Definition CDC_Device_getchar_Blocking : M Z :=
  loop fuel (fun _ : unit =>
    ReceivedByte ← CDC_Device_ReceiveByte;
    if ReceivedByte <? 0 then
      d ← get_volatile USB_DeviceState;
      if d =? DEVICE_STATE_Unattached then ret (inr FDEV_EOF)
      else CDC_Device_USBTask ;; USB_USBTask ;; ret (inl tt)
    else ret (inr ReceivedByte)) tt.
End CDCClass.

(** The CDC interface of an application that has one. *)
Definition CDC_Interface_addr : CDCInterface :=
  {| load s := CDC_Interface (Class_Interfaces s);
     store x s :=
       let c := Class_Interfaces s in
       set_Class_Interfaces
         {| CDC_Interface := x; MIDI_Interface := MIDI_Interface c; MS_Interface := MS_Interface c;
            PRNT_Interface := PRNT_Interface c; Audio_Interface := Audio_Interface c;
            RNDIS_Interface := RNDIS_Interface c |} s |}.

Lemma CDC_stable : stable_object CDC_Interface_addr.
Proof. intros l s s' [Hc _]. apply (f_equal Class_Interfaces) in Hc. cbn in *. by rewrite Hc. Qed.

(** ** Data transfer *)

(** The host has configured the device and opened the port. *)
Definition CDC_online (i : CDCInterface) (s : st) : Prop :=
  USB_DeviceState s = DEVICE_STATE_Configured /\
  BaudRateBPS (LineEncoding (CDC_State (load i s))) <> 0.

Lemma unless_offline_spec `{Calm} {A} i s0 l s (x : A) m Q :
  stable_object i -> CDC_online i s0 -> evolves l s0 s ->
  (forall s', evolves l s0 s' -> wp (m (CDC_Config (load i s0))) Q s') ->
  wp (unless_offline i x m) Q s.
Proof.
  intros Hst [Hd Hb] Hev Hm. unfold unless_offline, CDC_offline, not_configured. rewrite !wp_bind.
  eapply at_volatile; [exact Hev|]. intros s1 Hev1.
  rewrite wp_ret, (evolves_DeviceState _ _ _ Hev1), Hd. cbn [negb Z.eqb DEVICE_STATE_Configured Pos.eqb].
  rewrite wp_bind, wp_get, wp_ret, (Hst _ _ _ Hev1), (proj2 (Z.eqb_neq _ _) Hb), wp_bind, wp_get.
  rewrite (Hst _ _ _ Hev1). by apply Hm.
Qed.

Section Transfer.
Context `{Calm} `{USB_Application}.
Context (i : CDCInterface) (K : nat) (s : st).
Hypothesis stable : stable_object i.
Hypothesis online : CDC_online i s.


End Transfer.

(** ** The line encoding *)

(** The bytes of a [CDC_LineEncoding_t], a packed structure. *)
Definition bytes_of_line (e : CDC_LineEncoding_t) : bytes :=
  le_bytes 4 (BaudRateBPS e) ++ [CharFormat e; ParityType e; DataBits e].

Record line_ok (e : CDC_LineEncoding_t) : Prop := {
  line_baud : is_u32 (BaudRateBPS e);
  line_format : is_u8 (CharFormat e);
  line_parity : is_u8 (ParityType e);
  line_bits : is_u8 (DataBits e)
}.

(** A host that sends the bytes [data] in an OUT packet and carries out the other
    stages of its requests, each within [K] polls of the endpoint. *)
Record line_host `{Env} (t0 : list event) (data : bytes) (K : nat) : Prop := {
  lh_data : forall l b, data !! data_reads l = Some b -> respond (l ++ t0) UEDATX = b;
  lh_out : flag_follows RXOUTI t0 K;
  lh_in : flag_follows TXINI t0 K
}.

Lemma polls_app l l' : (polls l <= polls (l ++ l'))%nat.
Proof. induction l as [|[[]|[]| | | | |] l IH]; cbn; lia. Qed.

Lemma flag_follows_later `{Env} n l t K : flag_follows n t K -> flag_follows n (l ++ t) K.
Proof. intros Hf l' Hl. rewrite app_assoc. apply Hf. pose proof (polls_app l' l). lia. Qed.

Lemma data_reads_polls l l' : forallb is_poll l = true -> data_reads (l ++ l') = data_reads l'.
Proof.
  induction l as [|e l IH]; [done|]. cbn. intros [He Hl]%andb_true_iff. rewrite (IH Hl).
  destruct e as [[]| | | | | |]; done.
Qed.

(** Writing the interface keeps the trace: the accesses so far count from the
    written state as well. *)
Lemma run_assign l s0 s f Q :
  runs l s0 s ->
  (forall s', runs l (store CDC_Interface_addr (f (load CDC_Interface_addr s0)) s0) s' -> Q tt s') ->
  wp (assign CDC_Interface_addr f) Q s.
Proof. intros -> HQ. unfold assign. rewrite wp_put. by apply HQ. Qed.

Definition with_line (e : CDC_LineEncoding_t) (s : st) : st :=
  store CDC_Interface_addr
    (set_CDC_State (set_LineEncoding (fun _ => e)) (load CDC_Interface_addr s)) s.

Section LineEncoding.
Context `{Masked} `{CDC_Application}.
Context (K : nat) (data : bytes).
Let i := CDC_Interface_addr.

Lemma read_byte_field set b l s0 s Q :
  runs l s0 s -> line_host (trace s0) data K -> data !! data_reads l = Some b ->
  (forall s', runs (Rd UEDATX b :: l)
     (store i (set_CDC_State (set_LineEncoding (set b)) (load i s0)) s0) s' -> Q tt s') ->
  wp (read_field i Endpoint_Read_8 set) Q s.
Proof.
  intros Hr Hh Hb HQ. unfold read_field. rewrite wp_bind. eapply run_rd; [exact Hr|].
  intros v s1 Hr1 Hv. rewrite (lh_data _ _ _ Hh l b Hb) in Hv. subst v. by eapply run_assign.
Qed.

Lemma read_word_field set b0 b1 b2 b3 l s0 s Q :
  runs l s0 s -> line_host (trace s0) data K -> take 4 (drop (data_reads l) data) = [b0; b1; b2; b3] ->
  (forall s', runs (Rd UEDATX b3 :: Rd UEDATX b2 :: Rd UEDATX b1 :: Rd UEDATX b0 :: l)
     (store i (set_CDC_State (set_LineEncoding (set (le_val [b0; b1; b2; b3]))) (load i s0)) s0) s' -> Q tt s') ->
  wp (read_field i Endpoint_Read_32_LE set) Q s.
Proof.
  intros Hr Hh Hb HQ. unfold read_field, Endpoint_Read_32_LE. rewrite !wp_bind.
  assert (Hl : forall k b, (k < 4)%nat -> [b0; b1; b2; b3] !! k = Some b ->
    data !! (k + data_reads l)%nat = Some b).
  { intros k b Hk. rewrite <- Hb, lookup_take_lt, lookup_drop by done. by rewrite Nat.add_comm. }
  eapply run_rd; [exact Hr|]. intros v0 s1 Hr1 Hv0.
  rewrite (lh_data _ _ _ Hh l b0) in Hv0 by (by apply (Hl 0%nat); [lia|]). subst v0. rewrite wp_bind.
  eapply run_rd; [exact Hr1|]. intros v1 s2 Hr2 Hv1.
  rewrite (lh_data _ _ _ Hh (_ :: l) b1) in Hv1 by (by apply (Hl 1%nat); [lia|]). subst v1. rewrite wp_bind.
  eapply run_rd; [exact Hr2|]. intros v2 s3 Hr3 Hv2.
  rewrite (lh_data _ _ _ Hh (_ :: _ :: l) b2) in Hv2 by (by apply (Hl 2%nat); [lia|]). subst v2. rewrite wp_bind.
  eapply run_rd; [exact Hr3|]. intros v3 s4 Hr4 Hv3.
  rewrite (lh_data _ _ _ Hh (_ :: _ :: _ :: l) b3) in Hv3 by (by apply (Hl 3%nat); [lia|]). subst v3.
  rewrite wp_ret. by eapply run_assign.
Qed.
End LineEncoding.

(** The line encoding a host sends is stored. *)
Lemma set_line_encoding_spec `{Masked} `{CDC_Application} K e s :
  line_host (trace s) (bytes_of_line e) K -> line_ok e -> (K < fuel)%nat ->
  USB_DeviceState s <> DEVICE_STATE_Unattached ->
  Z.land (bmRequestType (USB_ControlRequest s)) REQDIR_DEVICETOHOST = 0 ->
  EVENT_CDC_Device_LineEncodingChanged CDC_Interface_addr = CDC_Device_Event_Stub ->
  wp (set_line_encoding CDC_Interface_addr) (fun _ s' => exists l, runs l (with_line e s) s') s.
Proof.
  intros Hh [Hbaud Hfmt Hpar Hbits] Hfuel Hatt Hdir Hev. unfold set_line_encoding.
  rewrite wp_bind. eapply run_clear; [apply runs_refl|]. intros v s1 Hr1 _. rewrite wp_bind.
  eapply wp_mono; [|apply (wait_flag RXOUTI s K (lh_out _ _ _ Hh) Hfuel Hatt _ _ Hr1)].
  intros ok s2 (-> & polled & Hr2 & Hp). cbn [negb]. rewrite wp_bind.
  eapply (read_word_field K (bytes_of_line e)); [exact Hr2|exact Hh|by rewrite data_reads_polls|].
  intros s3 Hr3. rewrite wp_bind.
  eapply (read_byte_field K (bytes_of_line e)); [exact Hr3|exact Hh|cbn [data_reads]; by rewrite data_reads_polls|].
  intros s4 Hr4. rewrite wp_bind.
  eapply (read_byte_field K (bytes_of_line e)); [exact Hr4|exact Hh|cbn [data_reads]; by rewrite data_reads_polls|].
  intros s5 Hr5. rewrite wp_bind.
  eapply (read_byte_field K (bytes_of_line e)); [exact Hr5|exact Hh|cbn [data_reads]; by rewrite data_reads_polls|].
  intros s6 Hr6. rewrite wp_bind. eapply run_clear; [exact Hr6|]. intros v' s7 Hr7 _. rewrite wp_bind.
  eapply wp_mono; [|eapply ClearStatusStage_IN; [| | | |exact Hr7]; [exact (lh_in _ _ _ Hh)|done..]].
  intros [] s8 (v'' & polled' & Hr8 & _). rewrite Hev. eexists.
  replace (with_line e s) with
    (store CDC_Interface_addr
       (set_CDC_State (set_LineEncoding (fun _ => {| BaudRateBPS := le_val (le_bytes 4 (BaudRateBPS e));
          CharFormat := CharFormat e; ParityType := ParityType e; DataBits := DataBits e |}))
       (load CDC_Interface_addr s)) s); [exact Hr8|].
  rewrite le_val_bytes, wrap_id by done. by destruct e.
Qed.

(** The stored line encoding is sent to the host. *)
Lemma get_line_encoding_spec `{Masked} K s :
  let e := LineEncoding (CDC_State (load CDC_Interface_addr s)) in
  flag_follows RXOUTI (trace s) K -> flag_follows TXINI (trace s) K -> line_ok e -> (K < fuel)%nat ->
  USB_DeviceState s <> DEVICE_STATE_Unattached ->
  Z.land (bmRequestType (USB_ControlRequest s)) REQDIR_DEVICETOHOST <> 0 ->
  wp (get_line_encoding CDC_Interface_addr) (fun _ s' => exists l, runs l s s' /\
     exists v v' v'' ready polled, forallb is_poll ready = true /\ forallb is_poll polled = true /\
       l = out_ack v'' ++ polled ++ in_ack v' ++ rev (map (Wr UEDATX) (bytes_of_line e)) ++ ready
             ++ setup_ack v) s.
Proof.
  intros e Hout Hin [Hbaud Hfmt Hpar Hbits] Hfuel Hatt Hdir. unfold get_line_encoding.
  rewrite wp_bind. eapply run_clear; [apply runs_refl|]. intros v s1 Hr1 _. rewrite wp_bind.
  eapply wp_mono; [|apply (spin_flag TXINI s K Hin Hfuel _ _ Hr1)]. intros [] s2 (ready & Hr2 & Hrdy).
  assert (Hload : forall l s', runs l s s' ->
    LineEncoding (CDC_State (load CDC_Interface_addr s')) = e) by (by intros l s' ->).
  rewrite wp_bind, wp_get, (Hload _ _ Hr2), wp_bind. unfold Endpoint_Write_32_LE. rewrite !wp_bind.
  eapply run_wr; [exact Hr2|]. intros s3 Hr3. rewrite wp_bind.
  eapply run_wr; [exact Hr3|]. intros s4 Hr4. rewrite wp_bind.
  eapply run_wr; [exact Hr4|]. intros s5 Hr5. eapply run_wr; [exact Hr5|]. intros s6 Hr6.
  rewrite wp_bind, wp_get, (Hload _ _ Hr6), wp_bind. eapply run_wr; [exact Hr6|]. intros s7 Hr7.
  rewrite wp_bind, wp_get, (Hload _ _ Hr7), wp_bind. eapply run_wr; [exact Hr7|]. intros s8 Hr8.
  rewrite wp_bind, wp_get, (Hload _ _ Hr8), wp_bind. eapply run_wr; [exact Hr8|]. intros s9 Hr9.
  rewrite wp_bind. eapply run_clear; [exact Hr9|]. intros v' s10 Hr10 _.
  eapply wp_mono; [|by eapply (ClearStatusStage_OUT s K)].
  intros [] s11 (v'' & polled & Hr11 & Hp). eexists. split; [exact Hr11|].
  exists v, v', v'', ready, polled. split; [done|]. split; [done|].
  rewrite !(wrap_id 8 (CharFormat e)), !(wrap_id 8 (ParityType e)), !(wrap_id 8 (DataBits e)) by done.
  unfold bytes_of_line. cbn [le_bytes app map rev]. rewrite <- ?app_assoc. cbn [app].
  rewrite !Z.shiftr_shiftr by lia. change 0xFF with (Z.ones 8).
  rewrite <- wrap_land, wrap_wrap by lia. done.
Qed.

(** C30: the line encoding round trip.  With interrupts masked and the library's
    stub as the event handler, after the host has sent a line encoding with
    SET_LINE_CODING, it is stored in the interface, and the answer to the
    host's next GET_LINE_CODING is one packet with exactly the bytes the host had
    sent. *)
Theorem CDC_line_encoding_roundtrip `{Masked} `{CDC_Application} K e s get_request :
  line_host (trace s) (bytes_of_line e) K -> line_ok e -> (K < fuel)%nat ->
  USB_DeviceState s <> DEVICE_STATE_Unattached ->
  Z.land (bmRequestType (USB_ControlRequest s)) REQDIR_DEVICETOHOST = 0 ->
  Z.land (bmRequestType get_request) REQDIR_DEVICETOHOST <> 0 ->
  EVENT_CDC_Device_LineEncodingChanged CDC_Interface_addr = CDC_Device_Event_Stub ->
  wp (set_line_encoding CDC_Interface_addr ;;
      put (set_USB_ControlRequest get_request) ;;
      get_line_encoding CDC_Interface_addr)
     (fun _ s' => LineEncoding (CDC_State (load CDC_Interface_addr s')) = e /\
        exists l1 l2 v v' v'' ready polled, trace s' = l2 ++ l1 ++ trace s /\
          forallb is_poll ready = true /\ forallb is_poll polled = true /\
          l2 = out_ack v'' ++ polled ++ in_ack v' ++ rev (map (Wr UEDATX) (bytes_of_line e))
                 ++ ready ++ setup_ack v) s.
Proof.
  intros Hh He Hfuel Hatt Hdir Hdir' Hev. rewrite wp_bind.
  eapply wp_mono; [|by apply (set_line_encoding_spec K e)]. intros [] s1 (l1 & Hr1).
  rewrite wp_bind, wp_put. set (s2 := set_USB_ControlRequest get_request s1).
  assert (Ht : trace s2 = l1 ++ trace s) by (unfold s2; by rewrite Hr1).
  assert (Hl : LineEncoding (CDC_State (load CDC_Interface_addr s2)) = e) by (unfold s2; by rewrite Hr1).
  assert (Hd : USB_DeviceState s2 = USB_DeviceState s) by (unfold s2; by rewrite Hr1).
  eapply wp_mono; [|apply (get_line_encoding_spec K s2)]; rewrite ?Ht, ?Hl, ?Hd; try done.
  - intros [] s3 (l2 & Hr & v & v' & v'' & ready & polled & Hrdy & Hp & ->).
    split; [by rewrite Hr|]. exists l1. eexists _, v, v', v'', ready, polled.
    split; [rewrite Hr; cbn [set_trace trace]; by rewrite Ht|]. done.
  - by apply flag_follows_later, Hh.
  - by apply flag_follows_later, Hh.
Qed.
