(* ===== verification/PrinterClass.v ===== *)
(** * The printer class driver

    [LUFA/Drivers/USB/Class/Device/PrinterClassDevice.c].  Data transfer is that
    of [ClassDriver]; a soft reset requested by the host is carried out by the
    task of the driver. *)
From S2P Require Import Prelude Machine Rely Descriptors Endpoint ControlStream DeviceStandardReq EndpointStream HIDClass ClassDriver.

Definition PRNT_REQ_GetDeviceID := 0x00.
Definition PRNT_REQ_GetPortStatus := 0x01.
Definition PRNT_REQ_SoftReset := 0x02.
Definition PRNT_PORTSTATUS_NOTERROR := Z.shiftl 1 3.
Definition PRNT_PORTSTATUS_SELECT := Z.shiftl 1 4.

(** [stdio] codes *)
Definition PRNT_FDEV_ERR := -1.
Definition PRNT_FDEV_EOF := -2.

Abbreviation PRNTInterface := (address USB_ClassInfo_PRNT_Device_t).

Definition set_IsPrinterReset (b : bool) (i : USB_ClassInfo_PRNT_Device_t) :=
  {| PRNT_Config := PRNT_Config i;
     PRNT_State := {| PortStatus := PortStatus (PRNT_State i); IsPrinterReset := b |} |}.

(** The event of the driver, a weak symbol an application may define. *)
Class PRNT_Application := { EVENT_PRNT_Device_SoftReset : PRNTInterface -> M unit }.

Definition PRNT_Device_Event_Stub : M unit := ret tt.
Definition PRNT_no_events : PRNT_Application :=
  {| EVENT_PRNT_Device_SoftReset _ := PRNT_Device_Event_Stub |}.

Section PrinterClass.
Context `{Env} `{USB_Application} `{PRNT_Application}.
Context (PRNTInterfaceInfo : PRNTInterface).

Let config : st -> PRNT_Config_t := fun s => PRNT_Config (load PRNTInterfaceInfo s).
Let state : st -> PRNT_State_t := fun s => PRNT_State (load PRNTInterfaceInfo s).

Definition get_device_id : M unit :=
  Endpoint_ClearSETUP ;;
  ok ← wait_attached Endpoint_IsINReady;
  if negb ok then ret tt
  else
    c ← get config;
    match strlen (IEEE1284String c) with
    | None => undefined
    | Some n =>
        let IEEEStringLen := u16 n in
        Endpoint_Write_16_BE IEEEStringLen ;;
        Endpoint_Write_Control_Stream_LE (IEEE1284String c) IEEEStringLen ;;
        Endpoint_ClearStatusStage
    end.

Definition get_port_status : M unit :=
  Endpoint_ClearSETUP ;;
  ok ← wait_attached Endpoint_IsINReady;
  if negb ok then ret tt
  else
    x ← get (fun s => PortStatus (state s));
    Endpoint_Write_8 x ;;
    Endpoint_ClearStatusStage.

Definition soft_reset : M unit :=
  Endpoint_ClearSETUP ;;
  Endpoint_ClearStatusStage ;;
  assign PRNTInterfaceInfo (set_IsPrinterReset true) ;;
  EVENT_PRNT_Device_SoftReset PRNTInterfaceInfo.

Definition PRNT_Device_ProcessControlRequest : M unit :=
  setup ← Endpoint_IsSETUPReceived;
  if negb setup then ret tt
  else
    req ← get USB_ControlRequest;
    c ← get config;
    if negb (wIndex req =? PRNT_InterfaceNumber c) then ret tt
    else
      let matches dir :=
        bmRequestType req =? request_type dir REQTYPE_CLASS REQREC_INTERFACE in
      if bRequest req =? PRNT_REQ_GetDeviceID then when (matches REQDIR_DEVICETOHOST) get_device_id
      else if bRequest req =? PRNT_REQ_GetPortStatus then
        when (matches REQDIR_DEVICETOHOST) get_port_status
      else if bRequest req =? PRNT_REQ_SoftReset then when (matches REQDIR_HOSTTODEVICE) soft_reset
      else ret tt.

Definition configured_PRNT (i : USB_ClassInfo_PRNT_Device_t) : USB_ClassInfo_PRNT_Device_t :=
  let c := PRNT_Config i in
  {| PRNT_Config :=
       {| PRNT_InterfaceNumber := PRNT_InterfaceNumber c;
          PRNT_DataINEndpoint := set_ep_Type EP_TYPE_BULK (PRNT_DataINEndpoint c);
          PRNT_DataOUTEndpoint := set_ep_Type EP_TYPE_BULK (PRNT_DataOUTEndpoint c);
          IEEE1284String := IEEE1284String c |};
     PRNT_State := {| PortStatus := Z.lor PRNT_PORTSTATUS_NOTERROR PRNT_PORTSTATUS_SELECT;
                      IsPrinterReset := false |} |}.

Definition PRNT_Device_ConfigureEndpoints : M bool :=
  assign PRNTInterfaceInfo configured_PRNT ;;
  c ← get config;
  configure_tables [PRNT_DataINEndpoint c; PRNT_DataOUTEndpoint c].

(** [if (USB_DeviceState != DEVICE_STATE_Configured) return x;] *)
Definition unless_PRNT_offline {A} (x : A) (m : PRNT_Config_t -> M A) : M A :=
  off ← not_configured;
  if (off : bool) then ret x else c ← get config; m c.

Definition PRNT_Device_SendString (String : bytes) : M Endpoint_Stream_RW_ErrorCodes_t :=
  unless_PRNT_offline ENDPOINT_RWSTREAM_DeviceDisconnected
    (fun c => bulk_send_string (ep_Address (PRNT_DataINEndpoint c)) String).

Definition PRNT_Device_SendData (Buffer : bytes) (Length : Z) : M Endpoint_Stream_RW_ErrorCodes_t :=
  unless_PRNT_offline ENDPOINT_RWSTREAM_DeviceDisconnected
    (fun c => bulk_send_data (ep_Address (PRNT_DataINEndpoint c)) Buffer Length).

Definition PRNT_Device_SendByte (Data : Z) : M Endpoint_Stream_RW_ErrorCodes_t :=
  unless_PRNT_offline ENDPOINT_RWSTREAM_DeviceDisconnected
    (fun c => bulk_send_byte (ep_Address (PRNT_DataINEndpoint c)) Data).

Definition PRNT_Device_Flush : M Endpoint_Stream_RW_ErrorCodes_t :=
  unless_PRNT_offline ENDPOINT_RWSTREAM_DeviceDisconnected
    (fun c => bulk_flush (ep_Address (PRNT_DataINEndpoint c))).

Definition PRNT_Device_BytesReceived : M Z :=
  unless_PRNT_offline 0 (fun c => bulk_bytes_received (ep_Address (PRNT_DataOUTEndpoint c))).

Definition PRNT_Device_ReceiveByte : M Z :=
  unless_PRNT_offline (-1) (fun c => bulk_receive_byte (ep_Address (PRNT_DataOUTEndpoint c))).

Definition PRNT_Device_USBTask : M unit :=
  unless_PRNT_offline tt (fun c =>
    autoflush (ep_Address (PRNT_DataINEndpoint c)) PRNT_Device_Flush ;;
    reset ← get_volatile (fun s => IsPrinterReset (state s));
    if (reset : bool) then
      reset_bulk_endpoints (ep_Address (PRNT_DataOUTEndpoint c)) (ep_Address (PRNT_DataINEndpoint c)) ;;
      assign PRNTInterfaceInfo (set_IsPrinterReset false)
    else ret tt).

(** ** The [stdio] stream of the interface *)

Definition PRNT_Device_putchar (c : Z) : M Z :=
  ErrorCode ← PRNT_Device_SendByte (u8 c);
  ret (match ErrorCode with ENDPOINT_RWSTREAM_NoError => 0 | _ => PRNT_FDEV_ERR end).

Definition PRNT_Device_getchar : M Z :=
  ReceivedByte ← PRNT_Device_ReceiveByte;
  ret (if ReceivedByte <? 0 then PRNT_FDEV_EOF else ReceivedByte).

Definition PRNT_Device_getchar_Blocking : M Z :=
  loop fuel (fun _ : unit =>
    ReceivedByte ← PRNT_Device_ReceiveByte;
    if ReceivedByte <? 0 then
      d ← get_volatile USB_DeviceState;
      if d =? DEVICE_STATE_Unattached then ret (inr PRNT_FDEV_EOF)
      else PRNT_Device_USBTask ;; USB_USBTask ;; ret (inl tt)
    else ret (inr ReceivedByte)) tt.
End PrinterClass.

(** The printer interface of an application that has one. *)
Definition PRNT_Interface_addr : PRNTInterface :=
  {| load s := PRNT_Interface (Class_Interfaces s);
     store x s :=
       let c := Class_Interfaces s in
       set_Class_Interfaces
         {| CDC_Interface := CDC_Interface c; MIDI_Interface := MIDI_Interface c;
            MS_Interface := MS_Interface c; PRNT_Interface := x; Audio_Interface := Audio_Interface c;
            RNDIS_Interface := RNDIS_Interface c |} s |}.

(** ** Data transfer is that of [ClassDriver] *)

Lemma unless_PRNT_offline_spec `{Calm} {A} i s0 l s (x : A) m Q :
  stable_object i -> USB_DeviceState s0 = DEVICE_STATE_Configured -> evolves l s0 s ->
  (forall s', evolves l s0 s' -> wp (m (PRNT_Config (load i s0))) Q s') ->
  wp (unless_PRNT_offline i x m) Q s.
Proof.
  intros Hst Hd Hev Hm. unfold unless_PRNT_offline, not_configured. rewrite !wp_bind.
  eapply at_volatile; [exact Hev|]. intros s1 Hev1.
  rewrite wp_ret, (evolves_DeviceState _ _ _ Hev1), Hd. cbn [negb Z.eqb DEVICE_STATE_Configured Pos.eqb].
  rewrite wp_bind, wp_get, (Hst _ _ _ Hev1). by apply Hm.
Qed.

(** Bytes sent to the host arrive, as those of the virtual serial port do. *)
Lemma PRNT_Device_send_delivers `{Calm} `{USB_Application} i K s size data :
  stable_object i -> USB_DeviceState s = DEVICE_STATE_Configured ->
  in_endpoint (ep_trace (trace s)) size K -> (0 < size)%nat -> (K <= 100)%nat -> (K < fuel)%nat ->
  all_bytes data ->
  wp (ErrorCode ← send_each (PRNT_Device_SendByte i) data;
      FlushCode ← PRNT_Device_Flush i;
      ret (ErrorCode, FlushCode))
     (fun r s' => r = (ENDPOINT_RWSTREAM_NoError, ENDPOINT_RWSTREAM_NoError) /\
        exists l, evolves l s s' /\ in_bank l = [] /\ packets size data (in_packets l)) s.
Proof.
  intros Hst Hd Hep Hsize HK Hfuel Hall.
  assert (Hatt : USB_DeviceState s <> DEVICE_STATE_Unattached) by (by rewrite Hd).
  assert (Hact : USB_DeviceState s <> DEVICE_STATE_Suspended) by (by rewrite Hd).
  rewrite wp_bind. eapply wp_mono; [|apply (send_each_spec _ s size data) with (done_ := []) (l := [])].
  - intros r s1 (-> & l1 & Hev1 & Hs1). rewrite wp_bind. unfold PRNT_Device_Flush.
    eapply unless_PRNT_offline_spec; [exact Hst|exact Hd|exact Hev1|]. intros s2 Hev2.
    eapply wp_mono; [|by eapply (bulk_flush_spec s size K)].
    intros r s3 (-> & Hl). rewrite wp_ret. by split.
  - intros b done_ l s1 Hev1 Hs1 Hb. unfold PRNT_Device_SendByte.
    eapply unless_PRNT_offline_spec; [exact Hst|exact Hd|exact Hev1|]. intros s2 Hev2.
    by eapply (bulk_send_byte_spec s size K).
  - done.
  - apply evolves_refl.
  - by constructor; cbn; try lia.
Qed.

(** ** The port status is never sent

    A host that has asked for data and got none: the endpoint is free, and there
    is no status stage before the first packet has been sent. *)
Definition waits_for_data `{Env} (t0 : list event) : Prop :=
  forall l, in_packets l = [] ->
    has_bit (respond (l ++ t0) UEINTX) TXINI = true /\ has_bit (respond (l ++ t0) UEINTX) RXOUTI = false.

Lemma in_packets_polls l l' : forallb is_poll l = true -> in_packets (l ++ l') = in_packets l'.
Proof.
  induction l as [|e l IH]; [done|]. cbn. intros [He Hl]%andb_true_iff. rewrite (IH Hl).
  destruct e as [[]| | | | | |]; done.
Qed.

(** The endpoint is free for the data. *)
Lemma wait_IN_ready `{Masked} s0 l s :
  waits_for_data (trace s0) -> in_packets l = [] -> runs l s0 s -> (0 < fuel)%nat ->
  wp (wait_attached Endpoint_IsINReady) (fun ok s' => ok = true /\
    exists l', in_packets l' = [] /\ runs l' s0 s') s.
Proof.
  intros Hw Hl Hr Hf. unfold wait_attached. destruct fuel as [|f]; [lia|]. cbn [loop]. rewrite !wp_bind.
  eapply run_test; [exact Hr|]. intros v s1 Hr1 ->. destruct (Hw l Hl) as [-> _]. rewrite !wp_ret.
  split; [done|]. eexists. split; [|exact Hr1]. done.
Qed.

(** Waiting for a status stage that does not come. *)
Lemma wait_OUT_forever `{Masked} s0 l s n :
  waits_for_data (trace s0) -> in_packets l = [] -> runs l s0 s ->
  USB_DeviceState s0 <> DEVICE_STATE_Unattached ->
  loop n (fun _ : unit =>
    b ← Endpoint_IsOUTReceived;
    if (b : bool) then ret (inr true)
    else
      d ← get_volatile USB_DeviceState;
      ret (if d =? DEVICE_STATE_Unattached then inr false else inl tt)) tt s = OutOfFuel.
Proof.
  intros Hw. revert l s. induction n as [|n IH]; intros l s Hl Hr Hatt; [done|]. cbn [loop].
  apply forever_after. rewrite wp_bind. eapply run_test; [exact Hr|]. intros v s1 Hr1 ->.
  destruct (Hw l Hl) as [_ ->]. rewrite wp_bind. eapply run_volatile; [exact Hr1|].
  assert (USB_DeviceState s1 = USB_DeviceState s0) as -> by (by rewrite Hr1).
  rewrite (proj2 (Z.eqb_neq _ _) Hatt), wp_ret. by eapply IH; [|exact Hr1|].
Qed.

(** GET_PORT_STATUS never completes.  The driver writes the status byte to the
    bank of the control endpoint but does not send the bank before it waits for
    the host's status stage; a host that waits for the data it has asked for
    does not start one, so [PRNT_Device_ProcessControlRequest] does not return,
    however long it polls. *)
Lemma PRNT_GetPortStatus_hangs `{Masked} `{PRNT_Application} s :
  let req := USB_ControlRequest s in
  let v := respond (trace s) UEINTX in
  let v' := respond (Rd UEINTX v :: trace s) UEINTX in
  has_bit v RXSTPI = true ->
  waits_for_data (setup_ack v' ++ Rd UEINTX v :: trace s) ->
  USB_DeviceState s <> DEVICE_STATE_Unattached -> (0 < fuel)%nat ->
  wIndex req = PRNT_InterfaceNumber (PRNT_Config (load PRNT_Interface_addr s)) ->
  bRequest req = PRNT_REQ_GetPortStatus ->
  bmRequestType req = request_type REQDIR_DEVICETOHOST REQTYPE_CLASS REQREC_INTERFACE ->
  PRNT_Device_ProcessControlRequest PRNT_Interface_addr s = OutOfFuel.
Proof.
  intros req v v' Hsetup Hw Hatt Hf Hi Hr Ht.
  set (s0 := set_trace (setup_ack v' ++ Rd UEINTX v :: trace s) s).
  unfold PRNT_Device_ProcessControlRequest. apply forever_after.
  eapply run_test; [apply runs_refl|]. intros w s1 Hr1 Hv. cbn [app] in Hv. fold v in Hv. subst w.
  rewrite Hsetup. cbn [negb]. unfold bind at 1, get at 1. unfold bind at 1, get at 1.
  assert (USB_ControlRequest s1 = req) as -> by (by rewrite Hr1).
  assert (load PRNT_Interface_addr s1 = load PRNT_Interface_addr s) as -> by (by rewrite Hr1).
  rewrite <- Hi, Z.eqb_refl, Hr, Ht. cbn [negb when]. cbv zeta.
  change (get_port_status PRNT_Interface_addr s1 = OutOfFuel).
  unfold get_port_status. apply forever_after.
  eapply run_clear; [exact Hr1|]. intros w s2 Hr2 Hv. change (w = v') in Hv. subst w.
  assert (Hr0 : runs [] s0 s2) by exact Hr2.
  apply forever_after. eapply wp_mono; [|apply (wait_IN_ready s0 [] s2); done].
  intros ok s3 (-> & l & Hl & Hr3). cbn [negb]. unfold bind at 1, get at 1.
  apply forever_after. eapply run_wr; [exact Hr3|]. intros s4 Hr4.
  unfold Endpoint_ClearStatusStage, bind at 1, get at 1.
  assert (USB_ControlRequest s4 = req) as -> by (by rewrite Hr4). rewrite Ht.
  change (negb _) with true. cbv iota. apply forever_first.
  by apply (wait_OUT_forever s0 _ s4 fuel Hw) with (2 := Hr4).
Qed.
