(* ===== verification/MIDIClass.v ===== *)
(** * The MIDI class driver

    [LUFA/Drivers/USB/Class/Device/MIDIClassDevice.c]: event packets of four
    bytes over a pair of bulk endpoints. *)
From S2P Require Import Prelude Machine Rely Descriptors Endpoint ControlStream DeviceStandardReq EndpointStream HIDClass ClassDriver.

(** [MIDI_EventPacket_t] *)
Record MIDI_EventPacket_t := { Event : Z; Data1 : Z; Data2 : Z; Data3 : Z }.

Definition sizeof_MIDI_EventPacket_t := 4.
Definition bytes_of_event (e : MIDI_EventPacket_t) : bytes := [Event e; Data1 e; Data2 e; Data3 e].
Definition event_of_bytes (l : bytes) : option MIDI_EventPacket_t :=
  match l with
  | [e; d1; d2; d3] => Some {| Event := e; Data1 := d1; Data2 := d2; Data3 := d3 |}
  | _ => None
  end.

Abbreviation MIDIInterface := (address USB_ClassInfo_MIDI_Device_t).

Section MIDIClass.
Context `{Env} `{USB_Application}.
Context (MIDIInterfaceInfo : MIDIInterface).

Let config : st -> USB_ClassInfo_MIDI_Device_t := load MIDIInterfaceInfo.

Definition configured_MIDI (c : USB_ClassInfo_MIDI_Device_t) : USB_ClassInfo_MIDI_Device_t :=
  {| MIDI_StreamingInterfaceNumber := MIDI_StreamingInterfaceNumber c;
     MIDI_DataINEndpoint := set_ep_Type EP_TYPE_BULK (MIDI_DataINEndpoint c);
     MIDI_DataOUTEndpoint := set_ep_Type EP_TYPE_BULK (MIDI_DataOUTEndpoint c) |}.

Definition MIDI_Device_ConfigureEndpoints : M bool :=
  assign MIDIInterfaceInfo configured_MIDI ;;
  c ← get config;
  configure_tables [MIDI_DataINEndpoint c; MIDI_DataOUTEndpoint c].

(** [if (USB_DeviceState != DEVICE_STATE_Configured) return x;] *)
Definition unless_MIDI_offline {A} (x : A) (m : USB_ClassInfo_MIDI_Device_t -> M A) : M A :=
  off ← not_configured;
  if (off : bool) then ret x else c ← get config; m c.

Definition MIDI_Device_SendEventPacket (Event : MIDI_EventPacket_t) : M Endpoint_Stream_RW_ErrorCodes_t :=
  unless_MIDI_offline ENDPOINT_RWSTREAM_DeviceDisconnected (fun c =>
    Endpoint_SelectEndpoint (ep_Address (MIDI_DataINEndpoint c)) ;;
    '(ErrorCode, _) ← Endpoint_Write_Stream_LE (bytes_of_event Event) sizeof_MIDI_EventPacket_t None;
    match ErrorCode with
    | ENDPOINT_RWSTREAM_NoError =>
        allowed ← Endpoint_IsReadWriteAllowed;
        when (negb allowed) Endpoint_ClearIN ;;
        ret ENDPOINT_RWSTREAM_NoError
    | e => ret e
    end).

Definition MIDI_Device_Flush : M Endpoint_Stream_RW_ErrorCodes_t :=
  unless_MIDI_offline ENDPOINT_RWSTREAM_DeviceDisconnected (fun c =>
    Endpoint_SelectEndpoint (ep_Address (MIDI_DataINEndpoint c)) ;;
    n ← Endpoint_BytesInEndpoint;
    if negb (n =? 0) then
      Endpoint_ClearIN ;;
      r ← Endpoint_WaitUntilReady;
      match ready_error r with
      | Some e => ret e
      | None => ret ENDPOINT_RWSTREAM_NoError
      end
    else ret ENDPOINT_RWSTREAM_NoError).

Definition MIDI_Device_USBTask : M unit :=
  unless_MIDI_offline tt (fun c => autoflush (ep_Address (MIDI_DataINEndpoint c)) MIDI_Device_Flush).

(** [Event]: the object the packet is received into; its new value. *)
Definition MIDI_Device_ReceiveEventPacket (Event : MIDI_EventPacket_t) : M (bool * MIDI_EventPacket_t) :=
  unless_MIDI_offline (false, Event) (fun c =>
    Endpoint_SelectEndpoint (ep_Address (MIDI_DataOUTEndpoint c)) ;;
    received ← Endpoint_IsOUTReceived;
    if negb received then ret (false, Event)
    else
      allowed ← Endpoint_IsReadWriteAllowed;
      if negb allowed then ret (false, Event)
      else
        '(_, _, data) ← Endpoint_Read_Stream_LE (bytes_of_event Event) sizeof_MIDI_EventPacket_t None;
        allowed ← Endpoint_IsReadWriteAllowed;
        when (negb allowed) Endpoint_ClearOUT ;;
        e ← checked (event_of_bytes data);
        ret (true, e)).
End MIDIClass.
