(* ===== verification/MassStorageClass.v ===== *)
(** * The mass storage class driver

    [LUFA/Drivers/USB/Class/Device/MassStorageClassDevice.c]: the bulk-only
    transport.  The packed command and status wrappers are lists of bytes; their
    members are slices of them.  The SCSI command handler of the application is
    the class [MS_Application]. *)
From S2P Require Import Prelude Machine Rely Descriptors Endpoint ControlStream DeviceStandardReq EndpointStream HIDClass ClassDriver.

Definition MS_REQ_GetMaxLUN := 0xFE.
Definition MS_REQ_MassStorageReset := 0xFF.
Definition MS_CBW_SIGNATURE := 0x43425355.
Definition MS_CSW_SIGNATURE := 0x53425355.
Definition MS_COMMAND_DIR_DATA_IN := Z.shiftl 1 7.
Definition MS_SCSI_COMMAND_Pass := 0.
Definition MS_SCSI_COMMAND_Fail := 1.

(** ** [MS_CommandBlockWrapper_t] and [MS_CommandStatusWrapper_t] *)

Definition sizeof_MS_CommandBlockWrapper_t := 31.
Definition sizeof_MS_CommandStatusWrapper_t := 13.

(** The member of [n] bytes at offset [off]. *)
Definition member (off n : nat) (l : bytes) : bytes := take n (drop off l).

Definition cbw_Signature (l : bytes) : Z := le_val (member 0 4 l).
Definition cbw_Tag (l : bytes) : bytes := member 4 4 l.
Definition cbw_DataTransferLength (l : bytes) : bytes := member 8 4 l.
Definition cbw_Flags (l : bytes) : Z := le_val (member 12 1 l).
Definition cbw_LUN (l : bytes) : Z := le_val (member 13 1 l).
Definition cbw_SCSICommandLength (l : bytes) : Z := le_val (member 14 1 l).
Definition offset_SCSICommandData := 15%nat.

Definition make_status (Tag Residue : bytes) (Status : Z) : bytes :=
  le_bytes 4 MS_CSW_SIGNATURE ++ Tag ++ Residue ++ [Status].

Abbreviation MSInterface := (address USB_ClassInfo_MS_Device_t).

(** ** Field assignments *)

Definition on_MS_State (f : MS_State_t -> MS_State_t) (i : USB_ClassInfo_MS_Device_t) :=
  {| MS_Config := MS_Config i; MS_State := f (MS_State i) |}.
Definition set_CommandBlock (x : bytes) (t : MS_State_t) :=
  {| CommandBlock := x; CommandStatus := CommandStatus t; IsMassStoreReset := IsMassStoreReset t |}.
Definition set_CommandStatus (x : bytes) (t : MS_State_t) :=
  {| CommandBlock := CommandBlock t; CommandStatus := x; IsMassStoreReset := IsMassStoreReset t |}.
Definition set_IsMassStoreReset (x : bool) (t : MS_State_t) :=
  {| CommandBlock := CommandBlock t; CommandStatus := CommandStatus t; IsMassStoreReset := x |}.

Class MS_Application := { CALLBACK_MS_Device_SCSICommandReceived : MSInterface -> M bool }.

(** The checks of a received command block; [true] if it is accepted. *)
Definition valid_command_block (TotalLUNs_ : Z) (l : bytes) : bool :=
  negb (negb (cbw_Signature l =? MS_CBW_SIGNATURE)
        || (TotalLUNs_ <=? cbw_LUN l)
        || negb (Z.land (cbw_Flags l) 0x1F =? 0)
        || (cbw_SCSICommandLength l =? 0)
        || (16 <? cbw_SCSICommandLength l)).

Section MassStorageClass.
Context `{Env} `{USB_Application} `{MS_Application}.
Context (MSInterfaceInfo : MSInterface).

Let config : st -> MS_Config_t := fun s => MS_Config (load MSInterfaceInfo s).
Let state : st -> MS_State_t := fun s => MS_State (load MSInterfaceInfo s).
Let IN (c : MS_Config_t) : Z := ep_Address (MS_DataINEndpoint c).
Let OUT (c : MS_Config_t) : Z := ep_Address (MS_DataOUTEndpoint c).

Definition mass_storage_reset : M unit :=
  Endpoint_ClearSETUP ;;
  Endpoint_ClearStatusStage ;;
  assign MSInterfaceInfo (on_MS_State (set_IsMassStoreReset true)).

Definition get_max_lun : M unit :=
  Endpoint_ClearSETUP ;;
  spin_until Endpoint_IsINReady ;;
  c ← get config;
  Endpoint_Write_8 (TotalLUNs c - 1) ;;
  Endpoint_ClearIN ;;
  Endpoint_ClearStatusStage.

Definition MS_Device_ProcessControlRequest : M unit :=
  setup ← Endpoint_IsSETUPReceived;
  if negb setup then ret tt
  else
    req ← get USB_ControlRequest;
    c ← get config;
    if negb (wIndex req =? MS_InterfaceNumber c) then ret tt
    else
      let matches dir :=
        bmRequestType req =? request_type dir REQTYPE_CLASS REQREC_INTERFACE in
      if bRequest req =? MS_REQ_MassStorageReset then
        when (matches REQDIR_HOSTTODEVICE) mass_storage_reset
      else if bRequest req =? MS_REQ_GetMaxLUN then when (matches REQDIR_DEVICETOHOST) get_max_lun
      else ret tt.

Definition configured_MS (i : USB_ClassInfo_MS_Device_t) : USB_ClassInfo_MS_Device_t :=
  let c := MS_Config i in
  {| MS_Config :=
       {| MS_InterfaceNumber := MS_InterfaceNumber c;
          MS_DataINEndpoint := set_ep_Type EP_TYPE_BULK (MS_DataINEndpoint c);
          MS_DataOUTEndpoint := set_ep_Type EP_TYPE_BULK (MS_DataOUTEndpoint c);
          TotalLUNs := TotalLUNs c |};
     MS_State := zero_MS_State |}.

Definition MS_Device_ConfigureEndpoints : M bool :=
  assign MSInterfaceInfo configured_MS ;;
  c ← get config;
  configure_tables [MS_DataINEndpoint c; MS_DataOUTEndpoint c].

(** [while (transfer(&BytesProcessed) == ENDPOINT_RWSTREAM_IncompleteTransfer)
    if (IsMassStoreReset) return;]: [false] if the reset ended it. *)
Definition transfer_unless_reset
    (transfer : Z -> M (Endpoint_Stream_RW_ErrorCodes_t * option Z)) : M bool :=
  loop fuel (fun BytesProcessed =>
    '(ErrorCode, n) ← transfer BytesProcessed;
    match ErrorCode with
    | ENDPOINT_RWSTREAM_IncompleteTransfer =>
        reset ← get_volatile (fun s => IsMassStoreReset (state s));
        ret (if (reset : bool) then inr false else inl (default BytesProcessed n))
    | _ => ret (inr true)
    end) 0.

(** Reading into the command block from offset [off] on. *)
Definition read_command_block (off : nat) (Length BytesProcessed : Z)
    : M (Endpoint_Stream_RW_ErrorCodes_t * option Z) :=
  block ← get (fun s => CommandBlock (state s));
  '(ErrorCode, n, data) ← Endpoint_Read_Stream_LE (drop off block) Length (Some BytesProcessed);
  assign MSInterfaceInfo (on_MS_State (set_CommandBlock (take off block ++ data))) ;;
  ret (ErrorCode, n).

Definition MS_Device_ReadInCommandBlock : M bool :=
  c ← get config;
  Endpoint_SelectEndpoint (OUT c) ;;
  ok ← transfer_unless_reset (read_command_block 0 (sizeof_MS_CommandBlockWrapper_t - 16));
  if negb ok then ret false
  else
    block ← get (fun s => CommandBlock (state s));
    if negb (valid_command_block (TotalLUNs c) block) then
      Endpoint_StallTransaction ;;
      Endpoint_SelectEndpoint (IN c) ;;
      Endpoint_StallTransaction ;;
      ret false
    else
      ok ← transfer_unless_reset
             (read_command_block offset_SCSICommandData (cbw_SCSICommandLength block));
      if negb ok then ret false else Endpoint_ClearOUT ;; ret true.

(** [while (Endpoint_IsStalled()) { USB_USBTask(); if (IsMassStoreReset) return; }]:
    [false] if the reset ended it. *)
Definition wait_unstalled : M bool :=
  loop fuel (fun _ : unit =>
    stalled ← Endpoint_IsStalled;
    if negb stalled then ret (inr true)
    else
      USB_USBTask ;;
      reset ← get_volatile (fun s => IsMassStoreReset (state s));
      ret (if (reset : bool) then inr false else inl tt)) tt.

Definition MS_Device_ReturnCommandStatus : M unit :=
  c ← get config;
  Endpoint_SelectEndpoint (OUT c) ;;
  ok ← wait_unstalled;
  if negb ok then ret tt
  else
    Endpoint_SelectEndpoint (IN c) ;;
    ok ← wait_unstalled;
    if negb ok then ret tt
    else
      ok ← transfer_unless_reset (fun BytesProcessed =>
             status ← get (fun s => CommandStatus (state s));
             Endpoint_Write_Stream_LE status sizeof_MS_CommandStatusWrapper_t (Some BytesProcessed));
      if negb ok then ret tt else Endpoint_ClearIN.

(** What follows a received command block. *)
Definition process_command (c : MS_Config_t) : M unit :=
  block ← get (fun s => CommandBlock (state s));
  when (negb (Z.land (cbw_Flags block) MS_COMMAND_DIR_DATA_IN =? 0)) (Endpoint_SelectEndpoint (IN c)) ;;
  SCSICommandResult ← CALLBACK_MS_Device_SCSICommandReceived MSInterfaceInfo;
  block ← get (fun s => CommandBlock (state s));
  let status := if (SCSICommandResult : bool) then MS_SCSI_COMMAND_Pass else MS_SCSI_COMMAND_Fail in
  assign MSInterfaceInfo (on_MS_State (set_CommandStatus
    (make_status (cbw_Tag block) (cbw_DataTransferLength block) status))) ;;
  when (negb SCSICommandResult && negb (le_val (cbw_DataTransferLength block) =? 0))
    Endpoint_StallTransaction ;;
  MS_Device_ReturnCommandStatus.

Definition MS_Device_USBTask : M unit :=
  off ← not_configured;
  if (off : bool) then ret tt
  else
    c ← get config;
    Endpoint_SelectEndpoint (OUT c) ;;
    received ← Endpoint_IsOUTReceived;
    (if (received : bool) then
       ok ← MS_Device_ReadInCommandBlock;
       when ok (process_command c)
     else ret tt) ;;
    reset ← get_volatile (fun s => IsMassStoreReset (state s));
    if (reset : bool) then
      reset_bulk_endpoints (OUT c) (IN c) ;;
      assign MSInterfaceInfo (on_MS_State (set_IsMassStoreReset false))
    else ret tt.
End MassStorageClass.

(** The mass storage interface of an application that has one. *)
Definition MS_Interface_addr : MSInterface :=
  {| load s := MS_Interface (Class_Interfaces s);
     store x s :=
       let c := Class_Interfaces s in
       set_Class_Interfaces
         {| CDC_Interface := CDC_Interface c; MIDI_Interface := MIDI_Interface c; MS_Interface := x;
            PRNT_Interface := PRNT_Interface c; Audio_Interface := Audio_Interface c;
            RNDIS_Interface := RNDIS_Interface c |} s |}.

(** [s] with another command block. *)
Definition with_block (block : bytes) (s : st) : st :=
  store MS_Interface_addr (on_MS_State (set_CommandBlock block) (load MS_Interface_addr s)) s.

Lemma evolves_with_block l block s s' :
  evolves l s s' -> evolves l (with_block block s) (with_block block s').
Proof.
  intros Hev. unfold with_block. cbn. rewrite (evolves_Class_Interfaces _ _ _ Hev).
  by apply evolves_set_Class_Interfaces.
Qed.

(** ** Receiving a command block

    Documented behaviour of an OUT endpoint that holds the packet [p], of which
    nothing has been read after the accesses [l0]: it stays until it is
    acknowledged, data is allowed to be read as long as there are unread bytes,
    and the data register returns them in order. *)
Record out_packet `{Env} (l0 : list event) (p : bytes) : Prop := {
  op_dir : forall l v, answer (l ++ l0) UECFG0X v -> has_bit v EPDIR = false;
  op_stays : forall l v, answer (l ++ l0) UEINTX v -> (out_view l).1 = 0%nat -> has_bit v RXOUTI = true;
  op_allowed : forall l v, answer (l ++ l0) UEINTX v -> (out_view l).1 = 0%nat ->
    has_bit v RWAL = ((out_view l).2 <? length p)%nat;
  op_data : forall l v b, answer (l ++ l0) UEDATX v -> (out_view l).1 = 0%nat ->
    p !! (out_view l).2 = Some b -> v = b
}.

Section ReceiveCommand.
Context `{Calm} `{USB_Application}.
Context (p : bytes).

Lemma WaitUntilReady_packet s0 l s j :
  out_packet (ep_trace (trace s0)) p -> (0 < fuel)%nat ->
  evolves l s0 s -> out_view l = (0%nat, j) ->
  wp Endpoint_WaitUntilReady (fun c s' => c = ENDPOINT_READYWAIT_NoError /\
    exists l', evolves l' s0 s' /\ out_view l' = (0%nat, j)) s.
Proof.
  intros Hp Hf Hev Hv. unfold Endpoint_WaitUntilReady, USB_Device_GetFrameNumber.
  rewrite wp_bind. apply wp_rd_other; [done|]. intros fr s1 Hev1.
  pose proof (evolves_nil_l _ _ _ _ Hev Hev1) as Hev2.
  destruct fuel as [|f]; [lia|]. cbn [loop]. rewrite !wp_bind.
  unfold Endpoint_GetEndpointDirection. rewrite wp_bind.
  eapply at_test; [exact Hev2|done|]. intros v s2 Hev3 Ha.
  rewrite (op_dir _ _ Hp l v Ha), wp_ret, wp_bind. cbn [Z.eqb ENDPOINT_DIR_IN ENDPOINT_DIR_OUT].
  eapply at_test; [exact Hev3|done|]. intros v2 s3 Hev4 Ha2.
  rewrite (op_stays _ _ Hp _ v2 Ha2) by (cbn [out_view]; by rewrite Hv). rewrite !wp_ret.
  split; [done|]. by eexists.
Qed.

(** The next [n] bytes of the packet are read into the buffer. *)
Lemma Read_Stream_packet s0 l s j n buffer :
  out_packet (ep_trace (trace s0)) p -> (n < fuel)%nat -> Z.of_nat n < 2 ^ 16 ->
  evolves l s0 s -> out_view l = (0%nat, j) -> (j + n <= length p)%nat -> (n <= length buffer)%nat ->
  wp (Endpoint_Read_Stream_LE buffer (Z.of_nat n) (Some 0))
     (fun r s' => r = (ENDPOINT_RWSTREAM_NoError, Some 0, take n (drop j p) ++ drop n buffer) /\
        exists l', evolves l' s0 s' /\ out_view l' = (0%nat, (j + n)%nat)) s.
Proof.
  intros Hp Hf H16 Hev Hv Hj Hn. unfold Endpoint_Read_Stream_LE, read_stream, Template_Endpoint_RW.
  rewrite wp_bind. eapply wp_mono; [|apply (WaitUntilReady_packet s0 l s j Hp); [lia|done|done]].
  intros c s1 (-> & l1 & Hev1 & Hv1). cbn [ready_error TEMPLATE_BUFFER_MOVE TEMPLATE_BUFFER_OFFSET LE_stream].
  rewrite wrap_id by (unfold fits; lia). rewrite Z.sub_0_r. unfold stream_loop.
  set (data := take n (drop j p)).
  assert (Hdata : length data = n) by (unfold data; rewrite length_take, length_drop; lia).
  apply (wp_loop (fun '(B, pos, len, _) m s' => exists l' k, evolves l' s0 s' /\ (k <= n)%nat /\
    out_view l' = (0%nat, (j + k)%nat) /\ B = received data buffer k /\ pos = Z.of_nat k /\
    len = Z.of_nat (n - k) /\ m = (n - k)%nat)) with (n := n); [|lia|].
  2: { exists l1, 0%nat. rewrite Nat.add_0_r, Nat.sub_0_r. repeat split; try done; apply Hev1 || lia. }
  intros [[[B pos] len] bt] m s2 (l2 & k & Hev2 & Hk & Hv2 & -> & -> & -> & ->).
  destruct (Z.eqb_spec (Z.of_nat (n - k)) 0).
  { replace k with n in * by lia. rewrite wp_ret. split; [|by exists l2].
    unfold received. by rewrite (take_ge data) by lia. }
  rewrite wp_bind. eapply at_test; [exact Hev2|done|]. intros v s3 Hev3 Ha.
  rewrite (op_allowed _ _ Hp l2 v Ha) by (by rewrite Hv2). rewrite Hv2. cbn [snd].
  destruct (Nat.ltb_spec (j + k) (length p)); [|lia]. cbn [negb]. rewrite wp_bind.
  unfold transfer_in. rewrite wp_bind. eapply at_rd; [exact Hev3|done|]. intros b s4 Hev4 Hb.
  destruct (lookup_lt_is_Some_2 p (j + k)) as [b' Hb']; [lia|].
  apply (op_data _ _ Hp _ _ b') in Hb; cbn [out_view]; rewrite ?Hv2; try done. subst b.
  rewrite store_received; [|lia|unfold data; rewrite lookup_take_lt, lookup_drop by lia; done].
  rewrite !wp_ret. exists (n - S k)%nat. split; [lia|]. eexists _, (S k). split; [exact Hev4|].
  cbn [out_view]. rewrite Hv2. repeat split; try lia; try done.
  - f_equal. lia.
  - cbn. lia.
  - rewrite wrap_id by (unfold fits; lia). lia.
Qed.

(** One uninterrupted read into the command block. *)
Lemma read_command_block_packet s0 l s j n off :
  let block := CommandBlock (MS_State (load MS_Interface_addr s0)) in
  out_packet (ep_trace (trace s0)) p -> (n < fuel)%nat -> Z.of_nat n < 2 ^ 16 ->
  evolves l s0 s -> out_view l = (0%nat, j) -> (j + n <= length p)%nat ->
  (off + n <= length block)%nat ->
  wp (transfer_unless_reset MS_Interface_addr (read_command_block MS_Interface_addr off (Z.of_nat n)))
     (fun ok s' => ok = true /\ exists l',
        evolves l' (with_block (take off block ++ take n (drop j p) ++ drop (off + n) block) s0) s' /\
        out_view l' = (0%nat, (j + n)%nat)) s.
Proof.
  intros block Hp Hf H16 Hev Hv Hj Hoff. unfold transfer_unless_reset.
  destruct fuel as [|f] eqn:Ef; [lia|]. cbn [loop]. unfold read_command_block. rewrite !wp_bind, wp_get.
  assert (Hb : CommandBlock (MS_State (load MS_Interface_addr s)) = block).
  { unfold block. cbn. by rewrite (evolves_Class_Interfaces _ _ _ Hev). }
  rewrite Hb, wp_bind.
  eapply wp_mono; [|apply (Read_Stream_packet s0 l s j n); rewrite ?Ef; try done].
  2: { rewrite length_drop. lia. }
  intros r s1 (-> & l1 & Hev1 & Hv1). rewrite wp_bind. unfold assign. rewrite wp_put, !wp_ret.
  split; [done|]. exists l1. split; [|done]. rewrite drop_drop.
  by apply evolves_with_block.
Qed.
End ReceiveCommand.

(** The checks look at the first fifteen bytes only. *)
Lemma valid_command_block_prefix n l l' :
  take 15 l = take 15 l' -> valid_command_block n l = valid_command_block n l'.
Proof.
  intros E. assert (Hm : forall off k, (off + k <= 15)%nat -> member off k l = member off k l').
  { intros off k Hk. unfold member. rewrite !take_drop_commute.
    rewrite <- (Nat.min_l (off + k) 15), <- !take_take, E by lia. done. }
  unfold valid_command_block, cbw_Signature, cbw_LUN, cbw_Flags, cbw_SCSICommandLength.
  by rewrite !Hm by lia.
Qed.

Lemma valid_length n l : valid_command_block n l = true -> cbw_SCSICommandLength l <= 16.
Proof.
  unfold valid_command_block. intros [_ Hl]%negb_true_iff%orb_false_iff. lia.
Qed.

(** A valid command block, from its bytes: it starts with USBC, its reserved flag
    bits are 0, the logical unit exists, and the command has 1 to 16 bytes. *)
Definition bulk_only_valid (luns : Z) (p : bytes) : Prop :=
  take 4 p = [0x55; 0x53; 0x42; 0x43] /\
  exists flags lun len, take 3 (drop 12 p) = [flags; lun; len] /\
    flags mod 32 = 0 /\ lun < luns /\ 1 <= len <= 16.

Lemma signature_bytes p :
  all_bytes p -> (4 <= length p)%nat -> cbw_Signature p = MS_CBW_SIGNATURE <-> take 4 p = [0x55; 0x53; 0x42; 0x43].
Proof.
  intros Hall Hlen. unfold cbw_Signature, member. rewrite drop_0. split; [|by intros ->].
  intros Hs. assert (Hl : length (take 4 p) = 4%nat) by (rewrite length_take; lia).
  rewrite <- (le_bytes_val (take 4 p)) by (by apply Forall_take). by rewrite Hs, Hl.
Qed.

Lemma valid_command_block_correct luns p :
  all_bytes p -> (15 <= length p)%nat -> valid_command_block luns p = true <-> bulk_only_valid luns p.
Proof.
  intros Hall Hlen. unfold valid_command_block, bulk_only_valid.
  rewrite negb_true_iff, !orb_false_iff, !negb_false_iff, !Z.eqb_eq.
  rewrite (signature_bytes p Hall) by lia.
  destruct (lookup_lt_is_Some_2 p 12) as [flags H12]; [lia|]. destruct (lookup_lt_is_Some_2 p 13) as [lun H13]; [lia|].
  destruct (lookup_lt_is_Some_2 p 14) as [len H14]; [lia|].
  assert (E : drop 12 p = flags :: lun :: len :: drop 15 p).
  { by rewrite (drop_S _ _ _ H12), (drop_S _ _ _ H13), (drop_S _ _ _ H14). }
  assert (drop 13 p = lun :: len :: drop 15 p) as E13 by (by rewrite (drop_S _ _ _ H13), (drop_S _ _ _ H14)).
  unfold cbw_LUN, cbw_Flags, cbw_SCSICommandLength, member. rewrite E, E13, (drop_S _ _ _ H14).
  cbn [take drop le_val Z.shiftl]. rewrite !Z.lor_0_r.
  change 0x1F with (Z.ones 5). rewrite Z.land_ones by lia. change (2 ^ 5) with 32.
  split.
  - intros ((((Hs & Hl) & Hfl) & Hz) & Hmax). split; [done|]. exists flags, lun, len.
    assert (0 <= len) by (by apply (proj1 (Forall_lookup _ _) Hall 14%nat len)). repeat split; done || lia.
  - intros (Hs & f & u & n & [= <- <- <-] & Hf & Hu & Hn). repeat split; try done; lia.
Qed.

(** C29: the command block decision.  When the host has sent a command block of 31
    bytes, [MS_Device_ReadInCommandBlock] returns whether it is valid: it starts
    with the signature, the logical unit exists, the reserved flag bits are 0 and
    the command has 1 to 16 bytes.  A valid block is stored with its SCSI command and the
    packet acknowledged.  For an invalid one both endpoints are stalled, the OUT
    endpoint first, the packet is not acknowledged, and nothing of the command
    itself is stored. *)
Theorem MS_Device_ReadInCommandBlock_decides `{Calm} `{USB_Application} p s :
  let c := MS_Config (load MS_Interface_addr s) in
  let block := CommandBlock (MS_State (load MS_Interface_addr s)) in
  let n := (15 + Z.to_nat (cbw_SCSICommandLength p))%nat in
  out_packet (ep_trace (trace s)) p -> length p = 31%nat -> all_bytes p -> length block = 31%nat ->
  (16 < fuel)%nat ->
  wp (MS_Device_ReadInCommandBlock MS_Interface_addr)
     (fun ok s' => (ok = true <-> bulk_only_valid (TotalLUNs c) p) /\
        if ok then exists l, evolves l (with_block (take n p ++ drop n block) s) s' /\ out_view l = (1, 0)%nat
        else exists v v' l, out_view l = (0, 15)%nat /\
          evolves ([Wr UECONX (set_bit v' STALLRQ); Rd UECONX v';
                    Wr UENUM (u8 (Z.land (ep_Address (MS_DataINEndpoint c)) ENDPOINT_EPNUM_MASK));
                    Wr UECONX (set_bit v STALLRQ); Rd UECONX v] ++ l)
                  (with_block (take 15 p ++ drop 15 block) s) s') s.
Proof.
  intros c block n Hp Hlen Hall Hblk Hf. pose proof (valid_command_block_correct (TotalLUNs c) p Hall ltac:(lia)) as Hspec.
  unfold MS_Device_ReadInCommandBlock.
  rewrite wp_bind, wp_get. fold c. rewrite wp_bind. unfold Endpoint_SelectEndpoint at 1.
  eapply at_wr; [apply evolves_refl|done|]. intros s1 Hev1. rewrite wp_bind.
  eapply wp_mono; [|eapply (read_command_block_packet p s _ s1 0 15 0 Hp); [lia|done|exact Hev1|done|lia|]].
  2: { fold block. lia. }
  intros ok s2 (-> & l2 & Hev2 & Hv2). fold block in Hev2. cbn [take drop Nat.add app] in Hev2.
  rewrite drop_0 in Hev2. cbn [negb]. rewrite wp_bind, wp_get.
  set (block1 := take 15 p ++ drop 15 block) in *. set (s' := with_block block1 s) in *.
  assert (Hb2 : CommandBlock (MS_State (load MS_Interface_addr s2)) = block1).
  { cbn. by rewrite (evolves_Class_Interfaces _ _ _ Hev2). }
  assert (Ht : take 15 block1 = take 15 p).
  { unfold block1. rewrite take_app_le, take_take by (rewrite length_take; lia). done. }
  rewrite Hb2, (valid_command_block_prefix _ block1 p Ht).
  destruct (valid_command_block (TotalLUNs c) p) eqn:Hvalid; cbn [negb].
  - assert (Hcl : cbw_SCSICommandLength block1 = cbw_SCSICommandLength p).
    { unfold cbw_SCSICommandLength, member. rewrite !take_drop_commute. cbn [Nat.add]. by rewrite Ht. }
    pose proof (valid_length _ _ Hvalid).
    assert (Hl0 : 0 <= cbw_SCSICommandLength p).
    { apply (le_val_fits (member 14 1 p)). by apply Forall_take, Forall_drop. }
    rewrite Hcl, wp_bind, <- (Z2Nat.id (cbw_SCSICommandLength p)) by done.
    set (m := Z.to_nat (cbw_SCSICommandLength p)) in *.
    eapply wp_mono; [|apply (read_command_block_packet p s' l2 s2 15 m 15 Hp)]; try done; try lia.
    2: { change (15 + m <= length block1)%nat. unfold block1. rewrite length_app, length_take, length_drop. lia. }
    intros ok s3 (-> & l3 & Hev3 & Hv3). cbn [negb]. rewrite wp_bind.
    eapply at_clear; [exact Hev3|done|]. intros v s4 Hev4 _. rewrite wp_ret. split; [exact Hspec|].
    exists (out_ack v ++ l3). split; [|cbn [out_view out_ack app]; by rewrite ClearOUT_RXOUTI, Hv3].
    change (CommandBlock (MS_State (load MS_Interface_addr s'))) with block1 in Hev4.
    replace (take n p ++ drop n block) with
      (take 15 block1 ++ take m (drop 15 p) ++ drop (15 + m) block1); [exact Hev4|].
    rewrite Ht, app_assoc, take_take_drop. f_equal. unfold block1.
    rewrite drop_app_ge, length_take, drop_drop by (rewrite length_take; lia). f_equal. lia.
  - rewrite wp_bind. eapply at_set; [exact Hev2|done|]. intros v s3 Hev3. rewrite wp_bind.
    eapply at_wr; [exact Hev3|done|]. intros s4 Hev4. rewrite wp_bind.
    eapply at_set; [exact Hev4|done|]. intros v' s5 Hev5. rewrite wp_ret. split; [exact Hspec|].
    exists v, v', l2. by split.
Qed.
