(* ===== verification/AudioClass.v ===== *)
(** * The audio class driver

    [LUFA/Drivers/USB/Class/Device/AudioClassDevice.c] and [.h].  The property callbacks
    of the application take [DataLength] and [Data] by reference, or [NULL] to ask
    whether the property exists; they are the class [Audio_Application]. *)
From S2P Require Import Prelude Machine Rely Descriptors Endpoint ControlStream DeviceStandardReq EndpointStream HIDClass ClassDriver.

Definition AUDIO_REQ_SetCurrent := 0x01.
Definition AUDIO_REQ_SetMinimum := 0x02.
Definition AUDIO_REQ_SetMaximum := 0x03.
Definition AUDIO_REQ_SetResolution := 0x04.
Definition AUDIO_REQ_GetCurrent := 0x81.
Definition AUDIO_REQ_GetMinimum := 0x82.
Definition AUDIO_REQ_GetMaximum := 0x83.
Definition AUDIO_REQ_GetResolution := 0x84.
Definition AUDIO_REQ_GetStatus := 0xFF.

Abbreviation AudioInterface := (address USB_ClassInfo_Audio_Device_t).

Definition set_InterfaceEnabled (b : bool) (i : USB_ClassInfo_Audio_Device_t) :=
  {| Audio_Config := Audio_Config i; InterfaceEnabled := b |}.

(** [CALLBACK_Audio_Device_GetSetEndpointProperty] takes the property, the
    endpoint address and the control; [..InterfaceProperty] the property, the
    entity and the parameter.  Then the length and the data, [None] for [NULL]. *)
Class Audio_Application := {
  CALLBACK_Audio_Device_GetSetEndpointProperty :
    AudioInterface -> Z -> Z -> Z -> option (Z * bytes) -> M (bool * (Z * bytes));
  CALLBACK_Audio_Device_GetSetInterfaceProperty :
    AudioInterface -> Z -> Z -> Z -> option (Z * bytes) -> M (bool * (Z * bytes));
  EVENT_Audio_Device_StreamStartStop : AudioInterface -> M unit
}.

(** [Audio_Device_Event_Stub], the alias of the event if it is not defined. *)
Definition Audio_Device_Event_Stub : M unit := ret tt.

Section AudioClass.
Context `{Env} `{USB_Application} `{Audio_Application}.
Context (AudioInterfaceInfo : AudioInterface).

Let config : st -> Audio_Config_t := fun s => Audio_Config (load AudioInterfaceInfo s).
Let recipient (req : USB_Request_Header_t) : Z := Z.land (bmRequestType req) CONTROL_REQTYPE_RECIPIENT.

(** The request is for another interface or endpoint. *)
Definition not_for_audio (c : Audio_Config_t) (req : USB_Request_Header_t) : bool :=
  let index := Z.land (wIndex req) 0xFF in
  if recipient req =? REQREC_INTERFACE then
    negb (index =? Audio_ControlInterfaceNumber c) && negb (index =? Audio_StreamingInterfaceNumber c)
  else if recipient req =? REQREC_ENDPOINT then
    negb (index =? ep_Address (Audio_DataINEndpoint c))
    && negb (index =? ep_Address (Audio_DataOUTEndpoint c))
  else false.

Definition set_interface : M unit :=
  Endpoint_ClearSETUP ;;
  Endpoint_ClearStatusStage ;;
  req ← get USB_ControlRequest;
  assign AudioInterfaceInfo (set_InterfaceEnabled (negb (Z.land (wValue req) 0xFF =? 0))) ;;
  EVENT_Audio_Device_StreamStartStop AudioInterfaceInfo.

(** The callback for the recipient of the request, with its arguments; [None] for
    any other recipient. *)
Definition property_callback (req : USB_Request_Header_t)
    : option (option (Z * bytes) -> M (bool * (Z * bytes))) :=
  if recipient req =? REQREC_ENDPOINT then
    Some (CALLBACK_Audio_Device_GetSetEndpointProperty AudioInterfaceInfo
            (bRequest req) (u8 (wIndex req)) (u8 (Z.shiftr (wValue req) 8)))
  else if recipient req =? REQREC_INTERFACE then
    Some (CALLBACK_Audio_Device_GetSetInterfaceProperty AudioInterfaceInfo
            (bRequest req) (u8 (Z.shiftr (wIndex req) 8)) (wValue req))
  else None.

(** [indet]: what the uninitialised [Value] array holds. *)
Definition set_property (indet : bytes) : M unit :=
  req ← get USB_ControlRequest;
  match property_callback req with
  | None => ret tt
  | Some callback =>
      '(ok, _) ← callback None;
      if negb ok then ret tt
      else
        req ← get USB_ControlRequest;
        let ValueLength := wLength req in
        Endpoint_ClearSETUP ;;
        '(_, Value) ← Endpoint_Read_Control_Stream_LE (take (Z.to_nat ValueLength) indet) ValueLength;
        Endpoint_ClearIN ;;
        callback (Some (ValueLength, Value)) ;;
        ret tt
  end.

Definition get_property (indet : bytes) : M unit :=
  req ← get USB_ControlRequest;
  match property_callback req with
  | None => ret tt
  | Some callback =>
      let ValueLength := wLength req in
      '(ok, (ValueLength, Value)) ← callback (Some (ValueLength, take (Z.to_nat ValueLength) indet));
      if negb ok then ret tt
      else
        Endpoint_ClearSETUP ;;
        Endpoint_Write_Control_Stream_LE Value ValueLength ;;
        Endpoint_ClearOUT
  end.

Definition Audio_Device_ProcessControlRequest (indet : bytes) : M unit :=
  setup ← Endpoint_IsSETUPReceived;
  if negb setup then ret tt
  else
    req ← get USB_ControlRequest;
    c ← get config;
    if not_for_audio c req then ret tt
    else if bRequest req =? REQ_SetInterface then
      when (bmRequestType req =? request_type REQDIR_HOSTTODEVICE REQTYPE_STANDARD REQREC_INTERFACE)
        set_interface
    else if bRequest req =? AUDIO_REQ_GetStatus then
      when ((bmRequestType req =? request_type REQDIR_HOSTTODEVICE REQTYPE_CLASS REQREC_INTERFACE)
            || (bmRequestType req =? request_type REQDIR_HOSTTODEVICE REQTYPE_CLASS REQREC_ENDPOINT))
        (Endpoint_ClearSETUP ;; Endpoint_ClearStatusStage)
    else if (bRequest req =? AUDIO_REQ_SetCurrent) || (bRequest req =? AUDIO_REQ_SetMinimum)
            || (bRequest req =? AUDIO_REQ_SetMaximum) || (bRequest req =? AUDIO_REQ_SetResolution)
    then set_property indet
    else if (bRequest req =? AUDIO_REQ_GetCurrent) || (bRequest req =? AUDIO_REQ_GetMinimum)
            || (bRequest req =? AUDIO_REQ_GetMaximum) || (bRequest req =? AUDIO_REQ_GetResolution)
    then get_property indet
    else ret tt.

Definition configured_Audio (i : USB_ClassInfo_Audio_Device_t) : USB_ClassInfo_Audio_Device_t :=
  let c := Audio_Config i in
  {| Audio_Config :=
       {| Audio_ControlInterfaceNumber := Audio_ControlInterfaceNumber c;
          Audio_StreamingInterfaceNumber := Audio_StreamingInterfaceNumber c;
          Audio_DataINEndpoint := set_ep_Type EP_TYPE_ISOCHRONOUS (Audio_DataINEndpoint c);
          Audio_DataOUTEndpoint := set_ep_Type EP_TYPE_ISOCHRONOUS (Audio_DataOUTEndpoint c) |};
     InterfaceEnabled := false |}.

Definition Audio_Device_ConfigureEndpoints : M bool :=
  assign AudioInterfaceInfo configured_Audio ;;
  c ← get config;
  configure_tables [Audio_DataINEndpoint c; Audio_DataOUTEndpoint c].

(** ** Samples: the inline functions of [AudioClassDevice.h] *)

Definition Audio_Device_USBTask : M unit := ret tt.

Definition audio_offline : M bool :=
  off ← not_configured;
  if (off : bool) then ret true
  else e ← get (fun s => InterfaceEnabled (load AudioInterfaceInfo s)); ret (negb e).

Definition Audio_Device_IsSampleReceived : M bool :=
  off ← audio_offline;
  if (off : bool) then ret false
  else
    c ← get config;
    Endpoint_SelectEndpoint (ep_Address (Audio_DataOUTEndpoint c)) ;;
    Endpoint_IsOUTReceived.

Definition Audio_Device_IsReadyForNextSample : M bool :=
  off ← audio_offline;
  if (off : bool) then ret false
  else
    c ← get config;
    Endpoint_SelectEndpoint (ep_Address (Audio_DataINEndpoint c)) ;;
    Endpoint_IsINReady.

(** [if (!(Endpoint_BytesInEndpoint())) Endpoint_ClearOUT();] *)
Definition release_if_empty : M unit :=
  n ← Endpoint_BytesInEndpoint; when (n =? 0) Endpoint_ClearOUT.

Definition Audio_Device_ReadSample8 : M Z :=
  Sample ← Endpoint_Read_8; release_if_empty ;; ret (sgn 8 Sample).

Definition Audio_Device_ReadSample16 : M Z :=
  Sample ← Endpoint_Read_16_LE; release_if_empty ;; ret (sgn 16 Sample).

(** C leaves open which operand of [|] is evaluated first. *)
Definition Audio_Device_ReadSample24 (left_first : bool) : M Z :=
  '(x, y) ← (if left_first then x ← Endpoint_Read_8; y ← Endpoint_Read_16_LE; ret (x, y)
             else y ← Endpoint_Read_16_LE; x ← Endpoint_Read_8; ret (x, y));
  release_if_empty ;;
  ret (sgn 32 (Z.lor (Z.shiftl x 16) y)).

(** [if (Endpoint_BytesInEndpoint() == Config.DataINEndpoint.Size) Endpoint_ClearIN();] *)
Definition send_if_full : M unit :=
  n ← Endpoint_BytesInEndpoint;
  c ← get config;
  when (n =? ep_Size (Audio_DataINEndpoint c)) Endpoint_ClearIN.

Definition Audio_Device_WriteSample8 (Sample : Z) : M unit :=
  Endpoint_Write_8 Sample ;; send_if_full.

Definition Audio_Device_WriteSample16 (Sample : Z) : M unit :=
  Endpoint_Write_16_LE (u16 Sample) ;; send_if_full.

Definition Audio_Device_WriteSample24 (Sample : Z) : M unit :=
  Endpoint_Write_16_LE (u16 Sample) ;;
  Endpoint_Write_8 (Z.shiftr Sample 16) ;;
  send_if_full.
End AudioClass.

(** ** Samples from the host

    The bank of the endpoint holds the bytes [data], and yields them in order. *)
Definition sample_bank `{Env} (t0 : list event) (data : bytes) : Prop :=
  forall l b, data !! data_reads l = Some b -> respond (l ++ t0) UEDATX = b.

Section Samples.
Context `{Masked}.

Lemma read_sample_byte s0 l s data b Q :
  runs l s0 s -> sample_bank (trace s0) data -> data !! data_reads l = Some b ->
  (forall s', runs (Rd UEDATX b :: l) s0 s' -> Q b s') -> wp (rd UEDATX) Q s.
Proof.
  intros Hr Hb Hd HQ. eapply run_rd; [exact Hr|]. intros v s' Hr' Hv.
  rewrite (Hb _ _ Hd) in Hv. subst v. by apply HQ.
Qed.

Lemma read_sample_16 s0 l s data b0 b1 Q :
  runs l s0 s -> sample_bank (trace s0) data ->
  data !! data_reads l = Some b0 -> data !! S (data_reads l) = Some b1 ->
  (forall s', runs (Rd UEDATX b1 :: Rd UEDATX b0 :: l) s0 s' -> Q (le_val [b0; b1]) s') ->
  wp Endpoint_Read_16_LE Q s.
Proof.
  intros Hr Hb Hd0 Hd1 HQ. unfold Endpoint_Read_16_LE. rewrite wp_bind.
  eapply read_sample_byte; [exact Hr|exact Hb|exact Hd0|]. intros s1 Hr1. rewrite wp_bind.
  eapply read_sample_byte; [exact Hr1|exact Hb|exact Hd1|]. intros s2 Hr2. by apply HQ.
Qed.

(** Handing back the bank returns nothing. *)
Lemma release_if_empty_spec s0 l s Q :
  runs l s0 s -> (forall s', Q tt s') -> wp release_if_empty Q s.
Proof.
  intros Hr HQ. unfold release_if_empty, Endpoint_BytesInEndpoint. rewrite !wp_bind.
  eapply run_rd; [exact Hr|]. intros h s1 Hr1 _. rewrite wp_bind.
  eapply run_rd; [exact Hr1|]. intros n s2 Hr2 _. rewrite wp_ret.
  destruct (_ =? 0); [|apply HQ]. eapply run_clear; [exact Hr2|]. intros. apply HQ.
Qed.

Lemma read_sample_24 (left_first : bool) s0 data b0 b1 b2 Q :
  sample_bank (trace s0) data -> data = [b0; b1; b2] ->
  (forall s', Q (sgn 32 (if left_first then Z.lor (Z.shiftl b0 16) (le_val [b1; b2])
                         else Z.lor (Z.shiftl b2 16) (le_val [b0; b1]))) s') ->
  wp (Audio_Device_ReadSample24 left_first) Q s0.
Proof.
  intros Hb -> HQ. unfold Audio_Device_ReadSample24. rewrite wp_bind. destruct left_first; rewrite wp_bind.
  - eapply read_sample_byte; [apply runs_refl|exact Hb|done|]. intros s1 Hr1. rewrite wp_bind.
    eapply read_sample_16; [exact Hr1|exact Hb|done|done|]. intros s2 Hr2. rewrite wp_ret, wp_bind.
    eapply release_if_empty_spec; [exact Hr2|]. apply HQ.
  - eapply read_sample_16; [apply runs_refl|exact Hb|done|done|]. intros s1 Hr1. rewrite wp_bind.
    eapply read_sample_byte; [exact Hr1|exact Hb|done|]. intros s2 Hr2. rewrite wp_ret, wp_bind.
    eapply release_if_empty_spec; [exact Hr2|]. apply HQ.
Qed.

(** What the audio driver makes of a little-endian sample of the host.  A 16-bit
    sample is read as it was sent.  Of a 24-bit sample the driver never restores
    the sign: if the compiler evaluates the right operand of [|] first, the result
    is the sample modulo [2^24], so that a negative sample becomes a positive one;
    if it evaluates the left operand first, the lowest byte also becomes the
    highest. *)
Lemma Audio_Device_ReadSample_values s :
  (forall x, - 2 ^ 15 <= x < 2 ^ 15 -> sample_bank (trace s) (le_bytes 2 x) ->
     wp Audio_Device_ReadSample16 (fun r _ => r = x) s) /\
  (forall x left_first, - 2 ^ 23 <= x < 2 ^ 23 -> sample_bank (trace s) (le_bytes 3 x) ->
     wp (Audio_Device_ReadSample24 left_first)
        (fun r _ => r = if left_first : bool then (x mod 2 ^ 8) * 2 ^ 16 + x / 2 ^ 8 mod 2 ^ 16
                        else x mod 2 ^ 24) s).
Proof.
  split.
  - intros x Hx Hb. unfold Audio_Device_ReadSample16. rewrite wp_bind.
    eapply read_sample_16; [apply runs_refl|exact Hb|done|done|]. intros s1 Hr1. rewrite wp_bind.
    eapply release_if_empty_spec; [exact Hr1|]. intros s2. rewrite wp_ret.
    change [u8 x; u8 (Z.shiftr x 8)] with (le_bytes 2 x). rewrite le_val_bytes.
    unfold sgn. rewrite !wrap_wrap. unfold wrap. change (8 * Z.of_nat 2) with 16. change (16 - 1) with 15.
    destruct (Z.ltb_spec (x mod 2 ^ 16) (2 ^ 15)); lia_div.
  - intros x lf Hx Hb. eapply read_sample_24; [exact Hb|done|]. intros _.
    assert (Hw : forall y, 0 <= y < 2 ^ 24 -> sgn 32 y = y).
    { intros y Hy. unfold sgn. rewrite !wrap_id by (unfold fits; lia). by rewrite (proj2 (Z.ltb_lt _ _)) by lia. }
    destruct lf.
    + change [u8 (Z.shiftr x 8); u8 (Z.shiftr (Z.shiftr x 8) 8)] with (le_bytes 2 (Z.shiftr x 8)).
      rewrite le_val_bytes, lor_fields by (lia || by apply wrap_fits).
      rewrite Hw by (unfold wrap; lia_div). rewrite Z.shiftr_div_pow2 by lia. unfold wrap. lia_div.
    + change [u8 x; u8 (Z.shiftr x 8)] with (le_bytes 2 x).
      rewrite le_val_bytes, lor_fields, Z.shiftr_shiftr, Z.shiftr_div_pow2 by (lia || by apply wrap_fits).
      rewrite Hw by (unfold wrap; lia_div). unfold wrap. lia_div.
Qed.
End Samples.
