(* ===== verification/RNDISClass.v ===== *)
(** * The RNDIS class driver

    [LUFA/Drivers/USB/Class/Device/RNDISClassDevice.c]: a network adapter.  The
    host's control messages arrive in [MessageBuffer], and the response is
    written over the message in the same buffer; the structures the C code lays
    over it are the 32-bit words at their offsets, and an access outside of the
    buffer is [None]. *)
From S2P Require Import Prelude Machine Rely Descriptors Endpoint ControlStream DeviceStandardReq EndpointStream HIDClass ClassDriver.

Definition RNDIS_REQ_SendEncapsulatedCommand := 0x00.
Definition RNDIS_REQ_GetEncapsulatedResponse := 0x01.
Definition RNDIS_NOTIF_ResponseAvailable := 0x01.

Definition RNDIS_Uninitialized := 0.
Definition RNDIS_Initialized := 1.
Definition RNDIS_Data_Initialized := 2.

(** Message and response types *)
Definition REMOTE_NDIS_PACKET_MSG := 0x00000001.
Definition REMOTE_NDIS_INITIALIZE_MSG := 0x00000002.
Definition REMOTE_NDIS_HALT_MSG := 0x00000003.
Definition REMOTE_NDIS_QUERY_MSG := 0x00000004.
Definition REMOTE_NDIS_SET_MSG := 0x00000005.
Definition REMOTE_NDIS_RESET_MSG := 0x00000006.
Definition REMOTE_NDIS_KEEPALIVE_MSG := 0x00000008.
Definition REMOTE_NDIS_INITIALIZE_CMPLT := 0x80000002.
Definition REMOTE_NDIS_QUERY_CMPLT := 0x80000004.
Definition REMOTE_NDIS_SET_CMPLT := 0x80000005.
Definition REMOTE_NDIS_RESET_CMPLT := 0x80000006.
Definition REMOTE_NDIS_KEEPALIVE_CMPLT := 0x80000008.

Definition REMOTE_NDIS_STATUS_SUCCESS := 0x00000000.
Definition REMOTE_NDIS_STATUS_NOT_SUPPORTED := 0xC00000BB.
Definition REMOTE_NDIS_MEDIA_STATE_CONNECTED := 0.
Definition REMOTE_NDIS_MEDIUM_802_3 := 0.
Definition REMOTE_NDIS_DF_CONNECTIONLESS := 1.
Definition REMOTE_NDIS_VERSION_MAJOR := 1.
Definition REMOTE_NDIS_VERSION_MINOR := 0.
Definition NDIS_HardwareStatus_Ready := 0.
Definition ETHERNET_FRAME_SIZE_MAX := 1500.

(** Object identifiers *)
Definition OID_GEN_SUPPORTED_LIST := 0x00010101.
Definition OID_GEN_HARDWARE_STATUS := 0x00010102.
Definition OID_GEN_MEDIA_SUPPORTED := 0x00010103.
Definition OID_GEN_MEDIA_IN_USE := 0x00010104.
Definition OID_GEN_MAXIMUM_FRAME_SIZE := 0x00010106.
Definition OID_GEN_LINK_SPEED := 0x00010107.
Definition OID_GEN_TRANSMIT_BLOCK_SIZE := 0x0001010A.
Definition OID_GEN_RECEIVE_BLOCK_SIZE := 0x0001010B.
Definition OID_GEN_VENDOR_ID := 0x0001010C.
Definition OID_GEN_VENDOR_DESCRIPTION := 0x0001010D.
Definition OID_GEN_CURRENT_PACKET_FILTER := 0x0001010E.
Definition OID_GEN_MAXIMUM_TOTAL_SIZE := 0x00010111.
Definition OID_GEN_MEDIA_CONNECT_STATUS := 0x00010114.
Definition OID_GEN_PHYSICAL_MEDIUM := 0x00010202.
Definition OID_GEN_XMIT_OK := 0x00020101.
Definition OID_GEN_RCV_OK := 0x00020102.
Definition OID_GEN_XMIT_ERROR := 0x00020103.
Definition OID_GEN_RCV_ERROR := 0x00020104.
Definition OID_GEN_RCV_NO_BUFFER := 0x00020105.
Definition OID_802_3_PERMANENT_ADDRESS := 0x01010101.
Definition OID_802_3_CURRENT_ADDRESS := 0x01010102.
Definition OID_802_3_MULTICAST_LIST := 0x01010103.
Definition OID_802_3_MAXIMUM_LIST_SIZE := 0x01010104.
Definition OID_802_3_RCV_ERROR_ALIGNMENT := 0x01020101.
Definition OID_802_3_XMIT_ONE_COLLISION := 0x01020102.
Definition OID_802_3_XMIT_MORE_COLLISIONS := 0x01020103.

(** Sizes of the packed message structures *)
Definition sizeof_RNDIS_Message_Header_t := 8.
Definition sizeof_RNDIS_Packet_Message_t := 44.
Definition sizeof_RNDIS_Initialize_Complete_t := 52.
Definition sizeof_RNDIS_KeepAlive_Complete_t := 16.
Definition sizeof_RNDIS_Reset_Complete_t := 16.
Definition sizeof_RNDIS_Set_Complete_t := 16.
Definition sizeof_RNDIS_Query_Complete_t := 24.

(** [AdapterSupportedOIDList], in FLASH *)
Definition AdapterSupportedOIDList : list Z :=
  [OID_GEN_SUPPORTED_LIST; OID_GEN_PHYSICAL_MEDIUM; OID_GEN_HARDWARE_STATUS; OID_GEN_MEDIA_SUPPORTED;
   OID_GEN_MEDIA_IN_USE; OID_GEN_MAXIMUM_FRAME_SIZE; OID_GEN_MAXIMUM_TOTAL_SIZE; OID_GEN_LINK_SPEED;
   OID_GEN_TRANSMIT_BLOCK_SIZE; OID_GEN_RECEIVE_BLOCK_SIZE; OID_GEN_VENDOR_ID;
   OID_GEN_VENDOR_DESCRIPTION; OID_GEN_CURRENT_PACKET_FILTER; OID_GEN_MAXIMUM_TOTAL_SIZE;
   OID_GEN_MEDIA_CONNECT_STATUS; OID_GEN_XMIT_OK; OID_GEN_RCV_OK; OID_GEN_XMIT_ERROR;
   OID_GEN_RCV_ERROR; OID_GEN_RCV_NO_BUFFER; OID_802_3_PERMANENT_ADDRESS; OID_802_3_CURRENT_ADDRESS;
   OID_802_3_MULTICAST_LIST; OID_802_3_MAXIMUM_LIST_SIZE; OID_802_3_RCV_ERROR_ALIGNMENT;
   OID_802_3_XMIT_ONE_COLLISION; OID_802_3_XMIT_MORE_COLLISIONS].
Definition AdapterSupportedOIDList_bytes : bytes := flat_map (le_bytes 4) AdapterSupportedOIDList.

Definition RNDIS_DEVICE_MIN_MESSAGE_BUFFER_LENGTH :=
  Z.of_nat (length AdapterSupportedOIDList_bytes) + sizeof_RNDIS_Query_Complete_t.

(** ** Access to the message buffer *)

Notation "'let*' x ':=' m 'in' k" := (match m with Some x => k | None => None end)
  (at level 10, x pattern, m at level 100, k at level 200, only parsing) : avr_scope.

(** The 32-bit object at offset [off]. *)
Definition get32 (off : Z) (b : bytes) : option Z :=
  if (0 <=? off) && (off + 4 <=? Z.of_nat (length b)) then
    Some (le_val (take 4 (drop (Z.to_nat off) b)))
  else None.

(** [memcpy] of [data] to offset [off]. *)
Definition put_bytes (off : Z) (data b : bytes) : option bytes :=
  if (0 <=? off) && (off + Z.of_nat (length data) <=? Z.of_nat (length b)) then
    Some (take (Z.to_nat off) b ++ data ++ drop (Z.to_nat off + length data) b)
  else None.
Definition put32 (off x : Z) (b : bytes) : option bytes := put_bytes off (le_bytes 4 x) b.

(** Assignments to 32-bit members, in order. *)
Fixpoint put_words (l : list (Z * Z)) (b : bytes) : option bytes :=
  match l with
  | [] => Some b
  | (off, x) :: l => let* b := put32 off x b in put_words l b
  end.

(** Offsets of the members of the message structures *)
Definition off_MessageType := 0.
Definition off_MessageLength := 4.
Definition off_RequestId := 8.
Definition off_Reset_Status := 8.
Definition off_AddressingReset := 12.
Definition off_Status := 12.
Definition off_Oid := 12.
Definition off_InformationBufferLength := 16.
Definition off_InformationBufferOffset_Message := 20.
Definition off_InformationBufferOffset := 20.

(** ** [RNDIS_Device_ProcessNDISQuery]

    [None]: an access outside of the buffer; [Some None]: it returns false;
    [Some (Some (n, b))]: it returns true with [*ResponseSize = n]. *)
Definition RNDIS_Device_ProcessNDISQuery (i : USB_ClassInfo_RNDIS_Device_t) (OId ResponseData : Z)
    (b : bytes) : option (option (Z * bytes)) :=
  let oid x := OId =? x in
  let respond_bytes data :=
    let* b := put_bytes ResponseData data b in Some (Some (Z.of_nat (length data), b)) in
  let respond32 x := respond_bytes (le_bytes 4 x) in
  if oid OID_GEN_SUPPORTED_LIST then respond_bytes AdapterSupportedOIDList_bytes
  else if oid OID_GEN_PHYSICAL_MEDIUM then respond32 0
  else if oid OID_GEN_HARDWARE_STATUS then respond32 NDIS_HardwareStatus_Ready
  else if oid OID_GEN_MEDIA_SUPPORTED || oid OID_GEN_MEDIA_IN_USE then respond32 REMOTE_NDIS_MEDIUM_802_3
  else if oid OID_GEN_VENDOR_ID then respond32 0x00FFFFFF
  else if oid OID_GEN_MAXIMUM_FRAME_SIZE || oid OID_GEN_TRANSMIT_BLOCK_SIZE
          || oid OID_GEN_RECEIVE_BLOCK_SIZE then respond32 ETHERNET_FRAME_SIZE_MAX
  else if oid OID_GEN_VENDOR_DESCRIPTION then
    let* n := strlen (AdapterVendorDescription (RNDIS_Config i)) in
    respond_bytes (take (Z.to_nat (u16 (n + 1))) (AdapterVendorDescription (RNDIS_Config i)))
  else if oid OID_GEN_MEDIA_CONNECT_STATUS then respond32 REMOTE_NDIS_MEDIA_STATE_CONNECTED
  else if oid OID_GEN_LINK_SPEED then respond32 100000
  else if oid OID_802_3_PERMANENT_ADDRESS || oid OID_802_3_CURRENT_ADDRESS then
    respond_bytes (AdapterMACAddress (RNDIS_Config i))
  else if oid OID_802_3_MAXIMUM_LIST_SIZE then respond32 1
  else if oid OID_GEN_CURRENT_PACKET_FILTER then respond32 (CurrPacketFilter (RNDIS_State i))
  else if oid OID_GEN_XMIT_OK || oid OID_GEN_RCV_OK || oid OID_GEN_XMIT_ERROR || oid OID_GEN_RCV_ERROR
          || oid OID_GEN_RCV_NO_BUFFER || oid OID_802_3_RCV_ERROR_ALIGNMENT
          || oid OID_802_3_XMIT_ONE_COLLISION || oid OID_802_3_XMIT_MORE_COLLISIONS then respond32 0
  else if oid OID_GEN_MAXIMUM_TOTAL_SIZE then
    respond32 (u16 (MessageBufferLength (RNDIS_Config i) + ETHERNET_FRAME_SIZE_MAX))
  else Some None.

(** ** Field assignments *)

Definition set_RNDIS_State (t : RNDIS_State_t) (i : USB_ClassInfo_RNDIS_Device_t) :=
  {| RNDIS_Config := RNDIS_Config i; RNDIS_State := t |}.
Definition set_ResponseReady (x : bool) (i : USB_ClassInfo_RNDIS_Device_t) :=
  let t := RNDIS_State i in
  set_RNDIS_State {| ResponseReady := x; CurrRNDISState := CurrRNDISState t;
                     CurrPacketFilter := CurrPacketFilter t |} i.
Definition set_CurrRNDISState (x : Z) (i : USB_ClassInfo_RNDIS_Device_t) :=
  let t := RNDIS_State i in
  set_RNDIS_State {| ResponseReady := ResponseReady t; CurrRNDISState := x;
                     CurrPacketFilter := CurrPacketFilter t |} i.
Definition set_CurrPacketFilter (x : Z) (i : USB_ClassInfo_RNDIS_Device_t) :=
  let t := RNDIS_State i in
  set_RNDIS_State {| ResponseReady := ResponseReady t; CurrRNDISState := CurrRNDISState t;
                     CurrPacketFilter := x |} i.
Definition set_MessageBuffer (b : bytes) (i : USB_ClassInfo_RNDIS_Device_t) :=
  let c := RNDIS_Config i in
  {| RNDIS_Config :=
       {| RNDIS_ControlInterfaceNumber := RNDIS_ControlInterfaceNumber c;
          RNDIS_DataINEndpoint := RNDIS_DataINEndpoint c;
          RNDIS_DataOUTEndpoint := RNDIS_DataOUTEndpoint c;
          RNDIS_NotificationEndpoint := RNDIS_NotificationEndpoint c;
          AdapterVendorDescription := AdapterVendorDescription c;
          AdapterMACAddress := AdapterMACAddress c;
          MessageBuffer := Some b; MessageBufferLength := MessageBufferLength c |};
     RNDIS_State := RNDIS_State i |}.

(** ** [RNDIS_Device_ProcessNDISSet]

    The new interface, and whether it returns true. *)
Definition RNDIS_Device_ProcessNDISSet (i : USB_ClassInfo_RNDIS_Device_t) (OId SetData : Z)
    (b : bytes) : option (bool * USB_ClassInfo_RNDIS_Device_t) :=
  if OId =? OID_GEN_CURRENT_PACKET_FILTER then
    let* x := get32 SetData b in
    let i := set_CurrPacketFilter x i in
    Some (true, set_CurrRNDISState (if CurrPacketFilter (RNDIS_State i) =? 0
                                    then RNDIS_Initialized else RNDIS_Data_Initialized) i)
  else if OId =? OID_802_3_MULTICAST_LIST then Some (true, i)
  else Some (false, i).

(** ** [RNDIS_Device_ProcessRNDISControlMessage] *)

Definition process_INITIALIZE (i : USB_ClassInfo_RNDIS_Device_t) (b : bytes)
    : option USB_ClassInfo_RNDIS_Device_t :=
  let i := set_ResponseReady true i in
  let* b := put_words [(off_MessageType, REMOTE_NDIS_INITIALIZE_CMPLT);
                       (off_MessageLength, sizeof_RNDIS_Initialize_Complete_t)] b in
  let* id := get32 off_RequestId b in
  let* b := put_words [(off_RequestId, id); (off_Status, REMOTE_NDIS_STATUS_SUCCESS);
                       (16, REMOTE_NDIS_VERSION_MAJOR); (20, REMOTE_NDIS_VERSION_MINOR);
                       (24, REMOTE_NDIS_DF_CONNECTIONLESS); (28, REMOTE_NDIS_MEDIUM_802_3); (32, 1);
                       (36, sizeof_RNDIS_Packet_Message_t + ETHERNET_FRAME_SIZE_MAX);
                       (40, 0); (44, 0); (48, 0)] b in
  Some (set_CurrRNDISState RNDIS_Initialized (set_MessageBuffer b i)).

Definition process_HALT (i : USB_ClassInfo_RNDIS_Device_t) (b : bytes)
    : option USB_ClassInfo_RNDIS_Device_t :=
  let i := set_ResponseReady false i in
  let* b := put32 off_MessageLength 0 b in
  Some (set_CurrRNDISState RNDIS_Uninitialized (set_MessageBuffer b i)).

Definition process_QUERY (i : USB_ClassInfo_RNDIS_Device_t) (b : bytes)
    : option USB_ClassInfo_RNDIS_Device_t :=
  let i := set_ResponseReady true i in
  let* Query_Oid := get32 off_Oid b in
  let* _ := get32 off_InformationBufferOffset_Message b in
  let ResponseData := sizeof_RNDIS_Query_Complete_t in
  let* b := put32 off_MessageType REMOTE_NDIS_QUERY_CMPLT b in
  let* _ := get32 off_InformationBufferLength b in
  let* r := RNDIS_Device_ProcessNDISQuery i Query_Oid ResponseData b in
  match r with
  | Some (ResponseSize, b) =>
      let* b := put_words
        [(off_Status, REMOTE_NDIS_STATUS_SUCCESS);
         (off_MessageLength, sizeof_RNDIS_Query_Complete_t + ResponseSize);
         (off_InformationBufferLength, ResponseSize);
         (off_InformationBufferOffset, sizeof_RNDIS_Query_Complete_t - sizeof_RNDIS_Message_Header_t)] b in
      Some (set_MessageBuffer b i)
  | None =>
      let* b := put_words
        [(off_Status, REMOTE_NDIS_STATUS_NOT_SUPPORTED);
         (off_MessageLength, sizeof_RNDIS_Query_Complete_t);
         (off_InformationBufferLength, 0); (off_InformationBufferOffset, 0)] b in
      Some (set_MessageBuffer b i)
  end.

Definition process_SET (i : USB_ClassInfo_RNDIS_Device_t) (b : bytes)
    : option USB_ClassInfo_RNDIS_Device_t :=
  let i := set_ResponseReady true i in
  let* SET_Oid := get32 off_Oid b in
  let* b := put_words [(off_MessageType, REMOTE_NDIS_SET_CMPLT);
                       (off_MessageLength, sizeof_RNDIS_Set_Complete_t)] b in
  let* id := get32 off_RequestId b in
  let* b := put32 off_RequestId id b in
  let* offset := get32 off_InformationBufferOffset_Message b in
  let SetData := u32 (sizeof_RNDIS_Message_Header_t + offset) in
  let* _ := get32 off_InformationBufferLength b in
  let* r := RNDIS_Device_ProcessNDISSet i SET_Oid SetData b in
  let '(ok, i) := (r : bool * USB_ClassInfo_RNDIS_Device_t) in
  let* b := put32 off_Status (if ok then REMOTE_NDIS_STATUS_SUCCESS
                              else REMOTE_NDIS_STATUS_NOT_SUPPORTED) b in
  Some (set_MessageBuffer b i).

Definition process_RESET (i : USB_ClassInfo_RNDIS_Device_t) (b : bytes)
    : option USB_ClassInfo_RNDIS_Device_t :=
  let i := set_ResponseReady true i in
  let* b := put_words [(off_MessageType, REMOTE_NDIS_RESET_CMPLT);
                       (off_MessageLength, sizeof_RNDIS_Reset_Complete_t);
                       (off_Reset_Status, REMOTE_NDIS_STATUS_SUCCESS); (off_AddressingReset, 0)] b in
  Some (set_MessageBuffer b i).

Definition process_KEEPALIVE (i : USB_ClassInfo_RNDIS_Device_t) (b : bytes)
    : option USB_ClassInfo_RNDIS_Device_t :=
  let i := set_ResponseReady true i in
  let* b := put_words [(off_MessageType, REMOTE_NDIS_KEEPALIVE_CMPLT);
                       (off_MessageLength, sizeof_RNDIS_KeepAlive_Complete_t)] b in
  let* id := get32 off_RequestId b in
  let* b := put_words [(off_RequestId, id); (off_Status, REMOTE_NDIS_STATUS_SUCCESS)] b in
  Some (set_MessageBuffer b i).

Definition RNDIS_Device_ProcessRNDISControlMessage (i : USB_ClassInfo_RNDIS_Device_t)
    : option USB_ClassInfo_RNDIS_Device_t :=
  let* b := MessageBuffer (RNDIS_Config i) in
  let* ty := get32 off_MessageType b in
  if ty =? REMOTE_NDIS_INITIALIZE_MSG then process_INITIALIZE i b
  else if ty =? REMOTE_NDIS_HALT_MSG then process_HALT i b
  else if ty =? REMOTE_NDIS_QUERY_MSG then process_QUERY i b
  else if ty =? REMOTE_NDIS_SET_MSG then process_SET i b
  else if ty =? REMOTE_NDIS_RESET_MSG then process_RESET i b
  else if ty =? REMOTE_NDIS_KEEPALIVE_MSG then process_KEEPALIVE i b
  else Some i.

(** ** Requests, task and packets *)

Abbreviation RNDISInterface := (address USB_ClassInfo_RNDIS_Device_t).

Inductive RNDIS_Error : Set :=
  | RNDIS_stream_error (e : Endpoint_Stream_RW_ErrorCodes_t)
  | RNDIS_ERROR_LOGICAL_CMD_FAILED.

Section RNDISClass.
Context `{Env} `{USB_Application}.
Context (RNDISInterfaceInfo : RNDISInterface).

Let config : st -> RNDIS_Config_t := fun s => RNDIS_Config (load RNDISInterfaceInfo s).
Let state : st -> RNDIS_State_t := fun s => RNDIS_State (load RNDISInterfaceInfo s).

(** The bytes of [MessageBuffer]; [NULL] is not to be dereferenced. *)
Definition message_buffer : M bytes := b ← get (fun s => MessageBuffer (config s)); checked b.

Definition send_encapsulated_command : M unit :=
  Endpoint_ClearSETUP ;;
  b ← message_buffer;
  req ← get USB_ControlRequest;
  '(_, b) ← Endpoint_Read_Control_Stream_LE b (wLength req);
  assign RNDISInterfaceInfo (set_MessageBuffer b) ;;
  Endpoint_ClearIN ;;
  i ← get (load RNDISInterfaceInfo);
  i ← checked (RNDIS_Device_ProcessRNDISControlMessage i);
  put (store RNDISInterfaceInfo i).

Definition get_encapsulated_response : M unit :=
  b ← message_buffer;
  n ← checked (get32 off_MessageLength b);
  b ← (if n =? 0 then
         checked (let* b := put_bytes 0 [0] b in put32 off_MessageLength 1 b)
       else ret b);
  assign RNDISInterfaceInfo (set_MessageBuffer b) ;;
  Endpoint_ClearSETUP ;;
  n ← checked (get32 off_MessageLength b);
  Endpoint_Write_Control_Stream_LE b (u16 n) ;;
  Endpoint_ClearOUT ;;
  b ← message_buffer;
  b ← checked (put32 off_MessageLength 0 b);
  assign RNDISInterfaceInfo (set_MessageBuffer b).

Definition RNDIS_Device_ProcessControlRequest : M unit :=
  setup ← Endpoint_IsSETUPReceived;
  if negb setup then ret tt
  else
    req ← get USB_ControlRequest;
    c ← get config;
    if negb (wIndex req =? RNDIS_ControlInterfaceNumber c) then ret tt
    else
      let matches dir :=
        bmRequestType req =? request_type dir REQTYPE_CLASS REQREC_INTERFACE in
      if bRequest req =? RNDIS_REQ_SendEncapsulatedCommand then
        when (matches REQDIR_HOSTTODEVICE) send_encapsulated_command
      else if bRequest req =? RNDIS_REQ_GetEncapsulatedResponse then
        when (matches REQDIR_DEVICETOHOST) get_encapsulated_response
      else ret tt.

Definition configured_RNDIS (i : USB_ClassInfo_RNDIS_Device_t) : USB_ClassInfo_RNDIS_Device_t :=
  let c := RNDIS_Config i in
  {| RNDIS_Config :=
       {| RNDIS_ControlInterfaceNumber := RNDIS_ControlInterfaceNumber c;
          RNDIS_DataINEndpoint := set_ep_Type EP_TYPE_BULK (RNDIS_DataINEndpoint c);
          RNDIS_DataOUTEndpoint := set_ep_Type EP_TYPE_BULK (RNDIS_DataOUTEndpoint c);
          RNDIS_NotificationEndpoint := set_ep_Type EP_TYPE_INTERRUPT (RNDIS_NotificationEndpoint c);
          AdapterVendorDescription := AdapterVendorDescription c;
          AdapterMACAddress := AdapterMACAddress c;
          MessageBuffer := MessageBuffer c; MessageBufferLength := MessageBufferLength c |};
     RNDIS_State := zero_RNDIS_State |}.

Definition RNDIS_Device_ConfigureEndpoints : M bool :=
  assign RNDISInterfaceInfo configured_RNDIS ;;
  c ← get config;
  match MessageBuffer c with
  | None => ret false
  | Some _ =>
      if MessageBufferLength c <? RNDIS_DEVICE_MIN_MESSAGE_BUFFER_LENGTH then ret false
      else configure_tables [RNDIS_DataINEndpoint c; RNDIS_DataOUTEndpoint c; RNDIS_NotificationEndpoint c]
  end.

(** The bytes of [Notification]. *)
Definition response_available : bytes :=
  [request_type REQDIR_DEVICETOHOST REQTYPE_CLASS REQREC_INTERFACE; RNDIS_NOTIF_ResponseAvailable]
  ++ le_bytes 2 0 ++ le_bytes 2 0 ++ le_bytes 2 0.

Definition RNDIS_Device_USBTask : M unit :=
  off ← not_configured;
  if (off : bool) then ret tt
  else
    c ← get config;
    Endpoint_SelectEndpoint (ep_Address (RNDIS_NotificationEndpoint c)) ;;
    ready ← Endpoint_IsINReady;
    response ← get (fun s => ResponseReady (state s));
    if ready && response then
      Endpoint_Write_Stream_LE response_available 8 None ;;
      Endpoint_ClearIN ;;
      assign RNDISInterfaceInfo (set_ResponseReady false)
    else ret tt.

(** [(USB_DeviceState != ...) || (CurrRNDISState != RNDIS_Data_Initialized)] *)
Definition RNDIS_offline : M bool :=
  off ← not_configured;
  if (off : bool) then ret true
  else x ← get (fun s => CurrRNDISState (state s)); ret (negb (x =? RNDIS_Data_Initialized)).

Definition RNDIS_Device_IsPacketReceived : M bool :=
  off ← RNDIS_offline;
  if (off : bool) then ret false
  else
    c ← get config;
    Endpoint_SelectEndpoint (ep_Address (RNDIS_DataOUTEndpoint c)) ;;
    Endpoint_IsOUTReceived.

(** Offset of [DataLength] in [RNDIS_Packet_Message_t] *)
Definition off_DataLength := 12.

(** [indet]: the uninitialised packet header.  Returns the error code, the new
    [*PacketLength] and the buffer. *)
Definition RNDIS_Device_ReadPacket (indet Buffer : bytes) (PacketLength : Z)
    : M (RNDIS_Error * Z * bytes) :=
  off ← RNDIS_offline;
  if (off : bool) then
    ret (RNDIS_stream_error ENDPOINT_RWSTREAM_DeviceDisconnected, PacketLength, Buffer)
  else
    c ← get config;
    Endpoint_SelectEndpoint (ep_Address (RNDIS_DataOUTEndpoint c)) ;;
    received ← Endpoint_IsOUTReceived;
    if negb received then ret (RNDIS_stream_error ENDPOINT_RWSTREAM_NoError, 0, Buffer)
    else
      '(_, _, header) ← Endpoint_Read_Stream_LE (take (Z.to_nat sizeof_RNDIS_Packet_Message_t) indet)
                          sizeof_RNDIS_Packet_Message_t None;
      n ← checked (get32 off_DataLength header);
      if ETHERNET_FRAME_SIZE_MAX <? n then
        Endpoint_StallTransaction ;;
        ret (RNDIS_ERROR_LOGICAL_CMD_FAILED, 0, Buffer)
      else
        let PacketLength := u16 n in
        '(_, _, Buffer) ← Endpoint_Read_Stream_LE Buffer PacketLength None;
        Endpoint_ClearOUT ;;
        ret (RNDIS_stream_error ENDPOINT_RWSTREAM_NoError, PacketLength, Buffer).

(** The bytes of [RNDISPacketHeader]. *)
Definition packet_header (PacketLength : Z) : bytes :=
  flat_map (le_bytes 4)
    ([REMOTE_NDIS_PACKET_MSG; u16 (sizeof_RNDIS_Packet_Message_t + PacketLength);
      sizeof_RNDIS_Packet_Message_t - sizeof_RNDIS_Message_Header_t; PacketLength] ++ replicate 7 0).

Definition RNDIS_Device_SendPacket (Buffer : bytes) (PacketLength : Z)
    : M Endpoint_Stream_RW_ErrorCodes_t :=
  off ← RNDIS_offline;
  if (off : bool) then ret ENDPOINT_RWSTREAM_DeviceDisconnected
  else
    c ← get config;
    Endpoint_SelectEndpoint (ep_Address (RNDIS_DataINEndpoint c)) ;;
    r ← Endpoint_WaitUntilReady;
    match ready_error r with
    | Some e => ret e
    | None =>
        Endpoint_Write_Stream_LE (packet_header PacketLength) sizeof_RNDIS_Packet_Message_t None ;;
        Endpoint_Write_Stream_LE Buffer PacketLength None ;;
        Endpoint_ClearIN ;;
        ret ENDPOINT_RWSTREAM_NoError
    end.
End RNDISClass.

(** ** Reading what was written *)

Lemma get32_Some off b : 0 <= off -> off + 4 <= Z.of_nat (length b) -> exists x, get32 off b = Some x.
Proof.
  intros H0 H4. unfold get32. destruct (Z.leb_spec 0 off); [|lia].
  destruct (Z.leb_spec (off + 4) (Z.of_nat (length b))); [|lia]. by eexists.
Qed.

Lemma get32_fits off b x : all_bytes b -> get32 off b = Some x -> is_u32 x.
Proof.
  intros Hb. unfold get32. case_match; [|done]. intros [= <-].
  apply andb_true_iff in H as [H0%Z.leb_le H4%Z.leb_le].
  pose proof (le_val_fits (take 4 (drop (Z.to_nat off) b))) as Hf.
  rewrite length_take, length_drop in Hf.
  replace (8 * Z.of_nat (4 `min` (length b - Z.to_nat off))) with 32 in Hf by lia.
  apply Hf. by apply Forall_take, Forall_drop.
Qed.

(** What a write to the buffer does. *)
Record written (off : Z) (data b b' : bytes) : Prop := {
  wn_length : length b' = length b;
  wn_bytes : all_bytes b -> all_bytes data -> all_bytes b';
  wn_same : take (length data) (drop (Z.to_nat off) b') = data;
  wn_other : forall o, o + 4 <= off \/ off + Z.of_nat (length data) <= o -> get32 o b' = get32 o b
}.

Lemma put_bytes_written off data b :
  0 <= off -> off + Z.of_nat (length data) <= Z.of_nat (length b) ->
  exists b', put_bytes off data b = Some b' /\ written off data b b'.
Proof.
  intros H0 H4. unfold put_bytes. destruct (Z.leb_spec 0 off); [|lia].
  destruct (Z.leb_spec (off + Z.of_nat (length data)) (Z.of_nat (length b))); [|lia].
  eexists. split; [done|]. set (k := Z.to_nat off).
  assert (Hk : length (take k b) = k) by (rewrite length_take; lia).
  assert (Hlen : length (take k b ++ data ++ drop (k + length data) b) = length b)
    by (rewrite !length_app, length_take, length_drop; lia).
  constructor; [done| | |].
  - intros Hb Hd. apply Forall_app. split; [by apply Forall_take|]. apply Forall_app.
    split; [done|by apply Forall_drop].
  - rewrite drop_app_ge, Hk, Nat.sub_diag, drop_0, take_app_length by lia. done.
  - intros o Ho. unfold get32. rewrite Hlen. destruct (Z.leb_spec 0 o); [|done].
    destruct (Z.leb_spec (o + 4) (Z.of_nat (length b))); [|done]. cbn [andb]. do 2 f_equal.
    apply list_eq. intros i. destruct (decide (i < 4)%nat).
    2: { rewrite !lookup_take_ge by lia. done. }
    rewrite !lookup_take_lt, !lookup_drop by done. destruct Ho as [Ho|Ho].
    + rewrite lookup_app_l, lookup_take_lt by lia. done.
    + rewrite lookup_app_r, Hk by lia. rewrite lookup_app_r by lia. rewrite lookup_drop. f_equal. lia.
Qed.

(** The same for a 32-bit object. *)
Record written32 (off x : Z) (b b' : bytes) : Prop := {
  w32_length : length b' = length b;
  w32_bytes : all_bytes b -> all_bytes b';
  w32_same : get32 off b' = Some (u32 x);
  w32_other : forall o, o + 4 <= off \/ off + 4 <= o -> get32 o b' = get32 o b
}.

Lemma put32_written off x b :
  0 <= off -> off + 4 <= Z.of_nat (length b) ->
  exists b', put32 off x b = Some b' /\ written32 off x b b'.
Proof.
  intros H0 H4. destruct (put_bytes_written off (le_bytes 4 x) b H0) as (b' & Hp & [Hl Hb Hs Ho]).
  { by rewrite length_le_bytes. }
  exists b'. split; [done|]. constructor; [done| | |].
  - intros Hall. apply Hb; [done|apply le_bytes_all].
  - unfold get32. rewrite Hl. destruct (Z.leb_spec 0 off); [|lia].
    destruct (Z.leb_spec (off + 4) (Z.of_nat (length b))); [|lia]. cbn [andb].
    rewrite length_le_bytes in Hs. by rewrite Hs, le_val_bytes.
  - intros o. rewrite length_le_bytes in Ho. apply Ho.
Qed.

(** The last of several assignments to a member counts, and members that are not
    assigned keep their value. *)
Fixpoint last_word (o : Z) (l : list (Z * Z)) (acc : option Z) : option Z :=
  match l with
  | [] => acc
  | (off, x) :: l => last_word o l (if o =? off then Some (u32 x) else acc)
  end.

(** [o] is one of the offsets, or outside of all the members at the offsets. *)
Definition apart (o : Z) (l : list (Z * Z)) : bool :=
  forallb (fun '(off, _) => (o =? off) || (o + 4 <=? off) || (off + 4 <=? o)) l.

Definition in_range (n : Z) (l : list (Z * Z)) : bool :=
  forallb (fun '(off, _) => (0 <=? off) && (off + 4 <=? n)) l.

Lemma put_words_written l : forall b,
  in_range (Z.of_nat (length b)) l = true ->
  exists b', put_words l b = Some b' /\ length b' = length b /\
    (all_bytes b -> all_bytes b') /\
    forall o, apart o l = true -> get32 o b' = last_word o l (get32 o b).
Proof.
  induction l as [|[off x] l IH]; intros b Hr; cbn [put_words]; [by exists b|].
  cbn [in_range forallb] in Hr. apply andb_true_iff in Hr as [[H0 H4]%andb_true_iff Hr].
  destruct (put32_written off x b) as (b1 & -> & [Hl1 Hb1 Hs1 Ho1]); [lia|lia|].
  destruct (IH b1) as (b' & -> & Hl & Hb & Ho); [by rewrite Hl1|].
  exists b'. split; [done|]. split; [congruence|]. split; [auto|].
  intros o. cbn [apart forallb]. intros [Hor Ha]%andb_true_iff. cbn [last_word]. rewrite (Ho o Ha).
  destruct (Z.eqb_spec o off) as [E|Hne]; [by rewrite E, Hs1|].
  rewrite Ho1; [done|]. lia.
Qed.

(** Members before [n] leave what follows [n] alone. *)
Lemma put_words_after n l : forall b b',
  put_words l b = Some b' -> forallb (fun '(off, _) => off + 4 <=? Z.of_nat n) l = true ->
  drop n b' = drop n b.
Proof.
  induction l as [|[off x] l IH]; intros b b'; cbn [put_words forallb]; [by intros [= ->]|].
  destruct (put32 off x b) as [b1|] eqn:Hp; [|done]. intros Hw [Ho%Z.leb_le Hl]%andb_true_iff. rewrite (IH _ _ Hw Hl).
  unfold put32, put_bytes in Hp. rewrite length_le_bytes in Hp. case_match eqn:Hr; [|done].
  apply (inj Some) in Hp as <-. apply andb_true_iff in Hr as [H0%Z.leb_le H4%Z.leb_le]. rewrite app_assoc, drop_app_ge.
  - rewrite drop_drop, length_app, length_take, length_le_bytes. f_equal. lia.
  - rewrite length_app, length_take, length_le_bytes. lia.
Qed.

(** ** Every message is answered *)

(** An adapter with a message buffer as [RNDIS_Device_ConfigureEndpoints] asks
    for, and a vendor description that fits a response. *)
Record rndis_ok (i : USB_ClassInfo_RNDIS_Device_t) (b : bytes) : Prop := {
  ro_buffer : MessageBuffer (RNDIS_Config i) = Some b;
  ro_bytes : all_bytes b;
  ro_length : Z.of_nat (length b) = MessageBufferLength (RNDIS_Config i);
  ro_min : RNDIS_DEVICE_MIN_MESSAGE_BUFFER_LENGTH <= MessageBufferLength (RNDIS_Config i);
  ro_16 : MessageBufferLength (RNDIS_Config i) < 2 ^ 16;
  ro_mac : length (AdapterMACAddress (RNDIS_Config i)) = 6%nat;
  ro_mac_bytes : all_bytes (AdapterMACAddress (RNDIS_Config i));
  ro_vendor : exists n, strlen (AdapterVendorDescription (RNDIS_Config i)) = Some n /\
    sizeof_RNDIS_Query_Complete_t + n + 1 <= MessageBufferLength (RNDIS_Config i);
  ro_vendor_bytes : all_bytes (AdapterVendorDescription (RNDIS_Config i));
  ro_state : CurrRNDISState (RNDIS_State i) = RNDIS_Data_Initialized -> CurrPacketFilter (RNDIS_State i) <> 0
}.

Lemma strlen_bound l : forall n, strlen l = Some n -> 0 <= n < Z.of_nat (length l).
Proof.
  induction l as [|c l IH]; intros n; cbn [strlen length]; [done|].
  destruct (c =? 0); [intros [= <-]; lia|]. destruct (strlen l) as [m|]; [|done].
  intros [= <-]. pose proof (IH m eq_refl). lia.
Qed.

Lemma le_words_bytes l : all_bytes (flat_map (le_bytes 4) l).
Proof.
  induction l as [|x l IH]; [constructor|]. cbn [flat_map]. apply Forall_app. split; [apply le_bytes_all|done].
Qed.

(** *** What the adapter has to tell

    The information of each object the adapter knows, as a table. *)
Definition info_words (l : list Z) : bytes := flat_map (le_bytes 4) l.

Definition adapter_info (i : USB_ClassInfo_RNDIS_Device_t) : list (Z * bytes) :=
  let c := RNDIS_Config i in
  [(OID_GEN_SUPPORTED_LIST, info_words AdapterSupportedOIDList);
   (OID_GEN_HARDWARE_STATUS, info_words [NDIS_HardwareStatus_Ready]);
   (OID_GEN_MEDIA_SUPPORTED, info_words [REMOTE_NDIS_MEDIUM_802_3]);
   (OID_GEN_MEDIA_IN_USE, info_words [REMOTE_NDIS_MEDIUM_802_3]);
   (OID_GEN_PHYSICAL_MEDIUM, info_words [0]);
   (OID_GEN_MAXIMUM_FRAME_SIZE, info_words [ETHERNET_FRAME_SIZE_MAX]);
   (OID_GEN_TRANSMIT_BLOCK_SIZE, info_words [ETHERNET_FRAME_SIZE_MAX]);
   (OID_GEN_RECEIVE_BLOCK_SIZE, info_words [ETHERNET_FRAME_SIZE_MAX]);
   (OID_GEN_MAXIMUM_TOTAL_SIZE, info_words [u16 (MessageBufferLength c + ETHERNET_FRAME_SIZE_MAX)]);
   (OID_GEN_LINK_SPEED, info_words [100000]);
   (OID_GEN_VENDOR_ID, info_words [0x00FFFFFF]);
   (OID_GEN_VENDOR_DESCRIPTION,
    take (Z.to_nat (default 0 (strlen (AdapterVendorDescription c)) + 1)) (AdapterVendorDescription c));
   (OID_GEN_CURRENT_PACKET_FILTER, info_words [CurrPacketFilter (RNDIS_State i)]);
   (OID_GEN_MEDIA_CONNECT_STATUS, info_words [REMOTE_NDIS_MEDIA_STATE_CONNECTED]);
   (OID_802_3_PERMANENT_ADDRESS, AdapterMACAddress c);
   (OID_802_3_CURRENT_ADDRESS, AdapterMACAddress c);
   (OID_802_3_MAXIMUM_LIST_SIZE, info_words [1])] ++
  map (fun oid => (oid, info_words [0]))
    [OID_GEN_XMIT_OK; OID_GEN_RCV_OK; OID_GEN_XMIT_ERROR; OID_GEN_RCV_ERROR; OID_GEN_RCV_NO_BUFFER;
     OID_802_3_RCV_ERROR_ALIGNMENT; OID_802_3_XMIT_ONE_COLLISION; OID_802_3_XMIT_MORE_COLLISIONS].

Fixpoint info_of (oid : Z) (l : list (Z * bytes)) : option bytes :=
  match l with
  | [] => None
  | (k, data) :: l => if oid =? k then Some data else info_of oid l
  end.
Definition query_info (i : USB_ClassInfo_RNDIS_Device_t) (oid : Z) : option bytes :=
  info_of oid (adapter_info i).

Lemma info_of_Some oid l : is_Some (info_of oid l) <-> oid ∈ map fst l.
Proof.
  induction l as [|[k data] l IH]; cbn [map fst info_of].
  - split; [by intros [? ?]|by intros ?%elem_of_nil].
  - rewrite elem_of_cons. destruct (Z.eqb_spec oid k) as [->|Hk].
    + split; [by left|by eexists].
    + rewrite IH. split; [by right|by intros [?|?]].
Qed.

(** The objects with information are those of the list the adapter announces,
    except for the multicast list, which can only be set. *)
Lemma query_info_announced i oid :
  is_Some (query_info i oid) <-> oid ∈ AdapterSupportedOIDList /\ oid <> OID_802_3_MULTICAST_LIST.
Proof.
  unfold query_info. rewrite info_of_Some. set (keys := map fst (adapter_info i)). vm_compute in keys.
  assert (H1 : Forall (fun oid => oid ∈ AdapterSupportedOIDList /\ oid <> OID_802_3_MULTICAST_LIST) keys)
    by (by apply (bool_decide_unpack _); vm_compute).
  assert (H2 : Forall (fun oid => oid <> OID_802_3_MULTICAST_LIST -> oid ∈ keys) AdapterSupportedOIDList)
    by (by apply (bool_decide_unpack _); vm_compute).
  rewrite list.Forall_forall in H1, H2. split; [apply H1|]. intros [Hin Hne]. by apply H2.
Qed.

(** A query writes the information after the header, and leaves the header alone. *)
Definition query_answer (i : USB_ClassInfo_RNDIS_Device_t) (oid : Z) (b : bytes)
    (r : option (Z * bytes)) : Prop :=
  match query_info i oid, r with
  | None, None => True
  | Some data, Some (n, b') => n = Z.of_nat (length data) /\
      sizeof_RNDIS_Query_Complete_t + n <= Z.of_nat (length b) /\
      length b' = length b /\ all_bytes b' /\
      take (length data) (drop (Z.to_nat sizeof_RNDIS_Query_Complete_t) b') = data /\
      forall o, o + 4 <= sizeof_RNDIS_Query_Complete_t -> get32 o b' = get32 o b
  | _, _ => False
  end.

Lemma adapter_info_fits i b0 :
  rndis_ok i b0 -> Forall (fun '(_, data) => all_bytes data /\
    sizeof_RNDIS_Query_Complete_t + Z.of_nat (length data) <= Z.of_nat (length b0)) (adapter_info i).
Proof.
  intros Hi. pose proof (ro_length _ _ Hi) as Hl. pose proof (ro_min _ _ Hi) as Hm.
  change RNDIS_DEVICE_MIN_MESSAGE_BUFFER_LENGTH with 132 in Hm.
  destruct (ro_vendor _ _ Hi) as (n & Hn & Hv). pose proof (strlen_bound _ _ Hn).
  assert (H24 : sizeof_RNDIS_Query_Complete_t = 24) by done.
  assert (Hw : forall l, (length (info_words l) <= 108)%nat ->
    all_bytes (info_words l) /\ sizeof_RNDIS_Query_Complete_t + Z.of_nat (length (info_words l)) <= Z.of_nat (length b0)).
  { intros l Hlen. split; [apply le_words_bytes|lia]. }
  assert (Hvd : all_bytes (take (Z.to_nat (n + 1)) (AdapterVendorDescription (RNDIS_Config i))) /\
    sizeof_RNDIS_Query_Complete_t +
      Z.of_nat (length (take (Z.to_nat (n + 1)) (AdapterVendorDescription (RNDIS_Config i)))) <=
    Z.of_nat (length b0)).
  { split; [apply Forall_take, Hi|]. rewrite length_take. lia. }
  assert (Hmac : all_bytes (AdapterMACAddress (RNDIS_Config i)) /\ sizeof_RNDIS_Query_Complete_t +
    Z.of_nat (length (AdapterMACAddress (RNDIS_Config i))) <= Z.of_nat (length b0)).
  { split; [apply Hi|]. rewrite (ro_mac _ _ Hi). lia. }
  unfold adapter_info. rewrite Hn. cbn [default app map].
  repeat (constructor; [first [exact Hvd|exact Hmac|apply Hw; by apply Nat.leb_le]|]). constructor.
Qed.

Lemma info_of_Forall (P : bytes -> Prop) oid l data :
  Forall (fun '(_, data) => P data) l -> info_of oid l = Some data -> P data.
Proof.
  induction 1 as [|[k x] l Hx Hl IH]; cbn [info_of]; [done|]. case_match; [by intros [= <-]|exact IH].
Qed.

(** The chain of cases finds the entry of the table. *)
Lemma ProcessNDISQuery_table i b0 OId b :
  rndis_ok i b0 ->
  RNDIS_Device_ProcessNDISQuery i OId sizeof_RNDIS_Query_Complete_t b =
  match query_info i OId with
  | Some data => let* b' := put_bytes sizeof_RNDIS_Query_Complete_t data b in
                 Some (Some (Z.of_nat (length data), b'))
  | None => Some None
  end.
Proof.
  intros Hi. destruct (ro_vendor _ _ Hi) as (n & Hn & Hv). pose proof (strlen_bound _ _ Hn).
  pose proof (ro_16 _ _ Hi). assert (H24 : sizeof_RNDIS_Query_Complete_t = 24) by done.
  assert (Hu : u16 (n + 1) = n + 1) by (apply wrap_id; unfold fits; lia).
  unfold query_info. destruct (decide (OId ∈ map fst (adapter_info i))) as [Hin|Hout].
  - unfold RNDIS_Device_ProcessNDISQuery, adapter_info in *. rewrite Hn in *. rewrite Hu. cbn [default].
    cbn [map fst app] in Hin.
    repeat (apply elem_of_cons in Hin as [->|Hin]; [reflexivity|]). by apply elem_of_nil in Hin.
  - rewrite <- info_of_Some, <- eq_None_not_Some in Hout. rewrite Hout. apply eq_None_not_Some in Hout.
    rewrite info_of_Some in Hout. unfold RNDIS_Device_ProcessNDISQuery.
    cbn [adapter_info map fst app] in Hout. rewrite !not_elem_of_cons in Hout.
    repeat match type of Hout with _ /\ _ => let H := fresh in destruct Hout as [H%Z.eqb_neq Hout]; rewrite ?H end.
    reflexivity.
Qed.

Lemma ProcessNDISQuery_ok i b0 OId b :
  rndis_ok i b0 -> all_bytes b -> length b = length b0 ->
  exists r, RNDIS_Device_ProcessNDISQuery i OId sizeof_RNDIS_Query_Complete_t b = Some r /\
            query_answer i OId b r.
Proof.
  intros Hi Hb Hlen. rewrite (ProcessNDISQuery_table i b0) by done. unfold query_answer.
  destruct (query_info i OId) as [data|] eqn:Hq; [|by exists None].
  destruct (info_of_Forall (fun data => all_bytes data /\ sizeof_RNDIS_Query_Complete_t +
    Z.of_nat (length data) <= Z.of_nat (length b0)) OId _ data (adapter_info_fits i b0 Hi) Hq) as [Hd Hfit].
  destruct (put_bytes_written sizeof_RNDIS_Query_Complete_t data b) as (b' & -> & [Hlen' Hall Hsame Ho]);
    [unfold sizeof_RNDIS_Query_Complete_t; lia|lia|].
  eexists. split; [done|]. split; [done|]. split; [lia|]. split; [done|]. split; [auto|]. split; [done|].
  intros o Ho'. apply Ho. lia.
Qed.

Lemma in_range_mono n m l : n <= m -> in_range n l = true -> in_range m l = true.
Proof.
  intros Hle. unfold in_range. rewrite !forallb_forall. intros Hall [off x] Hin.
  specialize (Hall _ Hin). cbn beta iota in *. lia.
Qed.

(** Assignments to the header of a response. *)
Lemma put_words_ok l b :
  132 <= Z.of_nat (length b) -> in_range 132 l = true ->
  exists b', put_words l b = Some b' /\ length b' = length b /\ (all_bytes b -> all_bytes b') /\
    forall o, apart o l = true -> get32 o b' = last_word o l (get32 o b).
Proof. intros H132 Hr. apply put_words_written. by eapply in_range_mono. Qed.

Lemma put32_ok off x b :
  132 <= Z.of_nat (length b) -> 0 <= off <= 128 ->
  exists b', put32 off x b = Some b' /\ written32 off x b b'.
Proof. intros H132 Hr. apply put32_written; lia. Qed.

Lemma get32_ok off b : 132 <= Z.of_nat (length b) -> 0 <= off <= 128 -> exists x, get32 off b = Some x.
Proof. intros H132 Hr. apply get32_Some; lia. Qed.

(** The interface after its buffer and state have been assigned. *)
Lemma rndis_ok_update i b b' t :
  rndis_ok i b -> length b' = length b -> all_bytes b' ->
  (CurrRNDISState t = RNDIS_Data_Initialized -> CurrPacketFilter t <> 0) ->
  rndis_ok (set_RNDIS_State t (set_MessageBuffer b' i)) b'.
Proof.
  intros [] Hl Hb Ht. constructor; cbn; try done. congruence.
Qed.

Lemma rndis_length i b : rndis_ok i b -> 132 <= Z.of_nat (length b).
Proof. intros [_ _ -> Hm _ _ _ _ _ _]. exact Hm. Qed.

(** The object a QUERY or SET message is about. *)
Definition message_oid (b : bytes) : Z := default 0 (get32 off_Oid b).

(** The length and the status of the completion of a message [b] of type [ty]: only a
    query carries information, and only a query or the setting of an object that
    the adapter does not know is refused. *)
Definition completion_length (i : USB_ClassInfo_RNDIS_Device_t) (ty : Z) (b : bytes) : Z :=
  if ty =? REMOTE_NDIS_INITIALIZE_MSG then 52
  else if ty =? REMOTE_NDIS_QUERY_MSG then
    24 + Z.of_nat (length (default [] (query_info i (message_oid b))))
  else 16.

Definition refused (i : USB_ClassInfo_RNDIS_Device_t) (ty : Z) (b : bytes) : bool :=
  (ty =? REMOTE_NDIS_QUERY_MSG) && match query_info i (message_oid b) with None => true | Some _ => false end ||
  (ty =? REMOTE_NDIS_SET_MSG) &&
    bool_decide (message_oid b ∉ [OID_GEN_CURRENT_PACKET_FILTER; OID_802_3_MULTICAST_LIST]).

Definition completion_status (i : USB_ClassInfo_RNDIS_Device_t) (ty : Z) (b : bytes) : Z :=
  if refused i ty b then REMOTE_NDIS_STATUS_NOT_SUPPORTED else REMOTE_NDIS_STATUS_SUCCESS.

(** The information of a query follows the header, which says where it is and how
    long. *)
Definition information (i : USB_ClassInfo_RNDIS_Device_t) (b b' : bytes) : Prop :=
  let data := default [] (query_info i (message_oid b)) in
  get32 off_InformationBufferLength b' = Some (Z.of_nat (length data)) /\
  get32 off_InformationBufferOffset b' =
    Some (match query_info i (message_oid b) with
          | Some _ => 24 - sizeof_RNDIS_Message_Header_t
          | None => 0
          end) /\
  take (length data) (drop 24 b') = data.

(** The message [b] of type [ty] to the adapter [i] has been replaced by its
    completion [b']. *)
Record completed (i : USB_ClassInfo_RNDIS_Device_t) (ty : Z) (b b' : bytes)
    (i' : USB_ClassInfo_RNDIS_Device_t) : Prop := {
  cp_type : get32 off_MessageType b' = Some (ty + 0x80000000);
  cp_length : get32 off_MessageLength b' = Some (completion_length i ty b);
  cp_fits : completion_length i ty b <= Z.of_nat (length b');
  cp_id : ty <> REMOTE_NDIS_RESET_MSG -> get32 off_RequestId b' = get32 off_RequestId b;
  cp_status : get32 (if ty =? REMOTE_NDIS_RESET_MSG then off_Reset_Status else off_Status) b' =
    Some (completion_status i ty b);
  cp_information : ty = REMOTE_NDIS_QUERY_MSG -> information i b b';
  cp_ready : ResponseReady (RNDIS_State i') = true;
  cp_state : ty = REMOTE_NDIS_INITIALIZE_MSG -> CurrRNDISState (RNDIS_State i') = RNDIS_Initialized
}.

(** The data of a SET message of the packet filter lies inside of the buffer. *)
Definition set_data_inside (b : bytes) : bool :=
  match get32 off_Oid b, get32 off_InformationBufferOffset_Message b with
  | Some oid, Some off =>
      negb ((oid =? OID_GEN_CURRENT_PACKET_FILTER)
            && (Z.of_nat (length b) <? u32 (sizeof_RNDIS_Message_Header_t + off) + 4))
  | _, _ => false
  end.

Section Messages.
Context (i : USB_ClassInfo_RNDIS_Device_t) (b : bytes).
Hypothesis ok : rndis_ok i b.

Let enough : 132 <= Z.of_nat (length b) := rndis_length i b ok.

(** The header of a completion: its type and length, the request ID of the
    message it replaces, and then members after these. *)
Lemma completion_ok cmplt len rest :
  is_u32 cmplt -> is_u32 len -> in_range 132 rest = true -> apart off_Status rest = true ->
  forallb (fun '(off, _) => 12 <=? off) rest = true ->
  exists b1 id b2, put_words [(off_MessageType, cmplt); (off_MessageLength, len)] b = Some b1 /\
    get32 off_RequestId b1 = Some id /\ put_words ((off_RequestId, id) :: rest) b1 = Some b2 /\
    length b2 = length b /\ all_bytes b2 /\ (forall o, 16 <= o -> rest = [] -> get32 o b2 = get32 o b) /\
    get32 off_MessageType b2 = Some cmplt /\ get32 off_MessageLength b2 = Some len /\
    get32 off_RequestId b2 = get32 off_RequestId b /\
    get32 off_Status b2 = last_word off_Status rest (get32 off_Status b).
Proof.
  intros Hu Hlen Hrest Hst H12.
  destruct (put_words_ok [(off_MessageType, cmplt); (off_MessageLength, len)] b)
    as (b1 & Hp1 & Hl1 & Hb1 & Ho1); [done|done|].
  destruct (get32_ok off_RequestId b1) as [id Hid]; [by rewrite Hl1|done|].
  destruct (put_words_ok ((off_RequestId, id) :: rest) b1) as (b2 & Hp2 & Hl2 & Hb2 & Ho2);
    [by rewrite Hl1|done|].
  assert (Hfar : forall o, o <= 8 -> apart o rest = true /\ forall acc, last_word o rest acc = acc).
  { clear Hrest Hst Hp2 Hb2 Ho2. intros o Ho. induction rest as [|[off x] rest IH]; [done|].
    cbn [forallb] in H12. apply andb_true_iff in H12 as [Hoff H12]. destruct (IH H12) as [IH1 IH2].
    cbn [apart forallb last_word]. fold (apart o rest). rewrite IH1.
    destruct (Z.eqb_spec o off); [lia|]. split; [|intros acc; apply IH2]. lia. }
  assert (Hlow : forall o, o = 0 \/ o = 4 \/ o = 8 ->
    get32 o b2 = if o =? 8 then Some (u32 id) else get32 o b1).
  { intros o Ho. destruct (Hfar o) as [Hap Hlast]; [lia|]. rewrite Ho2.
    - cbn [last_word]. rewrite Hlast. by destruct Ho as [-> | [-> | ->]].
    - cbn [apart forallb]. fold (apart o rest). rewrite Hap. by destruct Ho as [-> | [-> | ->]]. }
  exists b1, id, b2. repeat split; try done; try congruence.
  - apply Hb2, Hb1, ok.
  - intros o Ho ->. unfold off_MessageType, off_MessageLength, off_RequestId in *.
    rewrite Ho2, Ho1 by (cbn [apart forallb]; lia). cbn [last_word].
    by rewrite !(proj2 (Z.eqb_neq o _)) by lia.
  - rewrite Hlow, Ho1 by auto. cbn. by rewrite wrap_id by done.
  - rewrite Hlow, Ho1 by auto. cbn. by rewrite wrap_id by done.
  - rewrite Hlow by auto. cbn [Z.eqb Pos.eqb off_RequestId].
    rewrite wrap_id by (eapply get32_fits; [apply Hb1, ok|exact Hid]). by rewrite <- Hid, Ho1.
  - rewrite Ho2 by exact Hst. cbn [last_word]. by rewrite Ho1.
Qed.

Lemma process_INITIALIZE_ok :
  exists i' b', process_INITIALIZE i b = Some i' /\ rndis_ok i' b' /\
    completed i REMOTE_NDIS_INITIALIZE_MSG b b' i'.
Proof.
  unfold process_INITIALIZE. cbv zeta.
  edestruct completion_ok as (b1 & id & b2 & -> & -> & -> & Hl & Hb & _ & H1 & H2 & H3 & H4); [done..|].
  eexists _, b2. split; [done|]. split; [by apply (rndis_ok_update i b b2)|].
  constructor; try done. rewrite Hl. cbn. lia.
Qed.

Lemma process_KEEPALIVE_ok :
  exists i' b', process_KEEPALIVE i b = Some i' /\ rndis_ok i' b' /\
    completed i REMOTE_NDIS_KEEPALIVE_MSG b b' i'.
Proof.
  unfold process_KEEPALIVE. cbv zeta.
  edestruct completion_ok as (b1 & id & b2 & -> & -> & -> & Hl & Hb & _ & H1 & H2 & H3 & H4); [done..|].
  eexists _, b2. split; [done|]. split; [apply (rndis_ok_update i b b2); [done..|apply ok]|].
  constructor; try done. rewrite Hl. cbn. lia.
Qed.

Lemma process_RESET_ok :
  exists i' b', process_RESET i b = Some i' /\ rndis_ok i' b' /\ completed i REMOTE_NDIS_RESET_MSG b b' i'.
Proof.
  unfold process_RESET. cbv zeta.
  match goal with |- context [put_words ?l b] =>
    destruct (put_words_ok l b) as (b1 & -> & Hl1 & Hb1 & Ho1); [done|done|] end.
  eexists _, b1. split; [done|]. split.
  - apply (rndis_ok_update i b b1); [done|congruence|apply Hb1, ok|apply ok].
  - constructor; try done; try by rewrite Ho1. rewrite Hl1. cbn. lia.
Qed.

Lemma process_HALT_ok :
  exists i' b', process_HALT i b = Some i' /\ rndis_ok i' b' /\
    get32 off_MessageLength b' = Some 0 /\ ResponseReady (RNDIS_State i') = false /\
    CurrRNDISState (RNDIS_State i') = RNDIS_Uninitialized.
Proof.
  unfold process_HALT. cbv zeta.
  destruct (put32_ok off_MessageLength 0 b) as (b1 & -> & [Hl1 Hb1 Hs1 _]); [done|done|].
  eexists _, b1. split; [done|]. split; [|done].
  apply (rndis_ok_update i b b1); [done|congruence|apply Hb1, ok|done].
Qed.

(** The header of the response to a query, once the information was written. *)
Lemma query_header b1 status len off :
  length b1 = length b -> all_bytes b1 -> is_u32 status ->
  0 <= off <= 24 -> 0 <= len -> 24 + len <= Z.of_nat (length b) ->
  exists b2, put_words [(off_Status, status); (off_MessageLength, 24 + len); (off_InformationBufferLength, len);
                        (off_InformationBufferOffset, off)] b1 = Some b2 /\
  length b2 = length b /\ all_bytes b2 /\
  get32 off_MessageType b2 = get32 off_MessageType b1 /\ get32 off_RequestId b2 = get32 off_RequestId b1 /\
  get32 off_MessageLength b2 = Some (24 + len) /\ get32 off_Status b2 = Some status /\
  get32 off_InformationBufferLength b2 = Some len /\ get32 off_InformationBufferOffset b2 = Some off /\
  drop 24 b2 = drop 24 b1.
Proof.
  intros Hl Hall Hst Hoff Hlen Hfit.
  match goal with |- context [put_words ?l b1] =>
    destruct (put_words_ok l b1) as (b2 & Hp & Hl2 & Hb2 & Ho2); [by rewrite Hl|done|] end.
  pose proof (put_words_after 24 _ _ _ Hp eq_refl) as Hd.
  pose proof (ro_16 _ _ ok). pose proof (ro_length _ _ ok).
  exists b2. split; [done|]. split; [congruence|]. split; [auto|].
  repeat split; try (rewrite Ho2 by done; cbn [last_word]); try done;
    cbn [Z.eqb Pos.eqb off_Status off_MessageLength off_InformationBufferLength off_InformationBufferOffset];
    by rewrite wrap_id by (unfold fits in *; lia).
Qed.

Lemma process_QUERY_ok :
  exists i' b', process_QUERY i b = Some i' /\ rndis_ok i' b' /\ completed i REMOTE_NDIS_QUERY_MSG b b' i'.
Proof.
  unfold process_QUERY. cbv zeta.
  destruct (get32_ok off_Oid b) as [oid Hoid]; [done|done|].
  destruct (get32_ok off_InformationBufferOffset_Message b) as [x Hx]; [done|done|]. rewrite Hoid, Hx.
  destruct (put32_ok off_MessageType REMOTE_NDIS_QUERY_CMPLT b) as (b1 & -> & [Hl1 Hb1 Hs1 Ho1]); [done|done|].
  destruct (get32_ok off_InformationBufferLength b1) as [y ->]; [by rewrite Hl1|done|].
  set (i1 := set_ResponseReady true i).
  assert (Hall1 : all_bytes b1) by apply Hb1, ok.
  assert (Hi1 : rndis_ok i1 b) by (destruct ok; by constructor).
  destruct (ProcessNDISQuery_ok i1 b oid b1 Hi1 Hall1 Hl1) as (r & -> & Hr). unfold query_answer in Hr.
  change (query_info i1 oid) with (query_info i oid) in Hr.
  assert (Hdone : forall b2 data, length b2 = length b -> all_bytes b2 ->
    (forall o, o + 4 <= sizeof_RNDIS_Query_Complete_t -> get32 o b2 = get32 o b1) ->
    24 + Z.of_nat (length data) <= Z.of_nat (length b) -> data = default [] (query_info i oid) ->
    take (length data) (drop 24 b2) = data ->
    exists b3, put_words [(off_Status, completion_status i REMOTE_NDIS_QUERY_MSG b);
        (off_MessageLength, 24 + Z.of_nat (length data)); (off_InformationBufferLength, Z.of_nat (length data));
        (off_InformationBufferOffset, match query_info i oid with Some _ => 16 | None => 0 end)] b2 = Some b3 /\
      rndis_ok (set_MessageBuffer b3 i1) b3 /\
      completed i REMOTE_NDIS_QUERY_MSG b b3 (set_MessageBuffer b3 i1)).
  { intros b2 data Hl2 Hall2 Ho2 Hfit Hdata Hd2.
    destruct (query_header b2 (completion_status i REMOTE_NDIS_QUERY_MSG b) (Z.of_nat (length data))
                (match query_info i oid with Some _ => 16 | None => 0 end)) as (b3 & -> & Hl3 & Hall3 & H0 & H8 & H4 & H12 & H16 & H20 & Hd3);
      [done|done|by unfold completion_status; destruct (refused _ _ _)|by destruct (query_info i oid)|lia|done|].
    exists b3. split; [done|]. split; [by apply (rndis_ok_update i1 b b3); [|done|done|apply ok]|].
    assert (Hm : message_oid b = oid) by (unfold message_oid; by rewrite Hoid).
    assert (Hcl : completion_length i REMOTE_NDIS_QUERY_MSG b = 24 + Z.of_nat (length data))
      by (unfold completion_length; by rewrite Hm, <- Hdata).
    constructor; [|by rewrite Hcl| | |exact H12| |done|done].
    - rewrite H0, Ho2 by done. by rewrite Hs1.
    - rewrite Hcl, Hl3. done.
    - intros _. rewrite H8, Ho2 by done. apply Ho1. unfold off_MessageType, off_RequestId. lia.
    - intros _. unfold information. rewrite Hm, <- Hdata, H16, H20, Hd3. done. }
  unfold completion_status, refused in Hdone. unfold message_oid in Hdone. rewrite Hoid in Hdone.
  change (default 0 (Some oid)) with oid in Hdone. change (REMOTE_NDIS_QUERY_MSG =? REMOTE_NDIS_QUERY_MSG) with true in Hdone.
  change (REMOTE_NDIS_QUERY_MSG =? REMOTE_NDIS_SET_MSG) with false in Hdone. cbn [andb] in Hdone.
  destruct (query_info i oid) as [data|], r as [[n b2]|]; try done.
  - destruct Hr as (-> & Hfit & Hl2 & Hall2 & Hd2 & Ho2).
    destruct (Hdone b2 data) as (b3 & Hp3 & ?); try done; [congruence|rewrite <- Hl1; exact Hfit|].
    match goal with |- context [put_words ?l b2] =>
      change (put_words l b2 = Some b3) in Hp3; rewrite Hp3 end. by eexists _, b3.
  - destruct (Hdone b1 []) as (b3 & Hp3 & ?); try done; [cbn; lia|].
    match goal with |- context [put_words ?l b1] =>
      change (put_words l b1 = Some b3) in Hp3; rewrite Hp3 end. by eexists _, b3.
Qed.

(** The data of a SET message that sets the packet filter. *)
Lemma ProcessNDISSet_ok i1 oid p b2 :
  rndis_ok i1 b -> length b2 = length b -> 0 <= p ->
  if (oid =? OID_GEN_CURRENT_PACKET_FILTER) && (Z.of_nat (length b) <? p + 4)
  then RNDIS_Device_ProcessNDISSet i1 oid p b2 = None
  else exists r i2, RNDIS_Device_ProcessNDISSet i1 oid p b2 = Some (r, i2) /\ rndis_ok i2 b /\
         ResponseReady (RNDIS_State i2) = ResponseReady (RNDIS_State i1) /\
         r = bool_decide (oid ∈ [OID_GEN_CURRENT_PACKET_FILTER; OID_802_3_MULTICAST_LIST]).
Proof.
  intros Hi Hl Hp. unfold RNDIS_Device_ProcessNDISSet.
  destruct (Z.eqb_spec oid OID_GEN_CURRENT_PACKET_FILTER) as [->|Hf]; cbn [andb].
  2: { destruct (Z.eqb_spec oid OID_802_3_MULTICAST_LIST) as [->|Hm]; eexists _, _;
         (split; [done|]; split; [done|]; split; [done|]); [done|].
       symmetry. apply bool_decide_false. rewrite !elem_of_cons, elem_of_nil. tauto. }
  unfold get32. rewrite Hl. destruct (Z.leb_spec 0 p); [|lia]. cbn [andb].
  destruct (Z.ltb_spec (Z.of_nat (length b)) (p + 4)); destruct (Z.leb_spec (p + 4) (Z.of_nat (length b)));
    try lia; [done|].
  eexists _, _. split; [done|]. split; [|done]. destruct Hi. constructor; cbn; try done.
  by destruct (Z.eqb_spec (le_val (take 4 (drop (Z.to_nat p) b2))) 0).
Qed.

Lemma process_SET_ok :
  if set_data_inside b then exists i' b', process_SET i b = Some i' /\ rndis_ok i' b' /\
    completed i REMOTE_NDIS_SET_MSG b b' i'
  else process_SET i b = None.
Proof.
  unfold set_data_inside, process_SET. cbv zeta.
  destruct (get32_ok off_Oid b) as [oid Hoid]; [done|done|].
  destruct (get32_ok off_InformationBufferOffset_Message b) as [off Hoff]; [done|done|]. rewrite Hoid, Hoff.
  edestruct (completion_ok REMOTE_NDIS_SET_CMPLT sizeof_RNDIS_Set_Complete_t [])
    as (b1 & id & b2 & -> & -> & Hp2 & Hl & Hb & Ho & H1 & H2 & H3 & _); [done..|].
  cbn [put_words] in Hp2. destruct (put32 off_RequestId id b1) as [b2'|]; [|done].
  injection Hp2 as ->. rewrite Ho, Hoff by done.
  destruct (get32_ok off_InformationBufferLength b2) as [x ->]; [by rewrite Hl|done|].
  set (i1 := set_ResponseReady true i). set (p := u32 (sizeof_RNDIS_Message_Header_t + off)).
  assert (Hi1 : rndis_ok i1 b) by (destruct ok; by constructor).
  assert (Hp : 0 <= p) by (apply (wrap_fits 32); lia).
  pose proof (ProcessNDISSet_ok i1 oid p b2 Hi1 Hl Hp) as Hset.
  destruct ((oid =? OID_GEN_CURRENT_PACKET_FILTER) && (Z.of_nat (length b) <? p + 4)); cbn [negb].
  { by rewrite Hset. }
  destruct Hset as (r & i2 & -> & Hi2 & Hr & Hok).
  match goal with |- context [put32 ?o ?y b2] =>
    destruct (put32_ok o y b2) as (b3 & -> & [Hl3 Hb3 Hs3 Ho3]); [by rewrite Hl|done|] end.
  eexists _, b3. split; [done|]. split.
  - apply (rndis_ok_update i2 b b3 (RNDIS_State i2) Hi2); [congruence|auto|apply Hi2].
  - constructor; try done.
    + by rewrite Ho3 by (unfold off_MessageType, off_Status; lia).
    + by rewrite Ho3 by (unfold off_MessageLength, off_Status; lia).
    + rewrite Hl3, Hl. cbn. lia.
    + intros _. by rewrite Ho3 by (unfold off_RequestId, off_Status; lia).
    + cbn [Z.eqb Pos.eqb REMOTE_NDIS_SET_MSG REMOTE_NDIS_RESET_MSG]. rewrite Hs3. f_equal.
      unfold completion_status, refused, message_oid. rewrite Hoid.
      rewrite Hok. change (default 0 (Some oid)) with oid.
      cbn [Z.eqb Pos.eqb REMOTE_NDIS_QUERY_MSG andb orb]. rewrite bool_decide_not. by case_bool_decide.
Qed.
End Messages.

