(* ===== verification/UsbInterrupt.v ===== *)
(** * The USB interrupt handler

    [ISR(USB_GEN_vect, ISR_BLOCK)] of
    [LUFA/Drivers/USB/Core/AVR8/USBInterrupt_AVR8.c]: the device state machine
    driven by the bus. *)
From S2P Require Import Prelude Machine Rely Descriptors Endpoint UsbController DeviceStandardReq.

Section UsbInterrupt.
Context `{Env} `{USB_Application}.

(** [USB_INT_HasOccurred(i) && USB_INT_IsEnabled(i)] *)
Definition pending (i : USB_Interrupts_t) : M bool :=
  occurred ← USB_INT_HasOccurred i;
  if (occurred : bool) then USB_INT_IsEnabled i else ret false.

(** [if (!(USB_Options & USB_OPT_MANUAL_PLL)) { USB_PLL_On(); while (!(USB_PLL_IsReady())); }] *)
Definition pll_start : M unit :=
  when (negb (option_set USB_OPT_MANUAL_PLL)) (USB_PLL_On ;; spin_until USB_PLL_IsReady).
Definition pll_stop : M unit := when (negb (option_set USB_OPT_MANUAL_PLL)) USB_PLL_Off.

Definition isr_SOFI : M unit :=
  USB_INT_Clear USB_INT_SOFI ;;
  EVENT_USB_Device_StartOfFrame.

Definition isr_VBUSTI : M unit :=
  USB_INT_Clear USB_INT_VBUSTI ;;
  vbus ← USB_VBUS_GetStatus;
  if (vbus : bool) then
    pll_start ;;
    put (set_USB_DeviceState DEVICE_STATE_Powered) ;;
    EVENT_USB_Device_Connect
  else
    pll_stop ;;
    put (set_USB_DeviceState DEVICE_STATE_Unattached) ;;
    EVENT_USB_Device_Disconnect.

Definition isr_SUSPI : M unit :=
  USB_INT_Disable USB_INT_SUSPI ;;
  USB_INT_Enable USB_INT_WAKEUPI ;;
  USB_CLK_Freeze ;;
  pll_stop ;;
  put (set_USB_DeviceState DEVICE_STATE_Suspended) ;;
  EVENT_USB_Device_Suspend.

Definition isr_WAKEUPI : M unit :=
  pll_start ;;
  USB_CLK_Unfreeze ;;
  USB_INT_Clear USB_INT_WAKEUPI ;;
  USB_INT_Disable USB_INT_WAKEUPI ;;
  USB_INT_Enable USB_INT_SUSPI ;;
  n ← get USB_Device_ConfigurationNumber;
  (if negb (n =? 0) then put (set_USB_DeviceState DEVICE_STATE_Configured)
   else
     a ← USB_Device_IsAddressSet;
     put (set_USB_DeviceState (if (a : bool) then DEVICE_STATE_Addressed
                               else DEVICE_STATE_Powered))) ;;
  EVENT_USB_Device_WakeUp.

Definition isr_EORSTI : M unit :=
  USB_INT_Clear USB_INT_EORSTI ;;
  put (set_USB_DeviceState DEVICE_STATE_Default) ;;
  put (set_USB_Device_ConfigurationNumber 0) ;;
  USB_INT_Clear USB_INT_SUSPI ;;
  USB_INT_Disable USB_INT_SUSPI ;;
  USB_INT_Enable USB_INT_WAKEUPI ;;
  Endpoint_ConfigureEndpoint ENDPOINT_CONTROLEP EP_TYPE_CONTROL USB_Device_ControlEndpointSize 1 ;;
  EVENT_USB_Device_Reset.

(** One [if (USB_INT_HasOccurred(i) && USB_INT_IsEnabled(i)) { ... }] *)
Definition on_interrupt (i : USB_Interrupts_t) (handler : M unit) : M unit :=
  b ← pending i; when b handler.

Definition USB_GEN_vect : M unit :=
  on_interrupt USB_INT_SOFI isr_SOFI ;;
  on_interrupt USB_INT_VBUSTI isr_VBUSTI ;;
  on_interrupt USB_INT_SUSPI isr_SUSPI ;;
  on_interrupt USB_INT_WAKEUPI isr_WAKEUPI ;;
  on_interrupt USB_INT_EORSTI isr_EORSTI.
End UsbInterrupt.

(** ** The device state machine

    The abstract device: its state and configuration number.
    [device_step i l d d']: what the bus condition reported by interrupt [i] does
    to it; [l] are the register accesses of the handler, among which are the
    samples of the VBUS line and of the address register it acts upon. *)

Record device := { dev_state : Z; dev_config : Z }.

Definition device_of (s : st) : device :=
  {| dev_state := USB_DeviceState s; dev_config := USB_Device_ConfigurationNumber s |}.

Definition in_state (x : Z) (d : device) : device :=
  {| dev_state := x; dev_config := dev_config d |}.

Inductive device_step : USB_Interrupts_t -> list event -> device -> device -> Prop :=
  | step_frame l d : device_step USB_INT_SOFI l d d
  | step_connect l d v :
      Rd USBSTA v ∈ l -> has_bit v VBUS = true ->
      device_step USB_INT_VBUSTI l d (in_state DEVICE_STATE_Powered d)
  | step_disconnect l d v :
      Rd USBSTA v ∈ l -> has_bit v VBUS = false ->
      device_step USB_INT_VBUSTI l d (in_state DEVICE_STATE_Unattached d)
  | step_suspend l d : device_step USB_INT_SUSPI l d (in_state DEVICE_STATE_Suspended d)
  | step_wakeup_configured l d :
      dev_config d <> 0 ->
      device_step USB_INT_WAKEUPI l d (in_state DEVICE_STATE_Configured d)
  | step_wakeup_unconfigured l d v :
      dev_config d = 0 -> Rd UDADDR v ∈ l ->
      device_step USB_INT_WAKEUPI l d
        (in_state (if has_bit v ADDEN then DEVICE_STATE_Addressed else DEVICE_STATE_Powered) d)
  | step_reset l d :
      device_step USB_INT_EORSTI l d {| dev_state := DEVICE_STATE_Default; dev_config := 0 |}.

(** The handler withdraws the request it serves, by clearing the flag or (for a
    suspended bus, whose flag stays set) by disabling the interrupt. *)
Definition acknowledged (i : USB_Interrupts_t) (l : list event) : Prop :=
  let '(r, n) := match i with USB_INT_SUSPI => int_enable i | _ => int_flag i end in
  exists v, Wr r (clear_bits v (bit n)) ∈ l.

(** The outcome of the test of interrupt [i] after the trace [t], and the trace
    after the test. *)
Definition pending_at `{Env} (i : USB_Interrupts_t) (t : list event) : bool :=
  let '(fr, fb) := int_flag i in
  let '(er, eb) := int_enable i in
  has_bit (respond t fr) fb && has_bit (respond (Rd fr (respond t fr) :: t) er) eb.

Definition tested `{Env} (i : USB_Interrupts_t) (t : list event) : list event :=
  let '(fr, fb) := int_flag i in
  let t1 := Rd fr (respond t fr) :: t in
  if has_bit (respond t fr) fb then
    Rd (fst (int_enable i)) (respond t1 (fst (int_enable i))) :: t1
  else t1.

(** The interrupts [js], tested in this order from trace [t] and device [d] on:
    each one that is pending is served, the others are passed over. *)
Inductive serviced `{Env} :
    list USB_Interrupts_t -> list event -> device -> list event -> device -> Prop :=
  | serviced_nil t d : serviced [] t d t d
  | serviced_absent i js t d t' d' :
      pending_at i t = false ->
      serviced js (tested i t) d t' d' -> serviced (i :: js) t d t' d'
  | serviced_pending i js t d l d1 t' d' :
      pending_at i t = true ->
      device_step i l d d1 -> acknowledged i l ->
      serviced js (l ++ tested i t) d1 t' d' -> serviced (i :: js) t d t' d'.

(** Interface law of the bus events: the application's handlers keep the
    library's variables. *)
Class Bus_Event_Law `{USB_Application} : Prop := {
  law_Connect : keeps EVENT_USB_Device_Connect;
  law_Disconnect : keeps EVENT_USB_Device_Disconnect;
  law_Suspend : keeps EVENT_USB_Device_Suspend;
  law_WakeUp : keeps EVENT_USB_Device_WakeUp;
  law_Reset : keeps EVENT_USB_Device_Reset;
  law_StartOfFrame : forall s, wp EVENT_USB_Device_StartOfFrame (fun _ s' => evolves [] s s') s
}.

(** The PLL locks within [K] polls: documented behaviour of the clock unit. *)
Fixpoint pll_polls (t : list event) : nat :=
  match t with Rd PLLCSR _ :: t => S (pll_polls t) | _ => 0 end.
Definition pll_locks `{Env} (K : nat) : Prop :=
  forall t, (K <= pll_polls t)%nat -> has_bit (respond t PLLCSR) PLOCK = true.

Lemma core_device s s' : core s' = core s -> device_of s' = device_of s.
Proof.
  intros Hc. unfold device_of. f_equal; [by apply (f_equal USB_DeviceState) in Hc|].
  by apply (f_equal USB_Device_ConfigurationNumber) in Hc.
Qed.

(** [at_point s0 l d s]: the handler started in [s0], has made the accesses [l]
    and the device is [d]. *)
Definition at_point (s0 : st) (l : list event) (d : device) (s : st) : Prop :=
  trace s = l ++ trace s0 /\ device_of s = d.

Section IsrProofs.
Context `{Masked} `{USB_Application} `{!Bus_Event_Law}.
Context (K : nat).
Hypothesis pll : pll_locks K.
Hypothesis enough : (K < fuel)%nat.

Lemma point_keeps {A} (m : M A) s0 l d s Q :
  at_point s0 l d s -> keeps m ->
  (forall a l' s', at_point s0 (l' ++ l) d s' -> Q a s') -> wp m Q s.
Proof.
  intros [Ht Hd] Hm HQ. eapply wp_mono; [|apply Hm]. intros a s' [Hc [l' Hl]].
  apply (HQ a l'). split; [by rewrite Hl, Ht, app_assoc|]. by rewrite (core_device _ _ Hc).
Qed.

Lemma point_rd s0 l d s r Q :
  at_point s0 l d s -> (forall v s', at_point s0 (Rd r v :: l) d s' -> Q v s') -> wp (rd r) Q s.
Proof.
  intros [Ht Hd] HQ. unfold rd, wp. rewrite masked. apply HQ. split; [|done].
  simpl. by rewrite Ht.
Qed.

Lemma point_wr s0 l d s r v Q :
  at_point s0 l d s -> (forall s', at_point s0 (Wr r (u8 v) :: l) d s' -> Q tt s') ->
  wp (wr r v) Q s.
Proof. intros [Ht Hd] HQ. apply HQ. split; [|done]. simpl. by rewrite Ht. Qed.

Lemma point_clear s0 l d s r m Q :
  at_point s0 l d s ->
  (forall v s', at_point s0 (Wr r (clear_bits v m) :: Rd r v :: l) d s' -> Q tt s') ->
  wp (reg_clear r m) Q s.
Proof.
  intros Hp HQ. unfold reg_clear. rewrite wp_bind. eapply point_rd; [exact Hp|]. intros v s1 Hp1.
  eapply point_wr; [exact Hp1|]. intros s2 Hp2. unfold clear_bits in Hp2 at 1.
  rewrite wrap_wrap in Hp2. by eapply HQ.
Qed.

Lemma point_test s0 l d s r n Q :
  at_point s0 l d s ->
  (forall v s', at_point s0 (Rd r v :: l) d s' -> Q (has_bit v n) s') -> wp (reg_test r n) Q s.
Proof. intros Hp HQ. unfold reg_test. rewrite wp_bind. by eapply point_rd. Qed.

Lemma point_state s0 l d s x Q :
  at_point s0 l d s ->
  (forall s', at_point s0 l (in_state x d) s' -> Q tt s') -> wp (put (set_USB_DeviceState x)) Q s.
Proof. intros [Ht <-] HQ. apply HQ. by split. Qed.

Lemma point_config s0 l d s n Q :
  at_point s0 l d s ->
  (forall s', at_point s0 l {| dev_state := dev_state d; dev_config := n |} s' -> Q tt s') ->
  wp (put (set_USB_Device_ConfigurationNumber n)) Q s.
Proof. intros [Ht <-] HQ. apply HQ. by split. Qed.

Lemma keeps_pll_start : keeps pll_start.
Proof.
  unfold pll_start, USB_PLL_On. apply keeps_when. apply keeps_bind; [auto with keeps|intros _].
  intros s. unfold spin_until.
  apply (wp_loop (fun _ n s' => kept s s' /\ n = (K - pll_polls (trace s'))%nat))
    with (n := (K - pll_polls (trace s))%nat); [|lia|split; [apply kept_refl|done]].
  intros _ n s1 [Hc ->]. rewrite wp_bind. unfold USB_PLL_IsReady, reg_test, rd, wp, bind.
  rewrite masked. cbn [ret].
  assert (kept s (log (Rd PLLCSR (respond (trace s1) PLLCSR)) s1))
    by exact (kept_trans _ _ _ Hc (kept_log _ _)).
  destruct (has_bit (respond (trace s1) PLLCSR) PLOCK) eqn:Hl; [done|].
  eexists. split; [|split; [done|reflexivity]]. cbn [trace log set_trace pll_polls].
  destruct (decide (K <= pll_polls (trace s1))%nat) as [Hge|]; [|lia].
  by rewrite (pll _ Hge) in Hl.
Qed.

Lemma keeps_pll_stop : keeps pll_stop.
Proof. unfold pll_stop, USB_PLL_Off. auto with keeps. Qed.

(** What is shown of each handler. *)
Definition handles (i : USB_Interrupts_t) (m : M unit) : Prop := forall s,
  wp m (fun _ s' => exists l, trace s' = l ++ trace s /\
                    device_step i l (device_of s) (device_of s') /\ acknowledged i l) s.

Lemma handles_point i m :
  (forall s, wp m (fun _ s' => exists l d, at_point s l d s' /\
                    device_step i l (device_of s) d /\ acknowledged i l) s) -> handles i m.
Proof.
  intros Hm s. eapply wp_mono; [|apply Hm]. intros _ s' (l & d & [Ht Hd] & Hstep & Hack).
  exists l. by rewrite Hd.
Qed.

Ltac unfold_ints := unfold USB_INT_Clear, USB_INT_Disable, USB_INT_Enable, USB_VBUS_GetStatus,
  USB_CLK_Freeze, USB_CLK_Unfreeze, USB_Device_IsAddressSet.
(** One statement, whose accesses the specification does not look at. *)
Ltac skip Hp := rewrite wp_bind;
  eapply point_keeps; [exact Hp|solve [auto using keeps_pll_start, keeps_pll_stop with keeps]|];
  clear Hp; intros ? ? ? Hp.
Ltac clear_flag Hp := rewrite wp_bind; eapply point_clear; [exact Hp|]; clear Hp; intros ? ? Hp.
Ltac set_state Hp := rewrite wp_bind; eapply point_state; [exact Hp|]; clear Hp; intros ? Hp.
Ltac start := apply handles_point; intros s;
  assert (Hp : at_point s [] (device_of s) s) by done.
Ltac recorded := repeat (rewrite elem_of_app || rewrite elem_of_cons); eauto 12.
Ltac finish := eexists; recorded.

Lemma handles_SOFI : handles USB_INT_SOFI isr_SOFI.
Proof.
  start. unfold isr_SOFI. unfold_ints. clear_flag Hp.
  eapply point_keeps; [exact Hp| |].
  { intros s2. eapply wp_mono; [|apply law_StartOfFrame]. intros [] s3. apply evolves_kept. }
  intros _ l s2 Hp2. do 2 eexists. split; [exact Hp2|]. split; [constructor|]. finish.
Qed.

Lemma handles_VBUSTI : handles USB_INT_VBUSTI isr_VBUSTI.
Proof.
  start. unfold isr_VBUSTI. unfold_ints. clear_flag Hp.
  rewrite wp_bind. eapply point_test; [exact Hp|]. clear Hp. intros vbus s2 Hp.
  destruct (has_bit vbus VBUS) eqn:Hv; skip Hp; set_state Hp;
    (eapply point_keeps; [exact Hp|apply law_Connect || apply law_Disconnect|]);
    clear Hp; intros _ le s4 Hp; do 2 eexists; (split; [exact Hp|]); (split; [|finish]).
  - apply (step_connect _ _ vbus); [recorded|done].
  - apply (step_disconnect _ _ vbus); [recorded|done].
Qed.

Lemma handles_SUSPI : handles USB_INT_SUSPI isr_SUSPI.
Proof.
  start. unfold isr_SUSPI. unfold_ints. clear_flag Hp. do 3 skip Hp. set_state Hp.
  eapply point_keeps; [exact Hp|apply law_Suspend|]. clear Hp. intros _ le s5 Hp.
  do 2 eexists. split; [exact Hp|]. split; [constructor|finish].
Qed.

Lemma handles_WAKEUPI : handles USB_INT_WAKEUPI isr_WAKEUPI.
Proof.
  start. unfold isr_WAKEUPI. unfold_ints. do 2 skip Hp. clear_flag Hp. do 2 skip Hp.
  rewrite wp_bind, wp_get. rewrite wp_bind.
  pose proof Hp as [_ Hd]. apply (f_equal dev_config) in Hd. simpl in Hd. rewrite Hd.
  destruct (Z.eqb_spec (USB_Device_ConfigurationNumber s) 0) as [E|E]; cbn [negb].
  - rewrite wp_bind. eapply point_test; [exact Hp|]. clear Hp. intros va s6 Hp.
    eapply point_state; [exact Hp|]. clear Hp. intros s7 Hp.
    eapply point_keeps; [exact Hp|apply law_WakeUp|]. clear Hp. intros _ lw s8 Hp.
    do 2 eexists. split; [exact Hp|]. split; [apply step_wakeup_unconfigured; [done|]|];
      [recorded|finish].
  - eapply point_state; [exact Hp|]. clear Hp. intros s7 Hp.
    eapply point_keeps; [exact Hp|apply law_WakeUp|]. clear Hp. intros _ lw s8 Hp.
    do 2 eexists. split; [exact Hp|]. split; [by apply step_wakeup_configured|finish].
Qed.

Lemma handles_EORSTI : handles USB_INT_EORSTI isr_EORSTI.
Proof.
  start. unfold isr_EORSTI. unfold_ints. clear_flag Hp. set_state Hp.
  rewrite wp_bind. eapply point_config; [exact Hp|]. clear Hp. intros s2 Hp.
  assert (keeps (Endpoint_ConfigureEndpoint ENDPOINT_CONTROLEP EP_TYPE_CONTROL
                   USB_Device_ControlEndpointSize 1)).
  { apply keeps_ConfigureEndpoint. vm_compute. discriminate. }
  do 4 skip Hp. eapply point_keeps; [exact Hp|apply law_Reset|]. clear Hp. intros _ lr s7 Hp.
  do 2 eexists. split; [exact Hp|]. split; [constructor|finish].
Qed.

(** The test of an interrupt. *)
Lemma pending_tests i s :
  wp (pending i) (fun b s1 => b = pending_at i (trace s) /\ trace s1 = tested i (trace s) /\
                              device_of s1 = device_of s) s.
Proof.
  unfold pending, USB_INT_HasOccurred, USB_INT_IsEnabled, reg_test, pending_at, tested.
  destruct (int_flag i) as [fr fb], (int_enable i) as [er eb]. cbn [fst snd].
  unfold wp, bind, rd. rewrite !masked. cbn [ret].
  destruct (has_bit (respond (trace s) fr) fb); [|done]. by rewrite masked.
Qed.

(** One [if] of the interrupt handler. *)
Lemma serviced_interrupt i m s :
  handles i m ->
  wp (on_interrupt i m) (fun _ s1 => forall js t' d',
    serviced js (trace s1) (device_of s1) t' d' ->
    serviced (i :: js) (trace s) (device_of s) t' d') s.
Proof.
  intros Hm. unfold on_interrupt. rewrite wp_bind. eapply wp_mono; [|apply pending_tests].
  intros b s1 (-> & Ht & Hd). destruct (pending_at i (trace s)) eqn:Hpend; cbn [when].
  - eapply wp_mono; [|apply Hm]. intros [] s2 (l & Ht2 & Hstep & Hack) js t' d' Hrest.
    rewrite Ht2, Ht in Hrest. rewrite Hd in Hstep. by eapply serviced_pending.
  - rewrite wp_ret. intros js t' d' Hrest. rewrite Ht, Hd in Hrest. by eapply serviced_absent.
Qed.

(** C6: the interrupt handler implements the device state machine.  Whatever
    the interrupt flags say, [USB_GEN_vect] terminates (the PLL locks within [K]
    polls).  It tests the interrupts in the order start of frame, VBUS
    transition, suspend, wake-up, end of reset; each one that it finds pending it
    serves, moving the device by exactly the step of that bus condition and
    withdrawing the request, and those that are not pending change nothing.
    Proved for any application whose handlers keep the library's variables. *)
Theorem USB_GEN_vect_refines s :
  wp USB_GEN_vect (fun _ s' =>
    serviced [USB_INT_SOFI; USB_INT_VBUSTI; USB_INT_SUSPI; USB_INT_WAKEUPI; USB_INT_EORSTI]
             (trace s) (device_of s) (trace s') (device_of s')) s.
Proof.
  unfold USB_GEN_vect.
  rewrite wp_bind. eapply wp_mono; [|apply serviced_interrupt, handles_SOFI]. intros [] s1 Hk1.
  rewrite wp_bind. eapply wp_mono; [|apply serviced_interrupt, handles_VBUSTI]. intros [] s2 Hk2.
  rewrite wp_bind. eapply wp_mono; [|apply serviced_interrupt, handles_SUSPI]. intros [] s3 Hk3.
  rewrite wp_bind. eapply wp_mono; [|apply serviced_interrupt, handles_WAKEUPI]. intros [] s4 Hk4.
  eapply wp_mono; [|apply serviced_interrupt, handles_EORSTI]. intros [] s5 Hk5.
  apply Hk1, Hk2, Hk3, Hk4, Hk5. constructor.
Qed.
End IsrProofs.

(** ** Start-of-frame interrupts are calm *)

(** The machine whose interrupts are [USB_GEN_vect]. *)
Definition interrupted (E : Env) (App : USB_Application) : Env :=
  {| respond := respond;
     async := fun s => match USB_GEN_vect s with Done _ s' => s' | _ => s end;
     fuel := fuel |}.

(** No bus interrupt other than start of frame occurs. *)
Definition other_bus_interrupts : list USB_Interrupts_t :=
  [USB_INT_VBUSTI; USB_INT_SUSPI; USB_INT_WAKEUPI; USB_INT_EORSTI].
Definition only_frames `{Env} : Prop := forall t i,
  i ∈ other_bus_interrupts -> has_bit (respond t (fst (int_flag i))) (snd (int_flag i)) = false.

Section CalmProofs.
Context {E : Env} {HE : Masked} {App : USB_Application} {Law : Bus_Event_Law}.
Hypothesis frames : only_frames.

Definition quiet (m : M unit) : Prop := forall s, wp m (fun _ s' => evolves [] s s') s.

Lemma quiet_bind m n : quiet m -> quiet n -> quiet (m ;; n).
Proof.
  intros Hm Hn s. rewrite wp_bind. eapply wp_mono; [|apply Hm]. intros [] s1 H1.
  eapply wp_mono; [|apply Hn]. intros [] s2 H2. by apply (evolves_trans _ _ _ _ _ H1 H2).
Qed.

Lemma quiet_absent i m : i ∈ other_bus_interrupts -> quiet (on_interrupt i m).
Proof.
  intros Hi s. unfold on_interrupt, pending, USB_INT_HasOccurred, reg_test.
  rewrite !wp_bind. unfold rd at 1, wp. cbn [ret].
  rewrite (frames _ i Hi). cbn [when ret]. eapply evolves_nil_l; [apply calm|].
  apply evolves_log_other. unfold other_bus_interrupts in Hi.
  by repeat (apply elem_of_cons in Hi as [->|Hi]; [done|]); apply elem_of_nil in Hi.
Qed.

Lemma quiet_SOFI : quiet (on_interrupt USB_INT_SOFI isr_SOFI).
Proof.
  intros s. unfold on_interrupt, pending, USB_INT_HasOccurred, USB_INT_IsEnabled, reg_test.
  rewrite !wp_bind. apply wp_rd_other; [done|]. intros v s1 H1. rewrite wp_ret.
  assert (Hrest : forall b s2, evolves [] s s2 ->
            wp (when b isr_SOFI) (fun _ s' => evolves [] s s') s2).
  { intros [] s2 H2; [|done]. cbn [when]. unfold isr_SOFI, USB_INT_Clear, reg_clear.
    rewrite !wp_bind. apply wp_rd_other; [done|]. intros v2 s3 H3.
    apply wp_wr_other; [done|]. intros s4 H4.
    eapply wp_mono; [|apply law_StartOfFrame]. intros [] s5 H5.
    eauto using evolves_nil_l. }
  destruct (has_bit v _); [|by apply Hrest].
  rewrite wp_bind. apply wp_rd_other; [done|]. intros v2 s2 H2. rewrite wp_ret.
  apply Hrest. eauto using evolves_nil_l.
Qed.

(** C31: as long as only start-of-frame interrupts occur, the interrupt handler
    keeps the promise that the proofs about interrupted code rely on: it touches
    no endpoint register and no variable but the idle counter. *)
Theorem frame_interrupts_calm : Calm (H := interrupted E App).
Proof.
  intros s. cbn [async interrupted]. unfold interrupted.
  assert (Hq : quiet USB_GEN_vect).
  { unfold USB_GEN_vect. apply quiet_bind; [apply quiet_SOFI|].
    repeat (apply quiet_bind; [apply quiet_absent; repeat constructor|]).
    apply quiet_absent. repeat constructor. }
  specialize (Hq s). apply wp_done in Hq as ([] & s' & -> & Hev). exact Hev.
Qed.
End CalmProofs.
