(* ===== verification/Safety.v ===== *)
(** * Safety on arbitrary hardware

    The theorems about single transfers suppose a host that carries the transfer
    out.  This file holds the tools for statements about the whole firmware,
    whatever the hardware and the host do: [safe I m R] says that [m], started
    in a state that satisfies the invariant [I], has no undefined behaviour and,
    if it terminates, has kept [I] and returned a value in [R].  Interrupts may be
    taken at every volatile access, so the invariant must be [Stable]: kept by the
    interrupt handler.  The hint database [safe] follows the structure of the
    code. *)
From S2P Require Import Prelude Machine Rely StdDescriptors Descriptors Endpoint ControlStream UsbController DeviceStandardReq EndpointStream UsbInterrupt.

Class Stable `{Env} (I : st -> Prop) : Prop := {
  stable_log : forall e s, I s -> I (log e s);
  stable_async : forall s, I s -> I (async s)
}.

Definition safe {A} (I : st -> Prop) (m : M A) (R : A -> Prop) : Prop :=
  forall s, I s -> wlp m (fun a s' => I s' /\ R a) s.

(** Code whose result does not matter. *)
Definition runs_safely {A} (I : st -> Prop) (m : M A) : Prop := safe I m (fun _ => True).

Create HintDb safe.

Section SafeRules.
Context `{Env} (I : st -> Prop) `{!Stable I}.

Lemma safe_mono {A} (m : M A) (R R' : A -> Prop) :
  (forall a, R a -> R' a) -> safe I m R -> safe I m R'.
Proof. intros HR Hm s Hs. eapply wlp_mono; [|by apply Hm]. intros a s' [? ?]. auto. Qed.

Lemma safe_any {A} (m : M A) (R : A -> Prop) : safe I m R -> runs_safely I m.
Proof. by apply safe_mono. Qed.

Lemma safe_ret {A} (a : A) (R : A -> Prop) : R a -> safe I (ret a) R.
Proof. intros Ha s Hs. by split. Qed.

Lemma safe_bind {A B} (m : M A) (k : A -> M B) (R : A -> Prop) R' :
  safe I m R -> (forall a, R a -> safe I (k a) R') -> safe I (bind m k) R'.
Proof.
  intros Hm Hk s Hs. rewrite wlp_bind. eapply wlp_mono; [|by apply Hm].
  intros a s1 [Hs1 Ha]. by apply Hk.
Qed.

Lemma safe_rd r : safe I (rd r) (fun v => exists t, v = respond t r).
Proof.
  intros s Hs. unfold rd, wlp. split; [by apply stable_log, stable_async|by eexists].
Qed.

Lemma safe_get {A} (f : st -> A) : safe I (get f) (fun a => exists s, I s /\ a = f s).
Proof. intros s Hs. split; [done|by exists s]. Qed.

Lemma safe_get_volatile {A} (f : st -> A) : safe I (get_volatile f) (fun a => exists s, I s /\ a = f s).
Proof.
  intros s Hs. apply stable_async in Hs. split; [done|by exists (async s)].
Qed.

Lemma safe_put f : (forall s, I s -> I (f s)) -> runs_safely I (put f).
Proof. intros Hf s Hs. split; [by apply Hf|done]. Qed.

Lemma safe_loop {X A} (J : X -> Prop) (body : X -> M (X + A)) (R : A -> Prop) n :
  (forall x, J x -> safe I (body x) (fun r => match r with inl x' => J x' | inr a => R a end)) ->
  forall x, J x -> safe I (loop n body x) R.
Proof.
  intros Hbody x Hx s Hs. apply (wlp_loop (fun x s => J x /\ I s)); [|done].
  clear x s Hx Hs. intros x s [Hx Hs]. eapply wlp_mono; [|by apply Hbody].
  intros [x'|a] s' [? ?]; auto.
Qed.

(** The rules for code whose result does not matter. *)
Lemma runs_ret {A} (a : A) : runs_safely I (ret a).
Proof. by apply safe_ret. Qed.
Lemma runs_seq {A B} (m : M A) (k : A -> M B) :
  runs_safely I m -> (forall a, runs_safely I (k a)) -> runs_safely I (bind m k).
Proof. intros Hm Hk. eapply safe_bind; [exact Hm|]. intros a _. apply Hk. Qed.
Lemma runs_rd r : runs_safely I (rd r).
Proof. eapply safe_any, safe_rd. Qed.
Lemma runs_wr r v : runs_safely I (wr r v).
Proof. intros s Hs. split; [by apply stable_log|done]. Qed.
Lemma runs_emit e : runs_safely I (emit e).
Proof. intros s Hs. split; [by apply stable_log|done]. Qed.
Lemma runs_get {A} (f : st -> A) : runs_safely I (get f).
Proof. eapply safe_any, safe_get. Qed.
Lemma runs_get_volatile {A} (f : st -> A) : runs_safely I (get_volatile f).
Proof. eapply safe_any, safe_get_volatile. Qed.
Lemma runs_when b m : runs_safely I m -> runs_safely I (when b m).
Proof. destruct b; [done|]. intros _. apply runs_ret. Qed.
Lemma runs_if {A} (b : bool) (m n : M A) :
  runs_safely I m -> runs_safely I n -> runs_safely I (if b then m else n).
Proof. by destruct b. Qed.
Lemma runs_loop {X A} (body : X -> M (X + A)) n x :
  (forall x, runs_safely I (body x)) -> runs_safely I (loop n body x).
Proof.
  intros Hb. apply (safe_loop (fun _ => True)); [|done]. intros y _.
  eapply safe_mono; [|apply Hb]. by intros [].
Qed.
End SafeRules.

#[export] Hint Extern 1 (runs_safely _ (ret _)) => apply runs_ret : safe.
#[export] Hint Extern 1 (runs_safely _ (rd _)) => apply runs_rd : safe.
#[export] Hint Extern 1 (runs_safely _ (wr _ _)) => apply runs_wr : safe.
#[export] Hint Extern 1 (runs_safely _ (emit _)) => apply runs_emit : safe.
#[export] Hint Extern 1 (runs_safely _ (get _)) => apply runs_get : safe.
#[export] Hint Extern 1 (runs_safely _ (get_volatile _)) => apply runs_get_volatile : safe.
#[export] Hint Extern 1 (runs_safely _ (when _ _)) => apply runs_when : safe.
#[export] Hint Extern 2 (runs_safely _ (bind _ _)) => apply runs_seq; [|intros] : safe.
#[export] Hint Extern 2 (runs_safely _ (loop _ _ _)) => apply runs_loop; intros : safe.
#[export] Hint Extern 3 (runs_safely _ (if _ then _ else _)) => apply runs_if : safe.
#[export] Hint Extern 4 (runs_safely _ (match ?x with _ => _ end)) => destruct x : safe.

#[export] Hint Extern 0 (Stable _) => typeclasses eauto : safe.

(** Code that consists of register accesses, tests and loops. *)
Ltac safely :=
  try lazymatch goal with |- safe ?I ?m (fun _ => True) => change (runs_safely I m) end;
  solve [auto 60 with safe].

Section SafeEndpoint.
Context `{Env} (I : st -> Prop) `{!Stable I}.

Lemma runs_reg_set r n : runs_safely I (reg_set r n).
Proof. unfold reg_set. safely. Qed.
Lemma runs_reg_clear r m : runs_safely I (reg_clear r m).
Proof. unfold reg_clear. safely. Qed.
Lemma runs_reg_test r n : runs_safely I (reg_test r n).
Proof. unfold reg_test. safely. Qed.
Lemma runs_spin c : runs_safely I c -> runs_safely I (spin_until c).
Proof. intros Hc. unfold spin_until. safely. Qed.
End SafeEndpoint.

#[export] Hint Extern 1 (runs_safely _ (reg_set _ _)) => apply runs_reg_set : safe.
#[export] Hint Extern 1 (runs_safely _ (reg_clear _ _)) => apply runs_reg_clear : safe.
#[export] Hint Extern 1 (runs_safely _ (reg_test _ _)) => apply runs_reg_test : safe.
#[export] Hint Extern 1 (runs_safely _ (spin_until _)) => apply runs_spin : safe.

(** Straight-line operations on the endpoint and controller registers. *)
Create HintDb safe_prims.
#[export] Hint Unfold Endpoint_SelectEndpoint Endpoint_ResetEndpoint Endpoint_EnableEndpoint
  Endpoint_DisableEndpoint Endpoint_IsEnabled Endpoint_IsReadWriteAllowed Endpoint_IsConfigured
  Endpoint_IsINReady Endpoint_IsOUTReceived Endpoint_IsSETUPReceived Endpoint_ClearSETUP
  Endpoint_ClearIN Endpoint_ClearOUT Endpoint_StallTransaction Endpoint_ClearStall Endpoint_IsStalled
  Endpoint_ResetDataToggle Endpoint_Read_8 Endpoint_Write_8 Endpoint_Write_16_LE
  Endpoint_BytesInEndpoint Endpoint_GetCurrentEndpoint Endpoint_GetEndpointDirection
  Endpoint_BytesToEPSizeMask wait_attached USB_Device_GetFrameNumber
  USB_VBUS_GetStatus USB_Attach USB_PLL_On USB_PLL_Off USB_PLL_IsReady USB_REG_On USB_REG_Off
  USB_OTGPAD_On USB_OTGPAD_Off USB_CLK_Freeze USB_CLK_Unfreeze USB_Controller_Reset
  USB_INT_Enable USB_INT_Disable USB_INT_Clear USB_INT_IsEnabled USB_INT_HasOccurred
  USB_INT_DisableAllInterrupts USB_INT_ClearAllInterrupts USB_Device_EnableSOFEvents
  USB_Device_SetLowSpeed USB_Device_SetFullSpeed USB_Device_SetDeviceAddress
  USB_Device_EnableDeviceAddress USB_Device_IsAddressSet GetGlobalInterruptMask
  GlobalInterruptDisable GlobalInterruptEnable SetGlobalInterruptMask : safe_prims.
#[export] Hint Extern 5 (runs_safely _ _) => progress autounfold with safe_prims : safe.

Section SafeLibrary.
Context `{Env} (I : st -> Prop) `{!Stable I}.

Lemma runs_ClearStatusStage : runs_safely I Endpoint_ClearStatusStage.
Proof. unfold Endpoint_ClearStatusStage. safely. Qed.

Lemma runs_WaitUntilReady : runs_safely I Endpoint_WaitUntilReady.
Proof. unfold Endpoint_WaitUntilReady. safely. Qed.

Lemma runs_configure_from n EPNum Number c0 c1 : runs_safely I (configure_from n EPNum Number c0 c1).
Proof. revert EPNum. induction n; intros EPNum; cbn [configure_from]; safely. Qed.

Lemma runs_ConfigureEndpoint a t z b : runs_safely I (Endpoint_ConfigureEndpoint a t z b).
Proof.
  pose proof runs_configure_from.
  unfold Endpoint_ConfigureEndpoint, Endpoint_ConfigureEndpoint_Prv. safely.
Qed.

Lemma runs_ConfigureEndpointTable l : runs_safely I (Endpoint_ConfigureEndpointTable l).
Proof.
  induction l; cbn [Endpoint_ConfigureEndpointTable]; [safely|].
  pose proof runs_ConfigureEndpoint. safely.
Qed.

Lemma runs_serial_chars n k a : runs_safely I (serial_chars n k a).
Proof. revert k a. induction n; intros k a; cbn [serial_chars]; safely. Qed.
End SafeLibrary.

#[export] Hint Extern 0 (runs_safely _ Endpoint_ClearStatusStage) => apply runs_ClearStatusStage : safe.
#[export] Hint Extern 0 (runs_safely _ Endpoint_WaitUntilReady) => apply runs_WaitUntilReady : safe.
#[export] Hint Extern 0 (runs_safely _ (Endpoint_ConfigureEndpoint _ _ _ _)) =>
  apply runs_ConfigureEndpoint : safe.
#[export] Hint Extern 0 (runs_safely _ (Endpoint_ConfigureEndpointTable _)) =>
  apply runs_ConfigureEndpointTable : safe.
#[export] Hint Extern 0 (runs_safely _ (serial_chars _ _ _)) => apply runs_serial_chars : safe.

(** ** Streams *)

(** A stream pointer [p] with [len] bytes to go inside of an object of [N]
    bytes. *)
Definition in_object (N p len : Z) : Prop := 0 <= p /\ is_u16 len /\ p + len <= N.

Lemma in_object_step N p len :
  in_object N p len -> len <> 0 -> in_object N (p + 1) (u16 (len - 1)).
Proof.
  intros (Hp & [? ?] & Hfit) Hne. rewrite wrap_id by (unfold fits; lia).
  split; [lia|]. split; [unfold fits|]; lia.
Qed.

(** The rest of a computation that does not look at the result of [m]. *)
Lemma safe_seq {A B} I (m : M A) (k : A -> M B) (R : B -> Prop) :
  runs_safely I m -> (forall a, safe I (k a) R) -> safe I (bind m k) R.
Proof. intros Hm Hk. eapply safe_bind; [exact Hm|]. intros a _. apply Hk. Qed.

(** Follow the code up to the next point where the value matters. *)
Ltac safe_step := apply safe_seq; [safely|intros ?].

Section SafeWrite.
Context `{Env} (I : st -> Prop) `{!Stable I}.
Context (read_byte : Z -> option Z) (N : Z).
Hypothesis readable : forall p, 0 <= p < N -> is_Some (read_byte p).

Lemma runs_transfer_out p : 0 <= p < N -> runs_safely I (transfer_out read_byte p).
Proof. intros Hp. unfold transfer_out. destruct (readable p Hp) as [b ->]. safely. Qed.

Lemma safe_fill_bank p len b :
  in_object N p len ->
  safe I (fill_bank LE_stream read_byte p len b) (fun '(p', len', _) => in_object N p' len').
Proof.
  intros Hin. apply (safe_loop _ (fun '(p, len, _) => in_object N p len)); [|done].
  clear p len b Hin. intros [[p len] b] Hin.
  destruct (Z.eqb_spec len 0) as [->|Hne]; cbn [negb andb]; [by apply safe_ret|].
  destruct (_ <? _); [|by apply safe_ret].
  apply safe_seq; [apply runs_transfer_out; destruct Hin as (? & [? ?] & ?); lia|].
  intros _. apply safe_ret. by apply in_object_step.
Qed.

Lemma runs_control_W_data p len :
  in_object N p len -> runs_safely I (control_W_data LE_stream read_byte p len).
Proof.
  intros Hin. apply (safe_loop _ (fun '(p, len, _) => in_object N p len)); [|done].
  clear p len Hin. intros [[p len] full] Hin.
  destruct (_ && _); [by apply safe_ret|]. safe_step.
  destruct (_ =? _); [by apply safe_ret|]. destruct (_ =? _); [by apply safe_ret|].
  safe_step. destruct (_ : bool); [by apply safe_ret|].
  safe_step. destruct (_ : bool); [by apply safe_ret|].
  safe_step. destruct (_ : bool); [|by apply safe_ret].
  safe_step. eapply safe_bind; [by apply safe_fill_bank|]. intros [[p' len'] b'] Hin'.
  safe_step. by apply safe_ret.
Qed.

Lemma runs_control_W_status : runs_safely I control_W_status.
Proof. unfold control_W_status. safely. Qed.

(** A control write stream stays inside of the object it sends, whatever the
    host asks for. *)
Lemma runs_Control_W :
  is_u16 N -> (forall s, I s -> is_u16 (wLength (USB_ControlRequest s))) ->
  runs_safely I (Template_Endpoint_Control_W LE_stream read_byte N).
Proof.
  intros HN HW. unfold Template_Endpoint_Control_W.
  eapply safe_bind; [apply safe_get|]. intros req (s & Hs & ->).
  eapply (safe_bind _ _ _ (fun len => in_object N 0 len)).
  - specialize (HW s Hs). destruct (Z.ltb_spec (wLength (USB_ControlRequest s)) N).
    + apply safe_ret. destruct HW. split; [lia|]. by split; [|lia].
    + safe_step. apply safe_ret. split; [lia|]. by split; [|lia].
  - intros len Hin. apply safe_seq; [by apply runs_control_W_data|].
    intros [c|]; [safely|apply runs_control_W_status].
Qed.

(** So does a data stream, if the task it runs while it waits is safe. *)
Lemma runs_Write_Stream `{USB_Application} :
  is_u16 N -> runs_safely I USB_USBTask ->
  runs_safely I (write_stream LE_stream read_byte N None).
Proof.
  intros HN Htask. unfold write_stream. apply runs_seq; [|intros [[] ?]; safely].
  unfold Template_Endpoint_RW. cbn [TEMPLATE_BUFFER_OFFSET LE_stream].
  apply runs_seq; [safely|]. intros c. destruct (ready_error c); [safely|].
  apply (safe_loop _ (fun '(_, p, len, _) => in_object N p len)); [|by split; [lia|split; [|lia]]].
  intros [[[[] p] len] n] Hin. destruct (Z.eqb_spec len 0) as [->|Hne]; [by apply safe_ret|].
  safe_step. destruct (negb _).
  - safe_step. apply safe_seq; [exact Htask|]. intros _.
    safe_step. destruct (ready_error _); by apply safe_ret.
  - apply safe_seq; [apply runs_transfer_out; destruct Hin as (? & [? ?] & ?); lia|].
    intros []. apply safe_ret. by apply in_object_step.
Qed.
End SafeWrite.

Section SafeRead.
Context `{Env} (I : st -> Prop) `{!Stable I}.
Hypothesis data_register : forall t, is_u8 (respond t UEDATX).

(** The buffer of a read stream: [N] bytes. *)
Definition buffer_of (N : Z) (Buffer : bytes) : Prop :=
  all_bytes Buffer /\ Z.of_nat (length Buffer) = N.

Lemma safe_transfer_in N Buffer p :
  buffer_of N Buffer -> 0 <= p < N -> safe I (transfer_in Buffer p) (buffer_of N).
Proof.
  intros [Hall Hlen] Hp. unfold transfer_in. eapply safe_bind; [by apply safe_rd|].
  intros b (t & ->). unfold store_byte, load_byte. destruct (Z.leb_spec 0 p); [|lia].
  destruct (lookup_lt_is_Some_2 Buffer (Z.to_nat p)) as [x ->]; [lia|].
  apply safe_ret. split; [|by rewrite length_insert]. by apply Forall_insert.
Qed.

Lemma safe_drain_bank N Buffer p len :
  buffer_of N Buffer -> in_object N p len ->
  safe I (drain_bank LE_stream Buffer p len)
       (fun '(Buffer, p, len) => buffer_of N Buffer /\ in_object N p len).
Proof.
  intros Hb Hin.
  apply (safe_loop _ (fun '(Buffer, p, len) => buffer_of N Buffer /\ in_object N p len)); [|done].
  clear Buffer p len Hb Hin. intros [[Buffer p] len] [Hb Hin].
  destruct (Z.eqb_spec len 0) as [->|Hne]; [by apply safe_ret|].
  safe_step. destruct (_ =? _); [by apply safe_ret|].
  eapply safe_bind; [apply (safe_transfer_in N); [done|destruct Hin as (? & [? ?] & ?); lia]|].
  intros Buffer' Hb'. apply safe_ret. split; [done|]. by apply in_object_step.
Qed.

(** A control read stream stores only into its buffer, whatever the host
    sends. *)
Lemma safe_Control_R Buffer N :
  buffer_of N Buffer -> is_u16 N ->
  safe I (Template_Endpoint_Control_R LE_stream Buffer N) (fun r => buffer_of N (snd r)).
Proof.
  intros Hb HN. unfold Template_Endpoint_Control_R. safe_step.
  eapply (safe_bind _ _ _ (fun r => buffer_of N (snd r))).
  - apply (safe_loop _ (fun '(Buffer, p, len) => buffer_of N Buffer /\ in_object N p len));
      [|split; [done|]; split; [simpl; lia|split; [done|simpl; lia]]].
    clear Buffer Hb. intros [[Buffer p] len] [Hb Hin].
    destruct (len =? 0); [by apply safe_ret|]. safe_step.
    destruct (_ =? _); [by apply safe_ret|]. destruct (_ =? _); [by apply safe_ret|].
    safe_step. destruct (_ : bool); [by apply safe_ret|].
    safe_step. destruct (_ : bool); [|by apply safe_ret].
    eapply safe_bind; [by apply safe_drain_bank|]. intros [[Buffer' p'] len'] Hin'.
    safe_step. by apply safe_ret.
  - intros [[c|] Buffer'] Hb'; [by apply safe_ret|].
    apply safe_seq; [unfold control_R_status; safely|]. intros c. by apply safe_ret.
Qed.
End SafeRead.

(** ** The library

    What an invariant must allow the library to do: assign its own variables. *)
Class Library_Invariant (I : st -> Prop) : Prop := {
  inv_state : forall x s,
    DEVICE_STATE_Unattached <= x <= DEVICE_STATE_Suspended -> I s -> I (set_USB_DeviceState x s);
  inv_config : forall n s,
    0 <= n <= FIXED_NUM_CONFIGURATIONS -> I s -> I (set_USB_Device_ConfigurationNumber n s);
  inv_wakeup : forall b s, I s -> I (set_USB_Device_RemoteWakeupEnabled b s);
  inv_powered : forall b s, I s -> I (set_USB_Device_CurrentlySelfPowered b s);
  inv_initialized : forall b s, I s -> I (set_USB_IsInitialized b s);
  inv_length : forall s, I s -> is_u16 (wLength (USB_ControlRequest s))
}.

Ltac device_state := first [assumption | split; apply Z.leb_le; reflexivity].

Section SafeControl.
Context `{Env} `{USB_Application} (I : st -> Prop) `{!Stable I} `{!Library_Invariant I}.

Lemma runs_state x :
  DEVICE_STATE_Unattached <= x <= DEVICE_STATE_Suspended -> runs_safely I (put (set_USB_DeviceState x)).
Proof. intros Hx. apply safe_put. intros s. by apply inv_state. Qed.

Lemma runs_state_if (b : bool) x y :
  DEVICE_STATE_Unattached <= x <= DEVICE_STATE_Suspended ->
  DEVICE_STATE_Unattached <= y <= DEVICE_STATE_Suspended ->
  runs_safely I (put (set_USB_DeviceState (if b then x else y))).
Proof. intros. apply runs_state. by destruct b. Qed.

Lemma runs_config n :
  0 <= n <= FIXED_NUM_CONFIGURATIONS -> runs_safely I (put (set_USB_Device_ConfigurationNumber n)).
Proof. intros Hn. apply safe_put. intros s. by apply inv_config. Qed.

Lemma runs_wakeup b : runs_safely I (put (set_USB_Device_RemoteWakeupEnabled b)).
Proof. apply safe_put. intros s. by apply inv_wakeup. Qed.

Lemma runs_powered b : runs_safely I (put (set_USB_Device_CurrentlySelfPowered b)).
Proof. apply safe_put. intros s. by apply inv_powered. Qed.

Lemma runs_initialized b : runs_safely I (put (set_USB_IsInitialized b)).
Proof. apply safe_put. intros s. by apply inv_initialized. Qed.
End SafeControl.

#[export] Hint Extern 1 (runs_safely _ (put (set_USB_DeviceState (if _ then _ else _)))) =>
  apply runs_state_if; device_state : safe.
#[export] Hint Extern 2 (runs_safely _ (put (set_USB_DeviceState _))) =>
  apply runs_state; device_state : safe.
#[export] Hint Extern 2 (runs_safely _ (put (set_USB_Device_ConfigurationNumber 0))) =>
  apply runs_config; device_state : safe.
#[export] Hint Extern 1 (runs_safely _ (put (set_USB_Device_RemoteWakeupEnabled _))) =>
  apply runs_wakeup : safe.
#[export] Hint Extern 1 (runs_safely _ (put (set_USB_Device_CurrentlySelfPowered _))) =>
  apply runs_powered : safe.
#[export] Hint Extern 1 (runs_safely _ (put (set_USB_IsInitialized _))) =>
  apply runs_initialized : safe.

Section SafeRequests.
Context `{Env} `{USB_Application} (I : st -> Prop) `{!Stable I} `{!Library_Invariant I}.
Context `{!Descriptor_Law}.
Hypothesis configuration_changed : runs_safely I EVENT_USB_Device_ConfigurationChanged.

Lemma runs_USB_Init : runs_safely I USB_Init.
Proof. unfold USB_Init, USB_ResetInterface, USB_Init_Device. safely. Qed.

Lemma runs_SetAddress : runs_safely I USB_Device_SetAddress.
Proof. unfold USB_Device_SetAddress. safely. Qed.

Lemma runs_SetConfiguration : runs_safely I USB_Device_SetConfiguration.
Proof.
  unfold USB_Device_SetConfiguration. apply runs_seq; [safely|]. intros req.
  destruct (Z.ltb_spec FIXED_NUM_CONFIGURATIONS (u8 (wValue req))); [safely|].
  assert (0 <= u8 (wValue req)) by (apply (wrap_fits 8); lia).
  pose proof (runs_config I (u8 (wValue req))). auto 60 with safe.
Qed.

Lemma runs_GetConfiguration : runs_safely I USB_Device_GetConfiguration.
Proof. unfold USB_Device_GetConfiguration. safely. Qed.

Lemma safe_serial_chars n : forall k a, safe I (serial_chars n k a) (fun l => length l = n).
Proof.
  induction n as [|n IH]; intros k a; cbn [serial_chars]; [by apply safe_ret|].
  safe_step. cbv zeta. eapply safe_bind; [apply IH|]. intros l Hl. apply safe_ret. simpl. by rewrite Hl.
Qed.

Lemma length_SignatureDescriptor l : length l = 20%nat -> length (SignatureDescriptor l) = 42%nat.
Proof.
  intros Hl. unfold SignatureDescriptor. rewrite length_app. change (length (bytes_of_Header _)) with 2%nat.
  assert (Hf : forall l, length (flat_map (le_bytes 2) l) = (2 * length l)%nat).
  { induction l0 as [|x l0 IH]; [done|]. cbn [flat_map length]. rewrite length_app, IH. simpl. lia. }
  rewrite Hf, Hl. done.
Qed.

Lemma load_byte_readable Buffer N p :
  N <= Z.of_nat (length Buffer) -> 0 <= p < N -> is_Some (load_byte Buffer p).
Proof.
  intros HN Hp. unfold load_byte. destruct (Z.leb_spec 0 p); [|lia].
  apply lookup_lt_is_Some_2. lia.
Qed.

Lemma runs_GetInternalSerialDescriptor : runs_safely I USB_Device_GetInternalSerialDescriptor.
Proof.
  unfold USB_Device_GetInternalSerialDescriptor, USB_Device_GetSerialString.
  eapply (safe_bind _ _ _ (fun l => length l = 20%nat)).
  - do 2 safe_step. eapply safe_bind; [apply safe_serial_chars|]. intros l Hl.
    safe_step. by apply safe_ret.
  - intros l Hl. apply runs_seq; [safely|]. intros _. apply runs_seq; [|safely].
    apply runs_Control_W; [done| |done|by apply inv_length]. intros p.
    apply load_byte_readable. by rewrite length_SignatureDescriptor.
Qed.

Lemma pgm_readable o off size p :
  0 <= off -> off + size <= Z.of_nat (length (flash_bytes o)) -> 0 <= p < size ->
  is_Some (pgm_read_byte (flash_offset (Some (o, off)) p)).
Proof.
  intros Hoff Hfit Hp. cbn [flash_offset pgm_read_byte].
  destruct (Z.leb_spec 0 (off + p)); [|lia]. apply lookup_lt_is_Some_2. lia.
Qed.

Lemma runs_GetDescriptor : runs_safely I USB_Device_GetDescriptor.
Proof.
  unfold USB_Device_GetDescriptor. apply runs_seq; [safely|]. intros req.
  destruct (_ =? _); [apply runs_GetInternalSerialDescriptor|].
  destruct (GetDescriptor _ _) as [size p] eqn:Hg.
  destruct (Z.eqb_spec size NO_DESCRIPTOR) as [|Hne]; [safely|].
  destruct (descriptor_law _ _ _ _ Hg Hne) as (Hsize & o & off & -> & Hoff & Hfit).
  apply runs_seq; [safely|]. intros _. apply runs_seq; [|safely].
  apply runs_Control_W; [done| |done|by apply inv_length]. intros i. by apply pgm_readable.
Qed.

Lemma runs_GetStatus : runs_safely I USB_Device_GetStatus.
Proof. unfold USB_Device_GetStatus, current_status. safely. Qed.

Lemma runs_ClearSetFeature : runs_safely I USB_Device_ClearSetFeature.
Proof. unfold USB_Device_ClearSetFeature, clear_set_feature. cbv zeta. safely. Qed.

Lemma runs_standard_request : runs_safely I standard_request.
Proof.
  unfold standard_request. cbv zeta.
  pose proof runs_SetAddress; pose proof runs_SetConfiguration; pose proof runs_GetConfiguration;
  pose proof runs_GetDescriptor; pose proof runs_GetStatus; pose proof runs_ClearSetFeature.
  safely.
Qed.

(** The control request task, given that the application's handler is safe for
    every SETUP packet the hardware delivers. *)
Lemma runs_USBTask :
  safe I (read_setup 8) (fun b => forall s, I s -> I (set_USB_ControlRequest (request_of_bytes b) s)) ->
  runs_safely I EVENT_USB_Device_ControlRequest ->
  runs_safely I USB_USBTask.
Proof.
  intros Hsetup Hevent. unfold USB_USBTask, USB_DeviceTask.
  assert (runs_safely I USB_Device_ProcessControlRequest); [|safely].
  unfold USB_Device_ProcessControlRequest. eapply safe_bind; [exact Hsetup|]. intros b Hb.
  apply runs_seq; [by apply safe_put|]. pose proof runs_standard_request. safely.
Qed.
End SafeRequests.

(** ** The interrupt handler *)

(** Interface law of the bus events: the application's handlers are safe. *)
Class Bus_Event_Safety `{USB_Application} (I : st -> Prop) : Prop := {
  safe_Connect : runs_safely I EVENT_USB_Device_Connect;
  safe_Disconnect : runs_safely I EVENT_USB_Device_Disconnect;
  safe_Suspend : runs_safely I EVENT_USB_Device_Suspend;
  safe_WakeUp : runs_safely I EVENT_USB_Device_WakeUp;
  safe_Reset : runs_safely I EVENT_USB_Device_Reset;
  safe_StartOfFrame : runs_safely I EVENT_USB_Device_StartOfFrame
}.

Section SafeInterrupt.
Context {E : Env} {HE : Masked} {App : USB_Application} (I : st -> Prop).
Context `{!Stable I} `{!Library_Invariant I} `{!Bus_Event_Safety I}.

Lemma runs_pll_start : runs_safely I pll_start.
Proof. unfold pll_start. safely. Qed.
Lemma runs_pll_stop : runs_safely I pll_stop.
Proof. unfold pll_stop. safely. Qed.

(** The handler has no undefined behaviour and keeps the invariant, whichever
    interrupts are pending. *)
Lemma runs_USB_GEN_vect : runs_safely I USB_GEN_vect.
Proof.
  pose proof runs_pll_start; pose proof runs_pll_stop.
  pose proof safe_Connect; pose proof safe_Disconnect; pose proof safe_Suspend;
  pose proof safe_WakeUp; pose proof safe_Reset; pose proof safe_StartOfFrame.
  unfold USB_GEN_vect, on_interrupt, pending, isr_SOFI, isr_VBUSTI, isr_SUSPI, isr_WAKEUPI, isr_EORSTI.
  safely.
Qed.

(** So an invariant of the uninterrupted machine is one of the machine that takes
    these interrupts. *)
Lemma interrupted_stable : Stable (H := interrupted E App) I.
Proof.
  constructor; [exact (stable_log (I := I))|]. intros s Hs. cbn [async interrupted].
  pose proof (runs_USB_GEN_vect s Hs) as Hrun. unfold wlp in Hrun.
  destruct (USB_GEN_vect s); [apply Hrun|exact Hs|exact Hs].
Qed.
End SafeInterrupt.
