(* ===== verification/StreamErrors.v ===== *)
(** * How control streams end early

    The return codes of the control streams on arbitrary hardware: each code is
    justified by what the firmware last saw, and a stream comes to an end when
    the device is unplugged. *)
From S2P Require Import Prelude Machine Descriptors Endpoint ControlStream UsbController DeviceStandardReq StreamEndian Safety.

(** The last access was a read of the endpoint status with flag [n] set. *)
Definition last_saw (n : Z) (s : st) : Prop :=
  exists v t, trace s = Rd UEINTX v :: t /\ has_bit v n = true.

(** What a stream saw when it returned [code]; [ready] is the flag that ends the
    status stage. *)
Definition justified (ready : Z) (code : Endpoint_ControlStream_RW_ErrorCodes_t) (s : st) : Prop :=
  match code with
  | ENDPOINT_RWCSTREAM_NoError => last_saw ready s
  | ENDPOINT_RWCSTREAM_HostAborted => last_saw RXSTPI s
  | ENDPOINT_RWCSTREAM_DeviceDisconnected => USB_DeviceState s = DEVICE_STATE_Unattached
  | ENDPOINT_RWCSTREAM_BusSuspended => USB_DeviceState s = DEVICE_STATE_Suspended
  end.

(** Whenever [m] returns, [Q] holds of the result and the state. *)
Definition returns {A} (m : M A) (Q : A -> st -> Prop) : Prop :=
  forall s a s', m s = Done a s' -> Q a s'.

Lemma returns_bind {A B} (m : M A) (k : A -> M B) (P : A -> st -> Prop) Q :
  returns m P -> (forall a s s' b, P a s -> k a s = Done b s' -> Q b s') -> returns (bind m k) Q.
Proof.
  intros Hm Hk s b s' E. unfold bind in E. destruct (m s) as [a s1| |] eqn:E1; try done.
  eapply Hk; [|exact E]. by eapply Hm.
Qed.

Lemma returns_after {A B} (m : M A) (k : A -> M B) Q : (forall a, returns (k a) Q) -> returns (bind m k) Q.
Proof. intros Hk. apply (returns_bind _ _ (fun _ _ => True)); [done|]. intros a s s' b _. apply Hk. Qed.

Lemma returns_loop {X A} (body : X -> M (X + A)) Q n :
  (forall x, returns (body x) (fun r s => match r with inl _ => True | inr a => Q a s end)) ->
  forall x, returns (loop n body x) Q.
Proof.
  intros Hb. induction n as [|n IH]; intros x s a s' E; [done|]. cbn [loop] in E. unfold bind in E.
  destruct (body x s) as [[x'|b] s1| |] eqn:E1; try done; [by eapply IH|].
  injection E as <- <-. exact (Hb x s _ _ E1).
Qed.

Lemma returns_ret {A} (a : A) (Q : A -> st -> Prop) : (forall s, Q a s) -> returns (ret a) Q.
Proof. intros HQ s b s' [= <- <-]. apply HQ. Qed.

Section Codes.
Context `{Env}.

(** The tests after which a stream returns. *)
Lemma returns_test {B} n (k : bool -> M B) Q :
  (forall s, last_saw n s -> forall b s', k true s = Done b s' -> Q b s') ->
  returns (k false) Q -> returns (bind (reg_test UEINTX n) k) Q.
Proof.
  intros Ht Hf. apply (returns_bind _ _ (fun b s => b = true -> last_saw n s)).
  - intros s b s' E. unfold reg_test, bind, rd in E. injection E as <- <-. intros Hb. by eexists _, _.
  - intros [] s s' b Hs; [by apply Ht, Hs|apply Hf].
Qed.

Lemma returns_state {B} (k : Z -> M B) Q :
  (forall s b s', k (USB_DeviceState s) s = Done b s' -> Q b s') ->
  returns (bind (get_volatile USB_DeviceState) k) Q.
Proof. intros Hk s b s' E. by apply Hk in E. Qed.

(** The two checks every round of a stream makes. *)
Lemma returns_alive {B} ready (k : M B) (stop : Endpoint_ControlStream_RW_ErrorCodes_t -> B) Q :
  (forall code s, justified ready code s -> Q (stop code) s) -> returns k Q ->
  returns (d ← get_volatile USB_DeviceState;
           if d =? DEVICE_STATE_Unattached then ret (stop ENDPOINT_RWCSTREAM_DeviceDisconnected)
           else if d =? DEVICE_STATE_Suspended then ret (stop ENDPOINT_RWCSTREAM_BusSuspended) else k) Q.
Proof.
  intros Hstop Hk. apply returns_state. intros s b s'.
  destruct (Z.eqb_spec (USB_DeviceState s) DEVICE_STATE_Unattached) as [E1|_];
    [intros [= <- <-]; by apply Hstop|].
  destruct (Z.eqb_spec (USB_DeviceState s) DEVICE_STATE_Suspended) as [E1|_];
    [intros [= <- <-]; by apply Hstop|]. apply Hk.
Qed.

Lemma returns_status_W : returns control_W_status (justified RXOUTI).
Proof.
  unfold control_W_status. apply returns_loop. intros _.
  apply returns_test; [by intros s1 Hs ? ? [= <- <-]|].
  apply (returns_alive RXOUTI _ inr); [done|].
  apply returns_test; [by intros s1 Hs ? ? [= <- <-]|]. by apply returns_ret.
Qed.

Lemma returns_status_R : returns control_R_status (justified TXINI).
Proof.
  unfold control_R_status. apply returns_loop. intros _.
  apply returns_test; [by intros s1 Hs ? ? [= <- <-]|].
  apply returns_state. intros s b s' [= <- <-].
  destruct (Z.eqb_spec (USB_DeviceState s) DEVICE_STATE_Unattached); [done|].
  by destruct (Z.eqb_spec (USB_DeviceState s) DEVICE_STATE_Suspended).
Qed.

Lemma returns_status_buffer (Buffer : bytes) :
  returns (code ← control_R_status; ret (code, Buffer)) (fun r s => justified TXINI (fst r) s).
Proof.
  apply (returns_bind _ _ (justified TXINI)); [apply returns_status_R|].
  by intros a s1 s2 c Hs [= <- <-].
Qed.

(** What is known of the early returns of a data stage. *)
Definition early {X} (ready : Z) (code : X -> option Endpoint_ControlStream_RW_ErrorCodes_t)
    (r : X) (s : st) : Prop :=
  match code r with Some c => justified ready c s | None => True end.

Lemma Control_W_codes T read_byte Length :
  returns (Template_Endpoint_Control_W T read_byte Length) (justified RXOUTI).
Proof.
  unfold Template_Endpoint_Control_W. apply returns_after. intros req. apply returns_after. intros len.
  apply (returns_bind _ _ (early RXOUTI id)).
  - unfold control_W_data. apply returns_loop. intros [[p l] full].
    destruct (_ && _); [by apply returns_ret|].
    apply (returns_alive RXOUTI _ (fun c => inr (Some c))); [done|].
    apply returns_test; [by intros s1 Hs ? ? [= <- <-]|].
    apply returns_after. intros []; [by apply returns_ret|].
    apply returns_after. intros []; [|by apply returns_ret]. apply returns_after. intros n.
    apply returns_after. intros [[p' l'] n']. apply returns_after. intros _. by apply returns_ret.
  - intros [c|] s s' b Hc; [by intros [= <- <-]|apply returns_status_W].
Qed.

Lemma Control_R_codes T Buffer Length :
  returns (Template_Endpoint_Control_R T Buffer Length) (fun r s => justified TXINI (fst r) s).
Proof.
  unfold Template_Endpoint_Control_R. apply returns_after. intros _.
  apply (returns_bind _ _ (early TXINI fst)).
  - unfold control_R_data. apply returns_loop. intros [[b p] l].
    destruct (_ =? _); [by apply returns_ret|].
    apply (returns_alive TXINI _ (fun c => inr (Some c, b))); [done|].
    apply returns_test; [by intros s1 Hs ? ? [= <- <-]|].
    apply returns_after. intros []; [|by apply returns_ret].
    apply returns_after. intros [[b' p'] l']. apply returns_after. intros _. by apply returns_ret.
  - intros [[c|] b'] s s' b Hc; [by intros [= <- <-]|].
    apply returns_status_buffer.
Qed.

(** ** Nothing is read or written outside of the buffers *)

Definition always (s : st) : Prop := True.
#[local] Instance always_stable : Stable always.
Proof. by constructor. Qed.

(** What is known whenever a computation returns, if it has no undefined
    behaviour. *)
Lemma returns_wlp {A} (m : M A) P Q s :
  returns m Q -> wlp m P s -> wlp m (fun a s' => P a s' /\ Q a s') s.
Proof. intros Hm. unfold wlp. destruct (m s) eqn:E; [|done..]. intros HP. split; [done|]. by eapply Hm. Qed.

Section Inside.
Context (N : Z) (T : stream_template).
Hypothesis template : T = LE_stream \/ T = BE_stream.
Hypothesis length_ok : is_u16 N.

(** A little-endian stream stays inside of what it sends. *)
Lemma LE_W_inside read_byte s :
  (forall p, 0 <= p < N -> is_Some (read_byte p)) -> is_u16 (wLength (USB_ControlRequest s)) ->
  wlp (Template_Endpoint_Control_W LE_stream read_byte N) (fun _ _ => True) s.
Proof.
  intros Hread HW. unfold Template_Endpoint_Control_W. apply wlp_bind, wlp_get.
  set (W := wLength (USB_ControlRequest s)) in *.
  assert (Hrest : runs_safely always
    (Length ← (if W <? N then ret W else when (N =? 0) Endpoint_ClearIN ;; ret N);
     r ← control_W_data LE_stream read_byte (TEMPLATE_BUFFER_OFFSET LE_stream N) Length;
     match r with Some code => ret code | None => control_W_status end)).
  { eapply (safe_bind _ _ _ (fun len => in_object N 0 len)).
    - destruct (Z.ltb_spec W N).
      + apply safe_ret. destruct HW. split; [lia|]. by split; [|lia].
      + safe_step. apply safe_ret. split; [lia|]. by split; [|lia].
    - intros len Hin. apply safe_seq; [by eapply runs_control_W_data|].
      intros [c|]; [safely|apply (runs_control_W_status always)]. }
  eapply wlp_mono; [|by apply Hrest]. done.
Qed.

(** A big-endian stream is the little-endian stream of what it sends, reversed. *)
Lemma W_inside read_byte s :
  (forall p, 0 <= p < N -> is_Some (read_byte p)) -> is_u16 (wLength (USB_ControlRequest s)) ->
  wlp (Template_Endpoint_Control_W T read_byte N) (fun _ _ => True) s.
Proof.
  intros Hread HW. destruct template as [->| ->]; [by apply LE_W_inside|]. unfold wlp.
  rewrite (Control_W_BE N read_byte (fun p => read_byte (other_end N p))) by done.
  apply LE_W_inside; [|done]. intros p Hp. apply Hread. unfold other_end. lia.
Qed.

Lemma R_inside Buffer s :
  (forall t, is_u8 (respond t UEDATX)) -> buffer_of N Buffer ->
  wlp (Template_Endpoint_Control_R T Buffer N) (fun r _ => buffer_of N (snd r)) s.
Proof.
  intros Hdata Hb.
  assert (HLE : forall B, buffer_of N B ->
    wlp (Template_Endpoint_Control_R LE_stream B N) (fun r _ => buffer_of N (snd r)) s).
  { intros B HB. eapply wlp_mono; [|by apply (safe_Control_R always)]. by intros r s' [_ Hr]. }
  destruct template as [->| ->]; [by apply HLE|]. destruct Hb as [Hall Hlen].
  assert (Hrev : buffer_of N (reverse Buffer)).
  { split; [by apply Forall_reverse|by rewrite length_reverse]. }
  pose proof (HLE _ Hrev) as Hwlp. unfold wlp in *.
  pose proof (Control_R_BE N (reverse Buffer) Buffer ltac:(by split) s) as Halike.
  destruct (Template_Endpoint_Control_R LE_stream _ N s), (Template_Endpoint_Control_R BE_stream Buffer N s); try done.
  destruct Halike as (_ & _ & Hrb & Hl). destruct Hwlp as [Hb' _]. rewrite Hrb in Hb'.
  split; [|done]. exact (proj1 (Forall_reverse _ _) Hb').
Qed.
End Inside.

(** C36: the return code of a control stream tells what happened.  On every machine,
    for either byte order, with [Length] bytes to send or a buffer of [Length]
    bytes, whatever the host asks for and whichever interrupts arrive, a control
    stream has no undefined behaviour, and when it returns, its code is justified:
    "disconnected" or "bus suspended" by the state the device is left in, "host
    aborted" by a new SETUP packet and "no error" by the host's status stage (a
    received OUT packet for a control read, the IN endpoint ready for a control
    write) that the last access has seen; a read stream has stored into its buffer
    only. *)
Theorem control_stream_codes T read_byte Buffer Length s :
  T = LE_stream \/ T = BE_stream -> is_u16 Length ->
  (forall p, 0 <= p < Length -> is_Some (read_byte p)) -> is_u16 (wLength (USB_ControlRequest s)) ->
  buffer_of Length Buffer -> (forall t, is_u8 (respond t UEDATX)) ->
  wlp (Template_Endpoint_Control_W T read_byte Length) (justified RXOUTI) s /\
  wlp (Template_Endpoint_Control_R T Buffer Length)
      (fun r s' => buffer_of Length (snd r) /\ justified TXINI (fst r) s') s.
Proof.
  intros HT HL Hread HW Hb Hdata. split.
  - eapply wlp_mono; [|eapply returns_wlp; [apply Control_W_codes|by apply W_inside]]. by intros code s' [_ ?].
  - eapply returns_wlp; [apply Control_R_codes|by apply R_inside].
Qed.
End Codes.

(** ** Unplugging *)

Section Unplugged.
Context `{Env}.
(** The interrupt handler has recorded the loss of the bus voltage. *)
Hypothesis gone : forall s, USB_DeviceState (async s) = DEVICE_STATE_Unattached.
Hypothesis enough : (0 < fuel)%nat.

(** A loop that is left in its first round. *)
Lemma first_round {X A} (body : X -> M (X + A)) x Q s :
  wp (body x) (fun r s' => match r with inl _ => False | inr a => Q a s' end) s ->
  wp (loop fuel body x) Q s.
Proof.
  intros Hb. destruct fuel as [|n]; [lia|]. cbn [loop]. rewrite wp_bind.
  eapply wp_mono; [|exact Hb]. by intros [x'|a] s'.
Qed.

Lemma wp_test_any r n Q s : (forall b s', Q b s') -> wp (reg_test r n) Q s.
Proof. intros HQ. apply HQ. Qed.
Lemma wp_gone {B} (k : Z -> M B) Q s :
  (forall s', wp (k DEVICE_STATE_Unattached) Q s') -> wp (bind (get_volatile USB_DeviceState) k) Q s.
Proof. intros Hk. rewrite wp_bind. unfold wp at 1, get_volatile. rewrite gone. apply Hk. Qed.

(** The transfer has ended, in one way or the other. *)
Definition ended (code : Endpoint_ControlStream_RW_ErrorCodes_t) : Prop :=
  code = ENDPOINT_RWCSTREAM_DeviceDisconnected \/ code = ENDPOINT_RWCSTREAM_NoError.

Lemma unplugged_status_W s : wp control_W_status (fun code _ => ended code) s.
Proof.
  apply first_round. rewrite wp_bind. apply wp_test_any. intros [] s1; [by right|].
  apply wp_gone. by left.
Qed.

Lemma unplugged_status_R s : wp control_R_status (fun code _ => ended code) s.
Proof.
  apply first_round. rewrite wp_bind. apply wp_test_any. intros [] s1; [by right|].
  apply wp_gone. by left.
Qed.

Lemma unplugged_W T read_byte Length s :
  wp (Template_Endpoint_Control_W T read_byte Length) (fun code _ => ended code) s.
Proof.
  unfold Template_Endpoint_Control_W. rewrite wp_bind, wp_get, wp_bind.
  apply (wp_mono _ (fun _ _ => True)); [|by destruct (_ <? _), (Length =? 0)]. intros len s1 _.
  rewrite wp_bind. apply (wp_mono _ (fun r _ => match r with Some c => ended c | None => True end)).
  - intros [c|] s2 Hc; [exact Hc|apply unplugged_status_W].
  - apply first_round. destruct (_ && _); [done|]. apply wp_gone. by left.
Qed.

Lemma unplugged_R T Buffer Length s :
  wp (Template_Endpoint_Control_R T Buffer Length) (fun r _ => ended (fst r) /\ snd r = Buffer) s.
Proof.
  unfold Template_Endpoint_Control_R. rewrite wp_bind.
  apply (wp_mono _ (fun _ _ => True)); [|by destruct (Length =? 0)]. intros [] s1 _.
  rewrite wp_bind.
  apply (wp_mono _ (fun r _ => match fst r with Some c => ended c | None => True end /\ snd r = Buffer)).
  - intros [[c|] b] s2 [Hc Hb]; [by split|]. rewrite wp_bind.
    eapply wp_mono; [|apply unplugged_status_R]. intros code s3 Hcode. by split.
  - apply first_round. destruct (_ =? _); [done|]. apply wp_gone. intros s2. split; [by left|done].
Qed.

Lemma unplugged_ClearStatusStage s : wp Endpoint_ClearStatusStage (fun _ _ => True) s.
Proof.
  unfold Endpoint_ClearStatusStage. rewrite wp_bind, wp_get.
  assert (Hw : forall ready s, (forall s Q, (forall b s', Q b s') -> wp ready Q s) ->
            wp (wait_attached ready) (fun _ _ => True) s).
  { intros ready s1 Hr. apply first_round. rewrite wp_bind. apply Hr. intros [] s2; [done|].
    by apply wp_gone. }
  destruct (negb _); rewrite wp_bind;
    (eapply wp_mono; [|apply Hw; intros; by apply wp_test_any]); by intros [] s1 _.
Qed.

(** C37: a control transfer ends when the device is unplugged.  Once the device
    state is "unattached", a control stream in either direction, and the wait for
    the status stage, return after at most one look at the endpoint, whatever the
    registers say and whatever is left to transfer; the stream reports the
    disconnection unless the transfer had just completed, and a read stream has
    stored nothing more. *)
Theorem control_streams_unplugged T read_byte Buffer Length s :
  wp (Template_Endpoint_Control_W T read_byte Length) (fun code _ => ended code) s /\
  wp (Template_Endpoint_Control_R T Buffer Length) (fun r _ => ended (fst r) /\ snd r = Buffer) s /\
  wp Endpoint_ClearStatusStage (fun _ _ => True) s.
Proof. auto using unplugged_W, unplugged_R, unplugged_ClearStatusStage. Qed.

(** SET_ADDRESS has a wait of its own that does not look at the device state: if
    the endpoint does not become ready any more, the request does not end, however
    long it is given. *)
Lemma SetAddress_unplugged_hangs s :
  (forall t, has_bit (respond t UEINTX) TXINI = false) -> USB_Device_SetAddress s = OutOfFuel.
Proof.
  intros Hno.
  assert (Hspin : forall n s, loop n (fun _ : unit => b ← Endpoint_IsINReady; ret (if b then inr tt else inl tt)) tt s
                              = OutOfFuel).
  { induction n as [|n IH]; intros s1; [done|]. cbn [loop]. unfold bind, Endpoint_IsINReady, reg_test, rd.
    unfold bind. cbn [ret]. rewrite Hno. apply IH. }
  assert (Hacc : forall m s (Q : unit -> st -> Prop),
            (exists s', m s = Done tt s') -> (forall s', Q tt s') -> wp m Q s).
  { intros m s1 Q (s' & E) HQ. unfold wp. rewrite E. apply HQ. }
  unfold USB_Device_SetAddress, bind at 1, get at 1. cbv zeta.
  do 2 (apply forever_after, Hacc; [by eexists|]; intros ?).
  apply forever_after. eapply wp_mono; [|apply unplugged_ClearStatusStage]. intros [] s1 _.
  apply forever_first, Hspin.
Qed.
End Unplugged.
