(* ===== verification/Joystick.v ===== *)
(** * The joystick application

    [src/joystick.c] and [src/joystick.h]: the instances of the application
    interfaces, hardware set-up and the main loop. *)
From S2P Require Import Prelude Machine Rely Board StdDescriptors Descriptors HIDParser Endpoint ControlStream UsbController DeviceStandardReq EndpointStream HIDClass UsbInterrupt.
Import LEDs Buttons JoystickBoard.

(** [USB_JoystickReport_Data_t] *)
Record USB_JoystickReport_Data_t := {
  rep_X : Z; rep_Y : Z; rep_Z : Z; rep_RX : Z; rep_RY : Z; rep_RZ : Z;
  Button : Z;
  padding : bytes
}.
Definition sizeof_USB_JoystickReport_Data_t : Z := 6 + 4 + 22.

(** The structure a buffer of 32 bytes holds, and back. *)
Definition bytes_of_report (r : USB_JoystickReport_Data_t) : bytes :=
  [u8 (rep_X r); u8 (rep_Y r); u8 (rep_Z r); u8 (rep_RX r); u8 (rep_RY r); u8 (rep_RZ r)]
  ++ le_bytes 4 (Button r) ++ padding r.

Definition LEDMASK_USB_NOTREADY := LEDS_LED1.
Definition LEDMASK_USB_ENUMERATING := Z.lor LEDS_LED2 LEDS_LED3.
Definition LEDMASK_USB_READY := Z.lor LEDS_LED2 LEDS_LED4.
Definition LEDMASK_USB_ERROR := Z.lor LEDS_LED1 LEDS_LED3.

(** The variables at reset, from their initialisers. *)
Definition Joystick_HID_Interface_init : USB_ClassInfo_HID_Device_t :=
  {| HID_Config :=
       {| InterfaceNumber := INTERFACE_ID_Joystick;
          ReportINEndpoint := {| ep_Address := JOYSTICK_IN_EPADDR; ep_Size := JOYSTICK_IN_EPSIZE;
                                 ep_Type := 0; ep_Banks := 1 |};
          PrevReportINBuffer := Some PrevJoystickHIDReportBuffer_addr;
          PrevReportINBufferSize := sizeof_USB_JoystickReport_Data_t |};
     HID_State := {| UsingReportProtocol := false; PrevFrameNum := 0; IdleCount := 0;
                     IdleMSRemaining := 0 |} |}.

Definition reset_state : st :=
  {| trace := []; USB_IsInitialized := false; USB_DeviceState := 0;
     USB_ControlRequest := {| bmRequestType := 0; bRequest := 0; wValue := 0; wIndex := 0; wLength := 0 |};
     USB_Device_ConfigurationNumber := 0; USB_Device_CurrentlySelfPowered := false;
     USB_Device_RemoteWakeupEnabled := false;
     Joystick_HID_Interface := Joystick_HID_Interface_init;
     PrevJoystickHIDReportBuffer := replicate (Z.to_nat sizeof_USB_JoystickReport_Data_t) 0;
     mask := 0xFF; saved := 0; Class_Interfaces := zero_interfaces; Host := initial_host |}.

(** [&Joystick_HID_Interface] *)
Definition Joystick_HID_Interface_addr : HIDInterface :=
  {| load := Joystick_HID_Interface; store := set_Joystick_HID_Interface |}.

Section Joystick.
Context `{Env}.

(** Assignments through [ReportData] cast to a pointer to the report structure:
    bytes [off] to [off + n - 1] of the buffer. *)
Definition store_field (ReportData : bytes) (off n : nat) (x : Z) : option bytes :=
  if (off + n <=? length ReportData)%nat then
    Some (take off ReportData ++ le_bytes n x ++ drop (off + n) ReportData)
  else None.

Definition CreateHIDReport (HIDInterfaceInfo : HIDInterface) (ReportID ReportType : Z)
    (ReportData : bytes) : M (bool * Z * bytes * Z) :=
  b ← rd PINB;
  ReportData ← checked (store_field ReportData 6 4 b);
  m ← get mask;
  ReportData ← checked (store_field ReportData 0 1 m);
  v ← get saved;
  ReportData ← checked (store_field ReportData 1 1 v);
  ret (false, ReportID, ReportData, sizeof_USB_JoystickReport_Data_t).

Definition ProcessHIDReport (HIDInterfaceInfo : HIDInterface) (ReportID ReportType : Z)
    (ReportData : bytes) (ReportSize : Z) : M unit :=
  v ← checked (load_byte ReportData 1);
  put (set_saved v) ;;
  v ← checked (load_byte ReportData 1);
  wr PORTD v.

#[export] Instance joystick_hid : HID_Application :=
  {| CALLBACK_HID_Device_CreateHIDReport := CreateHIDReport;
     CALLBACK_HID_Device_ProcessHIDReport := ProcessHIDReport |}.

(** [indet]: the contents of the uninitialised report buffer on the stack. *)
Context (indet : bytes).

Definition on_Connect : M unit := LEDs_SetAllLEDs LEDMASK_USB_ENUMERATING.
Definition on_Disconnect : M unit := LEDs_SetAllLEDs LEDMASK_USB_NOTREADY.
Definition on_ConfigurationChanged : M unit :=
  ConfigSuccess ← HID_Device_ConfigureEndpoints Joystick_HID_Interface_addr;
  USB_Device_EnableSOFEvents ;;
  LEDs_SetAllLEDs (if (ConfigSuccess : bool) then LEDMASK_USB_READY else LEDMASK_USB_ERROR).
Definition on_ControlRequest : M unit :=
  HID_Device_ProcessControlRequest Joystick_HID_Interface_addr indet.
Definition on_StartOfFrame : M unit := HID_Device_MillisecondElapsed Joystick_HID_Interface_addr.

(** The events the application does not handle are [EVENT_USB_Stub]. *)
#[export] Instance joystick_app : USB_Application :=
  {| EVENT_USB_Device_Connect := on_Connect;
     EVENT_USB_Device_Disconnect := on_Disconnect;
     EVENT_USB_Device_Suspend := ret tt;
     EVENT_USB_Device_WakeUp := ret tt;
     EVENT_USB_Device_Reset := ret tt;
     EVENT_USB_Device_ConfigurationChanged := on_ConfigurationChanged;
     EVENT_USB_Device_ControlRequest := on_ControlRequest;
     EVENT_USB_Device_StartOfFrame := on_StartOfFrame;
     GetDescriptor := CALLBACK_USB_GetDescriptor |}.

Definition SetupHardware : M unit :=
  reg_clear MCUSR (bit WDRF) ;;
  emit wdt_disable_ev ;;
  emit (clock_prescale_set_ev 0) ;;
  Joystick_Init ;;
  LEDs_Init ;;
  Buttons_Init ;;
  USB_Init.

(** One round of the main loop, and [n] rounds of it. *)
Definition main_round : M unit :=
  HID_Device_USBTask Joystick_HID_Interface_addr ;;
  USB_USBTask.
Fixpoint main_rounds (n : nat) : M unit :=
  match n with O => ret tt | S n => main_round ;; main_rounds n end.

Definition main_start : M unit :=
  SetupHardware ;;
  LEDs_SetAllLEDs LEDMASK_USB_NOTREADY ;;
  GlobalInterruptEnable.
Definition main (n : nat) : M unit := main_start ;; main_rounds n.
End Joystick.

(** ** The application keeps the laws of the library's interfaces *)

#[export] Instance joystick_standard `{Calm} indet : Standard_Request_Law (H0 := joystick_app indet).
Proof. intros s Hs. by apply HID_standard_request. Qed.

#[export] Instance joystick_descriptors `{Env} indet : Descriptor_Law (H := joystick_app indet).
Proof.
  intros v i size p. cbn [GetDescriptor joystick_app]. unfold CALLBACK_USB_GetDescriptor. cbv zeta.
  repeat case_match; intros E Hne; injection E as <- <-; try done;
    (split; [vm_compute; done|]); eexists _, _; (split; [reflexivity|]); vm_compute; done.
Qed.

Lemma joystick_stable_config : stable_config Joystick_HID_Interface_addr.
Proof. intros l s s' [Hc _]. apply (f_equal (fun s => HID_Config (Joystick_HID_Interface s))) in Hc. done. Qed.

Lemma evolves_app_vars l s s' : evolves l s s' -> mask s' = mask s /\ saved s' = saved s.
Proof.
  intros [Hc _]. split; [by apply (f_equal mask) in Hc|by apply (f_equal saved) in Hc].
Qed.

(** ** Reports *)

(** The report the application builds from its variables and the port pins. *)
Definition current_report (m y pins : Z) : USB_JoystickReport_Data_t :=
  {| rep_X := m; rep_Y := y; rep_Z := 0; rep_RX := 0; rep_RY := 0; rep_RZ := 0;
     Button := pins; padding := replicate 22 0 |}.

(** On the zeroed buffer the class driver passes, the callback builds this
    report. *)
Lemma CreateHIDReport_report `{Calm} i id ty s :
  let pins := respond (trace (async s)) PINB in
  let report := bytes_of_report (current_report (mask s) (saved s) pins) in
  CreateHIDReport i id ty (replicate 32 0) s
    = Done (false, id, report, sizeof_USB_JoystickReport_Data_t) (log (Rd PINB pins) (async s)).
Proof.
  intros pins report. destruct (evolves_app_vars _ _ _ (calm s)) as [Hm Hy].
  unfold CreateHIDReport, rd, bind at 1. fold pins. unfold checked, bind, get.
  cbn [store_field replicate length take drop app le_bytes Nat.leb Nat.add ret].
  change (mask (log _ _)) with (mask (async s)). change (saved (log _ _)) with (saved (async s)).
  rewrite Hm, Hy. reflexivity.
Qed.

Section SetReport.
Context `{Calm} (indet : bytes) (ps : list bytes) (K : nat) (s : st).
Hypothesis request : is_SetReport Joystick_HID_Interface_addr s.
Hypothesis request_length : wLength (USB_ControlRequest s) = Z.of_nat (length (concat ps)).
Hypothesis host : control_write_follows s ps K.
Hypothesis packets : Forall (fun p => 0 < length p <= 8)%nat ps.
Hypothesis nonempty : ps <> [].
Hypothesis stack : (length (concat ps) <= length indet)%nat.
Hypothesis report_size : Z.of_nat (length (concat ps)) < 2 ^ 16.
Hypothesis attached : USB_DeviceState s <> DEVICE_STATE_Unattached.
Hypothesis active : USB_DeviceState s <> DEVICE_STATE_Suspended.
Hypothesis enough : ((length ps + 1) * (K + 1) <= fuel)%nat.

Lemma on_ControlRequest_SetReport :
  exists s2 l2 size, evolves l2 s s2 /\
    on_ControlRequest indet s = ProcessHIDReport Joystick_HID_Interface_addr
      (u8 (Z.land (wValue (USB_ControlRequest s)) 0xFF))
      (u8 (Z.shiftr (wValue (USB_ControlRequest s)) 8 - 1))
      (report_payload (USB_ControlRequest s) (concat ps)) size s2.
Proof.
  unfold on_ControlRequest.
  destruct (SetReport_dispatch Joystick_HID_Interface_addr indet ps K s request
              joystick_stable_config host) as (v & s1 & Hev & ->).
  assert (Hrec : wp (receive_report indet) (fun data s2 => data = concat ps /\
            exists l2, evolves l2 s s2) s1) by (by eapply receive_report_spec).
  apply wp_done in Hrec as (data & s2 & Hrun & -> & l2 & Hev2).
  unfold set_report. unfold bind at 1, get at 1. rewrite (evolves_ControlRequest _ _ _ Hev).
  unfold bind. rewrite Hrun. eexists s2, l2, _. split; [done|]. unfold report_payload.
  rewrite (wrap_id 8) by apply land_255_fits. by destruct (_ =? 0).
Qed.

(** The report reaches the application: byte 1 is stored in [saved] and drives
    port D. *)
Lemma SetReport_stores b :
  report_payload (USB_ControlRequest s) (concat ps) !! 1%nat = Some b -> is_u8 b ->
  wp (on_ControlRequest indet)
     (fun _ s' => exists l s2, evolves l s s2 /\ s' = log (Wr PORTD b) (set_saved b s2)) s.
Proof.
  intros Hb Hu. destruct on_ControlRequest_SetReport as (s2 & l2 & size & Hev & Hrun).
  unfold wp. rewrite Hrun. unfold ProcessHIDReport, load_byte. cbn [Z.leb Z.compare].
  change (Z.to_nat 1) with 1%nat. rewrite Hb. cbn. rewrite (wrap_id 8 b Hu). by exists l2, s2.
Qed.

(** C3: the host's report reaches the application.  For a SET_REPORT request
    whose data stage the host carries out with a report of at least two bytes
    (after its number, if it has one), the control request handler terminates,
    stores byte 1 of the report in [saved] (from where it is sent back as Y) and
    drives port D with it; everything else is as before. *)
Theorem SetReport_loopback b :
  report_payload (USB_ControlRequest s) (concat ps) !! 1%nat = Some b -> is_u8 b ->
  wp (on_ControlRequest indet)
     (fun _ s' => exists l s2, evolves l s s2 /\ s' = log (Wr PORTD b) (set_saved b s2)) s.
Proof. apply SetReport_stores. Qed.

(** C39: a report of less than two bytes is undefined behaviour: once the host has
    carried out the data stage, the application reads byte 1 whatever the size of
    the report. *)
Theorem SetReport_short_undefined :
  (length (report_payload (USB_ControlRequest s) (concat ps)) < 2)%nat -> on_ControlRequest indet s = Undefined.
Proof.
  intros Hlen. destruct on_ControlRequest_SetReport as (s2 & l2 & size & Hev & ->).
  unfold ProcessHIDReport, load_byte. cbn [Z.leb Z.compare]. change (Z.to_nat 1) with 1%nat.
  by rewrite lookup_ge_None_2 by lia.
Qed.
End SetReport.

#[export] Instance joystick_bus_events `{Calm} indet : Bus_Event_Law (H := joystick_app indet).
Proof.
  constructor; try (unfold EVENT_USB_Device_Connect, EVENT_USB_Device_Disconnect; simpl;
    unfold on_Connect, on_Disconnect, LEDs_SetAllLEDs; auto with keeps).
  intros s. cbn. unfold on_StartOfFrame, HID_Device_MillisecondElapsed. rewrite wp_bind, wp_get.
  by destruct (negb _).
Qed.

(** ** The HID task *)

Lemma evolves_set_Prev l b s s' :
  evolves l s s' ->
  evolves l (set_PrevJoystickHIDReportBuffer b s) (set_PrevJoystickHIDReportBuffer b s').
Proof.
  intros [Hc Ht]. split; [|exact Ht].
  change (set_PrevJoystickHIDReportBuffer b (core s') = set_PrevJoystickHIDReportBuffer b (core s)).
  by rewrite Hc.
Qed.

Lemma evolves_IdleMSRemaining x s :
  evolves [] s (modify_State Joystick_HID_Interface_addr (set_IdleMSRemaining x) s).
Proof. done. Qed.

Lemma core_PrevFrameNum x s s' : core s' = core s ->
  core (modify_State Joystick_HID_Interface_addr (set_PrevFrameNum x) s') =
  core (modify_State Joystick_HID_Interface_addr (set_PrevFrameNum x) s).
Proof.
  intros Hc.
  change (set_Joystick_HID_Interface (on_State (set_PrevFrameNum x) (Joystick_HID_Interface (core s'))) (core s')
    = set_Joystick_HID_Interface (on_State (set_PrevFrameNum x) (Joystick_HID_Interface (core s))) (core s)).
  by rewrite Hc.
Qed.

Lemma evolves_State l s s' : evolves l s s' ->
  let h := HID_State (Joystick_HID_Interface s) in
  let h' := HID_State (Joystick_HID_Interface s') in
  PrevFrameNum h' = PrevFrameNum h /\ IdleCount h' = IdleCount h /\
  PrevJoystickHIDReportBuffer s' = PrevJoystickHIDReportBuffer s.
Proof.
  intros [Hc _]. simpl. split; [|split].
  - by apply (f_equal (fun s => PrevFrameNum (HID_State (Joystick_HID_Interface s)))) in Hc.
  - by apply (f_equal (fun s => IdleCount (HID_State (Joystick_HID_Interface s)))) in Hc.
  - by apply (f_equal PrevJoystickHIDReportBuffer) in Hc.
Qed.

Lemma bytes_of_report_all m y pins : all_bytes (bytes_of_report (current_report m y pins)).
Proof.
  unfold bytes_of_report. apply Forall_app. split; [repeat constructor; by apply wrap_fits|].
  apply Forall_app. split; [apply le_bytes_all|]. simpl. repeat constructor; vm_compute; done.
Qed.

Section SendReport.
Context `{Calm} (indet : bytes).
Hypothesis enough : (32 < fuel)%nat.

(** Sending the report through the free bank of the endpoint. *)
Lemma send_report_spec sA report s1 l :
  evolves l sA s1 -> HID_Config (Joystick_HID_Interface sA) = HID_Config (configured_interface Joystick_HID_Interface_init) ->
  bank_free (ep_trace (trace sA)) 32 -> in_bank l = [] -> in_packets l = [] ->
  all_bytes report -> length report = 32%nat ->
  wp (send_report (H0 := joystick_app indet) Joystick_HID_Interface_addr 0 report 32)
     (fun _ s' => exists l', evolves l' sA s' /\ in_packets l' = [report]) s1.
Proof.
  intros Hev Hcfg Hfree Hb Hp Hall Hlen. unfold send_report.
  rewrite wp_bind, wp_get, wp_bind, wp_get, wp_bind, wp_put.
  pose proof (joystick_stable_config _ _ _ Hev) as Hst. cbn [load Joystick_HID_Interface_addr] in *.
  rewrite Hst, Hcfg.
  pose proof (evolves_nil_l _ _ _ _ Hev (evolves_IdleMSRemaining (IdleCount (HID_State (Joystick_HID_Interface s1))) s1)) as Hev1.
  rewrite wp_bind. eapply at_wr; [exact Hev1|done|]. intros s2 Hev2.
  cbn [Z.eqb negb when]. rewrite wp_bind, wp_ret, wp_bind.
  change 32 with (Z.of_nat 32). rewrite <- Hlen.
  eapply wp_mono; [|eapply (Write_Stream_free sA 32 Hfree report _ s2 Hev2); try done; lia].
  intros r s3 (-> & l3 & Hev3 & Hb3 & Hp3).
  eapply at_clear; [exact Hev3|done|]. intros v s4 Hev4 _. eexists. split; [exact Hev4|].
  cbn [in_packets in_bank]. by rewrite ClearIN_TXINI, Hp3, Hb3.
Qed.

(** The comparison with the previous report, which it replaces. *)
Lemma states_changed_spec report s1 :
  HID_Config (Joystick_HID_Interface s1) = HID_Config (configured_interface Joystick_HID_Interface_init) ->
  length report = 32%nat -> length (PrevJoystickHIDReportBuffer s1) = 32%nat ->
  states_changed Joystick_HID_Interface_addr report 32 s1
    = Done (bool_decide (report <> PrevJoystickHIDReportBuffer s1))
           (set_PrevJoystickHIDReportBuffer report s1).
Proof.
  intros Hcfg Hr Hb. unfold states_changed, bind at 1, get at 1. cbn [load Joystick_HID_Interface_addr].
  rewrite Hcfg. cbn [HID_Config configured_interface PrevReportINBuffer Joystick_HID_Interface_init].
  unfold bind, get, checked, memcmp_differ, memcpy, ret, put.
  cbn [load store buffer_at PrevReportINBufferSize].
  rewrite Hr, Hb. cbn [Z.leb Z.compare Z.of_nat Pos.of_succ_nat Pos.succ Pos.compare Pos.compare_cont andb
    sizeof_USB_JoystickReport_Data_t Z.add Pos.add].
  rewrite !take_ge, drop_ge by (rewrite ?Hr, ?Hb; vm_compute; lia). rewrite app_nil_r. f_equal.
  rewrite <- bool_decide_not. done.
Qed.

(** The end of the task: send or not, and remember the frame. *)
Lemma task_end sA report s1 l (send : bool) :
  evolves l sA s1 -> HID_Config (Joystick_HID_Interface sA) = HID_Config (configured_interface Joystick_HID_Interface_init) ->
  bank_free (ep_trace (trace sA)) 32 -> in_bank l = [] -> in_packets l = [] ->
  all_bytes report -> length report = 32%nat ->
  wp (when send (send_report (H0 := joystick_app indet) Joystick_HID_Interface_addr 0 report 32) ;;
      frame ← USB_Device_GetFrameNumber;
      put (modify_State Joystick_HID_Interface_addr (set_PrevFrameNum frame)))
     (fun _ s' => exists frame l', ep_trace (trace s') = l' ++ ep_trace (trace sA) /\
        recorded (Rd UDFNUM frame) sA s' /\ suffix (trace sA) (trace s') /\
        in_packets l' = (if send then [report] else []) /\
        core s' = core (modify_State Joystick_HID_Interface_addr (set_PrevFrameNum frame) sA)) s1.
Proof.
  intros Hev Hcfg Hfree Hb Hp Hall Hlen. rewrite wp_bind.
  eapply (wp_mono _ (fun _ s' => exists l', evolves l' sA s' /\
            in_packets l' = (if send then [report] else []))).
  2: { destruct send; cbn [when]; [by eapply send_report_spec|]. by exists l. }
  intros [] s2 (l2 & Hev2 & Hp2). rewrite wp_bind. unfold wp, rd.
  pose proof (evolves_rd UDFNUM s2 eq_refl) as Hev3. pose proof (recorded_rd UDFNUM s2) as Hrec.
  set (fr := respond _ UDFNUM) in *. set (s3 := log _ _) in *. cbn [put].
  pose proof (evolves_nil_l _ _ _ _ Hev2 Hev3) as (Hc3 & Ht3 & Hsuf).
  exists fr, l2. split; [exact Ht3|]. split; [|split; [|split; [done|by apply core_PrevFrameNum]]].
  - by apply (recorded_suffix _ _ _ _ _ Hrec (evolves_suffix _ _ _ Hev2)).
  - exact Hsuf.
Qed.

(** Creating the report and sending it if needed, in state [s]. *)
Lemma create_and_send_spec s :
  HID_Config (Joystick_HID_Interface s) = HID_Config (configured_interface Joystick_HID_Interface_init) ->
  length (PrevJoystickHIDReportBuffer s) = 32%nat ->
  bank_free (ep_trace (trace s)) 32 ->
  wp (create_and_send (H0 := joystick_app indet) Joystick_HID_Interface_addr
        (HID_Config (configured_interface Joystick_HID_Interface_init)))
    (fun _ s' => exists pins idle frame l,
      let report := bytes_of_report (current_report (mask s) (saved s) pins) in
      let elapsed := negb (IdleCount (HID_State (Joystick_HID_Interface s)) =? 0) && (idle =? 0) in
      recorded (Rd PINB pins) s s' /\ recorded (Rd UDFNUM frame) s s' /\
      (Masked -> idle = IdleMSRemaining (HID_State (Joystick_HID_Interface s))) /\
      ep_trace (trace s') = l ++ ep_trace (trace s) /\
      in_packets l = (if bool_decide (report <> PrevJoystickHIDReportBuffer s) || elapsed
                      then [report] else []) /\
      core s' = core (modify_State Joystick_HID_Interface_addr (set_PrevFrameNum frame)
                        (set_PrevJoystickHIDReportBuffer report s))) s.
Proof.
  intros Hcfg Hbuf Hfree. unfold create_and_send. change (Z.to_nat _) with 32%nat.
  rewrite wp_bind. unfold wp at 1.
  cbn [CALLBACK_HID_Device_CreateHIDReport joystick_hid]. rewrite CreateHIDReport_report.
  pose proof (evolves_rd PINB s eq_refl) as Hev5. pose proof (recorded_rd PINB s) as Hpins.
  set (pins := respond _ PINB) in *. set (s5 := log (Rd PINB pins) _) in *.
  change sizeof_USB_JoystickReport_Data_t with 32. set (report := bytes_of_report _) in *.
  rewrite wp_bind. unfold get_volatile at 1, wp at 1.
  pose proof (calm s5) as Hs6. set (s6 := async s5) in *.
  pose proof (evolves_nil_l _ _ _ _ Hev5 Hs6) as Hev6.
  destruct (evolves_State _ _ _ Hev6) as (_ & Hidle & Hprev).
  pose proof (eq_trans (joystick_stable_config _ _ _ Hev6) Hcfg) as Hcfg6.
  cbn [load Joystick_HID_Interface_addr] in *.
  rewrite wp_bind. unfold wp at 1. rewrite states_changed_spec; [|done|done|by rewrite Hprev].
  rewrite Hidle, Hprev. change (negb (32 =? 0)) with true. cbn [orb andb].
  set (s7 := set_PrevJoystickHIDReportBuffer report s6).
  eapply wp_mono; [|eapply (task_end s7 report s7 []); try done].
  2: { change (trace s7) with (trace s6). by rewrite (evolves_trace _ _ _ Hev6). }
  2: apply bytes_of_report_all.
  intros [] s' (frame & l & Ht & Hframe & Hsuf & Hpk & Hc).
  exists pins, (IdleMSRemaining (HID_State (Joystick_HID_Interface s6))), frame, l.
  cbv zeta. fold report. split; [|split; [|split; [|split; [|split]]]].
  - eapply recorded_suffix; [exact Hpins|done|]. etrans; [exact (evolves_suffix _ _ _ Hs6)|exact Hsuf].
  - by apply (recorded_suffix _ _ _ _ _ Hframe (evolves_suffix _ _ _ Hev6)).
  - intros Hmask. unfold s6, s5. by rewrite !Hmask.
  - rewrite Ht. f_equal. exact (evolves_trace _ _ _ Hev6).
  - done.
  - rewrite Hc. apply core_PrevFrameNum. by apply (evolves_set_Prev _ report) in Hev6 as [? _].
Qed.
End SendReport.

Section HIDTask.
Context `{Calm} (indet : bytes) (s : st).
Hypothesis configured : USB_DeviceState s = DEVICE_STATE_Configured.
Hypothesis interface :
  HID_Config (Joystick_HID_Interface s) = HID_Config (configured_interface Joystick_HID_Interface_init).
Hypothesis buffer : length (PrevJoystickHIDReportBuffer s) = 32%nat.
Hypothesis new_frame : forall t,
  respond t UDFNUM <> PrevFrameNum (HID_State (Joystick_HID_Interface s)).
Hypothesis free : bank_free (Wr UENUM 1 :: ep_trace (trace s)) 32.
Hypothesis enough : (32 < fuel)%nat.

Let task : M unit := HID_Device_USBTask (H0 := joystick_app indet) Joystick_HID_Interface_addr.

(** C2: the HID task reports changes.  In the configured state, in a new frame
    and with the bank of the IN endpoint free, the task terminates without
    undefined behaviour, having selected the endpoint and sent exactly one
    packet with the current 32-byte report if it differs from the previous one
    or if the idle period is set and has elapsed, and nothing otherwise; it
    remembers the report and the frame number.  The button bits of the report are
    the pins of port B as read in this round; the idle counter is the one at the
    time of the comparison, which without interrupts is the one the task started
    with. *)
Theorem HID_Device_USBTask_reports :
  wp task (fun _ s' => exists pins idle frame l,
    let report := bytes_of_report (current_report (mask s) (saved s) pins) in
    let elapsed := negb (IdleCount (HID_State (Joystick_HID_Interface s)) =? 0) && (idle =? 0) in
    recorded (Rd PINB pins) s s' /\ recorded (Rd UDFNUM frame) s s' /\
    (Masked -> idle = IdleMSRemaining (HID_State (Joystick_HID_Interface s))) /\
    ep_trace (trace s') = l ++ Wr UENUM 1 :: ep_trace (trace s) /\
    in_packets l = (if bool_decide (report <> PrevJoystickHIDReportBuffer s) || elapsed
                    then [report] else []) /\
    core s' = core (modify_State Joystick_HID_Interface_addr (set_PrevFrameNum frame)
                      (set_PrevJoystickHIDReportBuffer report s))) s.
Proof.
  unfold task, HID_Device_USBTask. rewrite wp_bind. unfold get_volatile at 1, wp at 1.
  pose proof (calm s) as Hev1. set (s1 := async s) in *.
  rewrite (evolves_DeviceState _ _ _ Hev1), configured. cbn [Z.eqb DEVICE_STATE_Configured Pos.eqb negb].
  rewrite wp_bind, wp_get, wp_bind. unfold USB_Device_GetFrameNumber at 1, rd at 1, wp at 1.
  cbn [load Joystick_HID_Interface_addr].
  pose proof (evolves_nil_l _ _ _ _ Hev1 (evolves_rd UDFNUM s1 eq_refl)) as Hev2.
  set (fr := respond (trace (async s1)) UDFNUM) in *. set (s2 := log _ (async s1)) in *.
  destruct (evolves_State _ _ _ Hev1) as (Hpf & _).
  destruct (Z.eqb_spec (PrevFrameNum (HID_State (Joystick_HID_Interface s1))) fr) as [E|_].
  { rewrite Hpf in E. by destruct (new_frame (trace (async s1))). }
  cbn [andb]. rewrite wp_bind, wp_get.
  rewrite (joystick_stable_config _ _ _ Hev2 : HID_Config (Joystick_HID_Interface _) = _).
  cbn [load Joystick_HID_Interface_addr]. rewrite interface.
  rewrite wp_bind. unfold Endpoint_SelectEndpoint at 1, wr at 1, wp at 1. change (u8 _) with 1.
  pose proof (evolves_trans _ [_] _ _ _ Hev2 (evolves_log (Wr UENUM 1) s2 eq_refl)) as Hev3.
  set (s3 := log (Wr UENUM 1) s2) in *.
  rewrite wp_bind. unfold Endpoint_IsReadWriteAllowed, reg_test, rd at 1. rewrite wp_bind. unfold wp at 1.
  set (v := respond (trace (async s3)) UEINTX).
  pose proof (evolves_trans _ [_] _ _ _ (evolves_nil_l _ _ _ _ Hev3 (calm s3))
                (evolves_log (Rd UEINTX v) _ eq_refl)) as Hev4.
  set (s4 := log (Rd UEINTX v) (async s3)) in *. rewrite wp_ret.
  rewrite (bf_allowed _ _ free [] v) by (done || (simpl; lia) || (exists (trace (async s3)); split;
    [by rewrite (evolves_trace _ _ _ (calm s3)), (evolves_trace _ _ _ Hev3)|done])).
  destruct (evolves_app_vars _ _ _ Hev4) as [Hm Hy].
  destruct (evolves_State _ _ _ Hev4) as (_ & Hidle & Hprev).
  eapply wp_mono; [|apply (create_and_send_spec indet enough s4); [|by rewrite Hprev|]].
  2: exact (eq_trans (joystick_stable_config _ _ _ Hev4) interface).
  2: { rewrite (evolves_trace _ _ _ Hev4). by apply bank_free_read. }
  cbv zeta. rewrite Hm, Hy, Hidle, Hprev.
  intros [] s' (pins & idle & frame & l & Hpins & Hframe & Hmask & Ht & Hpk & Hc).
  pose proof (evolves_suffix _ _ _ Hev4) as Hsuf.
  exists pins, idle, frame, (l ++ [Rd UEINTX v]). split; [|split; [|split; [|split; [|split]]]].
  - by apply (recorded_suffix _ _ _ _ _ Hpins Hsuf).
  - by apply (recorded_suffix _ _ _ _ _ Hframe Hsuf).
  - intros HM. rewrite (Hmask HM). unfold s4, s3, s2, s1. by rewrite !HM.
  - rewrite Ht, (evolves_trace _ _ _ Hev4), <- (app_assoc l). reflexivity.
  - by rewrite in_packets_read.
  - rewrite Hc. apply core_PrevFrameNum.
    by apply (evolves_set_Prev _ (bytes_of_report (current_report (mask s) (saved s) pins))) in Hev4 as [? _].
Qed.
End HIDTask.

(** ** SET_CONFIGURATION *)

(** C13: SET_CONFIGURATION of an existing configuration.  With interrupts masked and
    a host that starts the status stage, the request terminates; the device has the requested
    configuration number and is configured for number 1.  For number 0 it is
    "configured" too if its address is enabled, and powered otherwise.  The
    SETUP packet is acknowledged and the status stage completed before anything
    else is done.  The HID interface restarts with the report protocol and an
    idle period of 500 ms. *)
Theorem joystick_SetConfiguration `{Masked} indet K s :
  let n := u8 (wValue (USB_ControlRequest s)) in
  n <= FIXED_NUM_CONFIGURATIONS ->
  status_stage_follows (trace s) K -> (K < fuel)%nat ->
  USB_DeviceState s <> DEVICE_STATE_Unattached ->
  Z.land (bmRequestType (USB_ControlRequest s)) REQDIR_DEVICETOHOST = 0 ->
  ep_Size (ReportINEndpoint (HID_Config (Joystick_HID_Interface s))) = JOYSTICK_IN_EPSIZE ->
  wp (USB_Device_SetConfiguration (H0 := joystick_app indet)) (fun _ s' => exists addr l later,
    trace s' = later ++ l ++ trace s /\ configuration_accepted n addr l /\
    USB_DeviceState s' = (if n =? 1 then DEVICE_STATE_Configured
                          else if has_bit addr ADDEN then DEVICE_STATE_Configured
                          else DEVICE_STATE_Powered) /\
    USB_Device_ConfigurationNumber s' = n /\
    no_idle (Joystick_HID_Interface s') = configured_interface (Joystick_HID_Interface s)) s.
Proof.
  intros n Hn Hhost Hfuel Hatt Hdir Hsize.
  apply (SetConfiguration_spec K); try done. fold n. intros addr l Hacc.
  assert (H01 : n = 0 \/ n = 1).
  { assert (0 <= n) by (apply (wrap_fits 8); lia). unfold FIXED_NUM_CONFIGURATIONS in Hn. lia. }
  set (s1 := set_USB_DeviceState _ _).
  cbn [EVENT_USB_Device_ConfigurationChanged joystick_app].
  unfold on_ConfigurationChanged, HID_Device_ConfigureEndpoints. rewrite !wp_bind, wp_put.
  set (s2 := store _ _ s1). unfold USB_Device_EnableSOFEvents, USB_INT_Enable, LEDs_SetAllLEDs.
  rewrite wp_bind, wp_get, wp_bind.
  set (c := ReportINEndpoint _).
  assert (Hc : keeps (Endpoint_ConfigureEndpointTable [c])).
  { assert (Hs : ep_Size c <= 0x8000).
    { unfold c. cbn. rewrite Hsize. vm_compute. discriminate. }
    pose proof (keeps_ConfigureEndpoint (ep_Address c) (ep_Type c) (ep_Size c) (ep_Banks c) Hs).
    cbn [Endpoint_ConfigureEndpointTable]. auto 6 with keeps. }
  eapply wp_mono; [|apply Hc]. intros ok s3 H3.
  assert (Hend : wp (reg_set (int_enable USB_INT_SOFI).1 (int_enable USB_INT_SOFI).2 ;; wr PORTE 255)
     (fun _ s' => kept s2 s') s3).
  { eapply wp_mono; [|apply keeps_bind; auto with keeps]. intros [] s4 H4.
    exact (kept_trans _ _ _ H3 H4). }
  destruct ok; cbn [negb]; rewrite wp_ret.
  all: eapply wp_mono; [|apply Hend]; intros [] s4 [H4 [later Hlater]]; exists addr, l, later.
  all: split; [exact Hlater|]; split; [exact Hacc|].
  all: pose proof (f_equal USB_DeviceState H4) as E1;
    pose proof (f_equal USB_Device_ConfigurationNumber H4) as E2;
    pose proof (f_equal Joystick_HID_Interface H4) as E3; cbn in E1, E2, E3.
  all: split; [rewrite E1; unfold configured_device_state; by destruct H01 as [-> | ->]|];
    split; [exact E2|exact E3].
Qed.
