(* ===== verification/HIDRequests.v ===== *)
(** * The requests of the HID class

    GET_REPORT, and the round trips of the idle rate and of the protocol, through
    [HID_Device_ProcessControlRequest] of [HIDClassDevice.c] with the interface of
    the joystick. *)
From S2P Require Import Prelude Machine Rely Descriptors Endpoint ControlStream UsbController DeviceStandardReq StatusRequests EndpointStream HIDClass Joystick.

Abbreviation iface := Joystick_HID_Interface_addr.

(** A class request for the interface of the joystick. *)
Definition class_request (dir bReq : Z) (req : USB_Request_Header_t) : Prop :=
  bRequest req = bReq /\ bmRequestType req = request_type dir REQTYPE_CLASS REQREC_INTERFACE /\
  wIndex req = INTERFACE_ID_Joystick.

(** The accesses of a request without data: the SETUP packet is seen and
    acknowledged, and the status stage completed. *)
Definition acknowledged_request (l : list event) : Prop :=
  exists w v v' polled, forallb is_poll polled = true /\
    l = in_ack v' ++ polled ++ setup_ack v ++ [Rd UEINTX w].

(** Those of a request that is answered with [data]. *)
Definition answered_request (data : bytes) (l : list event) : Prop :=
  exists w v v' v'' ready polled, forallb is_poll ready = true /\ forallb is_poll polled = true /\
    l = out_ack v'' ++ polled ++ in_ack v' ++ rev (map (Wr UEDATX) data) ++ ready ++
        setup_ack v ++ [Rd UEINTX w].

Section Dispatch.
Context `{Env} `{HID_Application} (indet : bytes).

(** The [switch] of the class driver selects the handler of the request. *)
Definition handler (dir bReq : Z) : M unit :=
  if bReq =? HID_REQ_GetReport then when (dir =? REQDIR_DEVICETOHOST) (get_report iface)
  else if bReq =? HID_REQ_SetReport then when (dir =? REQDIR_HOSTTODEVICE) (set_report iface indet)
  else if bReq =? HID_REQ_GetProtocol then when (dir =? REQDIR_DEVICETOHOST) (get_protocol iface)
  else if bReq =? HID_REQ_SetProtocol then when (dir =? REQDIR_HOSTTODEVICE) (set_protocol iface)
  else if bReq =? HID_REQ_SetIdle then when (dir =? REQDIR_HOSTTODEVICE) (set_idle iface)
  else if bReq =? HID_REQ_GetIdle then when (dir =? REQDIR_DEVICETOHOST) (get_idle iface)
  else ret tt.

Lemma dispatch dir bReq s v s1 :
  class_request dir bReq (USB_ControlRequest s) ->
  dir = REQDIR_DEVICETOHOST \/ dir = REQDIR_HOSTTODEVICE ->
  InterfaceNumber (HID_Config (Joystick_HID_Interface s1)) = INTERFACE_ID_Joystick ->
  Endpoint_IsSETUPReceived s = Done v s1 -> v = true -> USB_ControlRequest s1 = USB_ControlRequest s ->
  HID_Device_ProcessControlRequest iface indet s = handler dir bReq s1.
Proof.
  intros (Hr & Ht & Hi) Hdir Hcfg Hrun -> Hreq. unfold HID_Device_ProcessControlRequest, bind, get.
  rewrite Hrun. cbn [negb]. rewrite Hreq. cbn [load iface]. rewrite Hcfg, Hi, Z.eqb_refl. cbn [negb]. cbv zeta.
  unfold handler. rewrite Hr, Ht. by destruct Hdir as [-> | ->].
Qed.
End Dispatch.

Section Requests.
Context `{Masked} `{HID_Application} (indet : bytes) (K : nat) (s : st).
Hypothesis enough : (K < fuel)%nat.
Hypothesis attached : USB_DeviceState s <> DEVICE_STATE_Unattached.
Hypothesis interface :
  InterfaceNumber (HID_Config (Joystick_HID_Interface s)) = INTERFACE_ID_Joystick.
Hypothesis pending : has_bit (respond (trace s) UEINTX) RXSTPI = true.

Let request := HID_Device_ProcessControlRequest iface indet.

Lemma run_request dir bReq Q :
  class_request dir bReq (USB_ControlRequest s) ->
  dir = REQDIR_DEVICETOHOST \/ dir = REQDIR_HOSTTODEVICE ->
  (forall w s1, runs [Rd UEINTX w] s s1 -> wp (handler indet dir bReq) Q s1) -> wp request Q s.
Proof.
  intros Hreq Hdir Hh. unfold wp, request.
  assert (Hrun : Endpoint_IsSETUPReceived s =
            Done true (log (Rd UEINTX (respond (trace s) UEINTX)) s)).
  { unfold Endpoint_IsSETUPReceived, reg_test, bind, rd. rewrite masked. cbn [ret]. by rewrite pending. }
  rewrite (dispatch indet dir bReq s true (log (Rd UEINTX (respond (trace s) UEINTX)) s) Hreq Hdir interface Hrun eq_refl eq_refl).
  by apply (Hh (respond (trace s) UEINTX)).
Qed.

(** A request without data stage. *)
Lemma acknowledge_request w s1 :
  Z.land (bmRequestType (USB_ControlRequest s)) REQDIR_DEVICETOHOST = 0 ->
  status_stage_follows (trace s) K -> runs [Rd UEINTX w] s s1 ->
  wp (Endpoint_ClearSETUP ;; Endpoint_ClearStatusStage)
     (fun _ s' => exists l, runs l s s' /\ acknowledged_request l) s1.
Proof.
  intros Hdir Hhost Hr. rewrite wp_bind. eapply run_clear; [exact Hr|]. intros v s2 Hr2 _.
  eapply wp_mono; [|by eapply (ClearStatusStage_IN s K)].
  intros [] s3 (v' & polled & Hr3 & Hp). eexists. split; [exact Hr3|]. by exists w, v, v', polled.
Qed.

(** A request for one byte, taken from the state by [f]. *)
Lemma answer_request w s1 (f : st -> Z) :
  Z.land (bmRequestType (USB_ControlRequest s)) REQDIR_DEVICETOHOST <> 0 ->
  flag_follows TXINI (trace s) K -> flag_follows RXOUTI (trace s) K ->
  (forall t x, f (set_trace t x) = f x) -> is_u8 (f s) -> runs [Rd UEINTX w] s s1 ->
  wp (Endpoint_ClearSETUP ;; spin_until Endpoint_IsINReady ;;
      b ← get f; Endpoint_Write_8 b ;; Endpoint_ClearIN ;; Endpoint_ClearStatusStage)
     (fun _ s' => exists l, runs l s s' /\ answered_request [f s] l) s1.
Proof.
  intros Hdir Hin Hout Hf Hb Hr. rewrite wp_bind. eapply run_clear; [exact Hr|]. intros v s2 Hr2 _.
  rewrite wp_bind. eapply wp_mono; [|by eapply (spin_flag TXINI s K Hin enough)].
  intros [] s3 (ready & Hr3 & Hrd). rewrite wp_bind, wp_get.
  assert (f s3 = f s) as -> by (by rewrite Hr3, Hf).
  rewrite wp_bind. eapply run_wr; [exact Hr3|]. intros s4 Hr4. rewrite wrap_id in Hr4 by done.
  rewrite wp_bind. eapply run_clear; [exact Hr4|]. intros v' s5 Hr5 _.
  eapply wp_mono; [|by eapply (ClearStatusStage_OUT s K)].
  intros [] s6 (v'' & polled & Hr6 & Hp). eexists. split; [exact Hr6|].
  by exists w, v, v', v'', ready, polled.
Qed.

(** A request that changes the state of the interface does so once the status
    stage is over. *)
Lemma change_request bReq (f : USB_Request_Header_t -> HID_State_t -> HID_State_t) :
  handler indet REQDIR_HOSTTODEVICE bReq =
    (Endpoint_ClearSETUP ;; Endpoint_ClearStatusStage ;;
     req ← get USB_ControlRequest; put (modify_State iface (f req))) ->
  class_request REQDIR_HOSTTODEVICE bReq (USB_ControlRequest s) -> status_stage_follows (trace s) K ->
  wp request (fun _ s' => exists l, acknowledged_request l /\
    s' = modify_State iface (f (USB_ControlRequest s)) (set_trace (l ++ trace s) s)) s.
Proof.
  intros Hh Hreq Hhost. eapply run_request; [exact Hreq|by right|]. intros w s1 Hr. rewrite Hh.
  assert (Hdir : Z.land (bmRequestType (USB_ControlRequest s)) REQDIR_DEVICETOHOST = 0)
    by (destruct Hreq as (_ & -> & _); done).
  pose proof (acknowledge_request w s1 Hdir Hhost Hr) as Hack.
  rewrite wp_bind in Hack |- *. eapply wp_mono; [|exact Hack]. intros [] s2 Hs2. rewrite wp_bind.
  eapply wp_mono; [|exact Hs2]. intros [] s3 (l & Hr3 & Hl). rewrite wp_bind, wp_get, wp_put.
  exists l. split; [done|]. rewrite Hr3. reflexivity.
Qed.

Lemma get_idle_spec :
  class_request REQDIR_DEVICETOHOST HID_REQ_GetIdle (USB_ControlRequest s) ->
  flag_follows TXINI (trace s) K -> flag_follows RXOUTI (trace s) K ->
  wp request (fun _ s' => exists l, runs l s s' /\
    answered_request [u8 (Z.shiftr (IdleCount (HID_State (Joystick_HID_Interface s))) 2)] l) s.
Proof.
  intros Hreq Hin Hout. eapply run_request; [exact Hreq|by left|]. intros w s1 Hr.
  apply (answer_request w s1 (fun s => u8 (Z.shiftr (IdleCount (HID_State (Joystick_HID_Interface s))) 2)));
    try done; [|by apply wrap_fits]. destruct Hreq as (_ & -> & _). by vm_compute.
Qed.

Lemma get_protocol_spec :
  class_request REQDIR_DEVICETOHOST HID_REQ_GetProtocol (USB_ControlRequest s) ->
  flag_follows TXINI (trace s) K -> flag_follows RXOUTI (trace s) K ->
  wp request (fun _ s' => exists l, runs l s s' /\
    answered_request [Z.b2z (UsingReportProtocol (HID_State (Joystick_HID_Interface s)))] l) s.
Proof.
  intros Hreq Hin Hout. eapply run_request; [exact Hreq|by left|]. intros w s1 Hr.
  apply (answer_request w s1 (fun s => Z.b2z (UsingReportProtocol (HID_State (Joystick_HID_Interface s)))));
    try done; [|by destruct (UsingReportProtocol _)]. destruct Hreq as (_ & -> & _). by vm_compute.
Qed.
End Requests.

(** ** Round trips *)

(** A host that follows a SET request [s] is about to serve with a GET request:
    it carries out the status stages within [K] polls, and its second SETUP packet
    has arrived once the first request is over. *)
Record host_sets_and_gets `{Env} (s : st) (K : nat) : Prop := {
  hs_setup : has_bit (respond (trace s) UEINTX) RXSTPI = true;
  hs_status : status_stage_follows (trace s) K;
  hs_next : forall l, acknowledged_request l ->
    has_bit (respond (l ++ trace s) UEINTX) RXSTPI = true /\
    flag_follows TXINI (l ++ trace s) K /\ flag_follows RXOUTI (l ++ trace s) K
}.

Section RoundTrip.
Context `{Masked} `{HID_Application} (indet : bytes) (K : nat) (s : st) (get_request : USB_Request_Header_t).
Hypothesis enough : (K < fuel)%nat.
Hypothesis attached : USB_DeviceState s <> DEVICE_STATE_Unattached.
Hypothesis interface :
  InterfaceNumber (HID_Config (Joystick_HID_Interface s)) = INTERFACE_ID_Joystick.
Hypothesis host : host_sets_and_gets s K.

Let req : USB_Request_Header_t := USB_ControlRequest s.
Let request := HID_Device_ProcessControlRequest iface indet.

(** The GET request starts from the state the SET request has left. *)
Definition after_set (f : HID_State_t -> HID_State_t) (l : list event) : st :=
  set_USB_ControlRequest get_request (modify_State iface f (set_trace (l ++ trace s) s)).

Lemma set_then_get bReq (f : USB_Request_Header_t -> HID_State_t -> HID_State_t) Q :
  handler indet REQDIR_HOSTTODEVICE bReq =
    (Endpoint_ClearSETUP ;; Endpoint_ClearStatusStage ;;
     req ← get USB_ControlRequest; put (modify_State iface (f req))) ->
  class_request REQDIR_HOSTTODEVICE bReq req ->
  (forall l, acknowledged_request l -> wp request Q (after_set (f req) l)) ->
  wp (request ;; put (set_USB_ControlRequest get_request) ;; request) Q s.
Proof.
  intros Hh Hset HQ. rewrite wp_bind.
  eapply wp_mono; [|by apply (change_request indet K s enough attached interface (hs_setup _ _ host) bReq f Hh Hset), (hs_status _ _ host)].
  intros [] s1 (l & Hl & ->). rewrite wp_bind, wp_put. by apply HQ.
Qed.

(** C34: the idle rate set by the host is the one it reads back.  With interrupts
    masked and a host that carries out the transfers, SET_IDLE followed by GET_IDLE terminates: the first
    request is acknowledged, the idle period in force is four milliseconds for
    each unit of the upper byte of [wValue], and the second request is answered
    with that byte.  No overflow occurs for any value. *)
Theorem HID_idle_roundtrip :
  class_request REQDIR_HOSTTODEVICE HID_REQ_SetIdle req ->
  class_request REQDIR_DEVICETOHOST HID_REQ_GetIdle get_request ->
  is_u16 (wValue req) ->
  wp (request ;; put (set_USB_ControlRequest get_request) ;; request) (fun _ s' => exists l l',
    trace s' = l' ++ l ++ trace s /\ acknowledged_request l /\
    answered_request [Z.shiftr (wValue req) 8] l' /\
    IdleCount (HID_State (Joystick_HID_Interface s')) = 4 * Z.shiftr (wValue req) 8) s.
Proof.
  intros Hset Hget Hv.
  assert (Hidle : Z.shiftr (Z.land (wValue req) 0xFF00) 6 = 4 * Z.shiftr (wValue req) 8).
  { rewrite Z.mul_comm. change 4 with (2 ^ 2). rewrite <- Z.shiftl_mul_pow2 by lia.
    change 0xFF00 with (Z.shiftl (Z.ones 8) 8). bitwise.
    destruct (Z.ltb_spec i 2).
    - rewrite (Z.testbit_neg_r (Z.ones 8)), (Z.testbit_neg_r (Z.shiftr _ _)) by lia. apply andb_false_r.
    - rewrite Z.shiftr_spec by lia. replace (i - 2 + 8) with (i + 6) by lia.
      destruct (Z.ltb_spec (i + 6) 16).
      + rewrite Z.ones_spec_low by lia. apply andb_true_r.
      + rewrite (fits_testbit 16) by (done || lia). done. }
  assert (Hbyte : u8 (Z.shiftr (4 * Z.shiftr (wValue req) 8) 2) = Z.shiftr (wValue req) 8).
  { rewrite Z.shiftr_div_pow2 by lia. change (2 ^ 2) with 4. rewrite Z.mul_comm, Z.div_mul by lia.
    apply wrap_id. rewrite Z.shiftr_div_pow2 by lia. unfold fits in *. lia_div. }
  apply (set_then_get HID_REQ_SetIdle
           (fun req => set_IdleCount (Z.shiftr (Z.land (wValue req) 0xFF00) 6))); [done|done|].
  intros l Hl. destruct (hs_next _ _ host l Hl) as (Hp & Hin & Hout).
  eapply wp_mono; [|by apply (get_idle_spec indet K (after_set _ l) enough attached interface Hp)].
  intros [] s' (l' & Hr & Ha). exists l, l'. rewrite Hr. split; [done|]. split; [done|].
  cbn in Ha |- *. rewrite Hidle in Ha |- *. by rewrite Hbyte in Ha.
Qed.

(** The same of the protocol: boot protocol for a lower byte of zero, report
    protocol otherwise. *)
Lemma HID_protocol_roundtrip :
  class_request REQDIR_HOSTTODEVICE HID_REQ_SetProtocol req ->
  class_request REQDIR_DEVICETOHOST HID_REQ_GetProtocol get_request ->
  wp (request ;; put (set_USB_ControlRequest get_request) ;; request) (fun _ s' => exists l l',
    trace s' = l' ++ l ++ trace s /\ acknowledged_request l /\
    answered_request [if Z.land (wValue req) 0xFF =? 0 then 0 else 1] l') s.
Proof.
  intros Hset Hget.
  apply (set_then_get HID_REQ_SetProtocol
           (fun req => set_UsingReportProtocol (negb (Z.land (wValue req) 0xFF =? 0)))); [done|done|].
  intros l Hl. destruct (hs_next _ _ host l Hl) as (Hp & Hin & Hout).
  eapply wp_mono; [|by apply (get_protocol_spec indet K (after_set _ l) enough attached interface Hp)].
  intros [] s' (l' & Hr & Ha). exists l, l'. rewrite Hr. split; [done|]. split; [done|].
  cbn in Ha. by destruct (Z.land (wValue req) 255 =? 0).
Qed.
End RoundTrip.

(** ** GET_REPORT *)

(** The host has sent a request that is pending in state [s]; once it is
    acknowledged, it reads at most [W] bytes.  Before that the driver looks at the
    endpoint status and selects the control endpoint. *)
Definition report_read_follows `{Env} (s : st) (W : Z) (K : nat) : Prop :=
  forall w, answer (ep_trace (trace s)) UEINTX w ->
    has_bit w RXSTPI = true /\
    forall v, answer (Wr UENUM ENDPOINT_CONTROLEP :: Rd UEINTX w :: ep_trace (trace s)) UEINTX v ->
      host_reads (setup_ack v ++ Wr UENUM ENDPOINT_CONTROLEP :: Rd UEINTX w :: ep_trace (trace s)) W K.

Section GetReport.
Context `{Calm} (indet : bytes) (K : nat) (s : st).
Let req : USB_Request_Header_t := USB_ControlRequest s.
Let W : Z := wLength req.
Hypothesis request : class_request REQDIR_DEVICETOHOST HID_REQ_GetReport req.
Hypothesis unnumbered : Z.land (wValue req) 0xFF = 0.
Hypothesis length_ok : 0 <= W.
Hypothesis interface :
  HID_Config (Joystick_HID_Interface s) = HID_Config (configured_interface Joystick_HID_Interface_init).
Hypothesis buffer : length (PrevJoystickHIDReportBuffer s) = 32%nat.
Hypothesis host : report_read_follows s W K.
Hypothesis attached : USB_DeviceState s <> DEVICE_STATE_Unattached.
Hypothesis active : USB_DeviceState s <> DEVICE_STATE_Suspended.
Hypothesis enough : (33 * (K + 1) <= fuel)%nat.

(** Building the report and remembering it. *)
Lemma create_and_save l1 s1 :
  evolves l1 s s1 ->
  exists pins s2, evolves l1 s s2 /\ recorded (Rd PINB pins) s s2 /\
    let report := bytes_of_report (current_report (mask s) (saved s) pins) in
    CreateHIDReport iface 0 (u8 (Z.shiftr (wValue req) 8 - 1)) (replicate 32 0) s1
      = Done (false, 0, report, 32) s2 /\
    save_report iface report s2 = Done tt (set_PrevJoystickHIDReportBuffer report s2).
Proof.
  intros Hev. set (pins := respond (trace (async s1)) PINB).
  pose proof (evolves_rd PINB s1 eq_refl) as Hrd. fold pins in Hrd.
  pose proof (evolves_nil_l _ _ _ _ Hev Hrd) as Hev2.
  exists pins, (log (Rd PINB pins) (async s1)). split; [exact Hev2|]. split.
  { eapply recorded_suffix; [apply recorded_rd|exact (evolves_suffix _ _ _ Hev)|reflexivity]. }
  destruct (evolves_app_vars _ _ _ Hev) as [Hm Hy].
  cbv zeta. split; [rewrite CreateHIDReport_report; by rewrite Hm, Hy|].
  set (s2 := log _ _) in *. unfold save_report, bind at 1, get at 1.
  pose proof (joystick_stable_config _ _ _ Hev2) as Hcfg. cbn [load iface] in *. rewrite Hcfg, interface.
  destruct (evolves_State _ _ _ Hev2) as (_ & _ & Hb).
  cbn [PrevReportINBuffer HID_Config configured_interface Joystick_HID_Interface_init PrevReportINBufferSize].
  unfold bind, get, checked, memcpy. cbn [load store buffer_at]. rewrite Hb, buffer.
  change (length (bytes_of_report _)) with 32%nat. cbn [Z.of_nat Z.leb Z.compare andb ret put].
  change (sizeof_USB_JoystickReport_Data_t <=? _) with true. cbn [andb ret put].
  rewrite take_ge, drop_ge, app_nil_r by (rewrite ?buffer; vm_compute; lia). done.
Qed.

(** What has happened when the request is over. *)
Definition report_read (s' : st) : Prop :=
  exists pins l v l' v',
    let report := bytes_of_report (current_report (mask s) (saved s) pins) in
    recorded (Rd PINB pins) s s' /\
    evolves (out_ack v' ++ l' ++ setup_ack v ++ l) (set_PrevJoystickHIDReportBuffer report s) s' /\
    in_packets l = [] /\ delivered report W (Z.min 32 W) l'.

Lemma get_report_spec w s1 :
  evolves [Rd UEINTX w] s s1 -> answer (ep_trace (trace s)) UEINTX w ->
  wp (get_report iface) (fun _ => report_read) s1.
Proof.
  intros Hev Ha. destruct (host w Ha) as [_ Hreads].
  destruct (create_and_save _ s1 Hev) as (pins & s2 & Hev2 & Hrec & Hcreate & Hsave).
  set (report := bytes_of_report _) in *.
  unfold get_report. rewrite wp_bind, wp_get, wp_bind, wp_get, (evolves_ControlRequest _ _ _ Hev).
  fold req. rewrite unnumbered. change (u8 0) with 0.
  rewrite (joystick_stable_config _ _ _ Hev). cbn [load iface]. rewrite interface.
  change (Z.to_nat _) with 32%nat.
  rewrite wp_bind. unfold wp at 1. cbn [CALLBACK_HID_Device_CreateHIDReport joystick_hid]. rewrite Hcreate.
  rewrite wp_bind. unfold wp at 1. rewrite Hsave.
  pose proof (evolves_set_Prev _ report _ _ Hev2) as Hev3.
  rewrite wp_bind. unfold Endpoint_SelectEndpoint, wr, wp at 1. change (u8 _) with ENDPOINT_CONTROLEP.
  set (s4 := log (Wr UENUM ENDPOINT_CONTROLEP) _).
  pose proof (evolves_trans _ [_] _ _ _ Hev3 (evolves_log (Wr UENUM ENDPOINT_CONTROLEP) _ eq_refl)) as Hev4.
  fold s4 in Hev4. cbn [app] in Hev4. pose proof (evolves_trace _ _ _ Hev4) as Ht4. cbn [app] in Ht4.
  eapply wp_mono.
  2: { apply (control_read_spec (Endpoint_Write_Control_Stream_LE report 32) report 32 W K s4).
       - rewrite (evolves_ControlRequest _ _ _ Hev4). done.
       - intros v Hv. rewrite Ht4 in *. by apply Hreads.
       - intros s5 Hd5 HW5 Hh5. apply (Template_W_spec _ report) with (K := K); try done.
         + apply bytes_of_report_all.
         + intros i Hi. unfold load_byte. by destruct (Z.leb_spec 0 i); [|lia].
         + by rewrite Hd5, (evolves_DeviceState _ _ _ Hev4).
         + by rewrite Hd5, (evolves_DeviceState _ _ _ Hev4). }
  intros [] s' (v & l' & v' & Hev5 & Hd).
  exists pins, [Wr UENUM ENDPOINT_CONTROLEP; Rd UEINTX w], v, l', v'. split; [|split; [|split; [done|exact Hd]]].
  - eapply recorded_suffix; [exact Hrec|reflexivity|].
    etrans; [|exact (evolves_suffix _ _ _ Hev5)]. by exists [Wr UENUM ENDPOINT_CONTROLEP].
  - pose proof (evolves_trans _ _ _ _ _ Hev4 Hev5) as Hev6. rewrite <- !app_assoc in *. exact Hev6.
Qed.

(** C33: GET_REPORT sends the current report.  For an unnumbered report (the low byte
    of [wValue] is 0; with a report identifier there, the identifier would be sent
    first) and with a host that carries out the control read, the request handler terminates; the
    host has received the first bytes, as many as it asked for, of the 32-byte
    report built from the application's variables and the pins of port B as read
    during the request, and this report is remembered as the previous one, so that
    the HID task will not send it again.  No other variable changes. *)
Theorem GetReport_answers : wp (on_ControlRequest indet) (fun _ => report_read) s.
Proof.
  unfold on_ControlRequest, wp.
  assert (Hset : wp Endpoint_IsSETUPReceived (fun b s1 => b = true /\ exists w,
             evolves [Rd UEINTX w] s s1 /\ answer (ep_trace (trace s)) UEINTX w) s).
  { eapply at_test; [apply evolves_refl|done|]. intros w s1 Hev Ha. simpl in Ha.
    split; [apply (host w Ha)|]. by exists w. }
  apply wp_done in Hset as (b & s1 & Hrun & -> & w & Hev & Ha).
  assert (Hcfg : HID_Config (Joystick_HID_Interface s1) = HID_Config (Joystick_HID_Interface s))
    by exact (joystick_stable_config _ _ _ Hev).
  rewrite (dispatch indet REQDIR_DEVICETOHOST HID_REQ_GetReport s true s1 request).
  - exact (get_report_spec w s1 Hev Ha).
  - by left.
  - by rewrite Hcfg, interface.
  - done.
  - done.
  - exact (evolves_ControlRequest _ _ _ Hev).
Qed.
End GetReport.
