(* ===== verification/Firmware.v ===== *)
(** * The whole firmware

    The invariant of the program's variables, and the absence of undefined
    behaviour in [main] on arbitrary hardware with the USB interrupt taken at any
    volatile access. *)
From S2P Require Import Prelude Machine Rely Board StdDescriptors Descriptors HIDParser Endpoint ControlStream UsbController DeviceStandardReq EndpointStream HIDClass UsbInterrupt Safety Joystick.
Import LEDs Buttons JoystickBoard.

(** ** The invariant *)

(** A SET_REPORT request for the joystick interface announces a report of at
    least two bytes (after its number, if it has one), and the stack has room for
    it. *)
Definition report_length_ok (indet : bytes) (req : USB_Request_Header_t) : Prop :=
  bRequest req = HID_REQ_SetReport ->
  bmRequestType req = request_type REQDIR_HOSTTODEVICE REQTYPE_CLASS REQREC_INTERFACE ->
  wIndex req = INTERFACE_ID_Joystick ->
  2 + (if u8 (Z.land (wValue req) 0xFF) =? 0 then 0 else 1) <= wLength req <= Z.of_nat (length indet).

#[global] Instance report_length_ok_dec indet req : Decision (report_length_ok indet req).
Proof. unfold report_length_ok. apply _. Defined.

Record request_ok (indet : bytes) (req : USB_Request_Header_t) : Prop := {
  ro_type : is_u8 (bmRequestType req);
  ro_request : is_u8 (bRequest req);
  ro_value : is_u16 (wValue req);
  ro_index : is_u16 (wIndex req);
  ro_length : is_u16 (wLength req);
  ro_report : report_length_ok indet req
}.

Record hid_state_ok (t : HID_State_t) : Prop := {
  ho_frame : is_u16 (PrevFrameNum t);
  ho_count : is_u16 (IdleCount t);
  ho_remaining : is_u16 (IdleMSRemaining t)
}.

(** The configuration of the interface is its initialiser, but for the endpoint
    type that [HID_Device_ConfigureEndpoints] fills in. *)
Definition hid_config_ok (c : HID_Config_t) : Prop :=
  c = HID_Config Joystick_HID_Interface_init \/
  c = HID_Config (configured_interface Joystick_HID_Interface_init).

Record firmware_ok (indet : bytes) (s : st) : Prop := {
  fo_state : DEVICE_STATE_Unattached <= USB_DeviceState s <= DEVICE_STATE_Suspended;
  fo_configuration : 0 <= USB_Device_ConfigurationNumber s <= FIXED_NUM_CONFIGURATIONS;
  fo_request : request_ok indet (USB_ControlRequest s);
  fo_config : hid_config_ok (HID_Config (Joystick_HID_Interface s));
  fo_hid : hid_state_ok (HID_State (Joystick_HID_Interface s));
  fo_buffer : buffer_of 32 (PrevJoystickHIDReportBuffer s);
  fo_mask : mask s = 0xFF;
  fo_saved : is_u8 (saved s)
}.

(** The invariant while a request that satisfies [P] is being served. *)
Definition serving (indet : bytes) (P : USB_Request_Header_t -> Prop) (s : st) : Prop :=
  firmware_ok indet s /\ P (USB_ControlRequest s).
Abbreviation any_request := (fun _ : USB_Request_Header_t => True).

Section Invariant.
Context (indet : bytes) (P : USB_Request_Header_t -> Prop).

#[export] Instance serving_library : Library_Invariant (serving indet P).
Proof.
  constructor; try (intros x s Hx [[] ?]; by split); try (intros b s [[] ?]; by split).
  intros s [[] _]. by apply ro_length with indet.
Qed.

Lemma serving_log e s : serving indet P s -> serving indet P (log e s).
Proof. intros [[] ?]. by split. Qed.

Lemma serving_modify_State f s :
  (hid_state_ok (HID_State (Joystick_HID_Interface s)) ->
   hid_state_ok (f (HID_State (Joystick_HID_Interface s)))) ->
  serving indet P s -> serving indet P (modify_State Joystick_HID_Interface_addr f s).
Proof. intros Hf [[] ?]. split; [constructor|]; try done. by apply Hf. Qed.

Lemma serving_buffer b s :
  buffer_of 32 b -> serving indet P s -> serving indet P (set_PrevJoystickHIDReportBuffer b s).
Proof. intros Hb [[] ?]. by split. Qed.

Lemma serving_saved v s : is_u8 v -> serving indet P s -> serving indet P (set_saved v s).
Proof. intros Hv [[] ?]. by split. Qed.

Lemma serving_configured s :
  serving indet P s ->
  serving indet P (set_Joystick_HID_Interface (configured_interface (Joystick_HID_Interface s)) s).
Proof.
  intros [[] ?]. split; [constructor|]; try done; cbn.
  right. unfold configured_interface. cbn. by destruct fo_config0 as [-> | ->].
Qed.
End Invariant.

(** ** The application's code *)

(** What is known of the result of the report callback. *)
Definition report_result (r : bool * Z * bytes * Z) : Prop :=
  let '(_, id, data, size) := r in is_u8 id /\ buffer_of 32 data /\ size = 32.

Section Application.
Context `{Env} (indet : bytes) (P : USB_Request_Header_t -> Prop).
Abbreviation I := (serving indet P).
Context `{!Stable I}.
Hypothesis data_register : forall t, is_u8 (respond t UEDATX).

Lemma safe_config :
  safe I (get (fun s => HID_Config (load Joystick_HID_Interface_addr s))) hid_config_ok.
Proof. eapply safe_mono; [|apply safe_get]. intros c (s & [[] _] & ->). done. Qed.

Lemma config_size c : hid_config_ok c -> PrevReportINBufferSize c = 32.
Proof. by intros [-> | ->]. Qed.
Lemma config_buffer c :
  hid_config_ok c -> PrevReportINBuffer c = Some PrevJoystickHIDReportBuffer_addr.
Proof. by intros [-> | ->]. Qed.

(** An access that is in bounds. *)
Lemma safe_checked {A B} (o : option A) (k : A -> M B) (R : A -> Prop) R' :
  (exists a, o = Some a /\ R a) -> (forall a, R a -> safe I (k a) R') -> safe I (bind (checked o) k) R'.
Proof. intros (a & -> & Ha) Hk. exact (Hk a Ha). Qed.

Lemma store_field_ok N data off n x :
  buffer_of N data -> Z.of_nat (off + n) <= N ->
  exists data', store_field data off n x = Some data' /\ buffer_of N data'.
Proof.
  intros [Hall Hlen] Hfit. unfold store_field.
  destruct (Nat.leb_spec (off + n) (length data)); [|lia]. eexists. split; [done|]. split.
  - apply Forall_app. split; [by apply Forall_take|].
    apply Forall_app. split; [apply le_bytes_all|by apply Forall_drop].
  - rewrite !length_app, length_take, length_le_bytes, length_drop. lia.
Qed.

Lemma memcpy_ok data old :
  buffer_of 32 old -> buffer_of 32 data -> exists new, memcpy old data 32 = Some new /\ buffer_of 32 new.
Proof.
  intros [Ho Hlo] [Hd Hld]. unfold memcpy. rewrite Hlo, Hld. eexists. split; [done|]. split.
  - apply Forall_app. split; [by apply Forall_take|by apply Forall_drop].
  - rewrite length_app, length_take, length_drop. lia.
Qed.

Lemma zero_buffer : buffer_of 32 (replicate 32 0).
Proof. split; [|done]. by apply Forall_replicate. Qed.

Lemma safe_CreateHIDReport id ty :
  is_u8 id -> safe I (CreateHIDReport Joystick_HID_Interface_addr id ty (replicate 32 0)) report_result.
Proof.
  intros Hid. unfold CreateHIDReport. safe_step.
  eapply safe_checked; [apply (store_field_ok 32); [apply zero_buffer|lia]|]. intros d1 H1. safe_step.
  eapply safe_checked; [apply (store_field_ok 32); [exact H1|lia]|]. intros d2 H2. safe_step.
  eapply safe_checked; [apply (store_field_ok 32); [exact H2|lia]|]. intros d3 H3.
  by apply safe_ret.
Qed.

Lemma safe_buffer :
  safe I (get (load (buffer_at PrevJoystickHIDReportBuffer_addr))) (buffer_of 32).
Proof. eapply safe_mono; [|apply safe_get]. intros b (s & [[] _] & ->). done. Qed.

Lemma runs_save_report data : buffer_of 32 data -> runs_safely I (save_report Joystick_HID_Interface_addr data).
Proof.
  intros Hd. unfold save_report. eapply safe_bind; [apply safe_config|]. intros c Hc.
  rewrite (config_buffer c Hc), (config_size c Hc).
  eapply safe_bind; [apply safe_buffer|]. intros old Ho.
  eapply safe_checked; [by apply memcpy_ok|]. intros new Hn.
  apply safe_put. intros s. by apply serving_buffer.
Qed.

Lemma inv_wLength : forall s, I s -> is_u16 (wLength (USB_ControlRequest s)).
Proof. apply inv_length. Qed.

Lemma runs_get_report : runs_safely I (get_report Joystick_HID_Interface_addr).
Proof.
  unfold get_report. apply runs_seq; [safely|]. intros req.
  eapply safe_bind; [apply safe_config|]. intros c Hc. rewrite (config_size c Hc).
  eapply safe_bind; [apply safe_CreateHIDReport; by apply wrap_fits|].
  intros [[[force id] data] size] (Hid & Hd & ->).
  apply runs_seq; [by apply runs_save_report|]. intros _. do 3 (apply runs_seq; [safely|intros _]).
  apply runs_seq; [|safely]. apply runs_Control_W; [done| |done|exact inv_wLength].
  intros p. apply load_byte_readable. by destruct Hd as [_ ->].
Qed.

Lemma runs_ProcessHIDReport id ty data size :
  all_bytes data -> (2 <= length data)%nat ->
  runs_safely I (ProcessHIDReport Joystick_HID_Interface_addr id ty data size).
Proof.
  intros Hall Hlen. unfold ProcessHIDReport.
  assert (Hb : exists v, load_byte data 1 = Some v /\ is_u8 v).
  { unfold load_byte. cbn [Z.leb Z.compare]. destruct (lookup_lt_is_Some_2 data 1) as [v Hv]; [lia|].
    exists v. split; [done|]. by eapply Forall_lookup_1. }
  eapply safe_checked; [exact Hb|]. intros v Hv.
  apply runs_seq; [apply safe_put; intros s; by apply serving_saved|]. intros _.
  eapply safe_checked; [exact Hb|]. intros w _. safely.
Qed.

Lemma runs_modify_State f :
  (forall t, hid_state_ok t -> hid_state_ok (f t)) ->
  runs_safely I (put (modify_State Joystick_HID_Interface_addr f)).
Proof. intros Hf. apply safe_put. intros s. apply serving_modify_State, Hf. Qed.

Lemma safe_request : safe I (get USB_ControlRequest) (request_ok indet).
Proof. eapply safe_mono; [|apply safe_get]. intros r (s & [[] _] & ->). done. Qed.

Lemma runs_get_protocol : runs_safely I (get_protocol Joystick_HID_Interface_addr).
Proof. unfold get_protocol. safely. Qed.

Lemma runs_get_idle : runs_safely I (get_idle Joystick_HID_Interface_addr).
Proof. unfold get_idle. safely. Qed.

Lemma runs_set_protocol : runs_safely I (set_protocol Joystick_HID_Interface_addr).
Proof.
  unfold set_protocol. do 3 (apply runs_seq; [safely|intros ?]).
  apply runs_modify_State. intros t []. by constructor.
Qed.

Lemma runs_set_idle : runs_safely I (set_idle Joystick_HID_Interface_addr).
Proof.
  unfold set_idle. do 2 (apply runs_seq; [safely|intros ?]).
  eapply safe_bind; [apply safe_request|]. intros req Hreq.
  apply runs_modify_State. intros t []. constructor; [done| |done].
  apply fits_shiftr; [lia|]. apply fits_land; [lia|]. apply (ro_value _ _ Hreq).
Qed.

Lemma runs_ConfigurationChanged : runs_safely I on_ConfigurationChanged.
Proof.
  unfold on_ConfigurationChanged, HID_Device_ConfigureEndpoints, LEDs_SetAllLEDs.
  apply runs_seq; [|safely]. apply runs_seq; [|safely].
  apply safe_put. intros s. apply serving_configured.
Qed.

Lemma runs_StartOfFrame : runs_safely I on_StartOfFrame.
Proof.
  unfold on_StartOfFrame, HID_Device_MillisecondElapsed. eapply safe_bind; [apply safe_get|].
  intros r (s & [[] _] & ->). cbn [load Joystick_HID_Interface_addr].
  destruct (Z.eqb_spec (IdleMSRemaining (HID_State (Joystick_HID_Interface s))) 0); cbn [negb when];
    [safely|].
  apply runs_modify_State. intros t [? ? _]. constructor; [done|done|]. cbn.
  destruct fo_hid0 as [_ _ [? ?]]. unfold fits. lia.
Qed.

(** The task, given that the control requests served while it waits are safe. *)
Section Task.
Context `{USB_Application}.
Hypothesis frame_register : forall t, is_u16 (respond t UDFNUM).
Hypothesis control_task : runs_safely I USB_USBTask.

Lemma runs_states_changed data :
  buffer_of 32 data -> runs_safely I (states_changed Joystick_HID_Interface_addr data 32).
Proof.
  intros Hd. unfold states_changed. eapply safe_bind; [apply safe_config|]. intros c Hc.
  rewrite (config_buffer c Hc), (config_size c Hc).
  eapply safe_bind; [apply safe_buffer|]. intros old Ho.
  eapply (safe_checked _ _ (fun _ => True)).
  { unfold memcmp_differ. rewrite (proj2 Hd), (proj2 Ho). by eexists. }
  intros b _. eapply safe_checked; [by apply memcpy_ok|]. intros new Hn.
  apply runs_seq; [|safely]. apply safe_put. intros s. by apply serving_buffer.
Qed.

Lemma runs_send_report id data :
  buffer_of 32 data -> runs_safely I (send_report Joystick_HID_Interface_addr id data 32).
Proof.
  intros Hd. unfold send_report. apply runs_seq; [safely|]. intros c.
  eapply safe_bind; [apply safe_get|]. intros n (s & [[] _] & ->).
  apply runs_seq.
  { apply runs_modify_State. intros t []. constructor; [done|done|]. cbn.
    apply (ho_count _ fo_hid0). }
  intros _. do 2 (apply runs_seq; [safely|intros _]). apply runs_seq; [|safely].
  apply runs_Write_Stream; [done| |done|done]. intros p. apply load_byte_readable.
  by rewrite (proj2 Hd).
Qed.

Lemma runs_create_and_send c :
  hid_config_ok c -> runs_safely I (create_and_send Joystick_HID_Interface_addr c).
Proof.
  intros Hc. unfold create_and_send. rewrite (config_size c Hc).
  eapply safe_bind; [by apply safe_CreateHIDReport|].
  intros [[[force id] data] size] (Hid & Hd & ->).
  apply runs_seq; [safely|]. intros t.
  apply runs_seq; [by apply runs_states_changed|]. intros changed.
  apply runs_seq; [apply runs_when; by apply runs_send_report|]. intros _.
  eapply safe_bind; [by apply safe_rd|]. intros frame (tr & ->).
  apply runs_modify_State. intros t' []. constructor; [apply frame_register|done|done].
Qed.

Lemma runs_USBTask_HID : runs_safely I (HID_Device_USBTask Joystick_HID_Interface_addr).
Proof.
  unfold HID_Device_USBTask. apply runs_seq; [safely|]. intros d.
  destruct (negb _); [safely|]. do 2 (apply runs_seq; [safely|intros ?]).
  destruct (_ && _); [safely|]. eapply safe_bind; [apply safe_config|]. intros c Hc.
  do 2 (apply runs_seq; [safely|intros ?]). destruct (_ : bool); [by apply runs_create_and_send|safely].
Qed.
End Task.
End Application.

(** ** SET_REPORT *)

Section SetReport.
Context `{Env} (indet : bytes) (req : USB_Request_Header_t).
Abbreviation I := (serving indet (eq req)).
Context `{!Stable I}.
Hypothesis data_register : forall t, is_u8 (respond t UEDATX).
Hypothesis stack : all_bytes indet.

Lemma safe_this_request : safe I (get USB_ControlRequest) (eq req).
Proof. eapply safe_mono; [|apply safe_get]. by intros r (s & [_ ?] & ->). Qed.

Lemma safe_receive_report :
  is_u16 (wLength req) -> wLength req <= Z.of_nat (length indet) ->
  safe I (receive_report indet) (buffer_of (wLength req)).
Proof.
  intros Hw Hroom. unfold receive_report.
  eapply safe_bind; [apply safe_this_request|]. intros ? <-. safe_step.
  eapply safe_bind.
  - apply (safe_Control_R I data_register _ (wLength req)); [|done]. split; [by apply Forall_take|].
    rewrite length_take. destruct Hw. lia.
  - intros [code data] Hd. safe_step. by apply safe_ret.
Qed.

Lemma runs_set_report :
  is_u16 (wLength req) ->
  2 + (if u8 (Z.land (wValue req) 0xFF) =? 0 then 0 else 1) <= wLength req <= Z.of_nat (length indet) ->
  runs_safely I (set_report Joystick_HID_Interface_addr indet).
Proof.
  intros Hw Hlen. unfold set_report.
  eapply safe_bind; [apply safe_this_request|]. intros ? <-.
  eapply safe_bind; [apply safe_receive_report; [done|lia]|]. intros data [Hall Hsize].
  apply runs_ProcessHIDReport; [done|by apply Forall_drop|]. rewrite length_drop. destruct (_ =? 0); lia.
Qed.

(** The class driver serves the requests of the interface. *)
Lemma runs_ControlRequest :
  request_ok indet req -> runs_safely I (on_ControlRequest indet).
Proof.
  intros [_ _ _ _ Hw Hreport]. unfold on_ControlRequest, HID_Device_ProcessControlRequest.
  apply runs_seq; [safely|]. intros b. destruct (negb b); [safely|].
  eapply safe_bind; [apply safe_this_request|]. intros ? <-.
  eapply safe_bind; [apply safe_config|]. intros c Hc.
  assert (InterfaceNumber c = INTERFACE_ID_Joystick) as -> by (by destruct Hc as [-> | ->]).
  destruct (Z.eqb_spec (wIndex req) INTERFACE_ID_Joystick) as [Hi|]; cbn [negb]; [|safely]. cbv zeta.
  pose proof (runs_get_report indet (eq req)). pose proof (runs_get_protocol indet (eq req)).
  pose proof (runs_set_protocol indet (eq req)). pose proof (runs_set_idle indet (eq req)).
  pose proof (runs_get_idle indet (eq req)).
  destruct (_ =? HID_REQ_GetReport); [safely|].
  destruct (Z.eqb_spec (bRequest req) HID_REQ_SetReport) as [Hr|_]; [|safely].
  destruct (Z.eqb_spec (bmRequestType req) (request_type REQDIR_HOSTTODEVICE REQTYPE_CLASS REQREC_INTERFACE))
    as [Ht|_]; cbn [when]; [|safely].
  apply runs_set_report; auto.
Qed.
End SetReport.

(** ** The machine with interrupts *)

Section Main.
Context (E : Env) (HE : Masked) (indet : bytes).

(** The hardware [E], interrupted by [USB_GEN_vect] with the handlers of the
    application. *)
Definition avr : Env := interrupted E (joystick_app (H := E) indet).

#[local] Instance masked_stable P : Stable (H := E) (serving indet P).
Proof. constructor; [apply serving_log|]. intros s Hs. by rewrite masked. Qed.

Lemma bus_events_safe P : Bus_Event_Safety (H := joystick_app (H := E) indet) (serving indet P).
Proof.
  constructor; cbn; unfold on_Connect, on_Disconnect, LEDs_SetAllLEDs; try safely.
  by apply runs_StartOfFrame.
Qed.

#[local] Instance avr_stable P : Stable (H := avr) (serving indet P).
Proof. apply interrupted_stable; [apply _|apply _|apply bus_events_safe]. Qed.

Hypothesis data_register : forall t, is_u8 (respond t UEDATX).
Hypothesis frame_register : forall t, is_u16 (respond t UDFNUM).
Hypothesis stack : all_bytes indet.
Hypothesis reports : forall s b s', read_setup (H := avr) 8 s = Done b s' ->
  report_length_ok indet (request_of_bytes b).

Lemma safe_read_setup I `{!Stable (H := avr) I} n :
  safe I (read_setup (H := avr) n) (fun b => all_bytes b).
Proof.
  induction n as [|n IH]; cbn [read_setup]; [by apply safe_ret, Forall_nil|].
  eapply safe_bind; [by apply (safe_rd (H := avr))|]. intros v (t & ->).
  eapply safe_bind; [exact IH|]. intros b Hb. apply safe_ret. constructor; [apply data_register|done].
Qed.

Lemma request_of_bytes_ok b :
  all_bytes b -> report_length_ok indet (request_of_bytes b) -> request_ok indet (request_of_bytes b).
Proof.
  intros Hall Hr. assert (Hn : forall i, is_u8 (nth i b 0)).
  { clear Hr. induction Hall as [|x l Hx Hl IH]; intros [|i]; [by vm_compute|by vm_compute|exact Hx|by apply IH]. }
  assert (Hw : forall i j, is_u16 (le_val [nth i b 0; nth j b 0])).
  { intros i j. apply (le_val_fits [nth i b 0; nth j b 0]). constructor; [done|]. by constructor. }
  constructor; cbn [request_of_bytes bmRequestType bRequest wValue wIndex wLength]; auto.
Qed.

Lemma safe_setup :
  safe (serving indet any_request) (read_setup (H := avr) 8) (fun b => forall s,
    serving indet any_request s ->
    serving indet any_request (set_USB_ControlRequest (request_of_bytes b) s)).
Proof.
  intros s Hs. pose proof (safe_read_setup (serving indet any_request) 8 s Hs) as Hrun.
  unfold wlp in *. destruct (read_setup 8 s) as [b s'| |] eqn:E1; [|done|done].
  destruct Hrun as [Hs' Hb]. split; [done|]. intros s2 [[] _]. split; [|done].
  constructor; try done. apply request_of_bytes_ok; [done|]. by eapply reports.
Qed.

(** Code that is safe whichever request is being served. *)
Lemma runs_any_request (m : M unit) :
  (forall req, request_ok indet req -> runs_safely (serving indet (eq req)) m) ->
  runs_safely (serving indet any_request) m.
Proof.
  intros Hm s [Hs _]. eapply wlp_mono; [|apply (Hm (USB_ControlRequest s)); [apply Hs|by split]].
  intros [] s' [[? _] _]. split; [by split|done].
Qed.

Lemma runs_USB_USBTask :
  runs_safely (serving indet any_request) (USB_USBTask (H := avr) (H0 := joystick_app (H := avr) indet)).
Proof.
  apply runs_USBTask; try apply _.
  - apply (runs_ConfigurationChanged (H := avr)), _.
  - apply safe_setup.
  - apply runs_any_request. intros req Hreq. by apply (runs_ControlRequest (H := avr)); [apply _|..].
Qed.

Lemma runs_main_round : runs_safely (serving indet any_request) (main_round (H := avr) indet).
Proof.
  apply runs_seq; [|intros _; apply runs_USB_USBTask].
  apply runs_USBTask_HID; [apply _|done|apply runs_USB_USBTask].
Qed.

Lemma runs_main n : runs_safely (serving indet any_request) (main (H := avr) indet n).
Proof.
  apply runs_seq.
  - unfold main_start, SetupHardware, Joystick_Init, LEDs_Init, Buttons_Init, LEDs_SetAllLEDs.
    pose proof (runs_USB_Init (H := avr) (serving indet any_request)). safely.
  - intros _. induction n as [|n IH]; cbn [main_rounds]; [safely|].
    apply runs_seq; [apply runs_main_round|intros _; exact IH].
Qed.

Lemma reset_ok : firmware_ok indet reset_state.
Proof.
  constructor; cbn.
  - device_state.
  - device_state.
  - by constructor; vm_compute.
  - by left.
  - by constructor; vm_compute.
  - apply zero_buffer.
  - done.
  - by vm_compute.
Qed.

(** C4: the firmware has no undefined behaviour.  On any hardware, interrupted by
    the USB interrupt at any volatile access, neither [main] (for any number of
    rounds of its loop) nor the interrupt handler reads or writes outside of an
    object, and wherever [main] gets the invariant [firmware_ok] holds.  The
    hardware is constrained by the width of its registers only, and the host by
    the length of its SET_REPORT requests ([SetReport_short_undefined] shows that
    this is needed). *)
Theorem firmware_safe n :
  wlp (main (H := avr) indet n) (fun _ s' => firmware_ok indet s') reset_state /\
  forall s, firmware_ok indet s -> USB_GEN_vect (H := E) (H0 := joystick_app (H := E) indet) s <> Undefined.
Proof.
  split.
  - eapply wlp_mono; [|apply runs_main; split; [apply reset_ok|done]]. by intros [] s' [[? _] _].
  - intros s Hs.
    pose proof (runs_USB_GEN_vect (App := joystick_app (H := E) indet) (serving indet any_request)
                  (Bus_Event_Safety0 := bus_events_safe any_request) s (conj Hs I)) as Hrun.
    unfold wlp in Hrun. by intros Hu; rewrite Hu in Hrun.
Qed.

End Main.

(** ** The boot sequence

    The accesses that configure the device: all writes, the timed sequences, and
    the reads of UESTA0X, where the hardware accepts or rejects the configuration
    of an endpoint. *)
Definition configures (e : event) : bool :=
  match e with Rd UESTA0X _ => true | Rd _ _ => false | _ => true end.
Definition device_accesses (t : list event) : list event := filter (fun e => Is_true (configures e)) t.

(** Descriptions of a part of the accesses, oldest first. *)
Definition segment : Type := list event -> Prop.
Definition exactly (e : event) : segment := eq [e].
Definition sets (r : reg) (n : Z) : segment := fun l => exists v, l = [Wr r (set_bit v n)].
Definition clears (r : reg) (n : Z) : segment := fun l => exists v, l = [Wr r (clear_bits v (bit n))].

(** The accesses [l] are the parts [ps], one after the other. *)
Fixpoint follows (ps : list segment) (l : list event) : Prop :=
  match ps with
  | [] => l = []
  | p :: ps => exists l1 l2, l = l1 ++ l2 /\ p l1 /\ follows ps l2
  end.

(** The accesses that set endpoint [k] up: it is selected and disabled, its memory
    freed, and it is enabled and configured again; [v] is the status read at the
    end. *)
Definition endpoint_set_up (k c0 c1 ien a b d v : Z) : list event :=
  [Wr UENUM k; Wr UECONX (clear_bits a (bit EPEN)); Wr UECFG1X (clear_bits b (bit ALLOC));
   Wr UECONX (set_bit d EPEN); Wr UECFG0X c0; Wr UECFG1X c1; Wr UEIENX ien; Rd UESTA0X v].

(** The endpoints from [k] on, whose memory moves: those in use are set up again, up
    to the first that the hardware does not accept. *)
Inductive endpoints_again : Z -> bool -> segment :=
  | again_done : endpoints_again ENDPOINT_TOTAL_ENDPOINTS true []
  | again_unused k ok l : endpoints_again (k + 1) ok l -> endpoints_again k ok (Wr UENUM k :: l)
  | again_accepted k ok l c0 c1 ien a b d v :
      has_bit v CFGOK = true -> endpoints_again (k + 1) ok l ->
      endpoints_again k ok (endpoint_set_up k c0 c1 ien a b d v ++ l)
  | again_rejected k c0 c1 ien a b d v :
      has_bit v CFGOK = false -> endpoints_again k false (endpoint_set_up k c0 c1 ien a b d v).

(** Endpoint 0 is set up as a control endpoint with one bank of 8 bytes.  When the
    hardware accepts it the others follow, and when it accepts them all endpoint 0
    is selected. *)
Definition control_endpoint : segment := fun l => exists a b d v,
  if has_bit v CFGOK then exists ok l', endpoints_again 1 ok l' /\
    l = endpoint_set_up 0 0 (bit ALLOC) 0 a b d v ++ l' ++ (if ok then [Wr UENUM 0] else [])
  else l = endpoint_set_up 0 0 (bit ALLOC) 0 a b d v.

(** [performs f ps m]: [m] terminates, changes the variables by [f], and its
    accesses that configure the device are, in order, those [ps] describes. *)
Definition performs {A} (f : st -> st) (ps : list segment) (m : M A) : Prop := forall s,
  wp m (fun _ s' => core s' = f (core s) /\ exists l,
    device_accesses (trace s') = l ++ device_accesses (trace s) /\ follows ps (rev l)) s.

Lemma device_accesses_cons e t :
  device_accesses (e :: t) = if configures e then e :: device_accesses t else device_accesses t.
Proof. unfold device_accesses. rewrite filter_cons. by destruct (configures e). Qed.

Lemma follows_app ps qs l l' : follows ps l -> follows qs l' -> follows (ps ++ qs) (l ++ l').
Proof.
  revert l. induction ps as [|p ps IH]; intros l; cbn [follows app]; [by intros ->|].
  intros (l1 & l2 & -> & Hp & Hf) Hq. exists l1, (l2 ++ l'). rewrite app_assoc. auto.
Qed.

Lemma follows_one (p : segment) l : p l -> follows [p] l.
Proof. intros Hp. exists l, []. by rewrite app_nil_r. Qed.

Section Performs.
Context `{Masked}.

(** [so_far s0 l s]: since [s0] the accesses [l] were made, oldest first, and no
    variable was changed. *)
Definition so_far (s0 : st) (l : list event) (s : st) : Prop :=
  core s = core s0 /\ device_accesses (trace s) = rev l ++ device_accesses (trace s0).

Lemma so_far_refl s : so_far s [] s.
Proof. done. Qed.

Lemma so_far_log s0 l s e :
  configures e = true -> so_far s0 l s -> so_far s0 (l ++ [e]) (log e s).
Proof.
  intros He [Hc Ht]. split; [done|]. cbn [trace log set_trace]. rewrite device_accesses_cons, He, Ht.
  by rewrite rev_app_distr.
Qed.

Lemma sf_rd s0 l s r Q :
  r <> UESTA0X -> so_far s0 l s -> (forall v s', so_far s0 l s' -> Q v s') -> wp (rd r) Q s.
Proof.
  intros Hr [Hc Ht] HQ. unfold rd, wp. rewrite masked. apply HQ. split; [done|]. cbn [trace log set_trace].
  rewrite device_accesses_cons. by destruct r.
Qed.

Lemma sf_wr s0 l s r v Q :
  so_far s0 l s -> (forall s', so_far s0 (l ++ [Wr r (u8 v)]) s' -> Q tt s') -> wp (wr r v) Q s.
Proof. intros Hs HQ. unfold wr, wp. apply HQ. by apply so_far_log. Qed.

Lemma sf_update s0 l s r (f : Z -> Z) Q :
  r <> UESTA0X -> so_far s0 l s -> (forall v s', so_far s0 (l ++ [Wr r (u8 (f v))]) s' -> Q tt s') ->
  wp (v ← rd r; wr r (f v)) Q s.
Proof.
  intros Hr Hs HQ. rewrite wp_bind. eapply sf_rd; [done|exact Hs|]. intros v s1 Hs1.
  eapply sf_wr; [exact Hs1|]. apply HQ.
Qed.

Lemma sf_status s0 l s n Q :
  so_far s0 l s -> (forall v s', so_far s0 (l ++ [Rd UESTA0X v]) s' -> Q (has_bit v n) s') ->
  wp (reg_test UESTA0X n) Q s.
Proof.
  intros Hs HQ. unfold reg_test, rd, bind, wp. rewrite masked. cbn [ret]. apply HQ. by apply so_far_log.
Qed.

Lemma performs_so_far {A} ps (m : M A) :
  (forall s, wp m (fun _ s' => exists l, so_far s l s' /\ follows ps l) s) -> performs id ps m.
Proof.
  intros Hm s. eapply wp_mono; [|apply Hm]. intros a s' (l & [Hc Ht] & Hf). split; [done|]. exists (rev l).
  by rewrite rev_involutive.
Qed.

Lemma performs_bind {A B} f g ps qs (m : M A) (k : A -> M B) :
  performs f ps m -> (forall a, performs g qs (k a)) -> performs (g ∘ f) (ps ++ qs) (bind m k).
Proof.
  intros Hm Hk s. rewrite wp_bind. eapply wp_mono; [|apply Hm]. intros a s1 (Hc & l & Hl & Hp).
  eapply wp_mono; [|apply Hk]. intros b s2 (Hc2 & l2 & Hl2 & Hp2).
  split; [by rewrite Hc2, Hc|]. exists (l2 ++ l). split; [by rewrite Hl2, Hl, app_assoc|].
  rewrite rev_app_distr. by apply follows_app.
Qed.

Lemma performs_put f :
  (forall s, core (f s) = f (core s) /\ trace (f s) = trace s) -> performs f [] (put f).
Proof. intros Hf s. destruct (Hf s) as [Hc Ht]. split; [done|]. exists []. by rewrite Ht. Qed.

Lemma performs_ret {A} (a : A) : performs id [] (ret a).
Proof. intros s. split; [done|]. by exists []. Qed.

Lemma performs_wr r v : performs id [exactly (Wr r (u8 v))] (wr r v).
Proof.
  apply performs_so_far. intros s. eapply sf_wr; [apply so_far_refl|]. intros s' Hs. eexists. split; [exact Hs|].
  by apply follows_one.
Qed.
Lemma performs_emit e : configures e = true -> performs id [exactly e] (emit e).
Proof.
  intros He. apply performs_so_far. intros s. unfold emit, wp. exists [e].
  by split; [apply (so_far_log s [])|apply follows_one].
Qed.

(** [r |= (1 << n)] and [r &= ~(1 << n)] *)
Lemma performs_set r n : r <> UESTA0X -> performs id [sets r n] (reg_set r n).
Proof.
  intros Hr. apply performs_so_far. intros s. eapply sf_update; [done|apply so_far_refl|]. intros v s' Hs.
  eexists. split; [exact Hs|]. apply follows_one. exists v. unfold set_bit. by rewrite wrap_wrap.
Qed.
Lemma performs_clear r n : r <> UESTA0X -> performs id [clears r n] (reg_clear r (bit n)).
Proof.
  intros Hr. apply performs_so_far. intros s. eapply sf_update; [done|apply so_far_refl|]. intros v s' Hs.
  eexists. split; [exact Hs|]. apply follows_one. exists v. unfold clear_bits. by rewrite wrap_wrap.
Qed.

(** Setting the selected endpoint up, up to the test of its status. *)
Lemma endpoint_set_up_spec s0 l s k c0 c1 ien (kont : bool -> M bool) Q :
  so_far s0 (l ++ [Wr UENUM k]) s ->
  (forall a b d v s', so_far s0 (l ++ endpoint_set_up k (u8 c0) (u8 c1) (u8 ien) a b d v) s' ->
     wp (kont (has_bit v CFGOK)) Q s') ->
  wp (Endpoint_DisableEndpoint ;; reg_clear UECFG1X (bit ALLOC) ;; Endpoint_EnableEndpoint ;;
      wr UECFG0X c0 ;; wr UECFG1X c1 ;; wr UEIENX ien ;; ok ← Endpoint_IsConfigured; kont ok) Q s.
Proof.
  intros Hs HQ.
  do 3 (rewrite wp_bind; eapply sf_update; [done|exact Hs|]; clear Hs; intros ? ? Hs).
  do 3 (rewrite wp_bind; eapply sf_wr; [exact Hs|]; clear Hs; intros ? Hs).
  rewrite wp_bind. eapply sf_status; [exact Hs|]. clear Hs. intros w sw Hs. rewrite <- !app_assoc in Hs.
  cbn [app] in Hs. unfold clear_bits, set_bit in Hs. rewrite !wrap_wrap in Hs. eapply HQ. exact Hs.
Qed.

Lemma configure_again n c0 c1 : forall k s0 l s,
  0 < k -> k + Z.of_nat n = ENDPOINT_TOTAL_ENDPOINTS -> so_far s0 l s ->
  wp (configure_from n k 0 c0 c1) (fun ok s' => exists l', so_far s0 (l ++ l') s' /\ endpoints_again k ok l') s.
Proof.
  induction n as [|n IH]; intros k s0 l s Hk Hn Hs; cbn [configure_from].
  { rewrite wp_ret. exists []. rewrite app_nil_r. split; [done|].
    replace k with ENDPOINT_TOTAL_ENDPOINTS by lia. constructor. }
  assert (Hsel : u8 (Z.land k ENDPOINT_EPNUM_MASK) = k).
  { unfold ENDPOINT_TOTAL_ENDPOINTS in *.
    assert (k = 1 \/ k = 2 \/ k = 3 \/ k = 4 \/ k = 5 \/ k = 6) as Hc by lia.
    by destruct Hc as [->|[->|[->|[->|[->| ->]]]]]. }
  rewrite wp_bind. unfold Endpoint_SelectEndpoint. eapply sf_wr; [exact Hs|]. clear Hs. intros s1 Hs. rewrite Hsel in Hs.
  rewrite (proj2 (Z.eqb_neq k 0)) by lia. rewrite !wp_bind.
  do 3 (rewrite ?wp_bind; eapply sf_rd; [done|exact Hs|]; clear Hs; intros ?c ?sx Hs). rewrite wp_ret.
  destruct (negb _).
  - eapply wp_mono; [|apply (IH (k + 1)); [lia|lia|exact Hs]]. intros ok s2 (l2 & Hs2 & Ha).
    exists (Wr UENUM k :: l2). rewrite <- app_assoc in Hs2. by split; [|constructor].
  - eapply endpoint_set_up_spec; [exact Hs|]. intros a b d v s2 Hs2. destruct (has_bit v CFGOK) eqn:Hv; cbn [negb].
    + eapply wp_mono; [|apply (IH (k + 1)); [lia|lia|exact Hs2]]. intros ok s3 (l3 & Hs3 & Ha).
      eexists. rewrite <- app_assoc in Hs3. split; [exact Hs3|]. by constructor.
    + rewrite wp_ret. eexists. split; [exact Hs2|]. by constructor.
Qed.

Lemma performs_ControlEndpoint :
  performs id [control_endpoint] (Endpoint_ConfigureEndpoint ENDPOINT_CONTROLEP EP_TYPE_CONTROL
                                    USB_Device_ControlEndpointSize 1).
Proof.
  apply performs_so_far. intros s. unfold Endpoint_ConfigureEndpoint, Endpoint_ConfigureEndpoint_Prv.
  change (ENDPOINT_TOTAL_ENDPOINTS <=? _) with false. cbv iota. rewrite wp_bind. unfold wp at 1.
  change (Endpoint_BytesToEPSizeMask USB_Device_ControlEndpointSize s) with (Done 0 s). cbv iota.
  change (Z.land ENDPOINT_CONTROLEP ENDPOINT_EPNUM_MASK) with 0.
  change (Z.to_nat (ENDPOINT_TOTAL_ENDPOINTS - 0)) with (S 6).
  pose proof (fun c0 c1 => configure_again 6 c0 c1 1 s) as Hagain.
  change (Z.of_nat 6) with 6 in Hagain. revert Hagain. generalize 6%nat. intros n Hagain.
  rewrite wp_bind. cbn [configure_from].
  rewrite wp_bind. unfold Endpoint_SelectEndpoint at 1. eapply sf_wr; [apply so_far_refl|]. intros s1 Hs.
  change (0 =? 0) with true. cbv iota. rewrite wp_bind, wp_ret.
  change (has_bit _ ALLOC) with true. cbn [negb].
  eapply (endpoint_set_up_spec s []); [exact Hs|]. intros a b d v s2 Hs2. cbn [app] in Hs2.
  destruct (has_bit v CFGOK) eqn:Hv; cbn [negb].
  - eapply wp_mono; [|apply Hagain; [done|done|exact Hs2]]. intros ok s3 (l3 & Hs3 & Ha). destruct ok.
    + rewrite wp_bind. eapply sf_wr; [exact Hs3|]. intros s4 Hs4. rewrite wp_ret. eexists. split; [exact Hs4|].
      apply follows_one. exists a, b, d, v. rewrite Hv. exists true, l3. split; [done|]. by rewrite <- app_assoc.
    + rewrite wp_ret. eexists. split; [exact Hs3|]. apply follows_one. exists a, b, d, v. rewrite Hv.
      exists false, l3. split; [done|]. by rewrite app_nil_r.
  - rewrite !wp_ret. eexists. split; [exact Hs2|]. apply follows_one. exists a, b, d, v. by rewrite Hv.
Qed.

(** Following a sequence of statements. *)
Lemma performs_cons {A B} f p ps (m : M A) (k : A -> M B) :
  performs id [p] m -> (forall a, performs f ps (k a)) -> performs f (p :: ps) (bind m k).
Proof. apply performs_bind. Qed.
Lemma performs_skip {A B} f ps (m : M A) (k : A -> M B) :
  performs id [] m -> (forall a, performs f ps (k a)) -> performs f ps (bind m k).
Proof. apply performs_bind. Qed.
Lemma performs_assign {B} f g ps (k : unit -> M B) :
  (forall s, core (f s) = f (core s) /\ trace (f s) = trace s) ->
  (forall a, performs g ps (k a)) -> performs (g ∘ f) ps (bind (put f) k).
Proof. intros Hf. apply (performs_bind f g [] ps). by apply performs_put. Qed.
Lemma performs_assoc {A B C} f ps (m : M A) (k : A -> M B) (k' : B -> M C) :
  performs f ps (a ← m; b ← k a; k' b) -> performs f ps (b ← (a ← m; k a); k' b).
Proof. intros Hm s. specialize (Hm s). unfold wp, bind in *. by destruct (m s). Qed.
End Performs.

(** What [SetupHardware] and the rest of the start of [main] do: watchdog and
    clock, the ports of the board, then the USB controller, whose interrupts are
    disabled and whose flags are cleared before it is reset, and which is attached
    to the bus only when its control endpoint and interrupts are set up; interrupts
    are enabled last. *)
Definition boot_sequence : list segment :=
  [clears MCUSR WDRF; exactly wdt_disable_ev; exactly (clock_prescale_set_ev 0);
   exactly (Wr DDRE 0xFF);
   exactly (Wr DDRB 0); exactly (Wr DDRD 0xFF); exactly (Wr DDRF 0xFF);
   exactly (Wr PORTB 0xFF); exactly (Wr PORTD 0xFF); exactly (Wr PORTF 0xFF);
   clears USBCON OTGPADE; sets UHWCON UVREGE; exactly (Wr PLLFRQ (bit PDIV2));
   clears USBCON VBUSTE; exactly (Wr UDIEN 0); exactly (Wr USBINT 0); exactly (Wr UDINT 0);
   clears USBCON USBE; sets USBCON USBE; clears USBCON FRZCLK; exactly (Wr PLLCSR 0);
   clears UDCON LSM; sets USBCON VBUSTE; control_endpoint; clears UDINT SUSPI; sets UDIEN SUSPE; sets UDIEN EORSTE;
   clears UDCON DETACH; sets USBCON OTGPADE;
   exactly (Wr PORTE 0xFF); exactly sei_ev].

(** One statement. *)
Ltac boot_step :=
  lazymatch goal with
  | |- performs _ _ (bind (bind _ _) _) => apply performs_assoc
  | |- performs _ _ (bind (put _) _) => apply performs_assign; [done|intros _]
  | |- performs _ _ (bind (ret _) _) => apply performs_skip; [apply performs_ret|intros _]
  | |- performs _ _ (bind (Endpoint_ConfigureEndpoint _ _ _ _) _) =>
      apply performs_cons; [apply performs_ControlEndpoint|intros _]
  | |- performs _ _ (bind (wr _ _) _) => apply performs_cons; [by apply performs_wr|intros _]
  | |- performs _ _ (bind (reg_set _ _) _) => apply performs_cons; [by apply performs_set|intros _]
  | |- performs _ _ (bind (reg_clear _ _) _) => apply performs_cons; [by apply performs_clear|intros _]
  | |- performs _ _ (bind (emit _) _) => apply performs_cons; [by apply performs_emit|intros _]
  | |- performs _ _ (emit _) => by apply performs_emit
  end.

Section Boot.
Context `{Masked}.

Lemma main_start_performs :
  exists f, performs f boot_sequence main_start /\
    f (core reset_state) = core (set_USB_IsInitialized true reset_state).
Proof.
  eexists. split.
  - unfold main_start, SetupHardware, Joystick_Init, LEDs_Init, Buttons_Init, LEDs_SetAllLEDs, USB_Init,
      USB_ResetInterface, USB_Init_Device, USB_INT_DisableAllInterrupts, USB_INT_ClearAllInterrupts, USB_Controller_Reset.
    autounfold with safe_prims.
    change (negb (option_set USB_OPT_MANUAL_PLL)) with true.
    change (negb (option_set USB_OPT_REG_DISABLED)) with true.
    change (option_set USB_DEVICE_OPT_LOWSPEED) with false. cbn [when].
    repeat boot_step.
  - reflexivity.
Qed.

(** C32: the firmware boots.  From reset, with interrupts off as the CPU starts, the
    start of [main] terminates whatever the registers return.  It has configured
    the device by exactly the accesses of [boot_sequence], in this order, which
    accounts for every register write of the program: in particular endpoint 0 is
    set up as a control endpoint of 8 bytes (and the other endpoints in use again,
    as far as the hardware accepts them) between the speed and VBUS set-up and the
    other interrupts, the controller is attached to the bus after that, and
    interrupts are enabled last.  The library is initialised, with the device
    unattached and unconfigured. *)
Theorem main_boots :
  wp main_start (fun _ s' =>
    follows boot_sequence (rev (device_accesses (trace s'))) /\
    core s' = core (set_USB_IsInitialized true reset_state)) reset_state.
Proof.
  destruct main_start_performs as (f & Hm & Hf). eapply wp_mono; [|apply Hm].
  intros [] s' (Hc & l & Hl & Hp). cbn in Hl. rewrite app_nil_r in Hl. rewrite Hl.
  split; [done|]. by rewrite Hc.
Qed.
End Boot.
