(* ===== verification/ReportLayout.v ===== *)
(** * The joystick's reports as a host reads them

    The firmware fills a C structure ([src/joystick.h]) and describes it to the
    host with a report descriptor ([src/descriptors.c]).  Here the two meet: the
    library's own report parser, run on the descriptor, is used to read the
    reports that the application builds. *)
From S2P Require Import Prelude StdDescriptors HIDReportData Descriptors HIDParser Joystick.

(** ** Items of a byte and of a bit *)

Lemma get_byte_item item data k b :
  all_bytes data -> 8 * Z.of_nat (length data) < 2 ^ 16 -> item_ReportID item = 0 ->
  BitOffset item = 8 * Z.of_nat k -> BitSize (Attributes item) = 8 -> data !! k = Some b ->
  USB_GetHIDReportItemInfo data (Some item) = Some (true, Some (set_item_value b (Value item) item)).
Proof.
  intros Hall Hlen Hid Hoff Hsize Hk. pose proof (lookup_lt_Some _ _ _ Hk).
  assert (Hb : is_u8 b) by (by eapply Forall_lookup_1 in Hall).
  destruct (GetItem_spec item data) as (v & -> & Hv & Hbits); [|lia|].
  { unfold in_report, payload. rewrite Hid, Hoff, Hsize. split; [by left|]. simpl. lia. }
  do 4 f_equal. apply Z.bits_inj'. intros i Hi. rewrite Hbits by done.
  unfold payload. rewrite Hid, Hoff, Hsize. cbn [Z.eqb]. destruct (Z.ltb_spec i 8).
  - unfold report_bit, byte_at. rewrite (Z.mul_comm 8), Z.div_add_l, Z.div_small, Z.add_0_r by lia.
    rewrite Nat2Z.id, Hk, Z.add_comm, Z_mod_plus_full, Z.mod_small by lia. done.
  - by rewrite (fits_testbit 8 b) by (done || lia).
Qed.

Lemma get_bit_item item data :
  8 * Z.of_nat (length data) < 2 ^ 16 -> item_ReportID item = 0 ->
  BitSize (Attributes item) = 1 -> 0 <= BitOffset item < 8 * Z.of_nat (length data) ->
  USB_GetHIDReportItemInfo data (Some item)
    = Some (true, Some (set_item_value (Z.b2z (report_bit data (BitOffset item))) (Value item) item)).
Proof.
  intros Hlen Hid Hsize Hoff. destruct (GetItem_spec item data) as (v & -> & Hv & Hbits); [|lia|].
  { unfold in_report, payload. rewrite Hid, Hsize. split; [by left|]. simpl. lia. }
  do 4 f_equal. apply Z.bits_inj'. intros i Hi. rewrite Hbits by done.
  unfold payload. rewrite Hid, Hsize. cbn [Z.eqb]. destruct (Z.ltb_spec i 1).
  - replace i with 0 by lia. by rewrite Z.add_0_r, Z.b2z_bit0.
  - destruct (report_bit data (BitOffset item)); cbn [Z.b2z andb]; symmetry.
    + apply Z.bits_above_log2; simpl; lia.
    + apply Z.testbit_0_l.
Qed.

(** ** The application's reports *)

(** A report structure as C holds it: 22 bytes of padding. *)
Definition is_report (r : USB_JoystickReport_Data_t) : Prop :=
  length (padding r) = 22%nat /\ all_bytes (padding r).

Definition axes (r : USB_JoystickReport_Data_t) : list Z :=
  [rep_X r; rep_Y r; rep_Z r; rep_RX r; rep_RY r; rep_RZ r].

Lemma report_bytes r : is_report r ->
  all_bytes (bytes_of_report r) /\ length (bytes_of_report r) = 32%nat.
Proof.
  intros [Hl Ha]. unfold bytes_of_report. split.
  - apply Forall_app. split; [repeat constructor; by apply wrap_fits|].
    apply Forall_app. split; [apply le_bytes_all|done].
  - rewrite !length_app, length_le_bytes, Hl. done.
Qed.

Lemma axes_bytes r k v : axes r !! k = Some v -> bytes_of_report r !! k = Some (u8 v).
Proof.
  intros Hk. unfold bytes_of_report. rewrite lookup_app_l by (apply lookup_lt_Some in Hk; exact Hk).
  do 6 (destruct k as [|k]; [by injection Hk as <-|]). done.
Qed.

Lemma report_bit_app_r a b n : 0 <= n ->
  report_bit (a ++ b) (8 * Z.of_nat (length a) + n) = report_bit b n.
Proof.
  intros Hn. assert (0 <= n / 8) by (apply Z.div_pos; lia). unfold report_bit, byte_at.
  rewrite (Z.mul_comm 8), Z.div_add_l, (Z.add_comm _ n), Z_mod_plus_full by lia.
  rewrite lookup_app_r by lia. by replace (Z.to_nat _ - length a)%nat with (Z.to_nat (n / 8)) by lia.
Qed.

Lemma report_bit_app_l a b n : 0 <= n < 8 * Z.of_nat (length a) ->
  report_bit (a ++ b) n = report_bit a n.
Proof.
  intros Hn. assert (0 <= n / 8 < Z.of_nat (length a))
    by (split; [apply Z.div_pos|apply Z.div_lt_upper_bound]; lia).
  unfold report_bit, byte_at. by rewrite lookup_app_l by lia.
Qed.

(** Bit [n] of the [Button] member is bit [48 + n] of the report. *)
Lemma button_bit r n : 0 <= n < 32 ->
  report_bit (bytes_of_report r) (48 + n) = Z.testbit (Button r) n.
Proof.
  intros Hn. unfold bytes_of_report.
  rewrite (report_bit_app_r [_; _; _; _; _; _]), report_bit_app_l by (rewrite ?length_le_bytes; lia).
  rewrite report_bit_le_val, le_val_bytes, wrap_testbit by (apply le_bytes_all || lia).
  destruct (Z.ltb_spec n (8 * Z.of_nat 4)); [done|lia].
Qed.

(** ** What the host makes of the report descriptor *)

(** Filters for the parser, which keeps at most twenty items: the axes, and half
    of the buttons (from bit [48 + 16 * h] on). *)
Definition keep_axes (item : HID_ReportItem_t) : bool :=
  Page (attr_Usage (Attributes item)) =? 1.
Definition keep_buttons (h : Z) (item : HID_ReportItem_t) : bool :=
  (ItemType item =? HID_REPORT_ITEM_In)%nat &&
  (48 + 16 * h <=? BitOffset item) && (BitOffset item <? 48 + 16 * h + 16).

(** The value of item [k] of a parsed descriptor in the report [data]. *)
Definition host_value (info : HID_ReportInfo_t) (k : nat) (data : bytes) : option Z :=
  match ReportItems info !! k with
  | None => None
  | Some item =>
      match USB_GetHIDReportItemInfo data (Some item) with
      | Some (true, Some item') => Some (Value item')
      | _ => None
      end
  end.

Lemma host_value_byte info k item r v :
  is_report r -> ReportItems info !! k = Some item -> item_ReportID item = 0 ->
  BitOffset item = 8 * Z.of_nat k -> BitSize (Attributes item) = 8 -> axes r !! k = Some v ->
  host_value info k (bytes_of_report r) = Some (u8 v).
Proof.
  intros Hr Hk Hid Hoff Hsize Hv. destruct (report_bytes r Hr) as [Hall Hlen].
  unfold host_value. rewrite Hk, (get_byte_item item _ k (u8 v)); try done.
  - by rewrite Hlen.
  - by apply axes_bytes.
Qed.

Lemma host_value_bit info k item r n :
  is_report r -> ReportItems info !! k = Some item -> item_ReportID item = 0 ->
  BitOffset item = 48 + n -> BitSize (Attributes item) = 1 -> 0 <= n < 32 ->
  host_value info k (bytes_of_report r) = Some (Z.b2z (Z.testbit (Button r) n)).
Proof.
  intros Hr Hk Hid Hoff Hsize Hn. destruct (report_bytes r Hr) as [Hall Hlen].
  unfold host_value. rewrite Hk, get_bit_item; try done.
  - by rewrite Hoff, button_bit.
  - by rewrite Hlen.
  - rewrite Hoff, Hlen. lia.
Qed.

(** C8: the host reads the axes the application stored.  Parsing the firmware's
    report descriptor for the axes succeeds with six items, in the order X, Y, Z,
    Rx, Ry, Rz (usages 0x30 to 0x35), and for every report the value of item [k]
    is the [k]-th axis of the report structure. *)
Theorem host_reads_axes indet r :
  is_report r ->
  exists info,
    USB_ProcessHIDReport indet keep_axes JoystickReport sizeof_JoystickReport
      = Returned HID_PARSE_Successful info /\
    TotalReportItems info = 6%nat /\
    forall k v, axes r !! k = Some v ->
      (exists item, ReportItems info !! k = Some item /\
                    Usage (attr_Usage (Attributes item)) = 0x30 + Z.of_nat k) /\
      host_value info k (bytes_of_report r) = Some (u8 v).
Proof.
  intros Hr. eexists. split; [vm_compute; reflexivity|]. split; [reflexivity|].
  intros k v Hk. do 6 (destruct k as [|k]; [split;
    [eexists; split; reflexivity|eapply host_value_byte; [done|reflexivity..|done]]|]). done.
Qed.

(** the host reads the buttons the application stored.  Parsing the report
    descriptor for either half of the buttons succeeds with sixteen items, and
    for every report the value of item [k] of half [h] is bit [16 * h + k] of
    the [Button] member. *)
Lemma host_reads_buttons indet r h :
  is_report r -> h = 0 \/ h = 1 ->
  exists info,
    USB_ProcessHIDReport indet (keep_buttons h) JoystickReport sizeof_JoystickReport
      = Returned HID_PARSE_Successful info /\
    TotalReportItems info = 16%nat /\
    forall k, (k < 16)%nat ->
      host_value info k (bytes_of_report r)
        = Some (Z.b2z (Z.testbit (Button r) (16 * h + Z.of_nat k))).
Proof.
  intros Hr [-> | ->]; (eexists; split; [vm_compute; reflexivity|]); (split; [reflexivity|]);
    intros k Hk; do 16 (destruct k as [|k];
      [eapply host_value_bit; [done|reflexivity..|lia]|]); lia.
Qed.

(** The report descriptor announces 34 bytes of input, the application sends
    32; and a host that keeps every item of the descriptor cannot parse it with
    the library's limit of twenty items. *)
Lemma report_size_mismatch indet r :
  is_report r ->
  (exists info,
     USB_ProcessHIDReport indet keep_axes JoystickReport sizeof_JoystickReport
       = Returned HID_PARSE_Successful info /\
     USB_GetHIDReportSize info 0 HID_REPORT_ITEM_In = Some 34) /\
  length (bytes_of_report r) = 32%nat /\
  exists info, USB_ProcessHIDReport indet (fun _ => true) JoystickReport sizeof_JoystickReport
       = Returned HID_PARSE_InsufficientReportItems info.
Proof.
  intros Hr. split; [eexists; split; [vm_compute; reflexivity|reflexivity]|].
  split; [by apply report_bytes|]. eexists. vm_compute. reflexivity.
Qed.

(** ** Witnesses *)

Definition sample_report : USB_JoystickReport_Data_t := current_report 0xFF 0x12 0xA5.

Lemma sample_is_report : is_report sample_report.
Proof. split; [reflexivity|]. repeat constructor; vm_compute; done. Defined.

Lemma host_reads_axes_witness : exists info,
  USB_ProcessHIDReport 0 keep_axes JoystickReport sizeof_JoystickReport
    = Returned HID_PARSE_Successful info /\
  host_value info 1 (bytes_of_report sample_report) = Some 0x12.
Proof.
  destruct (host_reads_axes 0 sample_report sample_is_report) as (info & Hp & _ & Hv).
  exists info. split; [exact Hp|]. apply (Hv 1%nat 0x12). reflexivity.
Defined.
