(* ===== verification/HostApp.v ===== *)
(** * The PC program

    [src/host_app/linux.c]: a program for the PC at the other end of the cable.
    It opens the raw HID device, prints what the kernel knows about it, and then
    for ever reads a report, prints it, and writes a report of 32 equal bytes,
    the second byte of a counter.  The kernel is the class [Kernel]: what a system
    call returns may depend on everything the program has done before.  The
    compiler is a PC's, with 32-bit [int]. *)
From stdpp Require Import strings.
From S2P Require Import Prelude.

(** ** System calls and output

    The calls with what they are given; [hidraw] requests keep their names. *)
Inductive syscall : Set :=
  | sys_open (path : string)
  | HIDIOCGRDESCSIZE
  | HIDIOCGRDESC (size : Z)
  | HIDIOCGRAWNAME (len : Z)
  | HIDIOCGRAWPHYS (len : Z)
  | HIDIOCGRAWINFO
  | HIDIOCGFEATURE (len : Z) (report : Z)
  | sys_read (len : Z)
  | sys_write (data : bytes).

Inductive action : Set :=
  | Call (c : syscall)
  | Stdout (text : string)
  | Perror (text : string).

(** [struct hidraw_devinfo] *)
Record hidraw_devinfo := { bustype : Z; vendor : Z; product : Z }.

(** A failed call returns -1 and stores nothing: [None].  The calls that store
    bytes into a buffer of the program return how many.  The bus numbers are
    those of [linux/input.h]. *)
Class Kernel := {
  k_open : list action -> option Z;
  k_desc_size : list action -> option Z;
  k_desc : list action -> Z -> option bytes;
  k_name : list action -> Z -> option bytes;
  k_phys : list action -> Z -> option bytes;
  k_info : list action -> option hidraw_devinfo;
  k_feature : list action -> Z -> Z -> option bytes;
  k_read : list action -> Z -> option bytes;
  k_write : list action -> bytes -> option Z;
  errno : list action -> Z;
  BUS_USB : Z;
  BUS_HIL : Z;
  BUS_BLUETOOTH : Z;
  BUS_VIRTUAL : Z
}.

(** The variables of [main] that outlive a statement, and what has been done,
    newest first. *)
Record hst := { actions : list action; buf : bytes; count : Z }.

(** [None]: undefined behaviour. *)
Definition prog (A : Type) : Type := hst -> option (A * hst).
Definition pret {A} (a : A) : prog A := fun s => Some (a, s).
Definition pbind {A B} (m : prog A) (k : A -> prog B) : prog B :=
  fun s => match m s with Some (a, s') => k a s' | None => None end.

Declare Scope host_scope.
Delimit Scope host_scope with host.
Notation "x <~ m ; k" := (pbind m (fun x => k))
  (at level 100, m at next level, right associativity) : host_scope.
Notation "m >> k" := (pbind m (fun _ => k)) (at level 100, right associativity) : host_scope.
Local Open Scope host_scope.

Definition act (a : action) : prog unit :=
  fun s => Some (tt, {| actions := a :: actions s; buf := buf s; count := count s |}).
Definition printf (text : string) : prog unit := act (Stdout text).
Definition perror (text : string) : prog unit := act (Perror text).
Definition set_buf (b : bytes) : prog unit :=
  fun s => Some (tt, {| actions := actions s; buf := b; count := count s |}).
Definition set_count (n : Z) : prog unit :=
  fun s => Some (tt, {| actions := actions s; buf := buf s; count := n |}).
Definition pget {A} (f : hst -> A) : prog A := fun s => Some (f s, s).
Definition defined {A} (x : option A) : prog A := fun s => match x with Some a => Some (a, s) | None => None end.

(** A call; what it returns depends on what was done before it. *)
Definition syscall_ {A} (c : syscall) (answer : list action -> A) : prog A :=
  r <~ pget (fun s => answer (actions s)); act (Call c) >> pret r.

(** ** Formats *)

Definition nl : string := String (Ascii.ascii_of_nat 10) EmptyString.
Definition tab : string := String (Ascii.ascii_of_nat 9) EmptyString.

Definition hex_digit (d : Z) : string :=
  match String.get (Z.to_nat d) "0123456789abcdef" with
  | Some c => String c EmptyString
  | None => EmptyString
  end.

(** The digits of [n], at least one and at most [fuel]. *)
Fixpoint digits (base : Z) (fuel : nat) (n : Z) (rest : string) : string :=
  match fuel with
  | O => rest
  | S fuel =>
      let rest := String.append (hex_digit (n mod base)) rest in
      if n / base =? 0 then rest else digits base fuel (n / base) rest
  end.

(** [%d], [%hhx], [%02x] of a byte, and [%04hx] *)
Definition fmt_d (n : Z) : string :=
  if sgn 32 n <? 0 then String.append "-" (digits 10 10 (- sgn 32 n) EmptyString)
  else digits 10 10 (sgn 32 n) EmptyString.
Definition fmt_hhx (n : Z) : string := digits 16 2 (u8 n) EmptyString.
Definition fmt_02x (n : Z) : string :=
  String.append (hex_digit (u8 n / 16)) (hex_digit (u8 n mod 16)).
Definition fmt_04hx (n : Z) : string :=
  let n := u16 n in
  String.concat EmptyString
    [hex_digit (n / 4096); hex_digit (n / 256 mod 16); hex_digit (n / 16 mod 16); hex_digit (n mod 16)].

(** [%s]: the characters before the terminator, which must be inside of the
    array. *)
Fixpoint c_string (l : bytes) : option string :=
  match l with
  | [] => None
  | c :: l =>
      if c =? 0 then Some EmptyString
      else option_map (String (Ascii.ascii_of_nat (Z.to_nat (u8 c)))) (c_string l)
  end.

(** [for (i = 0; i < n; i++) printf(fmt, array[i]);] *)
Fixpoint print_bytes (fmt : Z -> string) (n : nat) (i : Z) (array : bytes) : prog unit :=
  match n with
  | O => pret tt
  | S n =>
      b <~ defined (load_byte array i);
      printf (String.append (fmt b) " ") >>
      print_bytes fmt n (i + 1) array
  end.

(** [puts] writes a newline after its argument. *)
Definition puts (text : string) : prog unit := printf (String.append text nl).

(** The bytes a call stores at the start of an array. *)
Definition store_prefix (data array : bytes) : option bytes :=
  if (length data <=? length array)%nat then Some (data ++ drop (length data) array) else None.

Section Program.
Context `{Kernel}.

Definition bus_str (bus : Z) : string :=
  if bus =? BUS_USB then "USB"
  else if bus =? BUS_HIL then "HIL"
  else if bus =? BUS_BLUETOOTH then "Bluetooth"
  else if bus =? BUS_VIRTUAL then "Virtual"
  else "Other".

(** Lines 65 to 82; [rpt_desc.value] has 4096 bytes. *)
Definition get_descriptor : prog unit :=
  r <~ syscall_ HIDIOCGRDESCSIZE k_desc_size;
  desc_size <~ (match r with
                | None => perror "HIDIOCGRDESCSIZE" >> pret 0
                | Some n =>
                    printf (String.append "Report Descriptor Size: " (String.append (fmt_d n) nl)) >> pret n
                end);
  let size := u32 desc_size in
  r <~ syscall_ (HIDIOCGRDESC size) (fun t => k_desc t size);
  match r with
  | None => perror "HIDIOCGRDESC"
  | Some data =>
      value <~ defined (store_prefix data (replicate 4096 0));
      printf (String.append "Report Descriptor:" nl) >>
      print_bytes fmt_02x (Z.to_nat size) 0 value >>
      puts nl
  end.

(** Lines 84 to 96: a string the kernel stores into [buf]. *)
Definition get_string (c : syscall) (answer : list action -> option bytes) (err label : string) : prog unit :=
  r <~ syscall_ c answer;
  match r with
  | None => perror err
  | Some data =>
      b <~ pget buf;
      b <~ defined (store_prefix data b);
      set_buf b >>
      text <~ defined (c_string b);
      printf (String.append label (String.append text nl))
  end.

(** Lines 98 to 108 *)
Definition get_info : prog unit :=
  r <~ syscall_ HIDIOCGRAWINFO k_info;
  match r with
  | None => perror "HIDIOCGRAWINFO"
  | Some info =>
      printf (String.append "Raw Info:" nl) >>
      printf (String.concat EmptyString
                [tab; "bustype: "; fmt_d (bustype info); " ("; bus_str (bustype info); ")"; nl]) >>
      printf (String.concat EmptyString [tab; "vendor: 0x"; fmt_04hx (vendor info); nl]) >>
      printf (String.concat EmptyString [tab; "product: 0x"; fmt_04hx (product info); nl])
  end.

(** Lines 123 to 134, and again 136 to 147 *)
Definition get_feature : prog unit :=
  b <~ pget buf;
  b <~ defined (store_byte b 0 0);
  set_buf b >>
  r <~ syscall_ (HIDIOCGFEATURE 127 0) (fun t => k_feature t 127 0);
  match r with
  | None => perror "HIDIOCGFEATURE"
  | Some data =>
      b <~ defined (store_prefix data b);
      set_buf b >>
      printf (String.concat EmptyString
                ["ioctl HIDIOCGFEATURE returned: "; fmt_d (Z.of_nat (length data)); nl]) >>
      printf (String.concat EmptyString ["Report data (not containing the report number):"; nl; tab]) >>
      print_bytes fmt_hhx (length data) 0 b >>
      puts nl
  end.

(** Lines 169 to 177 *)
Definition read_report : prog unit :=
  r <~ syscall_ (sys_read 32) (fun t => k_read t 32);
  match r with
  | None => pret tt
  | Some data =>
      b <~ pget buf;
      b <~ defined (store_prefix data b);
      set_buf b >>
      printf (String.concat EmptyString
                ["read() read "; fmt_d (Z.of_nat (length data)); " bytes:"; nl; tab]) >>
      print_bytes fmt_hhx (length data) 0 b >>
      puts nl
  end.

(** Lines 179 to 190; [memset] stores its argument as an [unsigned char]. *)
Definition write_report : prog unit :=
  n <~ pget count;
  set_count (u32 (n + 1)) >>
  n <~ pget count;
  let byte := Z.shiftr (Z.land n 0xFF00) 8 in
  b <~ pget buf;
  set_buf (replicate (length b) (u8 byte)) >>
  b <~ pget buf;
  r <~ syscall_ (sys_write (take 32 b)) (fun t => k_write t (take 32 b));
  match r with
  | None =>
      e <~ pget (fun s => errno (actions s));
      printf (String.concat EmptyString ["Error: "; fmt_d e; nl]) >>
      perror "write"
  | Some _ => pret tt
  end.

(** [n] rounds of [while(1)] *)
Fixpoint rounds (n : nat) : prog unit :=
  match n with
  | O => pret tt
  | S n => read_report >> write_report >> rounds n
  end.

(** Lines 65 to 164: what is printed and done before the loop. *)
Definition prologue : prog unit :=
  get_descriptor >>
  get_string (HIDIOCGRAWNAME 256) (fun t => k_name t 256) "HIDIOCGRAWNAME" "Raw Name: " >>
  get_string (HIDIOCGRAWPHYS 256) (fun t => k_phys t 256) "HIDIOCGRAWPHYS" "Raw Phys: " >>
  get_info >>
  get_feature >>
  get_feature >>
  b <~ pget buf;
  b <~ defined (store_byte b 0 0x1);
  b <~ defined (store_byte b 1 0xF0);
  set_buf b >>
  printf (String.append "listening." nl).

Inductive main_result : Set := Exit (code : Z) | Listening.

(** [main] of [linux.c], with [n] rounds of its loop. *)
Definition host_main (n : nat) : prog main_result :=
  fd <~ syscall_ (sys_open "/dev/hidraw1") k_open;
  match fd with
  | None => perror "Unable to open device" >> pret (Exit 1)
  | Some _ =>
      set_buf (replicate 256 0) >>
      prologue >>
      set_count 0 >>
      rounds n >>
      pret Listening
  end.

(** At the start of [main] the array is not initialised; [indet] is what it
    holds. *)
Definition start (indet : bytes) : hst := {| actions := []; buf := indet; count := 0 |}.
End Program.

(** ** What the program writes

    Documented behaviour of the kernel: a report descriptor has at most 4096 bytes;
    a call stores no more than the length it is given; names end with a zero byte. *)
Record kernel_ok `{Kernel} : Prop := {
  ko_desc_size : forall t n, k_desc_size t = Some n -> 0 <= n <= 4096;
  ko_desc : forall t n data, k_desc t n = Some data -> Z.of_nat (length data) <= n;
  ko_name : forall t n data, k_name t n = Some data -> Z.of_nat (length data) <= n /\ 0 ∈ data;
  ko_phys : forall t n data, k_phys t n = Some data -> Z.of_nat (length data) <= n /\ 0 ∈ data;
  ko_feature : forall t n r data, k_feature t n r = Some data -> Z.of_nat (length data) <= n;
  ko_read : forall t n data, k_read t n = Some data -> Z.of_nat (length data) <= n
}.

(** The reports written, oldest first. *)
Fixpoint writes (l : list action) : list bytes :=
  match l with
  | [] => []
  | Call (sys_write data) :: l => writes l ++ [data]
  | _ :: l => writes l
  end.
Definition is_write (a : action) : bool := match a with Call (sys_write _) => true | _ => false end.

Definition pwp {A} (m : prog A) (Q : A -> hst -> Prop) (s : hst) : Prop :=
  match m s with Some (a, s') => Q a s' | None => False end.

Lemma pwp_bind {A B} (m : prog A) (k : A -> prog B) Q s :
  pwp (pbind m k) Q s <-> pwp m (fun a => pwp (k a) Q) s.
Proof. unfold pwp, pbind. by destruct (m s) as [[]|]. Qed.

Lemma pwp_mono {A} (m : prog A) (Q Q' : A -> hst -> Prop) s :
  (forall a s', Q a s' -> Q' a s') -> pwp m Q s -> pwp m Q' s.
Proof. unfold pwp. destruct (m s) as [[]|]; auto. Qed.

(** Nothing is written, and [buf] and [count] keep their size and value. *)
Definition quiet (s s' : hst) : Prop :=
  writes (actions s') = writes (actions s) /\ length (buf s') = length (buf s) /\ count s' = count s.

#[global] Instance quiet_preorder : PreOrder quiet.
Proof. split; [by intros s|intros s1 s2 s3 (? & ? & ?) (? & ? & ?)]; repeat split; congruence. Qed.

(** [m] is defined, quiet, and returns a value in [R]. *)
Definition quietly {A} (m : prog A) (R : A -> Prop) : Prop :=
  forall s, length (buf s) = 256%nat -> pwp m (fun a s' => quiet s s' /\ R a) s.

Lemma quietly_bind {A B} (m : prog A) (k : A -> prog B) R R' :
  quietly m R -> (forall a, R a -> quietly (k a) R') -> quietly (pbind m k) R'.
Proof.
  intros Hm Hk s Hs. rewrite pwp_bind. eapply pwp_mono; [|by apply Hm]. intros a s1 [Hq Ha].
  eapply pwp_mono; [|apply Hk; [exact Ha|destruct Hq as (_ & -> & _); exact Hs]].
  intros b s2 [Hq2 Hb]. split; [by transitivity s1|exact Hb].
Qed.

Lemma quietly_any {A} (m : prog A) R : quietly m R -> quietly m (fun _ => True).
Proof. intros Hm s Hs. eapply pwp_mono; [|by apply Hm]. by intros a s' [? _]. Qed.

Lemma quietly_ret {A} (a : A) : quietly (pret a) (fun x => x = a).
Proof. intros s _. by split. Qed.

Lemma quietly_act a : is_write a = false -> quietly (act a) (fun _ => True).
Proof. intros Ha s _. split; [|done]. split; [|done]. by destruct a as [[]| |]. Qed.

Lemma quietly_buf : quietly (pget buf) (fun b => length b = 256%nat).
Proof. intros s Hs. by split. Qed.

Lemma quietly_get {A} (f : hst -> A) : quietly (pget f) (fun a => exists s, a = f s).
Proof. intros s _. split; [done|by exists s]. Qed.

Lemma quietly_set_buf b : length b = 256%nat -> quietly (set_buf b) (fun _ => True).
Proof. intros Hb s Hs. cbn. split; [|done]. repeat split; cbn; congruence. Qed.

Lemma quietly_defined {A} (x : option A) a : x = Some a -> quietly (defined x) (fun y => y = a).
Proof. intros -> s _. by split. Qed.

Lemma quietly_syscall {A} c (answer : list action -> A) :
  is_write (Call c) = false -> quietly (syscall_ c answer) (fun r => exists t, r = answer t).
Proof.
  intros Hc. eapply quietly_bind; [apply quietly_get|]. intros r [s ->].
  eapply quietly_bind; [by apply quietly_act|]. intros _ _ s' _. cbn. split; [done|by eexists].
Qed.

Lemma quietly_print fmt n : forall i array, 0 <= i -> (Z.to_nat i + n <= length array)%nat ->
  quietly (print_bytes fmt n i array) (fun _ => True).
Proof.
  induction n as [|n IH]; intros i array Hi Hn; cbn [print_bytes].
  - eapply quietly_any, quietly_ret.
  - destruct (lookup_lt_is_Some_2 array (Z.to_nat i)) as [b Hb]; [lia|].
    eapply quietly_bind; [apply (quietly_defined _ b)|].
    + unfold load_byte. by rewrite (proj2 (Z.leb_le _ _) Hi).
    + intros ? ->. eapply quietly_bind; [by apply quietly_act|]. intros _ _. apply IH; lia.
Qed.


Lemma store_prefix_fits data array :
  (length data <= length array)%nat ->
  exists b, store_prefix data array = Some b /\ length b = length array /\ take (length data) b = data.
Proof.
  intros Hl. unfold store_prefix. rewrite (proj2 (Nat.leb_le _ _) Hl). eexists. split; [done|].
  rewrite length_app, length_drop, take_app_length. split; [lia|done].
Qed.

Lemma c_string_ends data : 0 ∈ data -> forall rest, exists text, c_string (data ++ rest) = Some text.
Proof.
  induction data as [|c data IH]; [by intros ?%elem_of_nil|]. intros Hin rest. cbn [app c_string].
  destruct (Z.eqb_spec c 0); [by eexists|].
  destruct (IH ltac:(by apply elem_of_cons in Hin as [|])) with (rest := rest) as [text ->]. by eexists.
Qed.

(** One statement that prints or calls the kernel. *)
Ltac quiet_step :=
  lazymatch goal with
  | |- quietly (pbind (syscall_ _ _) _) _ =>
      eapply quietly_bind; [by apply quietly_syscall|intros ? [? ->]]
  | |- quietly (pbind (pget buf) _) _ => eapply quietly_bind; [apply quietly_buf|intros ? ?; cbv beta in *]
  | |- quietly (pbind (pret _) _) _ => eapply quietly_bind; [apply quietly_ret|intros ? ->]
  | |- quietly (pbind _ _) _ => eapply quietly_bind; [by apply quietly_act|intros _ _]
  | |- quietly (pret _) _ => eapply quietly_any, quietly_ret
  | |- quietly _ _ => by apply quietly_act
  end.

Section Quiet.
Context `{Kernel} (kernel : kernel_ok).

Lemma get_descriptor_quiet : quietly get_descriptor (fun _ => True).
Proof.
  unfold get_descriptor. quiet_step. eapply quietly_bind with (R := fun n => 0 <= n <= 4096).
  - destruct (k_desc_size x) as [n|] eqn:Hn; quiet_step; intros s Hs; (split; [done|]); [|lia].
    by eapply ko_desc_size.
  - intros n Hsz. assert (u32 n = n) as -> by (apply wrap_id; unfold fits; lia). cbv zeta. quiet_step.
    destruct (k_desc x0 n) as [data|] eqn:Hd; [|quiet_step].
    assert (Hl : (length data <= length (replicate 4096 0%Z))%nat)
      by (rewrite length_replicate; apply ko_desc in Hd; [lia|exact kernel]).
    destruct (store_prefix_fits _ _ Hl) as (b & Hb & Hlen & _). rewrite length_replicate in Hlen.
    eapply quietly_bind; [by apply quietly_defined|]. intros ? ->.
    quiet_step. eapply quietly_bind; [apply quietly_print; lia|]. intros _ _. quiet_step.
Qed.

Lemma get_string_quiet c answer err label :
  is_write (Call c) = false ->
  (forall t data, answer t = Some data -> (length data <= 256)%nat /\ 0 ∈ data) ->
  quietly (get_string c answer err label) (fun _ => True).
Proof.
  intros Hc Ha. unfold get_string. quiet_step. destruct (answer x) as [data|] eqn:Hd; [|quiet_step].
  destruct (Ha _ _ Hd) as [Hl Hz]. quiet_step. rename a into b. rename H0 into Hb.
  destruct (store_prefix_fits data b) as (b' & Hb' & Hlen & Htake); [lia|].
  eapply quietly_bind; [by apply quietly_defined|]. intros ? ->.
  eapply quietly_bind; [apply quietly_set_buf; lia|]. intros _ _.
  destruct (c_string_ends data Hz (drop (length data) b')) as [text Htext].
  rewrite <- Htake, take_drop in Htext at 1.
  eapply quietly_bind; [by apply quietly_defined|]. intros ? ->.
  quiet_step.
Qed.

Lemma get_info_quiet : quietly get_info (fun _ => True).
Proof. unfold get_info. quiet_step. destruct (k_info x); repeat quiet_step. Qed.

(** The start of [buf] is printed. *)
Lemma print_buf_quiet n b :
  (n <= 256)%nat -> length b = 256%nat ->
  quietly (print_bytes fmt_hhx n 0 b >> puts nl) (fun _ => True).
Proof.
  intros Hn Hb. eapply quietly_bind; [apply quietly_print; lia|]. intros _ _. quiet_step.
Qed.

Lemma get_feature_quiet : quietly get_feature (fun _ => True).
Proof.
  unfold get_feature. quiet_step.
  eapply quietly_bind; [apply (quietly_defined _ (<[0%nat := 0]> a)); by destruct a|]. intros ? ->.
  eapply quietly_bind; [apply quietly_set_buf; by rewrite length_insert|]. intros _ _. quiet_step.
  destruct (k_feature x 127 0) as [data|] eqn:Hd; [|quiet_step].
  apply ko_feature in Hd; [|exact kernel].
  destruct (store_prefix_fits data (<[0%nat := 0]> a)) as (b & Hb & Hlen & _); rewrite length_insert in *; [lia|].
  eapply quietly_bind; [by apply quietly_defined|]. intros ? ->.
  eapply quietly_bind; [apply quietly_set_buf; lia|]. intros _ _. do 2 quiet_step.
  apply print_buf_quiet; lia.
Qed.

Lemma read_report_quiet : quietly read_report (fun _ => True).
Proof.
  unfold read_report. quiet_step. destruct (k_read x 32) as [data|] eqn:Hd; [|quiet_step].
  apply ko_read in Hd; [|exact kernel]. quiet_step.
  destruct (store_prefix_fits data a) as (b & Hb & Hlen & _); [lia|].
  eapply quietly_bind; [by apply quietly_defined|]. intros ? ->.
  eapply quietly_bind; [apply quietly_set_buf; lia|]. intros _ _. quiet_step.
  apply print_buf_quiet; lia.
Qed.
End Quiet.

(** ** The rounds *)

(** The report of round [k]. *)
Definition report (k : nat) : bytes := replicate 32 (u8 (Z.of_nat k / 256)).

Lemma counter_byte (n : Z) : 0 <= n -> u8 (Z.shiftr (Z.land (u32 n) 0xFF00) 8) = u8 (n / 256).
Proof.
  intros Hn. change 256 with (2 ^ 8). rewrite <- Z.shiftr_div_pow2 by lia. unfold wrap.
  rewrite <- !Z.land_ones by lia. apply Z.bits_inj'. intros i Hi.
  rewrite !Z.land_spec, !Z.shiftr_spec, !Z.land_spec by lia.
  destruct (Z.ltb_spec i 8) as [Hlt|Hge].
  - rewrite !Z.ones_spec_low by lia. rewrite !andb_true_r.
    assert (Z.testbit 0xFF00 (i + 8) = true) as ->.
    { assert (i = 0 \/ i = 1 \/ i = 2 \/ i = 3 \/ i = 4 \/ i = 5 \/ i = 6 \/ i = 7) as Hi8 by lia.
      by repeat destruct Hi8 as [->|Hi8]; [..|subst i]. }
    by rewrite andb_true_r.
  - rewrite (Z.ones_spec_high 8 i) by lia. by rewrite !andb_false_r.
Qed.

Section Rounds.
Context `{Kernel} (kernel : kernel_ok).

Lemma write_report_spec s k :
  length (buf s) = 256%nat -> count s = u32 (Z.of_nat k) ->
  pwp write_report (fun _ s' => length (buf s') = 256%nat /\ count s' = u32 (Z.of_nat (S k)) /\
    writes (actions s') = writes (actions s) ++ [report (S k)]) s.
Proof.
  intros Hb Hc.
  assert (Hn : u32 (count s + 1) = u32 (Z.of_nat (S k))).
  { rewrite Hc. unfold wrap. rewrite Z.add_mod_idemp_l by lia. f_equal. lia. }
  assert (Hd : take 32 (replicate (length (buf s)) (u8 (Z.shiftr (Z.land (u32 (count s + 1)) 0xFF00) 8)))
               = report (S k)).
  { rewrite Hn, counter_byte, Hb by lia. reflexivity. }
  unfold write_report, pwp, pbind, pget, set_count, set_buf, syscall_, pbind, pget, act, pret.
  cbn [count buf actions]. rewrite Hd.
  destruct (k_write _ _); cbn; rewrite length_replicate; by rewrite Hn.
Qed.

Lemma rounds_write n : forall s k,
  length (buf s) = 256%nat -> count s = u32 (Z.of_nat k) ->
  pwp (rounds n) (fun _ s' => writes (actions s') = writes (actions s) ++ map report (seq (S k) n)) s.
Proof.
  induction n as [|n IH]; intros s k Hb Hc; cbn [rounds].
  - cbn. by rewrite app_nil_r.
  - rewrite pwp_bind. eapply pwp_mono; [|by apply read_report_quiet].
    intros _ s1 [(Hw1 & Hb1 & Hc1) _]. rewrite pwp_bind.
    eapply pwp_mono; [|apply (write_report_spec s1 k); congruence]. intros _ s2 (Hb2 & Hc2 & Hw2).
    eapply pwp_mono; [|by apply (IH s2 (S k))]. intros [] s3 Hw3.
    rewrite Hw3, Hw2, Hw1, <- app_assoc. reflexivity.
Qed.

Lemma prologue_quiet : quietly prologue (fun _ => True).
Proof.
  unfold prologue. eapply quietly_bind; [by apply get_descriptor_quiet|intros _ _].
  eapply quietly_bind; [apply get_string_quiet; [done|]; intros t data Hd; apply ko_name in Hd as [??];
                        [split; [lia|done]|exact kernel]|intros _ _].
  eapply quietly_bind; [apply get_string_quiet; [done|]; intros t data Hd; apply ko_phys in Hd as [??];
                        [split; [lia|done]|exact kernel]|intros _ _].
  eapply quietly_bind; [by apply get_info_quiet|intros _ _].
  do 2 (eapply quietly_bind; [by apply get_feature_quiet|intros _ _]).
  quiet_step. destruct a as [|b0 [|b1 b]]; [done..|].
  do 2 (eapply quietly_bind; [by apply quietly_defined|intros ? ->]).
  eapply quietly_bind; [by apply quietly_set_buf|intros _ _]. quiet_step.
Qed.

(** If the device can be opened, the report of round [k] is the [k]th that is
    written; otherwise the program ends with exit code 1. *)
Lemma host_main_writes n indet :
  pwp (host_main n) (fun r s =>
    match k_open [] with
    | None => r = Exit 1 /\ writes (actions s) = []
    | Some _ => r = Listening /\ writes (actions s) = map report (seq 1 n)
    end) (start indet).
Proof.
  unfold host_main, syscall_. rewrite !pwp_bind. cbn. destruct (k_open []) as [fd|]; [|done].
  rewrite pwp_bind. cbn. rewrite pwp_bind. eapply pwp_mono; [|by apply prologue_quiet].
  intros _ s1 [(Hw & Hb & _) _]. cbn in Hw, Hb.
  rewrite pwp_bind. cbn. rewrite pwp_bind. eapply pwp_mono; [|by apply (rounds_write n _ 0)].
  intros [] s2 Hw2. split; [done|]. cbn [actions] in Hw2. by rewrite Hw2, Hw.
Qed.
End Rounds.
