(* ===== verification/EndToEnd.v ===== *)
(** * From the PC program to port D

    The two programs of the repository together: what [src/host_app/linux.c]
    writes in a round of its loop, carried by the kernel as a SET_REPORT request,
    is what the firmware drives port D with. *)
From S2P Require Import Prelude Machine Rely Descriptors Endpoint ControlStream DeviceStandardReq HIDClass Joystick HostApp.

(** The host carries out a SET_REPORT request with the report number [num] and
    the data stage [data], in the packets [ps]; the device is attached and
    active. *)
Record set_report_carries `{Calm} (indet : bytes) (ps : list bytes) (K : nat) (s : st)
    (num : Z) (data : bytes) : Prop := {
  sc_request : is_SetReport Joystick_HID_Interface_addr s;
  sc_number : Z.land (wValue (USB_ControlRequest s)) 0xFF = num;
  sc_length : wLength (USB_ControlRequest s) = Z.of_nat (length data);
  sc_data : concat ps = data;
  sc_host : control_write_follows s ps K;
  sc_packets : Forall (fun p => 0 < length p <= 8)%nat ps;
  sc_stack : (length data <= length indet)%nat;
  sc_attached : USB_DeviceState s <> DEVICE_STATE_Unattached;
  sc_active : USB_DeviceState s <> DEVICE_STATE_Suspended;
  sc_enough : ((length ps + 1) * (K + 1) <= fuel)%nat
}.

(** Documented behaviour of a write to a [hidraw] device: the first byte is the
    report number; it is part of the data stage unless it is 0. *)
Definition hidraw_write (transmitted : bytes -> Z * bytes) : Prop :=
  forall num rest, transmitted (num :: rest) = if num =? 0 then (0, rest) else (num, num :: rest).

Lemma lookup_report n k : (1 <= k <= n)%nat -> map report (seq 1 n) !! (k - 1)%nat = Some (report k).
Proof.
  intros Hk. change (map report) with (fmap (M := list) report). rewrite list_lookup_fmap.
  rewrite lookup_seq_lt by lia. by replace (1 + (k - 1))%nat with k by lia.
Qed.

(** Byte 1 of the report as the application sees it. *)
Lemma transmitted_byte transmitted k req data num :
  hidraw_write transmitted -> transmitted (report k) = (num, data) ->
  Z.land (wValue req) 0xFF = num ->
  (31 <= length data <= 32)%nat /\ report_payload req data !! 1%nat = Some (u8 (Z.of_nat k / 256)).
Proof.
  intros Hw Ht Hn. unfold report_payload, report in *. rewrite Hn. clear Hn.
  generalize dependent (u8 (Z.of_nat k / 256)). cbn [replicate]. intros b Ht. rewrite Hw in Ht.
  destruct (Z.eqb_spec b 0) as [Hz|Hz]; injection Ht as <- <-.
  - split; [cbn; lia|done].
  - rewrite (proj2 (Z.eqb_neq _ _) Hz). split; [cbn; lia|done].
Qed.

(** C9: the counter of the PC program appears on port D.  When the device can be
    opened, the program reaches its loop; for every round [k], when the report it
    writes in that round is carried to the device, the firmware's request handler
    terminates, drives port D with the second byte of [k] and keeps it for the
    reports it sends, whether or not the first byte of the report was taken for a
    report number. *)
Theorem host_counter_on_port `{Kernel} `{Calm} transmitted n k indet0 :
  kernel_ok -> k_open [] <> None -> hidraw_write transmitted -> (1 <= k <= n)%nat ->
  pwp (host_main n) (fun r h => r = Listening /\ exists data,
    writes (actions h) !! (k - 1)%nat = Some data /\
    forall indet ps K s num payload, transmitted data = (num, payload) ->
      set_report_carries indet ps K s num payload ->
      let b := u8 (Z.of_nat k / 256) in
      wp (on_ControlRequest indet)
         (fun _ s' => exists l s2, evolves l s s2 /\ s' = log (Wr PORTD b) (set_saved b s2)) s)
    (start indet0).
Proof.
  intros Hk Ho Hw Hr. eapply pwp_mono; [|by apply host_main_writes]. cbv beta. intros r h.
  destruct (k_open []) as [fd|]; [|done]. intros [-> ->]. split; [done|].
  exists (report k). split; [by apply lookup_report|]. intros indet ps K s num payload Ht Hc b.
  destruct (transmitted_byte _ _ (USB_ControlRequest s) _ _ Hw Ht (sc_number _ _ _ _ _ _ Hc)) as [Hl Hb].
  destruct Hc as [Hreq _ Hlen Hd Hhost Hpk Hst Hatt Hact Hf]. subst payload.
  eapply SetReport_stores; try done; [|lia|by apply wrap_fits]. intros ->. cbn in Hl. lia.
Qed.
