(* ===== verification/Simulation.v ===== *)
(** * A simulated controller and host

    Concrete environments in which the hypotheses of the theorems about the
    endpoint code hold, and the theorems applied in them. *)
From S2P Require Import Prelude Machine Rely Board StdDescriptors Descriptors Endpoint FrameWait EndpointWait ControlStream UsbController DeviceStandardReq StatusRequests EndpointStream HIDClass ClassDriver CDCClass PrinterClass MassStorageClass AudioClass RNDISClass UsbInterrupt Joystick HostApp EndToEnd.

(** The accesses since the SETUP packet was acknowledged (the oldest write of
    UEINTX); [None] before. *)
Fixpoint after_setup (l : list event) : option (list event) :=
  match l with
  | [] => None
  | e :: l =>
      match after_setup l with
      | Some m => Some (e :: m)
      | None => match e with Wr UEINTX _ => Some [] | _ => None end
      end
  end.

(** A host that sends the SETUP packet [pkt] and then reads at most [W] bytes. *)
#[export] Instance reading_host (pkt : bytes) (W : Z) : Env :=
  {| respond t r :=
       match after_setup (ep_trace t) with
       | None =>
           match r with
           | UEINTX => bit RXSTPI
           | UEDATX => nth (data_reads (ep_trace t)) pkt 0
           | _ => 0
           end
       | Some l =>
           match r with
           | UEINTX => if wants_data W (in_packets l) then bit TXINI else bit RXOUTI
           | UEBCLX => Z.of_nat (length (in_bank l))
           | _ => 0
           end
       end;
     async s := s;
     fuel := 200 |}.

#[export] Instance reading_host_calm pkt W : Calm (H := reading_host pkt W).
Proof. intros s. apply evolves_refl. Qed.

Lemma after_setup_reads l : forallb is_read l = true -> after_setup l = None.
Proof.
  induction l as [|e l IH]; [done|]. simpl. intros [He Hl]%andb_true_iff. rewrite (IH Hl).
  by destruct e.
Qed.

Lemma after_setup_ack l v l0 :
  after_setup l0 = None -> after_setup (l ++ setup_ack v ++ l0) = Some l.
Proof.
  intros H0. induction l as [|e l IH]; simpl; [by rewrite H0|].
  simpl in IH. by rewrite IH.
Qed.

Lemma reading_host_pending pkt W :
  length pkt = 8%nat -> setup_pending (H := reading_host pkt W) [] pkt.
Proof.
  intros Hlen. constructor; intros l v (t & Ht & ->) Hrd; rewrite app_nil_r in Ht; cbn [respond reading_host].
  - intros Hn. rewrite Ht, (after_setup_reads l Hrd).
    destruct (lookup_lt_is_Some_2 pkt (data_reads l)) as [b Hb]; [lia|].
    rewrite Hb. f_equal. symmetry. by apply nth_lookup_Some.
  - by rewrite Ht, (after_setup_reads l Hrd).
Qed.

Lemma reading_host_reads pkt W v l0 :
  after_setup l0 = None -> host_reads (H := reading_host pkt W) (setup_ack v ++ l0) W 0.
Proof.
  intros H0. constructor; intros l w (t & Ht & ->); cbn [respond reading_host];
    rewrite Ht, (after_setup_ack l v l0 H0); try done.
  - by destruct (wants_data W (in_packets l)).
  - by intros ->.
  - by intros ->.
  - by intros ->.
Qed.

Definition setup_packet (ty req value index length : Z) : bytes :=
  [ty; req] ++ le_bytes 2 value ++ le_bytes 2 index ++ le_bytes 2 length.

Definition configured_state : st := set_USB_DeviceState DEVICE_STATE_Addressed reset_state.

(** The host asks for 64 bytes of the configuration descriptor (34 bytes). *)
Definition get_config_packet : bytes := setup_packet 0x80 6 0x0200 0 64.

Lemma after_setup_written l v l' : after_setup (l ++ Wr UEINTX v :: l') <> None.
Proof.
  induction l as [|e l IH]; simpl; [by destruct (after_setup l')|].
  by destruct (after_setup (l ++ Wr UEINTX v :: l')).
Qed.

Lemma reading_host_no_setup pkt W l v l' w :
  answer (H := reading_host pkt W) (l ++ Wr UEINTX v :: l') UEINTX w -> has_bit w RXSTPI = false.
Proof.
  intros (t & Ht & ->). cbn [respond reading_host]. rewrite Ht.
  destruct (after_setup _) eqn:E; [|by destruct (after_setup_written l v l')].
  by destruct (wants_data W _).
Qed.

Definition sim1 : Env := reading_host get_config_packet 64.

Lemma ProcessControlRequest_GetDescriptor_witness :
  wp (USB_Device_ProcessControlRequest (H := sim1) (H0 := joystick_app (H := sim1) []))
     (fun _ s' => exists l0 v l v' w,
        evolves (Rd UEINTX w :: out_ack v' ++ l ++ setup_ack v ++ l0)
                (set_USB_ControlRequest (request_of_bytes get_config_packet) configured_state) s' /\
        forallb is_read l0 = true /\
        delivered (flash_bytes ConfigurationDescriptor_obj) 64 34 l) configured_state.
Proof.
  eapply wp_mono; [|apply (ProcessControlRequest_GetDescriptor (H := sim1)
     (H1 := joystick_app (H := sim1) []) get_config_packet 0 configured_state)].
  - intros _ s' (l0 & v & l & v' & w & Hev & Hrd & Hd). exists l0, v, l, v', w.
    split; [exact Hev|]. split; [exact Hrd|]. exact Hd.
  - reflexivity.
  - apply reading_host_pending. reflexivity.
  - split; [reflexivity|left; reflexivity].
  - vm_compute. discriminate.
  - vm_compute. discriminate.
  - vm_compute. discriminate.
  - vm_compute. discriminate.
  - vm_compute. discriminate.
  - intros l v Hrd _. apply reading_host_reads, after_setup_reads. by rewrite forallb_app, Hrd.
  - intros l v w. apply (reading_host_no_setup _ _ []).
  - vm_compute. lia.
Defined.

(** ** A host that sends the packets [ps] after its SETUP packet *)

#[export] Instance writing_host (ps : list bytes) : Env :=
  {| respond t r :=
       match after_setup (ep_trace t) with
       | None => match r with UEINTX => bit RXSTPI | _ => 0 end
       | Some l =>
           let '(k, j) := out_view l in
           let p := nth k ps [] in
           match r with
           | UEINTX => if (k <? length ps)%nat then bit RXOUTI else bit TXINI
           | UEBCLX => Z.of_nat (length p - j)
           | UEDATX => nth j p 0
           | _ => 0
           end
       end;
     async s := s;
     fuel := 200 |}.

#[export] Instance writing_host_calm ps : Calm (H := writing_host ps).
Proof. intros s. apply evolves_refl. Qed.

Lemma writing_host_writes ps v l0 :
  forallb is_read l0 = true -> host_writes (H := writing_host ps) (setup_ack v ++ l0) ps 0.
Proof.
  intros H0. constructor; intros l w; [| |intros p|..|intros p b|]; intros (t & Ht & ->); cbn [respond writing_host];
    rewrite Ht, (after_setup_ack l v l0 (after_setup_reads l0 H0)); destruct (out_view l) as [k j]; cbn [fst snd].
  - by destruct (k <? length ps)%nat.
  - intros Hk _. apply Nat.ltb_lt in Hk. by rewrite Hk.
  - intros _ Hp. by rewrite (nth_lookup_Some _ _ _ _ Hp).
  - done.
  - intros _ Hp Hb. by rewrite (nth_lookup_Some _ _ _ _ Hp), (nth_lookup_Some _ _ _ _ Hb).
  - intros Hk _. apply Nat.ltb_ge in Hk. by rewrite Hk.
Qed.

Lemma writing_host_follows ps s :
  ep_trace (trace s) = [] -> control_write_follows (H := writing_host ps) s ps 0.
Proof.
  intros Ht l v Hrd (t & Htr & ->). rewrite Ht, app_nil_r in *. split.
  - cbn [respond writing_host]. by rewrite Htr, (after_setup_reads l Hrd).
  - rewrite <- (app_nil_r l) at 1. rewrite app_nil_r. by apply writing_host_writes.
Qed.

(** SET_REPORT of [n] bytes to the joystick interface. *)
Definition set_report_state (n : Z) : st :=
  set_USB_ControlRequest (request_of_bytes (setup_packet 0x21 9 0x0200 0 n)) configured_state.

Definition ten_bytes : list bytes := [[1; 42; 3; 4; 5; 6; 7; 8]; [9; 10]].

Lemma SetReport_loopback_witness :
  wp (on_ControlRequest (H := writing_host ten_bytes) (replicate 64 0))
     (fun _ s' => exists l s2, evolves l (set_report_state 10) s2 /\
        s' = log (Wr PORTD 42) (set_saved 42 s2)) (set_report_state 10).
Proof.
  apply (SetReport_loopback (H := writing_host ten_bytes) _ ten_bytes 0).
  - repeat split.
  - reflexivity.
  - by apply writing_host_follows.
  - repeat constructor; simpl; lia.
  - discriminate.
  - simpl. lia.
  - vm_compute. reflexivity.
  - vm_compute. discriminate.
  - vm_compute. discriminate.
  - simpl. lia.
  - reflexivity.
  - vm_compute. split; [discriminate|reflexivity].
Defined.

Lemma SetReport_short_undefined_witness :
  on_ControlRequest (H := writing_host [[7]]) (replicate 64 0) (set_report_state 1) = Undefined.
Proof.
  apply (SetReport_short_undefined (H := writing_host [[7]]) _ [[7]] 0).
  - repeat split.
  - reflexivity.
  - by apply writing_host_follows.
  - repeat constructor; simpl; lia.
  - discriminate.
  - simpl. lia.
  - vm_compute. reflexivity.
  - vm_compute. discriminate.
  - vm_compute. discriminate.
  - simpl. lia.
  - vm_compute. lia.
Defined.

(** ** An IN endpoint whose bank is free *)

#[export] Instance free_endpoint : Env :=
  {| respond _ r := match r with UDFNUM => 7 | UECFG0X => bit EPDIR
                               | UEINTX => Z.lor (bit RWAL) (bit TXINI) | _ => 0 end;
     async s := s;
     fuel := 100 |}.

#[export] Instance free_endpoint_calm : Calm (H := free_endpoint).
Proof. intros s. apply evolves_refl. Qed.

Definition running_state : st :=
  set_Joystick_HID_Interface (configured_interface Joystick_HID_Interface_init)
    (set_USB_DeviceState DEVICE_STATE_Configured reset_state).

Lemma HID_Device_USBTask_reports_witness :
  wp (HID_Device_USBTask (H := free_endpoint) (H0 := joystick_app (H := free_endpoint) [])
        (H1 := joystick_hid) Joystick_HID_Interface_addr)
     (fun _ s' => exists pins idle frame l,
      let report := bytes_of_report (current_report 0xFF 0 pins) in
      recorded (Rd PINB pins) running_state s' /\ recorded (Rd UDFNUM frame) running_state s' /\
      (Masked (H := free_endpoint) -> idle = 0) /\
      ep_trace (trace s') = l ++ [Wr UENUM 1] /\
      in_packets l = (if bool_decide (report <> replicate 32 0) || (idle =? 0) then [report] else []) /\
      core s' = core (modify_State Joystick_HID_Interface_addr (set_PrevFrameNum frame)
                        (set_PrevJoystickHIDReportBuffer report running_state))) running_state.
Proof.
  apply (HID_Device_USBTask_reports (H := free_endpoint) [] running_state).
  - reflexivity.
  - reflexivity.
  - reflexivity.
  - vm_compute. discriminate.
  - constructor; intros l v (t & _ & ->); reflexivity.
  - simpl. lia.
Defined.

(** ** A bus on which every interrupt is pending, and one with only frames *)

#[export] Instance busy_bus : Env :=
  {| respond _ r := match r with PLLCSR => 3 | UDINT => 0xFF | UDIEN => 0xFF | USBINT => 1
                               | USBCON => 1 | USBSTA => 1 | UESTA0X => 0x80 | _ => 0 end;
     async s := s;
     fuel := 10 |}.
#[export] Instance busy_bus_masked : Masked (H := busy_bus).
Proof. intros s. reflexivity. Qed.

Lemma USB_GEN_vect_refines_witness :
  wp (USB_GEN_vect (H := busy_bus) (H0 := joystick_app (H := busy_bus) [])) (fun _ s' =>
    serviced (H := busy_bus)
             [USB_INT_SOFI; USB_INT_VBUSTI; USB_INT_SUSPI; USB_INT_WAKEUPI; USB_INT_EORSTI]
             (trace reset_state) (device_of reset_state) (trace s') (device_of s')) reset_state.
Proof.
  apply (USB_GEN_vect_refines (H := busy_bus) (H1 := joystick_app (H := busy_bus) []) 0).
  - intros t _. reflexivity.
  - simpl. lia.
Defined.

#[export] Instance frame_bus : Env :=
  {| respond _ r := match r with UDINT => bit SOFI | UDIEN => 0xFF | _ => 0 end;
     async s := s;
     fuel := 10 |}.
#[export] Instance frame_bus_masked : Masked (H := frame_bus).
Proof. intros s. reflexivity. Qed.

Lemma frame_interrupts_calm_witness :
  Calm (H := interrupted frame_bus (joystick_app (H := frame_bus) [])).
Proof.
  apply (frame_interrupts_calm (E := frame_bus) (App := joystick_app (H := frame_bus) [])).
  intros t i Hi. unfold other_bus_interrupts in Hi.
  by repeat (apply elem_of_cons in Hi as [->|Hi]; [reflexivity|]); apply elem_of_nil in Hi.
Defined.

(** ** A host that takes every packet at once *)

#[export] Instance eager_host : Env :=
  {| respond _ r := match r with UEINTX => bit TXINI | UDADDR => 0x85 | UESTA0X => 0x80 | _ => 0 end;
     async s := s;
     fuel := 10 |}.
#[export] Instance eager_host_masked : Masked (H := eager_host).
Proof. intros s. reflexivity. Qed.

(** A host-to-device request in the default state. *)
Definition write_request_state (req value : Z) : st :=
  set_USB_DeviceState DEVICE_STATE_Default
    (set_USB_ControlRequest (request_of_bytes (setup_packet 0 req value 0 0)) reset_state).

Lemma USB_Device_SetAddress_order_witness :
  wp (USB_Device_SetAddress (H := eager_host)) (fun _ s' => exists v0 v1 v2 v3 l1 l2,
    s' = set_USB_DeviceState DEVICE_STATE_Addressed
           (set_trace ([Wr UDADDR (set_bit v3 ADDEN); Rd UDADDR v3] ++ l2 ++ in_ack v2 ++ l1 ++
                       setup_ack v1 ++
                       [Wr UDADDR (u8 (Z.lor (Z.land v0 (bit ADDEN)) 5)); Rd UDADDR v0] ++ [])
                      (write_request_state 5 5)) /\
    forallb is_poll l1 = true /\ forallb is_poll l2 = true) (write_request_state 5 5).
Proof.
  apply (USB_Device_SetAddress_order (H := eager_host) 0 (write_request_state 5 5)).
  - intros v l _. reflexivity.
  - simpl. lia.
  - vm_compute. discriminate.
  - reflexivity.
Defined.

Lemma joystick_SetConfiguration_witness :
  wp (USB_Device_SetConfiguration (H := eager_host) (H0 := joystick_app (H := eager_host) []))
     (fun _ s' => exists addr l later,
        trace s' = later ++ l ++ [] /\ configuration_accepted 0 addr l /\
        USB_DeviceState s' = (if has_bit addr ADDEN then DEVICE_STATE_Configured
                              else DEVICE_STATE_Powered) /\
        USB_Device_ConfigurationNumber s' = 0 /\
        no_idle (Joystick_HID_Interface s') = configured_interface Joystick_HID_Interface_init)
     (write_request_state 9 0).
Proof.
  apply (joystick_SetConfiguration (H := eager_host) [] 0 (write_request_state 9 0)).
  - vm_compute. discriminate.
  - intros l _. reflexivity.
  - simpl. lia.
  - vm_compute. discriminate.
  - reflexivity.
  - reflexivity.
Defined.

(** GET_DESCRIPTOR for a string descriptor (number 9) that does not exist. *)
Definition bad_string_packet : bytes := setup_packet 0x80 6 0x0309 0 64.
Definition sim2 : Env := reading_host bad_string_packet 64.

Lemma ProcessControlRequest_stalls_witness :
  wp (USB_Device_ProcessControlRequest (H := sim2) (H0 := joystick_app (H := sim2) []))
     (fun _ s' => exists l v w,
        evolves (stall w ++ setup_ack v ++ l)
                (set_USB_ControlRequest (request_of_bytes bad_string_packet) configured_state) s' /\
        forallb is_read l = true) configured_state.
Proof.
  apply (ProcessControlRequest_stalls (H := sim2) (H1 := joystick_app (H := sim2) [])
           bad_string_packet configured_state).
  - reflexivity.
  - apply reading_host_pending. reflexivity.
  - reflexivity.
  - reflexivity.
Defined.

(** ** A host that is always ready, and an enabled, halted endpoint *)

#[export] Instance prompt_host : Env :=
  {| respond _ r := match r with UEINTX => Z.lor (bit TXINI) (bit RXOUTI)
                               | UECONX => Z.lor (bit EPEN) (bit STALLRQ)
                               | SIGROW a => (37 * a) mod 256
                               | PORTE => 0x0F | _ => 0 end;
     async s := s;
     fuel := 10 |}.
#[export] Instance prompt_host_masked : Masked (H := prompt_host).
Proof. intros s. reflexivity. Qed.

Definition control_request (packet : bytes) : st :=
  set_USB_DeviceState DEVICE_STATE_Configured
    (set_USB_ControlRequest (request_of_bytes packet) reset_state).

(** ** A bus on which only frames pass: the endpoint never gets ready *)

#[export] Instance passing_frames : Env :=
  {| respond t r := match r with
                    | UDFNUM => match frame_readings UDFNUM t with v :: _ => (v + 1) mod 2048 | [] => 0 end
                    | _ => 0
                    end;
     async s := s;
     fuel := 150 |}.
#[export] Instance passing_frames_masked : Masked (H := passing_frames).
Proof. intros s. reflexivity. Qed.

Lemma Endpoint_WaitUntilReady_returns_witness :
  wp (Endpoint_WaitUntilReady (H := passing_frames)) (fun c s' => exists l,
    runs l running_state s' /\ wait_result DEVICE_STATE_Configured l c) running_state.
Proof.
  apply (Endpoint_WaitUntilReady_returns (H := passing_frames) running_state 0).
  - intros l v vs Hl _. simpl. rewrite app_nil_r, Hl. intros E.
    assert (Hv : 0 <= v < 2048) by (rewrite <- E; apply Z.mod_pos_bound; lia).
    destruct (decide (v = 2047)) as [->|]; [discriminate|]. rewrite Z.mod_small in E; lia.
  - simpl. lia.
Defined.

(** ** A virtual serial port

    An IN endpoint with a bank of [size] bytes, and an OUT endpoint to which the
    packets [ps] are sent. *)

#[export] Instance serial_in (size : nat) : Env :=
  {| respond t r :=
       let n := length (in_bank (ep_trace t)) in
       match r with
       | UECFG0X => bit EPDIR
       | UEINTX => Z.lor (bit TXINI) (if (n <? size)%nat then bit RWAL else 0)
       | UEBCLX => Z.of_nat n mod 256
       | UEBCHX => Z.of_nat n / 256
       | _ => 0
       end;
     async s := s;
     fuel := 10 |}.
#[export] Instance serial_in_calm size : Calm (H := serial_in size).
Proof. intros s. apply evolves_refl. Qed.

#[export] Instance serial_out (ps : list bytes) : Env :=
  {| respond t r :=
       let '(k, j) := out_view (ep_trace t) in
       let p := nth k ps [] in
       match r with
       | UEINTX => if (k <? length ps)%nat then bit RXOUTI else 0
       | UEBCLX => Z.of_nat (length p - j) mod 256
       | UEBCHX => Z.of_nat (length p - j) / 256
       | UEDATX => nth j p 0
       | _ => 0
       end;
     async s := s;
     fuel := 10 |}.
#[export] Instance serial_out_calm ps : Calm (H := serial_out ps).
Proof. intros s. apply evolves_refl. Qed.

Definition line_9600 : CDC_LineEncoding_t :=
  {| BaudRateBPS := 9600; CharFormat := 0; ParityType := 0; DataBits := 8 |}.
Definition serial_state : st :=
  with_line line_9600 (set_USB_DeviceState DEVICE_STATE_Configured reset_state).



(** A host that sends a line encoding and asks for it. *)
#[export] Instance line_env (data : bytes) : Env :=
  {| respond t r :=
       match r with
       | UEINTX => Z.lor (bit TXINI) (bit RXOUTI)
       | UEDATX => nth (data_reads t) data 0
       | _ => 0
       end;
     async s := s;
     fuel := 10 |}.
#[export] Instance line_env_masked data : Masked (H := line_env data).
Proof. intros s. reflexivity. Qed.

Definition set_line_state : st :=
  set_USB_ControlRequest (request_of_bytes (setup_packet 0x21 0x20 0 0 7)) configured_state.

Lemma CDC_line_encoding_roundtrip_witness :
  let e := line_9600 in
  wp (set_line_encoding (H := line_env (bytes_of_line e)) (H1 := CDC_no_events) CDC_Interface_addr ;;
      put (set_USB_ControlRequest (request_of_bytes (setup_packet 0xA1 0x21 0 0 7))) ;;
      get_line_encoding (H := line_env (bytes_of_line e)) CDC_Interface_addr)
     (fun _ s' => LineEncoding (CDC_State (load CDC_Interface_addr s')) = e /\
        exists l1 l2 v v' v'' ready polled, trace s' = l2 ++ l1 ++ trace set_line_state /\
          forallb is_poll ready = true /\ forallb is_poll polled = true /\
          l2 = out_ack v'' ++ polled ++ in_ack v' ++ rev (map (Wr UEDATX) (bytes_of_line e))
                 ++ ready ++ setup_ack v) set_line_state.
Proof.
  intros e. apply (CDC_line_encoding_roundtrip (H := line_env (bytes_of_line e)) (H1 := CDC_no_events) 0).
  - constructor.
    + intros l b Hb. cbn [respond line_env trace set_line_state]. rewrite app_nil_r.
      by apply nth_lookup_Some.
    + intros l _. reflexivity.
    + intros l _. reflexivity.
  - constructor; vm_compute; split; discriminate || reflexivity.
  - cbn. lia.
  - vm_compute. discriminate.
  - reflexivity.
  - vm_compute. discriminate.
  - reflexivity.
Defined.

(** ** A mass storage device that has received a command block *)

#[export] Instance command_env (p : bytes) : Env :=
  {| respond t r :=
       let '(k, j) := out_view (ep_trace t) in
       match r with
       | UEINTX => Z.lor (bit RXOUTI) (if (j <? length p)%nat then bit RWAL else 0)
       | UEDATX => nth j p 0
       | _ => 0
       end;
     async s := s;
     fuel := 100 |}.
#[export] Instance command_env_calm p : Calm (H := command_env p).
Proof. intros s. apply evolves_refl. Qed.

(** TEST UNIT READY for logical unit [lun]. *)
Definition test_unit_ready (lun : Z) : bytes :=
  le_bytes 4 MS_CBW_SIGNATURE ++ [1; 2; 3; 4] ++ [0; 0; 0; 0] ++ [0; lun; 6] ++ replicate 16 0.

(** No unit has been configured, so the command is refused. *)
Lemma MS_Device_ReadInCommandBlock_decides_witness :
  let p := test_unit_ready 0 in
  wp (MS_Device_ReadInCommandBlock (H := command_env p) (H0 := joystick_app (H := command_env p) [])
        MS_Interface_addr)
     (fun ok s' => (ok = true <-> bulk_only_valid 0 p) /\
        if ok then exists l, evolves l (with_block (take 21 p ++ drop 21 (replicate 31 0)) configured_state) s'
                             /\ out_view l = (1, 0)%nat
        else exists v v' l, out_view l = (0, 15)%nat /\
          evolves ([Wr UECONX (set_bit v' STALLRQ); Rd UECONX v'; Wr UENUM 0;
                    Wr UECONX (set_bit v STALLRQ); Rd UECONX v] ++ l)
                  (with_block (take 15 p ++ drop 15 (replicate 31 0)) configured_state) s') configured_state.
Proof.
  intros p. apply (MS_Device_ReadInCommandBlock_decides (H := command_env p)
    (H1 := joystick_app (H := command_env p) []) p configured_state).
  - constructor; intros l v; [| | |intros b]; intros (t & Ht & ->); cbn [respond command_env];
      rewrite Ht, app_nil_r; destruct (out_view l) as [k j]; cbn [fst snd].
    + reflexivity.
    + intros _. by destruct (j <? length p)%nat.
    + intros _. by destruct (j <? length p)%nat.
    + intros _ Hb. by apply nth_lookup_Some.
  - reflexivity.
  - repeat constructor; vm_compute; discriminate || reflexivity.
  - reflexivity.
  - cbn. lia.
Defined.

(** ** A network adapter *)

(** A message buffer of 132 bytes that starts with the given words. *)
Definition adapter_message (words : list Z) : bytes :=
  flat_map (le_bytes 4) words ++ replicate (132 - 4 * length words) 0.
Definition adapter (b : bytes) : USB_ClassInfo_RNDIS_Device_t :=
  set_MessageBuffer b
    {| RNDIS_Config := {| RNDIS_ControlInterfaceNumber := 0; RNDIS_DataINEndpoint := zero_Endpoint_Table;
                          RNDIS_DataOUTEndpoint := zero_Endpoint_Table;
                          RNDIS_NotificationEndpoint := zero_Endpoint_Table;
                          AdapterVendorDescription := [76; 85; 70; 65; 0];
                          AdapterMACAddress := [2; 0; 2; 0; 2; 0];
                          MessageBuffer := None; MessageBufferLength := 132 |};
       RNDIS_State := zero_RNDIS_State |}.


(** ** A printer whose host asks for the port status *)

Definition bank_released (t : list event) : bool :=
  existsb (fun e => match e with Wr UEINTX _ => true | _ => false end) t.
#[export] Instance printer_env : Env :=
  {| respond t r :=
       match r with
       | UEINTX => if bank_released t then bit TXINI else bit RXSTPI
       | _ => 0
       end;
     async s := s;
     fuel := 50 |}.
#[export] Instance printer_env_masked : Masked (H := printer_env).
Proof. intros s. reflexivity. Qed.

Definition port_status_state : st :=
  set_USB_ControlRequest (request_of_bytes (setup_packet 0xA1 PRNT_REQ_GetPortStatus 0 0 1)) configured_state.

Lemma PRNT_GetPortStatus_hangs_witness :
  PRNT_Device_ProcessControlRequest (H := printer_env) (H1 := PRNT_no_events) PRNT_Interface_addr
    port_status_state = OutOfFuel.
Proof.
  apply (PRNT_GetPortStatus_hangs (H := printer_env)).
  - reflexivity.
  - intros l _. cbn [respond printer_env]. unfold bank_released. rewrite existsb_app.
    change (existsb _ (setup_ack _ ++ _)) with true. rewrite orb_true_r. split; reflexivity.
  - vm_compute. discriminate.
  - cbn. lia.
  - reflexivity.
  - reflexivity.
  - reflexivity.
Defined.

(** ** A sample of the host in the bank of the audio endpoint *)

#[export] Instance sample_env (data : bytes) : Env :=
  {| respond t r := match r with UEDATX => nth (data_reads t) data 0 | _ => 0 end;
     async s := s;
     fuel := 0 |}.
#[export] Instance sample_env_masked data : Masked (H := sample_env data).
Proof. intros s. reflexivity. Qed.

(** The sample [-2] is read as [-2] with 16 bits and as [2^24 - 2] with 24. *)
Lemma Audio_Device_ReadSample_values_witness :
  wp (Audio_Device_ReadSample16 (H := sample_env (le_bytes 2 (-2)))) (fun r _ => r = -2) configured_state /\
  wp (Audio_Device_ReadSample24 (H := sample_env (le_bytes 3 (-2))) false) (fun r _ => r = 16777214)
     configured_state.
Proof.
  split.
  - apply (proj1 (Audio_Device_ReadSample_values (H := sample_env (le_bytes 2 (-2))) configured_state)); [lia|].
    intros l b Hb. cbn [respond sample_env trace configured_state]. rewrite app_nil_r. by apply nth_lookup_Some.
  - apply (proj2 (Audio_Device_ReadSample_values (H := sample_env (le_bytes 3 (-2))) configured_state) (-2) false);
      [lia|].
    intros l b Hb. cbn [respond sample_env trace configured_state]. rewrite app_nil_r. by apply nth_lookup_Some.
Defined.

(** ** The PC program and the device *)

(** A kernel that has no answer to the questions about the device, no reports to
    read, and accepts every report that is written. *)
#[export] Instance plain_kernel : Kernel :=
  {| k_open _ := Some 3; k_desc_size _ := None; k_desc _ _ := None; k_name _ _ := None;
     k_phys _ _ := None; k_info _ := None; k_feature _ _ _ := None; k_read _ _ := None;
     k_write _ data := Some (Z.of_nat (length data)); errno _ := 11;
     BUS_USB := 3; BUS_HIL := 4; BUS_BLUETOOTH := 5; BUS_VIRTUAL := 6 |}.

Definition hidraw_transmitted (data : bytes) : Z * bytes :=
  match data with
  | num :: rest => if num =? 0 then (0, rest) else (num, num :: rest)
  | [] => (0, [])
  end.

Definition four_packets : list bytes := replicate 4 (replicate 8 1).
(** SET_REPORT of report number 1, 32 bytes *)
Definition numbered_report_state : st :=
  set_USB_ControlRequest (request_of_bytes (setup_packet 0x21 9 0x0201 0 32)) configured_state.

(** Round 300 writes 32 bytes of 1, which arrive as report number 1. *)
Lemma host_counter_on_port_witness :
  set_report_carries (H := writing_host four_packets) (replicate 64 0) four_packets 0 numbered_report_state
    1 (replicate 32 1) /\
  hidraw_transmitted (report 300) = (1, replicate 32 1) /\
  pwp (host_main 300) (fun r h => r = Listening /\ exists data,
    writes (actions h) !! 299%nat = Some data /\
    forall indet ps K s num payload, hidraw_transmitted data = (num, payload) ->
      set_report_carries (H := writing_host four_packets) indet ps K s num payload ->
      wp (on_ControlRequest (H := writing_host four_packets) indet)
         (fun _ s' => exists l s2, evolves l s s2 /\ s' = log (Wr PORTD 1) (set_saved 1 s2)) s)
    (start (replicate 256 0)).
Proof.
  split; [|split].
  - constructor.
    + repeat split.
    + reflexivity.
    + reflexivity.
    + reflexivity.
    + by apply writing_host_follows.
    + repeat constructor; simpl; lia.
    + simpl. lia.
    + vm_compute. discriminate.
    + vm_compute. discriminate.
    + simpl. lia.
  - vm_compute. reflexivity.
  - apply (host_counter_on_port (H0 := writing_host four_packets) hidraw_transmitted 300 300 (replicate 256 0)).
    + constructor; discriminate.
    + discriminate.
    + intros num rest. reflexivity.
    + lia.
Defined.
