(* ===== verification/FirmwareSim.v ===== *)
(** * More simulated machines

    Concrete environments for the theorems about the whole firmware, about
    unplugging and about the HID requests. *)
From S2P Require Import Prelude Machine Rely Descriptors Endpoint ControlStream UsbController DeviceStandardReq StreamErrors HIDClass UsbInterrupt Safety Joystick HIDRequests Firmware Simulation.

(** ** A noisy machine

    Every interrupt is always pending, every flag is set, and the host sends the
    same SET_REPORT packet over and over. *)

Definition noisy_packet : bytes := [0x21; HID_REQ_SetReport; 0; 2; 0; 0; 10; 0].
#[export] Instance noisy : Env :=
  {| respond t r :=
       match r with
       | UEDATX => nth (data_reads t mod 8) noisy_packet 0
       | UDFNUM => 0x7FF
       | _ => 0xFF
       end;
     async s := s;
     fuel := 40 |}.

Definition noisy_stack : bytes := replicate 64 0xA5.
Definition noisy_avr : Env := avr noisy noisy_stack.

(** The interrupt handler reads no endpoint data. *)
Lemma noisy_interrupts s : data_reads (trace (async (Env := noisy_avr) s)) = data_reads (trace s).
Proof. destruct s as [t i d q [|n|n] p w [c [u f ic [|k|k]]] b m v ci ho]; reflexivity. Qed.

Lemma noisy_read (s : st) :
  exists s', Endpoint_Read_8 (H := noisy_avr) s = Done (nth (data_reads (trace s) mod 8) noisy_packet 0) s' /\
    data_reads (trace s') = S (data_reads (trace s)).
Proof.
  set (s1 := async (Env := noisy_avr) s).
  assert (Hr : data_reads (trace s1) = data_reads (trace s)) by apply noisy_interrupts.
  exists (log (Rd UEDATX (nth (data_reads (trace s1) mod 8) noisy_packet 0)) s1).
  split; [by rewrite <- Hr|]. simpl. by rewrite Hr.
Qed.

(** A SETUP packet is read from some position in the stream on. *)
Lemma noisy_setup n : forall s, exists s',
  read_setup (H := noisy_avr) n s = Done (map (fun i => nth ((data_reads (trace s) + i) mod 8) noisy_packet 0) (seq 0 n)) s'.
Proof.
  induction n as [|n IH]; intros s; [by eexists|]. cbn [read_setup].
  destruct (noisy_read s) as (s1 & Hr & Hn). destruct (IH s1) as (s2 & H2).
  exists s2. unfold bind. rewrite Hr, H2. cbn [ret seq map]. rewrite Nat.add_0_r. do 2 f_equal.
  rewrite <- seq_shift, map_map. apply map_ext. intros i. by rewrite Hn, <- Nat.add_succ_comm.
Qed.

Lemma noisy_reports s b s' :
  read_setup (H := noisy_avr) 8 s = Done b s' -> report_length_ok noisy_stack (request_of_bytes b).
Proof.
  destruct (noisy_setup 8 s) as (s2 & H2). rewrite H2. clear H2.
  generalize (data_reads (trace s)). intros k E.
  assert (Hk : (k mod 8 < 8)%nat) by (apply Nat.mod_upper_bound; lia).
  assert (Hmap : map (fun i => nth ((k + i) mod 8) noisy_packet 0) (seq 0 8)
               = map (fun i => nth ((k mod 8 + i) mod 8) noisy_packet 0) (seq 0 8)).
  { apply map_ext. intros i. by rewrite Nat.Div0.add_mod_idemp_l. }
  rewrite Hmap in E. assert (Hb := f_equal (fun o => match o with Done b _ => b | _ => [] end) E).
  cbv beta iota in Hb. rewrite <- Hb. revert Hk. generalize (k mod 8)%nat. clear.
  intros k Hk. do 8 (destruct k as [|k]; [apply (bool_decide_eq_true_1 (report_length_ok _ _)); vm_compute; reflexivity|]). lia.
Qed.

Lemma noisy_data t : is_u8 (respond t UEDATX).
Proof.
  change (is_u8 (nth (data_reads t mod 8) noisy_packet 0)).
  assert (Hk : (data_reads t mod 8 < 8)%nat) by (apply Nat.mod_upper_bound; lia).
  revert Hk. generalize (data_reads t mod 8)%nat. intros k Hk.
  do 8 (destruct k as [|k]; [by vm_compute|]). lia.
Qed.

Lemma noisy_frame t : is_u16 (respond t UDFNUM).
Proof. by vm_compute. Qed.

Lemma noisy_stack_bytes : all_bytes noisy_stack.
Proof. by apply Forall_replicate. Qed.

(** The hypotheses of the theorems hold, so 100 rounds of the main loop with all
    these interrupts are safe. *)
Lemma firmware_safe_witness :
  wlp (main (H := noisy_avr) noisy_stack 100) (fun _ s' => firmware_ok noisy_stack s') reset_state.
Proof.
  exact (proj1 (firmware_safe noisy (fun s => eq_refl) noisy_stack noisy_data noisy_frame
                  noisy_stack_bytes noisy_reports 100)).
Defined.


Lemma main_boots_witness :
  wp (main_start (H := noisy)) (fun _ s' =>
    follows boot_sequence (rev (device_accesses (trace s'))) /\
    core s' = core (set_USB_IsInitialized true reset_state)) reset_state.
Proof. exact (main_boots (H := noisy) (H0 := fun s => eq_refl)). Defined.

(** ** An unplugged device *)

#[export] Instance unplugged : Env :=
  {| respond _ _ := 0; async s := set_USB_DeviceState DEVICE_STATE_Unattached s; fuel := 1 |}.

Lemma control_streams_unplugged_witness :
  wp (Template_Endpoint_Control_W (H := unplugged) LE_stream (load_byte [1; 2; 3]) 3) (fun code _ => ended code)
     reset_state /\
  wp (Template_Endpoint_Control_R (H := unplugged) LE_stream [1; 2; 3] 3)
     (fun r _ => ended (fst r) /\ snd r = [1; 2; 3]) reset_state /\
  wp (Endpoint_ClearStatusStage (H := unplugged)) (fun _ _ => True) reset_state.
Proof.
  apply (control_streams_unplugged (H := unplugged)).
  - intros s. reflexivity.
  - simpl. lia.
Defined.

(** ** Four ways for a control stream to end *)

(** The endpoint status [flags], three bytes in the bank, and an interrupt handler
    that has recorded the device state [state]. *)
Definition ending (flags state : Z) : Env :=
  {| respond _ r := match r with UEINTX => flags | UEBCLX => 3 | _ => 0 end;
     async s := set_USB_DeviceState state s; fuel := 10 |}.

Definition endings : list (Env * Endpoint_ControlStream_RW_ErrorCodes_t) :=
  [(ending (bit RXOUTI + bit TXINI) DEVICE_STATE_Configured, ENDPOINT_RWCSTREAM_NoError);
   (ending (bit RXSTPI) DEVICE_STATE_Configured, ENDPOINT_RWCSTREAM_HostAborted);
   (ending 0 DEVICE_STATE_Unattached, ENDPOINT_RWCSTREAM_DeviceDisconnected);
   (ending 0 DEVICE_STATE_Suspended, ENDPOINT_RWCSTREAM_BusSuspended)].

(** A request for three bytes. *)
Definition three_asked : st :=
  set_USB_ControlRequest
    {| bmRequestType := 0xA1; bRequest := 1; wValue := 0; wIndex := 0; wLength := 3 |} reset_state.

(** The streams of both directions return with each of the codes, as justified. *)
Lemma control_stream_codes_witness :
  Forall (fun '(env, code) =>
    let W := Template_Endpoint_Control_W (H := env) LE_stream (load_byte [1; 2; 3]) 3 in
    let R := Template_Endpoint_Control_R (H := env) BE_stream [1; 2; 3] 3 in
    (exists s', W three_asked = Done code s' /\ justified RXOUTI code s') /\
    (exists B s', R three_asked = Done (code, B) s' /\ justified TXINI code s')) endings.
Proof.
  assert (Hcodes : forall env code, (forall t, respond (Env := env) t UEDATX = 0) ->
    let W := Template_Endpoint_Control_W (H := env) LE_stream (load_byte [1; 2; 3]) 3 in
    let R := Template_Endpoint_Control_R (H := env) BE_stream [1; 2; 3] 3 in
    (exists s', W three_asked = Done code s') -> (exists B s', R three_asked = Done (code, B) s') ->
    (exists s', W three_asked = Done code s' /\ justified RXOUTI code s') /\
    (exists B s', R three_asked = Done (code, B) s' /\ justified TXINI code s')).
  { intros env code Hdata W R (s1 & E1) (B & s2 & E2).
    assert (HT : LE_stream = LE_stream \/ LE_stream = BE_stream) by (left; reflexivity).
    assert (HT' : BE_stream = LE_stream \/ BE_stream = BE_stream) by (right; reflexivity).
    assert (Hread : forall p, 0 <= p < 3 -> is_Some (load_byte [1; 2; 3] p)).
    { intros p Hp. assert (p = 0 \/ p = 1 \/ p = 2) as Hc by lia.
      destruct Hc as [->|[->| ->]]; eexists; reflexivity. }
    assert (Hbuf : buffer_of 3 [1; 2; 3]) by (split; [repeat constructor; lia|reflexivity]).
    assert (Hu : forall t, is_u8 (respond (Env := env) t UEDATX)) by (intros t; rewrite Hdata; split; lia).
    assert (H3 : is_u16 3) by (split; lia).
    pose proof (proj1 (control_stream_codes (H := env) LE_stream (load_byte [1; 2; 3]) [1; 2; 3] 3 three_asked
                         HT H3 Hread H3 Hbuf Hu)) as HW.
    pose proof (proj2 (control_stream_codes (H := env) BE_stream (load_byte [1; 2; 3]) [1; 2; 3] 3 three_asked
                         HT' H3 Hread H3 Hbuf Hu)) as HR.
    unfold wlp in HW, HR. fold W in HW. fold R in HR. rewrite E1 in HW. rewrite E2 in HR. split.
    - exists s1. split; [exact E1|exact HW].
    - exists B, s2. split; [exact E2|exact (proj2 HR)]. }
  repeat constructor; apply Hcodes; try (intros t; reflexivity); repeat eexists; reflexivity.
Defined.

(** ** A host that sets the idle rate to 16 ms, and reads it back *)

#[export] Instance all_flags : Env :=
  {| respond _ r := match r with UEINTX => 0xFF | _ => 0 end; async s := s; fuel := 10 |}.
#[export] Instance all_flags_masked : Masked (H := all_flags).
Proof. intros s. reflexivity. Qed.

Definition set_idle_state : st :=
  set_USB_ControlRequest (request_of_bytes (setup_packet 0x21 HID_REQ_SetIdle 0x0400 0 0)) running_state.
Definition get_idle_request : USB_Request_Header_t :=
  request_of_bytes (setup_packet 0xA1 HID_REQ_GetIdle 0 0 1).

Lemma HID_idle_roundtrip_witness :
  let request := HID_Device_ProcessControlRequest (H := all_flags) (H0 := joystick_hid) iface [] in
  wp (request ;; put (set_USB_ControlRequest get_idle_request) ;; request) (fun _ s' => exists l l',
    trace s' = l' ++ l ++ [] /\ acknowledged_request l /\ answered_request [4] l' /\
    IdleCount (HID_State (Joystick_HID_Interface s')) = 16) set_idle_state.
Proof.
  apply (HID_idle_roundtrip (H := all_flags) [] 0 set_idle_state get_idle_request).
  - simpl. lia.
  - vm_compute. discriminate.
  - reflexivity.
  - constructor; [reflexivity|intros l _; reflexivity|].
    intros l _. split; [reflexivity|]. split; intros l' _; reflexivity.
  - split; [reflexivity|]. split; reflexivity.
  - split; [reflexivity|]. split; reflexivity.
  - split; [apply Z.leb_le|apply Z.ltb_lt]; reflexivity.
Defined.

(** ** A host that asks for the report *)

Definition get_report_packet : bytes := setup_packet 0xA1 HID_REQ_GetReport 0x0100 0 32.
Definition get_report_state : st :=
  set_USB_ControlRequest (request_of_bytes get_report_packet) running_state.
Definition report_reader : Env := reading_host get_report_packet 32.

Lemma GetReport_answers_witness :
  wp (on_ControlRequest (H := report_reader) []) (fun _ => report_read get_report_state) get_report_state.
Proof.
  apply (GetReport_answers (H := report_reader) [] 0 get_report_state).
  - split; [reflexivity|]. split; reflexivity.
  - reflexivity.
  - vm_compute. discriminate.
  - reflexivity.
  - reflexivity.
  - intros w (t & Ht & ->). change (ep_trace (trace get_report_state)) with (@nil event) in *.
    cbn [respond report_reader reading_host]. rewrite Ht. split; [reflexivity|].
    intros v _. apply reading_host_reads. reflexivity.
  - vm_compute. discriminate.
  - vm_compute. discriminate.
  - vm_compute. lia.
Defined.
