(* ===== verification/Pipe.v ===== *)
(** * Pipe management

    [LUFA/Drivers/USB/Core/Pipe.h] and [AVR8/Pipe_AVR8.h], [Pipe_AVR8.c]: the
    primitive operations on the currently selected pipe of an AVR8 controller in
    host mode, and pipe configuration.  The code is translated for an AT90USB1287
    built with [USB_HOST_ONLY] and without [ORDERED_EP_CONFIG], as the library's
    host demos configure it. *)
From S2P Require Import Prelude Machine Rely Descriptors Endpoint.

(** ** Constants *)

(** Bit numbers of the host registers, from [<avr/io.h>]. *)
Definition PEN := 0.
Definition INMODE := 5.
Definition PFREEZE := 6.
Definition PTOKEN0 := 4.
Definition PTOKEN1 := 5.
Definition PEPNUM0 := 0.
Definition RXINI := 0.
Definition RXSTALLI := 1.
Definition TXOUTI := 2.
Definition TXSTPI := 3.
Definition PERRI := 4.
Definition NAKEDI := 6.

Definition PIPE_CONTROLPIPE := 0.
Definition PIPE_PIPENUM_MASK := 0x0F.
Definition PIPE_EPNUM_MASK := 0x0F.
Definition PIPE_DIR_MASK := 0x80.
Definition PIPE_DIR_OUT := 0x00.
Definition PIPE_DIR_IN := 0x80.

Definition PIPE_ERRORFLAG_OVERFLOW := Z.shiftl 1 6.
Definition PIPE_ERRORFLAG_UNDERFLOW := Z.shiftl 1 5.
Definition PIPE_ERRORFLAG_CRC16 := Z.shiftl 1 4.
Definition PIPE_ERRORFLAG_TIMEOUT := Z.shiftl 1 3.
Definition PIPE_ERRORFLAG_PID := Z.shiftl 1 2.
Definition PIPE_ERRORFLAG_DATAPID := Z.shiftl 1 1.
Definition PIPE_ERRORFLAG_DATATGL := Z.shiftl 1 0.

Definition PIPE_TOKEN_SETUP := Z.shiftl 0 PTOKEN0.
Definition PIPE_TOKEN_IN := Z.shiftl 1 PTOKEN0.
Definition PIPE_TOKEN_OUT := Z.shiftl 2 PTOKEN0.

Definition PIPE_CONTROLPIPE_DEFAULT_SIZE := 64.
Definition PIPE_TOTAL_PIPES := 7.
Definition PIPE_MAX_SIZE := 256.

Inductive Pipe_WaitUntilReady_ErrorCodes_t : Set :=
  | PIPE_READYWAIT_NoError
  | PIPE_READYWAIT_PipeStalled
  | PIPE_READYWAIT_DeviceDisconnected
  | PIPE_READYWAIT_Timeout.

(** [enum USB_Host_States_t], of [Host.h]. *)
Definition HOST_STATE_WaitForDevice := 0.
Definition HOST_STATE_Unattached := 1.
Definition HOST_STATE_Powered := 2.
Definition HOST_STATE_Powered_WaitForDeviceSettle := 3.
Definition HOST_STATE_Powered_WaitForConnect := 4.
Definition HOST_STATE_Powered_DoReset := 5.
Definition HOST_STATE_Powered_ConfigPipe := 6.
Definition HOST_STATE_Default := 7.
Definition HOST_STATE_Default_PostReset := 8.
Definition HOST_STATE_Default_PostAddressSet := 9.
Definition HOST_STATE_Addressed := 10.
Definition HOST_STATE_Configured := 11.

(** [USB_Pipe_Table_t] *)
Record USB_Pipe_Table_t := {
  pipe_Address : Z;
  pipe_Size : Z;
  pipe_EndpointAddress : Z;
  pipe_Type : Z;
  pipe_Banks : Z
}.

Section Pipe.
Context `{Env}.

(** ** [Pipe_AVR8.h] *)

(** [CheckBytes] reaches [PIPE_MAX_SIZE] after five rounds. *)
Definition Pipe_BytesToEPSizeMask (Bytes : Z) : M Z :=
  loop 6 (fun '(MaskVal, CheckBytes) =>
            ret (if (CheckBytes <? Bytes) && (CheckBytes <? PIPE_MAX_SIZE)
                 then inl (u8 (MaskVal + 1), u16 (Z.shiftl CheckBytes 1))
                 else inr (u8 (Z.shiftl MaskVal EPSIZE0))))
       (0, 8).

Definition Pipe_BytesInPipe : M Z := rd UPBCX.

Definition Pipe_GetPipeDirection : M Z :=
  b ← reg_test UPCFG0X EPDIR; ret (if b then PIPE_DIR_IN else PIPE_DIR_OUT).

Definition Pipe_GetCurrentPipe : M Z :=
  n ← rd UPNUM; d ← Pipe_GetPipeDirection;
  ret (Z.lor (Z.land n PIPE_PIPENUM_MASK) d).

Definition Pipe_SelectPipe (Address : Z) : M unit :=
  wr UPNUM (Z.land Address PIPE_PIPENUM_MASK).

Definition Pipe_ResetPipe (Address : Z) : M unit :=
  wr UPRST (Z.shiftl 1 (Z.land Address PIPE_PIPENUM_MASK)) ;; wr UPRST 0.

Definition Pipe_EnablePipe : M unit := reg_set UPCONX PEN.
Definition Pipe_DisablePipe : M unit := reg_clear UPCONX (bit PEN).
Definition Pipe_IsEnabled : M bool := reg_test UPCONX PEN.

Definition Pipe_GetPipeToken : M Z := v ← rd UPCFG0X; ret (Z.land v (Z.shiftl 0x03 PTOKEN0)).
Definition Pipe_SetPipeToken (Token : Z) : M unit :=
  v ← rd UPCFG0X; wr UPCFG0X (Z.lor (Z.land v (Z.lnot (Z.shiftl 0x03 PTOKEN0))) Token).

Definition Pipe_SetInfiniteINRequests : M unit := reg_set UPCONX INMODE.
Definition Pipe_SetFiniteINRequests (TotalINRequests : Z) : M unit :=
  reg_clear UPCONX (bit INMODE) ;; wr UPINRQX TotalINRequests.

Definition Pipe_IsConfigured : M bool := reg_test UPSTAX CFGOK.

Definition Pipe_GetBoundEndpointAddress : M Z :=
  UPCFG0X_Temp ← rd UPCFG0X;
  ret (u8 (Z.lor (Z.land (Z.shiftr UPCFG0X_Temp PEPNUM0) PIPE_EPNUM_MASK)
                 (if has_bit UPCFG0X_Temp PTOKEN1 then ENDPOINT_DIR_IN else ENDPOINT_DIR_OUT))).

Definition Pipe_SetInterruptPeriod (Milliseconds : Z) : M unit := wr UPCFG2X Milliseconds.
Definition Pipe_GetPipeInterrupts : M Z := rd UPINT.
Definition Pipe_HasPipeInterrupted (Address : Z) : M bool :=
  v ← rd UPINT; ret (has_bit v (Z.land Address PIPE_PIPENUM_MASK)).

Definition Pipe_Unfreeze : M unit := reg_clear UPCONX (bit PFREEZE).
Definition Pipe_Freeze : M unit := reg_set UPCONX PFREEZE.
Definition Pipe_IsFrozen : M bool := reg_test UPCONX PFREEZE.

Definition Pipe_ClearError : M unit := wr UPERRX 0 ;; reg_clear UPINTX (bit PERRI).
Definition Pipe_IsError : M bool := reg_test UPINTX PERRI.
Definition Pipe_GetErrorFlags : M Z :=
  e ← rd UPERRX;
  s ← rd UPSTAX;
  ret (Z.lor (Z.land e (Z.lor (Z.lor (Z.lor (Z.lor PIPE_ERRORFLAG_CRC16 PIPE_ERRORFLAG_TIMEOUT)
                                            PIPE_ERRORFLAG_PID) PIPE_ERRORFLAG_DATAPID)
                              PIPE_ERRORFLAG_DATATGL))
             (Z.land s (Z.lor PIPE_ERRORFLAG_OVERFLOW PIPE_ERRORFLAG_UNDERFLOW))).

Definition Pipe_GetBusyBanks : M Z := v ← rd UPSTAX; ret (Z.land v (Z.shiftl 0x03 NBUSYBK0)).
Definition Pipe_IsReadWriteAllowed : M bool := reg_test UPINTX RWAL.
Definition Pipe_IsINReceived : M bool := reg_test UPINTX RXINI.
Definition Pipe_IsOUTReady : M bool := reg_test UPINTX TXOUTI.
Definition Pipe_IsSETUPSent : M bool := reg_test UPINTX TXSTPI.
Definition Pipe_ClearSETUP : M unit := reg_clear UPINTX (Z.lor (bit TXSTPI) (bit FIFOCON)).
Definition Pipe_ClearIN : M unit := reg_clear UPINTX (Z.lor (bit RXINI) (bit FIFOCON)).
Definition Pipe_ClearOUT : M unit := reg_clear UPINTX (Z.lor (bit TXOUTI) (bit FIFOCON)).
Definition Pipe_IsNAKReceived : M bool := reg_test UPINTX NAKEDI.
Definition Pipe_ClearNAKReceived : M unit := reg_clear UPINTX (bit NAKEDI).
Definition Pipe_IsStalled : M bool := reg_test UPINTX RXSTALLI.
Definition Pipe_ClearStall : M unit := reg_clear UPINTX (bit RXSTALLI).

Definition Pipe_Read_8 : M Z := rd UPDATX.
Definition Pipe_Write_8 (Data : Z) : M unit := wr UPDATX Data.
Definition Pipe_Discard_8 : M unit := rd UPDATX ;; ret tt.
Definition Pipe_Read_16_LE : M Z :=
  b0 ← rd UPDATX; b1 ← rd UPDATX; ret (le_val [b0; b1]).
Definition Pipe_Read_16_BE : M Z :=
  b1 ← rd UPDATX; b0 ← rd UPDATX; ret (le_val [b0; b1]).
Definition Pipe_Write_16_LE (Data : Z) : M unit :=
  wr UPDATX (Z.land Data 0xFF) ;; wr UPDATX (Z.shiftr Data 8).
Definition Pipe_Write_16_BE (Data : Z) : M unit :=
  wr UPDATX (Z.shiftr Data 8) ;; wr UPDATX (Z.land Data 0xFF).
Definition Pipe_Discard_16 : M unit := rd UPDATX ;; rd UPDATX ;; ret tt.
Definition Pipe_Read_32_LE : M Z :=
  b0 ← rd UPDATX; b1 ← rd UPDATX; b2 ← rd UPDATX; b3 ← rd UPDATX; ret (le_val [b0; b1; b2; b3]).
Definition Pipe_Read_32_BE : M Z :=
  b3 ← rd UPDATX; b2 ← rd UPDATX; b1 ← rd UPDATX; b0 ← rd UPDATX; ret (le_val [b0; b1; b2; b3]).
Definition Pipe_Write_32_LE (Data : Z) : M unit :=
  wr UPDATX (Z.land Data 0xFF) ;; wr UPDATX (Z.shiftr Data 8) ;;
  wr UPDATX (Z.shiftr Data 16) ;; wr UPDATX (Z.shiftr Data 24).
Definition Pipe_Write_32_BE (Data : Z) : M unit :=
  wr UPDATX (Z.shiftr Data 24) ;; wr UPDATX (Z.shiftr Data 16) ;;
  wr UPDATX (Z.shiftr Data 8) ;; wr UPDATX (Z.land Data 0xFF).
Definition Pipe_Discard_32 : M unit :=
  rd UPDATX ;; rd UPDATX ;; rd UPDATX ;; rd UPDATX ;; ret tt.

(** ** [Pipe_AVR8.c] *)

(** [for (PNum = Number; PNum < PIPE_TOTAL_PIPES; PNum++)]: [n] more rounds from
    [PNum]; the result is [false] on the early return. *)
Fixpoint pipe_configure_from (n : nat) (PNum Number cfg0 cfg1 : Z) : M bool :=
  match n with
  | O => ret true
  | S n =>
      Pipe_SelectPipe PNum ;;
      '(c0, c1, c2, ien) ←
        (if PNum =? Number then ret (cfg0, cfg1, 0, 0)
         else a ← rd UPCFG0X; b ← rd UPCFG1X; c ← rd UPCFG2X; d ← rd UPIENX; ret (a, b, c, d));
      if negb (has_bit c1 ALLOC) then pipe_configure_from n (PNum + 1) Number cfg0 cfg1
      else
        Pipe_DisablePipe ;;
        reg_clear UPCFG1X (bit ALLOC) ;;
        Pipe_EnablePipe ;;
        wr UPCFG0X c0 ;;
        wr UPCFG1X c1 ;;
        wr UPCFG2X c2 ;;
        wr UPIENX ien ;;
        Pipe_SetInfiniteINRequests ;;
        ok ← Pipe_IsConfigured;
        if negb ok then ret false else pipe_configure_from n (PNum + 1) Number cfg0 cfg1
  end.

(** The token of a new pipe. *)
Definition pipe_token (Address Type_ : Z) : Z :=
  if Type_ =? EP_TYPE_CONTROL then PIPE_TOKEN_SETUP
  else if Z.land Address PIPE_DIR_IN =? 0 then PIPE_TOKEN_OUT else PIPE_TOKEN_IN.

(** The value for UPCFG0X. *)
Definition pipe_cfg0 (Address Type_ EndpointAddress : Z) : Z :=
  u8 (Z.lor (Z.lor (Z.shiftl Type_ EPTYPE0) (pipe_token Address Type_))
            (Z.shiftl (Z.land EndpointAddress PIPE_EPNUM_MASK) PEPNUM0)).

Definition Pipe_ConfigurePipe (Address Type_ EndpointAddress Size Banks : Z) : M bool :=
  let Number := Z.land Address PIPE_EPNUM_MASK in
  if PIPE_TOTAL_PIPES <=? Number then ret false
  else
    size ← Pipe_BytesToEPSizeMask Size;
    ok ← pipe_configure_from (Z.to_nat (PIPE_TOTAL_PIPES - Number)) Number Number
           (pipe_cfg0 Address Type_ EndpointAddress)
           (u8 (Z.lor (Z.lor (bit ALLOC) (if 1 <? Banks then bit EPBK0 else 0)) size));
    if (ok : bool) then Pipe_SelectPipe Number ;; ret true else ret false.

Fixpoint Pipe_ConfigurePipeTable (Table : list USB_Pipe_Table_t) : M bool :=
  match Table with
  | [] => ret true
  | e :: Table =>
      if pipe_Address e =? 0 then Pipe_ConfigurePipeTable Table
      else
        ok ← Pipe_ConfigurePipe (pipe_Address e) (pipe_Type e) (pipe_EndpointAddress e)
               (pipe_Size e) (pipe_Banks e);
        if negb ok then ret false else Pipe_ConfigurePipeTable Table
  end.

Fixpoint clear_pipes (n : nat) (PNum : Z) : M unit :=
  match n with
  | O => ret tt
  | S n =>
      Pipe_SelectPipe PNum ;;
      wr UPIENX 0 ;; wr UPINTX 0 ;; wr UPCFG1X 0 ;;
      Pipe_DisablePipe ;;
      clear_pipes n (PNum + 1)
  end.

Definition Pipe_ClearPipes : M unit :=
  wr UPINT 0 ;; clear_pipes (Z.to_nat PIPE_TOTAL_PIPES) 0.

Fixpoint find_bound (n : nat) (PNum EndpointAddress : Z) : M bool :=
  match n with
  | O => ret false
  | S n =>
      Pipe_SelectPipe PNum ;;
      ok ← Pipe_IsConfigured;
      if negb ok then find_bound n (PNum + 1) EndpointAddress
      else
        a ← Pipe_GetBoundEndpointAddress;
        if a =? EndpointAddress then ret true else find_bound n (PNum + 1) EndpointAddress
  end.

Definition Pipe_IsEndpointBound (EndpointAddress : Z) : M bool :=
  PrevPipeNumber ← Pipe_GetCurrentPipe;
  found ← find_bound (Z.to_nat PIPE_TOTAL_PIPES) 0 EndpointAddress;
  if (found : bool) then ret true
  else Pipe_SelectPipe PrevPipeNumber ;; ret false.

(** [USB_Host_GetFrameNumber], of [Host_AVR8.h]. *)
Definition USB_Host_GetFrameNumber : M Z := rd UHFNUM.

(** [USB_HostState] is a volatile variable. *)
Definition get_HostState : M Z := get_volatile (fun s => USB_HostState (Host s)).

Definition Pipe_WaitUntilReady : M Pipe_WaitUntilReady_ErrorCodes_t :=
  PreviousFrameNumber ← USB_Host_GetFrameNumber;
  loop fuel (fun '(TimeoutMSRem, PreviousFrameNumber) =>
    token ← Pipe_GetPipeToken;
    ready ← (if token =? PIPE_TOKEN_IN then Pipe_IsINReceived else Pipe_IsOUTReady);
    if (ready : bool) then ret (inr PIPE_READYWAIT_NoError)
    else
      stalled ← Pipe_IsStalled;
      if (stalled : bool) then ret (inr PIPE_READYWAIT_PipeStalled)
      else
        state ← get_HostState;
        if state =? HOST_STATE_Unattached then ret (inr PIPE_READYWAIT_DeviceDisconnected)
        else
          CurrentFrameNumber ← USB_Host_GetFrameNumber;
          ret (if CurrentFrameNumber =? PreviousFrameNumber
               then inl (TimeoutMSRem, PreviousFrameNumber)
               else if TimeoutMSRem =? 0 then inr PIPE_READYWAIT_Timeout
               else inl (u8 (TimeoutMSRem - 1), CurrentFrameNumber)))
    (USB_STREAM_TIMEOUT_MS, PreviousFrameNumber).
End Pipe.

(** ** Bank sizes *)

(** The size code of the smallest bank that holds the bytes, at most that of the
    largest bank of the controller. *)
Definition pipe_size_code (Bytes : Z) : Z := Z.min 5 (size_code Bytes).

Section PipeBankSize.
Context (Bytes : Z).
Let body : Z * Z -> M (Z * Z + Z) := fun '(MaskVal, CheckBytes) =>
  ret (if (CheckBytes <? Bytes) && (CheckBytes <? PIPE_MAX_SIZE)
       then inl (u8 (MaskVal + 1), u16 (Z.shiftl CheckBytes 1))
       else inr (u8 (Z.shiftl MaskVal EPSIZE0))).

Lemma pipe_size_loop k : forall m s, 0 <= m <= pipe_size_code Bytes ->
  pipe_size_code Bytes - m < Z.of_nat k ->
  loop k body (m, 8 * 2 ^ m) s = Done (Z.shiftl (pipe_size_code Bytes) EPSIZE0) s.
Proof.
  induction k as [|k IH]; intros m s Hm Hk; [lia|]. cbn [loop]. unfold bind, body at 1, ret.
  pose proof (size_code_le Bytes m ltac:(lia)) as Hiff. unfold pipe_size_code in *.
  assert (Hpow : 8 * 2 ^ m < PIPE_MAX_SIZE <-> m < 5).
  { unfold PIPE_MAX_SIZE. change 256 with (8 * 2 ^ 5). pose proof (Z.pow_lt_mono_r_iff 2 m 5). lia. }
  assert (0 < 2 ^ m <= 2 ^ 5) by (split; [apply Z.pow_pos_nonneg|apply Z.pow_le_mono_r]; lia).
  destruct (Z.ltb_spec (8 * 2 ^ m) Bytes), (Z.ltb_spec (8 * 2 ^ m) PIPE_MAX_SIZE); cbn [andb].
  2-4: replace m with (Z.min 5 (size_code Bytes)) by lia; rewrite (wrap_id 8); [done|];
       unfold fits, EPSIZE0; rewrite Z.shiftl_mul_pow2; lia.
  rewrite (wrap_id 8) by (unfold fits; lia).
  rewrite Z.shiftl_mul_pow2, (wrap_id 16) by (unfold fits; lia).
  replace (8 * 2 ^ m * 2 ^ 1) with (8 * 2 ^ (m + 1)) by (rewrite Z.pow_add_r by lia; lia).
  apply IH; lia.
Qed.
End PipeBankSize.

(** [Pipe_BytesToEPSizeMask] terminates for every size. *)
Lemma Pipe_BytesToEPSizeMask_correct Bytes s :
  Pipe_BytesToEPSizeMask Bytes s = Done (Z.shiftl (pipe_size_code Bytes) EPSIZE0) s.
Proof.
  assert (0 <= pipe_size_code Bytes <= 5) by (unfold pipe_size_code, size_code; lia).
  apply (pipe_size_loop Bytes 6 0); lia.
Qed.

(** ** The bound endpoint of a pipe *)

(** A value of [0..n-1], case by case. *)
Lemma range_cases (n : nat) (P : Z -> bool) x :
  forallb P (seqZ 0 (Z.of_nat n)) = true -> 0 <= x < Z.of_nat n -> P x = true.
Proof. intros HP Hx. apply (proj1 (List.forallb_forall _ _) HP), list_elem_of_In, elem_of_seqZ. lia. Qed.

(** The direction is inverted: a pipe configured for an IN endpoint is reported as
    bound to the OUT endpoint of the same number, and the other way round. *)
Lemma Pipe_GetBoundEndpointAddress_inverted `{Env} Address Type_ Ep s :
  Type_ = EP_TYPE_ISOCHRONOUS \/ Type_ = EP_TYPE_BULK \/ Type_ = EP_TYPE_INTERRUPT ->
  0 <= Ep < 16 -> respond (trace (async s)) UPCFG0X = pipe_cfg0 Address Type_ Ep ->
  wp Pipe_GetBoundEndpointAddress (fun a _ => a =
    Z.lor Ep (if Z.land Address PIPE_DIR_IN =? 0 then ENDPOINT_DIR_IN else ENDPOINT_DIR_OUT)) s.
Proof.
  intros Ht Hep Hcfg. unfold Pipe_GetBoundEndpointAddress, rd, bind, wp. cbn [ret]. rewrite Hcfg.
  unfold pipe_cfg0, pipe_token.
  assert ((Type_ =? EP_TYPE_CONTROL) = false) as -> by (by destruct Ht as [->|[->| ->]]).
  apply Z.eqb_eq. revert Ep Hep Hcfg. intros Ep Hep _. revert Ep Hep.
  destruct (Z.land Address PIPE_DIR_IN =? 0); destruct Ht as [->|[->| ->]]; intros Ep Hep;
    match goal with |- (?f =? ?g) = true =>
      let F := eval pattern Ep in (f =? g) in
      match F with ?P Ep => exact (range_cases 16 P Ep eq_refl Hep) end end.
Qed.
