(* ===== verification/HostController.v ===== *)
(** * The USB controller in host mode

    [LUFA/Drivers/USB/Core/AVR8/Host_AVR8.h], the host branches of
    [USBController_AVR8.c] and [USBInterrupt_AVR8.c], and the waiting and bus
    reset routines of [Host_AVR8.c], for an AT90USB1287 with an 8 MHz clock built
    with [USB_HOST_ONLY], static options, and automatic VBUS management. *)
From S2P Require Import Prelude Machine Rely Descriptors Endpoint UsbController UsbInterrupt Pipe.

(** ** Constants *)

(** Bit numbers, from [<avr/io.h>]. *)
Definition RESUME := 2.
Definition RESET := 1.
Definition SOFEN := 0.
Definition RXRSMI := 4.
Definition SPEED := 3.
Definition HOST := 6.
Definition IDTE := 1.
Definition UIMOD := 7.
Definition UVCONE := 4.
Definition VBUSHWC := 2.
Definition VBUSREQ := 1.
Definition VBUSRQC := 0.
Definition PLLP1 := 3.
Definition PLLP0 := 2.

Definition USB_HOST_DEVICEADDRESS := 1.
Definition HOST_DEVICE_SETTLE_DELAY_MS := 1000.

(** [enum USB_Host_ErrorCodes_t], [enum USB_Host_EnumerationErrorCodes_t] *)
Definition HOST_ERROR_VBusVoltageDip := 0.
Definition HOST_ENUMERROR_NoError := 0.
Definition HOST_ENUMERROR_WaitStage := 1.
Definition HOST_ENUMERROR_NoDeviceDetected := 2.
Definition HOST_ENUMERROR_ControlError := 3.
Definition HOST_ENUMERROR_PipeConfigError := 4.

(** [enum USB_Host_WaitMSErrorCodes_t] *)
Definition HOST_WAITERROR_Successful := 0.
Definition HOST_WAITERROR_DeviceDisconnect := 1.
Definition HOST_WAITERROR_PipeError := 2.
Definition HOST_WAITERROR_SetupStalled := 3.

(** [USB_PLL_PSC] of the AT90USB1287 for [F_USB] = 8 MHz. *)
Definition USB_PLL_PSC_AT90USB1287 := Z.lor (bit PLLP1) (bit PLLP0).

(** ** The variables of host mode *)

Definition put_Host (f : host_vars -> host_vars) : M unit := put (fun s => set_Host (f (Host s)) s).
Definition get_Host {A} (f : host_vars -> A) : M A := get (fun s => f (Host s)).

Definition set_USB_HostState (x : Z) (h : host_vars) : host_vars :=
  {| USB_HostState := x; USB_Host_ConfigurationNumber := USB_Host_ConfigurationNumber h;
     USB_Host_ControlPipeSize := USB_Host_ControlPipeSize h;
     WaitMSRemaining := WaitMSRemaining h; PostWaitState := PostWaitState h |}.
Definition set_USB_Host_ConfigurationNumber (x : Z) (h : host_vars) : host_vars :=
  {| USB_HostState := USB_HostState h; USB_Host_ConfigurationNumber := x;
     USB_Host_ControlPipeSize := USB_Host_ControlPipeSize h;
     WaitMSRemaining := WaitMSRemaining h; PostWaitState := PostWaitState h |}.
Definition set_USB_Host_ControlPipeSize (x : Z) (h : host_vars) : host_vars :=
  {| USB_HostState := USB_HostState h;
     USB_Host_ConfigurationNumber := USB_Host_ConfigurationNumber h;
     USB_Host_ControlPipeSize := x;
     WaitMSRemaining := WaitMSRemaining h; PostWaitState := PostWaitState h |}.
Definition set_WaitMSRemaining (x : Z) (h : host_vars) : host_vars :=
  {| USB_HostState := USB_HostState h;
     USB_Host_ConfigurationNumber := USB_Host_ConfigurationNumber h;
     USB_Host_ControlPipeSize := USB_Host_ControlPipeSize h;
     WaitMSRemaining := x; PostWaitState := PostWaitState h |}.
Definition set_PostWaitState (x : Z) (h : host_vars) : host_vars :=
  {| USB_HostState := USB_HostState h;
     USB_Host_ConfigurationNumber := USB_Host_ConfigurationNumber h;
     USB_Host_ControlPipeSize := USB_Host_ControlPipeSize h;
     WaitMSRemaining := WaitMSRemaining h; PostWaitState := x |}.

Section HostController.
Context `{Env}.

(** ** [Host_AVR8.h] *)

Definition USB_Host_EnableSOFEvents : M unit := USB_INT_Enable USB_INT_HSOFI.
Definition USB_Host_DisableSOFEvents : M unit := USB_INT_Disable USB_INT_HSOFI.
Definition USB_Host_ResetBus : M unit := reg_set UHCON RESET.
Definition USB_Host_IsBusResetComplete : M bool := b ← reg_test UHCON RESET; ret (negb b).
Definition USB_Host_ResumeBus : M unit := reg_set UHCON SOFEN.
Definition USB_Host_SuspendBus : M unit := reg_clear UHCON (bit SOFEN).
Definition USB_Host_IsBusSuspended : M bool := b ← reg_test UHCON SOFEN; ret (negb b).
Definition USB_Host_IsDeviceFullSpeed : M bool := reg_test USBSTA SPEED.
Definition USB_Host_IsRemoteWakeupSent : M bool := reg_test UHINT RXRSMI.
Definition USB_Host_ClearRemoteWakeupSent : M unit := reg_clear UHINT (bit RXRSMI).
Definition USB_Host_ResumeFromWakeupRequest : M unit := reg_set UHCON RESUME.
Definition USB_Host_IsResumeFromWakeupRequestSent : M bool :=
  b ← reg_test UHCON RESUME; ret (negb b).
Definition USB_Host_HostMode_On : M unit := reg_set USBCON HOST.
Definition USB_Host_HostMode_Off : M unit := reg_clear USBCON (bit HOST).
Definition USB_Host_VBUS_Auto_Enable : M unit :=
  reg_clear OTGCON (bit VBUSHWC) ;; reg_set UHWCON UVCONE.
Definition USB_Host_VBUS_Manual_Enable : M unit :=
  reg_set OTGCON VBUSHWC ;; reg_clear UHWCON (bit UVCONE) ;; reg_set DDRE 7.
Definition USB_Host_VBUS_Auto_On : M unit := reg_set OTGCON VBUSREQ.
Definition USB_Host_VBUS_Manual_On : M unit := reg_set PORTE 7.
Definition USB_Host_VBUS_Auto_Off : M unit := reg_set OTGCON VBUSRQC.
Definition USB_Host_VBUS_Manual_Off : M unit := reg_clear PORTE (bit 7).
Definition USB_Host_SetDeviceAddress (Address : Z) : M unit := wr UHADDR (Z.land Address 0x7F).

(** ** [USBInterrupt_AVR8.c]: all interrupts, in host mode *)

Definition USB_INT_DisableAllInterrupts_Host : M unit :=
  reg_clear USBCON (Z.lor (bit VBUSTE) (bit IDTE)) ;; wr UHIEN 0.
Definition USB_INT_ClearAllInterrupts_Host : M unit := wr USBINT 0 ;; wr UHINT 0.

(** ** [USBController_AVR8.c] *)

Definition USB_PLL_On_Host : M unit :=
  wr PLLCSR USB_PLL_PSC_AT90USB1287 ;; wr PLLCSR (Z.lor USB_PLL_PSC_AT90USB1287 (bit PLLE)).

Definition USB_Init_Host : M unit :=
  put_Host (set_USB_HostState HOST_STATE_Unattached) ;;
  put_Host (set_USB_Host_ConfigurationNumber 0) ;;
  put_Host (set_USB_Host_ControlPipeSize PIPE_CONTROLPIPE_DEFAULT_SIZE) ;;
  USB_Host_HostMode_On ;;
  USB_Host_VBUS_Auto_Off ;;
  USB_Host_VBUS_Manual_Enable ;;
  USB_Host_VBUS_Manual_On ;;
  USB_INT_Enable USB_INT_SRPI ;;
  USB_INT_Enable USB_INT_BCERRI ;;
  USB_Attach.

(** [USB_CurrentMode] is the constant [USB_MODE_Host]. *)
Definition USB_ResetInterface_Host : M unit :=
  USB_INT_DisableAllInterrupts_Host ;;
  USB_INT_ClearAllInterrupts_Host ;;
  USB_Controller_Reset ;;
  USB_CLK_Unfreeze ;;
  reg_clear UHWCON (bit UIMOD) ;;
  when (negb (option_set USB_OPT_MANUAL_PLL)) (USB_PLL_On_Host ;; spin_until USB_PLL_IsReady) ;;
  USB_Init_Host ;;
  USB_OTGPAD_On.

(** [USB_Init], which programs no [PLLFRQ] on this controller. *)
Definition USB_Init_HostMode : M unit :=
  USB_OTGPAD_Off ;;
  (if negb (option_set USB_OPT_REG_DISABLED) then USB_REG_On else USB_REG_Off) ;;
  put (set_USB_IsInitialized true) ;;
  USB_ResetInterface_Host.

Definition USB_Disable_HostMode : M unit :=
  USB_INT_DisableAllInterrupts_Host ;;
  USB_INT_ClearAllInterrupts_Host ;;
  USB_Detach ;;
  USB_Controller_Disable ;;
  when (negb (option_set USB_OPT_MANUAL_PLL)) USB_PLL_Off ;;
  when (negb (option_set USB_OPT_REG_KEEP_ENABLED)) USB_REG_Off ;;
  USB_OTGPAD_Off ;;
  put (set_USB_IsInitialized false).

(** ** [Host_AVR8.c]: waiting and bus reset *)

(** One round of [while (MS)]; [inr] is the error code at the end of the loop. *)
Definition wait_ms_round (MS : Z) : M (Z + Z) :=
  if MS =? 0 then ret (inr HOST_WAITERROR_Successful)
  else
    sof ← USB_INT_HasOccurred USB_INT_HSOFI;
    when sof (USB_INT_Clear USB_INT_HSOFI) ;;
    let MS := if (sof : bool) then u8 (MS - 1) else MS in
    state ← get_HostState;
    if state =? HOST_STATE_Unattached then ret (inr HOST_WAITERROR_DeviceDisconnect)
    else
      error ← Pipe_IsError;
      if (error : bool) then Pipe_ClearError ;; ret (inr HOST_WAITERROR_PipeError)
      else
        stalled ← Pipe_IsStalled;
        if (stalled : bool) then Pipe_ClearStall ;; ret (inr HOST_WAITERROR_SetupStalled)
        else ret (inl MS).

Definition USB_Host_WaitMS (MS : Z) : M Z :=
  BusSuspended ← USB_Host_IsBusSuspended;
  HSOFIEnabled ← USB_INT_IsEnabled USB_INT_HSOFI;
  USB_INT_Disable USB_INT_HSOFI ;;
  USB_INT_Clear USB_INT_HSOFI ;;
  USB_Host_ResumeBus ;;
  ErrorCode ← loop fuel wait_ms_round MS;
  when BusSuspended USB_Host_SuspendBus ;;
  when HSOFIEnabled (USB_INT_Enable USB_INT_HSOFI) ;;
  ret ErrorCode.

(** [Delay_MS(1)] with a constant argument is [_delay_ms(1)]. *)
Definition Delay_MS (Milliseconds : Z) : M unit := emit (delay_ms_ev Milliseconds).

(** [for (MSRem = 10; MSRem != 0; MSRem--)] *)
Fixpoint await_frame (MSRem : nat) : M unit :=
  match MSRem with
  | O => ret tt
  | S MSRem =>
      sof ← USB_INT_HasOccurred USB_INT_HSOFI;
      if (sof : bool) then USB_INT_Clear USB_INT_HSOFI ;; USB_INT_Clear USB_INT_DDISCI
      else Delay_MS 1 ;; await_frame MSRem
  end.

Definition USB_Host_ResetDevice : M unit :=
  BusSuspended ← USB_Host_IsBusSuspended;
  USB_INT_Disable USB_INT_DDISCI ;;
  USB_Host_ResetBus ;;
  spin_until USB_Host_IsBusResetComplete ;;
  USB_Host_ResumeBus ;;
  put_Host (set_USB_Host_ConfigurationNumber 0) ;;
  HSOFIEnabled ← USB_INT_IsEnabled USB_INT_HSOFI;
  USB_INT_Disable USB_INT_HSOFI ;;
  USB_INT_Clear USB_INT_HSOFI ;;
  await_frame 10 ;;
  when HSOFIEnabled (USB_INT_Enable USB_INT_HSOFI) ;;
  when BusSuspended USB_Host_SuspendBus ;;
  USB_INT_Enable USB_INT_DDISCI.
End HostController.
