(* ===== verification/HostStandardReq.v ===== *)
(** * Standard requests of the host

    [LUFA/Drivers/USB/Core/HostStandardReq.c] and [HostStandardReq.h]: control
    transfers from the host to an attached device.  A buffer pointer is the object
    it leads to, [None] for [NULL]; a function that fills a buffer returns its new
    contents, and leaving the object is undefined behaviour. *)
From S2P Require Import Prelude Machine Rely StdDescriptors Descriptors Endpoint ControlStream UsbController DeviceStandardReq EndpointStream UsbInterrupt Safety Pipe HostController.

Definition USB_HOST_TIMEOUT_MS := 1000.
Definition REQ_GetInterface := 10.
Definition CONTROL_REQTYPE_DIRECTION := 0x80.

(** [enum USB_Host_SendControlErrorCodes_t]: the codes of [USB_Host_WaitMS] are
    returned as codes of a control request. *)
Definition HOST_SENDCONTROL_Successful := 0.
Definition HOST_SENDCONTROL_DeviceDisconnected := 1.
Definition HOST_SENDCONTROL_PipeError := 2.
Definition HOST_SENDCONTROL_SetupStalled := 3.
Definition HOST_SENDCONTROL_SoftwareTimeOut := 4.

(** [enum USB_WaitForTypes_t] *)
Inductive USB_WaitForTypes_t : Set :=
  | USB_HOST_WAITFOR_SetupSent
  | USB_HOST_WAITFOR_InReceived
  | USB_HOST_WAITFOR_OutReady.

(** The bytes of [USB_ControlRequest] in memory. *)
Definition request_bytes (r : USB_Request_Header_t) : bytes :=
  [bmRequestType r; bRequest r] ++ le_bytes 2 (wValue r) ++ le_bytes 2 (wIndex r) ++
  le_bytes 2 (wLength r).

Section HostStandardReq.
Context `{Env}.

(** The condition of the loop of [USB_Host_WaitForIOS]. *)
Definition ios_ready (WaitType : USB_WaitForTypes_t) : M bool :=
  match WaitType with
  | USB_HOST_WAITFOR_SetupSent => Pipe_IsSETUPSent
  | USB_HOST_WAITFOR_InReceived => Pipe_IsINReceived
  | USB_HOST_WAITFOR_OutReady => Pipe_IsOUTReady
  end.

Definition USB_Host_WaitForIOS (WaitType : USB_WaitForTypes_t) : M Z :=
  loop fuel (fun TimeoutCounter =>
    ready ← ios_ready WaitType;
    if (ready : bool) then ret (inr HOST_SENDCONTROL_Successful)
    else
      ErrorCode ← USB_Host_WaitMS 1;
      ret (if negb (ErrorCode =? HOST_WAITERROR_Successful) then inr ErrorCode
           else if TimeoutCounter =? 0 then inr HOST_SENDCONTROL_SoftwareTimeOut
           else inl (u16 (TimeoutCounter - 1))))
    USB_HOST_TIMEOUT_MS.

(** [if ((ReturnStatus = m) != HOST_SENDCONTROL_Successful) return ReturnStatus;] *)
Definition or_return {B} (m : M Z) (Buffer : B) (k : M (Z * B)) : M (Z * B) :=
  ReturnStatus ← m;
  if ReturnStatus =? HOST_SENDCONTROL_Successful then k else ret (ReturnStatus, Buffer).

(** The loop over the bytes of the request header. *)
Fixpoint write_header (l : bytes) : M unit :=
  match l with [] => ret tt | b :: l => Pipe_Write_8 b ;; write_header l end.

(** [while (Pipe_BytesInPipe() && DataLen)] *)
Definition drain_pipe (Buffer : bytes) (DataStream DataLen : Z) : M (bytes * Z * Z) :=
  loop (S (Z.to_nat DataLen)) (fun '(Buffer, DataStream, DataLen) =>
    n ← Pipe_BytesInPipe;
    if negb (n =? 0) && negb (DataLen =? 0) then
      b ← Pipe_Read_8;
      match store_byte Buffer DataStream b with
      | Some Buffer => ret (inl (Buffer, DataStream + 1, u16 (DataLen - 1)))
      | None => undefined
      end
    else ret (inr (Buffer, DataStream, DataLen)))
  (Buffer, DataStream, DataLen).

(** [while (DataLen)] of a device-to-host request *)
Definition read_data (Buffer : bytes) (DataLen : Z) : M (Z * bytes) :=
  loop fuel (fun '(Buffer, DataStream, DataLen) =>
    if DataLen =? 0 then ret (inr (HOST_SENDCONTROL_Successful, Buffer))
    else
      Pipe_Unfreeze ;;
      ReturnStatus ← USB_Host_WaitForIOS USB_HOST_WAITFOR_InReceived;
      if negb (ReturnStatus =? HOST_SENDCONTROL_Successful) then ret (inr (ReturnStatus, Buffer))
      else
        n ← Pipe_BytesInPipe;
        let DataLen := if n =? 0 then 0 else DataLen in
        x ← drain_pipe Buffer DataStream DataLen;
        Pipe_Freeze ;;
        Pipe_ClearIN ;;
        ret (inl x))
  (Buffer, 0, DataLen).

(** [while (DataLen && (Pipe_BytesInPipe() < USB_Host_ControlPipeSize))] *)
Definition fill_pipe (Buffer : bytes) (DataStream DataLen : Z) : M (Z * Z) :=
  loop (S (Z.to_nat DataLen)) (fun '(DataStream, DataLen) =>
    if DataLen =? 0 then ret (inr (DataStream, DataLen))
    else
      n ← Pipe_BytesInPipe;
      size ← get_Host USB_Host_ControlPipeSize;
      if n <? size then
        match load_byte Buffer DataStream with
        | Some b => Pipe_Write_8 b ;; ret (inl (DataStream + 1, u16 (DataLen - 1)))
        | None => undefined
        end
      else ret (inr (DataStream, DataLen)))
  (DataStream, DataLen).

(** [while (DataLen)] of a host-to-device request *)
Definition write_data (Buffer : bytes) (DataLen : Z) : M Z :=
  loop fuel (fun '(DataStream, DataLen) =>
    if DataLen =? 0 then ret (inr HOST_SENDCONTROL_Successful)
    else
      ReturnStatus ← USB_Host_WaitForIOS USB_HOST_WAITFOR_OutReady;
      if negb (ReturnStatus =? HOST_SENDCONTROL_Successful) then ret (inr ReturnStatus)
      else
        x ← fill_pipe Buffer DataStream DataLen;
        Pipe_ClearOUT ;;
        ret (inl x))
  (0, DataLen).

(** [if (DataStream != NULL)] of a device-to-host request *)
Definition receive_data (Buffer : option bytes) (DataLen : Z) : M (Z * option bytes) :=
  match Buffer with
  | None => ret (HOST_SENDCONTROL_Successful, None)
  | Some B => '(c, B) ← read_data B DataLen; ret (c, Some B)
  end.

(** The data and status stages of a device-to-host request. *)
Definition receive_stages (Buffer : option bytes) (DataLen : Z) : M (Z * option bytes) :=
  Pipe_SetPipeToken PIPE_TOKEN_IN ;;
  '(ReturnStatus, Buffer) ← receive_data Buffer DataLen;
  if negb (ReturnStatus =? HOST_SENDCONTROL_Successful) then ret (ReturnStatus, Buffer)
  else
    Pipe_SetPipeToken PIPE_TOKEN_OUT ;;
    Pipe_Unfreeze ;;
    or_return (USB_Host_WaitForIOS USB_HOST_WAITFOR_OutReady) Buffer (
    Pipe_ClearOUT ;;
    or_return (USB_Host_WaitForIOS USB_HOST_WAITFOR_OutReady) Buffer (
    ret (HOST_SENDCONTROL_Successful, Buffer))).

(** [if (DataStream != NULL)] of a host-to-device request *)
Definition transmit_data (Buffer : option bytes) (DataLen : Z) : M Z :=
  match Buffer with
  | None => ret HOST_SENDCONTROL_Successful
  | Some B =>
      Pipe_SetPipeToken PIPE_TOKEN_OUT ;;
      Pipe_Unfreeze ;;
      c ← write_data B DataLen;
      if negb (c =? HOST_SENDCONTROL_Successful) then ret c
      else
        c ← USB_Host_WaitForIOS USB_HOST_WAITFOR_OutReady;
        if negb (c =? HOST_SENDCONTROL_Successful) then ret c
        else Pipe_Freeze ;; ret HOST_SENDCONTROL_Successful
  end.

(** The data and status stages of a host-to-device request. *)
Definition transmit_stages (Buffer : option bytes) (DataLen : Z) : M (Z * option bytes) :=
  ReturnStatus ← transmit_data Buffer DataLen;
  if negb (ReturnStatus =? HOST_SENDCONTROL_Successful) then ret (ReturnStatus, Buffer)
  else
    Pipe_SetPipeToken PIPE_TOKEN_IN ;;
    Pipe_Unfreeze ;;
    or_return (USB_Host_WaitForIOS USB_HOST_WAITFOR_InReceived) Buffer (
    Pipe_ClearIN ;;
    ret (HOST_SENDCONTROL_Successful, Buffer)).

Definition USB_Host_SendControlRequest_PRV (Buffer : option bytes) : M (Z * option bytes) :=
  req ← get USB_ControlRequest;
  let DataLen := wLength req in
  USB_Host_ResumeBus ;;
  or_return (USB_Host_WaitMS 1) Buffer (
  Pipe_SetPipeToken PIPE_TOKEN_SETUP ;;
  Pipe_ClearError ;;
  Pipe_Unfreeze ;;
  req ← get USB_ControlRequest;
  write_header (request_bytes req) ;;
  Pipe_ClearSETUP ;;
  or_return (USB_Host_WaitForIOS USB_HOST_WAITFOR_SetupSent) Buffer (
  Pipe_Freeze ;;
  or_return (USB_Host_WaitMS 1) Buffer (
  req ← get USB_ControlRequest;
  if Z.land (bmRequestType req) CONTROL_REQTYPE_DIRECTION =? REQDIR_DEVICETOHOST
  then receive_stages Buffer DataLen
  else transmit_stages Buffer DataLen))).

Definition USB_Host_SendControlRequest (Buffer : option bytes) : M (Z * option bytes) :=
  BusSuspended ← USB_Host_IsBusSuspended;
  r ← USB_Host_SendControlRequest_PRV Buffer;
  Pipe_Freeze ;;
  when BusSuspended USB_Host_SuspendBus ;;
  Pipe_ResetPipe PIPE_CONTROLPIPE ;;
  ret r.

(** A request is built in [USB_ControlRequest] and sent on the control pipe. *)
Definition send_request (bmRequestType bRequest wValue wIndex wLength : Z) (Buffer : option bytes)
    : M (Z * option bytes) :=
  put (set_USB_ControlRequest
         {| bmRequestType := bmRequestType; bRequest := bRequest; wValue := wValue;
            wIndex := wIndex; wLength := wLength |}) ;;
  Pipe_SelectPipe PIPE_CONTROLPIPE ;;
  USB_Host_SendControlRequest Buffer.

Definition USB_Host_SetDeviceConfiguration (ConfigNumber : Z) : M Z :=
  '(ErrorCode, _) ←
    send_request (Z.lor (Z.lor REQDIR_HOSTTODEVICE REQTYPE_STANDARD) REQREC_DEVICE)
      REQ_SetConfiguration ConfigNumber 0 0 None;
  when (ErrorCode =? HOST_SENDCONTROL_Successful)
    (put_Host (set_USB_Host_ConfigurationNumber ConfigNumber) ;;
     put_Host (set_USB_HostState
       (if negb (ConfigNumber =? 0) then HOST_STATE_Configured else HOST_STATE_Addressed))) ;;
  ret ErrorCode.

Definition USB_Host_GetDeviceConfiguration (ConfigNumber : bytes) : M (Z * option bytes) :=
  send_request (Z.lor (Z.lor REQDIR_DEVICETOHOST REQTYPE_STANDARD) REQREC_DEVICE)
    REQ_GetConfiguration 0 0 1 (Some ConfigNumber).

Definition USB_Host_GetDescriptor (Type_ Index : Z) (Buffer : bytes) (BufferLength : Z)
    : M (Z * option bytes) :=
  send_request (Z.lor (Z.lor REQDIR_DEVICETOHOST REQTYPE_STANDARD) REQREC_DEVICE)
    REQ_GetDescriptor (Z.lor (Z.shiftl Type_ 8) Index) 0 BufferLength (Some Buffer).

Definition USB_Host_GetDeviceStatus (FeatureStatus : bytes) : M (Z * option bytes) :=
  send_request (Z.lor (Z.lor REQDIR_DEVICETOHOST REQTYPE_STANDARD) REQREC_DEVICE)
    REQ_GetStatus 0 0 0 (Some FeatureStatus).

Definition USB_Host_ClearEndpointStall (EndpointAddress : Z) : M (Z * option bytes) :=
  send_request (Z.lor (Z.lor REQDIR_HOSTTODEVICE REQTYPE_STANDARD) REQREC_ENDPOINT)
    REQ_ClearFeature FEATURE_SEL_EndpointHalt EndpointAddress 0 None.

Definition USB_Host_SetInterfaceAltSetting (InterfaceIndex AltSetting : Z) : M (Z * option bytes) :=
  send_request (Z.lor (Z.lor REQDIR_HOSTTODEVICE REQTYPE_STANDARD) REQREC_INTERFACE)
    REQ_SetInterface AltSetting InterfaceIndex 0 None.

Definition USB_Host_GetInterfaceAltSetting (InterfaceIndex : Z) (AltSetting : bytes)
    : M (Z * option bytes) :=
  send_request (Z.lor (Z.lor REQDIR_DEVICETOHOST REQTYPE_STANDARD) REQREC_INTERFACE)
    REQ_GetInterface 0 InterfaceIndex 1 (Some AltSetting).

(** ** [HostStandardReq.h] *)

Definition USB_Host_GetDeviceDescriptor (DeviceDescriptorPtr : bytes) : M (Z * option bytes) :=
  USB_Host_GetDescriptor DTYPE_Device 0 DeviceDescriptorPtr 18.

Definition USB_Host_GetDeviceStringDescriptor (Index : Z) (Buffer : bytes) (BufferLength : Z)
    : M (Z * option bytes) :=
  USB_Host_GetDescriptor DTYPE_String Index Buffer BufferLength.
End HostStandardReq.
