(* ===== verification/HostTask.v ===== *)
(** * Enumeration of an attached device

    The host state machine: [USB_Host_ProcessNextHostState] of
    [LUFA/Drivers/USB/Core/AVR8/Host_AVR8.c], [USB_HostTask] of [USBTask.c], and
    the host half of [ISR(USB_GEN_vect, ISR_BLOCK)] in
    [AVR8/USBInterrupt_AVR8.c]. *)
From S2P Require Import Prelude Machine Rely StdDescriptors Descriptors Endpoint UsbController DeviceStandardReq EndpointStream UsbInterrupt Safety Pipe HostController HostStandardReq.

(** The event handlers of [Events.h] that a host application supplies. *)
Class USB_Host_Application := {
  EVENT_USB_Host_HostError : Z -> M unit;
  EVENT_USB_Host_DeviceAttached : M unit;
  EVENT_USB_Host_DeviceUnattached : M unit;
  EVENT_USB_Host_DeviceEnumerationFailed : Z -> Z -> M unit;
  EVENT_USB_Host_DeviceEnumerationComplete : M unit;
  EVENT_USB_Host_StartOfFrame : M unit
}.

(** [offsetof(USB_Descriptor_Device_t, Endpoint0Size)] *)
Definition Endpoint0Size_offset : Z := 7.

Section HostTask.
Context `{Env} `{USB_Host_Application}.

(** ** [Host_AVR8.c] *)

(** [HOST_TASK_NONBLOCK_WAIT(Duration, NextState)] *)
Definition HOST_TASK_NONBLOCK_WAIT (Duration NextState : Z) : M unit :=
  put_Host (set_USB_HostState HOST_STATE_WaitForDevice) ;;
  put_Host (set_WaitMSRemaining Duration) ;;
  put_Host (set_PostWaitState NextState).

(** The values of [ErrorCode] and [SubErrorCode] when a case is left. *)
Definition no_error : M (Z * Z) := ret (HOST_ENUMERROR_NoError, HOST_ENUMERROR_NoError).

Definition case_WaitForDevice : M (Z * Z) :=
  w ← get_Host WaitMSRemaining;
  if w =? 0 then no_error
  else
    SubErrorCode ← USB_Host_WaitMS 1;
    if negb (SubErrorCode =? HOST_WAITERROR_Successful) then
      p ← get_Host PostWaitState;
      put_Host (set_USB_HostState p) ;;
      ret (HOST_ENUMERROR_WaitStage, SubErrorCode)
    else
      w ← get_Host WaitMSRemaining;
      put_Host (set_WaitMSRemaining (u16 (w - 1))) ;;
      when (u16 (w - 1) =? 0)
        (p ← get_Host PostWaitState; put_Host (set_USB_HostState p)) ;;
      ret (HOST_ENUMERROR_NoError, SubErrorCode).

Definition case_Powered : M (Z * Z) :=
  put_Host (set_WaitMSRemaining HOST_DEVICE_SETTLE_DELAY_MS) ;;
  put_Host (set_USB_HostState HOST_STATE_Powered_WaitForDeviceSettle) ;;
  no_error.

Definition case_WaitForDeviceSettle : M (Z * Z) :=
  w ← get_Host WaitMSRemaining;
  put_Host (set_WaitMSRemaining (u16 (w - 1))) ;;
  if negb (w =? 0) then Delay_MS 1 ;; no_error
  else
    USB_Host_VBUS_Manual_Off ;;
    USB_OTGPAD_On ;;
    USB_Host_VBUS_Auto_Enable ;;
    USB_Host_VBUS_Auto_On ;;
    put_Host (set_USB_HostState HOST_STATE_Powered_WaitForConnect) ;;
    no_error.

Definition case_WaitForConnect : M (Z * Z) :=
  connected ← USB_INT_HasOccurred USB_INT_DCONNI;
  when connected
    (USB_INT_Clear USB_INT_DCONNI ;;
     USB_INT_Clear USB_INT_DDISCI ;;
     USB_INT_Clear USB_INT_VBERRI ;;
     USB_INT_Enable USB_INT_VBERRI ;;
     USB_Host_ResumeBus ;;
     Pipe_ClearPipes ;;
     HOST_TASK_NONBLOCK_WAIT 100 HOST_STATE_Powered_DoReset) ;;
  no_error.

Definition case_DoReset : M (Z * Z) :=
  USB_Host_ResetDevice ;;
  HOST_TASK_NONBLOCK_WAIT 200 HOST_STATE_Powered_ConfigPipe ;;
  no_error.

Definition case_ConfigPipe : M (Z * Z) :=
  ok ← Pipe_ConfigurePipe PIPE_CONTROLPIPE EP_TYPE_CONTROL ENDPOINT_CONTROLEP
         PIPE_CONTROLPIPE_DEFAULT_SIZE 1;
  if negb ok then ret (HOST_ENUMERROR_PipeConfigError, 0)
  else put_Host (set_USB_HostState HOST_STATE_Default) ;; no_error.

(** The contents of the uninitialised [DataBuffer] are a parameter. *)
Definition case_Default (DataBuffer : bytes) : M (Z * Z) :=
  put (set_USB_ControlRequest
         {| bmRequestType := Z.lor (Z.lor REQDIR_DEVICETOHOST REQTYPE_STANDARD) REQREC_DEVICE;
            bRequest := REQ_GetDescriptor; wValue := Z.shiftl DTYPE_Device 8; wIndex := 0;
            wLength := 8 |}) ;;
  Pipe_SelectPipe PIPE_CONTROLPIPE ;;
  '(SubErrorCode, DataBuffer) ← USB_Host_SendControlRequest (Some DataBuffer);
  if negb (SubErrorCode =? HOST_SENDCONTROL_Successful) then
    ret (HOST_ENUMERROR_ControlError, SubErrorCode)
  else
    match load_byte (default [] DataBuffer) Endpoint0Size_offset with
    | None => undefined
    | Some size =>
        put_Host (set_USB_Host_ControlPipeSize size) ;;
        USB_Host_ResetDevice ;;
        HOST_TASK_NONBLOCK_WAIT 200 HOST_STATE_Default_PostReset ;;
        ret (HOST_ENUMERROR_NoError, SubErrorCode)
    end.

Definition case_PostReset : M (Z * Z) :=
  size ← get_Host USB_Host_ControlPipeSize;
  ok ← Pipe_ConfigurePipe PIPE_CONTROLPIPE EP_TYPE_CONTROL ENDPOINT_CONTROLEP size 1;
  if negb ok then ret (HOST_ENUMERROR_PipeConfigError, 0)
  else
    put (set_USB_ControlRequest
           {| bmRequestType := Z.lor (Z.lor REQDIR_HOSTTODEVICE REQTYPE_STANDARD) REQREC_DEVICE;
              bRequest := REQ_SetAddress; wValue := USB_HOST_DEVICEADDRESS; wIndex := 0;
              wLength := 0 |}) ;;
    '(SubErrorCode, _) ← USB_Host_SendControlRequest None;
    if negb (SubErrorCode =? HOST_SENDCONTROL_Successful) then
      ret (HOST_ENUMERROR_ControlError, SubErrorCode)
    else
      HOST_TASK_NONBLOCK_WAIT 100 HOST_STATE_Default_PostAddressSet ;;
      ret (HOST_ENUMERROR_NoError, SubErrorCode).

Definition case_PostAddressSet : M (Z * Z) :=
  USB_Host_SetDeviceAddress USB_HOST_DEVICEADDRESS ;;
  put_Host (set_USB_HostState HOST_STATE_Addressed) ;;
  EVENT_USB_Host_DeviceEnumerationComplete ;;
  no_error.

(** [switch (USB_HostState)] *)
Definition host_case (DataBuffer : bytes) (state : Z) : M (Z * Z) :=
  if state =? HOST_STATE_WaitForDevice then case_WaitForDevice
  else if state =? HOST_STATE_Powered then case_Powered
  else if state =? HOST_STATE_Powered_WaitForDeviceSettle then case_WaitForDeviceSettle
  else if state =? HOST_STATE_Powered_WaitForConnect then case_WaitForConnect
  else if state =? HOST_STATE_Powered_DoReset then case_DoReset
  else if state =? HOST_STATE_Powered_ConfigPipe then case_ConfigPipe
  else if state =? HOST_STATE_Default then case_Default DataBuffer
  else if state =? HOST_STATE_Default_PostReset then case_PostReset
  else if state =? HOST_STATE_Default_PostAddressSet then case_PostAddressSet
  else no_error.

(** What is done when a case has failed. *)
Definition enumeration_failed (ErrorCode SubErrorCode : Z) : M unit :=
  EVENT_USB_Host_DeviceEnumerationFailed ErrorCode SubErrorCode ;;
  USB_Host_VBUS_Auto_Off ;;
  EVENT_USB_Host_DeviceUnattached ;;
  USB_ResetInterface_Host.

Definition USB_Host_ProcessNextHostState (DataBuffer : bytes) : M unit :=
  state ← get_HostState;
  '(ErrorCode, SubErrorCode) ← host_case DataBuffer state;
  if negb (ErrorCode =? HOST_ENUMERROR_NoError) then
    state ← get_HostState;
    when (negb (state =? HOST_STATE_Unattached)) (enumeration_failed ErrorCode SubErrorCode)
  else ret tt.

(** ** [USBTask.c] *)

Definition USB_HostTask (DataBuffer : bytes) : M unit :=
  PrevPipe ← Pipe_GetCurrentPipe;
  Pipe_SelectPipe PIPE_CONTROLPIPE ;;
  USB_Host_ProcessNextHostState DataBuffer ;;
  Pipe_SelectPipe PrevPipe.

(** ** [USBInterrupt_AVR8.c] *)

Definition isr_HSOFI : M unit :=
  USB_INT_Clear USB_INT_HSOFI ;;
  EVENT_USB_Host_StartOfFrame.

Definition isr_DDISCI : M unit :=
  USB_INT_Clear USB_INT_DDISCI ;;
  USB_INT_Clear USB_INT_DCONNI ;;
  USB_INT_Disable USB_INT_DDISCI ;;
  EVENT_USB_Host_DeviceUnattached ;;
  USB_ResetInterface_Host.

Definition isr_VBERRI : M unit :=
  USB_INT_Clear USB_INT_VBERRI ;;
  USB_Host_VBUS_Manual_Off ;;
  USB_Host_VBUS_Auto_Off ;;
  EVENT_USB_Host_HostError HOST_ERROR_VBusVoltageDip ;;
  EVENT_USB_Host_DeviceUnattached ;;
  put_Host (set_USB_HostState HOST_STATE_Unattached).

Definition isr_SRPI : M unit :=
  USB_INT_Clear USB_INT_SRPI ;;
  USB_INT_Disable USB_INT_SRPI ;;
  EVENT_USB_Host_DeviceAttached ;;
  USB_INT_Enable USB_INT_DDISCI ;;
  put_Host (set_USB_HostState HOST_STATE_Powered).

Definition isr_BCERRI : M unit :=
  USB_INT_Clear USB_INT_BCERRI ;;
  EVENT_USB_Host_DeviceEnumerationFailed HOST_ENUMERROR_NoDeviceDetected 0 ;;
  EVENT_USB_Host_DeviceUnattached ;;
  USB_ResetInterface_Host.

Definition USB_GEN_vect_Host : M unit :=
  on_interrupt USB_INT_HSOFI isr_HSOFI ;;
  on_interrupt USB_INT_DDISCI isr_DDISCI ;;
  on_interrupt USB_INT_VBERRI isr_VBERRI ;;
  on_interrupt USB_INT_SRPI isr_SRPI ;;
  on_interrupt USB_INT_BCERRI isr_BCERRI.
End HostTask.
