(* ===== verification/HostSafety.v ===== *)
(** * Safety of host mode on arbitrary hardware

    The variables of the host state machine and the buffers of control transfers,
    whatever the attached device, the bus and the interrupt handler do.  Built on
    the rules of [Safety]. *)
From S2P Require Import Prelude Machine Rely StdDescriptors Descriptors Endpoint ControlStream UsbController DeviceStandardReq EndpointStream UsbInterrupt Safety Pipe HostController HostStandardReq HostTask.

#[export] Hint Unfold Pipe_BytesInPipe Pipe_GetPipeDirection Pipe_GetCurrentPipe Pipe_SelectPipe
  Pipe_ResetPipe Pipe_EnablePipe Pipe_DisablePipe Pipe_IsEnabled Pipe_GetPipeToken Pipe_SetPipeToken
  Pipe_SetInfiniteINRequests Pipe_IsConfigured Pipe_GetBoundEndpointAddress Pipe_Unfreeze Pipe_Freeze
  Pipe_IsFrozen Pipe_ClearError Pipe_IsError Pipe_IsReadWriteAllowed Pipe_IsINReceived Pipe_IsOUTReady
  Pipe_IsSETUPSent Pipe_ClearSETUP Pipe_ClearIN Pipe_ClearOUT Pipe_IsStalled Pipe_ClearStall
  Pipe_Read_8 Pipe_Write_8 Pipe_BytesToEPSizeMask USB_Host_GetFrameNumber get_HostState
  USB_Host_ResetBus USB_Host_IsBusResetComplete USB_Host_ResumeBus USB_Host_SuspendBus
  USB_Host_IsBusSuspended USB_Host_HostMode_On USB_Host_VBUS_Auto_Enable USB_Host_VBUS_Manual_Enable
  USB_Host_VBUS_Auto_On USB_Host_VBUS_Manual_On USB_Host_VBUS_Auto_Off USB_Host_VBUS_Manual_Off
  USB_Host_SetDeviceAddress USB_INT_DisableAllInterrupts_Host USB_INT_ClearAllInterrupts_Host
  USB_PLL_On_Host Delay_MS get_Host : safe_prims.

Section SafePipe.
Context `{Env} (I : st -> Prop) `{!Stable I}.

Lemma runs_pipe_configure_from n PNum Number c0 c1 :
  runs_safely I (pipe_configure_from n PNum Number c0 c1).
Proof. revert PNum. induction n; intros PNum; cbn [pipe_configure_from]; safely. Qed.

Lemma runs_ConfigurePipe a t e z b : runs_safely I (Pipe_ConfigurePipe a t e z b).
Proof. pose proof runs_pipe_configure_from. unfold Pipe_ConfigurePipe. safely. Qed.

Lemma runs_clear_pipes n PNum : runs_safely I (clear_pipes n PNum).
Proof. revert PNum. induction n; intros PNum; cbn [clear_pipes]; safely. Qed.

Lemma runs_ClearPipes : runs_safely I Pipe_ClearPipes.
Proof. pose proof runs_clear_pipes. unfold Pipe_ClearPipes. safely. Qed.

Lemma runs_find_bound n PNum a : runs_safely I (find_bound n PNum a).
Proof. revert PNum. induction n; intros PNum; cbn [find_bound]; safely. Qed.

Lemma runs_IsEndpointBound a : runs_safely I (Pipe_IsEndpointBound a).
Proof. pose proof runs_find_bound. unfold Pipe_IsEndpointBound. safely. Qed.

Lemma runs_Pipe_WaitUntilReady : runs_safely I Pipe_WaitUntilReady.
Proof. unfold Pipe_WaitUntilReady. safely. Qed.

Lemma runs_WaitMS MS : runs_safely I (USB_Host_WaitMS MS).
Proof. unfold USB_Host_WaitMS, wait_ms_round. safely. Qed.

Lemma runs_await_frame n : runs_safely I (await_frame n).
Proof. induction n; cbn [await_frame]; safely. Qed.
End SafePipe.

#[export] Hint Extern 0 (runs_safely _ (Pipe_ConfigurePipe _ _ _ _ _)) => apply runs_ConfigurePipe : safe.
#[export] Hint Extern 0 (runs_safely _ Pipe_ClearPipes) => apply runs_ClearPipes : safe.
#[export] Hint Extern 0 (runs_safely _ (USB_Host_WaitMS _)) => apply runs_WaitMS : safe.
#[export] Hint Extern 0 (runs_safely _ (await_frame _)) => apply runs_await_frame : safe.

(** ** Control transfers stay inside of the buffer *)

Section SafeTransfer.
Context `{Env} (I : st -> Prop) `{!Stable I}.
Hypothesis data_register : forall t, is_u8 (respond t UPDATX).

Lemma runs_WaitForIOS w : runs_safely I (USB_Host_WaitForIOS w).
Proof. unfold USB_Host_WaitForIOS, ios_ready. safely. Qed.

Lemma runs_write_header l : runs_safely I (write_header l).
Proof. induction l; cbn [write_header]; safely. Qed.

Lemma safe_drain_pipe N Buffer p len :
  buffer_of N Buffer -> in_object N p len ->
  safe I (drain_pipe Buffer p len)
       (fun '(Buffer, p, len) => buffer_of N Buffer /\ in_object N p len).
Proof.
  intros Hb Hin.
  apply (safe_loop _ (fun '(Buffer, p, len) => buffer_of N Buffer /\ in_object N p len)); [|done].
  clear Buffer p len Hb Hin. intros [[Buffer p] len] [[Hall Hlen] Hin].
  safe_step. destruct (Z.eqb_spec len 0) as [->|Hne]; [rewrite andb_false_r; by apply safe_ret|].
  rewrite andb_true_r. destruct (negb _); [|by apply safe_ret].
  pose proof Hin as (? & [? ?] & ?). eapply safe_bind; [by apply safe_rd|].
  intros b (t & ->). unfold store_byte, load_byte. destruct (Z.leb_spec 0 p); [|lia].
  destruct (lookup_lt_is_Some_2 Buffer (Z.to_nat p)) as [x ->]; [lia|].
  apply safe_ret. split; [|by apply in_object_step].
  split; [by apply Forall_insert|by rewrite length_insert].
Qed.

Lemma safe_read_data N Buffer len :
  buffer_of N Buffer -> in_object N 0 len ->
  safe I (read_data Buffer len) (fun '(_, B) => buffer_of N B).
Proof.
  intros Hb Hin. apply (safe_loop _ (fun '(B, p, len) => buffer_of N B /\ in_object N p len)); [|done].
  clear Buffer len Hb Hin. intros [[Buffer p] len] [Hb Hin].
  destruct (_ =? 0); [by apply safe_ret|]. safe_step.
  apply safe_seq; [apply runs_WaitForIOS|intros c]. destruct (negb _); [by apply safe_ret|].
  safe_step. eapply safe_bind.
  - apply (safe_drain_pipe N); [done|]. destruct (_ =? 0); [|done].
    destruct Hin as (? & [? ?] & ?). repeat split; lia.
  - intros x Hx. do 2 safe_step. by apply safe_ret.
Qed.

Lemma safe_fill_pipe Buffer p len :
  in_object (Z.of_nat (length Buffer)) p len ->
  safe I (fill_pipe Buffer p len) (fun '(p, len) => in_object (Z.of_nat (length Buffer)) p len).
Proof.
  intros Hin. apply (safe_loop _ (fun '(p, len) => in_object (Z.of_nat (length Buffer)) p len)); [|done].
  clear p len Hin. intros [p len] Hin. destruct (Z.eqb_spec len 0) as [->|Hne]; [by apply safe_ret|].
  do 2 safe_step. destruct (_ <? _); [|by apply safe_ret].
  pose proof Hin as (? & [? ?] & ?). unfold load_byte. destruct (Z.leb_spec 0 p); [|lia].
  destruct (lookup_lt_is_Some_2 Buffer (Z.to_nat p)) as [x ->]; [lia|].
  safe_step. apply safe_ret. by apply in_object_step.
Qed.

Lemma runs_write_data Buffer len :
  in_object (Z.of_nat (length Buffer)) 0 len -> runs_safely I (write_data Buffer len).
Proof.
  intros Hin. apply (safe_loop _ (fun '(p, len) => in_object (Z.of_nat (length Buffer)) p len)); [|done].
  clear len Hin. intros [p len] Hin. destruct (_ =? 0); [by apply safe_ret|].
  apply safe_seq; [apply runs_WaitForIOS|intros c]. destruct (negb _); [by apply safe_ret|].
  eapply safe_bind; [by apply safe_fill_pipe|]. intros x Hx. safe_step. by apply safe_ret.
Qed.

(** A buffer for a transfer of [len] bytes: none, or one that is long enough. *)
Definition buffer_for (len : Z) (Buffer : option bytes) : Prop :=
  match Buffer with None => True | Some B => all_bytes B /\ len <= Z.of_nat (length B) end.

(** What a transfer leaves of the buffer: an object of the same size. *)
Definition same_object (Buffer Buffer' : option bytes) : Prop :=
  match Buffer, Buffer' with
  | None, None => True
  | Some B, Some B' => buffer_of (Z.of_nat (length B)) B'
  | _, _ => False
  end.

Lemma same_object_refl len Buffer : buffer_for len Buffer -> same_object Buffer Buffer.
Proof. destruct Buffer; [|done]. by intros [? _]. Qed.

Lemma safe_or_return {B} (m : M Z) (b : B) k (R : B -> Prop) :
  runs_safely I m -> R b -> safe I k (fun '(_, b') => R b') ->
  safe I (or_return m b k) (fun '(_, b') => R b').
Proof.
  intros Hm Hb Hk. unfold or_return. apply safe_seq; [done|]. intros c.
  destruct (_ =? _); [done|by apply safe_ret].
Qed.

Lemma safe_receive_stages Buffer len :
  is_u16 len -> buffer_for len Buffer ->
  safe I (receive_stages Buffer len) (fun '(_, B) => same_object Buffer B).
Proof.
  intros Hlen Hb. unfold receive_stages. safe_step.
  eapply (safe_bind _ _ _ (fun '(_, B) => same_object Buffer B)).
  - unfold receive_data. destruct Buffer as [B|]; [|by apply safe_ret]. destruct Hb as [Hall Hfit].
    eapply safe_bind; [apply (safe_read_data (Z.of_nat (length B))); [done|by split]|].
    intros [c B'] HB. by apply safe_ret.
  - intros [c B'] HB. destruct (negb _); [by apply safe_ret|]. do 2 safe_step.
    apply safe_or_return; [apply runs_WaitForIOS|done|]. safe_step.
    apply safe_or_return; [apply runs_WaitForIOS|done|]. by apply safe_ret.
Qed.

Lemma safe_transmit_stages Buffer len :
  is_u16 len -> buffer_for len Buffer ->
  safe I (transmit_stages Buffer len) (fun '(_, B) => same_object Buffer B).
Proof.
  intros Hlen Hb. pose proof (same_object_refl _ _ Hb) as Hsame. pose proof runs_WaitForIOS.
  unfold transmit_stages. apply safe_seq.
  - unfold transmit_data. destruct Buffer as [B|]; [|safely]. destruct Hb as [Hall Hfit].
    assert (runs_safely I (write_data B len)) by (apply runs_write_data; by split). safely.
  - intros c. destruct (negb _); [by apply safe_ret|]. do 2 safe_step.
    apply safe_or_return; [apply runs_WaitForIOS|done|]. safe_step. by apply safe_ret.
Qed.

(** A control request made with a buffer of at least [wLength] bytes, or none,
    stays inside of it, whatever the device answers. *)
Lemma safe_SendControlRequest req Buffer :
  (forall s, I s -> USB_ControlRequest s = req) -> is_u16 (wLength req) ->
  buffer_for (wLength req) Buffer ->
  safe I (USB_Host_SendControlRequest Buffer) (fun '(_, B) => same_object Buffer B).
Proof.
  intros Hreq Hlen Hb. pose proof (same_object_refl _ _ Hb) as Hsame.
  pose proof runs_WaitForIOS. pose proof runs_write_header.
  unfold USB_Host_SendControlRequest. safe_step.
  eapply (safe_bind _ _ _ (fun '(_, B) => same_object Buffer B)).
  2: { intros r Hr. do 3 safe_step. by apply safe_ret. }
  unfold USB_Host_SendControlRequest_PRV.
  assert (Hget : safe I (get USB_ControlRequest) (fun r => r = req)).
  { eapply safe_mono; [|apply safe_get]. intros r (s & Hs & ->). auto. }
  eapply safe_bind; [exact Hget|]. intros r ->. safe_step.
  apply safe_or_return; [safely|done|]. do 3 safe_step.
  eapply safe_bind; [exact Hget|]. intros r ->. do 2 safe_step.
  apply safe_or_return; [safely|done|]. safe_step. apply safe_or_return; [safely|done|].
  eapply safe_bind; [exact Hget|]. intros r ->.
  destruct (_ =? _); [by apply safe_receive_stages|by apply safe_transmit_stages].
Qed.
End SafeTransfer.

(** ** The variables of the state machine

    [host_ok]: the state is one of the twelve, the counters fit their types, and
    the waiting state is only entered with time to wait and a state to go to, so
    that it is always left. *)

Definition resume_states : list Z :=
  [HOST_STATE_Powered_DoReset; HOST_STATE_Powered_ConfigPipe; HOST_STATE_Default_PostReset;
   HOST_STATE_Default_PostAddressSet].

Definition can_wait (h : host_vars) : Prop :=
  1 <= WaitMSRemaining h /\ PostWaitState h ∈ resume_states.

Record host_ok (h : host_vars) : Prop := {
  ok_HostState : HOST_STATE_WaitForDevice <= USB_HostState h <= HOST_STATE_Configured;
  ok_HostConfig : is_u8 (USB_Host_ConfigurationNumber h);
  ok_PipeSize : is_u8 (USB_Host_ControlPipeSize h);
  ok_WaitMS : is_u16 (WaitMSRemaining h);
  ok_PostWait : PostWaitState h = 0 \/ PostWaitState h ∈ resume_states;
  ok_Waiting : USB_HostState h = HOST_STATE_WaitForDevice -> can_wait h
}.

(** The invariant of host code, with a fact [P] about the current request and the
    wait counter that the bus does not change. *)
Definition host_inv (P : USB_Request_Header_t -> host_vars -> Prop) (s : st) : Prop :=
  host_ok (Host s) /\ P (USB_ControlRequest s) (Host s).

Class Bus_Closed (P : USB_Request_Header_t -> host_vars -> Prop) : Prop := {
  closed_state : forall r h x, P r h -> P r (set_USB_HostState x h);
  closed_config : forall r h x, P r h -> P r (set_USB_Host_ConfigurationNumber x h);
  closed_size : forall r h x, P r h -> P r (set_USB_Host_ControlPipeSize x h)
}.

Definition any_host (r : USB_Request_Header_t) (h : host_vars) : Prop := True.
Definition sending (req r : USB_Request_Header_t) (h : host_vars) : Prop := r = req.
Definition waiting_out (r : USB_Request_Header_t) (h : host_vars) : Prop := can_wait h.

#[export] Instance any_host_closed : Bus_Closed any_host.
Proof. by split. Qed.
#[export] Instance sending_closed req : Bus_Closed (sending req).
Proof. by split. Qed.
#[export] Instance waiting_out_closed : Bus_Closed waiting_out.
Proof. by split. Qed.

(** The interrupt handlers of the application leave the variables of the library
    alone. *)
Definition leaves_host (m : M unit) : Prop := forall s,
  wlp m (fun _ s' => Host s' = Host s /\ USB_ControlRequest s' = USB_ControlRequest s) s.

Class Host_Interrupt_Law (App : USB_Host_Application) : Prop := {
  law_HostError : forall e, leaves_host (EVENT_USB_Host_HostError e);
  law_DeviceAttached : leaves_host EVENT_USB_Host_DeviceAttached;
  law_DeviceUnattached : leaves_host EVENT_USB_Host_DeviceUnattached;
  law_EnumerationFailed : forall e x, leaves_host (EVENT_USB_Host_DeviceEnumerationFailed e x);
  law_HostStartOfFrame : leaves_host EVENT_USB_Host_StartOfFrame
}.

Lemma host_ok_state h x :
  host_ok h -> HOST_STATE_WaitForDevice < x <= HOST_STATE_Configured -> host_ok (set_USB_HostState x h).
Proof. intros [] Hx. constructor; cbn; try done; [lia|]. intros ->. by destruct Hx. Qed.

Lemma host_ok_wait h x :
  host_ok h -> is_u16 x -> (x = 0 -> USB_HostState h <> HOST_STATE_WaitForDevice) ->
  host_ok (set_WaitMSRemaining x h).
Proof.
  intros [] Hx H0. constructor; cbn; try done. intros E. destruct (ok_Waiting0 E) as [_ Hp].
  split; [|done]. cbn. unfold fits in Hx. destruct (decide (x = 0)) as [->|]; [by destruct (H0 eq_refl)|lia].
Qed.

Lemma resume_state_range x : x ∈ resume_states -> HOST_STATE_WaitForDevice < x <= HOST_STATE_Configured.
Proof.
  unfold resume_states. intros Hx.
  by repeat (apply elem_of_cons in Hx as [->|Hx]; [done|]); apply elem_of_nil in Hx.
Qed.

Section SafeHostVariables.
Context `{Env} (P : USB_Request_Header_t -> host_vars -> Prop) `{!Stable (host_inv P)} `{!Bus_Closed P}.

Lemma runs_put_Host f :
  (forall r h, host_ok h -> P r h -> host_ok (f h) /\ P r (f h)) ->
  runs_safely (host_inv P) (put_Host f).
Proof. intros Hf. apply safe_put. intros s [Hok HP]. exact (Hf _ _ Hok HP). Qed.

Lemma runs_set_HostState x :
  HOST_STATE_WaitForDevice < x <= HOST_STATE_Configured ->
  runs_safely (host_inv P) (put_Host (set_USB_HostState x)).
Proof.
  intros Hx. apply runs_put_Host. intros r h Hok HP. split; [by apply host_ok_state|by apply closed_state].
Qed.

Lemma runs_set_HostConfig x :
  is_u8 x -> runs_safely (host_inv P) (put_Host (set_USB_Host_ConfigurationNumber x)).
Proof.
  intros Hx. apply runs_put_Host. intros r h [] HP. split; [|by apply closed_config]. by constructor.
Qed.

Lemma runs_set_PipeSize x :
  is_u8 x -> runs_safely (host_inv P) (put_Host (set_USB_Host_ControlPipeSize x)).
Proof.
  intros Hx. apply runs_put_Host. intros r h [] HP. split; [|by apply closed_size]. by constructor.
Qed.

Lemma runs_leaves_host m : leaves_host m -> runs_safely (host_inv P) m.
Proof.
  intros Hm s [Hok HP]. eapply wlp_mono; [|apply Hm]. intros [] s' [EH ER].
  unfold host_inv. by rewrite EH, ER.
Qed.

Lemma runs_Init_Host : runs_safely (host_inv P) USB_Init_Host.
Proof.
  pose proof (runs_set_HostState HOST_STATE_Unattached ltac:(done)).
  pose proof (runs_set_HostConfig 0 ltac:(done)).
  pose proof (runs_set_PipeSize PIPE_CONTROLPIPE_DEFAULT_SIZE ltac:(done)).
  unfold USB_Init_Host. safely.
Qed.

Lemma runs_ResetInterface_Host : runs_safely (host_inv P) USB_ResetInterface_Host.
Proof. pose proof runs_Init_Host. unfold USB_ResetInterface_Host. safely. Qed.

Lemma runs_Init_HostMode : runs_safely (host_inv P) USB_Init_HostMode.
Proof.
  pose proof runs_ResetInterface_Host.
  assert (runs_safely (host_inv P) (put (set_USB_IsInitialized true))) by (by apply safe_put).
  unfold USB_Init_HostMode. safely.
Qed.

Lemma runs_ResetDevice : runs_safely (host_inv P) USB_Host_ResetDevice.
Proof. pose proof (runs_set_HostConfig 0 ltac:(done)). unfold USB_Host_ResetDevice. safely. Qed.

(** The interrupt handler keeps the invariant, whichever interrupts are pending. *)
Lemma runs_USB_GEN_vect_Host `{!Host_Interrupt_Law App} :
  runs_safely (host_inv P) USB_GEN_vect_Host.
Proof.
  pose proof runs_ResetInterface_Host.
  pose proof (runs_set_HostState HOST_STATE_Unattached ltac:(done)).
  pose proof (runs_set_HostState HOST_STATE_Powered ltac:(done)).
  pose proof (runs_leaves_host _ law_DeviceAttached). pose proof (runs_leaves_host _ law_DeviceUnattached).
  pose proof (runs_leaves_host _ law_HostStartOfFrame).
  pose proof (fun e => runs_leaves_host _ (law_HostError e)).
  pose proof (fun e x => runs_leaves_host _ (law_EnumerationFailed e x)).
  unfold USB_GEN_vect_Host, on_interrupt, pending, isr_HSOFI, isr_DDISCI, isr_VBERRI, isr_SRPI, isr_BCERRI.
  safely.
Qed.
End SafeHostVariables.

(** The machine whose interrupts are [USB_GEN_vect] of a host. *)
Definition host_interrupted (E : Env) (App : USB_Host_Application) : Env :=
  {| respond := respond;
     async := fun s => match USB_GEN_vect_Host s with Done _ s' => s' | _ => s end;
     fuel := fuel |}.

Section SafeHost.
Context {E : Env} {HE : Masked} {IntApp : USB_Host_Application} {Law : Host_Interrupt_Law IntApp}.
Hypothesis data_register : forall t, is_u8 (respond t UPDATX).
Let avr : Env := host_interrupted E IntApp.

#[local] Instance host_masked_stable P : Stable (H := E) (host_inv P).
Proof. constructor; [done|]. intros s. by rewrite masked. Qed.

#[local] Instance host_stable P `{!Bus_Closed P} : Stable (H := avr) (host_inv P).
Proof.
  constructor; [done|]. intros s Hs. cbn [async avr host_interrupted].
  pose proof (runs_USB_GEN_vect_Host P (Stable0 := host_masked_stable P) s Hs) as Hrun.
  unfold wlp in Hrun. destruct (USB_GEN_vect_Host s); [apply Hrun|done|done].
Qed.

(** Code that runs with a fact about the request or the wait counter. *)
Lemma runs_from {A} (m : M A) P (R : A -> Prop) s :
  safe (host_inv P) m R -> host_inv P s -> wlp m (fun a s' => host_inv any_host s' /\ R a) s.
Proof. intros Hm Hs. eapply wlp_mono; [|by apply Hm]. intros a s' [[? _] ?]. by split; [split|]. Qed.

Lemma safe_with_request {A} req (m : M A) (R : A -> Prop) :
  safe (host_inv (sending req)) m R ->
  safe (host_inv any_host) (put (set_USB_ControlRequest req) ;; m) R.
Proof.
  intros Hm s [Hok _]. rewrite wlp_bind, wlp_put. by apply (runs_from _ (sending req)).
Qed.

(** Every request of the library is made with a buffer of its length. *)
Lemma safe_send_request t r v i n Buffer :
  is_u16 n -> buffer_for n Buffer ->
  safe (host_inv any_host) (send_request (H := avr) t r v i n Buffer) (fun '(_, B) => same_object Buffer B).
Proof.
  intros Hn Hb. apply safe_with_request.
  match goal with |- safe (host_inv (sending ?q)) _ _ => set (req := q) end.
  apply safe_seq; [apply (runs_wr (H := avr)), _|]. intros _.
  apply (safe_SendControlRequest (H := avr) _ data_register req); [|done|done].
  by intros s [_ ?].
Qed.

Lemma runs_NONBLOCK_WAIT P d n :
  (forall r h h', P r h -> P r h') -> 1 <= d < 2 ^ 16 -> n ∈ resume_states ->
  runs_safely (host_inv P) (HOST_TASK_NONBLOCK_WAIT d n).
Proof.
  intros HP Hd Hn s [[] Hs]. unfold HOST_TASK_NONBLOCK_WAIT, put_Host. rewrite !wlp_bind, !wlp_put.
  split; [|done]. split; [|by eapply HP]. constructor; cbn; try done.
  - unfold fits. lia.
  - by right.
  - intros _. split; [cbn; lia|done].
Qed.

Lemma runs_case_WaitForDevice s :
  host_inv waiting_out s ->
  wlp (case_WaitForDevice (H := avr)) (fun _ s' => host_inv any_host s') s.
Proof.
  intros Hs. unfold case_WaitForDevice. rewrite wlp_bind. unfold get_Host at 1. rewrite wlp_get.
  destruct (_ =? _); [by split; [apply Hs|]|]. rewrite wlp_bind.
  eapply wlp_mono; [|apply (runs_WaitMS (H := avr) (host_inv waiting_out)), Hs].
  intros c s1 [[Hok [Hw Hp]] _]. apply resume_state_range in Hp. destruct (negb _).
  - unfold get_Host, put_Host. repeat rewrite ?wlp_bind, ?wlp_get, ?wlp_put, ?wlp_ret.
    split; [by apply host_ok_state|done].
  - unfold get_Host, put_Host. repeat rewrite ?wlp_bind, ?wlp_get, ?wlp_put.
    pose proof (ok_WaitMS _ Hok) as Hu. rewrite wrap_id by (unfold fits in *; lia).
    set (w := WaitMSRemaining (Host s1) - 1). assert (Hw' : is_u16 w) by (unfold w, fits in *; lia).
    destruct (Z.eqb_spec w 0) as [E0|E0]; cbn [when].
    + repeat rewrite ?wlp_bind, ?wlp_get, ?wlp_put, ?wlp_ret. split; [|done].
      apply (host_ok_wait (set_USB_HostState (PostWaitState (Host s1)) (Host s1))); [by apply host_ok_state|done|].
      cbn. lia.
    + repeat rewrite ?wlp_ret. split; [by apply host_ok_wait|done].
Qed.

(** The handlers the application runs from the host task. *)
Context {TaskApp : USB_Host_Application}.
Hypothesis safe_EnumerationFailed : forall e x,
  runs_safely (host_inv any_host) (EVENT_USB_Host_DeviceEnumerationFailed e x).
Hypothesis safe_DeviceUnattached : runs_safely (host_inv any_host) EVENT_USB_Host_DeviceUnattached.
Hypothesis safe_EnumerationComplete :
  runs_safely (host_inv any_host) EVENT_USB_Host_DeviceEnumerationComplete.

(** The rest of a case after a wait was scheduled. *)
Lemma runs_then_wait P {A} (m : M A) d n (r : Z * Z) :
  runs_safely (host_inv P) m -> (forall r h h', P r h -> P r h') -> 1 <= d < 2 ^ 16 ->
  n ∈ resume_states ->
  runs_safely (host_inv P) (m ;; HOST_TASK_NONBLOCK_WAIT d n ;; ret r).
Proof.
  intros Hm HP Hd Hn. apply runs_seq; [done|intros _]. apply runs_seq; [by apply runs_NONBLOCK_WAIT|].
  intros _. apply runs_ret.
Qed.

Lemma runs_case_Default DataBuffer :
  buffer_of 8 DataBuffer -> runs_safely (host_inv any_host) (case_Default (H := avr) DataBuffer).
Proof.
  intros [Hall Hlen]. apply safe_with_request.
  match goal with |- safe (host_inv (sending ?q)) _ _ => set (req := q) end.
  apply safe_seq; [apply (runs_wr (H := avr)), _|]. intros _.
  eapply safe_bind.
  { apply (safe_SendControlRequest (H := avr) _ data_register req); [by intros s [_ ?]|done|].
    split; [done|cbn; lia]. }
  intros [c [B|]] HB; [|done]. destruct HB as [Hall' HlenB].
  destruct (negb _); [by apply safe_ret|]. 
  destruct (lookup_lt_is_Some_2 B 7) as [size Hsize]; [lia|].
  change (load_byte (default [] (Some B)) Endpoint0Size_offset) with (B !! 7%nat). rewrite Hsize.
  apply safe_seq; [apply runs_set_PipeSize; [apply _|exact (proj1 (Forall_lookup _ _) Hall' _ _ Hsize)]|].
  intros _. apply runs_then_wait; [apply (runs_ResetDevice (H := avr)); apply _|done|done|by repeat constructor].
Qed.

Lemma runs_case_PostReset : runs_safely (host_inv any_host) (case_PostReset (H := avr)).
Proof.
  unfold case_PostReset. apply runs_seq; [apply runs_get|intros size].
  apply runs_seq; [apply (runs_ConfigurePipe (H := avr)), _|intros ok].
  destruct (negb ok); [apply runs_ret|]. apply safe_with_request.
  match goal with |- safe (host_inv (sending ?q)) _ _ => set (req := q) end.
  apply safe_seq.
  { eapply safe_any, (safe_SendControlRequest (H := avr) _ data_register req); by try intros s [_ ?]. }
  intros [c B]. destruct (negb _); [by apply safe_ret|].
  apply runs_seq; [apply runs_NONBLOCK_WAIT; [done|done|by repeat constructor]|]. intros _. apply runs_ret.
Qed.

Lemma runs_case_Settle s :
  host_inv any_host s -> USB_HostState (Host s) <> HOST_STATE_WaitForDevice ->
  wlp (case_WaitForDeviceSettle (H := avr)) (fun a s' => host_inv any_host s' /\ True) s.
Proof.
  intros [Hok _] Hne. unfold case_WaitForDeviceSettle, get_Host. rewrite wlp_bind, wlp_get, wlp_bind.
  unfold put_Host at 1. rewrite wlp_put.
  assert (Hs : host_inv any_host
            (set_Host (set_WaitMSRemaining (u16 (WaitMSRemaining (Host s) - 1)) (Host s)) s)).
  { split; [|done]. apply host_ok_wait; [done|apply wrap_fits; lia|done]. }
  revert Hs. generalize (set_Host (set_WaitMSRemaining (u16 (WaitMSRemaining (Host s) - 1)) (Host s)) s).
  apply (runs_if (host_inv any_host)).
  - apply runs_seq; [apply (runs_emit (H := avr)), _|intros; apply runs_ret].
  - assert (runs_safely (host_inv any_host) (put_Host (set_USB_HostState HOST_STATE_Powered_WaitForConnect)))
      by (by apply runs_set_HostState; [apply _|]). unfold no_error. safely.
Qed.

Lemma runs_case_Connect : runs_safely (host_inv any_host) (case_WaitForConnect (H := avr)).
Proof.
  assert (runs_safely (host_inv any_host) (HOST_TASK_NONBLOCK_WAIT 100 HOST_STATE_Powered_DoReset))
    by (apply runs_NONBLOCK_WAIT; [done|done|by repeat constructor]).
  unfold case_WaitForConnect, no_error. safely.
Qed.

(** A case of the [switch] keeps the invariant. *)
Lemma runs_host_case DataBuffer s :
  buffer_of 8 DataBuffer -> host_inv any_host s ->
  wlp (host_case (H := avr) DataBuffer (USB_HostState (Host s))) (fun _ s' => host_inv any_host s' /\ True) s.
Proof.
  intros HB Hs. unfold host_case.
  assert (Hstate : forall x, HOST_STATE_WaitForDevice < x <= HOST_STATE_Configured ->
            runs_safely (host_inv any_host) (put_Host (set_USB_HostState x)))
    by (intros; by apply runs_set_HostState; [apply _|]).
  destruct (Z.eqb_spec (USB_HostState (Host s)) HOST_STATE_WaitForDevice) as [E0|E0].
  { eapply wlp_mono; [by intros a s' Ha; split; [exact Ha|]|]. apply runs_case_WaitForDevice.
    destruct Hs as [Hok _]. split; [done|]. by apply ok_Waiting. }
  destruct (_ =? HOST_STATE_Powered).
  { clear E0. revert s Hs. apply runs_seq.
    - apply runs_put_Host. intros r h Hok _. by split; [apply host_ok_wait|].
    - intros _. apply runs_seq; [by apply Hstate|intros; apply runs_ret]. }
  destruct (_ =? HOST_STATE_Powered_WaitForDeviceSettle); [by apply runs_case_Settle|].
  clear E0.
  destruct (_ =? HOST_STATE_Powered_WaitForConnect); [by apply runs_case_Connect|].
  destruct (_ =? HOST_STATE_Powered_DoReset).
  { apply (runs_then_wait any_host); [apply (runs_ResetDevice (H := avr)); apply _|done|done|by repeat constructor|done]. }
  destruct (_ =? HOST_STATE_Powered_ConfigPipe).
  { revert s Hs. apply runs_seq; [apply (runs_ConfigurePipe (H := avr)), _|]. intros ok.
    destruct (negb ok); [apply runs_ret|]. apply runs_seq; [by apply Hstate|intros; apply runs_ret]. }
  destruct (_ =? HOST_STATE_Default); [by apply runs_case_Default|].
  destruct (_ =? HOST_STATE_Default_PostReset); [by apply runs_case_PostReset|].
  destruct (_ =? HOST_STATE_Default_PostAddressSet); [|by apply runs_ret].
  revert s Hs. apply runs_seq; [apply (runs_wr (H := avr)), _|intros _].
  apply runs_seq; [by apply Hstate|intros _]. apply runs_seq; [done|intros; apply runs_ret].
Qed.

Lemma runs_ProcessNextHostState DataBuffer :
  buffer_of 8 DataBuffer ->
  runs_safely (host_inv any_host) (USB_Host_ProcessNextHostState (H := avr) DataBuffer).
Proof.
  intros HB s Hs. unfold USB_Host_ProcessNextHostState. rewrite wlp_bind.
  unfold get_HostState at 1, get_volatile, wlp at 1. apply (stable_async (H := avr)) in Hs.
  change (async s) with (async (Env := avr) s). rewrite wlp_bind.
  eapply wlp_mono; [|by apply runs_host_case]. intros [e x] s1 [Hs1 _]. revert s1 Hs1.
  pose proof (runs_ResetInterface_Host (H := avr) any_host) as Hreset.
  apply runs_if; [|apply runs_ret]. unfold enumeration_failed. pose proof safe_EnumerationFailed. safely.
Qed.

Lemma runs_HostTask DataBuffer :
  buffer_of 8 DataBuffer -> runs_safely (host_inv any_host) (USB_HostTask (H := avr) DataBuffer).
Proof.
  intros HB. pose proof (runs_ProcessNextHostState DataBuffer HB). unfold USB_HostTask. safely.
Qed.

(** C16: the host state machine keeps its invariant.  Whatever the attached device
    answers and whichever interrupts arrive at its volatile accesses, a call of
    [USB_HostTask] has no undefined behaviour and leaves, as does the interrupt
    handler, the variables of the state machine well formed: the state is one of
    the twelve, the counters fit their types, and the state that waits is only
    entered with a wait to count down and one of the four states that follow a
    wait to go to, so that the machine is never left in it for good. *)
Theorem host_task_invariant DataBuffer s :
  buffer_of 8 DataBuffer -> host_ok (Host s) ->
  wlp (USB_HostTask (H := avr) DataBuffer) (fun _ s' => host_ok (Host s')) s /\
  host_ok (Host (async (Env := avr) s)).
Proof.
  intros HB Hs. split.
  - eapply wlp_mono; [|by apply (runs_HostTask DataBuffer HB); split]. by intros [] s' [[? _] _].
  - by apply (stable_async (H := avr) (I := host_inv any_host)).
Qed.

(** C17: a control request never leaves its buffer.  Whatever the device sends and
    whichever interrupts arrive, [USB_Host_SendControlRequest] called with no
    buffer, or with one of at least [wLength] bytes, has no undefined behaviour
    and leaves an object of the same size, and the state machine well formed. *)
Theorem host_request_safe Buffer s :
  host_ok (Host s) -> is_u16 (wLength (USB_ControlRequest s)) ->
  buffer_for (wLength (USB_ControlRequest s)) Buffer ->
  wlp (USB_Host_SendControlRequest (H := avr) Buffer)
    (fun r s' => same_object Buffer (snd r) /\ host_ok (Host s')) s.
Proof.
  intros Hok Hlen Hb. set (req := USB_ControlRequest s).
  pose proof (safe_SendControlRequest (H := avr) (host_inv (sending req)) data_register req Buffer
                ltac:(by intros s' [_ ?]) Hlen Hb s (conj Hok eq_refl)) as Hrun.
  eapply wlp_mono; [|exact Hrun]. by intros [c B] s' [[? _] ?].
Qed.
End SafeHost.
