(* ===== verification/PipeStream.v ===== *)
(** * Pipe streams

    [LUFA/Drivers/USB/Core/AVR8/PipeStream_AVR8.c] and
    [Template/Template_Pipe_RW.c]: bulk transfers over the selected pipe of a
    host. *)
From S2P Require Import Prelude Machine Rely StdDescriptors Descriptors Endpoint ControlStream UsbController DeviceStandardReq EndpointStream UsbInterrupt Safety Pipe HostController HostStandardReq HostTask HostSafety.

(** [enum Pipe_Stream_RW_ErrorCodes_t] *)
Inductive Pipe_Stream_RW_ErrorCodes_t : Set :=
  | PIPE_RWSTREAM_NoError
  | PIPE_RWSTREAM_PipeStalled
  | PIPE_RWSTREAM_DeviceDisconnected
  | PIPE_RWSTREAM_Timeout
  | PIPE_RWSTREAM_IncompleteTransfer.

(** [if ((ErrorCode = Pipe_WaitUntilReady())) return ErrorCode;]: the codes of the
    two enumerations have the same numbers; [None] is no error. *)
Definition pipe_ready_error (c : Pipe_WaitUntilReady_ErrorCodes_t) : option Pipe_Stream_RW_ErrorCodes_t :=
  match c with
  | PIPE_READYWAIT_NoError => None
  | PIPE_READYWAIT_PipeStalled => Some PIPE_RWSTREAM_PipeStalled
  | PIPE_READYWAIT_DeviceDisconnected => Some PIPE_RWSTREAM_DeviceDisconnected
  | PIPE_READYWAIT_Timeout => Some PIPE_RWSTREAM_Timeout
  end.

Section PipeStream.
Context `{Env}.

(** [while (Length)], as in [EndpointStream]; [background] is what runs before the
    next wait. *)
Definition pipe_stream_loop {X} (T : stream_template) (clear_pipe background : M unit)
    (transfer : X -> Z -> M X) (buffer : X) (DataStream Length : Z) (BytesProcessed : option Z)
    : M (Pipe_Stream_RW_ErrorCodes_t * option Z * X) :=
  loop fuel (fun '(buffer, DataStream, Length, BytesInTransfer) =>
    if Length =? 0 then ret (inr (PIPE_RWSTREAM_NoError, BytesProcessed, buffer))
    else
      allowed ← Pipe_IsReadWriteAllowed;
      if negb allowed then
        clear_pipe ;;
        match BytesProcessed with
        | Some n => ret (inr (PIPE_RWSTREAM_IncompleteTransfer,
                              Some (u16 (n + BytesInTransfer)), buffer))
        | None =>
            background ;;
            c ← Pipe_WaitUntilReady;
            match pipe_ready_error c with
            | Some e => ret (inr (e, BytesProcessed, buffer))
            | None => ret (inl (buffer, DataStream, Length, BytesInTransfer))
            end
        end
      else
        buffer ← transfer buffer DataStream;
        ret (inl (buffer, TEMPLATE_BUFFER_MOVE T DataStream 1, u16 (Length - 1),
                  u16 (BytesInTransfer + 1))))
  (buffer, DataStream, Length, 0).

Definition Template_Pipe_RW {X} (T : stream_template) (TEMPLATE_TOKEN : Z) (clear_pipe : M unit)
    (transfer : X -> Z -> M X) (buffer : X) (Length : Z) (BytesProcessed : option Z)
    : M (Pipe_Stream_RW_ErrorCodes_t * option Z * X) :=
  let DataStream := TEMPLATE_BUFFER_OFFSET T Length in
  Pipe_SetPipeToken TEMPLATE_TOKEN ;;
  c ← Pipe_WaitUntilReady;
  match pipe_ready_error c with
  | Some e => ret (e, BytesProcessed, buffer)
  | None =>
      let '(DataStream, Length) :=
        match BytesProcessed with
        | Some n => (TEMPLATE_BUFFER_MOVE T DataStream n, u16 (Length - n))
        | None => (DataStream, Length)
        end in
      pipe_stream_loop T clear_pipe (ret tt) transfer buffer DataStream Length BytesProcessed
  end.

(** The streams without a buffer: no pointer is kept. *)
Definition simple_pipe_stream (Token : Z) (clear_pipe background transfer_byte : M unit) (Length : Z)
    (BytesProcessed : option Z) : M (Pipe_Stream_RW_ErrorCodes_t * option Z) :=
  Pipe_SetPipeToken Token ;;
  c ← Pipe_WaitUntilReady;
  match pipe_ready_error c with
  | Some e => ret (e, BytesProcessed)
  | None =>
      let Length := match BytesProcessed with Some n => u16 (Length - n) | None => Length end in
      '(code, BytesProcessed, _) ←
        pipe_stream_loop no_buffer clear_pipe background (fun (_ : unit) _ => transfer_byte) tt 0
          Length BytesProcessed;
      ret (code, BytesProcessed)
  end.

Definition Pipe_Discard_Stream := simple_pipe_stream PIPE_TOKEN_IN Pipe_ClearIN (ret tt) Pipe_Discard_8.

(** [USB_USBTask] is [USB_HostTask] in a host. *)
Definition Pipe_Null_Stream `{USB_Host_Application} (DataBuffer : bytes) :=
  simple_pipe_stream PIPE_TOKEN_OUT Pipe_ClearOUT (USB_HostTask DataBuffer) (Pipe_Write_8 0).

(** ** Instances *)

(** [Pipe_Write_8] of the byte [DataStream] points to, and [Pipe_Read_8] into it. *)
Definition pipe_out (read_byte : Z -> option Z) (DataStream : Z) : M unit :=
  match read_byte DataStream with Some b => Pipe_Write_8 b | None => undefined end.
Definition pipe_in (Buffer : bytes) (DataStream : Z) : M bytes :=
  b ← Pipe_Read_8;
  match store_byte Buffer DataStream b with Some Buffer => ret Buffer | None => undefined end.

Definition pipe_write_stream (T : stream_template) (read_byte : Z -> option Z) (Length : Z)
    (BytesProcessed : option Z) : M (Pipe_Stream_RW_ErrorCodes_t * option Z) :=
  '(code, BytesProcessed, _) ←
    Template_Pipe_RW T PIPE_TOKEN_OUT Pipe_ClearOUT (fun (_ : unit) p => pipe_out read_byte p) tt
      Length BytesProcessed;
  ret (code, BytesProcessed).
Definition pipe_read_stream (T : stream_template) (Buffer : bytes) :=
  Template_Pipe_RW T PIPE_TOKEN_IN Pipe_ClearIN pipe_in Buffer.

Definition Pipe_Write_Stream_LE (Buffer : bytes) := pipe_write_stream LE_stream (load_byte Buffer).
Definition Pipe_Write_Stream_BE (Buffer : bytes) := pipe_write_stream BE_stream (load_byte Buffer).
Definition Pipe_Read_Stream_LE := pipe_read_stream LE_stream.
Definition Pipe_Read_Stream_BE := pipe_read_stream BE_stream.
Definition Pipe_Write_PStream_LE (Buffer : flash_ptr) :=
  pipe_write_stream LE_stream (fun p => pgm_read_byte (flash_offset Buffer p)).
Definition Pipe_Write_PStream_BE (Buffer : flash_ptr) :=
  pipe_write_stream BE_stream (fun p => pgm_read_byte (flash_offset Buffer p)).
Definition Pipe_Write_EStream_LE (Buffer : bytes) := pipe_write_stream LE_stream (load_byte Buffer).
Definition Pipe_Write_EStream_BE (Buffer : bytes) := pipe_write_stream BE_stream (load_byte Buffer).
Definition Pipe_Read_EStream_LE := pipe_read_stream LE_stream.
Definition Pipe_Read_EStream_BE := pipe_read_stream BE_stream.
End PipeStream.

(** ** Safety

    On any hardware, a stream over a buffer of at least [Length] bytes of which the
    first [BytesProcessed] were transferred before stays inside of it; a transfer
    cut off reports at most [Length] bytes as processed. *)
Section SafePipeStream.
Context `{Env} (I : st -> Prop) `{!Stable I}.
Hypothesis data_register : forall t, is_u8 (respond t UPDATX).

Definition resumable (Length : Z) (BytesProcessed : option Z) : Prop :=
  match BytesProcessed with None => True | Some n => 0 <= n <= Length end.

Lemma safe_pipe_in N Buffer p :
  buffer_of N Buffer -> 0 <= p < N -> safe I (pipe_in Buffer p) (buffer_of N).
Proof.
  intros [Hall Hlen] Hp. unfold pipe_in. eapply safe_bind; [by apply safe_rd|].
  intros b (t & ->). unfold store_byte, load_byte. destruct (Z.leb_spec 0 p); [|lia].
  destruct (lookup_lt_is_Some_2 Buffer (Z.to_nat p)) as [x ->]; [lia|].
  apply safe_ret. split; [by apply Forall_insert|by rewrite length_insert].
Qed.

(** The loop, for a transfer that is safe inside of an object of [N] bytes. *)
Lemma safe_pipe_stream_loop {X} (R : X -> Prop) N L clear (transfer : X -> Z -> M X) buffer p len processed :
  runs_safely I clear ->
  (forall x q, R x -> 0 <= q < N -> safe I (transfer x q) R) ->
  R buffer -> in_object N p len -> L = p + len -> is_u16 L ->
  (match processed with Some n => p = n | None => True end) ->
  safe I (pipe_stream_loop LE_stream clear (ret tt) transfer buffer p len processed)
    (fun r => R (snd r) /\ resumable L (snd (fst r))).
Proof.
  intros Hclear Htr Hx Hin HL HLu Hproc.
  apply (safe_loop _ (fun '(x, q, k, n) => R x /\ in_object N q k /\ q + k = L /\ q = p + n /\ 0 <= n)).
  2: { split; [done|]. split; [done|]. lia. }
  clear Hx. intros [[[x q] k] n] (Hx & Hin' & Hsum & Hq & Hn).
  assert (Hres : resumable L processed).
  { destruct processed; [|done]. subst. cbn. destruct Hin as (? & [? ?] & ?). lia. }
  destruct (Z.eqb_spec k 0) as [->|Hk]; [by apply safe_ret|]. safe_step. destruct (negb _).
  - safe_step. destruct processed as [m|].
    + apply safe_ret. split; [done|]. cbn. destruct Hin as (? & [? ?] & ?), Hin' as (? & [? ?] & ?), HLu.
      subst m. rewrite wrap_id by (unfold fits; lia). lia.
    + safe_step. apply safe_seq; [apply runs_Pipe_WaitUntilReady, _|intros c].
      destruct (pipe_ready_error c); by apply safe_ret.
  - eapply safe_bind; [apply Htr; [done|destruct Hin' as (? & [? ?] & ?); lia]|]. intros x' Hx'.
    apply safe_ret. destruct Hin as (? & [? ?] & ?), Hin' as (? & [? ?] & ?), HLu.
    cbn [TEMPLATE_BUFFER_MOVE LE_stream].
    rewrite (wrap_id 16 (k - 1)), (wrap_id 16 (n + 1)) by (unfold fits; lia).
    split; [done|]. repeat split; lia.
Qed.

Lemma safe_Pipe_Read_Stream Buffer Length processed :
  is_u16 Length -> all_bytes Buffer -> Length <= Z.of_nat (length Buffer) -> resumable Length processed ->
  safe I (Pipe_Read_Stream_LE Buffer Length processed)
    (fun r => buffer_of (Z.of_nat (length Buffer)) (snd r) /\ resumable Length (snd (fst r))).
Proof.
  intros HL Hall Hfit Hres. unfold Pipe_Read_Stream_LE, pipe_read_stream, Template_Pipe_RW. safe_step.
  apply safe_seq; [apply runs_Pipe_WaitUntilReady, _|intros c]. destruct (pipe_ready_error c); [by apply safe_ret|].
  pose proof HL as [? ?]. cbn [TEMPLATE_BUFFER_OFFSET TEMPLATE_BUFFER_MOVE LE_stream].
  destruct processed as [n|]; cbn in Hres; rewrite ?(wrap_id 16) by (unfold fits; lia);
    apply (safe_pipe_stream_loop _ (Z.of_nat (length Buffer)));
    try safely; try done; try lia; try (intros; by apply safe_pipe_in); repeat split; lia.
Qed.

Lemma safe_Pipe_Write_Stream Buffer Length processed :
  is_u16 Length -> Length <= Z.of_nat (length Buffer) -> resumable Length processed ->
  safe I (Pipe_Write_Stream_LE Buffer Length processed) (fun r => resumable Length (snd r)).
Proof.
  intros HL Hfit Hres. unfold Pipe_Write_Stream_LE, pipe_write_stream.
  apply (safe_bind _ _ _ (fun r => True /\ resumable Length (snd (fst r)))).
  2: { intros [[c n] x] [_ Hn]. by apply safe_ret. }
  unfold Template_Pipe_RW. safe_step.
  apply safe_seq; [apply runs_Pipe_WaitUntilReady, _|intros c]. destruct (pipe_ready_error c); [by apply safe_ret|].
  pose proof HL as [? ?]. cbn [TEMPLATE_BUFFER_OFFSET TEMPLATE_BUFFER_MOVE LE_stream].
  assert (Hout : forall (x : unit) q, True -> 0 <= q < Z.of_nat (length Buffer) ->
            safe I (pipe_out (load_byte Buffer) q) (fun _ => True)).
  { intros _ q _ Hq. unfold pipe_out, load_byte. destruct (Z.leb_spec 0 q); [|lia].
    destruct (lookup_lt_is_Some_2 Buffer (Z.to_nat q)) as [x ->]; [lia|]. safely. }
  destruct processed as [n|]; cbn in Hres; rewrite ?(wrap_id 16) by (unfold fits; lia);
    apply (safe_pipe_stream_loop (fun _ => True) (Z.of_nat (length Buffer)));
    try safely; try done; try lia; repeat split; lia.
Qed.
End SafePipeStream.
