(* ===== verification/HostConfigDescriptor.v ===== *)
(** * Reading the configuration descriptor of a device

    [USB_Host_GetDeviceConfigDescriptor] of
    [LUFA/Drivers/USB/Core/ConfigDescriptors.c]: the host side of the
    configuration descriptor parser. *)
From S2P Require Import Prelude Machine Rely StdDescriptors Descriptors ConfigDescriptors Endpoint ControlStream UsbController DeviceStandardReq EndpointStream UsbInterrupt Safety Pipe HostController HostStandardReq HostTask HostSafety.

(** [enum USB_Host_GetConfigDescriptor_ErrorCodes_t]: the first five are those of
    a control request. *)
Definition HOST_GETCONFIG_Successful := 0.
Definition HOST_GETCONFIG_BuffOverflow := 5.
Definition HOST_GETCONFIG_InvalidData := 6.

Section HostConfigDescriptor.
Context `{Env}.

(** [ConfigHeader] is what the local array of nine bytes holds at first; returned
    are the code, [*ConfigSizePtr] and the contents of the buffer. *)
Definition USB_Host_GetDeviceConfigDescriptor (ConfigHeader : bytes) (ConfigNumber ConfigSize : Z)
    (Buffer : bytes) (BufferSize : Z) : M (Z * Z * bytes) :=
  put (set_USB_ControlRequest
         {| bmRequestType := Z.lor (Z.lor REQDIR_DEVICETOHOST REQTYPE_STANDARD) REQREC_DEVICE;
            bRequest := REQ_GetDescriptor;
            wValue := u16 (Z.lor (Z.shiftl DTYPE_Configuration 8) (ConfigNumber - 1));
            wIndex := 0; wLength := sizeof_Configuration_Header |}) ;;
  Pipe_SelectPipe PIPE_CONTROLPIPE ;;
  '(ErrorCode, Header) ← USB_Host_SendControlRequest (Some ConfigHeader);
  if negb (ErrorCode =? HOST_SENDCONTROL_Successful) then ret (ErrorCode, ConfigSize, Buffer)
  else
    match load_byte (default [] Header) 2, load_byte (default [] Header) 3 with
    | Some b0, Some b1 =>
        let ConfigSize := le_val [b0; b1] in
        if BufferSize <? ConfigSize then ret (HOST_GETCONFIG_BuffOverflow, ConfigSize, Buffer)
        else
          req ← get USB_ControlRequest;
          put (set_USB_ControlRequest
                 {| bmRequestType := bmRequestType req; bRequest := bRequest req;
                    wValue := wValue req; wIndex := wIndex req; wLength := ConfigSize |}) ;;
          '(ErrorCode, Buffer') ← USB_Host_SendControlRequest (Some Buffer);
          let Buffer := default [] Buffer' in
          if negb (ErrorCode =? HOST_SENDCONTROL_Successful) then ret (ErrorCode, ConfigSize, Buffer)
          else
            match DESCRIPTOR_TYPE Buffer 0 with
            | Some t => ret (if negb (t =? DTYPE_Configuration) then HOST_GETCONFIG_InvalidData
                             else HOST_GETCONFIG_Successful, ConfigSize, Buffer)
            | None => undefined
            end
    | _, _ => undefined
    end.
End HostConfigDescriptor.

#[local] Existing Instance host_stable.

Section SafeConfigDescriptor.
Context {E : Env} {HE : Masked} {IntApp : USB_Host_Application} {Law : Host_Interrupt_Law IntApp}.
Hypothesis data_register : forall t, is_u8 (respond t UPDATX).
Let avr : Env := host_interrupted E IntApp.

(** A device-to-host request made at a point of the program. *)
Lemma request_from req B s :
  host_inv (sending req) s -> is_u16 (wLength req) -> buffer_for (wLength req) (Some B) ->
  wlp (USB_Host_SendControlRequest (H := avr) (Some B)) (fun r s' => host_inv (sending req) s' /\
    exists B', snd r = Some B' /\ buffer_of (Z.of_nat (length B)) B') s.
Proof.
  intros Hs Hlen Hb.
  pose proof (safe_SendControlRequest (H := avr) (host_inv (sending req)) data_register req (Some B)
                ltac:(by intros s' [_ ?]) Hlen Hb s Hs) as Hrun.
  eapply wlp_mono; [|exact Hrun]. intros [c [B'|]] s' [Hs' HB]; [|done]. by split; [|exists B'].
Qed.

(** C18: a device cannot overflow the configuration buffer.  Whatever sizes it
    announces and however much it sends, and whichever interrupts arrive,
    [USB_Host_GetDeviceConfigDescriptor] called with a buffer of at least two bytes
    and an initial size no larger than the buffer has no undefined behaviour: it leaves a buffer of the same size and, unless it returns
    the overflow code, an announced size that fits. *)
Theorem USB_Host_GetDeviceConfigDescriptor_safe ConfigHeader ConfigNumber ConfigSize Buffer BufferSize s :
  buffer_of sizeof_Configuration_Header ConfigHeader -> all_bytes Buffer -> 0 <= ConfigSize <= BufferSize ->
  BufferSize <= Z.of_nat (length Buffer) -> 2 <= Z.of_nat (length Buffer) -> host_ok (Host s) ->
  wlp (USB_Host_GetDeviceConfigDescriptor (H := avr) ConfigHeader ConfigNumber ConfigSize Buffer BufferSize)
    (fun '(code, size, B) s' => host_ok (Host s') /\ buffer_of (Z.of_nat (length Buffer)) B /\
       (code <> HOST_GETCONFIG_BuffOverflow -> 0 <= size <= BufferSize)) s.
Proof.
  intros [HallH HlenH] Hall Hsize Hfit H2 Hok. unfold USB_Host_GetDeviceConfigDescriptor.
  rewrite wlp_bind, wlp_put, wlp_bind. unfold Pipe_SelectPipe, wr, wlp at 1.
  match goal with |- wlp _ _ (log ?e (set_USB_ControlRequest ?q s)) => set (req := q); set (s1 := log e _) end.
  assert (Hs1 : host_inv (sending req) s1) by done. rewrite wlp_bind.
  eapply wlp_mono; [|apply (request_from req); [done|done|split; [done|unfold req; cbn; lia]]].
  intros [c Hd] s2 [[Hok2 _] (Hb & HB & HallB & HlenB)]. cbn [snd] in HB. subst Hd.
  destruct (negb _); [by rewrite wlp_ret|].
  destruct (lookup_lt_is_Some_2 Hb 2) as [b0 H0]; [unfold sizeof_Configuration_Header in *; lia|].
  destruct (lookup_lt_is_Some_2 Hb 3) as [b1 H1]; [unfold sizeof_Configuration_Header in *; lia|].
  change (load_byte (default [] (Some Hb)) 2) with (Hb !! 2%nat).
  change (load_byte (default [] (Some Hb)) 3) with (Hb !! 3%nat). rewrite H0, H1.
  assert (Hu : is_u16 (le_val [b0; b1])).
  { apply (le_val_fits [b0; b1]). repeat constructor; eapply (proj1 (Forall_lookup _ _) HallB); eassumption. }
  destruct (Z.ltb_spec BufferSize (le_val [b0; b1])); [by rewrite wlp_ret|].
  rewrite wlp_bind, wlp_get, wlp_bind, wlp_put, wlp_bind.
  match goal with |- wlp _ _ (set_USB_ControlRequest ?q s2) => set (req2 := q) end.
  eapply wlp_mono; [|apply (request_from req2); [done|done|split; [done|unfold req2; cbn [wLength]; lia]]].
  intros [c2 Hd2] s3 [[Hok3 _] (B' & HB' & HallB' & HlenB')]. cbn [snd] in HB'. subst Hd2.
  change (default [] (Some B')) with B'. destruct Hu as [? _].
  destruct (negb _); [rewrite wlp_ret; done|].
  destruct (lookup_lt_is_Some_2 B' 1) as [t Ht]; [lia|].
  change (DESCRIPTOR_TYPE B' 0) with (B' !! 1%nat). rewrite Ht, wlp_ret. done.
Qed.
End SafeConfigDescriptor.
