(* ===== verification/HostTransfer.v ===== *)
(** * Control transfers of the host

    [USB_Host_SendControlRequest] with interrupts masked: it returns, what it
    puts on and takes from the pipe, and what its return code means. *)
From S2P Require Import Prelude Machine Rely StdDescriptors Descriptors Endpoint ControlStream UsbController DeviceStandardReq UsbInterrupt Safety Pipe HostController HostStandardReq HostTask HostSafety.

(** ** What the trace says about the pipe

    The bytes written to and read from the pipe, oldest first; a status bit seen
    set; the start-of-frame flags seen, and the polls since the last one. *)
Fixpoint pipe_writes (l : list event) : bytes :=
  match l with
  | [] => []
  | Wr UPDATX v :: l => pipe_writes l ++ [v]
  | _ :: l => pipe_writes l
  end.

Fixpoint pipe_reads (l : list event) : bytes :=
  match l with
  | [] => []
  | Rd UPDATX v :: l => pipe_reads l ++ [v]
  | _ :: l => pipe_reads l
  end.

Definition seen (r : reg) (n : Z) (l : list event) : Prop :=
  exists v, Rd r v ∈ l /\ has_bit v n = true.

Fixpoint frames_seen (l : list event) : nat :=
  match l with
  | [] => 0
  | Rd UHINT v :: l => (if has_bit v HSOFI then 1 else 0) + frames_seen l
  | _ :: l => frames_seen l
  end.

Fixpoint frame_waits (t : list event) : nat :=
  match t with
  | [] => 0
  | Rd UHINT v :: t => if has_bit v HSOFI then 0 else S (frame_waits t)
  | Wr UHINT _ :: t => 0
  | _ :: t => frame_waits t
  end.

(** Documented behaviour of the controller in host mode: while it generates
    frames, the start-of-frame flag is set again within [K] polls; reading the
    byte counter does not change it; and an OUT bank that is reported ready is
    empty. *)
Record host_controller `{Env} (K : nat) : Prop := {
  hc_frames : forall t, (K <= frame_waits t)%nat -> has_bit (respond t UHINT) HSOFI = true;
  hc_counter : forall t n, respond (Rd UPBCX n :: t) UPBCX = n;
  hc_ready : forall t v, has_bit v TXOUTI = true -> respond (Rd UPINTX v :: t) UPBCX = 0;
  hc_data : forall t, is_u8 (respond t UPDATX)
}.

(** The accesses [l] moved no data. *)
Definition silent (l : list event) : Prop := pipe_writes l = [] /\ pipe_reads l = [].

Lemma pipe_writes_app l l' : pipe_writes (l' ++ l) = pipe_writes l ++ pipe_writes l'.
Proof. induction l' as [|[[]|[]| | | | |] l' IH]; cbn; rewrite ?IH, ?app_nil_r, ?app_assoc; done. Qed.

Lemma pipe_reads_app l l' : pipe_reads (l' ++ l) = pipe_reads l ++ pipe_reads l'.
Proof. induction l' as [|[[]|[]| | | | |] l' IH]; cbn; rewrite ?IH, ?app_nil_r, ?app_assoc; done. Qed.

Lemma frames_seen_app l l' : frames_seen (l' ++ l) = (frames_seen l' + frames_seen l)%nat.
Proof. induction l' as [|[[]|[]| | | | |] l' IH]; cbn; lia. Qed.

Lemma silent_app l l' : silent l' -> silent l -> silent (l' ++ l).
Proof.
  intros [Hw' Hr'] [Hw Hr]. split; [rewrite pipe_writes_app, Hw, Hw'|rewrite pipe_reads_app, Hr, Hr']; done.
Qed.

Lemma seen_app_l r n l l' : seen r n l' -> seen r n (l' ++ l).
Proof. intros (v & Hv & Hn). exists v. split; [apply elem_of_app; by left|done]. Qed.

Lemma seen_app_r r n l l' : seen r n l -> seen r n (l' ++ l).
Proof. intros (v & Hv & Hn). exists v. split; [apply elem_of_app; by right|done]. Qed.

Lemma seen_frame l : seen UHINT HSOFI l -> (1 <= frames_seen l)%nat.
Proof.
  intros (v & Hv & Hb). induction l as [|e l IH]; [by apply elem_of_nil in Hv|].
  apply elem_of_cons in Hv as [<-|Hv].
  - cbn. rewrite Hb. lia.
  - specialize (IH Hv). destruct e as [[]| | | | | |]; cbn; lia.
Qed.

(** ** Accesses that move no data *)

Definition silently {A} (m : M A) : Prop :=
  forall s, wp m (fun _ s' => exists l, runs l s s' /\ silent l) s.

Create HintDb quiet.
Create HintDb quiet_prims.

Lemma silently_ret {A} (a : A) : silently (ret a).
Proof. intros s. exists []. split; [apply runs_refl|by split]. Qed.

Lemma silently_bind {A B} (m : M A) (k : A -> M B) :
  silently m -> (forall a, silently (k a)) -> silently (bind m k).
Proof.
  intros Hm Hk s. rewrite wp_bind. eapply wp_mono; [|apply Hm]. intros a s1 (l1 & Hr1 & Hs1).
  eapply wp_mono; [|apply Hk]. intros b s2 (l2 & Hr2 & Hs2). exists (l2 ++ l1).
  split; [by eapply runs_trans|by apply silent_app].
Qed.

Lemma silently_when b m : silently m -> silently (when b m).
Proof. destruct b; [done|]. intros _. apply silently_ret. Qed.

(** One step of a computation that started in [s0]. *)
Lemma silently_then {A} (m : M A) s0 l s Q :
  silently m -> runs l s0 s ->
  (forall a l' s', runs (l' ++ l) s0 s' -> silent l' -> Q a s') -> wp m Q s.
Proof.
  intros Hm Hr HQ. eapply wp_mono; [|apply Hm]. intros a s' (l' & Hr' & Hs').
  apply (HQ a l'); [by eapply runs_trans|done].
Qed.

Section Quiet.
Context `{Masked}.

Lemma silently_rd r : r <> UPDATX -> silently (rd r).
Proof.
  intros Hr s. eapply run_rd; [apply runs_refl|]. intros v s' Hrun _. exists [Rd r v].
  split; [done|]. by split; destruct r.
Qed.
Lemma silently_wr r v : r <> UPDATX -> silently (wr r v).
Proof.
  intros Hr s. eapply run_wr; [apply runs_refl|]. intros s' Hrun. exists [Wr r (u8 v)].
  split; [done|]. by split; destruct r.
Qed.
Lemma silently_reg_set r n : r <> UPDATX -> silently (reg_set r n).
Proof. intros Hr. apply silently_bind; [by apply silently_rd|intros; by apply silently_wr]. Qed.
Lemma silently_reg_clear r n : r <> UPDATX -> silently (reg_clear r n).
Proof. intros Hr. apply silently_bind; [by apply silently_rd|intros; by apply silently_wr]. Qed.
Lemma silently_reg_test r n : r <> UPDATX -> silently (reg_test r n).
Proof. intros Hr. apply silently_bind; [by apply silently_rd|intros; apply silently_ret]. Qed.
End Quiet.

#[export] Hint Resolve silently_ret silently_when : quiet.
#[export] Hint Extern 1 (silently (rd _)) => apply silently_rd; discriminate : quiet.
#[export] Hint Extern 1 (silently (wr _ _)) => apply silently_wr; discriminate : quiet.
#[export] Hint Extern 1 (silently (reg_set _ _)) => apply silently_reg_set; discriminate : quiet.
#[export] Hint Extern 1 (silently (reg_clear _ _)) => apply silently_reg_clear; discriminate : quiet.
#[export] Hint Extern 1 (silently (reg_test _ _)) => apply silently_reg_test; discriminate : quiet.
#[export] Hint Extern 2 (silently (bind _ _)) => apply silently_bind; [|intros] : quiet.
#[export] Hint Unfold Pipe_SetPipeToken Pipe_Unfreeze Pipe_Freeze Pipe_ClearError Pipe_ClearIN
  Pipe_ClearOUT Pipe_ClearSETUP Pipe_ClearStall Pipe_ResetPipe Pipe_SelectPipe USB_Host_ResumeBus
  USB_Host_SuspendBus USB_Host_IsBusSuspended USB_INT_IsEnabled USB_INT_Disable USB_INT_Enable
  USB_INT_Clear : quiet_prims.
#[export] Hint Extern 3 (silently _) => progress autounfold with quiet_prims : quiet.

(** ** Waiting

    What the code of [USB_Host_WaitMS] says about the accesses [l] it made in host
    state [h]. *)
Definition wait_meaning (h c : Z) (l : list event) : Prop :=
  (c = HOST_WAITERROR_Successful /\ (1 <= frames_seen l)%nat) \/
  (c = HOST_WAITERROR_DeviceDisconnect /\ h = HOST_STATE_Unattached) \/
  (c = HOST_WAITERROR_PipeError /\ seen UPINTX PERRI l) \/
  (c = HOST_WAITERROR_SetupStalled /\ seen UPINTX RXSTALLI l).

Section Transfer.
Context `{Masked} (K : nat).
Hypothesis hc : host_controller K.
Context (s0 : st).

(** A rule for each poll: [l] is what was done since [s0]. *)
Lemma runs_Host l s : runs l s0 s -> Host s = Host s0.
Proof. by intros ->. Qed.

(** A status flag that ends the wait when it is set. *)
Lemma poll_flag {X} n (clear : M unit) c (k : M (X + Z)) l l2 s Q :
  silently clear -> runs (l2 ++ l) s0 s -> silent l2 ->
  (forall l3 s3, runs (l3 ++ l) s0 s3 -> silent l3 -> seen UPINTX n l3 -> Q (inr c) s3) ->
  (forall v s3, runs (Rd UPINTX v :: l2 ++ l) s0 s3 -> wp k Q s3) ->
  wp (b ← reg_test UPINTX n; if b then clear ;; ret (inr c) else k) Q s.
Proof.
  intros Hq Hr Hs Hset Hclr. rewrite wp_bind. eapply run_test; [exact Hr|]. intros v s1 Hr1 _.
  destruct (has_bit v n) eqn:Hv; [|by eapply Hclr].
  rewrite wp_bind. eapply silently_then; [exact Hq|exact Hr1|]. intros a l4 s4 Hr4 Hs4.
  rewrite wp_ret. apply (Hset (l4 ++ Rd UPINTX v :: l2)).
  - by rewrite <- app_assoc.
  - by apply (silent_app (Rd UPINTX v :: l2)).
  - apply seen_app_r. exists v. split; [apply elem_of_cons; by left|done].
Qed.

Lemma wait_round_spec l s :
  runs l s0 s ->
  wp (wait_ms_round 1) (fun r s' => exists l', runs (l' ++ l) s0 s' /\ silent l' /\
    match r with
    | inl MS => MS = 1 /\ frame_waits (l' ++ l ++ trace s0) = S (frame_waits (l ++ trace s0)) /\
                (frame_waits (l ++ trace s0) < K)%nat \/
                MS = 0 /\ (1 <= frames_seen l')%nat
    | inr c => c <> HOST_WAITERROR_Successful /\ wait_meaning (USB_HostState (Host s0)) c l'
    end) s.
Proof.
  intros Hr. unfold wait_ms_round. cbn [Z.eqb]. unfold USB_INT_HasOccurred. rewrite wp_bind.
  eapply run_test; [exact Hr|]. cbn [int_flag fst snd]. intros v s1 Hr1 Hv. rewrite wp_bind.
  set (sof := has_bit v HSOFI).
  assert (Hclear : wp (when sof (USB_INT_Clear USB_INT_HSOFI)) (fun _ s2 => exists l2,
            runs (l2 ++ l) s0 s2 /\ silent l2 /\
            if sof then (1 <= frames_seen l2)%nat
            else frame_waits (l2 ++ l ++ trace s0) = S (frame_waits (l ++ trace s0)) /\
                 (frame_waits (l ++ trace s0) < K)%nat) s1).
  { destruct sof eqn:Hsof; cbn [when]; subst sof.
    - eapply run_clear; [exact Hr1|]. cbn [int_flag fst snd]. intros w s2 Hr2 _. eexists [_; _; _].
      split; [exact Hr2|]. split; [done|]. cbn. rewrite Hsof. lia.
    - rewrite wp_ret. exists [Rd UHINT v]. split; [done|]. split; [done|]. cbn. rewrite Hsof.
      split; [done|]. destruct (decide (K <= frame_waits (l ++ trace s0))%nat) as [Hge|]; [|lia].
      rewrite Hv, (hc_frames _ hc _ Hge) in Hsof. done. }
  eapply wp_mono; [|exact Hclear]. clear Hclear s1 Hr1. intros [] s2 (l2 & Hr2 & Hs2 & Hfr).
  rewrite wp_bind. unfold get_HostState. eapply run_volatile; [exact Hr2|].
  rewrite (runs_Host _ _ Hr2). destruct (Z.eqb_spec (USB_HostState (Host s0)) HOST_STATE_Unattached).
  { rewrite wp_ret. exists l2. split; [done|]. split; [done|]. split; [done|]. right; left. done. }
  eapply (poll_flag PERRI Pipe_ClearError); [auto with quiet|exact Hr2|done|..].
  { intros l3 s3 Hr3 Hs3 He. exists l3. do 3 (split; [done|]). by right; right; left. }
  intros e s3 Hr3. eapply (poll_flag RXSTALLI Pipe_ClearStall _ _ _ (Rd UPINTX e :: l2));
    [auto with quiet|exact Hr3|done|..].
  { intros l4 s4 Hr4 Hs4 He. exists l4. do 3 (split; [done|]). by right; right; right. }
  intros t s4 Hr4. rewrite wp_ret. exists (Rd UPINTX t :: Rd UPINTX e :: l2). split; [done|]. split; [done|].
  destruct sof; [by right|by left].
Qed.

(** Silent code before and after the part of interest. *)
Lemma quiet_before {A B} (m : M A) (k : A -> M B) l s (Phi : B -> list event -> Prop) :
  silently m -> runs l s0 s ->
  (forall b l' l1, silent l1 -> Phi b l' -> Phi b (l' ++ l1)) ->
  (forall a l1 s1, runs (l1 ++ l) s0 s1 ->
     wp (k a) (fun b s' => exists l', runs (l' ++ l1 ++ l) s0 s' /\ Phi b l') s1) ->
  wp (bind m k) (fun b s' => exists l', runs (l' ++ l) s0 s' /\ Phi b l') s.
Proof.
  intros Hm Hr HPhi Hk. rewrite wp_bind. eapply silently_then; [exact Hm|exact Hr|].
  intros a l1 s1 Hr1 Hs1. eapply wp_mono; [|by apply Hk]. intros b s2 (l2 & Hr2 & HP2).
  exists (l2 ++ l1). rewrite <- app_assoc. by split; [|apply HPhi].
Qed.

Lemma wait_meaning_app h c l l' : wait_meaning h c l \/ wait_meaning h c l' -> wait_meaning h c (l' ++ l).
Proof.
  unfold wait_meaning. rewrite frames_seen_app.
  intros [[[? ?]|[[? ?]|[[? ?]|[? ?]]]]|[[? ?]|[[? ?]|[[? ?]|[? ?]]]]];
    eauto 8 using seen_app_l, seen_app_r; left; split; lia.
Qed.

Definition waited (h c : Z) (l : list event) : Prop := silent l /\ wait_meaning h c l.

Lemma waited_before h c l l1 : silent l1 -> waited h c l -> waited h c (l ++ l1).
Proof. intros H1 [Hs Hm]. split; [by apply silent_app|]. apply wait_meaning_app. by right. Qed.

Lemma wait_loop l s :
  (K + 2 < fuel)%nat -> runs l s0 s ->
  wp (loop fuel wait_ms_round 1) (fun c s' => exists l', runs (l' ++ l) s0 s' /\
    waited (USB_HostState (Host s0)) c l') s.
Proof.
  intros Hfuel Hr.
  apply (wp_loop (fun MS n s => exists l', runs (l' ++ l) s0 s /\ silent l' /\
           (MS = 1 /\ n = S (K - frame_waits (l' ++ l ++ trace s0))%nat \/
            MS = 0 /\ n = 0%nat /\ (1 <= frames_seen l')%nat)))
    with (n := S (K - frame_waits (l ++ trace s0))%nat); [|lia|exists []; split; [done|]; split; [done|by left]].
  intros MS n s1 (l1 & Hr1 & Hs1 & [[-> ->]|(-> & -> & Hf)]).
  - eapply wp_mono; [|by apply wait_round_spec]. intros r s2 (l2 & Hr2 & Hs2 & Hres).
    rewrite app_assoc in Hr2. pose proof (silent_app _ _ Hs2 Hs1) as Hs. destruct r as [MS'|c].
    + destruct Hres as [(-> & Hw & Hlt)|(-> & Hf)].
      * eexists. split; [|exists (l2 ++ l1); split; [exact Hr2|]; split; [done|]; left; split; [done|reflexivity]].
        rewrite <- !app_assoc in Hw, Hlt |- *. lia.
      * exists 0%nat. split; [lia|]. exists (l2 ++ l1). split; [done|]. split; [done|]. right.
        rewrite frames_seen_app. repeat split; lia.
    + destruct Hres as [_ Hm]. exists (l2 ++ l1). split; [done|]. split; [done|].
      apply wait_meaning_app. by right.
  - cbn. exists l1. split; [done|]. split; [done|]. left. by split.
Qed.

(** [USB_Host_WaitMS] returns after at most [K] polls. *)
Lemma WaitMS_spec l s :
  (K + 2 < fuel)%nat -> runs l s0 s ->
  wp (USB_Host_WaitMS 1) (fun c s' => exists l', runs (l' ++ l) s0 s' /\
    waited (USB_HostState (Host s0)) c l') s.
Proof.
  intros Hfuel Hr. unfold USB_Host_WaitMS.
  eapply quiet_before; [auto with quiet|exact Hr|eauto using waited_before|]. intros bs l1 s1 Hr1.
  eapply quiet_before; [auto with quiet|exact Hr1|eauto using waited_before|]. intros en l2 s2 Hr2.
  do 3 (eapply quiet_before; [auto with quiet|eassumption|eauto using waited_before|]; intros _ ? ? ?).
  rewrite wp_bind. eapply wp_mono; [|by apply wait_loop]. intros c s6 (l6 & Hr6 & Hs6 & Hm6).
  rewrite wp_bind. eapply silently_then; [auto with quiet|exact Hr6|]. intros _ l7 s7 Hr7 Hs7.
  rewrite wp_bind. eapply silently_then; [auto with quiet|exact Hr7|]. intros _ l8 s8 Hr8 Hs8.
  rewrite wp_ret. exists (l8 ++ l7 ++ l6). rewrite <- !app_assoc. split; [done|].
  split; [by repeat apply silent_app|]. by do 2 (apply wait_meaning_app; left).
Qed.

(** ** Waiting for the pipe

    What the code of [USB_Host_WaitForIOS] says. *)
Definition ios_flag (w : USB_WaitForTypes_t) : Z :=
  match w with
  | USB_HOST_WAITFOR_SetupSent => TXSTPI
  | USB_HOST_WAITFOR_InReceived => RXINI
  | USB_HOST_WAITFOR_OutReady => TXOUTI
  end.

(** The failures of a control transfer, by return code. *)
Definition failure (h c : Z) (l : list event) : Prop :=
  (c = HOST_SENDCONTROL_DeviceDisconnected /\ h = HOST_STATE_Unattached) \/
  (c = HOST_SENDCONTROL_PipeError /\ seen UPINTX PERRI l) \/
  (c = HOST_SENDCONTROL_SetupStalled /\ seen UPINTX RXSTALLI l) \/
  (c = HOST_SENDCONTROL_SoftwareTimeOut /\ (Z.to_nat USB_HOST_TIMEOUT_MS < frames_seen l)%nat).

Lemma failure_app h c l l' : failure h c l \/ failure h c l' -> failure h c (l' ++ l).
Proof.
  unfold failure. rewrite frames_seen_app.
  intros [[[? ?]|[[? ?]|[[? ?]|[? ?]]]]|[[? ?]|[[? ?]|[[? ?]|[? ?]]]]];
    eauto 8 using seen_app_l, seen_app_r; right; right; right; split; lia.
Qed.

Lemma wait_failure h c l : wait_meaning h c l -> c <> 0 -> failure h c l.
Proof. intros [[-> ?]|[[? ?]|[[? ?]|[? ?]]]] Hc; unfold failure; try done; auto. Qed.

Lemma failure_nonzero h c l : failure h c l -> c <> 0.
Proof. by intros [[-> _]|[[-> _]|[[-> _]|[-> _]]]]. Qed.

Lemma WaitForIOS_spec w l s :
  (K + 1004 < fuel)%nat -> runs l s0 s ->
  wp (USB_Host_WaitForIOS w) (fun c s' => exists l', runs (l' ++ l) s0 s' /\ silent l' /\
    (c = 0 /\ (exists v l'', l' = Rd UPINTX v :: l'' /\ has_bit v (ios_flag w) = true) \/
     failure (USB_HostState (Host s0)) c l')) s.
Proof.
  intros Hfuel Hr. unfold USB_Host_WaitForIOS.
  apply (wp_loop (fun t n s => exists l', runs (l' ++ l) s0 s /\ silent l' /\
           0 <= t <= 1000 /\ 1000 - t <= Z.of_nat (frames_seen l') /\ n = S (Z.to_nat t)))
    with (n := 1001%nat); [|lia|by exists []].
  intros t n s1 (l1 & Hr1 & Hs1 & Ht & Hf & ->). rewrite wp_bind.
  assert (Hready : wp (ios_ready w) (fun b s2 => exists v, runs (Rd UPINTX v :: l1 ++ l) s0 s2 /\
            b = has_bit v (ios_flag w)) s1).
  { destruct w; (eapply run_test; [exact Hr1|]); intros v s2 Hr2 _; by exists v. }
  eapply wp_mono; [|exact Hready]. intros b s2 (v & Hr2 & ->). destruct (has_bit v (ios_flag w)) eqn:Hv.
  { rewrite wp_ret. exists (Rd UPINTX v :: l1). split; [done|]. split; [done|]. left. split; [done|]. eauto. }
  rewrite wp_bind. eapply wp_mono; [|apply (WaitMS_spec (Rd UPINTX v :: l1 ++ l)); [lia|done]].
  intros c s3 (l3 & Hr3 & Hs3 & Hm). rewrite wp_ret.
  assert (Hs : silent (l3 ++ Rd UPINTX v :: l1)) by (by apply silent_app).
  change (Rd UPINTX v :: l1 ++ l) with ((Rd UPINTX v :: l1) ++ l) in Hr3. rewrite app_assoc in Hr3.
  unfold HOST_WAITERROR_Successful. destruct (Z.eqb_spec c 0) as [->|Hc]; cbn [negb].
  2: { eexists. split; [exact Hr3|]. split; [done|]. right. apply failure_app. right. by apply wait_failure. }
  assert (Hfr : (1 <= frames_seen l3)%nat) by (by destruct Hm as [[_ ?]|[[? _]|[[? _]|[? _]]]]).
  assert (Hfr' : frames_seen (l3 ++ Rd UPINTX v :: l1) = (frames_seen l3 + frames_seen l1)%nat)
    by (by rewrite frames_seen_app).
  destruct (Z.eqb_spec t 0) as [->|Ht0].
  - eexists. split; [exact Hr3|]. split; [done|]. right. right; right; right. split; [done|].
    rewrite Hfr'. unfold USB_HOST_TIMEOUT_MS. lia.
  - rewrite wrap_id by (unfold fits; lia). eexists. split; [|eexists; split; [exact Hr3|]; split; [done|];
      rewrite Hfr'; repeat split; try lia; reflexivity]. lia.
Qed.

(** ** The data stage of a device-to-host request *)

(** The buffer after the bytes [R] were received into [B]. *)
Definition filled (B R : bytes) : bytes := R ++ drop (length R) B.

Lemma filled_store B R b :
  (length R < length B)%nat ->
  store_byte (filled B R) (Z.of_nat (length R)) b = Some (filled B (R ++ [b])).
Proof.
  intros Hlt. unfold store_byte, filled. destruct (lookup_lt_is_Some_2 B (length R) Hlt) as [x Hx].
  rewrite (drop_S _ _ _ Hx), load_byte_middle, Nat2Z.id, insert_app_r_alt, Nat.sub_diag by lia.
  by rewrite length_app, Nat.add_comm, <- app_assoc.
Qed.

Section Receive.
Context (B : bytes).

(** The local variables of the loop after the accesses [l]. *)
Definition receiving (l : list event) (x : bytes * Z * Z) : Prop :=
  let '(Buffer, p, len) := x in
  Buffer = filled B (pipe_reads l) /\ p = Z.of_nat (length (pipe_reads l)) /\
  0 <= len < 2 ^ 16 /\ p + len <= Z.of_nat (length B).

Lemma drain_pipe_spec l s Buffer p len :
  runs l s0 s -> receiving l (Buffer, p, len) ->
  wp (drain_pipe Buffer p len) (fun x s' => exists l', runs (l' ++ l) s0 s' /\ pipe_writes l' = [] /\
    receiving (l' ++ l) x /\ snd x + snd (fst x) = p + len /\
    (respond (l ++ trace s0) UPBCX <> 0 -> len <> 0 -> snd x < len)) s.
Proof.
  intros Hr Hrec. unfold drain_pipe.
  apply (wp_loop (fun x n s => exists l', runs (l' ++ l) s0 s /\ pipe_writes l' = [] /\
           receiving (l' ++ l) x /\ snd x + snd (fst x) = p + len /\ n = Z.to_nat (snd x) /\
           (l' = [] /\ snd x = len \/ snd x < len)))
    with (n := Z.to_nat len); [|lia|].
  2: { exists []. do 3 (split; [done|]). split; [cbn; lia|]. split; [done|]. by left. }
  clear Hr Hrec s Buffer. intros [[Buffer q] k] n s (l1 & Hr & Hw & (-> & -> & Hk & Hfit) & Hsum & -> & Hprog).
  cbn [fst snd] in *. rewrite wp_bind. eapply run_rd; [exact Hr|]. intros c s1 Hr1 Hc.
  destruct (negb (c =? 0) && negb (k =? 0)) eqn:Hgo.
  - apply andb_prop in Hgo as [Hc0 Hk0]. apply negb_true_iff, Z.eqb_neq in Hc0, Hk0.
    rewrite wp_bind. eapply run_rd; [exact Hr1|]. intros b s2 Hr2 _.
    rewrite filled_store by lia. rewrite wp_ret, wrap_id by (unfold fits; lia).
    eexists. split; [|exists (Rd UPDATX b :: Rd UPBCX c :: l1); split; [exact Hr2|]; cbn [pipe_writes pipe_reads fst snd app receiving];
      rewrite length_app; cbn [length]; repeat split; try lia; try done]. lia.
  - rewrite wp_ret. exists (Rd UPBCX c :: l1). split; [exact Hr1|]. split; [done|]. cbn [fst snd].
    split; [done|]. split; [done|]. intros Hne Hlen. destruct Hprog as [[-> ->]|?]; [|done].
    cbn [app] in Hc. subst c. apply andb_false_iff in Hgo as [Hgo|Hgo];
      apply negb_false_iff, Z.eqb_eq in Hgo; done.
Qed.

(** One packet of the data stage: silent code, then the bytes of a bank. *)
Lemma read_packet_spec l s Buffer p len :
  runs l s0 s -> receiving l (Buffer, p, len) -> len <> 0 ->
  wp (n ← Pipe_BytesInPipe;
      x ← drain_pipe Buffer p (if n =? 0 then 0 else len);
      Pipe_Freeze ;; Pipe_ClearIN ;; ret (inl x : bytes * Z * Z + Z * bytes))
     (fun r s' => exists x l', r = inl x /\ runs (l' ++ l) s0 s' /\ pipe_writes l' = [] /\
        receiving (l' ++ l) x /\ snd x + snd (fst x) <= p + len /\ snd x < len) s.
Proof.
  intros Hr Hrec Hne. pose proof Hrec as (-> & -> & Hlen & Hfit).
  rewrite wp_bind. eapply run_rd; [exact Hr|]. intros n s1 Hr1 _. rewrite wp_bind.
  eapply wp_mono; [|apply (drain_pipe_spec (Rd UPBCX n :: l)); [done|]].
  2: { unfold receiving. cbn [pipe_reads]. destruct (n =? 0); repeat split; lia. }
  intros x s2 (l2 & Hr2 & Hw2 & Hrec2 & Hsum2 & Hprog2). rewrite wp_bind.
  eapply silently_then; [auto with quiet|exact Hr2|]. intros _ l3 s3 Hr3 [Hw3 Hd3]. rewrite wp_bind.
  eapply silently_then; [auto with quiet|exact Hr3|]. intros _ l4 s4 Hr4 [Hw4 Hd4]. rewrite wp_ret.
  exists x, (l4 ++ l3 ++ l2 ++ [Rd UPBCX n]). rewrite <- !app_assoc. split; [done|]. split; [exact Hr4|].
  split; [by rewrite !pipe_writes_app, Hw2, Hw3, Hw4|].
  split; [destruct x as [[B' p'] len']; unfold receiving in Hrec2 |- *;
          by rewrite (pipe_reads_app _ l4), (pipe_reads_app _ l3), Hd3, Hd4, !app_nil_r|].
  cbn [app] in Hprog2. rewrite (hc_counter _ hc) in Hprog2.
  destruct x as [[B' p'] len']. destruct Hrec2 as (_ & -> & Hl' & _). cbn [fst snd] in *.
  rewrite pipe_reads_app, length_app in Hsum2. rewrite pipe_reads_app, length_app.
  destruct (Z.eqb_spec n 0) as [->|Hn]; cbn [pipe_reads] in *; [|specialize (Hprog2 Hn Hne)]; lia.
Qed.

Lemma read_data_spec l s len :
  (K + 1004 < fuel)%nat -> (Z.to_nat len < fuel)%nat ->
  0 <= len < 2 ^ 16 -> len <= Z.of_nat (length B) -> runs l s0 s -> pipe_reads l = [] ->
  wp (read_data B len) (fun r s' => exists l', runs (l' ++ l) s0 s' /\ pipe_writes l' = [] /\
    snd r = filled B (pipe_reads (l' ++ l)) /\ Z.of_nat (length (pipe_reads (l' ++ l))) <= len /\
    (fst r = 0 \/ failure (USB_HostState (Host s0)) (fst r) l')) s.
Proof.
  intros Hfuel Hf Hlen Hfit Hr Hempty. unfold read_data.
  apply (wp_loop (fun x n s => exists l', runs (l' ++ l) s0 s /\ pipe_writes l' = [] /\
           receiving (l' ++ l) x /\ snd x + snd (fst x) <= len /\ n = Z.to_nat (snd x)))
    with (n := Z.to_nat len); [|done|].
  2: { exists []. split; [done|]. split; [done|]. unfold receiving, filled. cbn [app fst snd].
       rewrite Hempty. cbn. repeat split; lia. }
  intros [[Buffer p] k] n s1 (l1 & Hr1 & Hw1 & Hrec & Hsum & ->). cbn [fst snd] in *.
  pose proof Hrec as (-> & -> & Hk & Hkfit). destruct (Z.eqb_spec k 0) as [->|Hk0].
  { rewrite wp_ret. exists l1. do 3 (split; [done|]). split; [cbn [snd] in *; lia|by left]. }
  rewrite wp_bind. eapply silently_then; [auto with quiet|exact Hr1|]. intros _ l2 s2 Hr2 [Hw2 Hd2].
  rewrite wp_bind. eapply wp_mono; [|by apply (WaitForIOS_spec USB_HOST_WAITFOR_InReceived)].
  intros c s3 (l3 & Hr3 & [Hw3 Hd3] & Hres). unfold HOST_SENDCONTROL_Successful.
  assert (Hw : pipe_writes (l3 ++ l2 ++ l1) = []) by (by rewrite !pipe_writes_app, Hw1, Hw2, Hw3).
  assert (Hd : pipe_reads (l3 ++ l2 ++ l1 ++ l) = pipe_reads (l1 ++ l))
    by (by rewrite (pipe_reads_app _ l3), (pipe_reads_app _ l2), Hd2, Hd3, !app_nil_r).
  destruct (Z.eqb_spec c 0) as [->|Hc]; cbn [negb].
  2: { rewrite wp_ret. exists (l3 ++ l2 ++ l1). rewrite <- !app_assoc, Hd. cbn [fst snd].
       do 3 (split; [done|]). split; [lia|]. right. apply failure_app. right. by destruct Hres as [[? _]|?]. }
  eapply wp_mono; [|apply (read_packet_spec (l3 ++ l2 ++ l1 ++ l) s3 _ _ k Hr3); [|done]].
  2: { unfold receiving. by rewrite Hd. }
  intros r s4 (x & l4 & -> & Hr4 & Hw4 & Hrec4 & Hsum4 & Hlt). eexists.
  split; [|exists (l4 ++ l3 ++ l2 ++ l1); rewrite <- !app_assoc; split; [exact Hr4|];
           split; [by rewrite pipe_writes_app, Hw, Hw4|]; split; [done|]; split; [lia|reflexivity]].
  destruct x as [[B' p'] k']. destruct Hrec4 as (_ & _ & ? & _). cbn [snd] in *. lia.
Qed.
End Receive.

(** ** The data stage of a host-to-device request *)

Section Transmit.
Context (B pre : bytes).
Hypothesis bytes_B : all_bytes B.

(** The local variables after the accesses [l]: the bytes up to the pointer were
    written, after the bytes [pre]. *)
Definition transmitting (l : list event) (x : Z * Z) : Prop :=
  let '(p, len) := x in
  pipe_writes l = pre ++ take (Z.to_nat p) B /\ pipe_reads l = [] /\
  0 <= p /\ 0 <= len < 2 ^ 16 /\ p + len <= Z.of_nat (length B).

Lemma transmitting_silent l l' x : silent l' -> transmitting l x -> transmitting (l' ++ l) x.
Proof.
  intros [Hw Hd]. destruct x as [p len]. unfold transmitting.
  by rewrite pipe_writes_app, pipe_reads_app, Hw, Hd, !app_nil_r.
Qed.

Lemma fill_pipe_spec l s p len :
  runs l s0 s -> transmitting l (p, len) ->
  wp (fill_pipe B p len) (fun x s' => exists l', runs (l' ++ l) s0 s' /\ transmitting (l' ++ l) x /\
    fst x + snd x = p + len /\
    (respond (l ++ trace s0) UPBCX < USB_Host_ControlPipeSize (Host s0) -> len <> 0 -> snd x < len)) s.
Proof.
  intros Hr Htr. unfold fill_pipe.
  apply (wp_loop (fun x n s => exists l', runs (l' ++ l) s0 s /\ transmitting (l' ++ l) x /\
           fst x + snd x = p + len /\ n = Z.to_nat (snd x) /\ (l' = [] /\ snd x = len \/ snd x < len)))
    with (n := Z.to_nat len); [|lia|].
  2: { exists []. do 3 (split; [done|]). split; [done|]. by left. }
  clear Hr Htr s. intros [q k] n s (l1 & Hr & (Hw & Hd & Hq & Hk & Hfit) & Hsum & -> & Hprog). cbn [fst snd] in *.
  destruct (Z.eqb_spec k 0) as [->|Hk0].
  { rewrite wp_ret. exists l1. do 3 (split; [done|]). cbn. lia. }
  rewrite wp_bind. eapply run_rd; [exact Hr|]. intros c s1 Hr1 Hc. rewrite wp_bind. unfold get_Host.
  rewrite wp_get, (runs_Host _ _ Hr1). destruct (Z.ltb_spec c (USB_Host_ControlPipeSize (Host s0))).
  - destruct (lookup_lt_is_Some_2 B (Z.to_nat q)) as [b Hb]; [lia|].
    unfold load_byte. destruct (Z.leb_spec 0 q); [|lia]. rewrite Hb.
    rewrite wp_bind. eapply run_wr; [exact Hr1|]. intros s2 Hr2. rewrite wp_ret, wrap_id by (unfold fits; lia).
    rewrite (wrap_id 8) in Hr2 by exact (proj1 (Forall_lookup _ _) bytes_B _ _ Hb).
    eexists. split; [|exists (Wr UPDATX b :: Rd UPBCX c :: l1); split; [exact Hr2|]; cbn [fst snd];
      split; [|repeat split; try lia; try reflexivity; right; lia]].
    + lia.
    + unfold transmitting. cbn [app pipe_writes pipe_reads]. rewrite Hw, <- app_assoc.
      replace (Z.to_nat (q + 1)) with (S (Z.to_nat q)) by lia. rewrite (take_S_r _ _ _ Hb).
      repeat split; try done; lia.
  - rewrite wp_ret. exists (Rd UPBCX c :: l1). split; [exact Hr1|]. split; [done|]. split; [done|].
    intros Hlt _. destruct Hprog as [[-> ->]|?]; [|done]. cbn [app] in Hc. subst c. lia.
Qed.

Lemma write_data_spec l s len :
  (K + 1004 < fuel)%nat -> (Z.to_nat len < fuel)%nat -> 0 < USB_Host_ControlPipeSize (Host s0) ->
  runs l s0 s -> transmitting l (0, len) ->
  wp (write_data B len) (fun c s' => exists l' p, runs (l' ++ l) s0 s' /\
    transmitting (l' ++ l) (p, len - p) /\
    (c = 0 /\ p = len \/ failure (USB_HostState (Host s0)) c l')) s.
Proof.
  intros Hfuel Hf Hsize Hr Htr. unfold write_data.
  apply (wp_loop (fun x n s => exists l', runs (l' ++ l) s0 s /\ transmitting (l' ++ l) x /\
           fst x + snd x = len /\ n = Z.to_nat (snd x)))
    with (n := Z.to_nat len); [|done|by exists []].
  intros [p k] n s1 (l1 & Hr1 & Htr1 & Hsum & ->). cbn [fst snd] in *.
  replace k with (len - p) in * by lia. clear Hsum k. unfold HOST_SENDCONTROL_Successful.
  destruct (Z.eqb_spec (len - p) 0) as [Hk|Hk].
  { rewrite wp_ret. exists l1, p. split; [done|]. split; [done|]. left. split; [done|lia]. }
  rewrite wp_bind. eapply wp_mono; [|by apply (WaitForIOS_spec USB_HOST_WAITFOR_OutReady)].
  intros c s2 (l2 & Hr2 & Hs2 & Hres). pose proof (transmitting_silent _ _ _ Hs2 Htr1) as Htr2.
  destruct (Z.eqb_spec c 0) as [->|Hc]; cbn [negb].
  2: { rewrite wp_ret. exists (l2 ++ l1), p. rewrite <- app_assoc. split; [done|]. split; [done|]. right.
       apply failure_app. right. by destruct Hres as [[? _]|?]. }
  destruct Hres as [[_ (v & l2' & -> & Hv)]|Hbad]; [|by apply failure_nonzero in Hbad].
  rewrite wp_bind. eapply wp_mono; [|by apply fill_pipe_spec]. intros x s3 (l3 & Hr3 & Htr3 & Hsum3 & Hprog).
  cbn [app] in Hprog. rewrite (hc_ready _ hc) in Hprog by done. specialize (Hprog Hsize Hk).
  rewrite wp_bind. eapply silently_then; [auto with quiet|exact Hr3|]. intros _ l4 s4 Hr4 Hs4. rewrite wp_ret.
  pose proof (transmitting_silent _ _ _ Hs4 Htr3) as Htr4. eexists.
  split; [|exists (l4 ++ l3 ++ (Rd UPINTX v :: l2') ++ l1); rewrite <- !app_assoc; split; [exact Hr4|];
           split; [exact Htr4|]; split; [lia|reflexivity]].
  destruct x as [p' k']. destruct Htr3 as (_ & _ & _ & ? & _). cbn [fst snd] in *. lia.
Qed.
End Transmit.

(** ** The whole transfer *)

Definition is_IN (req : USB_Request_Header_t) : bool :=
  Z.land (bmRequestType req) CONTROL_REQTYPE_DIRECTION =? REQDIR_DEVICETOHOST.

(** What a request puts on the bus: the header, and the data of a host-to-device
    request. *)
Definition outgoing (req : USB_Request_Header_t) (Buffer : option bytes) : bytes :=
  request_bytes req ++
  (if is_IN req then []
   else match Buffer with Some B => take (Z.to_nat (wLength req)) B | None => [] end).

(** What a request has moved when it ends in host state [h], after the accesses
    [l]. *)
Definition data_outcome (h : Z) (req : USB_Request_Header_t) (Buffer : option bytes)
    (r : Z * option bytes) (l : list event) : Prop :=
  (fst r = HOST_SENDCONTROL_Successful /\ pipe_writes l = outgoing req Buffer \/
   failure h (fst r) l /\ prefix (pipe_writes l) (outgoing req Buffer)) /\
  match Buffer with
  | None => snd r = None /\ pipe_reads l = []
  | Some B =>
      snd r = Some (filled B (pipe_reads l)) /\
      Z.of_nat (length (pipe_reads l)) <= (if is_IN req then wLength req else 0)
  end.

(** The SETUP packet was reported sent once the header was written. *)
Definition setup_sent (req : USB_Request_Header_t) (l : list event) : Prop :=
  exists l2 v l1, l = l2 ++ Rd UPINTX v :: l1 /\ has_bit v TXSTPI = true /\
    pipe_writes l1 = request_bytes req.

(** The flag that ends the status stage, which runs against the data. *)
Definition status_flag (req : USB_Request_Header_t) : Z := if is_IN req then TXOUTI else RXINI.

(** The device has acknowledged the request: the SETUP packet was sent, and when all
    data was moved the packet of the status stage was reported. *)
Definition confirmed (req : USB_Request_Header_t) (l : list event) : Prop :=
  exists l3 w l2, l = l3 ++ Rd UPINTX w :: l2 /\ has_bit w (status_flag req) = true /\
    silent l3 /\ setup_sent req l2.

(** The outcome of a request: what it has moved and, on success, that the device
    has acknowledged it. *)
Definition control_outcome (h : Z) (req : USB_Request_Header_t) (Buffer : option bytes)
    (r : Z * option bytes) (l : list event) : Prop :=
  data_outcome h req Buffer r l /\
  (fst r = HOST_SENDCONTROL_Successful -> confirmed req l).

Lemma setup_sent_app req l l' : setup_sent req l -> setup_sent req (l' ++ l).
Proof. intros (l2 & v & l1 & -> & Hv). exists (l' ++ l2), v, l1. by rewrite <- app_assoc. Qed.

Lemma confirmed_silent req l l' : silent l' -> confirmed req l -> confirmed req (l' ++ l).
Proof.
  intros Hs (l3 & w & l2 & -> & Hw & Hs3 & Hset). exists (l' ++ l3), w, l2. rewrite <- app_assoc.
  split; [done|]. split; [done|]. by split; [apply silent_app|].
Qed.

(** Silent code does not change the outcome. *)
Lemma outcome_silent h req Buffer r l l' :
  silent l' -> data_outcome h req Buffer r l -> data_outcome h req Buffer r (l' ++ l).
Proof.
  intros [Hw Hd] [Hres Hbuf]. unfold data_outcome. rewrite pipe_writes_app, pipe_reads_app, Hw, Hd, !app_nil_r.
  split; [|done]. destruct Hres as [?|[? ?]]; [by left|right]. split; [|done]. apply failure_app. by left.
Qed.

Lemma control_outcome_silent h req Buffer r l l' :
  silent l' -> control_outcome h req Buffer r l -> control_outcome h req Buffer r (l' ++ l).
Proof.
  intros Hs [Hd Ha]. split; [by apply outcome_silent|]. intros Hr. by apply confirmed_silent; [|apply Ha].
Qed.

(** A transfer that ends before the data stage. *)
Lemma outcome_failed h req Buffer c l :
  failure h c l -> pipe_writes l `prefix_of` outgoing req Buffer -> pipe_reads l = [] ->
  is_u16 (wLength req) -> data_outcome h req Buffer (c, Buffer) l.
Proof.
  intros Hf Hw Hd [? _]. split; [by right|]. rewrite Hd. destruct Buffer; [|done].
  split; [done|]. cbn. by destruct (is_IN req).
Qed.

Definition finishes (req : USB_Request_Header_t) (Buffer : option bytes) (r : Z * option bytes)
    (s : st) : Prop :=
  exists l, runs l s0 s /\ control_outcome (USB_HostState (Host s0)) req Buffer r l.

(** A transfer that is given up. *)
Lemma finishes_failed req Buffer c B' l s :
  runs l s0 s -> data_outcome (USB_HostState (Host s0)) req Buffer (c, B') l -> c <> 0 ->
  finishes req Buffer (c, B') s.
Proof. intros Hr Hout Hc. exists l. split; [done|]. split; [done|]. intros Hs. by destruct Hc. Qed.

(** A wait whose failure ends the transfer; [E] is what its success shows. *)
Definition waits (m : M Z) (E : list event -> Prop) (l : list event) (s : st) : Prop :=
  wp m (fun c s' => exists l', runs (l' ++ l) s0 s' /\ silent l' /\
    (c = 0 /\ E l' \/ failure (USB_HostState (Host s0)) c l')) s.

Lemma or_return_spec {C} m E (Buffer : C) k l s Q :
  waits m E l s ->
  (forall l' s', runs (l' ++ l) s0 s' -> silent l' -> E l' -> wp k Q s') ->
  (forall c l' s', runs (l' ++ l) s0 s' -> silent l' -> failure (USB_HostState (Host s0)) c l' ->
     Q (c, Buffer) s') ->
  wp (or_return m Buffer k) Q s.
Proof.
  intros Hm Hk Hf. unfold or_return, HOST_SENDCONTROL_Successful. rewrite wp_bind.
  eapply wp_mono; [|exact Hm]. intros c s1 (l1 & Hr1 & Hs1 & Hres).
  destruct (Z.eqb_spec c 0) as [->|Hc].
  - destruct Hres as [[_ HE]|Hbad]; [by eapply Hk|by apply failure_nonzero in Hbad].
  - rewrite wp_ret. by destruct Hres as [[? _]|?]; [|eapply Hf].
Qed.

Section Stages.
Context (req : USB_Request_Header_t) (Buffer : option bytes).
Hypothesis fuel_enough : (K + 1004 < fuel)%nat /\ (Z.to_nat (wLength req) < fuel)%nat.
Hypothesis length_ok : is_u16 (wLength req).
Hypothesis buffer_ok : buffer_for (wLength req) Buffer.

(** The pipe was last seen with the flag [n]. *)
Definition flagged (n : Z) (l : list event) : Prop :=
  exists v l', l = Rd UPINTX v :: l' /\ has_bit v n = true.

Lemma wait_ios w l s : runs l s0 s -> waits (USB_Host_WaitForIOS w) (flagged (ios_flag w)) l s.
Proof. intros Hr. apply WaitForIOS_spec; [apply fuel_enough|exact Hr]. Qed.

Lemma flagged_confirmed l l' :
  flagged (status_flag req) l' -> setup_sent req l -> confirmed req (l' ++ l).
Proof.
  intros (v & l2 & -> & Hv) Hs. exists [], v, (l2 ++ l). split; [done|]. split; [done|].
  split; [done|by apply setup_sent_app].
Qed.

Lemma flagged_setup l l' :
  flagged TXSTPI l' -> pipe_writes (l' ++ l) = request_bytes req -> setup_sent req (l' ++ l).
Proof. intros (v & l2 & -> & Hv) Hw. by exists [], v, (l2 ++ l). Qed.

(** A failure after the data stage. *)
Lemma outcome_late h B' c l l1 :
  data_outcome h req Buffer (0, B') l -> silent l1 -> failure h c l1 ->
  data_outcome h req Buffer (c, B') (l1 ++ l).
Proof.
  intros [Hres Hbuf] [Hw1 Hd1] Hf. unfold data_outcome.
  rewrite pipe_writes_app, pipe_reads_app, Hw1, Hd1, !app_nil_r. split; [|done]. right.
  split; [apply failure_app; by right|]. destruct Hres as [[_ ->]|[Hbad _]]; [done|].
  by apply failure_nonzero in Hbad.
Qed.

(** The status stage, once the data stage has succeeded. *)
Lemma status_stage w (clear : M unit) B' l s k :
  silently clear -> runs l s0 s ->
  data_outcome (USB_HostState (Host s0)) req Buffer (0, B') l ->
  (forall l' l'' s', runs (l'' ++ l' ++ l) s0 s' -> silent l'' -> flagged (ios_flag w) l' ->
     data_outcome (USB_HostState (Host s0)) req Buffer (0, B') (l'' ++ l' ++ l) ->
     wp k (finishes req Buffer) s') ->
  wp (or_return (USB_Host_WaitForIOS w) B' (clear ;; k)) (finishes req Buffer) s.
Proof.
  intros Hq Hr Hout Hk. eapply or_return_spec; [by apply wait_ios|..].
  - intros l1 s1 Hr1 Hs1 Hfl. rewrite wp_bind. eapply silently_then; [exact Hq|exact Hr1|].
    intros _ l2 s2 Hr2 Hs2. eapply Hk; [exact Hr2|done|done|]. by do 2 (apply outcome_silent; [done|]).
  - intros c l1 s1 Hr1 Hs1 Hf. eapply finishes_failed; [exact Hr1|by apply outcome_late|].
    by eapply failure_nonzero.
Qed.

Lemma receive_data_spec l s :
  is_IN req = true -> runs l s0 s -> pipe_writes l = request_bytes req -> pipe_reads l = [] ->
  wp (receive_data Buffer (wLength req)) (fun r s' => exists l', runs (l' ++ l) s0 s' /\
    data_outcome (USB_HostState (Host s0)) req Buffer r (l' ++ l)) s.
Proof.
  intros HIN Hr Hw Hd. unfold receive_data, data_outcome, outgoing. rewrite HIN, app_nil_r.
  destruct Buffer as [B|].
  - destruct buffer_ok as [_ Hfit], length_ok as [? ?]. rewrite wp_bind.
    eapply wp_mono; [|apply (read_data_spec B l); try done; apply fuel_enough].
    intros [c B'] s2 (l2 & Hr2 & Hw2 & HB & Hn & Hres). cbn [fst snd] in *. rewrite wp_ret. exists l2.
    split; [done|]. rewrite !pipe_writes_app, Hw, Hw2, !app_nil_r, HB. cbn [fst snd].
    split; [|done]. destruct Hres as [->|Hf]; [by left|right]. split; [|done]. apply failure_app. by right.
  - rewrite wp_ret. exists []. split; [done|]. by split; [left|].
Qed.

Lemma receive_stages_spec l s :
  is_IN req = true -> runs l s0 s -> pipe_writes l = request_bytes req -> pipe_reads l = [] ->
  setup_sent req l -> wp (receive_stages Buffer (wLength req)) (finishes req Buffer) s.
Proof.
  intros HIN Hr Hw Hd Hset. unfold receive_stages. rewrite wp_bind.
  eapply silently_then; [auto with quiet|exact Hr|]. intros _ l1 s1 Hr1 [Hw1 Hd1]. rewrite wp_bind.
  eapply wp_mono; [|apply receive_data_spec; [done|exact Hr1|
    by rewrite pipe_writes_app, Hw1, app_nil_r|by rewrite pipe_reads_app, Hd1, app_nil_r]].
  intros [c B'] s2 (l2 & Hr2 & Hres). unfold HOST_SENDCONTROL_Successful.
  destruct (Z.eqb_spec c 0) as [->|Hc]; cbn [negb]; [|rewrite wp_ret; by eapply finishes_failed].
  rewrite wp_bind. eapply silently_then; [auto with quiet|exact Hr2|]. intros _ l3 s3 Hr3 Hs3.
  rewrite wp_bind. eapply silently_then; [auto with quiet|exact Hr3|]. intros _ l4 s4 Hr4 Hs4.
  eapply status_stage; [auto with quiet|exact Hr4|by do 2 (apply outcome_silent; [done|])|].
  intros l5 l5' s5 Hr5 _ _ Hout5. eapply or_return_spec; [by apply wait_ios|..].
  - intros l6 s6 Hr6 Hs6 Hfl. rewrite wp_ret. eexists. split; [exact Hr6|].
    split; [by apply outcome_silent|]. intros _. apply flagged_confirmed; [by unfold status_flag; rewrite HIN|].
    by do 6 apply setup_sent_app.
  - intros c l6 s6 Hr6 Hs6 Hf. eapply finishes_failed; [exact Hr6|by apply outcome_late|].
    by eapply failure_nonzero.
Qed.

Hypothesis pipe_size : is_IN req = false -> Buffer <> None -> 0 < USB_Host_ControlPipeSize (Host s0).

(** A host-to-device transfer of which [p] bytes of data were sent. *)
Lemma outcome_sent h B c l p :
  is_IN req = false -> Buffer = Some B -> transmitting B (request_bytes req) l (p, wLength req - p) ->
  c = 0 /\ p = wLength req \/ failure h c l ->
  data_outcome h req Buffer (c, Buffer) l.
Proof.
  intros HIN HB (Hw & Hd & Hp & Hlen & Hfit) Hres. unfold data_outcome, outgoing.
  rewrite HIN, HB, Hw, Hd. split; [|done]. destruct Hres as [[-> ->]|Hf]; [by left|right].
  split; [done|]. apply prefix_app. 
  replace (take (Z.to_nat p) B) with (take (Z.to_nat p) (take (Z.to_nat (wLength req)) B))
    by (rewrite take_take; f_equal; lia). apply prefix_take.
Qed.

Lemma transmit_data_spec l s :
  is_IN req = false -> runs l s0 s -> pipe_writes l = request_bytes req -> pipe_reads l = [] ->
  wp (transmit_data Buffer (wLength req)) (fun c s' => exists l', runs (l' ++ l) s0 s' /\
    data_outcome (USB_HostState (Host s0)) req Buffer (c, Buffer) (l' ++ l)) s.
Proof.
  intros HIN Hr Hw Hd. unfold transmit_data. destruct Buffer as [B|] eqn:HB.
  2: { rewrite wp_ret. exists []. split; [done|]. unfold data_outcome, outgoing.
       rewrite HIN. cbv iota. rewrite app_nil_r. by split; [left|]. }
  destruct buffer_ok as [Hall Hfit], length_ok as [Hl0 Hl1].
  assert (Htr : transmitting B (request_bytes req) l (0, wLength req)).
  { unfold transmitting. change (Z.to_nat 0) with 0%nat. rewrite take_0, app_nil_r. repeat split; try done; lia. }
  rewrite wp_bind. eapply silently_then; [auto with quiet|exact Hr|]. intros _ l1 s1 Hr1 Hs1.
  rewrite wp_bind. eapply silently_then; [auto with quiet|exact Hr1|]. intros _ l2 s2 Hr2 Hs2.
  rewrite wp_bind. eapply wp_mono; [|apply (write_data_spec B (request_bytes req));
    [done|apply fuel_enough|apply fuel_enough|by apply pipe_size|exact Hr2|
     by do 2 (apply transmitting_silent; [done|])]].
  intros c s3 (l3 & p & Hr3 & Htr3 & Hres). unfold HOST_SENDCONTROL_Successful.
  destruct (Z.eqb_spec c 0) as [->|Hc]; cbn [negb].
  2: { rewrite wp_ret. exists (l3 ++ l2 ++ l1). rewrite <- !app_assoc. split; [done|]. rewrite <- HB.
       eapply outcome_sent; [done|done|done|]. right. apply failure_app. right. by destruct Hres as [[? _]|?]. }
  destruct Hres as [[_ ->]|Hbad]; [|by apply failure_nonzero in Hbad].
  assert (Hout : data_outcome (USB_HostState (Host s0)) req Buffer (0, Buffer) (l3 ++ l2 ++ l1 ++ l))
    by (eapply outcome_sent; eauto).
  rewrite wp_bind. eapply wp_mono; [|by apply wait_ios]. intros c s4 (l4 & Hr4 & Hs4 & Hres4). rewrite <- HB.
  destruct (Z.eqb_spec c 0) as [->|Hc]; cbn [negb].
  - rewrite wp_bind. eapply silently_then; [auto with quiet|exact Hr4|]. intros _ l5 s5 Hr5 Hs5. rewrite wp_ret.
    exists (l5 ++ l4 ++ l3 ++ l2 ++ l1). rewrite <- !app_assoc. split; [done|].
    by do 2 (apply outcome_silent; [done|]).
  - rewrite wp_ret. exists (l4 ++ l3 ++ l2 ++ l1). rewrite <- !app_assoc. split; [done|].
    apply outcome_late; [done|done|]. by destruct Hres4 as [[? _]|?].
Qed.

Lemma transmit_stages_spec l s :
  is_IN req = false -> runs l s0 s -> pipe_writes l = request_bytes req -> pipe_reads l = [] ->
  setup_sent req l -> wp (transmit_stages Buffer (wLength req)) (finishes req Buffer) s.
Proof.
  intros HIN Hr Hw Hd Hset. unfold transmit_stages. rewrite wp_bind.
  eapply wp_mono; [|by apply transmit_data_spec]. intros c s2 (l2 & Hr2 & Hres). unfold HOST_SENDCONTROL_Successful.
  destruct (Z.eqb_spec c 0) as [->|Hc]; cbn [negb]; [|rewrite wp_ret; by eapply finishes_failed].
  rewrite wp_bind. eapply silently_then; [auto with quiet|exact Hr2|]. intros _ l3 s3 Hr3 Hs3.
  rewrite wp_bind. eapply silently_then; [auto with quiet|exact Hr3|]. intros _ l4 s4 Hr4 Hs4.
  eapply status_stage; [auto with quiet|exact Hr4|by do 2 (apply outcome_silent; [done|])|].
  intros l5 l5' s5 Hr5 Hs5 Hfl Hout5. rewrite wp_ret. eexists. split; [exact Hr5|]. split; [done|]. intros _.
  apply confirmed_silent; [done|]. apply flagged_confirmed; [by unfold status_flag; rewrite HIN|].
  by do 3 apply setup_sent_app.
Qed.

Lemma write_header_spec h l s :
  all_bytes h -> runs l s0 s ->
  wp (write_header h) (fun _ s' => exists l', runs (l' ++ l) s0 s' /\ pipe_writes l' = h /\ pipe_reads l' = []) s.
Proof.
  intros Hh. revert l s. induction Hh as [|b h Hb Hh IH]; intros l s Hr; cbn [write_header].
  { rewrite wp_ret. by exists []. }
  rewrite wp_bind. eapply run_wr; [exact Hr|]. rewrite (wrap_id 8) by done. intros s1 Hr1.
  eapply wp_mono; [|apply (IH (Wr UPDATX b :: l)); done]. intros [] s2 (l2 & Hr2 & Hw2 & Hd2).
  exists (l2 ++ [Wr UPDATX b]). rewrite <- app_assoc. split; [done|].
  by rewrite pipe_writes_app, pipe_reads_app, Hw2, Hd2.
Qed.

(** The two waits of a millisecond around the SETUP packet. *)
Lemma wait_ms l s : runs l s0 s -> waits (USB_Host_WaitMS 1) (fun _ => True) l s.
Proof.
  intros Hr. eapply wp_mono; [|apply WaitMS_spec; [destruct fuel_enough; lia|exact Hr]].
  intros c s1 (l1 & Hr1 & Hs1 & Hm). exists l1. split; [done|]. split; [done|].
  destruct (decide (c = 0)); [by left|right]. by apply wait_failure.
Qed.

(** A wait before the data stage: the bytes [W] were sent so far. *)
Lemma or_return_early m E W k l s :
  (forall l s, runs l s0 s -> waits m E l s) ->
  runs l s0 s -> pipe_writes l = W -> pipe_reads l = [] -> W `prefix_of` outgoing req Buffer ->
  (forall l' s', runs (l' ++ l) s0 s' -> pipe_writes (l' ++ l) = W -> pipe_reads (l' ++ l) = [] -> E l' ->
     wp k (finishes req Buffer) s') ->
  wp (or_return m Buffer k) (finishes req Buffer) s.
Proof.
  intros Hm Hr Hw Hd Hpre Hk.
  assert (Happ : forall l', silent l' -> pipe_writes (l' ++ l) = W /\ pipe_reads (l' ++ l) = []).
  { intros l' [Hw' Hd']. by rewrite pipe_writes_app, pipe_reads_app, Hw', Hd', Hw, Hd, app_nil_r. }
  eapply or_return_spec; [by apply Hm|..].
  - intros l1 s1 Hr1 Hs1 HE. destruct (Happ l1 Hs1). by eapply Hk.
  - intros c l1 s1 Hr1 Hs1 Hf. destruct (Happ l1 Hs1) as [Hw1 Hd1].
    eapply finishes_failed; [exact Hr1| |by eapply failure_nonzero].
    apply outcome_failed; [apply failure_app; by right|by rewrite Hw1|done|done].
Qed.

Hypothesis this_request : USB_ControlRequest s0 = req.
Hypothesis request_fits : all_bytes (request_bytes req).

Lemma SendControlRequest_PRV_spec l s :
  runs l s0 s -> silent l ->
  wp (USB_Host_SendControlRequest_PRV Buffer) (finishes req Buffer) s.
Proof.
  assert (Hreq : forall l s, runs l s0 s -> USB_ControlRequest s = req) by (by intros l' s' ->).
  intros Hr [Hw Hd]. unfold USB_Host_SendControlRequest_PRV. rewrite wp_bind, wp_get, (Hreq _ _ Hr), wp_bind.
  eapply silently_then; [auto with quiet|exact Hr|]. intros _ l1 s1 Hr1 [Hw1 Hd1].
  eapply (or_return_early _ _ []); [apply wait_ms|exact Hr1|by rewrite pipe_writes_app, Hw, Hw1|
    by rewrite pipe_reads_app, Hd, Hd1|apply prefix_nil|]. intros l2 s2 Hr2 Hw2 Hd2 _.
  rewrite wp_bind. eapply silently_then; [auto with quiet|exact Hr2|]. intros _ la sa Hra [Hwa Hda].
  rewrite wp_bind. eapply silently_then; [auto with quiet|exact Hra|]. intros _ lb sb Hrb [Hwb Hdb].
  rewrite wp_bind. eapply silently_then; [auto with quiet|exact Hrb|]. intros _ l3 s3 Hr3 [Hw3 Hd3].
  rewrite wp_bind, wp_get, (Hreq _ _ Hr3), wp_bind.
  eapply wp_mono; [|by apply write_header_spec]. intros [] s4 (l4 & Hr4 & Hw4 & Hd4). rewrite wp_bind.
  eapply silently_then; [auto with quiet|exact Hr4|]. intros _ l5 s5 Hr5 [Hw5 Hd5].
  set (lh := l5 ++ _) in Hr5.
  assert (Hwh : pipe_writes lh = request_bytes req).
  { unfold lh. by rewrite (pipe_writes_app _ l5), (pipe_writes_app _ l4), (pipe_writes_app _ l3),
      (pipe_writes_app _ lb), (pipe_writes_app _ la), Hw2, Hwa, Hwb, Hw3, Hw4, Hw5, app_nil_r. }
  assert (Hdh : pipe_reads lh = []).
  { unfold lh. by rewrite (pipe_reads_app _ l5), (pipe_reads_app _ l4), (pipe_reads_app _ l3),
      (pipe_reads_app _ lb), (pipe_reads_app _ la), Hd2, Hda, Hdb, Hd3, Hd4, Hd5. }
  eapply (or_return_early _ _ (request_bytes req)); [apply wait_ios|exact Hr5|exact Hwh|exact Hdh|by eexists|].
  intros l6 s6 Hr6 Hw6 Hd6 Hsent. rewrite wp_bind.
  eapply silently_then; [auto with quiet|exact Hr6|]. intros _ l7 s7 Hr7 [Hw7 Hd7].
  eapply (or_return_early _ _ (request_bytes req)); [apply wait_ms|exact Hr7|
    by rewrite pipe_writes_app, Hw6, Hw7, app_nil_r|by rewrite pipe_reads_app, Hd6, Hd7|by eexists|].
  intros l8 s8 Hr8 Hw8 Hd8 _. rewrite wp_bind, wp_get, (Hreq _ _ Hr8).
  assert (Hset : setup_sent req (l8 ++ l7 ++ l6 ++ lh)).
  { do 2 apply setup_sent_app. by apply flagged_setup. }
  change (wp (if is_IN req then receive_stages Buffer (wLength req)
              else transmit_stages Buffer (wLength req)) (finishes req Buffer) s8).
  case_eq (is_IN req); intros HIN; [by eapply receive_stages_spec|by eapply transmit_stages_spec].
Qed.
End Stages.
End Transfer.

Lemma SendControlRequest_spec `{Masked} K s Buffer :
  let req := USB_ControlRequest s in
  host_controller K ->
  (K + 1004 < fuel)%nat -> (Z.to_nat (wLength req) < fuel)%nat ->
  all_bytes (request_bytes req) -> is_u16 (wLength req) -> buffer_for (wLength req) Buffer ->
  (is_IN req = false -> Buffer <> None -> 0 < USB_Host_ControlPipeSize (Host s)) ->
  wp (USB_Host_SendControlRequest Buffer) (fun r s' => exists l, runs l s s' /\
    control_outcome (USB_HostState (Host s)) req Buffer r l) s.
Proof.
  intros req hc Hf Hf' Hall Hlen Hbuf Hsize. unfold USB_Host_SendControlRequest. rewrite wp_bind.
  eapply silently_then; [auto with quiet|apply runs_refl|]. intros bs l1 s1 Hr1 Hs1. rewrite wp_bind.
  rewrite app_nil_r in Hr1.
  eapply wp_mono; [|apply (SendControlRequest_PRV_spec K hc s req Buffer) with (l := l1); done].
  intros r s2 (l2 & Hr2 & Hout). rewrite wp_bind.
  eapply silently_then; [auto with quiet|exact Hr2|]. intros _ l3 s3 Hr3 Hs3. rewrite wp_bind.
  eapply silently_then; [auto with quiet|exact Hr3|]. intros _ l4 s4 Hr4 Hs4. rewrite wp_bind.
  eapply silently_then; [auto with quiet|exact Hr4|]. intros _ l5 s5 Hr5 Hs5. rewrite wp_ret.
  eexists. split; [exact Hr5|]. by do 3 (apply control_outcome_silent; [done|]).
Qed.

(** C15: a control request of the host returns and does what it says.  With
    interrupts masked, on a controller that keeps generating frames, and with
    [USB_Host_ControlPipeSize] above 0 if there is data for the device,
    [USB_Host_SendControlRequest] returns within the timeout.  If it reports success
    it has sent the eight bytes of [USB_ControlRequest] and, for a host-to-device
    request, exactly the [wLength] bytes of the buffer, has seen the SETUP packet
    reported sent after the header was written and the packet of the status stage
    after all data was moved; of a device-to-host request the buffer holds the bytes
    that were read, at most [wLength], and is unchanged after them.  Otherwise it
    has sent a prefix of that, and the code names the cause: the device is
    unattached, the pipe reported an error or a stall, or more than 1000 frames
    have passed.  No variable is changed. *)
Theorem USB_Host_SendControlRequest_returns `{Masked} K s Buffer :
  let req := USB_ControlRequest s in
  host_controller K ->
  (K + 1004 < fuel)%nat -> (Z.to_nat (wLength req) < fuel)%nat ->
  all_bytes (request_bytes req) -> is_u16 (wLength req) -> buffer_for (wLength req) Buffer ->
  (is_IN req = false -> Buffer <> None -> 0 < USB_Host_ControlPipeSize (Host s)) ->
  wp (USB_Host_SendControlRequest Buffer) (fun r s' => exists l, runs l s s' /\
    control_outcome (USB_HostState (Host s)) req Buffer r l) s.
Proof. apply SendControlRequest_spec. Qed.

(** The header is what a device decodes the request from. *)
Lemma request_bytes_roundtrip req :
  is_u8 (bmRequestType req) -> is_u8 (bRequest req) -> is_u16 (wValue req) -> is_u16 (wIndex req) ->
  is_u16 (wLength req) -> request_of_bytes (request_bytes req) = req.
Proof.
  intros Ht Hr Hv Hi Hl. destruct req as [t r v i n]. unfold request_of_bytes, request_bytes. cbn in *.
  pose proof (le_val_bytes 2 v) as Ev. pose proof (le_val_bytes 2 i) as Ei. pose proof (le_val_bytes 2 n) as En.
  cbn in Ev, Ei, En. rewrite Ev, Ei, En, !wrap_id by done. done.
Qed.

(** [USB_Host_GetDeviceStatus] asks for no data, so the status it was called for
    never arrives: the buffer is left as it was. *)
Lemma USB_Host_GetDeviceStatus_reads_nothing `{Masked} K s FeatureStatus :
  host_controller K -> (K + 1004 < fuel)%nat -> all_bytes FeatureStatus ->
  wp (USB_Host_GetDeviceStatus FeatureStatus) (fun r _ => snd r = Some FeatureStatus) s.
Proof.
  intros hc Hf Hall. unfold USB_Host_GetDeviceStatus, send_request. rewrite wp_bind, wp_put, wp_bind.
  unfold Pipe_SelectPipe, wr, wp at 1.
  eapply wp_mono; [|apply (SendControlRequest_spec K); [exact hc|exact Hf|change (Z.to_nat _) with 0%nat; lia|..]].
  2: { by repeat constructor. }
  2: { done. }
  2: { split; [exact Hall|cbn; lia]. }
  2: { done. }
  intros r s' (l & _ & (_ & HB & Hn) & _).
  assert (Hn' : Z.of_nat (length (pipe_reads l)) <= 0) by exact Hn.
  destruct (pipe_reads l) as [|b R]; [exact HB|cbn [length] in Hn'; lia].
Qed.

(** A device that announces an endpoint 0 of size 0 makes a host-to-device request
    with data hang: as long as it accepts empty packets, they are sent without
    end. *)
Lemma write_data_zero_size_hangs `{Masked} B len s :
  (forall t, has_bit (respond t UPINTX) TXOUTI = true) -> (forall t, 0 <= respond t UPBCX) ->
  USB_Host_ControlPipeSize (Host s) = 0 -> len <> 0 -> (0 < fuel)%nat ->
  write_data B len s = OutOfFuel.
Proof.
  intros Hready Hcnt Hsize Hlen Hfuel. unfold write_data.
  apply (loop_forever (fun x s1 => x = (0, len) /\ Host s1 = Host s)); [|done].
  intros x s1 [-> Hs1]. rewrite (proj2 (Z.eqb_neq _ _) Hlen). rewrite wp_bind.
  assert (Hwait : wp (USB_Host_WaitForIOS USB_HOST_WAITFOR_OutReady) (fun c s2 => c = 0 /\ Host s2 = Host s) s1).
  { unfold USB_Host_WaitForIOS. destruct fuel; [lia|]. cbn [loop ios_ready]. rewrite !wp_bind.
    eapply run_test; [apply runs_refl|]. intros v s2 Hr2 ->. rewrite Hready, !wp_ret. split; [done|].
    by rewrite Hr2. }
  eapply wp_mono; [|exact Hwait]. intros c s2 [-> Hs2]. change (negb (0 =? HOST_SENDCONTROL_Successful)) with false. cbv iota. rewrite wp_bind.
  assert (Hfill : wp (fill_pipe B 0 len) (fun x s3 => x = (0, len) /\ Host s3 = Host s) s2).
  { unfold fill_pipe. cbn [loop]. rewrite (proj2 (Z.eqb_neq _ _) Hlen), !wp_bind.
    eapply run_rd; [apply runs_refl|]. intros n s3 Hr3 ->. rewrite wp_bind. unfold get_Host. rewrite wp_get.
    assert (Host s3 = Host s) as -> by (by rewrite Hr3). rewrite Hsize.
    destruct (Z.ltb_spec (respond ([] ++ trace s2) UPBCX) 0) as [Hlt|_]; [pose proof (Hcnt ([] ++ trace s2)); lia|].
    rewrite !wp_ret. split; [done|]. by rewrite Hr3. }
  eapply wp_mono; [|exact Hfill]. intros x s3 [-> Hs3]. rewrite wp_bind. unfold Pipe_ClearOUT.
  eapply run_clear; [apply runs_refl|]. intros v s4 Hr4 _. rewrite wp_ret. split; [done|]. by rewrite Hr4.
Qed.
