(* ===== verification/HostEnumeration.v ===== *)
(** * The host state machine refines an abstract enumeration

    [USB_Host_ProcessNextHostState] against the steps of an abstract host: waiting,
    powering the bus, detecting and resetting a device, reading the first bytes of
    its descriptor, addressing it, and giving up. *)
From S2P Require Import Prelude Machine Rely StdDescriptors Descriptors Endpoint ControlStream UsbController DeviceStandardReq UsbInterrupt Safety Pipe HostController HostStandardReq HostTask HostSafety HostTransfer.

(** ** The abstract host *)

Definition wait_then (d n : Z) (h : host_vars) : host_vars :=
  set_PostWaitState n (set_WaitMSRemaining d (set_USB_HostState HOST_STATE_WaitForDevice h)).

(** What resetting the interface leaves of the variables. *)
Definition abandoned (h : host_vars) : host_vars :=
  set_USB_Host_ControlPipeSize PIPE_CONTROLPIPE_DEFAULT_SIZE
    (set_USB_Host_ConfigurationNumber 0 (set_USB_HostState HOST_STATE_Unattached h)).

(** Some of the accesses [l], made in one go. *)
Definition among (P : list event -> Prop) (l : list event) : Prop :=
  exists l1 l2 l3, l = l1 ++ l2 ++ l3 /\ P l2.

Definition unseen (r : reg) (n : Z) (l : list event) : Prop :=
  exists v, Rd r v ∈ l /\ has_bit v n = false.

(** The bit [n] of [r] was written with the value [b]. *)
Definition wrote (r : reg) (n : Z) (b : bool) (l : list event) : Prop :=
  exists v, Wr r v ∈ l /\ has_bit v n = b.

(** A bus reset was requested and seen to be over. *)
Definition bus_reset (l : list event) : Prop :=
  exists l1 v l2 w l3, l = l1 ++ Rd UHCON v :: l2 ++ Wr UHCON w :: l3 /\
    has_bit w RESET = true /\ has_bit v RESET = false.

(** The accesses that set the selected pipe up, newest first: it is disabled, its
    memory freed, and it is enabled and configured again; [v] is the status read
    at the end. *)
Definition pipe_set_up (c0 c1 c2 ien a b d e v : Z) : list event :=
  [Rd UPSTAX v; Wr UPCONX (set_bit e INMODE); Rd UPCONX e; Wr UPIENX ien; Wr UPCFG2X c2; Wr UPCFG1X c1;
   Wr UPCFG0X c0; Wr UPCONX (set_bit d PEN); Rd UPCONX d; Wr UPCFG1X (clear_bits b (bit ALLOC));
   Rd UPCFG1X b; Wr UPCONX (clear_bits a (bit PEN)); Rd UPCONX a].

(** A status of a pipe, if one is read, has CFGOK. *)
Definition accepted (e : event) : Prop :=
  match e with Rd UPSTAX v => has_bit v CFGOK = true | _ => True end.

(** The configuration of a single bank for [size] bytes. *)
Definition single_bank (size : Z) : Z := Z.lor (bit ALLOC) (Z.shiftl (pipe_size_code size) EPSIZE0).

(** Pipe 0 was set up as the control pipe, of type control to endpoint 0, with a
    bank for [size] bytes, and the hardware accepted this and every other pipe
    that was set up again. *)
Definition control_pipe (size : Z) (l : list event) : Prop :=
  Forall accepted l /\ exists l' a b d e v,
    l = l' ++ pipe_set_up 0 (single_bank size) 0 0 a b d e v ++ [Wr UPNUM PIPE_CONTROLPIPE].

Lemma single_bank_cases size : single_bank size ∈ [0x02; 0x12; 0x22; 0x32; 0x42; 0x52].
Proof.
  assert (0 <= pipe_size_code size <= 5) by (unfold pipe_size_code, size_code; lia). unfold single_bank.
  assert (pipe_size_code size = 0 \/ pipe_size_code size = 1 \/ pipe_size_code size = 2 \/
          pipe_size_code size = 3 \/ pipe_size_code size = 4 \/ pipe_size_code size = 5) as Hc by lia.
  destruct Hc as [->|[->|[->|[->|[->| ->]]]]]; by repeat constructor.
Qed.

Lemma single_bank_byte size : u8 (single_bank size) = single_bank size /\ has_bit (single_bank size) ALLOC = true.
Proof.
  pose proof (single_bank_cases size) as Hc.
  by repeat (apply elem_of_cons in Hc as [->|Hc]; [done|]); apply elem_of_nil in Hc.
Qed.

(** The two requests of the enumeration. *)
Definition descriptor_request : USB_Request_Header_t :=
  {| bmRequestType := 0x80; bRequest := REQ_GetDescriptor; wValue := 0x0100; wIndex := 0; wLength := 8 |}.
Definition address_request : USB_Request_Header_t :=
  {| bmRequestType := 0x00; bRequest := REQ_SetAddress; wValue := 1; wIndex := 0; wLength := 0 |}.

(** Why an enumeration is given up: a wait or a request failed, or the hardware
    did not accept the configuration of the control pipe. *)
Definition fail_cause (h : host_vars) (l : list event) : Prop :=
  (USB_HostState h ∈ [HOST_STATE_WaitForDevice; HOST_STATE_Default; HOST_STATE_Default_PostReset] /\
   exists c, among (failure (USB_HostState h) c) l) \/
  (USB_HostState h ∈ [HOST_STATE_Powered_ConfigPipe; HOST_STATE_Default_PostReset] /\
   unseen UPSTAX CFGOK l).

(** [host_step D l h h']: a call that makes the accesses [l] (newest first) may take
    the host from [h] to [h']; [D] is what the buffer of the descriptor holds
    before. *)
Inductive host_step (D : bytes) (l : list event) (h : host_vars) : host_vars -> Prop :=
  | host_idle :
      USB_HostState h ∈ [HOST_STATE_Unattached; HOST_STATE_Addressed; HOST_STATE_Configured] ->
      l = [] -> host_step D l h h
  | host_wait :
      USB_HostState h = HOST_STATE_WaitForDevice -> 1 < WaitMSRemaining h -> (1 <= frames_seen l)%nat ->
      host_step D l h (set_WaitMSRemaining (WaitMSRemaining h - 1) h)
  | host_wait_over :
      USB_HostState h = HOST_STATE_WaitForDevice -> WaitMSRemaining h = 1 -> (1 <= frames_seen l)%nat ->
      host_step D l h (set_USB_HostState (PostWaitState h) (set_WaitMSRemaining 0 h))
  | host_powered :
      USB_HostState h = HOST_STATE_Powered -> l = [] ->
      host_step D l h (set_USB_HostState HOST_STATE_Powered_WaitForDeviceSettle
                         (set_WaitMSRemaining HOST_DEVICE_SETTLE_DELAY_MS h))
  | host_settling :
      USB_HostState h = HOST_STATE_Powered_WaitForDeviceSettle -> 0 < WaitMSRemaining h ->
      l = [delay_ms_ev 1] ->
      host_step D l h (set_WaitMSRemaining (WaitMSRemaining h - 1) h)
  | host_settled :
      USB_HostState h = HOST_STATE_Powered_WaitForDeviceSettle -> WaitMSRemaining h = 0 ->
      wrote USBCON OTGPADE true l -> wrote OTGCON VBUSHWC false l -> wrote OTGCON VBUSREQ true l ->
      host_step D l h (set_USB_HostState HOST_STATE_Powered_WaitForConnect
                         (set_WaitMSRemaining 0xFFFF h))
  | host_no_device v :
      USB_HostState h = HOST_STATE_Powered_WaitForConnect ->
      l = [Rd UHINT v] -> has_bit v DCONNI = false -> host_step D l h h
  | host_connected :
      USB_HostState h = HOST_STATE_Powered_WaitForConnect -> seen UHINT DCONNI l ->
      wrote UHINT DCONNI false l -> wrote UHCON SOFEN true l ->
      host_step D l h (wait_then 100 HOST_STATE_Powered_DoReset h)
  | host_reset :
      USB_HostState h = HOST_STATE_Powered_DoReset -> bus_reset l ->
      host_step D l h (wait_then 200 HOST_STATE_Powered_ConfigPipe (set_USB_Host_ConfigurationNumber 0 h))
  | host_pipe :
      USB_HostState h = HOST_STATE_Powered_ConfigPipe -> control_pipe PIPE_CONTROLPIPE_DEFAULT_SIZE l ->
      host_step D l h (set_USB_HostState HOST_STATE_Default h)
  | host_descriptor l' lr size :
      USB_HostState h = HOST_STATE_Default -> l = lr ++ l' ++ [Wr UPNUM PIPE_CONTROLPIPE] ->
      pipe_writes l' = request_bytes descriptor_request -> confirmed descriptor_request l' ->
      filled D (pipe_reads l') !! 7%nat = Some size -> bus_reset lr ->
      host_step D l h
        (wait_then 200 HOST_STATE_Default_PostReset
           (set_USB_Host_ConfigurationNumber 0 (set_USB_Host_ControlPipeSize size h)))
  | host_address l' lp :
      USB_HostState h = HOST_STATE_Default_PostReset -> l = l' ++ lp ->
      control_pipe (USB_Host_ControlPipeSize h) lp ->
      pipe_writes l' = request_bytes address_request -> confirmed address_request l' ->
      host_step D l h (wait_then 100 HOST_STATE_Default_PostAddressSet h)
  | host_addressed :
      USB_HostState h = HOST_STATE_Default_PostAddressSet -> Wr UHADDR USB_HOST_DEVICEADDRESS ∈ l ->
      host_step D l h (set_USB_HostState HOST_STATE_Addressed h)
  | host_failed l' lf :
      l = l' ++ lf -> fail_cause h lf ->
      wrote OTGCON VBUSRQC true l' -> wrote USBCON USBE false l' ->
      host_step D l h (abandoned h).

Lemma among_here (P : list event -> Prop) l l' : P l' -> among P (l' ++ l).
Proof. intros HP. by exists [], l', l. Qed.

Lemma wrote_app_l r n b l l' : wrote r n b l' -> wrote r n b (l' ++ l).
Proof. intros (v & Hv & Hb). exists v. split; [apply elem_of_app; by left|done]. Qed.

Lemma wrote_app_r r n b l l' : wrote r n b l -> wrote r n b (l' ++ l).
Proof. intros (v & Hv & Hb). exists v. split; [apply elem_of_app; by right|done]. Qed.

Lemma wrote_here r n b v l : has_bit v n = b -> wrote r n b (Wr r v :: l).
Proof. intros Hv. exists v. by split; [constructor|]. Qed.

(** The accesses [L] are some with [P] after [l]. *)
Definition grows (P : list event -> Prop) (l L : list event) : Prop := exists l', L = l' ++ l /\ P l'.

Lemma grows_app (P : list event -> Prop) l x L :
  (forall l, P l -> P (x ++ l)) -> grows P l L -> grows P l (x ++ L).
Proof. intros HP (l' & -> & Hl). exists (x ++ l'). by rewrite <- app_assoc; split; [|apply HP]. Qed.

Lemma bus_reset_app x l : bus_reset l -> bus_reset (x ++ l).
Proof. intros (l1 & v & l2 & w & l3 & -> & Hr). exists (x ++ l1), v, l2, w, l3. by rewrite <- app_assoc. Qed.

(** ** Loops of the controller *)

(** A loop that polls until a condition the hardware brings about within [K]
    polls. *)
Lemma keeps_spin `{Env} cond (polls : list event -> nat) K :
  (K < fuel)%nat ->
  (forall s, wp cond (fun b s' => kept s s' /\
     (b = false -> (polls (trace s) < K)%nat /\ polls (trace s') = S (polls (trace s)))) s) ->
  keeps (spin_until cond).
Proof.
  intros Hf Hcond s. unfold spin_until.
  apply (wp_loop (fun _ n s' => kept s s' /\ n = (K - polls (trace s'))%nat))
    with (n := (K - polls (trace s))%nat); [|lia|split; [apply kept_refl|done]].
  intros _ n s1 [Hk ->]. rewrite wp_bind. eapply wp_mono; [|apply Hcond]. intros b s2 [Hk2 Hb].
  pose proof (kept_trans _ _ _ Hk Hk2). destruct b; rewrite wp_ret; [done|].
  destruct (Hb eq_refl) as [Hlt HS]. eexists. split; [|split; [done|reflexivity]]. lia.
Qed.

Fixpoint reset_polls (t : list event) : nat :=
  match t with Rd UHCON _ :: t => S (reset_polls t) | _ => 0 end.

(** Documented behaviour of the controller: a bus reset is over, and the PLL locked,
    within [K] polls. *)
Record bus_controller `{Env} (K : nat) : Prop := {
  bc_transfer : host_controller K;
  bc_reset : forall t, (K <= reset_polls t)%nat -> has_bit (respond t UHCON) RESET = false;
  bc_pll : pll_locks K
}.

(** The handlers the host task runs. *)
Definition stays (m : M unit) : Prop := forall s,
  wp m (fun _ s' => Host s' = Host s /\ suffix (trace s) (trace s')) s.
Class Host_Event_Law `{USB_Host_Application} : Prop := {
  stays_Failed : forall e x, stays (EVENT_USB_Host_DeviceEnumerationFailed e x);
  stays_Unattached : stays EVENT_USB_Host_DeviceUnattached;
  stays_Complete : stays EVENT_USB_Host_DeviceEnumerationComplete
}.

(** [at_host s0 l h s]: the call started in [s0], has made the accesses [l], and
    the host variables are [h]. *)
Definition at_host (s0 : st) (l : list event) (h : host_vars) (s : st) : Prop :=
  trace s = l ++ trace s0 /\ Host s = h.

Section Points.
Context `{Masked} (s0 : st).

Lemma host_stays (m : M unit) l h s Q :
  stays m -> at_host s0 l h s -> (forall l' s', at_host s0 (l' ++ l) h s' -> Q tt s') -> wp m Q s.
Proof.
  intros Hm [Ht Hh] HQ. eapply wp_mono; [|apply Hm]. intros [] s' [Hh' [l' Ht']].
  apply (HQ l'). split; [by rewrite Ht', Ht, app_assoc|by rewrite Hh'].
Qed.

Lemma host_keeps {A} (m : M A) l h s Q :
  keeps m -> at_host s0 l h s -> (forall a l' s', at_host s0 (l' ++ l) h s' -> Q a s') -> wp m Q s.
Proof.
  intros Hm [Ht Hh] HQ. eapply wp_mono; [|apply Hm]. intros a s' [Hc [l' Ht']].
  apply (HQ a l'). apply (f_equal Host) in Hc. split; [by rewrite Ht', Ht, app_assoc|].
  change (Host (core s')) with (Host s') in Hc. by rewrite Hc.
Qed.

Lemma host_put f l h s Q :
  at_host s0 l h s -> (forall s', at_host s0 l (f h) s' -> Q tt s') -> wp (put_Host f) Q s.
Proof. intros [Ht <-] HQ. apply HQ. by split. Qed.

Lemma host_get {A} (f : host_vars -> A) l h s Q :
  at_host s0 l h s -> Q (f h) s -> wp (get_Host f) Q s.
Proof. by intros [Ht <-] HQ. Qed.

Lemma host_state l h s Q : at_host s0 l h s -> Q (USB_HostState h) s -> wp get_HostState Q s.
Proof. intros [Ht <-] HQ. unfold get_HostState, get_volatile, wp. by rewrite masked. Qed.

Lemma host_test r n l h s Q :
  at_host s0 l h s ->
  (forall v s', at_host s0 (Rd r v :: l) h s' -> v = respond (l ++ trace s0) r -> Q (has_bit v n) s') ->
  wp (reg_test r n) Q s.
Proof.
  intros [Ht Hh] HQ. unfold reg_test, rd, bind, wp. rewrite masked. cbn [ret].
  apply HQ; [|by rewrite <- Ht]. split; [cbn; by rewrite <- Ht|done].
Qed.

Lemma host_rd r l h s Q :
  at_host s0 l h s -> (forall v s', at_host s0 (Rd r v :: l) h s' -> Q v s') -> wp (rd r) Q s.
Proof.
  intros [Ht Hh] HQ. unfold rd, wp. rewrite masked. apply HQ. split; [cbn; by rewrite <- Ht|done].
Qed.

Lemma host_wr r v l h s Q :
  at_host s0 l h s -> (forall s', at_host s0 (Wr r (u8 v) :: l) h s' -> Q tt s') -> wp (wr r v) Q s.
Proof. intros [Ht Hh] HQ. unfold wr, wp. apply HQ. split; [cbn; by rewrite <- Ht|done]. Qed.

Lemma host_set r n l h s Q :
  at_host s0 l h s ->
  (forall v s', at_host s0 (Wr r (set_bit v n) :: Rd r v :: l) h s' -> Q tt s') -> wp (reg_set r n) Q s.
Proof.
  intros Hp HQ. unfold reg_set. rewrite wp_bind. eapply host_rd; [exact Hp|]. intros v s1 Hp1.
  eapply host_wr; [exact Hp1|]. intros s2 Hp2. unfold set_bit in Hp2 at 1. rewrite wrap_wrap in Hp2.
  by eapply HQ.
Qed.

Lemma host_clear r m l h s Q :
  at_host s0 l h s ->
  (forall v s', at_host s0 (Wr r (clear_bits v m) :: Rd r v :: l) h s' -> Q tt s') -> wp (reg_clear r m) Q s.
Proof.
  intros Hp HQ. unfold reg_clear. rewrite wp_bind. eapply host_rd; [exact Hp|]. intros v s1 Hp1.
  eapply host_wr; [exact Hp1|]. intros s2 Hp2. unfold clear_bits in Hp2 at 1. rewrite wrap_wrap in Hp2.
  by eapply HQ.
Qed.

Lemma host_NONBLOCK_WAIT d n l h s Q :
  at_host s0 l h s -> (forall s', at_host s0 l (wait_then d n h) s' -> Q tt s') ->
  wp (HOST_TASK_NONBLOCK_WAIT d n) Q s.
Proof. intros [Ht <-] HQ. apply HQ. by split. Qed.
End Points.

Section Controller.
Context `{Masked} (K : nat) (bc : bus_controller K).
Hypothesis fuel_enough : (K + 1004 < fuel)%nat.

Lemma keeps_pll : keeps (spin_until USB_PLL_IsReady).
Proof.
  apply (keeps_spin _ pll_polls K); [lia|]. intros s.
  unfold USB_PLL_IsReady, reg_test, rd, bind, wp. rewrite masked. cbn [ret]. split; [apply kept_log|].
  intros Hb. split; [|done]. destruct (decide (K <= pll_polls (trace s))%nat) as [Hge|]; [|lia].
  by rewrite (bc_pll _ bc _ Hge) in Hb.
Qed.

Lemma keeps_await_frame n : keeps (await_frame n).
Proof.
  induction n; cbn [await_frame]; unfold USB_INT_HasOccurred, USB_INT_Clear, Delay_MS; auto 10 with keeps.
Qed.

Ltac keeping := solve [auto 3 using keeps_pll, keeps_await_frame with keeps
                      | autounfold with safe_prims; auto 20 with keeps].
(** One statement, whose accesses the specification does not look at. *)
Ltac skip Hp := rewrite wp_bind; eapply host_keeps; [keeping|exact Hp|]; clear Hp;
  let l := fresh "lx" in let s := fresh "sx" in intros ? l s Hp.
Ltac assign Hp := rewrite wp_bind; eapply host_put; [exact Hp|]; clear Hp;
  let s := fresh "sx" in intros s Hp.

(** The loop that waits for the end of a bus reset has seen it. *)
Lemma reset_complete_spec s0 l h s :
  at_host s0 l h s ->
  wp (spin_until USB_Host_IsBusResetComplete) (fun _ s' => exists v l',
    at_host s0 (Rd UHCON v :: l' ++ l) h s' /\ has_bit v RESET = false) s.
Proof.
  intros Hp. unfold spin_until.
  apply (wp_loop (fun _ n s' => n = (K - reset_polls (trace s'))%nat /\ exists l', at_host s0 (l' ++ l) h s'))
    with (n := (K - reset_polls (trace s))%nat); [|lia|split; [done|by exists []]].
  intros _ n s1 (-> & l1 & Hp1). rewrite wp_bind. unfold USB_Host_IsBusResetComplete.
  rewrite wp_bind. eapply host_test; [exact Hp1|]. intros v s2 Hp2 Hv. rewrite !wp_ret.
  pose proof Hp1 as [Ht1 _]. pose proof Hp2 as [Ht2 _]. destruct (has_bit v RESET) eqn:Hb; cbn [negb]; rewrite ?wp_ret.
  - rewrite <- Ht1 in Hv. rewrite Ht2. cbn [app reset_polls]. rewrite <- Ht1. eexists.
    split; [|split; [reflexivity|by exists (Rd UHCON v :: l1)]].
    destruct (decide (K <= reset_polls (trace s1))%nat) as [Hge|]; [|lia].
    by rewrite Hv, (bc_reset _ bc _ Hge) in Hb.
  - exists v, l1. by split.
Qed.

Lemma ResetDevice_spec s0 l h s Q :
  at_host s0 l h s ->
  (forall l' s', at_host s0 (l' ++ l) (set_USB_Host_ConfigurationNumber 0 h) s' -> bus_reset l' -> Q tt s') ->
  wp USB_Host_ResetDevice Q s.
Proof.
  intros Hp HQ. unfold USB_Host_ResetDevice. do 2 skip Hp.
  rewrite wp_bind. eapply host_set; [exact Hp|]. clear Hp. intros w sw Hp.
  rewrite wp_bind. eapply wp_mono; [|by apply reset_complete_spec]. clear Hp. intros [] sv (v & lv & Hp & Hv).
  skip Hp. assign Hp. do 6 skip Hp.
  eapply host_keeps; [keeping|exact Hp|]. clear Hp. intros [] l' s' Hp.
  assert (Hg : grows bus_reset l (l' ++ lx7 ++ lx6 ++ lx5 ++ lx4 ++ lx3 ++ lx2 ++ lx1 ++
                                  Rd UHCON v :: lv ++ Wr UHCON (set_bit w RESET) :: Rd UHCON w :: lx0 ++ lx ++ l)).
  { do 8 (apply grows_app; [apply bus_reset_app|]).
    exists (Rd UHCON v :: lv ++ Wr UHCON (set_bit w RESET) :: Rd UHCON w :: lx0 ++ lx). split.
    - cbn [app]. rewrite <- !app_assoc. cbn [app]. by rewrite <- app_assoc.
    - exists [], v, lv, (set_bit w RESET), (Rd UHCON w :: lx0 ++ lx).
      split; [done|]. split; [by apply has_bit_set|done]. }
  destruct Hg as (lg & Hg & Hbr). rewrite Hg in Hp. by eapply HQ.
Qed.

Lemma ResetInterface_spec s0 l h s Q :
  at_host s0 l h s ->
  (forall l' s', at_host s0 (l' ++ l) (abandoned h) s' -> wrote USBCON USBE false l' -> Q tt s') ->
  wp USB_ResetInterface_Host Q s.
Proof.
  intros Hp HQ. unfold USB_ResetInterface_Host, USB_Init_Host, USB_Controller_Reset.
  change (negb (option_set USB_OPT_MANUAL_PLL)) with true. cbn [when].
  do 2 skip Hp. rewrite wp_bind, wp_bind. eapply host_clear; [exact Hp|]. clear Hp. intros w sw Hp.
  change (?a :: ?b :: ?m) with ([a; b] ++ m) in Hp. eapply host_keeps; [keeping|exact Hp|]. clear Hp.
  intros [] ls ss Hp. do 2 skip Hp.
  rewrite wp_bind. skip Hp. eapply host_keeps; [keeping|exact Hp|]. clear Hp. intros _ lp sp Hp.
  rewrite wp_bind. do 3 assign Hp. do 6 skip Hp. eapply host_keeps; [keeping|exact Hp|]. clear Hp.
  intros _ lq sq Hp. eapply host_keeps; [keeping|exact Hp|]. clear Hp. intros [] l' s' Hp.
  assert (Hw : forall lx, wrote USBCON USBE false ([Wr USBCON (clear_bits w (bit USBE)); Rd USBCON w] ++ lx))
    by (intros; by apply wrote_here, has_bit_cleared).
  match type of Hp with at_host _ ?L _ _ => assert (Hg : grows (wrote USBCON USBE false) l L) end.
  { do 13 (apply grows_app; [intros; by apply wrote_app_r|]).
    eexists ([Wr USBCON (clear_bits w (bit USBE)); Rd USBCON w] ++ lx0 ++ lx). split; [by rewrite <- !app_assoc|].
    apply Hw. }
  destruct Hg as (lg & Hg & Hbr). rewrite Hg in Hp. by eapply HQ.
Qed.

(** Setting the selected pipe up, up to the test of its status. *)
Lemma pipe_set_up_spec s0 l h s c0 c1 c2 ien (k : bool -> M bool) Q :
  at_host s0 l h s ->
  (forall a b d e v s',
     at_host s0 (pipe_set_up (u8 c0) (u8 c1) (u8 c2) (u8 ien) a b d e v ++ l) h s' ->
     wp (k (has_bit v CFGOK)) Q s') ->
  wp (Pipe_DisablePipe ;; reg_clear UPCFG1X (bit ALLOC) ;; Pipe_EnablePipe ;; wr UPCFG0X c0 ;;
      wr UPCFG1X c1 ;; wr UPCFG2X c2 ;; wr UPIENX ien ;; Pipe_SetInfiniteINRequests ;;
      ok ← Pipe_IsConfigured; k ok) Q s.
Proof.
  intros Hp HQ. rewrite wp_bind. eapply host_clear; [exact Hp|]. clear Hp. intros a s1 Hp.
  rewrite wp_bind. eapply host_clear; [exact Hp|]. clear Hp. intros b s2 Hp.
  rewrite wp_bind. eapply host_set; [exact Hp|]. clear Hp. intros d s3 Hp.
  do 4 (rewrite wp_bind; eapply host_wr; [exact Hp|]; clear Hp; intros ? Hp).
  rewrite wp_bind. eapply host_set; [exact Hp|]. clear Hp. intros e s8 Hp.
  rewrite wp_bind. eapply host_test; [exact Hp|]. clear Hp. intros v s9 Hp _. by eapply (HQ a b d e v).
Qed.

Definition pipes_outcome (ok : bool) (l : list event) : Prop :=
  if ok then Forall accepted l else unseen UPSTAX CFGOK l.

Lemma pipes_outcome_app ok l l' : pipes_outcome ok l' -> Forall accepted l -> pipes_outcome ok (l' ++ l).
Proof.
  destruct ok; cbn; intros Hl' Hl; [by apply Forall_app|]. destruct Hl' as (v & Hv & Hb).
  exists v. split; [apply elem_of_app; by left|done].
Qed.

(** The status read after a pipe was set up decides. *)
Lemma pipe_set_up_outcome s0 l lp h s c0 c1 c2 ien rest :
  at_host s0 (lp ++ l) h s -> Forall accepted lp ->
  (forall l1 s1, at_host s0 (l1 ++ l) h s1 -> wp rest (fun ok s' => exists l',
     at_host s0 (l' ++ l1 ++ l) h s' /\ pipes_outcome ok l') s1) ->
  wp (Pipe_DisablePipe ;; reg_clear UPCFG1X (bit ALLOC) ;; Pipe_EnablePipe ;; wr UPCFG0X c0 ;;
      wr UPCFG1X c1 ;; wr UPCFG2X c2 ;; wr UPIENX ien ;; Pipe_SetInfiniteINRequests ;;
      ok ← Pipe_IsConfigured; if negb ok then ret false else rest)
    (fun ok s' => exists l' a b d e v,
       at_host s0 (l' ++ pipe_set_up (u8 c0) (u8 c1) (u8 c2) (u8 ien) a b d e v ++ lp ++ l) h s' /\
       pipes_outcome ok (l' ++ pipe_set_up (u8 c0) (u8 c1) (u8 c2) (u8 ien) a b d e v ++ lp)) s.
Proof.
  intros Hp Hlp Hrest. eapply pipe_set_up_spec; [exact Hp|]. intros a b d e v s1 Hp1.
  destruct (has_bit v CFGOK) eqn:Hv; cbn [negb].
  - rewrite app_assoc in Hp1. eapply wp_mono; [|by eapply Hrest]. intros ok s2 (l2 & Hp2 & Hout).
    exists l2, a, b, d, e, v. rewrite <- app_assoc in Hp2. split; [exact Hp2|]. apply pipes_outcome_app; [done|].
    apply Forall_app. split; [|done]. unfold pipe_set_up. by repeat constructor.
  - rewrite wp_ret. exists [], a, b, d, e, v. split; [done|]. exists v. by split; [constructor|].
Qed.

(** The pipes that are set up again are all accepted, or one was not. *)
Lemma pipe_configure_spec s0 n Number c0 c1 : forall PNum l h s, at_host s0 l h s ->
  wp (pipe_configure_from n PNum Number c0 c1) (fun ok s' => exists l', at_host s0 (l' ++ l) h s' /\
    pipes_outcome ok l') s.
Proof.
  induction n as [|n IH]; intros PNum l h s Hp; cbn [pipe_configure_from].
  { rewrite wp_ret. exists []. by split; [|constructor]. }
  rewrite wp_bind. eapply host_wr; [exact Hp|]. clear Hp. intros s1 Hp. rewrite wp_bind.
  assert (Hcfg : wp (if PNum =? Number then ret (c0, c1, 0, 0)
      else a ← rd UPCFG0X; b ← rd UPCFG1X; c ← rd UPCFG2X; d ← rd UPIENX; ret (a, b, c, d))
    (fun _ s2 => exists lp, at_host s0 (lp ++ l) h s2 /\ Forall accepted lp) s1).
  { destruct (PNum =? Number).
    - rewrite wp_ret. eexists [_]. split; [exact Hp|by repeat constructor].
    - do 4 (rewrite wp_bind; eapply host_rd; [exact Hp|]; clear Hp; intros ? ? Hp). rewrite wp_ret.
      eexists [_; _; _; _; _]. split; [exact Hp|by repeat constructor]. }
  eapply wp_mono; [|exact Hcfg]. clear Hp Hcfg. intros [[[ca cb] cc] cd] s2 (lp & Hp & Hlp).
  destruct (negb _).
  - eapply wp_mono; [|by apply IH]. intros ok s3 (l3 & Hp3 & Hout). exists (l3 ++ lp). rewrite <- app_assoc.
    by split; [|apply pipes_outcome_app].
  - eapply wp_mono; [|eapply pipe_set_up_outcome; [exact Hp|exact Hlp|]; intros; by apply IH].
    intros ok s3 (l3 & a & b & d & e & v & Hp3 & Hout). eexists. split; [|exact Hout]. by rewrite <- !app_assoc.
Qed.

(** ** The cases of the state machine *)

Context `{!USB_Host_Application} `{!Host_Event_Law}.
Context (D : bytes) (HD : buffer_of 8 D) (s0 : st).
Let h0 := Host s0.
Hypothesis ok : host_ok h0.

(** The state a case is left in: it has made a step, or has failed. *)
Definition case_done (r : Z * Z) (s : st) : Prop := exists l h, at_host s0 l h s /\
  (fst r = HOST_ENUMERROR_NoError /\ host_step D l h0 h \/
   fst r <> HOST_ENUMERROR_NoError /\ fail_cause h0 l /\ USB_HostState h <> HOST_STATE_Unattached /\
   abandoned h = abandoned h0).

Lemma case_step l h s x :
  at_host s0 l h s -> host_step D l h0 h -> case_done (HOST_ENUMERROR_NoError, x) s.
Proof. intros Hp Hs. exists l, h. split; [done|]. by left. Qed.

Lemma case_failed l h s e x :
  at_host s0 l h s -> e <> HOST_ENUMERROR_NoError -> fail_cause h0 l ->
  USB_HostState h <> HOST_STATE_Unattached -> abandoned h = abandoned h0 -> case_done (e, x) s.
Proof. intros. exists l, h. split; [done|]. right. done. Qed.

Lemma resume_not_unattached x : x ∈ resume_states -> x <> HOST_STATE_Unattached.
Proof.
  unfold resume_states. intros Hx.
  by repeat (apply elem_of_cons in Hx as [->|Hx]; [done|]); apply elem_of_nil in Hx.
Qed.

Lemma case_WaitForDevice_spec :
  USB_HostState h0 = HOST_STATE_WaitForDevice -> wp case_WaitForDevice case_done s0.
Proof.
  intros Hst. destruct (ok_Waiting _ ok Hst) as [Hw Hpost]. apply resume_not_unattached in Hpost.
  pose proof (ok_WaitMS _ ok) as [_ Hw']. unfold case_WaitForDevice. rewrite wp_bind.
  assert (Hp0 : at_host s0 [] h0 s0) by done. eapply host_get; [exact Hp0|]. destruct (Z.eqb_spec (WaitMSRemaining h0) 0); [lia|].
  rewrite wp_bind. eapply wp_mono; [|eapply (WaitMS_spec K (bc_transfer _ bc) s0 []); [lia|apply runs_refl]].
  intros c s1 (l1 & Hr1 & Hs1 & Hm). rewrite app_nil_r in Hr1.
  assert (Hp : at_host s0 l1 h0 s1) by (rewrite Hr1; by split). unfold HOST_WAITERROR_Successful.
  destruct (Z.eqb_spec c 0) as [->|Hc]; cbn [negb].
  - rewrite wp_bind. eapply host_get; [exact Hp|]. assign Hp.
    assert (Hu : u16 (WaitMSRemaining h0 - 1) = WaitMSRemaining h0 - 1) by (apply wrap_id; unfold fits; lia).
    rewrite Hu in *. assert (Hf : (1 <= frames_seen l1)%nat) by (by destruct Hm as [[_ ?]|[[? _]|[[? _]|[? _]]]]).
    rewrite wp_bind. destruct (Z.eqb_spec (WaitMSRemaining h0 - 1) 0) as [E0|E0]; cbn [when].
    + rewrite wp_bind. eapply host_get; [exact Hp|]. eapply host_put; [exact Hp|]. intros s3 Hp3. rewrite wp_ret.
      eapply case_step; [exact Hp3|]. rewrite E0. exact (host_wait_over D l1 h0 Hst ltac:(lia) Hf).
    + rewrite !wp_ret. eapply case_step; [exact Hp|]. apply host_wait; [done|lia|done].
  - rewrite wp_bind. eapply host_get; [exact Hp|]. assign Hp. rewrite wp_ret.
    eapply case_failed; [exact Hp|done| |done|done]. left. rewrite Hst. split; [by constructor|]. exists c.
    rewrite <- (app_nil_r l1). apply among_here. rewrite <- Hst. by apply wait_failure.
Qed.

Lemma case_Powered_spec : USB_HostState h0 = HOST_STATE_Powered -> wp case_Powered case_done s0.
Proof.
  intros Hst. assert (Hp : at_host s0 [] h0 s0) by done. unfold case_Powered, no_error. do 2 assign Hp.
  rewrite wp_ret. eapply case_step; [exact Hp|]. by apply host_powered.
Qed.

Lemma case_Settle_spec :
  USB_HostState h0 = HOST_STATE_Powered_WaitForDeviceSettle -> wp case_WaitForDeviceSettle case_done s0.
Proof.
  intros Hst. pose proof (ok_WaitMS _ ok) as [Hw Hw']. assert (Hp : at_host s0 [] h0 s0) by done.
  unfold case_WaitForDeviceSettle, no_error. rewrite wp_bind. eapply host_get; [exact Hp|]. assign Hp.
  destruct (Z.eqb_spec (WaitMSRemaining h0) 0) as [E0|E0]; cbn [negb].
  - skip Hp. rewrite wp_bind. eapply host_set; [exact Hp|]. clear Hp. intros u su Hp.
    unfold USB_Host_VBUS_Auto_Enable. rewrite wp_bind, wp_bind. eapply host_clear; [exact Hp|]. clear Hp. intros w sw Hp.
    eapply host_set; [exact Hp|]. clear Hp. intros x sx1 Hp.
    rewrite wp_bind. eapply host_set; [exact Hp|]. clear Hp. intros r sr Hp.
    assign Hp. rewrite wp_ret. eapply case_step; [exact Hp|]. rewrite E0.
    apply host_settled; [done|done|..].
    + exists (set_bit u OTGPADE). split; [|by apply has_bit_set]. by do 6 apply list_elem_of_further; constructor.
    + exists (clear_bits w (bit VBUSHWC)). split; [|by apply has_bit_cleared]. by do 4 apply list_elem_of_further; constructor.
    + by apply wrote_here, has_bit_set.
  - rewrite wp_bind. unfold Delay_MS, emit, wp. eapply (case_step [delay_ms_ev 1]).
    + destruct Hp as [Ht Hh]. split; [cbn; by rewrite Ht|exact Hh].
    + cbn [fst]. rewrite wrap_id by (unfold fits; lia). by apply host_settling; [|lia|].
Qed.

Lemma case_Connect_spec :
  USB_HostState h0 = HOST_STATE_Powered_WaitForConnect -> wp case_WaitForConnect case_done s0.
Proof.
  intros Hst. assert (Hp : at_host s0 [] h0 s0) by done. unfold case_WaitForConnect, no_error.
  rewrite wp_bind. eapply host_test; [exact Hp|]. clear Hp. intros v s1 Hp _. rewrite wp_bind.
  cbn [int_flag fst snd] in *. destruct (has_bit v DCONNI) eqn:Hv; cbn [when].
  - assert (keeps Pipe_ClearPipes).
    { assert (forall n k, keeps (clear_pipes n k)).
      { induction n; intros; cbn [clear_pipes]; autounfold with safe_prims; auto 20 with keeps. }
      unfold Pipe_ClearPipes. auto with keeps. }
        rewrite wp_bind. eapply host_clear; [exact Hp|]. clear Hp. intros w s2 Hp. do 3 skip Hp.
    rewrite wp_bind. eapply host_set; [exact Hp|]. clear Hp. intros u s3 Hp. skip Hp.
    eapply host_NONBLOCK_WAIT; [exact Hp|]. clear Hp. intros s4 Hp. rewrite wp_ret.
    eapply case_step; [exact Hp|]. apply host_connected; [done|..].
    + apply seen_app_r. exists v. split; [|done]. apply list_elem_of_further, list_elem_of_further.
      do 3 (apply elem_of_app; right). by apply list_elem_of_further, list_elem_of_further, list_elem_of_here.
    + apply wrote_app_r. change (?a :: ?b :: ?l) with ([a; b] ++ l). do 4 apply wrote_app_r.
      by apply wrote_here, has_bit_cleared.
    + by apply wrote_app_r, wrote_here, has_bit_set.
  - rewrite !wp_ret. eapply case_step; [exact Hp|]. by eapply host_no_device.
Qed.

Lemma case_DoReset_spec : USB_HostState h0 = HOST_STATE_Powered_DoReset -> wp case_DoReset case_done s0.
Proof.
  intros Hst. assert (Hp : at_host s0 [] h0 s0) by done. unfold case_DoReset, no_error. rewrite wp_bind.
  eapply ResetDevice_spec; [exact Hp|]. clear Hp. intros l1 s1 Hp Hbr. rewrite wp_bind.
  eapply host_NONBLOCK_WAIT; [exact Hp|]. clear Hp. intros s2 Hp. rewrite wp_ret.
  eapply case_step; [exact Hp|]. rewrite app_nil_r. by apply host_reset.
Qed.

(** The control pipe is configured, or the attempt is a reason to give up. *)
Lemma ConfigurePipe_spec size l h s :
  at_host s0 l h s ->
  wp (Pipe_ConfigurePipe PIPE_CONTROLPIPE EP_TYPE_CONTROL ENDPOINT_CONTROLEP size 1)
     (fun ok s' => exists l', at_host s0 (l' ++ l) h s' /\
        if ok then control_pipe size l' else unseen UPSTAX CFGOK l') s.
Proof.
  intros Hp. unfold Pipe_ConfigurePipe. change (PIPE_TOTAL_PIPES <=? _) with false. cbv iota.
  rewrite wp_bind. unfold wp at 1. rewrite Pipe_BytesToEPSizeMask_correct, wp_bind.
  change (Z.to_nat (PIPE_TOTAL_PIPES - _)) with (S 6). generalize 6%nat. intros n. cbn [pipe_configure_from].
  change (Z.land PIPE_CONTROLPIPE PIPE_EPNUM_MASK) with PIPE_CONTROLPIPE. rewrite Z.eqb_refl.
  change (Z.lor (Z.lor (bit ALLOC) _) (Z.shiftl _ EPSIZE0)) with (single_bank size).
  destruct (single_bank_byte size) as [Hu Halloc]. rewrite Hu.
  rewrite wp_bind. eapply host_wr; [exact Hp|]. clear Hp. intros s1 Hp.
  rewrite wp_bind, wp_ret, Halloc. cbn [negb].
  eapply wp_mono; [|eapply (pipe_set_up_outcome s0 l [Wr UPNUM PIPE_CONTROLPIPE]); [exact Hp|by constructor; [|constructor]|];
    intros; by apply pipe_configure_spec].
  intros done s2 (l2 & a & b & d & e & v & Hp2 & Hout). rewrite Hu in Hp2, Hout. destruct done; cbn in Hout.
  - rewrite wp_bind. eapply host_wr; [exact Hp2|]. intros s3 Hp3. rewrite wp_ret.
    exists (Wr UPNUM PIPE_CONTROLPIPE :: l2 ++ pipe_set_up 0 (single_bank size) 0 0 a b d e v ++
            [Wr UPNUM PIPE_CONTROLPIPE]). split.
    + rewrite <- app_comm_cons, <- !app_assoc. exact Hp3.
    + split; [by constructor|]. exists (Wr UPNUM PIPE_CONTROLPIPE :: l2), a, b, d, e, v. done.
  - rewrite wp_ret. eexists. split; [|exact Hout]. by rewrite <- !app_assoc.
Qed.

Lemma case_ConfigPipe_spec :
  USB_HostState h0 = HOST_STATE_Powered_ConfigPipe -> wp case_ConfigPipe case_done s0.
Proof.
  intros Hst. assert (Hp : at_host s0 [] h0 s0) by done. unfold case_ConfigPipe, no_error. rewrite wp_bind.
  eapply wp_mono; [|by apply ConfigurePipe_spec]. clear Hp. intros [] s1 (l1 & Hp & Hun); cbn [negb].
  - assign Hp. rewrite wp_ret. eapply case_step; [exact Hp|]. rewrite app_nil_r. by apply host_pipe.
  - rewrite wp_ret. eapply case_failed; [exact Hp|done| |by rewrite Hst|done].
    right. rewrite Hst. split; [by constructor|]. by rewrite app_nil_r.
Qed.

(** A control request at a point of the task. *)
Lemma request_spec req Buffer l h s :
  at_host s0 l h s -> USB_ControlRequest s = req -> all_bytes (request_bytes req) ->
  0 <= wLength req <= 8 -> buffer_for (wLength req) Buffer -> (is_IN req = false -> Buffer = None) ->
  wp (USB_Host_SendControlRequest Buffer) (fun r s' => exists l', at_host s0 (l' ++ l) h s' /\
    control_outcome (USB_HostState h) req Buffer r l') s.
Proof.
  intros [Ht Hh] Hreq Hall Hlen Hbuf Hnone.
  eapply wp_mono; [|apply (SendControlRequest_spec K s); rewrite ?Hreq; try done].
  - intros r s1 (l1 & Hr1 & Hout). exists l1. rewrite Hreq, Hh in Hout. split; [|done].
    rewrite Hr1. split; [cbn; by rewrite Ht, app_assoc|done].
  - apply bc_transfer, bc.
  - lia.
  - unfold fits. lia.
  - intros HIN HB. by rewrite (Hnone HIN) in HB.
Qed.

Lemma buffer_D : buffer_for 8 (Some D).
Proof. destruct HD as [Hall Hlen]. split; [done|lia]. Qed.

Lemma case_Default_spec : USB_HostState h0 = HOST_STATE_Default -> wp (case_Default D) case_done s0.
Proof.
  intros Hst. unfold case_Default. rewrite wp_bind, wp_put, wp_bind.
  match goal with |- wp (Pipe_SelectPipe _) _ ?s => set (s1 := s) end.
  assert (Hp : at_host s0 [Wr UPNUM 0] h0 (log (Wr UPNUM 0) s1)) by done.
  change (wp (Pipe_SelectPipe PIPE_CONTROLPIPE) ?Q s1) with (Q tt (log (Wr UPNUM 0) s1)). cbv beta.
  rewrite wp_bind. eapply wp_mono; [|apply (request_spec descriptor_request (Some D) _ _ _ Hp);
    [done|by repeat constructor|done|exact buffer_D|done]].
  clear Hp. intros [c B'] s2 (l2 & Hp & Hout). destruct Hout as [[Hres [HB Hn]] Hack]. cbn [fst snd] in *.
  unfold HOST_SENDCONTROL_Successful in *. destruct (Z.eqb_spec c 0) as [->|Hc]; cbn [negb].
  - subst B'. destruct Hres as [[_ Hw]|[Hbad _]]; [|by apply failure_nonzero in Hbad].
    destruct HD as [_ HlenD].
    destruct (lookup_lt_is_Some_2 (filled D (pipe_reads l2)) 7) as [size Hsize].
    { unfold filled. rewrite length_app, length_drop. cbn in Hn. lia. }
    change (load_byte (default [] (Some (filled D (pipe_reads l2)))) Endpoint0Size_offset)
      with (filled D (pipe_reads l2) !! 7%nat).
    rewrite Hsize. assign Hp. rewrite wp_bind. eapply ResetDevice_spec; [exact Hp|]. clear Hp. intros l3 s3 Hp Hbr.
    rewrite wp_bind. eapply host_NONBLOCK_WAIT; [exact Hp|]. clear Hp. intros s4 Hp. rewrite wp_ret.
    eapply case_step; [exact Hp|]. apply (host_descriptor _ _ _ l2 l3); try done. by apply Hack.
  - rewrite wp_ret. eapply case_failed; [exact Hp|done| |by rewrite Hst|done]. left. rewrite Hst.
    split; [by repeat constructor|]. exists c. rewrite <- Hst. apply among_here. by destruct Hres as [[? _]|[? _]].
Qed.

Lemma case_PostReset_spec :
  USB_HostState h0 = HOST_STATE_Default_PostReset -> wp case_PostReset case_done s0.
Proof.
  intros Hst. assert (Hp : at_host s0 [] h0 s0) by done. unfold case_PostReset. rewrite wp_bind.
  eapply host_get; [exact Hp|]. rewrite wp_bind. eapply wp_mono; [|by apply ConfigurePipe_spec].
  clear Hp. intros [] s1 (l1 & Hp & Hun); cbn [negb].
  2: { rewrite wp_ret. eapply case_failed; [exact Hp|done| |by rewrite Hst|done].
       right. rewrite Hst. split; [by repeat constructor|]. by rewrite app_nil_r. }
  rewrite wp_bind, wp_put, wp_bind.
  match goal with |- wp _ _ ?s => assert (Hp1 : at_host s0 (l1 ++ []) h0 s) by exact Hp end. clear Hp.
  eapply wp_mono; [|apply (request_spec address_request None _ _ _ Hp1); [done|by repeat constructor|done|done|done]].
  clear Hp1. intros [c B'] s2 (l2 & Hp & [Hres _] & Hack). cbn [fst snd] in *.
  unfold HOST_SENDCONTROL_Successful in *. destruct (Z.eqb_spec c 0) as [->|Hc]; cbn [negb].
  - destruct Hres as [[_ Hw]|[Hbad _]]; [|by apply failure_nonzero in Hbad]. rewrite wp_bind.
    eapply host_NONBLOCK_WAIT; [exact Hp|]. clear Hp. intros s4 Hp. rewrite wp_ret.
    eapply case_step; [exact Hp|]. apply (host_address _ _ _ l2 (l1 ++ [])); try done; [by rewrite app_nil_r|by apply Hack].
  - rewrite wp_ret. eapply case_failed; [exact Hp|done| |by rewrite Hst|done]. left. rewrite Hst.
    split; [by repeat constructor|]. exists c. rewrite <- Hst. apply among_here. by destruct Hres as [[? _]|[? _]].
Qed.

Lemma case_PostAddressSet_spec :
  USB_HostState h0 = HOST_STATE_Default_PostAddressSet -> wp case_PostAddressSet case_done s0.
Proof.
  intros Hst. unfold case_PostAddressSet, no_error. rewrite wp_bind.
  assert (Hp : at_host s0 [Wr UHADDR USB_HOST_DEVICEADDRESS] h0 (log (Wr UHADDR USB_HOST_DEVICEADDRESS) s0)) by done.
  change (wp (USB_Host_SetDeviceAddress USB_HOST_DEVICEADDRESS) ?Q s0) with
    (Q tt (log (Wr UHADDR USB_HOST_DEVICEADDRESS) s0)). cbv beta. assign Hp. rewrite wp_bind.
  eapply host_stays; [apply stays_Complete|exact Hp|]. clear Hp. intros l1 s1 Hp. rewrite wp_ret.
  eapply case_step; [exact Hp|]. apply host_addressed; [done|]. apply elem_of_app. right. by constructor.
Qed.

Lemma host_case_spec : wp (host_case D (USB_HostState h0)) case_done s0.
Proof.
  pose proof (ok_HostState _ ok) as Hrange. unfold host_case.
  repeat match goal with
  | |- wp (if USB_HostState h0 =? ?x then _ else _) _ _ => destruct (Z.eqb_spec (USB_HostState h0) x); [
      first [by apply case_WaitForDevice_spec|by apply case_Powered_spec|by apply case_Settle_spec
            |by apply case_Connect_spec|by apply case_DoReset_spec|by apply case_ConfigPipe_spec
            |by apply case_Default_spec|by apply case_PostReset_spec|by apply case_PostAddressSet_spec]|]
  end.
  unfold no_error. rewrite wp_ret. apply (case_step [] h0); [done|]. apply host_idle; [|done].
  unfold HOST_STATE_WaitForDevice, HOST_STATE_Configured in *.
  assert (Hin : USB_HostState h0 = 1 \/ USB_HostState h0 = 10 \/ USB_HostState h0 = 11).
  { unfold HOST_STATE_Powered, HOST_STATE_Powered_WaitForDeviceSettle, HOST_STATE_Powered_WaitForConnect,
      HOST_STATE_Powered_DoReset, HOST_STATE_Powered_ConfigPipe, HOST_STATE_Default,
      HOST_STATE_Default_PostReset, HOST_STATE_Default_PostAddressSet in *. lia. }
  destruct Hin as [->|[->| ->]]; by repeat constructor.
Qed.

(** C14: the host state machine implements the enumeration.  From any well-formed
    state, with interrupts masked, event handlers that leave the host's variables
    alone, and a controller that generates frames, completes bus resets and locks
    its PLL, [USB_Host_ProcessNextHostState] returns and has made one step of the
    abstract host, which the accesses it made justify.  A wait counts down only
    with a frame seen, and resumes the state it was set up for; the idle states and
    the one after power-up make no access; the bus is powered when the settling
    time is over; a detected device is taken note of and the bus resumed; each of
    the two reset steps has requested a bus reset and seen it end; the control pipe
    counts as configured only when it was set up for endpoint 0 with a bank of the
    size in use and no pipe was reported without CFGOK; the descriptor and address
    steps have sent exactly their request and seen the SETUP packet go out and the
    status stage end, and the size of the control pipe is byte 7 of what was read;
    the address is written to the controller.  When a wait, a request or a pipe
    configuration fails VBUS is switched off, the controller reset, and the machine
    is unattached with its variables at their initial values. *)
Theorem USB_Host_ProcessNextHostState_refines :
  wp (USB_Host_ProcessNextHostState D) (fun _ s' => exists l,
    trace s' = l ++ trace s0 /\ host_step D l h0 (Host s')) s0.
Proof.
  assert (Hp : at_host s0 [] h0 s0) by done. unfold USB_Host_ProcessNextHostState. rewrite wp_bind.
  eapply host_state; [exact Hp|]. rewrite wp_bind. eapply wp_mono; [|apply host_case_spec]. clear Hp.
  intros [e x] s1 (l1 & h1 & Hp & Hres). cbn [fst] in Hres.
  destruct (Z.eqb_spec e HOST_ENUMERROR_NoError) as [->|He]; cbn [negb].
  - rewrite wp_ret. destruct Hp as [Ht Hh]. exists l1. split; [done|]. rewrite Hh.
    by destruct Hres as [[_ ?]|[? _]].
  - destruct Hres as [[? _]|(_ & Hcause & Hst & Hab)]; [done|]. rewrite wp_bind.
    eapply host_state; [exact Hp|]. rewrite (proj2 (Z.eqb_neq _ _) Hst). cbn [negb when].
    unfold enumeration_failed. rewrite wp_bind. eapply host_stays; [apply stays_Failed|exact Hp|].
    clear Hp. intros l2 s2 Hp. rewrite wp_bind. eapply host_set; [exact Hp|]. clear Hp. intros w s3 Hp.
    change (?a :: ?b :: ?l) with ([a; b] ++ l) in Hp.
    rewrite wp_bind. eapply host_stays; [apply stays_Unattached|exact Hp|]. clear Hp. intros l4 s4 Hp.
    eapply ResetInterface_spec; [exact Hp|]. clear Hp. intros l5 s5 [Ht Hh] Hoff. eexists. split; [exact Ht|].
    rewrite Hh, Hab. eapply (host_failed _ _ _ (l5 ++ l4 ++ [_; _] ++ l2) l1);
      [by rewrite <- !app_assoc|done| |by apply wrote_app_l].
    by apply wrote_app_r, wrote_app_r, wrote_app_l, wrote_here, has_bit_set.
Qed.
End Controller.
