(* ===== verification/HostSim.v ===== *)
(** * The host theorems at work

    A simulated controller with an attached device, and the theorems about host
    mode applied to it. *)
From S2P Require Import Prelude Machine Rely StdDescriptors Descriptors Endpoint UsbController DeviceStandardReq UsbInterrupt Safety Joystick Pipe HostController HostStandardReq HostTask HostSafety HostTransfer HostEnumeration.

(** ** A device that answers with the joystick's device descriptor *)

(** The token the control pipe was last given. *)
Fixpoint last_token (t : list event) : Z :=
  match t with
  | Wr UPCFG0X v :: _ => Z.land v (Z.shiftl 0x03 PTOKEN0)
  | _ :: t => last_token t
  | [] => 0
  end.

(** The number of bytes read since the last SETUP packet. *)
Fixpoint reads_since_setup (t : list event) (n : nat) : nat :=
  match t with
  | Wr UPDATX _ :: _ => n
  | Rd UPDATX _ :: t => reads_since_setup t (S n)
  | _ :: t => reads_since_setup t n
  | [] => n
  end.

Definition device_bytes : bytes := bytes_of_Device DeviceDescriptor.

(** The pipe is ready for whatever token it has; frames keep coming; resets and
    the PLL are immediate; a device is connected. *)
Definition joystick_attached (t : list event) (r : reg) : Z :=
  match r with
  | UPCFG0X => last_token t
  | UPINTX => let k := last_token t in
              if k =? PIPE_TOKEN_IN then bit RXINI
              else if k =? PIPE_TOKEN_OUT then bit TXOUTI else bit TXSTPI
  | UPBCX => match t with
             | Rd UPBCX n :: _ => n
             | Rd UPINTX v :: _ =>
                 if has_bit v TXOUTI then 0
                 else Z.of_nat (length device_bytes - reads_since_setup t 0)
             | _ => Z.of_nat (length device_bytes - reads_since_setup t 0)
             end
  | UPDATX => nth (reads_since_setup t 0) device_bytes 0
  | UPSTAX => bit CFGOK
  | UHINT => Z.lor (bit HSOFI) (bit DCONNI)
  | UHCON => bit SOFEN
  | PLLCSR => bit PLOCK
  | _ => 0
  end.

#[export] Instance attached_host : Env :=
  {| respond := joystick_attached; async s := s; fuel := 1100 |}.
#[export] Instance attached_host_masked : Masked (H := attached_host).
Proof. intros s. reflexivity. Qed.

(** An application that does nothing. *)
#[export] Instance idle_host_app : USB_Host_Application :=
  {| EVENT_USB_Host_HostError _ := ret tt; EVENT_USB_Host_DeviceAttached := ret tt;
     EVENT_USB_Host_DeviceUnattached := ret tt;
     EVENT_USB_Host_DeviceEnumerationFailed _ _ := ret tt;
     EVENT_USB_Host_DeviceEnumerationComplete := ret tt;
     EVENT_USB_Host_StartOfFrame := ret tt |}.
#[export] Instance idle_interrupt_law : Host_Interrupt_Law idle_host_app.
Proof. by split. Qed.
#[export] Instance idle_event_law : Host_Event_Law.
Proof. split; intros; by split. Qed.

Lemma device_bytes_u8 n : is_u8 (nth n device_bytes 0).
Proof.
  assert (Hall : all_bytes device_bytes) by (vm_compute; repeat constructor; done).
  destruct (nth_in_or_default n device_bytes 0) as [Hin| ->]; [|done].
  by eapply List.Forall_forall; [|exact Hin].
Qed.

Lemma attached_controller : host_controller (H := attached_host) 0.
Proof.
  split; cbn [respond attached_host].
  - intros t _. reflexivity.
  - reflexivity.
  - intros t v Hv. cbn [joystick_attached]. by rewrite Hv.
  - intros t. apply device_bytes_u8.
Qed.

Lemma attached_bus : bus_controller (H := attached_host) 0.
Proof. split; [exact attached_controller|reflexivity|intros t _; reflexivity]. Qed.

(** The first request of an enumeration. *)
Definition asking : st := set_USB_ControlRequest descriptor_request reset_state.

Lemma USB_Host_SendControlRequest_returns_witness :
  wp (USB_Host_SendControlRequest (H := attached_host) (Some (replicate 8 0)))
    (fun r s' => exists l, runs l asking s' /\
       control_outcome (USB_HostState (Host asking)) descriptor_request (Some (replicate 8 0)) r l) asking.
Proof.
  apply (USB_Host_SendControlRequest_returns (H := attached_host) 0 asking (Some (replicate 8 0))
           attached_controller).
  - simpl. lia.
  - vm_compute. lia.
  - by repeat constructor.
  - vm_compute. done.
  - split; [by repeat constructor|vm_compute; done].
  - vm_compute. done.
Defined.

(** A host with a device attached, in the middle of an enumeration. *)
Definition enumerating : st := set_Host (set_USB_HostState HOST_STATE_Default initial_host) asking.

Lemma enumerating_ok : host_ok (Host enumerating).
Proof. constructor; vm_compute; try done. by left. Qed.

Lemma zero_buffer8 : buffer_of 8 (replicate 8 0).
Proof. split; [by repeat constructor|done]. Qed.

Lemma USB_Host_ProcessNextHostState_refines_witness :
  wp (USB_Host_ProcessNextHostState (H := attached_host) (replicate 8 0)) (fun _ s' => exists l,
    trace s' = l ++ trace enumerating /\
    host_step (replicate 8 0) l (Host enumerating) (Host s')) enumerating.
Proof.
  apply (USB_Host_ProcessNextHostState_refines (H := attached_host) 0 attached_bus).
  - simpl. lia.
  - exact idle_event_law.
  - exact zero_buffer8.
  - exact enumerating_ok.
Defined.

Lemma host_task_invariant_witness :
  wlp (USB_HostTask (H := host_interrupted attached_host idle_host_app) (replicate 8 0))
    (fun _ s' => host_ok (Host s')) enumerating /\
  host_ok (Host (async (Env := host_interrupted attached_host idle_host_app) enumerating)).
Proof.
  apply (host_task_invariant (E := attached_host)).
  - intros t. apply device_bytes_u8.
  - intros. by apply runs_ret.
  - by apply runs_ret.
  - by apply runs_ret.
  - exact zero_buffer8.
  - exact enumerating_ok.
Defined.

Lemma host_request_safe_witness :
  wlp (USB_Host_SendControlRequest (H := host_interrupted attached_host idle_host_app) (Some (replicate 8 0)))
    (fun r s' => same_object (Some (replicate 8 0)) (snd r) /\ host_ok (Host s')) enumerating.
Proof.
  apply (host_request_safe (E := attached_host)).
  - intros t. apply device_bytes_u8.
  - exact enumerating_ok.
  - vm_compute. done.
  - split; [by repeat constructor|vm_compute; done].
Defined.

(** The task called again and again. *)
Fixpoint host_tasks (n : nat) : M unit :=
  match n with O => ret tt | S n => USB_HostTask (H := attached_host) (replicate 8 0) ;; host_tasks n end.

(** Powered, the host enumerates the joystick: it waits for the device to settle,
    resets it, takes the control pipe size from the descriptor and addresses it. *)
Definition powered : st := set_Host (set_USB_HostState HOST_STATE_Powered initial_host) reset_state.

Example joystick_is_enumerated :
  match host_tasks 1610 powered with
  | Done _ s => USB_HostState (Host s) = HOST_STATE_Addressed /\
                USB_Host_ControlPipeSize (Host s) = FIXED_CONTROL_ENDPOINT_SIZE
  | _ => False
  end.
Proof. vm_compute. done. Qed.

(** Its descriptor is then read whole. *)
Example joystick_descriptor_read :
  match USB_Host_GetDeviceDescriptor (H := attached_host) (replicate 18 0) powered with
  | Done r _ => r = (HOST_SENDCONTROL_Successful, Some device_bytes)
  | _ => False
  end.
Proof. vm_compute. done. Qed.
