(* ===== verification/PipeWait.v ===== *)
(** * Waiting for a pipe, and writing to it

    [Pipe_WaitUntilReady] and the stream [Pipe_Write_Stream_LE] with interrupts
    masked: they return, what was written to the pipe, and what the codes mean. *)
From S2P Require Import Prelude Machine Rely Descriptors Endpoint FrameWait ControlStream EndpointStream UsbInterrupt Safety Pipe HostController HostStandardReq HostTask HostSafety PipeStream HostTransfer.

Definition token_mask : Z := Z.shiftl 0x03 PTOKEN0.
Definition token_of (v : Z) : Z := Z.land v token_mask.

(** Accesses that leave the configuration of the pipe alone. *)
Definition keeps_token (e : event) : Prop :=
  match e with Wr UPNUM _ | Wr UPCFG0X _ => False | _ => True end.

(** Documented behaviour of the pipes of the controller: the frame number changes
    at the latest after [K] repeated readings; the token of a pipe reads back as it
    was written; an OUT bank reported ready has room. *)
Record pipe_controller `{Env} (K : nat) : Prop := {
  pc_frames : forall t, frames_advance UHFNUM t K;
  pc_token : forall l v t, Forall keeps_token l ->
    token_of (respond (l ++ Wr UPCFG0X v :: t) UPCFG0X) = token_of v;
  pc_room : forall t v, has_bit v TXOUTI = true ->
    has_bit (respond (Rd UPINTX v :: t) UPINTX) RWAL = true
}.

(** What a return code says about the accesses [l] of a wait that began after the
    accesses [t] in host state [h]. *)
Definition pipe_wait_result `{Env} (h : Z) (t l : list event) (c : Pipe_WaitUntilReady_ErrorCodes_t) : Prop :=
  match c with
  | PIPE_READYWAIT_NoError => exists v cfg l',
      l = Rd UPINTX v :: Rd UPCFG0X cfg :: l' /\ cfg = respond (l' ++ t) UPCFG0X /\
      has_bit v (if token_of cfg =? PIPE_TOKEN_IN then RXINI else TXOUTI) = true
  | PIPE_READYWAIT_PipeStalled => seen UPINTX RXSTALLI l
  | PIPE_READYWAIT_DeviceDisconnected => h = HOST_STATE_Unattached
  | PIPE_READYWAIT_Timeout =>
      frame_changes (frame_readings UHFNUM l) = S (Z.to_nat USB_STREAM_TIMEOUT_MS)
  end.

(** Accesses that only read registers other than the data register. *)
Definition only_reads (l : list event) : Prop :=
  Forall (fun e => match e with Rd UPDATX _ => False | Rd _ _ => True | _ => False end) l.

Lemma only_reads_silent l : only_reads l -> silent l.
Proof.
  intros Hl. induction l as [|e l IH]; [by split|]. inversion_clear Hl as [|? ? He Hl']. destruct (IH Hl') as [Hw Hr].
  destruct e as [[]| | | | | |]; try done; split; cbn; done.
Qed.

Lemma only_reads_token l : only_reads l -> Forall keeps_token l.
Proof. intros Hl. eapply List.Forall_impl; [|exact Hl]. by intros [[]| | | | | |]. Qed.

Section PipeWait.
Context `{Masked} (K : nat).
Hypothesis pc : pipe_controller K.

Lemma Pipe_WaitUntilReady_spec s0 :
  (101 * (K + 1) < fuel)%nat ->
  wp Pipe_WaitUntilReady (fun c s' => exists l, runs l s0 s' /\ only_reads l /\
    pipe_wait_result (USB_HostState (Host s0)) (trace s0) l c) s0.
Proof.
  intros Hfuel. pose proof (pc_frames _ pc (trace s0)) as frames.
  unfold Pipe_WaitUntilReady, USB_Host_GetFrameNumber. rewrite wp_bind.
  eapply run_rd; [apply runs_refl|]. intros f0 s1 Hr1 _.
  apply (wp_loop (fun x n s => exists l, runs l s0 s /\ only_reads l /\ waiting UHFNUM K x n l))
    with (n := (100 * (K + 1) + K)%nat); [|lia|].
  2: { eexists. split; [exact Hr1|]. split; [by repeat constructor|apply waiting_start]. }
  intros [TimeoutMSRem Prev] n s2 (l & Hr2 & Hl & Hw). unfold Pipe_GetPipeToken. rewrite !wp_bind.
  eapply run_rd; [exact Hr2|]. intros cfg s3 Hr3 Hcfg. rewrite wp_ret, wp_bind.
  assert (Hready : wp (if Z.land cfg (Z.shiftl 3 PTOKEN0) =? PIPE_TOKEN_IN then Pipe_IsINReceived else Pipe_IsOUTReady)
            (fun b s4 => exists v, runs (Rd UPINTX v :: Rd UPCFG0X cfg :: l) s0 s4 /\
               b = has_bit v (if token_of cfg =? PIPE_TOKEN_IN then RXINI else TXOUTI)) s3).
  { unfold token_of, token_mask. destruct (_ =? _); (eapply run_test; [exact Hr3|]); intros v s4 Hr4 _; by exists v. }
  eapply wp_mono; [|exact Hready]. intros b s4 (v & Hr4 & ->).
  assert (Hl4 : only_reads (Rd UPINTX v :: Rd UPCFG0X cfg :: l)) by (by repeat constructor).
  destruct (has_bit v _) eqn:Hb.
  { rewrite wp_ret. eexists. split; [exact Hr4|]. split; [done|]. by eexists _, _, _. }
  rewrite wp_bind. eapply run_test; [exact Hr4|]. intros w s5 Hr5 _.
  assert (Hl5 : only_reads (Rd UPINTX w :: Rd UPINTX v :: Rd UPCFG0X cfg :: l)) by (by constructor).
  destruct (has_bit w RXSTALLI) eqn:Hst.
  { rewrite wp_ret. eexists. split; [exact Hr5|]. split; [done|]. exists w. split; [apply elem_of_cons; by left|done]. }
  rewrite wp_bind. eapply run_volatile; [exact Hr5|]. rewrite (runs_Host s0 _ _ Hr5).
  destruct (Z.eqb_spec (USB_HostState (Host s0)) HOST_STATE_Unattached) as [|_].
  { rewrite wp_ret. by eexists. }
  rewrite wp_bind. eapply run_rd; [exact Hr5|]. intros f s6 Hr6 Hf. rewrite wp_ret.
  pose proof (waiting_next UHFNUM _ K frames PIPE_READYWAIT_Timeout _ _ _ _ _ Hf Hw) as Hnext.
  assert (Hl6 : only_reads (Rd UHFNUM f :: Rd UPINTX w :: Rd UPINTX v :: Rd UPCFG0X cfg :: l)) by (by constructor).
  destruct (_ =? Prev); [|destruct (_ =? 0)].
  - destruct Hnext as (n' & ? & ?). exists n'. split; [done|]. by eexists.
  - destruct Hnext as [_ Hc]. by eexists.
  - destruct Hnext as (n' & ? & ?). exists n'. split; [done|]. by eexists.
Qed.

(** ** Writing a stream *)

Lemma token_OUT v : token_of (u8 (Z.lor (Z.land v (Z.lnot token_mask)) PIPE_TOKEN_OUT)) = PIPE_TOKEN_OUT.
Proof.
  unfold token_of. change token_mask with 0x30. bitwise.
  destruct (Z.ltb_spec i 8); cbn [andb].
  - assert (i = 0 \/ i = 1 \/ i = 2 \/ i = 3 \/ i = 4 \/ i = 5 \/ i = 6 \/ i = 7) as Hcases by lia.
    by repeat (destruct Hcases as [->|Hcases]; [cbn; rewrite ?andb_false_r, ?andb_true_r|]); subst;
      cbn; rewrite ?andb_false_r, ?andb_true_r.
  - symmetry. by apply (fits_testbit 8).
Qed.

(** What was done since [s0]: the token was set to OUT by a write of [v], and the
    accesses [l] after it wrote the first [p] bytes of [B]. *)
Definition writing (s0 : st) (B : bytes) (p : Z) (l : list event) (s : st) : Prop :=
  exists v l1, runs (l ++ Wr UPCFG0X v :: l1) s0 s /\ silent l1 /\ token_of v = PIPE_TOKEN_OUT /\
    Forall keeps_token l /\ pipe_writes l = take (Z.to_nat p) B.

(** The bank was just seen ready. *)
Definition just_ready (l : list event) : Prop :=
  exists w l', l = Rd UPINTX w :: l' /\ has_bit w TXOUTI = true.

Lemma writing_silent s0 B p l l' s s' :
  writing s0 B p l s -> runs l' s s' -> silent l' -> Forall keeps_token l' -> writing s0 B p (l' ++ l) s'.
Proof.
  intros (v & l1 & Hr & Hs1 & Hv & Hk & Hw) Hr' [Hw' _] Hk'. exists v, l1.
  rewrite <- app_assoc. split; [by eapply runs_trans|]. do 2 (split; [done|]).
  split; [by apply Forall_app|]. by rewrite pipe_writes_app, Hw, Hw', app_nil_r.
Qed.

(** Why a stream ended before its time. *)
Definition stream_failure (h : Z) (c : Pipe_Stream_RW_ErrorCodes_t) (l : list event) : Prop :=
  match c with
  | PIPE_RWSTREAM_NoError | PIPE_RWSTREAM_IncompleteTransfer => False
  | PIPE_RWSTREAM_PipeStalled => seen UPINTX RXSTALLI l
  | PIPE_RWSTREAM_DeviceDisconnected => h = HOST_STATE_Unattached
  | PIPE_RWSTREAM_Timeout => exists l1 l2 l3, l = l1 ++ l2 ++ l3 /\
      frame_changes (frame_readings UHFNUM l2) = S (Z.to_nat USB_STREAM_TIMEOUT_MS)
  end.

(** A wait in the middle of a stream. *)
Lemma wait_OUT s0 B p l s :
  (101 * (K + 1) < fuel)%nat -> writing s0 B p l s ->
  wp Pipe_WaitUntilReady (fun c s' => exists l', writing s0 B p (l' ++ l) s' /\
    match pipe_ready_error c with
    | None => just_ready (l' ++ l)
    | Some e => forall l3, stream_failure (USB_HostState (Host s0)) e (l' ++ l3)
    end) s.
Proof.
  intros Hfuel Hw. eapply wp_mono; [|by apply Pipe_WaitUntilReady_spec].
  intros c s' (l' & Hr' & Hl' & Hres). exists l'.
  split; [by eapply writing_silent; [..|apply only_reads_silent|apply only_reads_token]|].
  destruct Hw as (v & l1 & Hr & _ & Hv & Hk & _). rewrite (runs_Host s0 _ _ Hr) in Hres.
  destruct c; cbn in *.
  - destruct Hres as (w & cfg & l2 & -> & -> & Hb). inversion_clear Hl' as [|? ? _ Hl2].
    inversion_clear Hl2 as [|? ? _ Hl3].
    assert (Htok : token_of (respond (l2 ++ trace s) UPCFG0X) = PIPE_TOKEN_OUT).
    { rewrite Hr. cbn [trace set_trace]. rewrite <- app_assoc. cbn [app].
      rewrite (app_assoc l2 l), (pc_token _ pc); [done|]. apply Forall_app. split; [by apply only_reads_token|done]. }
    rewrite Htok in Hb. by eexists _, _.
  - intros l3. by apply seen_app_l.
  - done.
  - intros l3. by exists [], l', l3.
Qed.

(** The outcome of writing [Length] bytes of [B] with the accesses [l]: all of
    them, or a prefix and the cause. *)
Definition write_outcome (h : Z) (B : bytes) (Length : Z) (c : Pipe_Stream_RW_ErrorCodes_t)
    (l : list event) : Prop :=
  match c with
  | PIPE_RWSTREAM_NoError => pipe_writes l = take (Z.to_nat Length) B
  | _ => (exists p, 0 <= p <= Length /\ pipe_writes l = take (Z.to_nat p) B) /\ stream_failure h c l
  end.

Lemma writing_writes s0 B p l s :
  writing s0 B p l s -> exists l', runs (l ++ l') s0 s /\ pipe_writes (l ++ l') = take (Z.to_nat p) B.
Proof.
  intros (v & l1 & Hr & [Hw1 _] & _ & _ & Hw). exists (Wr UPCFG0X v :: l1). split; [done|].
  rewrite pipe_writes_app, Hw. cbn. by rewrite Hw1.
Qed.

(** One byte. *)
Lemma writing_byte s0 B p l s b :
  writing s0 B p l s -> all_bytes B -> 0 <= p -> load_byte B p = Some b ->
  wp (Pipe_Write_8 b) (fun _ s' => writing s0 B (p + 1) (Wr UPDATX b :: l) s') s.
Proof.
  intros (v & l1 & Hr & Hs1 & Hv & Hk & Hw) Hall Hp Hb. unfold Pipe_Write_8. eapply run_wr; [exact Hr|].
  intros s' Hr'. unfold load_byte in Hb. destruct (Z.leb_spec 0 p); [|done].
  rewrite (wrap_id 8) in Hr' by (by eapply (proj1 (Forall_lookup _ _) Hall)).
  exists v, l1. split; [done|]. do 2 (split; [done|]). split; [by constructor|]. cbn. rewrite Hw.
  rewrite Z2Nat.inj_add by lia. change (Z.to_nat 1) with 1%nat. rewrite Nat.add_1_r. by rewrite (take_S_r _ _ _ Hb).
Qed.

Lemma write_loop_spec s0 B Length s l :
  all_bytes B -> is_u16 Length -> Length <= Z.of_nat (length B) ->
  (101 * (K + 1) < fuel)%nat -> (2 * Z.to_nat Length < fuel)%nat ->
  writing s0 B 0 l s -> just_ready l ->
  wp (pipe_stream_loop LE_stream Pipe_ClearOUT (ret tt) (fun (_ : unit) p => pipe_out (load_byte B) p) tt
        0 Length None)
    (fun r s' => exists l', runs l' s0 s' /\
       write_outcome (USB_HostState (Host s0)) B Length (fst (fst r)) l') s.
Proof.
  intros Hall HL Hfit Hf1 Hf2 Hw Hrd.
  apply (wp_loop (fun x n s => let '(_, p, len, k) := x in exists l (ready : bool),
           writing s0 B p l s /\ (ready = true -> just_ready l) /\ p + len = Length /\ 0 <= p /\ 0 <= len /\
           n = (2 * Z.to_nat len + if ready then 0 else 1)%nat))
    with (n := (2 * Z.to_nat Length)%nat); [|done|].
  2: { destruct HL. exists l, true. split_and!; try done; lia. }
  clear s l Hw Hrd. intros [[[[] p] len] k] n s (l & ready & Hw & Hready & Hsum & Hp & Hlen & ->).
  destruct (Z.eqb_spec len 0) as [->|Hne].
  { rewrite wp_ret. destruct (writing_writes _ _ _ _ _ Hw) as (l' & Hr & Hwr). eexists. split; [exact Hr|].
    cbn. rewrite Hwr. do 2 f_equal. lia. }
  pose proof Hw as (v & l1 & Hr & Hrest). rewrite wp_bind. unfold Pipe_IsReadWriteAllowed.
  eapply run_test; [exact Hr|]. intros w s1 Hr1 Hwv.
  assert (Hw1 : writing s0 B p (Rd UPINTX w :: l) s1).
  { destruct Hrest as (? & ? & ? & ?). exists v, l1. split_and!; try done. by constructor. }
  destruct (has_bit w RWAL) eqn:Hrw; cbn [negb].
  - rewrite wp_bind. unfold pipe_out. destruct (load_byte B p) as [b|] eqn:Hb.
    2: { unfold load_byte in Hb. destruct (Z.leb_spec 0 p); [|lia]. apply lookup_ge_None in Hb. lia. }
    eapply wp_mono; [|by apply (writing_byte s0 B p _ s1 b Hw1)]. intros [] s2 Hw2. rewrite wp_ret.
    exists (2 * Z.to_nat (len - 1) + 1)%nat. split; [destruct ready; lia|].
    eexists _, false. cbn [TEMPLATE_BUFFER_MOVE LE_stream]. destruct HL.
    rewrite (wrap_id 16 (len - 1)) by (unfold fits; lia). split_and!; try done; lia.
  - assert (ready = false) as ->.
    { destruct ready; [|done]. destruct (Hready eq_refl) as (u & l' & -> & Hu). cbn [app] in Hwv.
      rewrite Hwv, (pc_room _ pc _ _ Hu) in Hrw. done. }
    rewrite wp_bind. unfold Pipe_ClearOUT. destruct Hw1 as (v' & l1' & Hr1' & Hrest1).
    eapply run_clear; [exact Hr1'|]. intros x s2 Hr2 _. rewrite !wp_bind, wp_ret, wp_bind.
    assert (Hw2 : writing s0 B p (Wr UPINTX (clear_bits x (Z.lor (bit TXOUTI) (bit FIFOCON))) :: Rd UPINTX x ::
                                  Rd UPINTX w :: l) s2).
    { destruct Hrest1 as (? & ? & Hk & ?). exists v', l1'. split_and!; try done. by do 2 (constructor; [done|]). }
    eapply wp_mono; [|exact (wait_OUT s0 B p _ s2 Hf1 Hw2)]. intros c s3 (l3 & Hw3 & Hres).
    destruct (pipe_ready_error c) as [e|] eqn:He; rewrite wp_ret.
    + destruct (writing_writes _ _ _ _ _ Hw3) as (l4 & Hr4 & Hwr). eexists. split; [exact Hr4|].
      unfold write_outcome. cbn [fst]. specialize (Hres (((Wr UPINTX (clear_bits x (Z.lor (bit TXOUTI) (bit FIFOCON)))
        :: Rd UPINTX x :: Rd UPINTX w :: l)) ++ l4)). rewrite app_assoc in Hres.
      assert (He' : e <> PIPE_RWSTREAM_NoError) by (by destruct c; cbn in He; simplify_eq).
      destruct e; try done; (split; [exists p; split; [lia|done]|done]).
    + exists (2 * Z.to_nat len)%nat. split; [lia|]. eexists _, true. split_and!; try done; lia.
Qed.

Lemma Write_Stream_spec s0 B Length :
  all_bytes B -> is_u16 Length -> Length <= Z.of_nat (length B) ->
  (101 * (K + 1) < fuel)%nat -> (2 * Z.to_nat Length < fuel)%nat ->
  wp (Pipe_Write_Stream_LE B Length None) (fun r s' => exists l, runs l s0 s' /\
    write_outcome (USB_HostState (Host s0)) B Length (fst r) l) s0.
Proof.
  intros Hall HL Hfit Hf1 Hf2. unfold Pipe_Write_Stream_LE, pipe_write_stream. rewrite wp_bind.
  apply (wp_mono _ (fun r s' => exists l, runs l s0 s' /\
           write_outcome (USB_HostState (Host s0)) B Length (fst (fst r)) l)).
  { intros [[c n] x] s' Hres. by rewrite wp_ret. }
  unfold Template_Pipe_RW, Pipe_SetPipeToken. rewrite !wp_bind.
  eapply run_rd; [apply runs_refl|]. intros cfg s1 Hr1 _. eapply run_wr; [exact Hr1|]. intros s2 Hr2.
  assert (Hw : writing s0 B 0 [] s2).
  { eexists _, _. split; [exact Hr2|]. split_and!; try done. by apply token_OUT. }
  rewrite wp_bind. eapply wp_mono; [|exact (wait_OUT s0 B 0 _ s2 Hf1 Hw)].
  intros c s3 (l3 & Hw3 & Hres). destruct (pipe_ready_error c) as [e|] eqn:He.
  - rewrite wp_ret. destruct (writing_writes _ _ _ _ _ Hw3) as (l4 & Hr4 & Hwr). eexists. split; [exact Hr4|].
    unfold write_outcome. cbn [fst]. specialize (Hres l4). rewrite app_nil_r.
    assert (e <> PIPE_RWSTREAM_NoError) by (by destruct c; cbn in He; simplify_eq). rewrite app_nil_r in Hwr.
    destruct HL. destruct e; try done; (split; [exists 0; split; [lia|done]|done]).
  - by eapply write_loop_spec.
Qed.
End PipeWait.
