(* ===== verification/HostClass.v ===== *)
(** * What the class drivers of a host share

    Code that the drivers in [LUFA/Drivers/USB/Class/Host] have in common: reading
    and searching the configuration descriptor of a device, the pipes for the
    endpoints found, and the codes of their functions. *)
From S2P Require Import Prelude Machine Rely StdDescriptors Descriptors ConfigDescriptors Endpoint ControlStream UsbController DeviceStandardReq EndpointStream UsbInterrupt Safety Pipe HostController HostStandardReq HostTask HostSafety ClassDriver PipeStream.

Definition ENDPOINT_DIR_MASK := 0x80.
Definition EP_TYPE_MASK := 0x03.

(** ** The configuration descriptor *)

Section HostClass.
Context `{Env}.

(** The object a configuration descriptor is in, and reads from it. *)
Context (Data : bytes).
Definition field8 (p offset : Z) : M Z :=
  match load_byte Data (p + offset) with Some b => ret b | None => undefined end.
Definition field16 (p offset : Z) : M Z :=
  b0 ← field8 p offset; b1 ← field8 p (offset + 1); ret (le_val [b0; b1]).

(** Offsets in [USB_Descriptor_Interface_t] and [USB_Descriptor_Endpoint_t]. *)
Definition hdr_Type_offset := 1.
Definition if_InterfaceNumber_offset := 2.
Definition if_AlternateSetting_offset := 3.
Definition if_Class_offset := 5.
Definition if_SubClass_offset := 6.
Definition if_Protocol_offset := 7.
Definition ep_EndpointAddress_offset := 2.
Definition ep_Attributes_offset := 3.
Definition ep_EndpointSize_offset := 4.

(** [USB_GetNextDescriptorComp] with a comparator that accesses registers; the
    state of the walk is the bytes remaining and the location. *)
Definition next_descriptor_comp (Comparator : Z -> M DSearch_Return_ErrorCodes_t) (walk : Z * Z)
    : M (DSearch_Comp_Return_ErrorCodes_t * (Z * Z)) :=
  loop fuel (fun '(BytesRem, CurrConfigLoc) =>
    if BytesRem =? 0 then
      ret (inr (DESCRIPTOR_SEARCH_COMP_EndOfDescriptor, (BytesRem, CurrConfigLoc)))
    else
      match USB_GetNextDescriptor Data BytesRem CurrConfigLoc with
      | None => undefined
      | Some (BytesRem', CurrConfigLoc') =>
          r ← Comparator CurrConfigLoc';
          ret (match r with
               | DESCRIPTOR_SEARCH_Found =>
                   inr (DESCRIPTOR_SEARCH_COMP_Found, (BytesRem', CurrConfigLoc'))
               | DESCRIPTOR_SEARCH_Fail =>
                   inr (DESCRIPTOR_SEARCH_COMP_Fail, (BytesRem, CurrConfigLoc))
               | DESCRIPTOR_SEARCH_NotFound => inl (BytesRem', CurrConfigLoc')
               end)
      end) walk.

Definition found (r : DSearch_Comp_Return_ErrorCodes_t) : bool :=
  match r with DESCRIPTOR_SEARCH_COMP_Found => true | _ => false end.

(** A pipe table entry for an endpoint found. *)
Definition pipe_for (Type_ p : Z) (e : USB_Pipe_Table_t) : M USB_Pipe_Table_t :=
  size ← field16 p ep_EndpointSize_offset;
  a ← field8 p ep_EndpointAddress_offset;
  ret {| pipe_Address := pipe_Address e; pipe_Size := size; pipe_EndpointAddress := a;
         pipe_Type := Type_; pipe_Banks := pipe_Banks e |}.

(** The comparator routines have one of two shapes: an interface of a class,
    subclass and protocol ... *)
Definition next_interface_of (Class_ SubClass_ Protocol_ : Z) (CurrentDescriptor : Z)
    : M DSearch_Return_ErrorCodes_t :=
  t ← field8 CurrentDescriptor hdr_Type_offset;
  if t =? DTYPE_Interface then
    c ← field8 CurrentDescriptor if_Class_offset;
    if negb (c =? Class_) then ret DESCRIPTOR_SEARCH_NotFound
    else
      sub ← field8 CurrentDescriptor if_SubClass_offset;
      if negb (sub =? SubClass_) then ret DESCRIPTOR_SEARCH_NotFound
      else
        p ← field8 CurrentDescriptor if_Protocol_offset;
        ret (if p =? Protocol_ then DESCRIPTOR_SEARCH_Found else DESCRIPTOR_SEARCH_NotFound)
  else ret DESCRIPTOR_SEARCH_NotFound.

(** ... or an endpoint of the current interface whose type is accepted and, in most
    drivers, to which no pipe is bound yet. *)
Definition next_endpoint_of (EndpointType : Z -> bool) (unbound : bool) (CurrentDescriptor : Z)
    : M DSearch_Return_ErrorCodes_t :=
  t ← field8 CurrentDescriptor hdr_Type_offset;
  if t =? DTYPE_Endpoint then
    attributes ← field8 CurrentDescriptor ep_Attributes_offset;
    if negb (EndpointType (Z.land attributes EP_TYPE_MASK)) then ret DESCRIPTOR_SEARCH_NotFound
    else if unbound then
      a ← field8 CurrentDescriptor ep_EndpointAddress_offset;
      bound ← Pipe_IsEndpointBound a;
      ret (if negb bound then DESCRIPTOR_SEARCH_Found else DESCRIPTOR_SEARCH_NotFound)
    else ret DESCRIPTOR_SEARCH_Found
  else ret (if t =? DTYPE_Interface then DESCRIPTOR_SEARCH_Fail else DESCRIPTOR_SEARCH_NotFound).

Definition bulk_type (t : Z) : bool := t =? EP_TYPE_BULK.
Definition bulk_or_interrupt_type (t : Z) : bool := (t =? EP_TYPE_BULK) || (t =? EP_TYPE_INTERRUPT).

(** ** The search for an interface

    The local pointers of a [ConfigurePipes] function: locations in [Data], [None]
    for [NULL]. *)
Record endpoint_search := {
  es_IN : option Z;
  es_OUT : option Z;
  es_Events : option Z;
  es_Interface : option Z
}.

Definition nothing_found : endpoint_search :=
  {| es_IN := None; es_OUT := None; es_Events := None; es_Interface := None |}.
Definition new_interface (p : Z) : endpoint_search :=
  {| es_IN := None; es_OUT := None; es_Events := None; es_Interface := Some p |}.

(** The conditions of the loops. *)
Definition both_found (v : endpoint_search) : bool := bool_decide (is_Some (es_IN v) /\ is_Some (es_OUT v)).
Definition all_found (v : endpoint_search) : bool := both_found v && bool_decide (is_Some (es_Events v)).

Definition endpoint_found (p : Z) (IN events : bool) (v : endpoint_search) : endpoint_search :=
  {| es_IN := if IN && negb events then Some p else es_IN v;
     es_OUT := if negb IN then Some p else es_OUT v;
     es_Events := if IN && events then Some p else es_Events v;
     es_Interface := es_Interface v |}.

(** An endpoint found is the one for its direction; in drivers with an interrupt
    endpoint, that one is told from the data endpoint by its type. *)
Definition record_data (p : Z) (v : endpoint_search) : M endpoint_search :=
  a ← field8 p ep_EndpointAddress_offset;
  ret (endpoint_found p (Z.land a ENDPOINT_DIR_MASK =? ENDPOINT_DIR_IN) false v).

Definition record_data_or_events (p : Z) (v : endpoint_search) : M endpoint_search :=
  a ← field8 p ep_EndpointAddress_offset;
  if Z.land a ENDPOINT_DIR_MASK =? ENDPOINT_DIR_IN then
    attributes ← field8 p ep_Attributes_offset;
    ret (endpoint_found p true (Z.land attributes EP_TYPE_MASK =? EP_TYPE_INTERRUPT) v)
  else ret (endpoint_found p false false v).

(** One round of the loop; [next] is what it does when the interface has no further
    endpoint, [None] for an error return. *)
Definition endpoint_search_round (complete : endpoint_search -> bool)
    (Endpoint : Z -> M DSearch_Return_ErrorCodes_t)
    (next : Z * Z -> endpoint_search -> M (option ((Z * Z) * endpoint_search)))
    (record : Z -> endpoint_search -> M endpoint_search)
    (x : (Z * Z) * endpoint_search) : M ((Z * Z) * endpoint_search + option endpoint_search) :=
  let '(walk, v) := x in
  if complete v then ret (inr (Some v))
  else
    '(ok, walk) ← (match es_Interface v with
                   | None => ret (false, walk)
                   | Some _ => '(r, walk) ← next_descriptor_comp Endpoint walk; ret (found r, walk)
                   end);
    if negb ok then
      r ← next walk v;
      ret (match r with Some x => inl x | None => inr None end)
    else
      v ← record (snd walk) v;
      ret (inl (walk, v)).

(** The next interface, of which nothing is known yet. *)
Definition to_next_interface (Interface : Z -> M DSearch_Return_ErrorCodes_t) (walk : Z * Z)
    (_ : endpoint_search) : M (option ((Z * Z) * endpoint_search)) :=
  '(r, walk) ← next_descriptor_comp Interface walk;
  ret (if negb (found r) then None else Some (walk, new_interface (snd walk))).

(** After the interrupt endpoint of the control interface come the endpoints of a
    data interface (CDC and RNDIS). *)
Definition to_control_or_data (Control_ Data_ : Z -> M DSearch_Return_ErrorCodes_t) (walk : Z * Z)
    (v : endpoint_search) : M (option ((Z * Z) * endpoint_search)) :=
  match es_Events v with
  | Some _ =>
      '(r, walk) ← next_descriptor_comp Data_ walk;
      ret (if negb (found r) then None
           else Some (walk, {| es_IN := None; es_OUT := None; es_Events := es_Events v;
                               es_Interface := es_Interface v |}))
  | None =>
      '(r, walk) ← next_descriptor_comp Control_ walk;
      ret (if negb (found r) then None
           else Some (walk, {| es_IN := es_IN v; es_OUT := es_OUT v; es_Events := None;
                               es_Interface := Some (snd walk) |}))
  end.

Definition search_endpoints complete Endpoint next record (ConfigDescriptorSize : Z) (v : endpoint_search)
    : M (option endpoint_search) :=
  loop fuel (endpoint_search_round complete Endpoint next record) ((ConfigDescriptorSize, 0), v).

(** The search of the drivers with two data endpoints. *)
Definition search_data_endpoints Endpoint Interface (ConfigDescriptorSize : Z) : M (option endpoint_search) :=
  search_endpoints both_found Endpoint (to_next_interface Interface) record_data ConfigDescriptorSize nothing_found.

(** Pipes are configured one after the other; the first failure ends it. *)
Fixpoint configure_pipes (l : list USB_Pipe_Table_t) : M bool :=
  match l with
  | [] => ret true
  | e :: l =>
      ok ← Pipe_ConfigurePipeTable [e];
      if negb ok then ret false else configure_pipes l
  end.
End HostClass.

(** ** Codes and requests *)

Definition pipe_ready_code (c : Pipe_WaitUntilReady_ErrorCodes_t) : Z :=
  match c with
  | PIPE_READYWAIT_NoError => 0
  | PIPE_READYWAIT_PipeStalled => 1
  | PIPE_READYWAIT_DeviceDisconnected => 2
  | PIPE_READYWAIT_Timeout => 3
  end.

(** The values of the codes these functions return as [uint8_t]. *)
Definition pipe_stream_code (c : Pipe_Stream_RW_ErrorCodes_t) : Z :=
  match c with
  | PIPE_RWSTREAM_NoError => 0
  | PIPE_RWSTREAM_PipeStalled => 1
  | PIPE_RWSTREAM_DeviceDisconnected => 2
  | PIPE_RWSTREAM_Timeout => 3
  | PIPE_RWSTREAM_IncompleteTransfer => 4
  end.

Definition class_request_out : Z := Z.lor (Z.lor REQDIR_HOSTTODEVICE REQTYPE_CLASS) REQREC_INTERFACE.
Definition class_request_in : Z := Z.lor (Z.lor REQDIR_DEVICETOHOST REQTYPE_CLASS) REQREC_INTERFACE.

(** ** Waiting for data

    The mass storage and still image drivers wait for an IN packet and watch both
    pipes for a stall. *)

Section WaitForData.
Context `{Env}.

(** [if (Pipe_IsStalled())] on the pipe selected. *)
Definition clear_if_stalled : M bool :=
  stalled ← Pipe_IsStalled;
  when stalled (a ← Pipe_GetBoundEndpointAddress; USB_Host_ClearEndpointStall a ;; ret tt) ;;
  ret stalled.

(** The two pipes are watched in turn; [inr] ends the wait. *)
Definition wait_data_round (IN OUT : Z) (x : Z * Z)
    : M (Z * Z + Pipe_Stream_RW_ErrorCodes_t) :=
  let '(TimeoutMSRem, PreviousFrameNumber) := x in
  received ← Pipe_IsINReceived;
  if (received : bool) then ret (inr PIPE_RWSTREAM_NoError)
  else
    CurrentFrameNumber ← USB_Host_GetFrameNumber;
    if negb (CurrentFrameNumber =? PreviousFrameNumber) && (TimeoutMSRem =? 0)
    then ret (inr PIPE_RWSTREAM_Timeout)
    else
      let x := if CurrentFrameNumber =? PreviousFrameNumber
               then (TimeoutMSRem, PreviousFrameNumber)
               else (u16 (TimeoutMSRem - 1), CurrentFrameNumber) in
      Pipe_Freeze ;;
      Pipe_SelectPipe OUT ;;
      Pipe_Unfreeze ;;
      stalled ← clear_if_stalled;
      if (stalled : bool) then ret (inr PIPE_RWSTREAM_PipeStalled)
      else
        Pipe_Freeze ;;
        Pipe_SelectPipe IN ;;
        Pipe_Unfreeze ;;
        stalled ← clear_if_stalled;
        if (stalled : bool) then ret (inr PIPE_RWSTREAM_PipeStalled)
        else
          state ← get_HostState;
          ret (if state =? HOST_STATE_Unattached then inr PIPE_RWSTREAM_DeviceDisconnected else inl x).
End WaitForData.

(** ** Transfers over a pair of data pipes

    The CDC, printer and Android accessory drivers have the same code. *)

Section HostBulk.
Context `{Env}.

(** [(USB_HostState != HOST_STATE_Configured) || !(State.IsActive)] *)
Definition host_offline (IsActive : bool) : M bool :=
  h ← get_HostState;
  ret (negb (h =? HOST_STATE_Configured) || negb IsActive).

Definition unless_host_offline {A} (IsActive : bool) (code : A) (m : M A) : M A :=
  offline ← host_offline IsActive;
  if (offline : bool) then ret code else m.

Definition pipe_send_data (OUT : Z) (Buffer : bytes) (Length : Z) : M Z :=
  Pipe_SelectPipe OUT ;;
  Pipe_Unfreeze ;;
  '(ErrorCode, _) ← Pipe_Write_Stream_LE Buffer Length None;
  Pipe_Freeze ;;
  ret (pipe_stream_code ErrorCode).

Definition pipe_send_string (OUT : Z) (String : bytes) : M Z :=
  match strlen String with
  | Some n => pipe_send_data OUT String (u16 n)
  | None => undefined
  end.

Definition pipe_send_byte (OUT Data : Z) : M Z :=
  Pipe_SelectPipe OUT ;;
  Pipe_Unfreeze ;;
  allowed ← Pipe_IsReadWriteAllowed;
  ErrorCode ← (if negb allowed then Pipe_ClearOUT ;; Pipe_WaitUntilReady else ret PIPE_READYWAIT_NoError);
  match ErrorCode with
  | PIPE_READYWAIT_NoError => Pipe_Write_8 Data ;; Pipe_Freeze ;; ret 0
  | _ => ret (pipe_ready_code ErrorCode)
  end.

Definition pipe_flush (OUT : Z) : M Z :=
  Pipe_SelectPipe OUT ;;
  Pipe_Unfreeze ;;
  n ← Pipe_BytesInPipe;
  if n =? 0 then ret (pipe_ready_code PIPE_READYWAIT_NoError)
  else
    allowed ← Pipe_IsReadWriteAllowed;
    let BankFull := negb allowed in
    Pipe_ClearOUT ;;
    if BankFull then
      ErrorCode ← Pipe_WaitUntilReady;
      match ErrorCode with
      | PIPE_READYWAIT_NoError => Pipe_ClearOUT ;; Pipe_Freeze ;; ret (pipe_ready_code PIPE_READYWAIT_NoError)
      | _ => ret (pipe_ready_code ErrorCode)
      end
    else Pipe_Freeze ;; ret (pipe_ready_code PIPE_READYWAIT_NoError).

Definition pipe_bytes_received (IN : Z) : M Z :=
  Pipe_SelectPipe IN ;;
  Pipe_Unfreeze ;;
  received ← Pipe_IsINReceived;
  if (received : bool) then
    n ← Pipe_BytesInPipe;
    if n =? 0 then Pipe_ClearIN ;; Pipe_Freeze ;; ret 0
    else Pipe_Freeze ;; Pipe_BytesInPipe
  else Pipe_Freeze ;; ret 0.

(** The byte, or -1. *)
Definition pipe_receive_byte (IN : Z) : M Z :=
  Pipe_SelectPipe IN ;;
  Pipe_Unfreeze ;;
  received ← Pipe_IsINReceived;
  ReceivedByte ← (if (received : bool) then
                    n ← Pipe_BytesInPipe;
                    b ← (if negb (n =? 0) then Pipe_Read_8 else ret (-1));
                    n ← Pipe_BytesInPipe;
                    when (n =? 0) Pipe_ClearIN ;;
                    ret b
                  else ret (-1));
  Pipe_Freeze ;;
  ret ReceivedByte.
End HostBulk.
