(* ===== verification/HostSearch.v ===== *)
(** * Searching a configuration descriptor for an interface

    The search of the host class drivers that need a pair of data endpoints, against
    a reference definition on the list of descriptors. *)
From S2P Require Import Prelude Machine Rely StdDescriptors Descriptors ConfigDescriptors Endpoint Pipe HostController HostStandardReq PipeStream HostClass.

(** ** The reference

    The first interface of the wanted kind that has, before the next interface, a
    wanted endpoint for each direction; of several for one direction the last one
    before the pair is complete. *)
Definition endpoint_is_IN (d : bytes) : bool :=
  Z.land (default 0 (d !! 2%nat)) ENDPOINT_DIR_MASK =? ENDPOINT_DIR_IN.

Section Reference.
Context (interface endpoint : bytes -> bool).

Fixpoint first_with_both (ds : list bytes) (current IN OUT : option bytes)
    : option (bytes * bytes * bytes) :=
  match ds with
  | [] => None
  | d :: ds =>
      if type_of d =? DTYPE_Interface then
        first_with_both ds (if interface d then Some d else None) None None
      else
        match current with
        | Some i =>
            if (type_of d =? DTYPE_Endpoint) && endpoint d then
              let IN := if endpoint_is_IN d then Some d else IN in
              let OUT := if endpoint_is_IN d then OUT else Some d in
              match IN, OUT with
              | Some a, Some b => Some (i, a, b)
              | _, _ => first_with_both ds current IN OUT
              end
            else first_with_both ds current IN OUT
        | None => first_with_both ds None None None
        end
  end.
End Reference.

(** Descriptors as large as the structures the drivers take them for. *)
Definition sized_descriptor (d : bytes) : Prop :=
  is_descriptor d /\ (type_of d = DTYPE_Interface -> 9 <= length d)%nat /\
  (type_of d = DTYPE_Endpoint -> 7 <= length d)%nat.

(** What follows the configuration descriptor in memory does not look like a part
    of it. *)
Definition quiet (slack : bytes) : Prop :=
  exists t, slack !! 1%nat = Some t /\ t <> DTYPE_Interface /\ t <> DTYPE_Endpoint.

(** ** The comparators as judgements *)

Definition interface_comparator (Class_ SubClass_ Protocol_ : Z) (b : bytes)
    : option DSearch_Return_ErrorCodes_t :=
  match b !! 1%nat with
  | None => None
  | Some t =>
      if t =? DTYPE_Interface then
        match b !! 5%nat with
        | None => None
        | Some c =>
            if negb (c =? Class_) then Some DESCRIPTOR_SEARCH_NotFound
            else
              match b !! 6%nat with
              | None => None
              | Some sub =>
                  if negb (sub =? SubClass_) then Some DESCRIPTOR_SEARCH_NotFound
                  else
                    match b !! 7%nat with
                    | None => None
                    | Some p => Some (if p =? Protocol_ then DESCRIPTOR_SEARCH_Found
                                      else DESCRIPTOR_SEARCH_NotFound)
                    end
              end
        end
      else Some DESCRIPTOR_SEARCH_NotFound
  end.

Definition endpoint_comparator_of (EndpointType : Z -> bool) (b : bytes)
    : option DSearch_Return_ErrorCodes_t :=
  match b !! 1%nat with
  | None => None
  | Some t =>
      if t =? DTYPE_Endpoint then
        match b !! 3%nat with
        | None => None
        | Some a => Some (if negb (EndpointType (Z.land a EP_TYPE_MASK)) then DESCRIPTOR_SEARCH_NotFound
                          else DESCRIPTOR_SEARCH_Found)
        end
      else Some (if t =? DTYPE_Interface then DESCRIPTOR_SEARCH_Fail else DESCRIPTOR_SEARCH_NotFound)
  end.

Definition interface_is (Class_ SubClass_ Protocol_ : Z) (d : bytes) : bool :=
  (default 0 (d !! 5%nat) =? Class_) && (default 0 (d !! 6%nat) =? SubClass_) &&
  (default 0 (d !! 7%nat) =? Protocol_).
Definition endpoint_type_is (EndpointType : Z -> bool) (d : bytes) : bool :=
  EndpointType (Z.land (default 0 (d !! 3%nat)) EP_TYPE_MASK).

Definition judge_interface (interface : bytes -> bool) (d : bytes) : DSearch_Return_ErrorCodes_t :=
  if (type_of d =? DTYPE_Interface) && interface d then DESCRIPTOR_SEARCH_Found else DESCRIPTOR_SEARCH_NotFound.
Definition judge_endpoint (endpoint : bytes -> bool) (d : bytes) : DSearch_Return_ErrorCodes_t :=
  if type_of d =? DTYPE_Interface then DESCRIPTOR_SEARCH_Fail
  else if (type_of d =? DTYPE_Endpoint) && endpoint d then DESCRIPTOR_SEARCH_Found
  else DESCRIPTOR_SEARCH_NotFound.

Lemma sized_type d rest : sized_descriptor d -> (d ++ rest) !! 1%nat = Some (type_of d).
Proof.
  intros [Hd _]. pose proof (is_descriptor_length _ Hd). rewrite lookup_app_l by lia.
  destruct (lookup_lt_is_Some_2 d 1) as [t Ht]; [lia|]. unfold type_of. by rewrite Ht.
Qed.

Lemma sized_field d rest n k :
  (n <= length d)%nat -> (k < n)%nat -> (d ++ rest) !! k = Some (default 0 (d !! k)).
Proof.
  intros Hn Hk. rewrite lookup_app_l by lia. destruct (lookup_lt_is_Some_2 d k) as [x Hx]; [lia|]. by rewrite Hx.
Qed.

Lemma interface_judged c sub p :
  judges sized_descriptor (interface_comparator c sub p) (judge_interface (interface_is c sub p)).
Proof.
  intros d rest Hd. unfold interface_comparator, judge_interface, interface_is. rewrite sized_type by done.
  destruct Hd as (_ & HI & _). destruct (Z.eqb_spec (type_of d) DTYPE_Interface) as [E|]; [|done].
  specialize (HI E). rewrite !(sized_field d rest 9) by lia. cbn [andb].
  by destruct (_ =? c); [|done]; destruct (_ =? sub); [|done]; destruct (_ =? p).
Qed.

Lemma endpoint_judged ty :
  judges sized_descriptor (endpoint_comparator_of ty) (judge_endpoint (endpoint_type_is ty)).
Proof.
  intros d rest Hd. unfold endpoint_comparator_of, judge_endpoint, endpoint_type_is. rewrite sized_type by done.
  destruct Hd as (_ & _ & HE). destruct (Z.eqb_spec (type_of d) DTYPE_Endpoint) as [E|]; [|done].
  specialize (HE E). rewrite (sized_field d rest 7), E by lia. by destruct (ty _).
Qed.

Lemma quiet_slack slack c sub p ty :
  quiet slack -> interface_comparator c sub p slack = Some DESCRIPTOR_SEARCH_NotFound /\
  endpoint_comparator_of ty slack = Some DESCRIPTOR_SEARCH_NotFound.
Proof.
  intros (t & Ht & HI & HE). unfold interface_comparator, endpoint_comparator_of. rewrite Ht.
  by rewrite (proj2 (Z.eqb_neq _ _) HI), (proj2 (Z.eqb_neq _ _) HE).
Qed.

(** ** The code on comparators that only look at memory *)

Section Search.
Context `{Env}.

Lemma field8_at (k : nat) Data p s :
  0 <= p ->
  field8 Data p (Z.of_nat k) s = match drop (Z.to_nat p) Data !! k with Some b => Done b s | None => Undefined end.
Proof.
  intros Hp. unfold field8, load_byte. destruct (Z.leb_spec 0 (p + Z.of_nat k)); [|lia].
  rewrite lookup_drop, Z2Nat.inj_add, Nat2Z.id by lia. by destruct (Data !! _).
Qed.

(** A comparator that only looks at memory. *)
Definition looks (Data : bytes) (cmp : Z -> M DSearch_Return_ErrorCodes_t)
    (Comparator : bytes -> option DSearch_Return_ErrorCodes_t) : Prop :=
  forall p s, 0 <= p ->
    cmp p s = match at_location Data Comparator p with Some r => Done r s | None => Undefined end.

Lemma interface_looks Data c sub p : looks Data (next_interface_of Data c sub p) (interface_comparator c sub p).
Proof.
  intros q s Hq. unfold next_interface_of, at_location, interface_comparator, bind.
  rewrite (field8_at 1) by done. destruct (_ !! 1%nat) as [t|]; [|done]. destruct (t =? _); [|done].
  rewrite (field8_at 5) by done. destruct (_ !! 5%nat) as [c'|]; [|done]. destruct (negb _); [done|].
  rewrite (field8_at 6) by done. destruct (_ !! 6%nat) as [s'|]; [|done]. destruct (negb _); [done|].
  rewrite (field8_at 7) by done. by destruct (_ !! 7%nat).
Qed.

Lemma endpoint_looks Data ty : looks Data (next_endpoint_of Data ty false) (endpoint_comparator_of ty).
Proof.
  intros q s Hq. unfold next_endpoint_of, at_location, endpoint_comparator_of, bind.
  rewrite (field8_at 1) by done. destruct (_ !! 1%nat) as [t|]; [|done]. destruct (t =? _); [|done].
  rewrite (field8_at 3) by done. destruct (_ !! 3%nat) as [a|]; [|done]. by destruct (negb _).
Qed.

Lemma next_descriptor_nonneg Data b l b' l' :
  0 <= b -> 0 <= l -> all_bytes Data -> USB_GetNextDescriptor Data b l = Some (b', l') -> 0 <= b' /\ 0 <= l'.
Proof.
  intros Hb Hl Hall. unfold USB_GetNextDescriptor, DESCRIPTOR_SIZE, load_byte.
  destruct (Z.leb_spec 0 l); [|done]. destruct (Data !! _) as [n|] eqn:Hn; [|done].
  apply (proj1 (Forall_lookup _ _) Hall) in Hn. destruct Hn. intros [= <- <-].
  split; [apply wrap_fits; lia|]. destruct (_ <? _); lia.
Qed.

Lemma next_comp_looks Data cmp Comparator b l s :
  looks Data cmp Comparator -> all_bytes Data -> 0 <= b -> 0 <= l ->
  next_descriptor_comp Data cmp (b, l) s =
    match USB_GetNextDescriptorComp fuel Data (at_location Data Comparator) b l with
    | Stops (r, b, l) => Done (r, (b, l)) s
    | Faults => Undefined
    | Runs_on => OutOfFuel
    end.
Proof.
  intros Hc Hall. unfold next_descriptor_comp. revert b l. induction fuel as [|n IH]; intros b l Hb Hl; [done|].
  cbn [loop USB_GetNextDescriptorComp]. unfold bind at 1. destruct (b =? 0); [done|].
  destruct (USB_GetNextDescriptor Data b l) as [[b' l']|] eqn:Hn; [|done].
  destruct (next_descriptor_nonneg _ _ _ _ _ Hb Hl Hall Hn). unfold bind at 1. rewrite Hc by done.
  destruct (at_location _ _ _) as [[]|]; try done. by apply IH.
Qed.

(** ** The search *)

Context (slack : bytes) (interface endpoint : bytes -> bool).
Context (Interface Endpoint : Z -> M DSearch_Return_ErrorCodes_t).
Context (ICmp ECmp : bytes -> option DSearch_Return_ErrorCodes_t).
Hypothesis I_judged : judges sized_descriptor ICmp (judge_interface interface).
Hypothesis E_judged : judges sized_descriptor ECmp (judge_endpoint endpoint).
Hypothesis I_slack : ICmp slack = Some DESCRIPTOR_SEARCH_NotFound.
Hypothesis E_slack : ECmp slack = Some DESCRIPTOR_SEARCH_NotFound.

Lemma find_split {A} (P : A -> Prop) `{forall x, Decision (P x)} ds i d :
  list_find P ds = Some (i, d) ->
  exists l1 l2, ds = l1 ++ d :: l2 /\ i = length l1 /\ Forall (fun x => ~ P x) l1 /\ P d.
Proof.
  intros (Hi & HP & Hno)%list_find_Some. exists (take i ds), (drop (S i) ds).
  rewrite take_drop_middle by done. split; [done|]. apply lookup_lt_Some in Hi as Hlt.
  rewrite length_take. split; [lia|]. split; [|done]. apply Forall_lookup. intros j x Hj.
  apply lookup_take_Some in Hj as [Hj Hlt']. eapply Hno; eassumption.
Qed.

Lemma stopped_at_split front d0 l1 d l2 :
  stopped_at front d0 (l1 ++ d :: l2) (length l1) = (len (d ++ concat l2), len (front ++ d0 ++ concat l1)).
Proof. unfold stopped_at. rewrite drop_app_length, take_app_length. done. Qed.

(** The walk at the descriptor [d0], with [front] before and [ds] behind it. *)
Definition walk_at (front d0 : bytes) (ds : list bytes) : Z * Z := (len (d0 ++ concat ds), len front).

Definition in_chain (Data front d0 : bytes) (ds : list bytes) : Prop :=
  Data = front ++ d0 ++ concat ds ++ slack /\ is_descriptor d0 /\ Forall sized_descriptor ds /\
  len (d0 ++ concat ds) < 2 ^ 16 /\ (length ds + 1 < fuel)%nat.

(** Walking on to a later descriptor. *)
Lemma in_chain_later Data front d0 l1 d l2 :
  in_chain Data front d0 (l1 ++ d :: l2) -> in_chain Data (front ++ d0 ++ concat l1) d l2.
Proof.
  intros (-> & H0 & Hds & H16 & Hf). apply Forall_app in Hds as [_ Hds]. apply Forall_cons_1 in Hds as [Hd Hds].
  rewrite concat_app in *. cbn [concat] in *. rewrite !length_app in *. cbn [length] in Hf.
  split; [by rewrite <- !app_assoc|]. split; [apply Hd|]. split; [done|]. split; rewrite ?length_app; lia.
Qed.

Lemma no_opinion (judge : bytes -> DSearch_Return_ErrorCodes_t) l :
  Forall (fun x => ~ judge x <> DESCRIPTOR_SEARCH_NotFound) l ->
  Forall (fun x => judge x = DESCRIPTOR_SEARCH_NotFound) l.
Proof.
  apply List.Forall_impl. intros x Hx. by destruct (decide (judge x = DESCRIPTOR_SEARCH_NotFound)).
Qed.

Lemma first_interface Data front d0 ds s :
  looks Data Interface ICmp -> all_bytes Data -> in_chain Data front d0 ds ->
  (exists l1 d l2, ds = l1 ++ d :: l2 /\ Forall (fun x => judge_interface interface x = DESCRIPTOR_SEARCH_NotFound) l1 /\
     judge_interface interface d = DESCRIPTOR_SEARCH_Found /\
     next_descriptor_comp Data Interface (walk_at front d0 ds) s =
       Done (DESCRIPTOR_SEARCH_COMP_Found, walk_at (front ++ d0 ++ concat l1) d l2) s) \/
  (Forall (fun x => judge_interface interface x = DESCRIPTOR_SEARCH_NotFound) ds /\ exists p,
     next_descriptor_comp Data Interface (walk_at front d0 ds) s =
       Done (DESCRIPTOR_SEARCH_COMP_EndOfDescriptor, (0, p)) s).
Proof.
  intros Hlook Hall (HD & H0 & Hds & H16 & Hf). unfold walk_at. rewrite (next_comp_looks _ _ _ _ _ _ Hlook Hall) by lia.
  rewrite HD, (GetNextDescriptorComp_first slack _ front d0 ds fuel _ _ I_judged I_slack) by (try done; by intros ? [? _]).
  destruct (list_find _ ds) as [[i d]|] eqn:Hfind.
  - left. apply find_split in Hfind as (l1 & l2 & -> & -> & Hl1 & Hd). exists l1, d, l2. split; [done|].
    assert (Hdf : judge_interface interface d = DESCRIPTOR_SEARCH_Found).
    { unfold judge_interface in *. by destruct (_ && _). }
    split; [by apply no_opinion|]. split; [done|].
    rewrite Hdf, decide_True by done. by rewrite stopped_at_split.
  - right. apply list_find_None in Hfind. split; [by apply no_opinion|by eexists].
Qed.

(** The descriptor before the one at which a search failed. *)
Lemma stopped_before front d0 l1 d l2 :
  exists f' d', stopped_at front [] (d0 :: l1 ++ d :: l2) (length l1) = walk_at f' d' (d :: l2) /\
    front ++ d0 ++ concat l1 = f' ++ d' /\ (d' = d0 \/ d' ∈ l1).
Proof.
  assert (exists init d', d0 :: l1 = init ++ [d'] /\ length init = length l1) as (init & d' & E & Hlen).
  { destruct (List.exists_last (l := d0 :: l1)) as (init & d' & E); [done|]. exists init, d'. split; [done|].
    apply (f_equal length) in E. rewrite length_app in E. cbn in E. lia. }
  exists (front ++ concat init), d'. split; [|split].
  - unfold stopped_at, walk_at. rewrite app_comm_cons, E, <- app_assoc. cbn [app].
    by rewrite <- Hlen, drop_app_length, take_app_length.
  - change (d0 ++ concat l1) with (concat (d0 :: l1)). rewrite E, concat_app. cbn. by rewrite app_nil_r, app_assoc.
  - assert (d' ∈ d0 :: l1) as Hin by (rewrite E; apply elem_of_app; right; by constructor).
    by apply elem_of_cons in Hin.
Qed.

Lemma next_endpoint Data front d0 ds s :
  looks Data Endpoint ECmp -> all_bytes Data -> in_chain Data front d0 ds ->
  (exists l1 d l2, ds = l1 ++ d :: l2 /\ Forall (fun x => judge_endpoint endpoint x = DESCRIPTOR_SEARCH_NotFound) l1 /\
     ((judge_endpoint endpoint d = DESCRIPTOR_SEARCH_Found /\
       next_descriptor_comp Data Endpoint (walk_at front d0 ds) s =
         Done (DESCRIPTOR_SEARCH_COMP_Found, walk_at (front ++ d0 ++ concat l1) d l2) s) \/
      (judge_endpoint endpoint d = DESCRIPTOR_SEARCH_Fail /\ exists f' d', in_chain Data f' d' (d :: l2) /\
       next_descriptor_comp Data Endpoint (walk_at front d0 ds) s =
         Done (DESCRIPTOR_SEARCH_COMP_Fail, walk_at f' d' (d :: l2)) s))) \/
  (Forall (fun x => judge_endpoint endpoint x = DESCRIPTOR_SEARCH_NotFound) ds /\ exists p,
     next_descriptor_comp Data Endpoint (walk_at front d0 ds) s =
       Done (DESCRIPTOR_SEARCH_COMP_EndOfDescriptor, (0, p)) s).
Proof.
  intros Hlook Hall Hchain. pose proof Hchain as (HD & H0 & Hds & H16 & Hf). unfold walk_at.
  rewrite (next_comp_looks _ _ _ _ _ _ Hlook Hall) by lia.
  rewrite HD, (GetNextDescriptorComp_first slack _ front d0 ds fuel _ _ E_judged E_slack) by (try done; by intros ? [? _]).
  destruct (list_find _ ds) as [[i d]|] eqn:Hfind.
  - left. apply find_split in Hfind as (l1 & l2 & -> & -> & Hl1 & Hd). exists l1, d, l2. split; [done|].
    split; [by apply no_opinion|].
    destruct (decide (judge_endpoint endpoint d = DESCRIPTOR_SEARCH_Found)) as [Hdf|Hdf].
    + left. split; [done|]. by rewrite stopped_at_split.
    + right. split; [by destruct (judge_endpoint endpoint d)|].
      destruct (stopped_before front d0 l1 d l2) as (f' & d' & Hst & Hfd & Hin). exists f', d'. rewrite Hst.
      split; [|done]. apply Forall_app in Hds as [Hds1 Hds2]. rewrite concat_app, !length_app in *.
      assert (Hd' : is_descriptor d') by (destruct Hin as [->|Hin]; [done|];
        apply list_elem_of_lookup in Hin as [k Hk]; by destruct (proj1 (Forall_lookup _ _) Hds1 _ _ Hk)).
      pose proof (is_descriptor_length _ Hd') as Hlen'. apply (f_equal length) in Hfd as Hl. rewrite !length_app in Hl.
      split; [|split; [done|split; [done|split]]].
      * rewrite !app_assoc, <- Hfd. by rewrite !app_assoc.
      * rewrite length_app. destruct Hin as [->|Hin]; [lia|].
        assert (length d' <= length (concat l1))%nat; [|lia]. clear -Hin.
        induction Hin; cbn; rewrite length_app; lia.
      * cbn in *. lia.
  - right. apply list_find_None in Hfind. split; [by apply no_opinion|by eexists].
Qed.

(** A pointer to a descriptor, and the state of the search. *)
Definition located (Data : bytes) (p : option Z) (d : option bytes) : Prop :=
  match p, d with
  | Some p, Some d => exists front rest, Data = front ++ d ++ rest /\ p = len front
  | None, None => True
  | _, _ => False
  end.

Definition tracks (Data : bytes) (v : endpoint_search) (current IN OUT : option bytes) : Prop :=
  located Data (es_Interface v) current /\ located Data (es_IN v) IN /\ located Data (es_OUT v) OUT.

Lemma skip_interfaces l1 ds :
  Forall (fun x => judge_interface interface x = DESCRIPTOR_SEARCH_NotFound) l1 ->
  first_with_both interface endpoint (l1 ++ ds) None None None = first_with_both interface endpoint ds None None None.
Proof.
  induction 1 as [|d l1 Hd _ IH]; [done|]. cbn. unfold judge_interface in Hd.
  destruct (_ =? DTYPE_Interface); cbn in Hd; [|done]. by destruct (interface d).
Qed.

Lemma skip_endpoints l1 ds i IN OUT :
  Forall (fun x => judge_endpoint endpoint x = DESCRIPTOR_SEARCH_NotFound) l1 ->
  first_with_both interface endpoint (l1 ++ ds) (Some i) IN OUT = first_with_both interface endpoint ds (Some i) IN OUT.
Proof.
  induction 1 as [|d l1 Hd _ IH]; [done|]. cbn. unfold judge_endpoint in Hd.
  destruct (_ =? DTYPE_Interface); [done|]. by destruct (_ && _).
Qed.

Lemma none_left l :
  Forall (fun x => judge_interface interface x = DESCRIPTOR_SEARCH_NotFound) l ->
  first_with_both interface endpoint l None None None = None.
Proof. intros Hl. rewrite <- (app_nil_r l). by rewrite skip_interfaces. Qed.

(** The outcome [r] of the search in the terms of the reference. *)
Definition agrees (Data : bytes) (r : option endpoint_search) (x : option (bytes * bytes * bytes)) : Prop :=
  match r, x with
  | Some v, Some (i, a, b) => tracks Data v (Some i) (Some a) (Some b)
  | None, None => True
  | _, _ => False
  end.

Definition data_round (Data : bytes) :=
  endpoint_search_round Data both_found Endpoint (to_next_interface Data Interface) (record_data Data).

Lemma located_here Data front d ds : in_chain Data front d ds -> located Data (Some (len front)) (Some d).
Proof. intros (-> & _). by exists front, (concat ds ++ slack). Qed.

Lemma both_found_tracks Data v cur IN OUT :
  tracks Data v cur IN OUT -> both_found v = match IN, OUT with Some _, Some _ => true | _, _ => false end.
Proof.
  intros (_ & HI & HO). unfold both_found. destruct (es_IN v), IN, (es_OUT v), OUT; try done;
    (apply bool_decide_eq_true_2 || apply bool_decide_eq_false_2); try by split; eexists.
  all: intros [[? ?] [? ?]]; done.
Qed.

Definition remaining (ds : list bytes) (current IN OUT : option bytes) : option (bytes * bytes * bytes) :=
  match current, IN, OUT with
  | Some i, Some a, Some b => Some (i, a, b)
  | _, _, _ => first_with_both interface endpoint ds current IN OUT
  end.

(** From a point where no interface is current, [k] being the rest of the loop. *)
Lemma enter_interface Data front d0 ds v s n :
  looks Data Interface ICmp -> all_bytes Data -> in_chain Data front d0 ds -> (length ds <= n)%nat ->
  (forall front d l v' , (length l < n)%nat -> in_chain Data front d l -> tracks Data v' (Some d) None None ->
     exists r, loop n (data_round Data) (walk_at front d l, v') s = Done r s /\
       agrees Data r (first_with_both interface endpoint l (Some d) None None)) ->
  exists r, (x ← to_next_interface Data Interface (walk_at front d0 ds) v;
             match (match x with Some x => inl x | None => inr None end) with
             | inl x => loop n (data_round Data) x
             | inr a => ret a
             end) s = Done r s /\ agrees Data r (first_with_both interface endpoint ds None None None).
Proof.
  intros Hl Hall Hchain Hn IH. unfold to_next_interface, bind.
  destruct (first_interface Data front d0 ds s Hl Hall Hchain)
    as [(l1 & d & l2 & -> & Hl1 & Hd & ->)|(Hnone & p & ->)]; cbn [found negb ret].
  - pose proof (in_chain_later _ _ _ _ _ _ Hchain) as Hchain'. rewrite skip_interfaces by done.
    unfold judge_interface in Hd. cbn [first_with_both].
    destruct (_ =? DTYPE_Interface); [|done]. cbn [andb] in Hd. destruct (interface d); [|done].
    apply IH; [rewrite length_app in Hn; cbn in Hn; lia|done|].
    split; [|done]. by eapply located_here.
  - exists None. rewrite none_left by done. done.
Qed.

Lemma endpoint_address_read Data front d0 l1 d l2 s :
  in_chain Data front d0 (l1 ++ d :: l2) -> judge_endpoint endpoint d = DESCRIPTOR_SEARCH_Found ->
  field8 Data (snd (walk_at (front ++ d0 ++ concat l1) d l2)) ep_EndpointAddress_offset s
    = Done (default 0 (d !! 2%nat)) s.
Proof.
  intros Hchain Hd. unfold walk_at. cbn [snd]. rewrite (field8_at 2) by lia.
  pose proof Hchain as (_ & _ & Hds & _). apply in_chain_later in Hchain as (-> & _).
  rewrite Nat2Z.id, drop_app_length. apply Forall_app in Hds as [_ Hds].
  apply Forall_cons_1 in Hds as [(_ & _ & Hsz) _]. unfold judge_endpoint in Hd.
  destruct (_ =? DTYPE_Interface); [done|]. destruct (Z.eqb_spec (type_of d) DTYPE_Endpoint) as [E|]; [|done].
  specialize (Hsz E). by rewrite (sized_field d _ 7 2) by lia.
Qed.

Lemma search_agrees Data n front d0 ds v cur IN OUT s :
  looks Data Interface ICmp -> looks Data Endpoint ECmp -> all_bytes Data ->
  in_chain Data front d0 ds -> tracks Data v cur IN OUT -> (cur = None -> IN = None /\ OUT = None) ->
  (length ds < n)%nat ->
  exists r, loop n (data_round Data) (walk_at front d0 ds, v) s = Done r s /\
    agrees Data r (remaining ds cur IN OUT).
Proof.
  intros HI HE Hall. revert front d0 ds v cur IN OUT.
  induction n as [|n IH]; intros front d0 ds v cur IN OUT Hchain Ht Hcur Hn; [lia|].
  assert (IH' : forall front d l v', (length l < n)%nat -> in_chain Data front d l ->
     tracks Data v' (Some d) None None ->
     exists r, loop n (data_round Data) (walk_at front d l, v') s = Done r s /\
       agrees Data r (first_with_both interface endpoint l (Some d) None None)).
  { intros f d l v' Hl Hc Hv. by apply (IH f d l v' (Some d) None None Hc Hv). }
  cbn [loop]. unfold bind at 1. unfold data_round at 1. unfold endpoint_search_round.
  rewrite (both_found_tracks _ _ _ _ _ Ht). pose proof Ht as (Hi & HIN & HOUT).
  destruct cur as [i|].
  2: { destruct (Hcur eq_refl) as [-> ->]. destruct (es_Interface v); [done|].
       destruct (enter_interface Data front d0 ds v s n HI Hall Hchain ltac:(lia) IH') as (r & Hr & Hag).
       exists r. split; [|exact Hag]. rewrite <- Hr. unfold bind, ret at 1 2. cbn [negb].
       by destruct (to_next_interface Data Interface (walk_at front d0 ds) v s) as [[x|] s'| |]. }
  assert (Hdone : (exists a b, IN = Some a /\ OUT = Some b) \/
                  (match IN, OUT with Some _, Some _ => true | _, _ => false end = false /\
                   remaining ds (Some i) IN OUT = first_with_both interface endpoint ds (Some i) IN OUT)).
  { destruct IN as [a|], OUT as [b|]; [left; by eexists _, _|right; done..]. }
  destruct Hdone as [(a & b & -> & ->)|[-> ->]]; [by eexists|].
  destruct (es_Interface v) as [pi|] eqn:Hpi; [|done].
  destruct (next_endpoint Data front d0 ds s HE Hall Hchain)
    as [(l1 & d & l2 & -> & Hl1 & [[Hd Hnext]|[Hd (f' & d' & Hc' & Hnext)]])|(Hnone & p & Hnext)].
  - pose proof (in_chain_later _ _ _ _ _ _ Hchain) as Hchain'. unfold bind. rewrite Hnext. cbn [found negb ret].
    pose proof (endpoint_address_read _ _ _ _ _ _ s Hchain Hd) as Hf.
    unfold record_data, bind. rewrite Hf. cbn [ret].
    set (v' := endpoint_found _ _ _ v). rewrite skip_endpoints by done. cbn [first_with_both].
    unfold judge_endpoint in Hd. destruct (_ =? DTYPE_Interface); [done|]. destruct (_ && _); [|done].
    assert (Hv' : tracks Data v' (Some i) (if endpoint_is_IN d then Some d else IN) (if endpoint_is_IN d then OUT else Some d)).
    { pose proof (located_here _ _ _ _ Hchain') as Hhere. unfold v', endpoint_is_IN, tracks, endpoint_found. cbn.
      rewrite Hpi. destruct (_ =? ENDPOINT_DIR_IN); cbn; done. }
    apply (IH _ _ _ _ _ _ _ Hchain' Hv'); [done|]. rewrite length_app in Hn. cbn in Hn. lia.
  - unfold judge_endpoint in Hd. destruct (type_of d =? DTYPE_Interface) eqn:Hty; [|by destruct (_ && _)].
    assert (Hfw : first_with_both interface endpoint (l1 ++ d :: l2) (Some i) IN OUT =
                  first_with_both interface endpoint (d :: l2) None None None).
    { rewrite skip_endpoints by done. cbn. by rewrite Hty. }
    destruct (enter_interface Data f' d' (d :: l2) v s n HI Hall Hc') as (r & Hr & Hag).
    { rewrite length_app in Hn. cbn in *. lia. } { exact IH'. }
    exists r. rewrite Hfw. split; [|exact Hag]. rewrite <- Hr. unfold bind. rewrite Hnext. cbn [found negb ret].
    by destruct (to_next_interface Data Interface (walk_at f' d' (d :: l2)) v s) as [[x|] s'| |].
  - exists None. unfold bind. rewrite Hnext. cbn [found negb ret]. unfold to_next_interface, next_descriptor_comp, bind.
    rewrite <- (app_nil_r ds), skip_endpoints by done. destruct Hchain as (_ & _ & _ & _ & Hf).
    destruct fuel; [lia|]. done.
Qed.
End Search.

(** ** What is found *)

(** The descriptors found are among those searched, of the right kind. *)
Lemma found_kinds interface endpoint (PI PE : bytes -> Prop) ds cur IN OUT i a b :
  Forall (fun d => (type_of d = DTYPE_Interface -> PI d) /\ (type_of d = DTYPE_Endpoint -> PE d)) ds ->
  (forall d, cur = Some d -> PI d) -> (forall d, IN = Some d -> PE d) -> (forall d, OUT = Some d -> PE d) ->
  first_with_both interface endpoint ds cur IN OUT = Some (i, a, b) -> PI i /\ PE a /\ PE b.
Proof.
  intros Hds. revert cur IN OUT. induction Hds as [|d ds [HdI HdE] _ IH]; intros cur IN OUT Hc HI HO; [done|].
  cbn [first_with_both]. destruct (Z.eqb_spec (type_of d) DTYPE_Interface) as [Hd|_].
  { apply IH; [|done..]. intros d'. destruct (interface d); [|done]. intros [= <-]. auto. }
  destruct cur as [c|]; [|by apply IH].
  destruct (Z.eqb_spec (type_of d) DTYPE_Endpoint) as [Hd|_]; [|by apply IH].
  destruct (endpoint d); [|by apply IH]. cbn [andb]. specialize (HdE Hd).
  assert (Hnew : forall d', Some d = Some d' -> PE d') by (by intros d' [= <-]).
  assert (HI' : forall d', (if endpoint_is_IN d then Some d else IN) = Some d' -> PE d') by (by destruct (endpoint_is_IN d)).
  assert (HO' : forall d', (if endpoint_is_IN d then OUT else Some d) = Some d' -> PE d') by (by destruct (endpoint_is_IN d)).
  destruct (if endpoint_is_IN d then Some d else IN) as [a'|]; [|by apply IH].
  destruct (if endpoint_is_IN d then OUT else Some d) as [b'|]; [|by apply IH].
  intros [= <- <- <-]. auto.
Qed.

(** A field of a descriptor found. *)
Lemma located_field `{Env} Data p d (k n : nat) s :
  located Data (Some p) (Some d) -> (n <= length d)%nat -> (k < n)%nat ->
  field8 Data p (Z.of_nat k) s = Done (default 0 (d !! k)) s.
Proof.
  intros (front & rest & -> & ->) Hn Hk. rewrite field8_at by lia.
  by rewrite Nat2Z.id, drop_app_length, (sized_field d rest n k).
Qed.

(** The pipe table entry for an endpoint descriptor. *)
Definition entry_for (Type_ : Z) (d : bytes) (e : USB_Pipe_Table_t) : USB_Pipe_Table_t :=
  {| pipe_Address := pipe_Address e; pipe_Size := le_val [default 0 (d !! 4%nat); default 0 (d !! 5%nat)];
     pipe_EndpointAddress := default 0 (d !! 2%nat); pipe_Type := Type_; pipe_Banks := pipe_Banks e |}.

Lemma pipe_for_located `{Env} Data Type_ p d e s :
  located Data (Some p) (Some d) -> (7 <= length d)%nat ->
  pipe_for Data Type_ p e s = Done (entry_for Type_ d e) s.
Proof.
  intros Hl Hd. unfold pipe_for, field16, bind, ret.
  change ep_EndpointSize_offset with (Z.of_nat 4). change (Z.of_nat 4 + 1) with (Z.of_nat 5).
  change ep_EndpointAddress_offset with (Z.of_nat 2). by rewrite !(located_field Data p d _ 7 s Hl Hd) by lia.
Qed.

(** ** Configuring the pipes *)

Lemma keeps_pipe_configure_from `{Calm} n Number c0 c1 : forall PNum, keeps (pipe_configure_from n PNum Number c0 c1).
Proof.
  induction n as [|n IH]; intros PNum; cbn [pipe_configure_from]; [auto with keeps|].
  autounfold with safe_prims. unfold Pipe_SelectPipe, Pipe_DisablePipe, Pipe_EnablePipe, Pipe_SetInfiniteINRequests, Pipe_IsConfigured.
  apply keeps_bind; [auto with keeps|]. intros _. apply keeps_bind; [auto 20 with keeps|]. intros [[[a b] c] d].
  auto 30 with keeps.
Qed.

Lemma keeps_configure_pipes `{Calm} es : keeps (configure_pipes es).
Proof.
  induction es as [|e es IH]; cbn [configure_pipes]; [auto with keeps|].
  assert (keeps (Pipe_ConfigurePipeTable [e])); [|auto with keeps].
  cbn [Pipe_ConfigurePipeTable]. apply keeps_if; [auto with keeps|]. unfold Pipe_ConfigurePipe.
  apply keeps_bind; [|auto with keeps]. apply keeps_if; [auto with keeps|].
  apply keeps_bind; [|intros size; pose proof keeps_pipe_configure_from; unfold Pipe_SelectPipe; auto 20 with keeps].
  intros s. unfold wp. rewrite Pipe_BytesToEPSizeMask_correct. apply kept_refl.
Qed.
