(* ===== verification/HostBulk.v ===== *)
(** * Safety of the transfers over data pipes

    The code that the CDC, printer and Android accessory drivers of the host share,
    on arbitrary hardware with interrupts at any point. *)
From S2P Require Import Prelude Machine Rely StdDescriptors Descriptors Endpoint ControlStream UsbController DeviceStandardReq EndpointStream ClassDriver RNDISClass UsbInterrupt Safety Pipe HostController HostStandardReq HostTask HostSafety PipeStream HostClass.

(** What a function that returns the next byte as [int16_t] returns. *)
Definition byte_or_none (x : Z) : Prop := x = -1 \/ is_u8 x.

Section SafeBulk.
Context `{Env} (I : st -> Prop) `{!Stable I}.
Hypothesis data_register : forall t, is_u8 (respond t UPDATX).

Lemma safe_unless_offline {A} active (code : A) m Q :
  Q code -> safe I m Q -> safe I (unless_host_offline active code m) Q.
Proof.
  intros Hc Hm. unfold unless_host_offline, host_offline. safe_step. by destruct (_ : bool); [apply safe_ret|].
Qed.

Lemma runs_pipe_send_data OUT Buffer Length :
  is_u16 Length -> Length <= Z.of_nat (length Buffer) -> runs_safely I (pipe_send_data OUT Buffer Length).
Proof.
  intros HL Hfit. unfold pipe_send_data. do 2 safe_step. apply safe_seq.
  { eapply safe_mono; [|by apply safe_Pipe_Write_Stream]. done. }
  intros [c n]. safe_step. by apply safe_ret.
Qed.

(** A string with a terminator is never left. *)
Lemma runs_pipe_send_string OUT String n :
  strlen String = Some n -> runs_safely I (pipe_send_string OUT String).
Proof.
  intros Hn. pose proof (strlen_bound _ _ Hn) as [H0 Hlt]. unfold pipe_send_string. rewrite Hn.
  apply runs_pipe_send_data; [apply wrap_fits; lia|]. pose proof (Z.mod_le n (2 ^ 16) H0 ltac:(lia)).
  unfold wrap. lia.
Qed.

Lemma runs_pipe_send_byte OUT Data : runs_safely I (pipe_send_byte OUT Data).
Proof. pose proof (runs_Pipe_WaitUntilReady I). unfold pipe_send_byte. safely. Qed.

Lemma runs_pipe_flush OUT : runs_safely I (pipe_flush OUT).
Proof. pose proof (runs_Pipe_WaitUntilReady I). unfold pipe_flush. safely. Qed.

Lemma runs_pipe_bytes_received IN : runs_safely I (pipe_bytes_received IN).
Proof. unfold pipe_bytes_received. safely. Qed.

Lemma safe_pipe_receive_byte IN : safe I (pipe_receive_byte IN) byte_or_none.
Proof.
  unfold pipe_receive_byte. do 3 safe_step.
  apply (safe_bind _ _ _ byte_or_none).
  - destruct (_ : bool); [|apply safe_ret; by left]. safe_step.
    apply (safe_bind _ _ _ byte_or_none).
    + destruct (negb _); [|apply safe_ret; by left].
      eapply safe_mono; [|apply safe_rd, _]. intros x [t ->]. right. apply data_register.
    + intros b Hb. do 2 safe_step. by apply safe_ret.
  - intros b Hb. safe_step. by apply safe_ret.
Qed.
End SafeBulk.
