(* ===== verification/HIDClassHost.v ===== *)
(** * The HID class driver of a host

    [LUFA/Drivers/USB/Class/Host/HIDClassHost.c] and [.h]: binding a HID interface
    of an attached device, its class requests and its reports.  The interface
    structure is passed and returned; the parser and the descriptor walk are those
    of [HIDParser] and [ConfigDescriptors]. *)
From S2P Require Import Prelude Machine Rely StdDescriptors HIDReportData Descriptors HIDParser ConfigDescriptors Endpoint ControlStream UsbController DeviceStandardReq EndpointStream HIDClass UsbInterrupt Safety Pipe HostController HostStandardReq HostTask HostSafety PipeStream HostClass.

Definition HID_ERROR_LOGICAL := 0x80.

(** [enum HID_Host_EnumerationFailure_ErrorCodes_t] *)
Inductive HID_Host_EnumerationFailure_ErrorCodes_t : Set :=
  | HID_ENUMERROR_NoError
  | HID_ENUMERROR_InvalidConfigDescriptor
  | HID_ENUMERROR_NoCompatibleInterfaceFound
  | HID_ENUMERROR_PipeConfigurationFailed.

(** [USB_ClassInfo_HID_Host_t] *)
Record HID_Host_Config_t := {
  DataINPipe : USB_Pipe_Table_t;
  DataOUTPipe : USB_Pipe_Table_t;
  HIDInterfaceProtocol : Z;
  HIDParserData : option HID_ReportInfo_t
}.

Record HID_Host_State_t := {
  IsActive : bool;
  hh_InterfaceNumber : Z;
  SupportsBootProtocol : bool;
  DeviceUsesOUTPipe : bool;
  UsingBootProtocol : bool;
  HIDReportSize : Z;
  LargestReportSize : Z
}.

Record USB_ClassInfo_HID_Host_t := { hh_Config : HID_Host_Config_t; hh_State : HID_Host_State_t }.

Definition zero_HID_Host_State : HID_Host_State_t :=
  {| IsActive := false; hh_InterfaceNumber := 0; SupportsBootProtocol := false;
     DeviceUsesOUTPipe := false; UsingBootProtocol := false; HIDReportSize := 0;
     LargestReportSize := 0 |}.

Definition set_hh_State (x : HID_Host_State_t) (i : USB_ClassInfo_HID_Host_t) :=
  {| hh_Config := hh_Config i; hh_State := x |}.
Definition set_DataINPipe (x : USB_Pipe_Table_t) (i : USB_ClassInfo_HID_Host_t) :=
  {| hh_Config := {| DataINPipe := x; DataOUTPipe := DataOUTPipe (hh_Config i);
                     HIDInterfaceProtocol := HIDInterfaceProtocol (hh_Config i);
                     HIDParserData := HIDParserData (hh_Config i) |};
     hh_State := hh_State i |}.
Definition set_DataOUTPipe (x : USB_Pipe_Table_t) (i : USB_ClassInfo_HID_Host_t) :=
  {| hh_Config := {| DataINPipe := DataINPipe (hh_Config i); DataOUTPipe := x;
                     HIDInterfaceProtocol := HIDInterfaceProtocol (hh_Config i);
                     HIDParserData := HIDParserData (hh_Config i) |};
     hh_State := hh_State i |}.
Definition set_HIDParserData (x : HID_ReportInfo_t) (i : USB_ClassInfo_HID_Host_t) :=
  {| hh_Config := {| DataINPipe := DataINPipe (hh_Config i); DataOUTPipe := DataOUTPipe (hh_Config i);
                     HIDInterfaceProtocol := HIDInterfaceProtocol (hh_Config i);
                     HIDParserData := Some x |};
     hh_State := hh_State i |}.
Definition set_UsingBootProtocol (b : bool) (i : USB_ClassInfo_HID_Host_t) :=
  let s := hh_State i in
  set_hh_State {| IsActive := IsActive s; hh_InterfaceNumber := hh_InterfaceNumber s;
                  SupportsBootProtocol := SupportsBootProtocol s;
                  DeviceUsesOUTPipe := DeviceUsesOUTPipe s; UsingBootProtocol := b;
                  HIDReportSize := HIDReportSize s; LargestReportSize := LargestReportSize s |} i.
Definition set_LargestReportSize (n : Z) (i : USB_ClassInfo_HID_Host_t) :=
  let s := hh_State i in
  set_hh_State {| IsActive := IsActive s; hh_InterfaceNumber := hh_InterfaceNumber s;
                  SupportsBootProtocol := SupportsBootProtocol s;
                  DeviceUsesOUTPipe := DeviceUsesOUTPipe s; UsingBootProtocol := UsingBootProtocol s;
                  HIDReportSize := HIDReportSize s; LargestReportSize := n |} i.

Section HIDClassHost.
Context `{Env}.

(** The configuration descriptor, and an offset in [USB_HID_Descriptor_HID_t]. *)
Context (Data : bytes).
Definition hid_HIDReportLength_offset := 7.

Definition DCOMP_HID_Host_NextHIDInterface (CurrentDescriptor : Z) : M DSearch_Return_ErrorCodes_t :=
  t ← field8 Data CurrentDescriptor hdr_Type_offset;
  if t =? DTYPE_Interface then
    c ← field8 Data CurrentDescriptor if_Class_offset;
    ret (if c =? HID_CSCP_HIDClass then DESCRIPTOR_SEARCH_Found else DESCRIPTOR_SEARCH_NotFound)
  else ret DESCRIPTOR_SEARCH_NotFound.

Definition DCOMP_HID_Host_NextHIDDescriptor (CurrentDescriptor : Z) : M DSearch_Return_ErrorCodes_t :=
  t ← field8 Data CurrentDescriptor hdr_Type_offset;
  ret (if t =? HID_DTYPE_HID then DESCRIPTOR_SEARCH_Found
       else if t =? DTYPE_Interface then DESCRIPTOR_SEARCH_Fail
       else DESCRIPTOR_SEARCH_NotFound).

Definition DCOMP_HID_Host_NextHIDInterfaceEndpoint (CurrentDescriptor : Z)
    : M DSearch_Return_ErrorCodes_t :=
  t ← field8 Data CurrentDescriptor hdr_Type_offset;
  if t =? DTYPE_Endpoint then
    a ← field8 Data CurrentDescriptor ep_EndpointAddress_offset;
    bound ← Pipe_IsEndpointBound a;
    ret (if negb bound then DESCRIPTOR_SEARCH_Found else DESCRIPTOR_SEARCH_NotFound)
  else ret (if t =? DTYPE_Interface then DESCRIPTOR_SEARCH_Fail else DESCRIPTOR_SEARCH_NotFound).

(** The [do ... while] that looks for a HID interface of the wanted protocol;
    [None] when there is none. *)
Definition find_interface (Protocol : Z) (walk : Z * Z) : M (option (Z * Z)) :=
  loop fuel (fun walk =>
    '(r, walk) ← next_descriptor_comp Data DCOMP_HID_Host_NextHIDInterface walk;
    if negb (found r) then ret (inr None)
    else
      p ← (if Protocol =? 0 then ret 0 else field8 Data (snd walk) if_Protocol_offset);
      ret (if negb (Protocol =? 0) && negb (p =? Protocol) then inl walk else inr (Some walk))) walk.

(** The local pointers of [HID_Host_ConfigurePipes]: locations in [Data], [None]
    for [NULL]. *)
Record hid_search := {
  DataINEndpoint : option Z;
  DataOUTEndpoint : option Z;
  HIDInterface_ : option Z;
  HIDDescriptor_ : option Z
}.

(** One round of the search loop; [inr] ends it with an error or with the pointers
    found. *)
Definition search_round (Protocol : Z) (x : (Z * Z) * hid_search)
    : M ((Z * Z) * hid_search + option hid_search) :=
  let '(walk, v) := x in
  match DataINEndpoint v, DataOUTEndpoint v with
  | Some _, Some _ => ret (inr (Some v))
  | _, _ =>
      '(ok, walk) ← (match HIDInterface_ v with
                     | None => ret (false, walk)
                     | Some _ =>
                         '(r, walk) ← next_descriptor_comp Data DCOMP_HID_Host_NextHIDInterfaceEndpoint walk;
                         ret (found r, walk)
                     end);
      if negb ok then
        match DataINEndpoint v with
        | Some _ => ret (inr (Some v))
        | None =>
            i ← find_interface Protocol walk;
            match i with
            | None => ret (inr None)
            | Some walk =>
                let HIDInterface := snd walk in
                '(r, walk) ← next_descriptor_comp Data DCOMP_HID_Host_NextHIDDescriptor walk;
                if negb (found r) then ret (inr None)
                else ret (inl (walk, {| DataINEndpoint := None; DataOUTEndpoint := None;
                                        HIDInterface_ := Some HIDInterface;
                                        HIDDescriptor_ := Some (snd walk) |}))
            end
        end
      else
        a ← field8 Data (snd walk) ep_EndpointAddress_offset;
        ret (inl (walk,
          if Z.land a ENDPOINT_DIR_MASK =? ENDPOINT_DIR_IN
          then {| DataINEndpoint := Some (snd walk); DataOUTEndpoint := DataOUTEndpoint v;
                  HIDInterface_ := HIDInterface_ v; HIDDescriptor_ := HIDDescriptor_ v |}
          else {| DataINEndpoint := DataINEndpoint v; DataOUTEndpoint := Some (snd walk);
                  HIDInterface_ := HIDInterface_ v; HIDDescriptor_ := HIDDescriptor_ v |}))
  end.

Definition no_search : hid_search :=
  {| DataINEndpoint := None; DataOUTEndpoint := None; HIDInterface_ := None; HIDDescriptor_ := None |}.

(** The end of [HID_Host_ConfigurePipes]: the interface becomes active. *)
Definition activate (HIDInterface HIDDescriptor : Z) (i : USB_ClassInfo_HID_Host_t)
    : M USB_ClassInfo_HID_Host_t :=
  n ← field8 Data HIDInterface if_InterfaceNumber_offset;
  size ← field16 Data HIDDescriptor hid_HIDReportLength_offset;
  sub ← field8 Data HIDInterface if_SubClass_offset;
  ret (set_hh_State
         {| IsActive := true; hh_InterfaceNumber := n;
            SupportsBootProtocol := negb (sub =? HID_CSCP_NonBootProtocol);
            DeviceUsesOUTPipe := DeviceUsesOUTPipe (hh_State i);
            UsingBootProtocol := UsingBootProtocol (hh_State i);
            HIDReportSize := size; LargestReportSize := 8 |} i).

Definition HID_Host_ConfigurePipes (i : USB_ClassInfo_HID_Host_t) (ConfigDescriptorSize : Z)
    : M (HID_Host_EnumerationFailure_ErrorCodes_t * USB_ClassInfo_HID_Host_t) :=
  let i := set_hh_State zero_HID_Host_State i in
  t ← field8 Data 0 hdr_Type_offset;
  if negb (t =? DTYPE_Configuration) then ret (HID_ENUMERROR_InvalidConfigDescriptor, i)
  else
    r ← loop fuel (search_round (HIDInterfaceProtocol (hh_Config i))) ((ConfigDescriptorSize, 0), no_search);
    match r with
    | None => ret (HID_ENUMERROR_NoCompatibleInterfaceFound, i)
    | Some v =>
        match DataINEndpoint v, HIDInterface_ v, HIDDescriptor_ v with
        | Some IN, Some HIDInterface, Some HIDDescriptor =>
            e ← pipe_for Data EP_TYPE_INTERRUPT IN (DataINPipe (hh_Config i));
            let i := set_DataINPipe e i in
            ok ← Pipe_ConfigurePipeTable [e];
            if negb ok then ret (HID_ENUMERROR_PipeConfigurationFailed, i)
            else
              match DataOUTEndpoint v with
              | None => i ← activate HIDInterface HIDDescriptor i; ret (HID_ENUMERROR_NoError, i)
              | Some OUT =>
                  e ← pipe_for Data EP_TYPE_INTERRUPT OUT (DataOUTPipe (hh_Config i));
                  let i := set_DataOUTPipe e i in
                  ok ← Pipe_ConfigurePipeTable [e];
                  if negb ok then ret (HID_ENUMERROR_PipeConfigurationFailed, i)
                  else i ← activate HIDInterface HIDDescriptor i; ret (HID_ENUMERROR_NoError, i)
              end
        | _, _, _ => undefined
        end
    end.
End HIDClassHost.

(** ** Reports and requests *)

Definition hid_parse_code (c : HID_Parse_ErrorCodes_t) : Z :=
  match c with
  | HID_PARSE_Successful => 0
  | HID_PARSE_HIDStackOverflow => 1
  | HID_PARSE_HIDStackUnderflow => 2
  | HID_PARSE_InsufficientReportItems => 3
  | HID_PARSE_UnexpectedEndCollection => 4
  | HID_PARSE_InsufficientCollectionPaths => 5
  | HID_PARSE_UsageListOverflow => 6
  | HID_PARSE_InsufficientReportIDItems => 7
  | HID_PARSE_NoUnfilteredReportItems => 8
  end.

Section HIDHostReports.
Context `{Env}.

(** [USB_GetHIDReportSize] through the pointer [HIDParserData]. *)
Definition parsed_report_size (i : USB_ClassInfo_HID_Host_t) (ReportID : Z) (ReportType : nat) : M Z :=
  match HIDParserData (hh_Config i) with
  | None => undefined
  | Some info => match USB_GetHIDReportSize info ReportID ReportType with
                 | Some n => ret n
                 | None => undefined
                 end
  end.

(** [(USB_HostState != HOST_STATE_Configured) || !(State.IsActive)] *)
Definition hid_host_offline (i : USB_ClassInfo_HID_Host_t) : M bool :=
  h ← get_HostState;
  ret (negb (h =? HOST_STATE_Configured) || negb (IsActive (hh_State i))).

Definition HID_Host_ReceiveReportByID (i : USB_ClassInfo_HID_Host_t) (ReportID : Z) (Buffer : bytes)
    : M (Z * option bytes) :=
  n ← parsed_report_size i ReportID HID_REPORT_ITEM_In;
  send_request class_request_out HID_REQ_SetReport
    (Z.lor (Z.shiftl (Z.of_nat HID_REPORT_ITEM_In + 1) 8) ReportID)
    (hh_InterfaceNumber (hh_State i)) n (Some Buffer).

(** The size of the report in the bank: its identifier, if there is one, is read
    into the buffer first.  Returned are the buffer, the position in it and the
    size. *)
Definition report_to_read (i : USB_ClassInfo_HID_Host_t) (Buffer : bytes) : M (bytes * nat * Z) :=
  if negb (UsingBootProtocol (hh_State i)) then
    match HIDParserData (hh_Config i) with
    | None => undefined
    | Some info =>
        if UsingReportIDs info then
          ReportID ← Pipe_Read_8;
          match store_byte Buffer 0 ReportID with
          | None => undefined
          | Some Buffer =>
              n ← parsed_report_size i ReportID HID_REPORT_ITEM_In;
              ret (Buffer, 1%nat, n)
          end
        else
          n ← parsed_report_size i 0 HID_REPORT_ITEM_In;
          ret (Buffer, 0%nat, n)
    end
  else
    n ← Pipe_BytesInPipe;
    ret (Buffer, 0%nat, n).

Definition HID_Host_ReceiveReport (i : USB_ClassInfo_HID_Host_t) (Buffer : bytes) : M (Z * bytes) :=
  offline ← hid_host_offline i;
  if offline then ret (pipe_stream_code PIPE_RWSTREAM_DeviceDisconnected, Buffer)
  else
    Pipe_SelectPipe (pipe_Address (DataINPipe (hh_Config i))) ;;
    Pipe_Unfreeze ;;
    '(Buffer, BufferPos, ReportSize) ← report_to_read i Buffer;
    '(ErrorCode, _, data) ← Pipe_Read_Stream_LE (drop BufferPos Buffer) ReportSize None;
    let Buffer := take BufferPos Buffer ++ data in
    match ErrorCode with
    | PIPE_RWSTREAM_NoError =>
        Pipe_ClearIN ;;
        Pipe_Freeze ;;
        ret (pipe_stream_code PIPE_RWSTREAM_NoError, Buffer)
    | _ => ret (pipe_stream_code ErrorCode, Buffer)
    end.

Definition HID_Host_SendReportByID (i : USB_ClassInfo_HID_Host_t) (ReportID : Z) (ReportType : nat)
    (Buffer : bytes) (ReportSize : Z) : M (Z * option bytes) :=
  offline ← hid_host_offline i;
  if offline then ret (pipe_stream_code PIPE_RWSTREAM_NoError, Some Buffer)
  else if DeviceUsesOUTPipe (hh_State i) && (ReportType =? HID_REPORT_ITEM_Out)%nat then
    Pipe_SelectPipe (pipe_Address (DataOUTPipe (hh_Config i))) ;;
    Pipe_Unfreeze ;;
    when (negb (ReportID =? 0)) (Pipe_Write_Stream_LE [ReportID] 1 None ;; ret tt) ;;
    '(ErrorCode, _) ← Pipe_Write_Stream_LE Buffer ReportSize None;
    match ErrorCode with
    | PIPE_RWSTREAM_NoError =>
        Pipe_ClearOUT ;;
        Pipe_Freeze ;;
        ret (pipe_stream_code PIPE_RWSTREAM_NoError, Some Buffer)
    | _ => ret (pipe_stream_code ErrorCode, Some Buffer)
    end
  else
    send_request class_request_out HID_REQ_SetReport
      (u16 (Z.lor (Z.shiftl (Z.of_nat ReportType + 1) 8) ReportID))
      (hh_InterfaceNumber (hh_State i)) ReportSize (Some Buffer).

Definition HID_Host_IsReportReceived (i : USB_ClassInfo_HID_Host_t) : M bool :=
  offline ← hid_host_offline i;
  if offline then ret false
  else
    Pipe_SelectPipe (pipe_Address (DataINPipe (hh_Config i))) ;;
    Pipe_Unfreeze ;;
    ReportReceived ← Pipe_IsINReceived;
    Pipe_Freeze ;;
    ret ReportReceived.

Definition HID_Host_SetBootProtocol (i : USB_ClassInfo_HID_Host_t) : M (Z * USB_ClassInfo_HID_Host_t) :=
  if negb (SupportsBootProtocol (hh_State i)) then ret (HID_ERROR_LOGICAL, i)
  else
    '(ErrorCode, _) ← send_request class_request_out HID_REQ_SetProtocol 0
                        (hh_InterfaceNumber (hh_State i)) 0 None;
    if negb (ErrorCode =? HOST_SENDCONTROL_Successful) then ret (ErrorCode, i)
    else ret (HOST_SENDCONTROL_Successful, set_UsingBootProtocol true (set_LargestReportSize 8 i)).

(** [unsigned int] has 16 bits, so the shift of [MS] wraps around. *)
Definition idle_wValue (MS : Z) : Z := Z.land (u16 (Z.shiftl MS 6)) 0xFF00.

Definition HID_Host_SetIdlePeriod (i : USB_ClassInfo_HID_Host_t) (MS : Z) : M (Z * option bytes) :=
  send_request class_request_out HID_REQ_SetIdle (idle_wValue MS) (hh_InterfaceNumber (hh_State i)) 0 None.

(** [indet] and [filter] are those of the parser; [HIDReportData] is what the
    array of [HIDReportSize] bytes holds at first. *)
Context (indet : Z) (filter : HID_ReportItem_t -> bool).

Definition whole_bytes (bits : Z) : Z :=
  u8 (Z.shiftr bits 3 + (if negb (Z.land bits 0x07 =? 0) then 1 else 0)).

(** The parser's part of [HID_Host_SetReportProtocol]. *)
Definition parse_report (HIDReportData : bytes) (i : USB_ClassInfo_HID_Host_t)
    : M (Z * USB_ClassInfo_HID_Host_t) :=
  match HIDParserData (hh_Config i) with
  | None => ret (HID_ERROR_LOGICAL, i)
  | Some _ =>
      match USB_ProcessHIDReport indet filter HIDReportData (HIDReportSize (hh_State i)) with
      | Returned HID_PARSE_Successful info =>
          ret (0, set_LargestReportSize (whole_bytes (LargestReportSizeBits info)) (set_HIDParserData info i))
      | Returned code info =>
          ret (Z.lor HID_ERROR_LOGICAL (hid_parse_code code), set_HIDParserData info i)
      | Faulted => undefined
      | NoFuel => fun _ => OutOfFuel
      end
  end.

Definition HID_Host_SetReportProtocol (HIDReportData : bytes) (i : USB_ClassInfo_HID_Host_t)
    : M (Z * USB_ClassInfo_HID_Host_t) :=
  '(ErrorCode, data) ←
    send_request (Z.lor (Z.lor REQDIR_DEVICETOHOST REQTYPE_STANDARD) REQREC_INTERFACE) REQ_GetDescriptor
      (Z.shiftl HID_DTYPE_Report 8) (hh_InterfaceNumber (hh_State i)) (HIDReportSize (hh_State i))
      (Some HIDReportData);
  if negb (ErrorCode =? HOST_SENDCONTROL_Successful) then ret (ErrorCode, i)
  else
    let HIDReportData := default [] data in
    if UsingBootProtocol (hh_State i) then
      put (set_USB_ControlRequest
             {| bmRequestType := class_request_out; bRequest := HID_REQ_SetProtocol; wValue := 1;
                wIndex := hh_InterfaceNumber (hh_State i); wLength := 0 |}) ;;
      '(ErrorCode, _) ← USB_Host_SendControlRequest None;
      if negb (ErrorCode =? HOST_SENDCONTROL_Successful) then ret (ErrorCode, i)
      else parse_report HIDReportData (set_UsingBootProtocol false i)
    else parse_report HIDReportData i.
End HIDHostReports.

(** ** Safety of receiving reports *)

Lemma report_size_u16 l ReportID ReportType n : report_size l ReportID ReportType = Some n -> is_u16 n.
Proof.
  induction l as [|e l IH]; cbn [report_size]; [by intros [= <-]|].
  destruct (_ !! _); [|done]. destruct (_ =? _); [|exact IH]. intros [= <-]. apply wrap_fits; lia.
Qed.

#[export] Hint Unfold hid_host_offline : safe_prims.

Section SafeReports.
Context `{Env} (I : st -> Prop) `{!Stable I}.
Hypothesis data_register : forall t, is_u8 (respond t UPDATX).

(** The buffer has room for every report the parser knows of, with its identifier;
    in boot protocol, for every packet the device can send. *)
Definition report_room (i : USB_ClassInfo_HID_Host_t) (size : Z) : Prop :=
  if UsingBootProtocol (hh_State i) then forall t, is_u16 (respond t UPBCX) /\ respond t UPBCX <= size
  else exists info, HIDParserData (hh_Config i) = Some info /\
    if UsingReportIDs info
    then 1 <= size /\ forall id, is_u8 id ->
         exists n, USB_GetHIDReportSize info id HID_REPORT_ITEM_In = Some n /\ 1 + n <= size
    else exists n, USB_GetHIDReportSize info 0 HID_REPORT_ITEM_In = Some n /\ n <= size.

Lemma safe_report_to_read i Buffer :
  all_bytes Buffer -> report_room i (Z.of_nat (length Buffer)) ->
  safe I (report_to_read i Buffer)
    (fun '(B, pos, n) => buffer_of (Z.of_nat (length Buffer)) B /\ is_u16 n /\
       (pos <= length Buffer)%nat /\ Z.of_nat pos + n <= Z.of_nat (length Buffer)).
Proof.
  intros Hall Hroom. unfold report_to_read, report_room in *.
  destruct (UsingBootProtocol _); cbn [negb].
  - eapply safe_bind; [by apply safe_rd|]. intros n (t & ->). apply safe_ret.
    destruct (Hroom t) as [Hu ?]. repeat split; try done; try lia; apply Hu.
  - destruct Hroom as (info & Hinfo & Hroom). rewrite Hinfo. unfold parsed_report_size. rewrite Hinfo.
    destruct (UsingReportIDs info).
    + destruct Hroom as [H1 Hroom]. eapply safe_bind; [by apply safe_rd|].
      intros id (t & ->).
      destruct Buffer as [|b B]; [cbn in H1; lia|]. change (store_byte (b :: B) 0 ?x) with (Some (x :: B)).
      destruct (Hroom _ (data_register t)) as (n & Hn & Hfit). rewrite Hn. cbv iota beta.
      unfold bind, ret. intros s Hs. split; [done|]. apply report_size_u16 in Hn.
      inversion_clear Hall. repeat split; try done; try lia; try (cbn; lia).
      * by constructor.
      * apply Hn.
      * apply Hn.
    + destruct Hroom as (n & Hn & Hfit). rewrite Hn. intros s Hs. split; [done|].
      apply report_size_u16 in Hn. repeat split; try done; try lia; apply Hn.
Qed.

Lemma safe_ReceiveReport i Buffer :
  all_bytes Buffer -> report_room i (Z.of_nat (length Buffer)) ->
  safe I (HID_Host_ReceiveReport i Buffer) (fun '(_, B) => buffer_of (Z.of_nat (length Buffer)) B).
Proof.
  intros Hall Hroom. unfold HID_Host_ReceiveReport. safe_step. destruct (_ : bool); [by apply safe_ret|].
  do 2 safe_step. eapply safe_bind; [by apply safe_report_to_read|].
  intros [[B pos] n] ([HallB HlenB] & Hn & Hpos & Hfit). eapply safe_bind.
  - apply (safe_Pipe_Read_Stream I data_register (drop pos B) n None);
      [done|by apply Forall_drop|rewrite length_drop; lia|done].
  - intros [[c m] data] [[Halld Hlend] _].
    assert (buffer_of (Z.of_nat (length Buffer)) (take pos B ++ data)).
    { split; [apply Forall_app; split; [by apply Forall_take|done]|].
      rewrite length_app, length_take. cbn [snd] in Hlend. rewrite length_drop in Hlend. lia. }
    destruct c; try (by apply safe_ret). do 2 safe_step. by apply safe_ret.
Qed.
End SafeReports.

#[local] Existing Instance host_stable.

(** C19: a device cannot overflow the buffer of a report in report protocol.
    Whatever it sends and whichever interrupts arrive, [HID_Host_ReceiveReport] in
    report protocol, called with a buffer that has room for the reports of the
    parsed descriptor and their identifiers, has no undefined behaviour and leaves a
    buffer of the same size.  In boot protocol, where the driver takes the size from
    the device, the same holds under the assumption that no packet in the bank is
    larger than the buffer. *)
Theorem HID_Host_ReceiveReport_safe {E : Env} {HE : Masked} {IntApp : USB_Host_Application}
    {Law : Host_Interrupt_Law IntApp} i Buffer s :
  (forall t, is_u8 (respond t UPDATX)) ->
  all_bytes Buffer -> report_room i (Z.of_nat (length Buffer)) -> host_ok (Host s) ->
  wlp (HID_Host_ReceiveReport (H := host_interrupted E IntApp) i Buffer)
    (fun '(_, B) s' => host_ok (Host s') /\ buffer_of (Z.of_nat (length Buffer)) B) s.
Proof.
  intros Hdata Hall Hroom Hok.
  eapply wlp_mono; [|apply (safe_ReceiveReport (H := host_interrupted E IntApp) (host_inv any_host)); done].
  intros [c B] s' [[? _] ?]. done.
Qed.

(** ** The idle period

    What [set_idle] of a device takes from the request is the period in
    milliseconds, rounded down to a multiple of four and modulo 1024. *)
Lemma idle_period_received MS :
  is_u16 MS -> Z.shiftr (Z.land (idle_wValue MS) 0xFF00) 6 = MS / 4 mod 256 * 4.
Proof.
  intros Hu. unfold idle_wValue.
  transitivity (Z.shiftl (Z.land (Z.shiftr MS 2) (Z.ones 8)) 2).
  - change 0xFF00 with (Z.shiftl (Z.ones 8) 8). bitwise. replace (i + 6 - 8) with (i - 2) by lia.
    destruct (Z.ltb_spec i 2); [by rewrite !(Z.testbit_neg_r _ (i - 2)), !andb_false_r by lia|].
    rewrite Z.shiftr_spec by lia. replace (i - 2 + 2) with i by lia. replace (i + 6 - 6) with i by lia.
    destruct (Z.ltb_spec (i + 6) 16).
    + rewrite Z.ones_spec_low by lia. by rewrite !andb_true_r.
    + rewrite Z.ones_spec_high by lia. by rewrite !andb_false_r.
  - rewrite Z.land_ones, Z.shiftl_mul_pow2, Z.shiftr_div_pow2 by lia. done.
Qed.
