(* ===== verification/HIDHostSim.v ===== *)
(** * A host and the joystick

    The host driver against a simulated joystick: the device answers the requests
    of the host with the firmware's own descriptors and reports. *)
From S2P Require Import Prelude Machine Rely StdDescriptors HIDReportData Descriptors HIDParser ConfigDescriptors Endpoint ControlStream UsbController DeviceStandardReq EndpointStream HIDClass UsbInterrupt Safety Joystick ReportLayout Pipe HostController HostStandardReq HostTask HostSafety PipeStream HostConfigDescriptor HostTransfer HostEnumeration HostSim HostClass HIDClassHost.

(** ** The simulated device *)

(** The pipe selected last. *)
Fixpoint selected (t : list event) : Z :=
  match t with Wr UPNUM n :: _ => n | _ :: t => selected t | [] => 0 end.

(** The bytes written to the pipe after the last OUT or IN packet: the SETUP packet. *)
Fixpoint setup_written (t : list event) (acc : bytes) : bytes :=
  match t with
  | Wr UPDATX v :: t => if (length acc =? 8)%nat then acc else setup_written t (v :: acc)
  | _ :: t => setup_written t acc
  | [] => acc
  end.

Definition config_bytes : bytes := bytes_of_Configuration ConfigurationDescriptor.

(** What the device sends: a report on a data pipe, an answer on the control pipe. *)
Definition answer (t : list event) : bytes :=
  if selected t =? 0 then
    let req := request_of_bytes (setup_written t []) in
    let all := match Z.shiftr (wValue req) 8 with
               | 1 => bytes_of_Device DeviceDescriptor
               | 2 => config_bytes
               | 0x22 => JoystickReport
               | _ => []
               end in
    take (Z.to_nat (wLength req)) all
  else bytes_of_report sample_report.

(** The bytes of it not read yet: [reads_since_setup] on the control pipe, those
    since the pipe was selected on a data pipe. *)
Fixpoint reads_since_select (t : list event) (n : nat) : nat :=
  match t with
  | Wr UPNUM _ :: _ => n
  | Rd UPDATX _ :: t => reads_since_select t (S n)
  | _ :: t => reads_since_select t n
  | [] => n
  end.
Definition already_read (t : list event) : nat :=
  if selected t =? 0 then reads_since_setup t 0 else reads_since_select t 0.
Definition bytes_left (t : list event) : Z := Z.of_nat (length (answer t) - already_read t).

(** The frame number advances with every access. *)
Definition joystick_device (t : list event) (r : reg) : Z :=
  match r with
  | UPNUM => selected t
  | UPCFG0X => last_token t
  | UPINTX => let k := last_token t in
              let rw := if bytes_left t =? 0 then 0 else bit RWAL in
              if k =? PIPE_TOKEN_IN then
                if (selected t =? 0) || negb (bytes_left t =? 0) then Z.lor (bit RXINI) rw else 0
              else if k =? PIPE_TOKEN_OUT then Z.lor (bit TXOUTI) (bit RWAL) else bit TXSTPI
  | UPBCX => match t with
             | Rd UPINTX v :: _ => if has_bit v TXOUTI then 0 else bytes_left t
             | _ => bytes_left t
             end
  | UPDATX => nth (already_read t) (answer t) 0
  | UPSTAX => bit CFGOK
  | UHINT => Z.lor (bit HSOFI) (bit DCONNI)
  | UHFNUM => Z.of_nat (length t) mod 2048
  | UHCON => bit SOFEN
  | PLLCSR => bit PLOCK
  | _ => 0
  end.

#[export] Instance joystick_host : Env :=
  {| respond := joystick_device; async s := s; fuel := 1100 |}.
#[export] Instance joystick_host_masked : Masked (H := joystick_host).
Proof. intros s. reflexivity. Qed.

(** A HID interface of the host application, for any protocol. *)
Definition blank_pipe (Address : Z) : USB_Pipe_Table_t :=
  {| pipe_Address := Address; pipe_Size := 0; pipe_EndpointAddress := 0; pipe_Type := 0; pipe_Banks := 1 |}.
Definition hid_interface : USB_ClassInfo_HID_Host_t :=
  {| hh_Config := {| DataINPipe := blank_pipe 1; DataOUTPipe := blank_pipe 2; HIDInterfaceProtocol := 0;
                     HIDParserData := Some zero_ReportInfo |};
     hh_State := zero_HID_Host_State |}.

Definition addressed : st := set_Host (set_USB_HostState HOST_STATE_Addressed initial_host) reset_state.

(** ** A session *)

(** Read the configuration descriptor, bind the HID interface, configure the device
    and take it to report protocol; [filter] is the application's choice of items. *)
Definition bind_joystick (filter : HID_ReportItem_t -> bool) : M (list Z * USB_ClassInfo_HID_Host_t) :=
  '(c1, size, B) ← USB_Host_GetDeviceConfigDescriptor (replicate 9 0) 1 0 (replicate 64 0) 64;
  '(c2, i) ← HID_Host_ConfigurePipes B hid_interface size;
  c3 ← USB_Host_SetDeviceConfiguration 1;
  '(c4, i) ← HID_Host_SetReportProtocol 0 filter (replicate (Z.to_nat (HIDReportSize (hh_State i))) 0) i;
  ret ([c1; match c2 with HID_ENUMERROR_NoError => 0 | _ => 1 end; c3; c4], i).

Definition joystick_bound (filter : HID_ReportItem_t -> bool) : option (list Z * USB_ClassInfo_HID_Host_t * st) :=
  match bind_joystick filter addressed with Done (c, i) s => Some (c, i, s) | _ => None end.

(** The session succeeds: the interface is active with the endpoint and the sizes
    of the firmware's descriptors, and six items of the report are known. *)
Example joystick_is_bound :
  match joystick_bound keep_axes with
  | Some (codes, i, s) =>
      codes = [0; 0; 0; 0] /\ USB_HostState (Host s) = HOST_STATE_Configured /\
      IsActive (hh_State i) = true /\
      pipe_EndpointAddress (DataINPipe (hh_Config i)) = JOYSTICK_IN_EPADDR /\
      HIDReportSize (hh_State i) = sizeof_JoystickReport /\
      option_map TotalReportItems (HIDParserData (hh_Config i)) = Some 6%nat
  | None => False
  end.
Proof. vm_compute. done. Qed.

(** The report descriptor announces two bytes more than the device sends, so that
    the library's own host waits for a second packet until it times out. *)
Example joystick_report_times_out :
  match joystick_bound keep_axes with
  | Some (_, i, s) =>
      match HID_Host_ReceiveReport i (replicate 40 0) s with
      | Done (code, _) _ => code = pipe_stream_code PIPE_RWSTREAM_Timeout
      | _ => False
      end
  | None => False
  end.
Proof. vm_compute. done. Qed.

(** In boot protocol the driver trusts the device for the size of a report: one
    longer than [LargestReportSize] is written past the end of the buffer. *)
Example boot_report_overflows :
  match joystick_bound keep_axes with
  | Some (_, i, s) =>
      let i := set_UsingBootProtocol true (set_LargestReportSize 8 i) in
      HID_Host_ReceiveReport i (replicate (Z.to_nat (LargestReportSize (hh_State i))) 0) s = Undefined
  | None => False
  end.
Proof. vm_compute. done. Qed.

(** ** Witnesses *)

Definition parsed_joystick : USB_ClassInfo_HID_Host_t :=
  match joystick_bound keep_axes with Some (_, i, _) => i | None => hid_interface end.

(** The host once the joystick is configured. *)
Definition joystick_configured : st :=
  match joystick_bound keep_axes with Some (_, _, s) => s | None => reset_state end.

Lemma joystick_configured_ok : host_ok (Host joystick_configured).
Proof.
  assert (E : Host joystick_configured =
    set_USB_HostState HOST_STATE_Configured (set_USB_Host_ConfigurationNumber 1 initial_host))
    by (vm_compute; reflexivity).
  rewrite E. clear E. constructor; vm_compute; try done. by left.
Qed.

Lemma answer_bytes t : all_bytes (answer t).
Proof.
  unfold answer. case_match; [apply Forall_take|by vm_compute; repeat constructor].
  by repeat case_match; vm_compute; repeat constructor.
Qed.

Lemma joystick_data t : is_u8 (respond (Env := joystick_host) t UPDATX).
Proof.
  cbn [respond joystick_host joystick_device].
  destruct (nth_in_or_default (already_read t) (answer t) 0) as [Hin| ->]; [|done].
  by eapply List.Forall_forall; [apply answer_bytes|exact Hin].
Qed.

Definition report_received : M (Z * bytes) :=
  HID_Host_ReceiveReport (H := host_interrupted joystick_host idle_host_app) parsed_joystick (replicate 34 0).

(** The report of the joystick arrives, but the two bytes more that its descriptor
    announces do not. *)
Example joystick_report_arrives :
  match report_received joystick_configured with
  | Done (code, B) _ =>
      code = pipe_stream_code PIPE_RWSTREAM_Timeout /\ take 32 B = bytes_of_report sample_report
  | _ => False
  end.
Proof. vm_compute. done. Qed.

Lemma joystick_room : report_room parsed_joystick (Z.of_nat (length (replicate 34 0))).
Proof.
  unfold report_room. assert (Hb : UsingBootProtocol (hh_State parsed_joystick) = false) by (vm_compute; done).
  rewrite Hb. eexists. split; [vm_compute; reflexivity|]. eexists. split; [vm_compute; reflexivity|done].
Qed.

Lemma HID_Host_ReceiveReport_safe_witness :
  wlp report_received
    (fun '(_, B) s' => host_ok (Host s') /\ buffer_of (Z.of_nat (length (replicate 34 0))) B) joystick_configured.
Proof.
  apply (HID_Host_ReceiveReport_safe (E := joystick_host) (IntApp := idle_host_app)
           parsed_joystick (replicate 34 0) joystick_configured).
  - exact joystick_data.
  - by repeat constructor.
  - exact joystick_room.
  - exact joystick_configured_ok.
Defined.

Lemma USB_Host_GetDeviceConfigDescriptor_safe_witness :
  wlp (USB_Host_GetDeviceConfigDescriptor (H := host_interrupted attached_host idle_host_app)
         (replicate 9 0) 1 0 (replicate 64 0) 64)
    (fun '(code, size, B) s' => host_ok (Host s') /\ buffer_of 64 B /\
       (code <> HOST_GETCONFIG_BuffOverflow -> 0 <= size <= 64)) enumerating.
Proof.
  apply (USB_Host_GetDeviceConfigDescriptor_safe (E := attached_host)).
  - intros t. apply device_bytes_u8.
  - split; [by repeat constructor|done].
  - by repeat constructor.
  - done.
  - done.
  - done.
  - exact enumerating_ok.
Defined.
