(* ===== verification/MassStorageClassHost.v ===== *)
(** * The mass storage class driver of a host

    [LUFA/Drivers/USB/Class/Host/MassStorageClassHost.c] and [.h]: the bulk-only
    transport from the side of the host.  Command and status wrappers are lists of
    bytes, as in [MassStorageClass]; the interface structure is passed and
    returned; a buffer is the object a pointer leads to, [None] for [NULL]. *)
From S2P Require Import Prelude Machine Rely CommonUtil StdDescriptors Descriptors ConfigDescriptors Endpoint ControlStream UsbController DeviceStandardReq EndpointStream MassStorageClass UsbInterrupt Safety Pipe HostController HostStandardReq HostTask HostSafety PipeStream HostTransfer PipeWait HostClass.

Definition MS_ERROR_LOGICAL_CMD_FAILED := 0x80.
Definition MS_COMMAND_DATA_TIMEOUT_MS := 10000.
Definition MS_COMMAND_DIR_DATA_OUT := Z.shiftl 0 7.
Definition MS_CSCP_MassStorageClass := 0x08.
Definition MS_CSCP_SCSITransparentSubclass := 0x06.
Definition MS_CSCP_BulkOnlyTransportProtocol := 0x50.
Definition SCSI_CMD_INQUIRY := 0x12.
Definition SCSI_CMD_REQUEST_SENSE := 0x03.
Definition SCSI_CMD_TEST_UNIT_READY := 0x00.
Definition SCSI_CMD_READ_CAPACITY_10 := 0x25.
Definition SCSI_CMD_PREVENT_ALLOW_MEDIUM_REMOVAL := 0x1E.
Definition SCSI_CMD_WRITE_10 := 0x2A.
Definition SCSI_CMD_READ_10 := 0x28.
Definition sizeof_SCSI_Inquiry_Response_t := 36.
Definition sizeof_SCSI_Request_Sense_Response_t := 18.
Definition sizeof_SCSI_Capacity_t := 8.

(** [enum MS_Host_EnumerationFailure_ErrorCodes_t] *)
Inductive MS_Host_EnumerationFailure_ErrorCodes_t : Set :=
  | MS_ENUMERROR_NoError
  | MS_ENUMERROR_InvalidConfigDescriptor
  | MS_ENUMERROR_NoCompatibleInterfaceFound
  | MS_ENUMERROR_PipeConfigurationFailed.

(** [USB_ClassInfo_MS_Host_t] *)
Record USB_ClassInfo_MS_Host_t := {
  mh_DataINPipe : USB_Pipe_Table_t;
  mh_DataOUTPipe : USB_Pipe_Table_t;
  mh_IsActive : bool;
  mh_InterfaceNumber : Z;
  TransactionTag : Z
}.

Definition set_mh_State (active : bool) (n tag : Z) (i : USB_ClassInfo_MS_Host_t) :=
  {| mh_DataINPipe := mh_DataINPipe i; mh_DataOUTPipe := mh_DataOUTPipe i; mh_IsActive := active;
     mh_InterfaceNumber := n; TransactionTag := tag |}.
Definition set_mh_Pipes (IN OUT : USB_Pipe_Table_t) (i : USB_ClassInfo_MS_Host_t) :=
  {| mh_DataINPipe := IN; mh_DataOUTPipe := OUT; mh_IsActive := mh_IsActive i;
     mh_InterfaceNumber := mh_InterfaceNumber i; TransactionTag := TransactionTag i |}.
Definition set_TransactionTag (tag : Z) (i : USB_ClassInfo_MS_Host_t) :=
  set_mh_State (mh_IsActive i) (mh_InterfaceNumber i) tag i.

(** ** Binding an interface *)

Section MSHostPipes.
Context `{Env} (Data : bytes).

Definition DCOMP_MS_Host_NextMSInterface : Z -> M DSearch_Return_ErrorCodes_t :=
  next_interface_of Data MS_CSCP_MassStorageClass MS_CSCP_SCSITransparentSubclass
    MS_CSCP_BulkOnlyTransportProtocol.

Definition DCOMP_MS_Host_NextMSInterfaceEndpoint : Z -> M DSearch_Return_ErrorCodes_t :=
  next_endpoint_of Data bulk_type true.

Definition MS_Host_ConfigurePipes (i : USB_ClassInfo_MS_Host_t) (ConfigDescriptorSize : Z)
    : M (MS_Host_EnumerationFailure_ErrorCodes_t * USB_ClassInfo_MS_Host_t) :=
  let i := set_mh_State false 0 0 i in
  t ← field8 Data 0 hdr_Type_offset;
  if negb (t =? DTYPE_Configuration) then ret (MS_ENUMERROR_InvalidConfigDescriptor, i)
  else
    r ← search_data_endpoints Data DCOMP_MS_Host_NextMSInterfaceEndpoint DCOMP_MS_Host_NextMSInterface
          ConfigDescriptorSize;
    match r with
    | None => ret (MS_ENUMERROR_NoCompatibleInterfaceFound, i)
    | Some {| es_IN := Some IN; es_OUT := Some OUT; es_Interface := Some MassStorageInterface |} =>
        eIN ← pipe_for Data EP_TYPE_BULK IN (mh_DataINPipe i);
        eOUT ← pipe_for Data EP_TYPE_BULK OUT (mh_DataOUTPipe i);
        let i := set_mh_Pipes eIN eOUT i in
        ok ← configure_pipes [eIN; eOUT];
        if negb ok then ret (MS_ENUMERROR_PipeConfigurationFailed, i)
        else
          n ← field8 Data MassStorageInterface if_InterfaceNumber_offset;
          ret (MS_ENUMERROR_NoError, set_mh_State true n (TransactionTag i) i)
    | Some _ => undefined
    end.
End MSHostPipes.

(** ** The bulk-only transport *)

Section MSHostTransport.
Context `{Env}.

(** [if (++TransactionTag == 0xFFFFFFFF) TransactionTag = 1;] *)
Definition next_tag (tag : Z) : Z :=
  let tag := u32 (tag + 1) in if tag =? 0xFFFFFFFF then 1 else tag.

(** [Signature] and [Tag] of a command block are set. *)
Definition stamped (tag : Z) (SCSICommandBlock : bytes) : bytes :=
  le_bytes 4 MS_CBW_SIGNATURE ++ le_bytes 4 tag ++ drop 8 SCSICommandBlock.

(** The part of [MS_Host_SendCommand] that sends the command block. *)
Definition send_command_block (i : USB_ClassInfo_MS_Host_t) (SCSICommandBlock : bytes)
    : M Pipe_Stream_RW_ErrorCodes_t :=
  Pipe_SelectPipe (pipe_Address (mh_DataOUTPipe i)) ;;
  Pipe_Unfreeze ;;
  '(ErrorCode, _) ← Pipe_Write_Stream_LE SCSICommandBlock sizeof_MS_CommandBlockWrapper_t None;
  match ErrorCode with
  | PIPE_RWSTREAM_NoError =>
      Pipe_ClearOUT ;;
      Pipe_WaitUntilReady ;;
      Pipe_Freeze ;;
      ret PIPE_RWSTREAM_NoError
  | _ => ret ErrorCode
  end.

Definition MS_Host_WaitForDataReceived (i : USB_ClassInfo_MS_Host_t) : M Pipe_Stream_RW_ErrorCodes_t :=
  let IN := pipe_Address (mh_DataINPipe i) in
  let OUT := pipe_Address (mh_DataOUTPipe i) in
  PreviousFrameNumber ← USB_Host_GetFrameNumber;
  Pipe_SelectPipe IN ;;
  Pipe_Unfreeze ;;
  ErrorCode ← loop fuel (wait_data_round IN OUT) (MS_COMMAND_DATA_TIMEOUT_MS, PreviousFrameNumber);
  match ErrorCode with
  | PIPE_RWSTREAM_NoError =>
      Pipe_SelectPipe IN ;;
      Pipe_Freeze ;;
      Pipe_SelectPipe OUT ;;
      Pipe_Freeze ;;
      ret PIPE_RWSTREAM_NoError
  | _ => ret ErrorCode
  end.

(** [while (!(Pipe_IsOUTReady()))]: [false] if the device was disconnected. *)
Definition await_OUT_attached : M bool :=
  loop fuel (fun _ : unit =>
    ready ← Pipe_IsOUTReady;
    if (ready : bool) then ret (inr true)
    else
      state ← get_HostState;
      ret (if state =? HOST_STATE_Unattached then inr false else inl tt)) tt.

(** [BytesRem] has 16 bits. *)
Definition transfer_length (SCSICommandBlock : bytes) : Z :=
  u16 (le_val (cbw_DataTransferLength SCSICommandBlock)).

Definition MS_Host_SendReceiveData (i : USB_ClassInfo_MS_Host_t) (SCSICommandBlock Buffer : bytes)
    : M (Pipe_Stream_RW_ErrorCodes_t * bytes) :=
  let BytesRem := transfer_length SCSICommandBlock in
  if negb (Z.land (cbw_Flags SCSICommandBlock) MS_COMMAND_DIR_DATA_IN =? 0) then
    ErrorCode ← MS_Host_WaitForDataReceived i;
    match ErrorCode with
    | PIPE_RWSTREAM_NoError =>
        Pipe_SelectPipe (pipe_Address (mh_DataINPipe i)) ;;
        Pipe_Unfreeze ;;
        '(ErrorCode, _, Buffer) ← Pipe_Read_Stream_LE Buffer BytesRem None;
        match ErrorCode with
        | PIPE_RWSTREAM_NoError => Pipe_ClearIN ;; Pipe_Freeze ;; ret (PIPE_RWSTREAM_NoError, Buffer)
        | _ => ret (ErrorCode, Buffer)
        end
    | _ => Pipe_Freeze ;; ret (ErrorCode, Buffer)
    end
  else
    Pipe_SelectPipe (pipe_Address (mh_DataOUTPipe i)) ;;
    Pipe_Unfreeze ;;
    '(ErrorCode, _) ← Pipe_Write_Stream_LE Buffer BytesRem None;
    match ErrorCode with
    | PIPE_RWSTREAM_NoError =>
        Pipe_ClearOUT ;;
        attached ← await_OUT_attached;
        if negb attached then ret (PIPE_RWSTREAM_DeviceDisconnected, Buffer)
        else Pipe_Freeze ;; ret (PIPE_RWSTREAM_NoError, Buffer)
    | _ => ret (ErrorCode, Buffer)
    end.

(** [SCSICommandStatus] is what the status wrapper holds at first. *)
Definition MS_Host_GetReturnedStatus (i : USB_ClassInfo_MS_Host_t) (SCSICommandStatus : bytes) : M Z :=
  ErrorCode ← MS_Host_WaitForDataReceived i;
  match ErrorCode with
  | PIPE_RWSTREAM_NoError =>
      Pipe_SelectPipe (pipe_Address (mh_DataINPipe i)) ;;
      Pipe_Unfreeze ;;
      '(ErrorCode, _, SCSICommandStatus) ←
        Pipe_Read_Stream_LE SCSICommandStatus sizeof_MS_CommandStatusWrapper_t None;
      match ErrorCode with
      | PIPE_RWSTREAM_NoError =>
          Pipe_ClearIN ;;
          Pipe_Freeze ;;
          match load_byte SCSICommandStatus 12 with
          | Some status => ret (if negb (status =? MS_SCSI_COMMAND_Pass) then MS_ERROR_LOGICAL_CMD_FAILED
                                else pipe_stream_code PIPE_RWSTREAM_NoError)
          | None => undefined
          end
      | _ => ret (pipe_stream_code ErrorCode)
      end
  | _ => ret (pipe_stream_code ErrorCode)
  end.

(** [if (BufferPtr != NULL)]: [None] if the command goes on to its status. *)
Definition ms_data_stage (i : USB_ClassInfo_MS_Host_t) (SCSICommandBlock : bytes) (Buffer : option bytes)
    : M (option Z * option bytes) :=
  match Buffer with
  | None => ret (None, None)
  | Some B =>
      '(ErrorCode, B) ← MS_Host_SendReceiveData i SCSICommandBlock B;
      match ErrorCode with
      | PIPE_RWSTREAM_NoError | PIPE_RWSTREAM_PipeStalled => ret (None, Some B)
      | _ => Pipe_Freeze ;; ret (Some (pipe_stream_code ErrorCode), Some B)
      end
  end.

(** [SCSIStatusBlock] is the uninitialised local. *)
Definition MS_Host_SendCommand (SCSIStatusBlock : bytes) (i : USB_ClassInfo_MS_Host_t)
    (SCSICommandBlock : bytes) (Buffer : option bytes)
    : M (Z * USB_ClassInfo_MS_Host_t * option bytes) :=
  let i := set_TransactionTag (next_tag (TransactionTag i)) i in
  let SCSICommandBlock := stamped (TransactionTag i) SCSICommandBlock in
  ErrorCode ← send_command_block i SCSICommandBlock;
  match ErrorCode with
  | PIPE_RWSTREAM_NoError =>
      '(failed, Buffer) ← ms_data_stage i SCSICommandBlock Buffer;
      match failed with
      | Some code => ret (code, i, Buffer)
      | None => code ← MS_Host_GetReturnedStatus i SCSIStatusBlock; ret (code, i, Buffer)
      end
  | _ => ret (pipe_stream_code ErrorCode, i, Buffer)
  end.

(** ** Class requests *)

Definition MS_Host_ResetMSInterface (i : USB_ClassInfo_MS_Host_t) : M Z :=
  '(ErrorCode, _) ← send_request class_request_out MS_REQ_MassStorageReset 0 (mh_InterfaceNumber i) 0 None;
  if negb (ErrorCode =? HOST_SENDCONTROL_Successful) then ret ErrorCode
  else
    Pipe_SelectPipe (pipe_Address (mh_DataINPipe i)) ;;
    a ← Pipe_GetBoundEndpointAddress;
    '(ErrorCode, _) ← USB_Host_ClearEndpointStall a;
    if negb (ErrorCode =? HOST_SENDCONTROL_Successful) then ret ErrorCode
    else
      Pipe_SelectPipe (pipe_Address (mh_DataOUTPipe i)) ;;
      a ← Pipe_GetBoundEndpointAddress;
      '(ErrorCode, _) ← USB_Host_ClearEndpointStall a;
      if negb (ErrorCode =? HOST_SENDCONTROL_Successful) then ret ErrorCode
      else ret HOST_SENDCONTROL_Successful.

(** [MaxLUNIndex] is the byte the pointer leads to. *)
Definition MS_Host_GetMaxLUN (i : USB_ClassInfo_MS_Host_t) (MaxLUNIndex : bytes)
    : M (Z * option bytes) :=
  '(ErrorCode, MaxLUNIndex) ←
    send_request (Z.lor (Z.lor REQDIR_DEVICETOHOST REQTYPE_CLASS) REQREC_INTERFACE) MS_REQ_GetMaxLUN 0
      (mh_InterfaceNumber i) 1 (Some MaxLUNIndex);
  if ErrorCode =? HOST_SENDCONTROL_SetupStalled then
    match store_byte (default [] MaxLUNIndex) 0 0 with
    | Some MaxLUNIndex => ret (HOST_SENDCONTROL_Successful, Some MaxLUNIndex)
    | None => undefined
    end
  else ret (ErrorCode, MaxLUNIndex).
End MSHostTransport.

(** ** SCSI commands *)

(** [(MS_CommandBlockWrapper_t){ ... }]: the members not named are zero. *)
Definition command_block (DataTransferLength Flags LUN SCSICommandLength : Z) (SCSICommandData : bytes)
    : bytes :=
  replicate 8 0 ++ le_bytes 4 DataTransferLength ++ [Flags; LUN; SCSICommandLength] ++
  SCSICommandData ++ replicate (16 - length SCSICommandData) 0.

Definition inquiry_block (LUNIndex : Z) : bytes :=
  command_block sizeof_SCSI_Inquiry_Response_t MS_COMMAND_DIR_DATA_IN LUNIndex 6
    [SCSI_CMD_INQUIRY; 0; 0; 0; sizeof_SCSI_Inquiry_Response_t; 0].
Definition test_unit_ready_block (LUNIndex : Z) : bytes :=
  command_block 0 MS_COMMAND_DIR_DATA_IN LUNIndex 6 [SCSI_CMD_TEST_UNIT_READY; 0; 0; 0; 0; 0].
Definition read_capacity_block (LUNIndex : Z) : bytes :=
  command_block sizeof_SCSI_Capacity_t MS_COMMAND_DIR_DATA_IN LUNIndex 10
    [SCSI_CMD_READ_CAPACITY_10; 0; 0; 0; 0; 0; 0; 0; 0; 0].
Definition request_sense_block (LUNIndex : Z) : bytes :=
  command_block sizeof_SCSI_Request_Sense_Response_t MS_COMMAND_DIR_DATA_IN LUNIndex 6
    [SCSI_CMD_REQUEST_SENSE; 0; 0; 0; sizeof_SCSI_Request_Sense_Response_t; 0].
Definition medium_removal_block (LUNIndex : Z) (PreventRemoval : bool) : bytes :=
  command_block 0 MS_COMMAND_DIR_DATA_OUT LUNIndex 6
    [SCSI_CMD_PREVENT_ALLOW_MEDIUM_REMOVAL; 0; 0; if PreventRemoval then 1 else 0; 0; 0].
Definition blocks_block (Command Flags LUNIndex BlockAddress Blocks BlockSize : Z) : bytes :=
  command_block (u32 (Blocks * BlockSize)) Flags LUNIndex 10
    [Command; 0; u8 (Z.shiftr BlockAddress 24); u8 (Z.shiftr BlockAddress 16);
     u8 (Z.shiftr BlockAddress 8); u8 (Z.land BlockAddress 0xFF); 0; 0; Blocks; 0].
Definition read_blocks_block := blocks_block SCSI_CMD_READ_10 MS_COMMAND_DIR_DATA_IN.
Definition write_blocks_block := blocks_block SCSI_CMD_WRITE_10 MS_COMMAND_DIR_DATA_OUT.

Section MSHostCommands.
Context `{Env} (SCSIStatusBlock : bytes).

(** [if ((USB_HostState != HOST_STATE_Configured) || !(State.IsActive)) return
    HOST_SENDCONTROL_DeviceDisconnected;] *)
Definition unless_gone (i : USB_ClassInfo_MS_Host_t) (Buffer : option bytes)
    (m : M (Z * USB_ClassInfo_MS_Host_t * option bytes))
    : M (Z * USB_ClassInfo_MS_Host_t * option bytes) :=
  state ← get_HostState;
  if negb (state =? HOST_STATE_Configured) || negb (mh_IsActive i)
  then ret (HOST_SENDCONTROL_DeviceDisconnected, i, Buffer)
  else m.

Definition MS_Host_GetInquiryData (i : USB_ClassInfo_MS_Host_t) (LUNIndex : Z) (InquiryData : bytes) :=
  unless_gone i (Some InquiryData)
    (MS_Host_SendCommand SCSIStatusBlock i (inquiry_block LUNIndex) (Some InquiryData)).

Definition MS_Host_TestUnitReady (i : USB_ClassInfo_MS_Host_t) (LUNIndex : Z) :=
  unless_gone i None (MS_Host_SendCommand SCSIStatusBlock i (test_unit_ready_block LUNIndex) None).

(** The members of [SCSI_Capacity_t] in the byte order of the processor. *)
Definition capacity_to_cpu (DeviceCapacity : bytes) : bytes :=
  le_bytes 4 (SWAPENDIAN_32 (le_val (member 0 4 DeviceCapacity))) ++
  le_bytes 4 (SWAPENDIAN_32 (le_val (member 4 4 DeviceCapacity))) ++ drop 8 DeviceCapacity.

Definition MS_Host_ReadDeviceCapacity (i : USB_ClassInfo_MS_Host_t) (LUNIndex : Z)
    (DeviceCapacity : bytes) :=
  unless_gone i (Some DeviceCapacity) (
    '(ErrorCode, i, Buffer) ←
      MS_Host_SendCommand SCSIStatusBlock i (read_capacity_block LUNIndex) (Some DeviceCapacity);
    if negb (ErrorCode =? pipe_stream_code PIPE_RWSTREAM_NoError) then ret (ErrorCode, i, Buffer)
    else ret (pipe_stream_code PIPE_RWSTREAM_NoError, i, option_map capacity_to_cpu Buffer)).

Definition MS_Host_RequestSense (i : USB_ClassInfo_MS_Host_t) (LUNIndex : Z) (SenseData : bytes) :=
  unless_gone i (Some SenseData)
    (MS_Host_SendCommand SCSIStatusBlock i (request_sense_block LUNIndex) (Some SenseData)).

Definition MS_Host_PreventAllowMediumRemoval (i : USB_ClassInfo_MS_Host_t) (LUNIndex : Z)
    (PreventRemoval : bool) :=
  unless_gone i None
    (MS_Host_SendCommand SCSIStatusBlock i (medium_removal_block LUNIndex PreventRemoval) None).

Definition MS_Host_ReadDeviceBlocks (i : USB_ClassInfo_MS_Host_t)
    (LUNIndex BlockAddress Blocks BlockSize : Z) (BlockBuffer : bytes) :=
  unless_gone i (Some BlockBuffer)
    (MS_Host_SendCommand SCSIStatusBlock i
       (read_blocks_block LUNIndex BlockAddress Blocks BlockSize) (Some BlockBuffer)).

Definition MS_Host_WriteDeviceBlocks (i : USB_ClassInfo_MS_Host_t)
    (LUNIndex BlockAddress Blocks BlockSize : Z) (BlockBuffer : bytes) :=
  unless_gone i (Some BlockBuffer)
    (MS_Host_SendCommand SCSIStatusBlock i
       (write_blocks_block LUNIndex BlockAddress Blocks BlockSize) (Some BlockBuffer)).
End MSHostCommands.

(** ** Command blocks on the wire *)

(** The command blocks of the functions above, for the unit [LUN]. *)
Inductive host_command (LUN : Z) : bytes -> Prop :=
  | cmd_inquiry : host_command LUN (inquiry_block LUN)
  | cmd_test_unit_ready : host_command LUN (test_unit_ready_block LUN)
  | cmd_read_capacity : host_command LUN (read_capacity_block LUN)
  | cmd_request_sense : host_command LUN (request_sense_block LUN)
  | cmd_medium_removal prevent : host_command LUN (medium_removal_block LUN prevent)
  | cmd_read_blocks address blocks size : is_u8 blocks ->
      host_command LUN (read_blocks_block LUN address blocks size)
  | cmd_write_blocks address blocks size : is_u8 blocks ->
      host_command LUN (write_blocks_block LUN address blocks size).

(** What a command block consists of. *)
Lemma host_command_fields LUN block :
  host_command LUN block -> is_u8 LUN ->
  exists len flags n data, block = command_block len flags LUN n data /\
    (flags = MS_COMMAND_DIR_DATA_IN \/ flags = MS_COMMAND_DIR_DATA_OUT) /\ 1 <= n <= 16 /\
    all_bytes data /\ (length data <= 16)%nat.
Proof.
  intros Hc HL. destruct Hc as [| | | |[]|address blocks size Hb|address blocks size Hb];
    eexists _, _, _, _; (split; [reflexivity|]); (split; [by (left + right)|]); (split; [done|]);
    (split; [|cbn; lia]); repeat constructor; try done; try apply wrap_fits; try lia; apply Hb.
Qed.

Lemma length_command_block len flags LUN n data :
  (length data <= 16)%nat -> length (command_block len flags LUN n data) = 31%nat.
Proof. intros Hd. unfold command_block. rewrite !length_app, length_le_bytes, !length_replicate. cbn. lia. Qed.

Lemma all_bytes_stamped tag len flags LUN n data :
  is_u8 flags -> is_u8 LUN -> is_u8 n -> all_bytes data ->
  all_bytes (stamped tag (command_block len flags LUN n data)).
Proof.
  intros Hf HL Hn Hd. unfold stamped, command_block, all_bytes.
  rewrite drop_app_length' by done. do 3 (apply Forall_app; split; [apply le_bytes_all|]).
  apply Forall_app; split; [do 3 (apply Forall_cons_2; [done|]); by constructor|].
  apply Forall_app; split; [done|]. by apply Forall_replicate.
Qed.

Lemma next_tag_range tag : 0 <= tag < 0xFFFFFFFF -> 1 <= next_tag tag < 0xFFFFFFFF.
Proof. intros Ht. unfold next_tag. rewrite wrap_id by (unfold fits; lia). destruct (Z.eqb_spec (tag + 1) 0xFFFFFFFF); lia. Qed.

(** The members the device checks. *)
Lemma stamped_members tag len flags LUN n data :
  let cbw := stamped tag (command_block len flags LUN n data) in
  cbw_Signature cbw = MS_CBW_SIGNATURE /\ cbw_Tag cbw = le_bytes 4 tag /\
  cbw_DataTransferLength cbw = le_bytes 4 len /\ cbw_Flags cbw = flags /\ cbw_LUN cbw = LUN /\
  cbw_SCSICommandLength cbw = n.
Proof.
  repeat split; unfold cbw_Signature, cbw_Flags, cbw_LUN, cbw_SCSICommandLength; cbn; rewrite ?take_0; cbn; rewrite ?Z.lor_0_r; try done.
Qed.

(** A stream preceded, or if it was written whole followed, by accesses that move
    no data. *)
Lemma write_outcome_after h B Length c l l0 :
  silent l0 -> write_outcome h B Length c l -> write_outcome h B Length c (l ++ l0).
Proof.
  intros [Hw _]. unfold write_outcome. rewrite pipe_writes_app, Hw. cbn [app].
  destruct c; try done; intros [Hp Hf]; (split; [exact Hp|]); try done; cbn in *.
  - by apply seen_app_l.
  - destruct Hf as (l1 & l2 & l3 & -> & Hc). exists l1, l2, (l3 ++ l0). by rewrite <- !app_assoc.
Qed.

Lemma write_outcome_silent h B Length l l' :
  write_outcome h B Length PIPE_RWSTREAM_NoError l -> silent l' ->
  write_outcome h B Length PIPE_RWSTREAM_NoError (l' ++ l).
Proof. cbn. intros Hw [Hw' _]. by rewrite pipe_writes_app, Hw, Hw', app_nil_r. Qed.

Lemma send_command_block_spec `{Masked} K i cbw s :
  pipe_controller K -> (101 * (K + 1) < fuel)%nat -> (62 < fuel)%nat ->
  all_bytes cbw -> length cbw = 31%nat ->
  wp (send_command_block i cbw) (fun c s' => exists l, runs l s s' /\
    write_outcome (USB_HostState (Host s)) cbw sizeof_MS_CommandBlockWrapper_t c l) s.
Proof.
  intros pc Hf1 Hf2 Hall Hlen. unfold send_command_block. rewrite wp_bind.
  eapply (silently_then _ s []); [unfold Pipe_SelectPipe; auto with quiet|apply runs_refl|].
  intros _ l1 s1 Hr1 Hs1. rewrite app_nil_r in Hr1. rewrite wp_bind.
  eapply silently_then; [unfold Pipe_Unfreeze; auto with quiet|exact Hr1|]. intros _ l2 s2 Hr2 Hs2. rewrite wp_bind.
  eapply wp_mono; [|apply (Write_Stream_spec K pc s2 cbw sizeof_MS_CommandBlockWrapper_t); try done; rewrite Hlen; done].
  intros [c n] s3 (l3 & Hr3 & Hout). cbn [fst] in Hout. rewrite (runs_Host s _ _ Hr2) in Hout.
  apply (write_outcome_after _ _ _ _ _ _ (silent_app _ _ Hs2 Hs1)) in Hout.
  assert (Hr : runs (l3 ++ l2 ++ l1) s s3) by (by eapply runs_trans).
  destruct c; try (rewrite wp_ret; by eexists). rewrite wp_bind.
  eapply silently_then; [unfold Pipe_ClearOUT; auto with quiet|exact Hr|]. intros _ l4 s4 Hr4 Hs4. rewrite wp_bind.
  eapply wp_mono; [|by apply (Pipe_WaitUntilReady_spec K pc)]. intros c s5 (l5 & Hr5 & Hl5 & _). rewrite wp_bind.
  eapply silently_then; [unfold Pipe_Freeze; auto with quiet|exact (runs_trans _ _ _ _ _ Hr4 Hr5)|]. intros _ l6 s6 Hr6 Hs6.
  rewrite wp_ret. eexists. split; [exact Hr6|]. apply only_reads_silent in Hl5. by do 3 (apply write_outcome_silent; [|done]).
Qed.


(** ** Safety of commands *)

Section SafeCommands.
Context `{Env} (I : st -> Prop) `{!Stable I}.
Hypothesis data_register : forall t, is_u8 (respond t UPDATX).
Hypothesis runs_ClearEndpointStall : forall a, runs_safely I (USB_Host_ClearEndpointStall a).

Lemma runs_WaitForDataReceived i : runs_safely I (MS_Host_WaitForDataReceived i).
Proof.
  pose proof runs_ClearEndpointStall.
  assert (runs_safely I clear_if_stalled) by (unfold clear_if_stalled; safely).
  unfold MS_Host_WaitForDataReceived, wait_data_round. safely.
Qed.

Lemma runs_Write_Stream_pipe Buffer Length :
  is_u16 Length -> Length <= Z.of_nat (length Buffer) ->
  runs_safely I (Pipe_Write_Stream_LE Buffer Length None).
Proof. intros HL Hfit. eapply safe_mono; [|by apply safe_Pipe_Write_Stream]. done. Qed.

Lemma safe_SendReceiveData i block Buffer :
  all_bytes Buffer -> transfer_length block <= Z.of_nat (length Buffer) ->
  safe I (MS_Host_SendReceiveData i block Buffer) (fun '(_, B) => buffer_of (Z.of_nat (length Buffer)) B).
Proof.
  intros Hall Hfit. assert (Hu : is_u16 (transfer_length block)) by (apply wrap_fits; lia).
  unfold MS_Host_SendReceiveData. destruct (negb _).
  - apply safe_seq; [apply runs_WaitForDataReceived|]. intros c.
    destruct c; try (safe_step; by apply safe_ret). do 2 safe_step.
    eapply safe_bind; [by apply (safe_Pipe_Read_Stream I data_register Buffer _ None)|].
    intros [[c n] B] [HB _]. destruct c; try (by apply safe_ret). do 2 safe_step. by apply safe_ret.
  - do 2 safe_step. apply safe_seq; [by apply runs_Write_Stream_pipe|]. intros [c n].
    destruct c; try (by apply safe_ret). safe_step.
    apply safe_seq; [unfold await_OUT_attached; safely|]. intros attached.
    destruct (negb attached); [by apply safe_ret|]. safe_step. by apply safe_ret.
Qed.

Lemma runs_GetReturnedStatus i status :
  buffer_of sizeof_MS_CommandStatusWrapper_t status -> runs_safely I (MS_Host_GetReturnedStatus i status).
Proof.
  intros [Hall Hlen]. unfold MS_Host_GetReturnedStatus. apply safe_seq; [apply runs_WaitForDataReceived|].
  intros c. destruct c; try (by apply safe_ret). do 2 safe_step.
  eapply safe_bind; [by apply (safe_Pipe_Read_Stream I data_register status _ None); [..|rewrite Hlen|]|].
  intros [[c n] B] [[HallB HlenB] _]. cbn [snd] in HlenB. destruct c; try (by apply safe_ret). do 2 safe_step.
  unfold load_byte. cbn [Z.leb]. destruct (lookup_lt_is_Some_2 B (Z.to_nat 12)) as [x Hx].
  { unfold sizeof_MS_CommandStatusWrapper_t in *. lia. }
  cbn in Hx |- *. rewrite Hx. by apply safe_ret.
Qed.

Lemma transfer_length_stamped tag block : transfer_length (stamped tag block) = transfer_length block.
Proof. unfold transfer_length, cbw_DataTransferLength, member, stamped. by rewrite app_assoc, drop_app_length'. Qed.

Lemma safe_ms_data_stage i block Buffer :
  buffer_for (transfer_length block) Buffer ->
  safe I (ms_data_stage i block Buffer) (fun '(_, B) => same_object Buffer B).
Proof.
  intros Hb. unfold ms_data_stage. destruct Buffer as [B|]; [|by apply safe_ret]. destruct Hb as [Hall Hfit].
  eapply safe_bind; [by apply safe_SendReceiveData|]. intros [c B'] HB.
  destruct c; try (by apply safe_ret); safe_step; by apply safe_ret.
Qed.

Lemma safe_SendCommand status i block Buffer :
  buffer_of sizeof_MS_CommandStatusWrapper_t status -> length block = 31%nat ->
  buffer_for (transfer_length block) Buffer ->
  safe I (MS_Host_SendCommand status i block Buffer) (fun '(_, i', B) =>
    same_object Buffer B /\ TransactionTag i' = next_tag (TransactionTag i)).
Proof.
  intros Hst Hlen Hb. unfold MS_Host_SendCommand. set (tag := next_tag _).
  set (j := set_TransactionTag tag i). change (TransactionTag j) with tag.
  apply safe_seq.
  - unfold send_command_block. assert (runs_safely I Pipe_WaitUntilReady) by apply runs_Pipe_WaitUntilReady, _.
    assert (runs_safely I (Pipe_Write_Stream_LE (stamped tag block) sizeof_MS_CommandBlockWrapper_t None)).
    { apply runs_Write_Stream_pipe; [done|]. unfold stamped.
      rewrite !length_app, !length_le_bytes, length_drop, Hlen. done. }
    safely.
  - intros c. destruct c; try (apply safe_ret; split; [by eapply same_object_refl|done]).
    eapply safe_bind; [apply safe_ms_data_stage; by rewrite transfer_length_stamped|]. intros [f B] HB.
    destruct f; [by apply safe_ret|]. apply safe_seq; [by apply runs_GetReturnedStatus|]. intros code. by apply safe_ret.
Qed.
End SafeCommands.

#[local] Existing Instance host_stable.

(** The buffer of a command: as large as the transfer the device is told of. *)
Definition command_room (block : bytes) (Buffer : option bytes) : Prop :=
  match Buffer with
  | None => True
  | Some B => all_bytes B /\ le_val (cbw_DataTransferLength block) <= Z.of_nat (length B)
  end.

(** C23: a device cannot overflow the buffer of a command.  Whatever the device
    sends and whichever interrupts arrive, every command of the host driver, called
    with a buffer as large as the transfer it announces, has no undefined
    behaviour; it leaves a buffer of the same size, the state machine well formed,
    and the tag advanced. *)
Theorem MS_Host_SendCommand_safe {E : Env} {HE : Masked} {IntApp : USB_Host_Application}
    {Law : Host_Interrupt_Law IntApp} status i LUN block Buffer s :
  (forall t, is_u8 (respond t UPDATX)) -> buffer_of sizeof_MS_CommandStatusWrapper_t status ->
  host_command LUN block -> is_u8 LUN -> command_room block Buffer -> host_ok (Host s) ->
  wlp (MS_Host_SendCommand (H := host_interrupted E IntApp) status i block Buffer)
    (fun '(_, i', B) s' => host_ok (Host s') /\ same_object Buffer B /\
       TransactionTag i' = next_tag (TransactionTag i)) s.
Proof.
  intros Hdata Hst Hc HL Hroom Hok.
  destruct (host_command_fields _ _ Hc HL) as (len & flags & n & data & -> & _ & _ & _ & Hd).
  set (block := command_block _ _ _ _ _) in *.
  assert (Hb : buffer_for (transfer_length block) Buffer).
  { destruct Buffer as [B|]; [|done]. destruct Hroom as [Hall Hfit]. split; [done|]. unfold transfer_length.
    assert (Hnn : 0 <= le_val (cbw_DataTransferLength block)).
    { change (cbw_DataTransferLength block) with (le_bytes 4 len). rewrite le_val_bytes. apply wrap_fits. lia. }
    pose proof (Z.mod_le _ (2 ^ 16) Hnn ltac:(lia)). unfold wrap. lia. }
  assert (Hclear : forall a, runs_safely (host_inv any_host)
            (USB_Host_ClearEndpointStall (H := host_interrupted E IntApp) a)).
  { intros a. eapply safe_any, (safe_send_request Hdata _ _ _ _ 0 None); [unfold fits; lia|exact I]. }
  eapply wlp_mono; [|apply (safe_SendCommand (H := host_interrupted E IntApp) (host_inv any_host) Hdata Hclear
                              status i block Buffer Hst); [by apply length_command_block|exact Hb|by split]].
  intros [[c i'] B] s' [[? _] [? ?]]. done.
Qed.
