(* ===== verification/MSHostSim.v ===== *)
(** * A host and a disk

    The mass storage driver of the host against a simulated disk that answers
    every command with the same sector and a status wrapper. *)
From S2P Require Import Prelude Machine Rely StdDescriptors Descriptors Endpoint FrameWait EndpointStream MassStorageClass UsbController DeviceStandardReq UsbInterrupt Safety Joystick Pipe HostController HostStandardReq HostTask HostSafety PipeStream HostTransfer HostEnumeration HostSim PipeWait HostClass HIDHostSim MassStorageClassHost.

(** ** The simulated disk *)

(** The bytes written since the last byte was read, the newest last. *)
Fixpoint command_written (t : list event) (acc : bytes) : bytes :=
  match t with
  | Wr UPDATX v :: t => command_written t (v :: acc)
  | Rd UPDATX _ :: _ => acc
  | _ :: t => command_written t acc
  | [] => acc
  end.

(** Without the bytes read since. *)
Fixpoint before_reads (t : list event) : list event :=
  match t with
  | Wr UPDATX _ :: _ => t
  | _ :: t => before_reads t
  | [] => []
  end.

(** The token of the pipe selected: pipe 1 is an IN pipe and pipe 2 an OUT pipe,
    unless the token has been changed since the selection. *)
Fixpoint disk_token (t : list event) : Z :=
  match t with
  | Wr UPCFG0X v :: _ => Z.land v (Z.shiftl 0x03 PTOKEN0)
  | Wr UPNUM n :: _ => if n =? 1 then PIPE_TOKEN_IN else PIPE_TOKEN_OUT
  | _ :: t => disk_token t
  | [] => 0
  end.

Definition sector : bytes := map (fun n => Z.of_nat n mod 256) (seq 0 512).

(** The data the command asks for, and a status wrapper with its tag. *)
Definition disk_answer (t : list event) : bytes :=
  let cbw := command_written (before_reads t) [] in
  let data := if cbw_Flags cbw =? MS_COMMAND_DIR_DATA_IN
              then take (Z.to_nat (transfer_length cbw)) sector else [] in
  data ++ le_bytes 4 MS_CSW_SIGNATURE ++ cbw_Tag cbw ++ le_bytes 4 0 ++ [MS_SCSI_COMMAND_Pass].

Definition disk_device (t : list event) (r : reg) : Z :=
  match r with
  | UPNUM => selected t
  | UPCFG0X => disk_token t
  | UPINTX => Z.lor (bit RWAL) (if disk_token t =? PIPE_TOKEN_IN then bit RXINI else bit TXOUTI)
  | UPDATX => let b := nth (reads_since_setup t 0) (disk_answer t) 0 in if (0 <=? b) && (b <? 256) then b else 0
  | UPSTAX => bit CFGOK
  | UHFNUM => match frame_readings UHFNUM t with v :: _ => (v + 1) mod 2048 | [] => 0 end
  | UHCON => bit SOFEN
  | _ => 0
  end.

#[export] Instance disk_host : Env :=
  {| respond := disk_device; async s := s; fuel := 1100 |}.
#[export] Instance disk_host_masked : Masked (H := disk_host).
Proof. intros s. reflexivity. Qed.

Lemma disk_data t : is_u8 (respond (Env := disk_host) t UPDATX).
Proof.
  cbn [respond disk_host disk_device]. unfold fits. destruct (_ && _) eqn:Hb; [|lia].
  apply andb_true_iff in Hb as [? ?]. lia.
Qed.

Lemma disk_token_kept l v t :
  Forall keeps_token l -> disk_token (l ++ Wr UPCFG0X v :: t) = token_of v.
Proof. induction 1 as [|[[]|[]| | | | |] l He _ IH]; done. Qed.

Lemma disk_pipes : pipe_controller (H := disk_host) 0.
Proof.
  split; cbn [respond disk_host disk_device].
  - intros t l v vs Hl _. unfold respond, disk_host, disk_device. rewrite frame_readings_app, Hl. cbn [app]. intros E.
    assert (Hv : 0 <= v < 2048) by (rewrite <- E; apply Z.mod_pos_bound; lia).
    destruct (decide (v = 2047)) as [->|]; [discriminate|]. rewrite Z.mod_small in E; lia.
  - intros l v t Hl. rewrite disk_token_kept by done. unfold token_of. by rewrite <- Z.land_assoc, Z.land_diag.
  - intros t v _. by destruct (_ =? _).
Qed.

(** ** A session *)

Definition disk_interface : USB_ClassInfo_MS_Host_t :=
  {| mh_DataINPipe := blank_pipe 1; mh_DataOUTPipe := blank_pipe 2; mh_IsActive := true;
     mh_InterfaceNumber := 0; TransactionTag := 0 |}.
Definition with_disk : st := set_Host (set_USB_HostState HOST_STATE_Configured initial_host) reset_state.
Definition blank_status : bytes := replicate 13 0.

(** A block is read. *)
Example disk_block_read :
  match MS_Host_ReadDeviceBlocks (H := disk_host) blank_status disk_interface 0 7 1 512 (replicate 512 0) with_disk with
  | Done (code, i, B) s => code = 0 /\ TransactionTag i = 1 /\ B = Some sector /\
      pipe_writes (trace s) = stamped 1 (read_blocks_block 0 7 1 512)
  | _ => False
  end.
Proof. vm_compute. done. Qed.

(** Of 128 blocks of 512 bytes the driver reads nothing: the length of the
    transfer does not fit in 16 bits. *)
Example disk_64k_not_read :
  transfer_length (read_blocks_block 0 7 128 512) = 0.
Proof. vm_compute. done. Qed.

(** ** Witnesses *)


Lemma MS_Host_SendCommand_safe_witness :
  wlp (MS_Host_SendCommand (H := host_interrupted disk_host idle_host_app) blank_status disk_interface
         (inquiry_block 0) (Some (replicate 36 0)))
    (fun '(_, i', B) s' => host_ok (Host s') /\ same_object (Some (replicate 36 0)) B /\ TransactionTag i' = 1)
    enumerating.
Proof.
  apply (MS_Host_SendCommand_safe (E := disk_host) blank_status disk_interface 0 (inquiry_block 0) (Some (replicate 36 0))).
  - exact disk_data.
  - split; [by repeat constructor|done].
  - apply cmd_inquiry.
  - done.
  - split; [by repeat constructor|vm_compute; done].
  - exact enumerating_ok.
Defined.
