(* ===== verification/PrinterClassHost.v ===== *)
(** * The printer class driver of a host

    [LUFA/Drivers/USB/Class/Host/PrinterClassHost.c] and [.h].  The interface
    structure is passed and returned. *)
From S2P Require Import Prelude Machine Rely CommonUtil StdDescriptors Descriptors ConfigDescriptors Endpoint ControlStream UsbController DeviceStandardReq EndpointStream ClassDriver PrinterClass UsbInterrupt Safety Pipe HostController HostStandardReq HostTask HostSafety PipeStream HostClass HostSearch.

Definition PRNT_CSCP_PrinterClass := 0x07.
Definition PRNT_CSCP_PrinterSubclass := 0x01.
Definition PRNT_CSCP_BidirectionalProtocol := 0x02.

(** [enum PRNT_Host_EnumerationFailure_ErrorCodes_t] *)
Inductive PRNT_Host_EnumerationFailure_ErrorCodes_t : Set :=
  | PRNT_ENUMERROR_NoError
  | PRNT_ENUMERROR_InvalidConfigDescriptor
  | PRNT_ENUMERROR_NoCompatibleInterfaceFound
  | PRNT_ENUMERROR_PipeConfigurationFailed.

(** [USB_ClassInfo_PRNT_Host_t] *)
Record USB_ClassInfo_PRNT_Host_t := {
  ph_DataINPipe : USB_Pipe_Table_t;
  ph_DataOUTPipe : USB_Pipe_Table_t;
  ph_IsActive : bool;
  ph_InterfaceNumber : Z;
  ph_AlternateSetting : Z
}.

Definition set_ph_State (active : bool) (n alt : Z) (i : USB_ClassInfo_PRNT_Host_t) :=
  {| ph_DataINPipe := ph_DataINPipe i; ph_DataOUTPipe := ph_DataOUTPipe i; ph_IsActive := active;
     ph_InterfaceNumber := n; ph_AlternateSetting := alt |}.
Definition set_ph_Pipes (IN OUT : USB_Pipe_Table_t) (i : USB_ClassInfo_PRNT_Host_t) :=
  {| ph_DataINPipe := IN; ph_DataOUTPipe := OUT; ph_IsActive := ph_IsActive i;
     ph_InterfaceNumber := ph_InterfaceNumber i; ph_AlternateSetting := ph_AlternateSetting i |}.

(** ** Binding an interface *)

Section PRNTHostPipes.
Context `{Env} (Data : bytes).

Definition DCOMP_PRNT_Host_NextPRNTInterface : Z -> M DSearch_Return_ErrorCodes_t :=
  next_interface_of Data PRNT_CSCP_PrinterClass PRNT_CSCP_PrinterSubclass PRNT_CSCP_BidirectionalProtocol.

Definition DCOMP_PRNT_Host_NextPRNTInterfaceEndpoint : Z -> M DSearch_Return_ErrorCodes_t :=
  next_endpoint_of Data bulk_type false.

Definition PRNT_Host_ConfigurePipes (i : USB_ClassInfo_PRNT_Host_t) (ConfigDescriptorSize : Z)
    : M (PRNT_Host_EnumerationFailure_ErrorCodes_t * USB_ClassInfo_PRNT_Host_t) :=
  let i := set_ph_State false 0 0 i in
  t ← field8 Data 0 hdr_Type_offset;
  if negb (t =? DTYPE_Configuration) then ret (PRNT_ENUMERROR_InvalidConfigDescriptor, i)
  else
    r ← search_data_endpoints Data DCOMP_PRNT_Host_NextPRNTInterfaceEndpoint
          DCOMP_PRNT_Host_NextPRNTInterface ConfigDescriptorSize;
    match r with
    | None => ret (PRNT_ENUMERROR_NoCompatibleInterfaceFound, i)
    | Some {| es_IN := Some IN; es_OUT := Some OUT; es_Interface := Some PrinterInterface |} =>
        eIN ← pipe_for Data EP_TYPE_BULK IN (ph_DataINPipe i);
        eOUT ← pipe_for Data EP_TYPE_BULK OUT (ph_DataOUTPipe i);
        let i := set_ph_Pipes eIN eOUT i in
        ok ← configure_pipes [eIN; eOUT];
        if negb ok then ret (PRNT_ENUMERROR_PipeConfigurationFailed, i)
        else
          n ← field8 Data PrinterInterface if_InterfaceNumber_offset;
          alt ← field8 Data PrinterInterface if_AlternateSetting_offset;
          ret (PRNT_ENUMERROR_NoError, set_ph_State true n alt i)
    | Some _ => undefined
    end.
End PRNTHostPipes.

(** ** Requests *)

(** [memmove] within an object from the offset [src] to its start. *)
Definition memmove (B : bytes) (src n : Z) : option bytes :=
  if src + n <=? Z.of_nat (length B)
  then Some (take (Z.to_nat n) (drop (Z.to_nat src) B) ++ drop (Z.to_nat n) B) else None.

(** [USB_ControlRequest.wLength = n] *)
Definition set_wLength (n : Z) (r : USB_Request_Header_t) : USB_Request_Header_t :=
  {| bmRequestType := bmRequestType r; bRequest := bRequest r; wValue := wValue r; wIndex := wIndex r;
     wLength := n |}.

Section PRNTHost.
Context `{Env} (i : USB_ClassInfo_PRNT_Host_t).

Definition PRNT_Host_SetBidirectionalMode : M Z :=
  if negb (ph_AlternateSetting i =? 0) then
    '(ErrorCode, _) ← USB_Host_SetInterfaceAltSetting (ph_InterfaceNumber i) (ph_AlternateSetting i);
    if negb (ErrorCode =? HOST_SENDCONTROL_Successful) then ret ErrorCode else ret HOST_SENDCONTROL_Successful
  else ret HOST_SENDCONTROL_Successful.

Definition PRNT_Host_GetPortStatus (PortStatus : bytes) : M (Z * option bytes) :=
  send_request class_request_in PRNT_REQ_GetPortStatus 0 (ph_InterfaceNumber i) 1 (Some PortStatus).

Definition PRNT_Host_SoftReset : M Z :=
  '(ErrorCode, _) ← send_request class_request_out PRNT_REQ_SoftReset 0 (ph_InterfaceNumber i) 0 None;
  ret ErrorCode.

(** [memmove(&DeviceIDString[0], &DeviceIDString[2], DeviceIDStringLength - 2)] and the
    terminator; [unsigned int] has 16 bits. *)
Definition terminate_id (DeviceIDString : bytes) (DeviceIDStringLength : Z) : option bytes :=
  match memmove DeviceIDString 2 (u16 (DeviceIDStringLength - 2)) with
  | Some B => store_byte B (u16 (DeviceIDStringLength - 2)) 0
  | None => None
  end.

Definition PRNT_Host_GetDeviceID (DeviceIDString : bytes) (BufferSize : Z) : M (Z * bytes) :=
  '(ErrorCode, len) ←
    send_request class_request_in PRNT_REQ_GetDeviceID 0 (ph_InterfaceNumber i) 2 (Some [0; 0]);
  if negb (ErrorCode =? HOST_SENDCONTROL_Successful) then ret (ErrorCode, DeviceIDString)
  else
    let DeviceIDStringLength := le_val (default [] len) in
    if DeviceIDStringLength =? 0 then
      match store_byte DeviceIDString 0 0 with
      | Some B => ret (HOST_SENDCONTROL_Successful, B)
      | None => undefined
      end
    else
      let DeviceIDStringLength := SwapEndian_16 false DeviceIDStringLength in
      let DeviceIDStringLength :=
        if BufferSize <? DeviceIDStringLength then BufferSize else DeviceIDStringLength in
      put (fun s => set_USB_ControlRequest (set_wLength DeviceIDStringLength (USB_ControlRequest s)) s) ;;
      '(ErrorCode, B) ← USB_Host_SendControlRequest (Some DeviceIDString);
      let DeviceIDString := default [] B in
      if negb (ErrorCode =? HOST_SENDCONTROL_Successful) then ret (ErrorCode, DeviceIDString)
      else
        match terminate_id DeviceIDString DeviceIDStringLength with
        | Some B => ret (HOST_SENDCONTROL_Successful, B)
        | None => undefined
        end.

(** ** Data *)

Definition PRNT_Host_Flush : M Z :=
  unless_host_offline (ph_IsActive i) (pipe_ready_code PIPE_READYWAIT_DeviceDisconnected)
    (pipe_flush (pipe_Address (ph_DataOUTPipe i))).

Definition PRNT_Host_USBTask : M unit :=
  unless_host_offline (ph_IsActive i) tt (PRNT_Host_Flush ;; ret tt).

Definition PRNT_Host_SendByte (Data : Z) : M Z :=
  unless_host_offline (ph_IsActive i) (pipe_ready_code PIPE_READYWAIT_DeviceDisconnected)
    (pipe_send_byte (pipe_Address (ph_DataOUTPipe i)) Data).

Definition PRNT_Host_SendData (Buffer : bytes) (Length : Z) : M Z :=
  unless_host_offline (ph_IsActive i) (pipe_stream_code PIPE_RWSTREAM_DeviceDisconnected) (
    Pipe_SelectPipe (pipe_Address (ph_DataOUTPipe i)) ;;
    Pipe_Unfreeze ;;
    '(ErrorCode, _) ← Pipe_Write_Stream_LE Buffer Length None;
    match ErrorCode with
    | PIPE_RWSTREAM_NoError =>
        Pipe_ClearOUT ;;
        ErrorCode ← Pipe_WaitUntilReady;
        Pipe_Freeze ;;
        ret (pipe_ready_code ErrorCode)
    | _ => ret (pipe_stream_code ErrorCode)
    end).

Definition PRNT_Host_SendString (String : bytes) : M Z :=
  match strlen String with
  | Some n => PRNT_Host_SendData String (u16 n)
  | None => unless_host_offline (ph_IsActive i) (pipe_stream_code PIPE_RWSTREAM_DeviceDisconnected) undefined
  end.

Definition PRNT_Host_BytesReceived : M Z :=
  unless_host_offline (ph_IsActive i) 0 (pipe_bytes_received (pipe_Address (ph_DataINPipe i))).

Definition PRNT_Host_ReceiveByte : M Z :=
  unless_host_offline (ph_IsActive i) (pipe_stream_code PIPE_RWSTREAM_DeviceDisconnected)
    (pipe_receive_byte (pipe_Address (ph_DataINPipe i))).
End PRNTHost.

(** ** Binding a printer *)

Definition printer_interface : bytes -> bool :=
  interface_is PRNT_CSCP_PrinterClass PRNT_CSCP_PrinterSubclass PRNT_CSCP_BidirectionalProtocol.
Definition bulk_endpoint : bytes -> bool := endpoint_type_is bulk_type.

Lemma search_printer `{Env} d0 ds slack s :
  let Data := d0 ++ concat ds ++ slack in
  is_descriptor d0 -> Forall sized_descriptor ds -> all_bytes Data -> len (d0 ++ concat ds) < 2 ^ 16 ->
  quiet slack -> (length ds + 1 < fuel)%nat ->
  exists r, search_data_endpoints Data (DCOMP_PRNT_Host_NextPRNTInterfaceEndpoint Data)
              (DCOMP_PRNT_Host_NextPRNTInterface Data) (len (d0 ++ concat ds)) s = Done r s /\
    agrees Data r (first_with_both printer_interface bulk_endpoint ds None None None).
Proof.
  intros Data H0 Hds Hall H16 Hq Hf.
  destruct (quiet_slack slack PRNT_CSCP_PrinterClass PRNT_CSCP_PrinterSubclass PRNT_CSCP_BidirectionalProtocol
              bulk_type Hq) as [HqI HqE].
  apply (search_agrees slack printer_interface bulk_endpoint _ _ _ _ (interface_judged _ _ _) (endpoint_judged _)
           HqI HqE Data fuel [] d0 ds nothing_found None None None s); try done; [apply interface_looks|apply endpoint_looks|lia].
Qed.


(** ** The device identification string *)

(** For every length a device can announce but 1, the identification string is moved
    to the start of the buffer and terminated; a length of 1, or a buffer of one byte,
    makes the move run past the end of every buffer. *)
Lemma terminate_id_spec B n :
  Z.of_nat (length B) < 0xFFFF ->
  (2 <= n <= Z.of_nat (length B) ->
     terminate_id B n = Some (take (Z.to_nat (n - 2)) (drop 2 B) ++ 0 :: drop (Z.to_nat (n - 1)) B)) /\
  (0 <= n < 2 -> terminate_id B n = None).
Proof.
  intros HB. unfold terminate_id, memmove. split; intros Hn.
  - rewrite wrap_id by (unfold fits; lia). destruct (Z.leb_spec (2 + (n - 2)) (Z.of_nat (length B))); [|lia].
    change (Z.to_nat 2) with 2%nat. set (k := Z.to_nat (n - 2)).
    assert (Hk : length (take k (drop 2 B)) = k) by (rewrite length_take, length_drop; lia).
    assert (Hd : drop k B = default 0 (B !! k) :: drop (S k) B).
    { destruct (lookup_lt_is_Some_2 B k) as [x Hx]; [lia|]. rewrite Hx. by apply drop_S. }
    rewrite Hd. unfold store_byte. replace (n - 2) with (len (take k (drop 2 B))) by lia.
    rewrite load_byte_middle, Nat2Z.id, insert_app_r_alt, Nat.sub_diag by lia. cbn.
    do 3 f_equal. replace (Z.to_nat (n - 1)) with (S k) by lia. done.
  - assert (u16 (n - 2) >= 0xFFFE) by (assert (n = 0 \/ n = 1) as [-> | ->] by lia; vm_compute; congruence).
    destruct (Z.leb_spec (2 + u16 (n - 2)) (Z.of_nat (length B))); [lia|done].
Qed.
