(* ===== verification/CDCClassHost.v ===== *)
(** * The CDC class driver of a host

    [LUFA/Drivers/USB/Class/Host/CDCClassHost.c] and [.h]: virtual serial ports from
    the side of the host. *)
From S2P Require Import Prelude Machine Rely CommonUtil StdDescriptors Descriptors ConfigDescriptors Endpoint ControlStream UsbController DeviceStandardReq EndpointStream ClassDriver CDCClass UsbInterrupt Safety Pipe HostController HostStandardReq HostTask HostSafety PipeStream HostClass HostBulk.

Definition CDC_CSCP_CDCClass := 0x02.
Definition CDC_CSCP_ACMSubclass := 0x02.
Definition CDC_CSCP_ATCommandProtocol := 0x01.
Definition CDC_CSCP_VendorSpecificProtocol := 0xFF.
Definition CDC_CSCP_CDCDataClass := 0x0A.
Definition CDC_CSCP_NoDataSubclass := 0x00.
Definition CDC_CSCP_NoDataProtocol := 0x00.
Definition sizeof_CDC_LineEncoding_t := 7.
Definition sizeof_USB_Request_Header_t := 8.
Definition CDC_CONTROL_LINE_OUT_DTR := Z.shiftl 1 0.
Definition CDC_CONTROL_LINE_OUT_RTS := Z.shiftl 1 1.
Definition CDC_CONTROL_LINE_IN_DCD := Z.shiftl 1 0.
Definition CDC_CONTROL_LINE_IN_DSR := Z.shiftl 1 1.

(** [enum CDC_Host_EnumerationFailure_ErrorCodes_t] *)
Inductive CDC_Host_EnumerationFailure_ErrorCodes_t : Set :=
  | CDC_ENUMERROR_NoError
  | CDC_ENUMERROR_InvalidConfigDescriptor
  | CDC_ENUMERROR_NoCompatibleInterfaceFound
  | CDC_ENUMERROR_PipeConfigurationFailed.

(** [State] and the whole of [USB_ClassInfo_CDC_Host_t]. *)
Record CDC_Host_State_t := {
  ch_IsActive : bool;
  ch_ControlInterfaceNumber : Z;
  ch_HostToDevice : Z;
  ch_DeviceToHost : Z;
  ch_LineEncoding : CDC_LineEncoding_t
}.

Record USB_ClassInfo_CDC_Host_t := {
  ch_DataINPipe : USB_Pipe_Table_t;
  ch_DataOUTPipe : USB_Pipe_Table_t;
  ch_NotificationPipe : USB_Pipe_Table_t;
  ch_State : CDC_Host_State_t
}.

Definition zero_CDC_Host_State : CDC_Host_State_t :=
  {| ch_IsActive := false; ch_ControlInterfaceNumber := 0; ch_HostToDevice := 0; ch_DeviceToHost := 0;
     ch_LineEncoding := {| BaudRateBPS := 0; CharFormat := 0; ParityType := 0; DataBits := 0 |} |}.
Definition set_ch_State (x : CDC_Host_State_t) (i : USB_ClassInfo_CDC_Host_t) :=
  {| ch_DataINPipe := ch_DataINPipe i; ch_DataOUTPipe := ch_DataOUTPipe i;
     ch_NotificationPipe := ch_NotificationPipe i; ch_State := x |}.
Definition set_DeviceToHost (x : Z) (i : USB_ClassInfo_CDC_Host_t) :=
  set_ch_State {| ch_IsActive := ch_IsActive (ch_State i);
                  ch_ControlInterfaceNumber := ch_ControlInterfaceNumber (ch_State i);
                  ch_HostToDevice := ch_HostToDevice (ch_State i); ch_DeviceToHost := x;
                  ch_LineEncoding := ch_LineEncoding (ch_State i) |} i.

(** ** Binding an interface *)

Section CDCHostPipes.
Context `{Env} (Data : bytes).

Definition DCOMP_CDC_Host_NextCDCControlInterface : Z -> M DSearch_Return_ErrorCodes_t :=
  next_interface_of Data CDC_CSCP_CDCClass CDC_CSCP_ACMSubclass CDC_CSCP_ATCommandProtocol.

Definition DCOMP_CDC_Host_NextCDCDataInterface : Z -> M DSearch_Return_ErrorCodes_t :=
  next_interface_of Data CDC_CSCP_CDCDataClass CDC_CSCP_NoDataSubclass CDC_CSCP_NoDataProtocol.

Definition DCOMP_CDC_Host_NextCDCInterfaceEndpoint : Z -> M DSearch_Return_ErrorCodes_t :=
  next_endpoint_of Data bulk_or_interrupt_type true.

Definition CDC_Host_ConfigurePipes (i : USB_ClassInfo_CDC_Host_t) (ConfigDescriptorSize : Z)
    : M (CDC_Host_EnumerationFailure_ErrorCodes_t * USB_ClassInfo_CDC_Host_t) :=
  let i := set_ch_State zero_CDC_Host_State i in
  t ← field8 Data 0 hdr_Type_offset;
  if negb (t =? DTYPE_Configuration) then ret (CDC_ENUMERROR_InvalidConfigDescriptor, i)
  else
    r ← search_endpoints Data all_found DCOMP_CDC_Host_NextCDCInterfaceEndpoint
          (to_control_or_data Data DCOMP_CDC_Host_NextCDCControlInterface DCOMP_CDC_Host_NextCDCDataInterface)
          (record_data_or_events Data) ConfigDescriptorSize nothing_found;
    match r with
    | None => ret (CDC_ENUMERROR_NoCompatibleInterfaceFound, i)
    | Some {| es_IN := Some IN; es_OUT := Some OUT; es_Events := Some Notification;
              es_Interface := Some CDCControlInterface |} =>
        eIN ← pipe_for Data EP_TYPE_BULK IN (ch_DataINPipe i);
        eOUT ← pipe_for Data EP_TYPE_BULK OUT (ch_DataOUTPipe i);
        eN ← pipe_for Data EP_TYPE_INTERRUPT Notification (ch_NotificationPipe i);
        let i := {| ch_DataINPipe := eIN; ch_DataOUTPipe := eOUT; ch_NotificationPipe := eN;
                    ch_State := ch_State i |} in
        ok ← configure_pipes [eIN; eOUT; eN];
        if negb ok then ret (CDC_ENUMERROR_PipeConfigurationFailed, i)
        else
          n ← field8 Data CDCControlInterface if_InterfaceNumber_offset;
          ret (CDC_ENUMERROR_NoError,
               set_ch_State
                 {| ch_IsActive := true; ch_ControlInterfaceNumber := n;
                    ch_HostToDevice := Z.lor CDC_CONTROL_LINE_OUT_RTS CDC_CONTROL_LINE_OUT_DTR;
                    ch_DeviceToHost := Z.lor CDC_CONTROL_LINE_IN_DCD CDC_CONTROL_LINE_IN_DSR;
                    ch_LineEncoding := ch_LineEncoding (ch_State i) |} i)
    | Some _ => undefined
    end.
End CDCHostPipes.

(** ** Requests and data *)

Section CDCHost.
Context `{Env}.

(** The line encoding as it lies in memory; the device's answers never change it. *)
Definition CDC_Host_SetLineEncoding (i : USB_ClassInfo_CDC_Host_t) : M Z :=
  '(ErrorCode, _) ←
    send_request class_request_out CDC_REQ_SetLineEncoding 0 (ch_ControlInterfaceNumber (ch_State i))
      sizeof_CDC_LineEncoding_t (Some (bytes_of_line (ch_LineEncoding (ch_State i))));
  ret ErrorCode.

Definition CDC_Host_SendControlLineStateChange (i : USB_ClassInfo_CDC_Host_t) : M Z :=
  '(ErrorCode, _) ←
    send_request class_request_out CDC_REQ_SetControlLineState (ch_HostToDevice (ch_State i))
      (ch_ControlInterfaceNumber (ch_State i)) 0 None;
  ret ErrorCode.

Definition CDC_Host_SendBreak (i : USB_ClassInfo_CDC_Host_t) (Duration : Z) : M Z :=
  '(ErrorCode, _) ←
    send_request class_request_out CDC_REQ_SendBreak Duration (ch_ControlInterfaceNumber (ch_State i)) 0 None;
  ret ErrorCode.

Definition cdc_disconnected : Z := pipe_ready_code PIPE_READYWAIT_DeviceDisconnected.

Definition CDC_Host_SendData (i : USB_ClassInfo_CDC_Host_t) (Buffer : bytes) (Length : Z) : M Z :=
  unless_host_offline (ch_IsActive (ch_State i)) cdc_disconnected
    (pipe_send_data (pipe_Address (ch_DataOUTPipe i)) Buffer Length).

Definition CDC_Host_SendString (i : USB_ClassInfo_CDC_Host_t) (String : bytes) : M Z :=
  unless_host_offline (ch_IsActive (ch_State i)) cdc_disconnected
    (pipe_send_string (pipe_Address (ch_DataOUTPipe i)) String).

Definition CDC_Host_SendByte (i : USB_ClassInfo_CDC_Host_t) (Data : Z) : M Z :=
  unless_host_offline (ch_IsActive (ch_State i)) cdc_disconnected
    (pipe_send_byte (pipe_Address (ch_DataOUTPipe i)) Data).

Definition CDC_Host_BytesReceived (i : USB_ClassInfo_CDC_Host_t) : M Z :=
  unless_host_offline (ch_IsActive (ch_State i)) 0 (pipe_bytes_received (pipe_Address (ch_DataINPipe i))).

Definition CDC_Host_ReceiveByte (i : USB_ClassInfo_CDC_Host_t) : M Z :=
  unless_host_offline (ch_IsActive (ch_State i)) (-1) (pipe_receive_byte (pipe_Address (ch_DataINPipe i))).

Definition CDC_Host_Flush (i : USB_ClassInfo_CDC_Host_t) : M Z :=
  unless_host_offline (ch_IsActive (ch_State i)) cdc_disconnected
    (pipe_flush (pipe_Address (ch_DataOUTPipe i))).

(** ** The task

    [EVENT_CDC_Host_ControLineStateChanged] is the application's; [Notification] is what
    the uninitialised local holds. *)
Context (EVENT_CDC_Host_ControLineStateChanged : USB_ClassInfo_CDC_Host_t -> M USB_ClassInfo_CDC_Host_t).
Context (Notification : bytes).

Definition cdc_notification (i : USB_ClassInfo_CDC_Host_t) : M USB_ClassInfo_CDC_Host_t :=
  '(_, _, Notification) ← Pipe_Read_Stream_LE Notification sizeof_USB_Request_Header_t None;
  if (nth 1 Notification 0 =? CDC_NOTIF_SerialState) && (nth 0 Notification 0 =? class_request_in) then
    '(_, _, lines) ← Pipe_Read_Stream_LE (le_bytes 2 (ch_DeviceToHost (ch_State i))) 2 None;
    let i := set_DeviceToHost (le_val lines) i in
    Pipe_ClearIN ;;
    EVENT_CDC_Host_ControLineStateChanged i
  else Pipe_ClearIN ;; ret i.

Definition CDC_Host_USBTask (i : USB_ClassInfo_CDC_Host_t) : M USB_ClassInfo_CDC_Host_t :=
  unless_host_offline (ch_IsActive (ch_State i)) i (
    Pipe_SelectPipe (pipe_Address (ch_NotificationPipe i)) ;;
    Pipe_Unfreeze ;;
    received ← Pipe_IsINReceived;
    i ← (if (received : bool) then cdc_notification i else ret i);
    Pipe_Freeze ;;
    CDC_Host_Flush i ;;
    ret i).

(** ** The stdio callbacks

    [USB_USBTask] is [USB_HostTask] in a host-only build; [DataBuffer] is its array. *)
Context `{USB_Host_Application} (DataBuffer : bytes).

Definition CDC_Host_putchar (i : USB_ClassInfo_CDC_Host_t) (c : Z) : M Z :=
  ErrorCode ← CDC_Host_SendByte i (u8 c);
  ret (if negb (ErrorCode =? 0) then FDEV_ERR else 0).

Definition CDC_Host_getchar (i : USB_ClassInfo_CDC_Host_t) : M Z :=
  ReceivedByte ← CDC_Host_ReceiveByte i;
  ret (if ReceivedByte <? 0 then FDEV_EOF else ReceivedByte).

Definition CDC_Host_getchar_Blocking (i : USB_ClassInfo_CDC_Host_t) : M (Z * USB_ClassInfo_CDC_Host_t) :=
  loop fuel (fun i =>
    ReceivedByte ← CDC_Host_ReceiveByte i;
    if ReceivedByte <? 0 then
      h ← get_HostState;
      if h =? HOST_STATE_Unattached then ret (inr (FDEV_EOF, i))
      else
        i ← CDC_Host_USBTask i;
        USB_HostTask DataBuffer ;;
        ret (inl i)
    else ret (inr (ReceivedByte, i))) i.
End CDCHost.

(** ** Safety on arbitrary hardware *)

Section SafeCDC.
Context `{Env} (I : st -> Prop) `{!Stable I}.
Hypothesis data_register : forall t, is_u8 (respond t UPDATX).
Context (event : USB_ClassInfo_CDC_Host_t -> M USB_ClassInfo_CDC_Host_t).

(** The members of an interface structure are within their types. *)
Definition lines_ok (i : USB_ClassInfo_CDC_Host_t) : Prop :=
  is_u16 (ch_DeviceToHost (ch_State i)) /\ line_ok (ch_LineEncoding (ch_State i)).

Hypothesis safe_event : forall i, lines_ok i -> safe I (event i) lines_ok.

Lemma safe_cdc_notification Notification i :
  buffer_of sizeof_USB_Request_Header_t Notification -> lines_ok i ->
  safe I (cdc_notification event Notification i) lines_ok.
Proof.
  intros [Hall Hlen] Hi. unfold cdc_notification.
  eapply safe_bind; [by apply (safe_Pipe_Read_Stream I data_register Notification _ None); [..|rewrite Hlen|]|].
  intros [[c n] B] _. destruct (_ && _); [|safe_step; by apply safe_ret].
  eapply safe_bind; [apply (safe_Pipe_Read_Stream I data_register _ 2 None);
    [unfold fits; lia|apply le_bytes_all|by rewrite length_le_bytes|done]|].
  intros [[c' n'] L] [[HallL HlenL] _]. cbn [snd] in HlenL. rewrite length_le_bytes in HlenL. safe_step.
  apply safe_event. destruct Hi as [_ Hi]. split; [|done]. cbn.
  pose proof (le_val_fits L HallL) as Hf. by rewrite HlenL in Hf.
Qed.

Lemma safe_CDC_USBTask Notification i :
  buffer_of sizeof_USB_Request_Header_t Notification -> lines_ok i ->
  safe I (CDC_Host_USBTask event Notification i) lines_ok.
Proof.
  intros HN Hi. unfold CDC_Host_USBTask. apply safe_unless_offline; [done..|]. do 3 safe_step.
  apply (safe_bind _ _ _ lines_ok).
  - destruct (_ : bool); [by apply safe_cdc_notification|by apply safe_ret].
  - intros i' Hi'. safe_step. apply safe_seq; [|intros _; by apply safe_ret].
    apply safe_unless_offline; [done..|]. by apply runs_pipe_flush.
Qed.

(** The blocking [getchar], around a host task that is safe. *)
Lemma safe_getchar_Blocking `{USB_Host_Application} Notification DataBuffer i :
  buffer_of sizeof_USB_Request_Header_t Notification -> lines_ok i -> runs_safely I (USB_HostTask DataBuffer) ->
  safe I (CDC_Host_getchar_Blocking event Notification DataBuffer i)
    (fun '(c, i') => (c = FDEV_EOF \/ is_u8 c) /\ lines_ok i').
Proof.
  intros HN Hi Htask. unfold CDC_Host_getchar_Blocking. apply (safe_loop _ lines_ok); [|done]. clear i Hi.
  intros i Hi. eapply safe_bind; [apply safe_unless_offline; [done| |by apply safe_pipe_receive_byte]|].
  { by left. }
  intros b Hb. destruct (Z.ltb_spec b 0); [|apply safe_ret; split; [right|done]; destruct Hb; [lia|done]].
  safe_step. destruct (_ =? _); [apply safe_ret; by split; [left|]|].
  apply (safe_bind _ _ _ lines_ok); [by apply safe_CDC_USBTask|]. intros i' Hi'. apply safe_seq; [done|].
  intros _. by apply safe_ret.
Qed.
End SafeCDC.

(** ** Sessions

    What an application does with the driver, between rounds of the host task. *)
Inductive serial_call : Set :=
  | call_HostTask
  | call_USBTask
  | call_SendData (Buffer : bytes) (Length : Z)
  | call_SendString (String : bytes)
  | call_putchar (c : Z)
  | call_getchar_Blocking
  | call_BytesReceived
  | call_Flush
  | call_SetLineEncoding
  | call_SendControlLineStateChange
  | call_SendBreak (Duration : Z).

(** The arguments a call may have. *)
Definition valid_call (c : serial_call) : Prop :=
  match c with
  | call_SendData Buffer Length => is_u16 Length /\ Length <= Z.of_nat (length Buffer)
  | call_SendString String => exists n, strlen String = Some n
  | _ => True
  end.

Section Session.
Context `{Env} `{USB_Host_Application}.
Context (event : USB_ClassInfo_CDC_Host_t -> M USB_ClassInfo_CDC_Host_t) (Notification DataBuffer : bytes).

Definition run_call (i : USB_ClassInfo_CDC_Host_t) (c : serial_call) : M USB_ClassInfo_CDC_Host_t :=
  match c with
  | call_HostTask => USB_HostTask DataBuffer ;; ret i
  | call_USBTask => CDC_Host_USBTask event Notification i
  | call_SendData Buffer Length => CDC_Host_SendData i Buffer Length ;; ret i
  | call_SendString String => CDC_Host_SendString i String ;; ret i
  | call_putchar c => CDC_Host_putchar i c ;; ret i
  | call_getchar_Blocking => '(_, i) ← CDC_Host_getchar_Blocking event Notification DataBuffer i; ret i
  | call_BytesReceived => CDC_Host_BytesReceived i ;; ret i
  | call_Flush => CDC_Host_Flush i ;; ret i
  | call_SetLineEncoding => CDC_Host_SetLineEncoding i ;; ret i
  | call_SendControlLineStateChange => CDC_Host_SendControlLineStateChange i ;; ret i
  | call_SendBreak Duration => CDC_Host_SendBreak i Duration ;; ret i
  end.

Fixpoint run_calls (calls : list serial_call) (i : USB_ClassInfo_CDC_Host_t) : M USB_ClassInfo_CDC_Host_t :=
  match calls with
  | [] => ret i
  | c :: calls => i ← run_call i c; run_calls calls i
  end.
End Session.

Section SafeSession.
Context {E : Env} {HE : Masked} {IntApp : USB_Host_Application} {Law : Host_Interrupt_Law IntApp}.
Context {TaskApp : USB_Host_Application}.
Hypothesis data_register : forall t, is_u8 (respond t UPDATX).
Let avr : Env := host_interrupted E IntApp.
#[local] Existing Instance host_stable.
Let inv := host_inv any_host.

Hypothesis safe_EnumerationFailed : forall e x, runs_safely inv (EVENT_USB_Host_DeviceEnumerationFailed e x).
Hypothesis safe_DeviceUnattached : runs_safely inv EVENT_USB_Host_DeviceUnattached.
Hypothesis safe_EnumerationComplete : runs_safely inv EVENT_USB_Host_DeviceEnumerationComplete.
Context (event : USB_ClassInfo_CDC_Host_t -> M USB_ClassInfo_CDC_Host_t) (Notification DataBuffer : bytes).
Hypothesis safe_event : forall i, lines_ok i -> safe inv (event i) lines_ok.
Hypothesis room_Notification : buffer_of sizeof_USB_Request_Header_t Notification.
Hypothesis room_DataBuffer : buffer_of 8 DataBuffer.

Lemma bytes_of_line_ok e : line_ok e -> buffer_for sizeof_CDC_LineEncoding_t (Some (bytes_of_line e)).
Proof.
  intros []. split; [|by unfold bytes_of_line; rewrite length_app, length_le_bytes].
  apply Forall_app. split; [apply le_bytes_all|]. do 3 (apply List.Forall_cons; [done|]). constructor.
Qed.

Lemma then_same {A} (m : M A) i : runs_safely inv m -> lines_ok i -> safe inv (m ;; ret i) lines_ok.
Proof. intros Hm Hi. apply safe_seq; [done|]. intros _. by apply safe_ret. Qed.

Lemma runs_request r v n Buffer i :
  is_u16 n -> buffer_for n Buffer ->
  runs_safely inv ('(ErrorCode, _) ← send_request (H := avr) class_request_out r v i n Buffer; ret ErrorCode).
Proof.
  intros Hn Hb. apply safe_seq; [by eapply safe_any, (safe_send_request data_register)|].
  intros [c B]. by apply safe_ret.
Qed.

Lemma safe_run_call i c :
  valid_call c -> lines_ok i -> safe inv (run_call (H := avr) event Notification DataBuffer i c) lines_ok.
Proof.
  intros Hc Hi.
  assert (Htask : runs_safely inv (USB_HostTask (H := avr) DataBuffer)) by (by apply runs_HostTask).
  assert (Hoff : forall {A} active (code : A) m, runs_safely inv m ->
            runs_safely inv (unless_host_offline (H := avr) active code m)) by (intros A active code m Hm; apply (safe_unless_offline (H := avr) inv active code m (fun _ => True)); done).
  destruct c; cbn [run_call]; try (apply then_same; [|done]).
  - done.
  - by apply (safe_CDC_USBTask (H := avr) inv data_register event).
  - destruct Hc. apply Hoff. by apply (runs_pipe_send_data (H := avr) inv).
  - destruct Hc as [n Hn]. apply Hoff. by eapply (runs_pipe_send_string (H := avr) inv).
  - apply safe_seq; [apply Hoff, (runs_pipe_send_byte (H := avr) inv)|]. intros. by apply safe_ret.
  - eapply safe_bind; [by apply (safe_getchar_Blocking (H := avr) inv data_register event)|]. intros [b i'] [_ Hi']. by apply safe_ret.
  - apply Hoff, (runs_pipe_bytes_received (H := avr) inv).
  - apply Hoff, (runs_pipe_flush (H := avr) inv).
  - apply runs_request; [unfold sizeof_CDC_LineEncoding_t, fits; lia|]. by apply bytes_of_line_ok, Hi.
  - apply runs_request; [unfold fits; lia|done].
  - apply runs_request; [unfold fits; lia|done].
Qed.

(** C20: no device and no interrupt leads a serial session astray.  Take any sequence
    of calls of the functions of the CDC driver, mixed with rounds of the host task,
    with buffers as large as the lengths given and strings that are terminated.
    Whatever the device answers and whichever interrupts arrive, the whole session
    has no undefined behaviour: no access leaves a buffer, the notification or the
    control lines, no matter how long the packets of the device are.  The state machine of the host
    stays well formed, and so does the interface structure, whose control lines the
    device sets. *)
Theorem CDC_Host_session_safe calls i s :
  Forall valid_call calls -> lines_ok i -> host_ok (Host s) ->
  wlp (run_calls (H := avr) event Notification DataBuffer calls i)
    (fun i' s' => host_ok (Host s') /\ lines_ok i') s.
Proof.
  intros Hcalls Hi Hok.
  assert (Hrun : safe inv (run_calls (H := avr) event Notification DataBuffer calls i) lines_ok).
  { clear s Hok. revert i Hi. induction Hcalls as [|c calls Hc _ IH]; intros i Hi; cbn [run_calls]; [by apply safe_ret|].
    eapply safe_bind; [by apply safe_run_call|]. intros i' Hi'. by apply IH. }
  eapply wlp_mono; [|by apply Hrun; split]. by intros i' s' [[? _] ?].
Qed.
End SafeSession.
