(* ===== verification/MIDIClassHost.v ===== *)
(** * The MIDI class driver of a host

    [LUFA/Drivers/USB/Class/Host/MIDIClassHost.c] and [.h]. *)
From S2P Require Import Prelude Machine Rely CommonUtil StdDescriptors Descriptors ConfigDescriptors Endpoint ControlStream UsbController DeviceStandardReq EndpointStream ClassDriver MIDIClass UsbInterrupt Safety Pipe HostController HostStandardReq HostTask HostSafety PipeStream HostClass.

Definition AUDIO_CSCP_AudioClass := 0x01.
Definition AUDIO_CSCP_MIDIStreamingSubclass := 0x03.
Definition AUDIO_CSCP_StreamingProtocol := 0x00.

(** [enum MIDI_Host_EnumerationFailure_ErrorCodes_t] *)
Inductive MIDI_Host_EnumerationFailure_ErrorCodes_t : Set :=
  | MIDI_ENUMERROR_NoError
  | MIDI_ENUMERROR_InvalidConfigDescriptor
  | MIDI_ENUMERROR_NoCompatibleInterfaceFound
  | MIDI_ENUMERROR_PipeConfigurationFailed.

(** [USB_ClassInfo_MIDI_Host_t] *)
Record USB_ClassInfo_MIDI_Host_t := {
  dh_DataINPipe : USB_Pipe_Table_t;
  dh_DataOUTPipe : USB_Pipe_Table_t;
  dh_IsActive : bool;
  dh_InterfaceNumber : Z
}.

Section MIDIHostPipes.
Context `{Env} (Data : bytes).

Definition DCOMP_MIDI_Host_NextMIDIStreamingInterface : Z -> M DSearch_Return_ErrorCodes_t :=
  next_interface_of Data AUDIO_CSCP_AudioClass AUDIO_CSCP_MIDIStreamingSubclass AUDIO_CSCP_StreamingProtocol.

Definition DCOMP_MIDI_Host_NextMIDIStreamingDataEndpoint : Z -> M DSearch_Return_ErrorCodes_t :=
  next_endpoint_of Data bulk_type true.

Definition MIDI_Host_ConfigurePipes (i : USB_ClassInfo_MIDI_Host_t) (ConfigDescriptorSize : Z)
    : M (MIDI_Host_EnumerationFailure_ErrorCodes_t * USB_ClassInfo_MIDI_Host_t) :=
  let i := {| dh_DataINPipe := dh_DataINPipe i; dh_DataOUTPipe := dh_DataOUTPipe i; dh_IsActive := false;
              dh_InterfaceNumber := 0 |} in
  t ← field8 Data 0 hdr_Type_offset;
  if negb (t =? DTYPE_Configuration) then ret (MIDI_ENUMERROR_InvalidConfigDescriptor, i)
  else
    r ← search_data_endpoints Data DCOMP_MIDI_Host_NextMIDIStreamingDataEndpoint
          DCOMP_MIDI_Host_NextMIDIStreamingInterface ConfigDescriptorSize;
    match r with
    | None => ret (MIDI_ENUMERROR_NoCompatibleInterfaceFound, i)
    | Some {| es_IN := Some IN; es_OUT := Some OUT; es_Interface := Some MIDIInterface |} =>
        eIN ← pipe_for Data EP_TYPE_BULK IN (dh_DataINPipe i);
        eOUT ← pipe_for Data EP_TYPE_BULK OUT (dh_DataOUTPipe i);
        ok ← configure_pipes [eIN; eOUT];
        if negb ok then
          ret (MIDI_ENUMERROR_PipeConfigurationFailed,
               {| dh_DataINPipe := eIN; dh_DataOUTPipe := eOUT; dh_IsActive := dh_IsActive i;
                  dh_InterfaceNumber := dh_InterfaceNumber i |})
        else
          n ← field8 Data MIDIInterface if_InterfaceNumber_offset;
          ret (MIDI_ENUMERROR_NoError,
               {| dh_DataINPipe := eIN; dh_DataOUTPipe := eOUT; dh_IsActive := true; dh_InterfaceNumber := n |})
    | Some _ => undefined
    end.
End MIDIHostPipes.

(** ** Event packets *)

Section MIDIHost.
Context `{Env} (i : USB_ClassInfo_MIDI_Host_t).

Definition MIDI_Host_Flush : M Z :=
  unless_host_offline (dh_IsActive i) (pipe_stream_code PIPE_RWSTREAM_DeviceDisconnected) (
    Pipe_SelectPipe (pipe_Address (dh_DataOUTPipe i)) ;;
    Pipe_Unfreeze ;;
    n ← Pipe_BytesInPipe;
    ErrorCode ← (if negb (n =? 0) then Pipe_ClearOUT ;; Pipe_WaitUntilReady else ret PIPE_READYWAIT_NoError);
    Pipe_Freeze ;;
    ret (pipe_ready_code ErrorCode)).

Definition MIDI_Host_USBTask : M unit :=
  unless_host_offline (dh_IsActive i) tt (MIDI_Host_Flush ;; ret tt).

Definition MIDI_Host_SendEventPacket (Event : MIDI_EventPacket_t) : M Z :=
  unless_host_offline (dh_IsActive i) HOST_SENDCONTROL_DeviceDisconnected (
    Pipe_SelectPipe (pipe_Address (dh_DataOUTPipe i)) ;;
    Pipe_Unfreeze ;;
    '(ErrorCode, _) ← Pipe_Write_Stream_LE (bytes_of_event Event) sizeof_MIDI_EventPacket_t None;
    match ErrorCode with
    | PIPE_RWSTREAM_NoError =>
        allowed ← Pipe_IsReadWriteAllowed;
        when (negb allowed) Pipe_ClearOUT ;;
        Pipe_Freeze ;;
        ret (pipe_stream_code PIPE_RWSTREAM_NoError)
    | _ => Pipe_Freeze ;; ret (pipe_stream_code ErrorCode)
    end).

(** Offline the code [HOST_SENDCONTROL_DeviceDisconnected] is returned as [bool]. *)
Definition MIDI_Host_ReceiveEventPacket (Event : MIDI_EventPacket_t) : M (bool * MIDI_EventPacket_t) :=
  unless_host_offline (dh_IsActive i) (negb (HOST_SENDCONTROL_DeviceDisconnected =? 0), Event) (
    Pipe_SelectPipe (pipe_Address (dh_DataINPipe i)) ;;
    Pipe_Unfreeze ;;
    received ← Pipe_IsINReceived;
    r ← (if (received : bool) then
           n ← Pipe_BytesInPipe;
           r ← (if negb (n =? 0) then
                  '(_, _, data) ← Pipe_Read_Stream_LE (bytes_of_event Event) sizeof_MIDI_EventPacket_t None;
                  ret (true, default Event (event_of_bytes data))
                else ret (false, Event));
           n ← Pipe_BytesInPipe;
           when (n =? 0) Pipe_ClearIN ;;
           ret r
         else ret (false, Event));
    Pipe_Freeze ;;
    ret r).
End MIDIHost.
