(* ===== verification/StillImageClassHost.v ===== *)
(** * The still image class driver of a host

    [LUFA/Drivers/USB/Class/Host/StillImageClassHost.c] and [.h]: PIMA containers to
    and from a camera.  A container is the list of its bytes. *)
From S2P Require Import Prelude Machine Rely CommonUtil StdDescriptors Descriptors ConfigDescriptors Endpoint ControlStream UsbController DeviceStandardReq EndpointStream ClassDriver MassStorageClass UsbInterrupt Safety Pipe HostController HostStandardReq HostTask HostSafety PipeStream HostTransfer HostClass.

Definition SI_CSCP_StillImageClass := 0x06.
Definition SI_CSCP_StillImageSubclass := 0x01.
Definition SI_CSCP_BulkOnlyProtocol := 0x01.
Definition SI_ERROR_LOGICAL_CMD_FAILED := 0x80.
Definition SI_COMMAND_DATA_TIMEOUT_MS := 10000.
Definition PIMA_CONTAINER_CommandBlock := 1.
Definition PIMA_CONTAINER_ResponseBlock := 3.
Definition sizeof_PIMA_Container_t := 24.
Definition PIMA_COMMAND_SIZE (Params : Z) : Z := (sizeof_PIMA_Container_t - 12) + Params * 4.

(** [PIMA_Container_t], packed. *)
Definition pima_DataLength (c : bytes) : Z := le_val (member 0 4 c).
Definition pima_Type (c : bytes) : Z := le_val (member 4 2 c).
Definition pima_Code (c : bytes) : Z := le_val (member 6 2 c).
Definition pima_TransactionID (c : bytes) : Z := le_val (member 8 4 c).
Definition pima_Params (c : bytes) : bytes := drop 12 c.
Definition pima_container (DataLength Type_ Code : Z) (Params : bytes) : bytes :=
  le_bytes 4 DataLength ++ le_bytes 2 Type_ ++ le_bytes 2 Code ++ replicate 4 0 ++
  Params ++ replicate (12 - length Params) 0.
Definition set_TransactionID (id : Z) (c : bytes) : bytes := take 8 c ++ le_bytes 4 id ++ drop 12 c.

(** [enum SI_Host_EnumerationFailure_ErrorCodes_t] *)
Inductive SI_Host_EnumerationFailure_ErrorCodes_t : Set :=
  | SI_ENUMERROR_NoError
  | SI_ENUMERROR_InvalidConfigDescriptor
  | SI_ENUMERROR_NoCompatibleInterfaceFound
  | SI_ENUMERROR_PipeConfigurationFailed.

(** [State] and the whole of [USB_ClassInfo_SI_Host_t]. *)
Record SI_Host_State_t := {
  si_IsActive : bool;
  si_InterfaceNumber : Z;
  IsSessionOpen : bool;
  TransactionID : Z
}.

Record USB_ClassInfo_SI_Host_t := {
  si_DataINPipe : USB_Pipe_Table_t;
  si_DataOUTPipe : USB_Pipe_Table_t;
  si_EventsPipe : USB_Pipe_Table_t;
  si_State : SI_Host_State_t
}.

Definition set_si_State (x : SI_Host_State_t) (i : USB_ClassInfo_SI_Host_t) :=
  {| si_DataINPipe := si_DataINPipe i; si_DataOUTPipe := si_DataOUTPipe i;
     si_EventsPipe := si_EventsPipe i; si_State := x |}.
Definition set_session (is_open : bool) (id : Z) (i : USB_ClassInfo_SI_Host_t) :=
  set_si_State {| si_IsActive := si_IsActive (si_State i); si_InterfaceNumber := si_InterfaceNumber (si_State i);
                  IsSessionOpen := is_open; TransactionID := id |} i.

(** ** Binding an interface *)

Section SIHostPipes.
Context `{Env} (Data : bytes).

Definition DCOMP_SI_Host_NextSIInterface : Z -> M DSearch_Return_ErrorCodes_t :=
  next_interface_of Data SI_CSCP_StillImageClass SI_CSCP_StillImageSubclass SI_CSCP_BulkOnlyProtocol.

Definition DCOMP_SI_Host_NextSIInterfaceEndpoint : Z -> M DSearch_Return_ErrorCodes_t :=
  next_endpoint_of Data bulk_or_interrupt_type true.

Definition SI_Host_ConfigurePipes (i : USB_ClassInfo_SI_Host_t) (ConfigDescriptorSize : Z)
    : M (SI_Host_EnumerationFailure_ErrorCodes_t * USB_ClassInfo_SI_Host_t) :=
  let i := set_si_State {| si_IsActive := false; si_InterfaceNumber := 0; IsSessionOpen := false;
                           TransactionID := 0 |} i in
  t ← field8 Data 0 hdr_Type_offset;
  if negb (t =? DTYPE_Configuration) then ret (SI_ENUMERROR_InvalidConfigDescriptor, i)
  else
    r ← search_endpoints Data all_found DCOMP_SI_Host_NextSIInterfaceEndpoint
          (to_next_interface Data DCOMP_SI_Host_NextSIInterface) (record_data_or_events Data)
          ConfigDescriptorSize nothing_found;
    match r with
    | None => ret (SI_ENUMERROR_NoCompatibleInterfaceFound, i)
    | Some {| es_IN := Some IN; es_OUT := Some OUT; es_Events := Some Events;
              es_Interface := Some StillImageInterface |} =>
        eIN ← pipe_for Data EP_TYPE_BULK IN (si_DataINPipe i);
        eOUT ← pipe_for Data EP_TYPE_BULK OUT (si_DataOUTPipe i);
        eE ← pipe_for Data EP_TYPE_INTERRUPT Events (si_EventsPipe i);
        let i := {| si_DataINPipe := eIN; si_DataOUTPipe := eOUT; si_EventsPipe := eE; si_State := si_State i |} in
        ok ← configure_pipes [eIN; eOUT; eE];
        if negb ok then ret (SI_ENUMERROR_PipeConfigurationFailed, i)
        else
          n ← field8 Data StillImageInterface if_InterfaceNumber_offset;
          ret (SI_ENUMERROR_NoError,
               set_si_State {| si_IsActive := true; si_InterfaceNumber := n;
                               IsSessionOpen := IsSessionOpen (si_State i);
                               TransactionID := TransactionID (si_State i) |} i)
    | Some _ => undefined
    end.
End SIHostPipes.

(** ** Containers *)

Section SIHost.
Context `{Env}.

Definition si_disconnected : Z := pipe_stream_code PIPE_RWSTREAM_DeviceDisconnected.

(** [uint8_t ParamBytes = (PIMAHeader->DataLength - PIMA_COMMAND_SIZE(0));] *)
Definition ParamBytes (PIMAHeader : bytes) : Z := u8 (pima_DataLength PIMAHeader - PIMA_COMMAND_SIZE 0).

(** The transaction identifier of a container that is sent. *)
Definition stamp_transaction (i : USB_ClassInfo_SI_Host_t) (PIMAHeader : bytes)
    : USB_ClassInfo_SI_Host_t * bytes :=
  if IsSessionOpen (si_State i) then
    (set_session true (u32 (TransactionID (si_State i) + 1)) i,
     set_TransactionID (TransactionID (si_State i)) PIMAHeader)
  else (i, PIMAHeader).

Definition SI_Host_SendBlockHeader (i : USB_ClassInfo_SI_Host_t) (PIMAHeader : bytes)
    : M (Z * USB_ClassInfo_SI_Host_t * bytes) :=
  unless_host_offline (si_IsActive (si_State i)) (si_disconnected, i, PIMAHeader) (
    let '(i, PIMAHeader) := stamp_transaction i PIMAHeader in
    Pipe_SelectPipe (pipe_Address (si_DataOUTPipe i)) ;;
    Pipe_Unfreeze ;;
    '(ErrorCode, _) ← Pipe_Write_Stream_LE PIMAHeader (PIMA_COMMAND_SIZE 0) None;
    match ErrorCode with
    | PIPE_RWSTREAM_NoError =>
        ErrorCode ← (if negb (ParamBytes PIMAHeader =? 0) then
                       '(ErrorCode, _) ← Pipe_Write_Stream_LE (pima_Params PIMAHeader) (ParamBytes PIMAHeader) None;
                       ret ErrorCode
                     else ret PIPE_RWSTREAM_NoError);
        match ErrorCode with
        | PIPE_RWSTREAM_NoError =>
            Pipe_ClearOUT ;;
            Pipe_Freeze ;;
            ret (pipe_stream_code PIPE_RWSTREAM_NoError, i, PIMAHeader)
        | _ => ret (pipe_stream_code ErrorCode, i, PIMAHeader)
        end
    | _ => ret (pipe_stream_code ErrorCode, i, PIMAHeader)
    end).

(** A part of an object read from the pipe, from the offset [off] on. *)
Definition read_into (Object : bytes) (off : nat) (Length : Z) : M bytes :=
  '(_, _, data) ← Pipe_Read_Stream_LE (drop off Object) Length None;
  ret (take off Object ++ data).

(** The parameters of a response follow its header. *)
Definition read_params (PIMAHeader : bytes) : M bytes :=
  if pima_Type PIMAHeader =? PIMA_CONTAINER_ResponseBlock then
    PIMAHeader ← (if negb (ParamBytes PIMAHeader =? 0) then read_into PIMAHeader 12 (ParamBytes PIMAHeader)
                  else ret PIMAHeader);
    Pipe_ClearIN ;;
    ret PIMAHeader
  else ret PIMAHeader.

Definition SI_Host_ReceiveBlockHeader (i : USB_ClassInfo_SI_Host_t) (PIMAHeader : bytes) : M (Z * bytes) :=
  let IN := pipe_Address (si_DataINPipe i) in
  let OUT := pipe_Address (si_DataOUTPipe i) in
  PreviousFrameNumber ← USB_Host_GetFrameNumber;
  unless_host_offline (si_IsActive (si_State i)) (si_disconnected, PIMAHeader) (
    Pipe_SelectPipe IN ;;
    Pipe_Unfreeze ;;
    ErrorCode ← loop fuel (wait_data_round IN OUT) (SI_COMMAND_DATA_TIMEOUT_MS, PreviousFrameNumber);
    match ErrorCode with
    | PIPE_RWSTREAM_NoError =>
        PIMAHeader ← read_into PIMAHeader 0 (PIMA_COMMAND_SIZE 0);
        PIMAHeader ← read_params PIMAHeader;
        Pipe_Freeze ;;
        ret (pipe_stream_code PIPE_RWSTREAM_NoError, PIMAHeader)
    | _ => ret (pipe_stream_code ErrorCode, PIMAHeader)
    end).

(** ** Data and events *)

Definition SI_Host_SendData (i : USB_ClassInfo_SI_Host_t) (Buffer : bytes) (Bytes : Z) : M Z :=
  unless_host_offline (si_IsActive (si_State i)) si_disconnected (
    Pipe_SelectPipe (pipe_Address (si_DataOUTPipe i)) ;;
    Pipe_Unfreeze ;;
    '(ErrorCode, _) ← Pipe_Write_Stream_LE Buffer Bytes None;
    Pipe_ClearOUT ;;
    Pipe_Freeze ;;
    ret (pipe_stream_code ErrorCode)).

Definition SI_Host_ReadData (i : USB_ClassInfo_SI_Host_t) (Buffer : bytes) (Bytes : Z) : M (Z * bytes) :=
  unless_host_offline (si_IsActive (si_State i)) (si_disconnected, Buffer) (
    Pipe_SelectPipe (pipe_Address (si_DataINPipe i)) ;;
    Pipe_Unfreeze ;;
    '(ErrorCode, _, Buffer) ← Pipe_Read_Stream_LE Buffer Bytes None;
    Pipe_Freeze ;;
    ret (pipe_stream_code ErrorCode, Buffer)).

Definition SI_Host_IsEventReceived (i : USB_ClassInfo_SI_Host_t) : M bool :=
  unless_host_offline (si_IsActive (si_State i)) false (
    Pipe_SelectPipe (pipe_Address (si_EventsPipe i)) ;;
    Pipe_Unfreeze ;;
    IsEventReceived ← Pipe_IsINReceived;
    Pipe_Freeze ;;
    ret IsEventReceived).

Definition SI_Host_ReceiveEventHeader (i : USB_ClassInfo_SI_Host_t) (PIMAHeader : bytes) : M (Z * bytes) :=
  unless_host_offline (si_IsActive (si_State i)) (si_disconnected, PIMAHeader) (
    Pipe_SelectPipe (pipe_Address (si_EventsPipe i)) ;;
    Pipe_Unfreeze ;;
    '(ErrorCode, _, PIMAHeader) ← Pipe_Read_Stream_LE PIMAHeader sizeof_PIMA_Container_t None;
    Pipe_ClearIN ;;
    Pipe_Freeze ;;
    ret (pipe_stream_code ErrorCode, PIMAHeader)).

(** ** Sessions and commands *)

(** [(Type != PIMA_CONTAINER_ResponseBlock) || (Code != 0x2001)] *)
Definition response_refused (PIMABlock : bytes) : bool :=
  negb (pima_Type PIMABlock =? PIMA_CONTAINER_ResponseBlock) || negb (pima_Code PIMABlock =? 0x2001).

(** A command and its response, as in the two session functions. *)
Definition exchange (i : USB_ClassInfo_SI_Host_t) (PIMABlock : bytes)
    : M (Z * USB_ClassInfo_SI_Host_t * bytes) :=
  '(ErrorCode, i, PIMABlock) ← SI_Host_SendBlockHeader i PIMABlock;
  if negb (ErrorCode =? 0) then ret (ErrorCode, i, PIMABlock)
  else
    '(ErrorCode, PIMABlock) ← SI_Host_ReceiveBlockHeader i PIMABlock;
    ret (ErrorCode, i, PIMABlock).

Definition session_block (Code : Z) : bytes :=
  pima_container (PIMA_COMMAND_SIZE 1) PIMA_CONTAINER_CommandBlock Code (le_bytes 4 1).

Definition SI_Host_OpenSession (i : USB_ClassInfo_SI_Host_t) : M (Z * USB_ClassInfo_SI_Host_t) :=
  unless_host_offline (si_IsActive (si_State i)) (si_disconnected, i) (
    let i := set_session false 0 i in
    '(ErrorCode, i, PIMABlock) ← exchange i (session_block 0x1002);
    if negb (ErrorCode =? 0) then ret (ErrorCode, i)
    else if response_refused PIMABlock then ret (SI_ERROR_LOGICAL_CMD_FAILED, i)
    else ret (pipe_stream_code PIPE_RWSTREAM_NoError, set_session true (TransactionID (si_State i)) i)).

Definition SI_Host_CloseSession (i : USB_ClassInfo_SI_Host_t) : M (Z * USB_ClassInfo_SI_Host_t) :=
  unless_host_offline (si_IsActive (si_State i)) (si_disconnected, i) (
    '(ErrorCode, i, PIMABlock) ← exchange i (session_block 0x1003);
    if negb (ErrorCode =? 0) then ret (ErrorCode, i)
    else
      let i := set_session false (TransactionID (si_State i)) i in
      if response_refused PIMABlock then ret (SI_ERROR_LOGICAL_CMD_FAILED, i)
      else ret (pipe_stream_code PIPE_RWSTREAM_NoError, i)).

(** [memcpy] of [TotalParams] words into the three of the container. *)
Definition command_container (Operation TotalParams : Z) (Params : bytes) : option bytes :=
  let n := Z.to_nat (4 * TotalParams) in
  if (n <=? 12)%nat && (n <=? length Params)%nat
  then Some (pima_container (PIMA_COMMAND_SIZE TotalParams) PIMA_CONTAINER_CommandBlock Operation (take n Params))
  else None.

Definition SI_Host_SendCommand (i : USB_ClassInfo_SI_Host_t) (Operation TotalParams : Z) (Params : bytes)
    : M (Z * USB_ClassInfo_SI_Host_t) :=
  unless_host_offline (si_IsActive (si_State i)) (si_disconnected, i) (
    match command_container Operation TotalParams Params with
    | None => undefined
    | Some PIMABlock =>
        '(ErrorCode, i, _) ← SI_Host_SendBlockHeader i PIMABlock;
        ret (ErrorCode, i)
    end).

(** [PIMABlock] is what the uninitialised local holds. *)
Definition SI_Host_ReceiveResponse (PIMABlock : bytes) (i : USB_ClassInfo_SI_Host_t) : M Z :=
  unless_host_offline (si_IsActive (si_State i)) si_disconnected (
    '(ErrorCode, PIMABlock) ← SI_Host_ReceiveBlockHeader i PIMABlock;
    if negb (ErrorCode =? 0) then ret ErrorCode
    else if response_refused PIMABlock then ret SI_ERROR_LOGICAL_CMD_FAILED
    else ret (pipe_stream_code PIPE_RWSTREAM_NoError)).
End SIHost.
