(* ===== verification/RNDISClassHost.v ===== *)
(** * The RNDIS class driver of a host

    [LUFA/Drivers/USB/Class/Host/RNDISClassHost.c] and [.h]: control messages and
    packets of a network adapter.  Messages are lists of bytes; a local structure
    that is not initialised is a parameter with what it holds. *)
From S2P Require Import Prelude Machine Rely CommonUtil StdDescriptors Descriptors ConfigDescriptors Endpoint ControlStream UsbController DeviceStandardReq EndpointStream ClassDriver MassStorageClass RNDISClass UsbInterrupt Safety Pipe HostController HostStandardReq HostTask HostSafety PipeStream HostTransfer HostClass CDCClassHost.

Definition RNDIS_ERROR_LOGICAL_code := 0x80.
Definition sizeof_RNDIS_KeepAlive_Message_t := 12.
Definition sizeof_RNDIS_Initialize_Message_t := 24.
Definition sizeof_RNDIS_Set_Message_t := 28.
Definition sizeof_RNDIS_Query_Message_t := 28.

(** [enum RNDIS_Host_EnumerationFailure_ErrorCodes_t] *)
Inductive RNDIS_Host_EnumerationFailure_ErrorCodes_t : Set :=
  | RNDIS_ENUMERROR_NoError
  | RNDIS_ENUMERROR_InvalidConfigDescriptor
  | RNDIS_ENUMERROR_NoCompatibleInterfaceFound
  | RNDIS_ENUMERROR_PipeConfigurationFailed.

(** [State] and the whole of [USB_ClassInfo_RNDIS_Host_t]. *)
Record RNDIS_Host_State_t := {
  rh_IsActive : bool;
  rh_ControlInterfaceNumber : Z;
  DeviceMaxPacketSize : Z;
  rh_RequestID : Z
}.

Record USB_ClassInfo_RNDIS_Host_t := {
  rh_DataINPipe : USB_Pipe_Table_t;
  rh_DataOUTPipe : USB_Pipe_Table_t;
  rh_NotificationPipe : USB_Pipe_Table_t;
  HostMaxPacketSize : Z;
  rh_State : RNDIS_Host_State_t
}.

Definition set_rh_State (x : RNDIS_Host_State_t) (i : USB_ClassInfo_RNDIS_Host_t) :=
  {| rh_DataINPipe := rh_DataINPipe i; rh_DataOUTPipe := rh_DataOUTPipe i;
     rh_NotificationPipe := rh_NotificationPipe i; HostMaxPacketSize := HostMaxPacketSize i; rh_State := x |}.
(** [State.RequestID++] *)
Definition next_RequestID (i : USB_ClassInfo_RNDIS_Host_t) :=
  set_rh_State {| rh_IsActive := rh_IsActive (rh_State i);
                  rh_ControlInterfaceNumber := rh_ControlInterfaceNumber (rh_State i);
                  DeviceMaxPacketSize := DeviceMaxPacketSize (rh_State i);
                  rh_RequestID := u32 (rh_RequestID (rh_State i) + 1) |} i.
Definition set_DeviceMaxPacketSize (n : Z) (i : USB_ClassInfo_RNDIS_Host_t) :=
  set_rh_State {| rh_IsActive := rh_IsActive (rh_State i);
                  rh_ControlInterfaceNumber := rh_ControlInterfaceNumber (rh_State i);
                  DeviceMaxPacketSize := n; rh_RequestID := rh_RequestID (rh_State i) |} i.

(** ** Binding an interface *)

Section RNDISHostPipes.
Context `{Env} (Data : bytes).

Definition DCOMP_RNDIS_Host_NextRNDISControlInterface : Z -> M DSearch_Return_ErrorCodes_t :=
  next_interface_of Data CDC_CSCP_CDCClass CDC_CSCP_ACMSubclass CDC_CSCP_VendorSpecificProtocol.

Definition DCOMP_RNDIS_Host_NextRNDISDataInterface : Z -> M DSearch_Return_ErrorCodes_t :=
  next_interface_of Data CDC_CSCP_CDCDataClass CDC_CSCP_NoDataSubclass CDC_CSCP_NoDataProtocol.

Definition DCOMP_RNDIS_Host_NextRNDISInterfaceEndpoint : Z -> M DSearch_Return_ErrorCodes_t :=
  next_endpoint_of Data bulk_or_interrupt_type true.

(** The search starts with the configuration descriptor taken for the interface. *)
Definition RNDIS_Host_ConfigurePipes (i : USB_ClassInfo_RNDIS_Host_t) (ConfigDescriptorSize : Z)
    : M (RNDIS_Host_EnumerationFailure_ErrorCodes_t * USB_ClassInfo_RNDIS_Host_t) :=
  let i := set_rh_State {| rh_IsActive := false; rh_ControlInterfaceNumber := 0; DeviceMaxPacketSize := 0;
                           rh_RequestID := 0 |} i in
  t ← field8 Data 0 hdr_Type_offset;
  if negb (t =? DTYPE_Configuration) then ret (RNDIS_ENUMERROR_InvalidConfigDescriptor, i)
  else
    r ← search_endpoints Data all_found DCOMP_RNDIS_Host_NextRNDISInterfaceEndpoint
          (to_control_or_data Data DCOMP_RNDIS_Host_NextRNDISControlInterface
             DCOMP_RNDIS_Host_NextRNDISDataInterface)
          (record_data_or_events Data) ConfigDescriptorSize (new_interface 0);
    match r with
    | None => ret (RNDIS_ENUMERROR_NoCompatibleInterfaceFound, i)
    | Some {| es_IN := Some IN; es_OUT := Some OUT; es_Events := Some Notification;
              es_Interface := Some RNDISControlInterface |} =>
        eIN ← pipe_for Data EP_TYPE_BULK IN (rh_DataINPipe i);
        eOUT ← pipe_for Data EP_TYPE_BULK OUT (rh_DataOUTPipe i);
        eN ← pipe_for Data EP_TYPE_INTERRUPT Notification (rh_NotificationPipe i);
        let i := {| rh_DataINPipe := eIN; rh_DataOUTPipe := eOUT; rh_NotificationPipe := eN;
                    HostMaxPacketSize := HostMaxPacketSize i; rh_State := rh_State i |} in
        ok ← configure_pipes [eIN; eOUT; eN];
        if negb ok then ret (RNDIS_ENUMERROR_PipeConfigurationFailed, i)
        else
          n ← field8 Data RNDISControlInterface if_InterfaceNumber_offset;
          ret (RNDIS_ENUMERROR_NoError,
               set_rh_State {| rh_IsActive := true; rh_ControlInterfaceNumber := n;
                               DeviceMaxPacketSize := DeviceMaxPacketSize (rh_State i);
                               rh_RequestID := rh_RequestID (rh_State i) |} i)
    | Some _ => undefined
    end.
End RNDISHostPipes.

(** ** The messages *)

Definition words (l : list Z) : bytes := flat_map (le_bytes 4) l.

Definition keep_alive_message (RequestId : Z) : bytes :=
  words [REMOTE_NDIS_KEEPALIVE_MSG; sizeof_RNDIS_KeepAlive_Message_t; RequestId].
Definition initialize_message (RequestId MaxTransferSize : Z) : bytes :=
  words [REMOTE_NDIS_INITIALIZE_MSG; sizeof_RNDIS_Initialize_Message_t; RequestId;
         REMOTE_NDIS_VERSION_MAJOR; REMOTE_NDIS_VERSION_MINOR; MaxTransferSize].
(** [sizeof(RNDIS_Set_Message_t) + Length] is computed in 16 bits. *)
Definition set_message (RequestId Oid Length : Z) (Buffer : bytes) : bytes :=
  words [REMOTE_NDIS_SET_MSG; u16 (sizeof_RNDIS_Set_Message_t + Length); RequestId; Oid; Length;
         sizeof_RNDIS_Set_Message_t - sizeof_RNDIS_Message_Header_t; 0] ++ take (Z.to_nat Length) Buffer.
Definition query_message (RequestId Oid : Z) : bytes :=
  words [REMOTE_NDIS_QUERY_MSG; sizeof_RNDIS_Query_Message_t; RequestId; Oid; 0; 0; 0].

(** [Status], and [MaxTransferSize] of an initialisation response. *)
Definition response_Status (Response : bytes) : Z := le_val (member 12 4 Response).
Definition response_MaxTransferSize (Response : bytes) : Z := le_val (member 36 4 Response).
Definition response_code (Response : bytes) : Z :=
  if negb (response_Status Response =? REMOTE_NDIS_STATUS_SUCCESS) then RNDIS_ERROR_LOGICAL_code
  else HOST_SENDCONTROL_Successful.
(** The [memcpy] of what follows the response. *)
Definition query_data (MaxLength : Z) (Response Buffer : bytes) : option bytes :=
  put_bytes 0 (take (Z.to_nat MaxLength) (drop 24 Response)) Buffer.

Section RNDISHost.
Context `{Env}.

Definition RNDIS_SendEncapsulatedCommand (i : USB_ClassInfo_RNDIS_Host_t) (Buffer : bytes) (Length : Z)
    : M (Z * option bytes) :=
  send_request class_request_out RNDIS_REQ_SendEncapsulatedCommand 0
    (rh_ControlInterfaceNumber (rh_State i)) Length (Some Buffer).

Definition RNDIS_GetEncapsulatedResponse (i : USB_ClassInfo_RNDIS_Host_t) (Buffer : bytes) (Length : Z)
    : M (Z * option bytes) :=
  send_request class_request_in RNDIS_REQ_GetEncapsulatedResponse 0
    (rh_ControlInterfaceNumber (rh_State i)) Length (Some Buffer).

(** A message and the response to it. *)
Definition rndis_exchange (i : USB_ClassInfo_RNDIS_Host_t) (Message : bytes) (Length : Z)
    (Response : bytes) (ResponseLength : Z) : M (Z * bytes) :=
  '(ErrorCode, _) ← RNDIS_SendEncapsulatedCommand i Message Length;
  if negb (ErrorCode =? HOST_SENDCONTROL_Successful) then ret (ErrorCode, Response)
  else
    '(ErrorCode, Response) ← RNDIS_GetEncapsulatedResponse i Response ResponseLength;
    ret (ErrorCode, default [] Response).

Definition RNDIS_Host_SendKeepAlive (KeepAliveMessageResponse : bytes) (i : USB_ClassInfo_RNDIS_Host_t)
    : M (Z * USB_ClassInfo_RNDIS_Host_t) :=
  let KeepAliveMessage := keep_alive_message (rh_RequestID (rh_State i)) in
  let i := next_RequestID i in
  '(ErrorCode, _) ← rndis_exchange i KeepAliveMessage sizeof_RNDIS_KeepAlive_Message_t
                      KeepAliveMessageResponse sizeof_RNDIS_KeepAlive_Complete_t;
  ret (ErrorCode, i).

Definition RNDIS_Host_InitializeDevice (InitMessageResponse : bytes) (i : USB_ClassInfo_RNDIS_Host_t)
    : M (Z * USB_ClassInfo_RNDIS_Host_t) :=
  let InitMessage := initialize_message (rh_RequestID (rh_State i)) (HostMaxPacketSize i) in
  let i := next_RequestID i in
  '(ErrorCode, Response) ← rndis_exchange i InitMessage sizeof_RNDIS_Initialize_Message_t
                             InitMessageResponse sizeof_RNDIS_Initialize_Complete_t;
  if negb (ErrorCode =? HOST_SENDCONTROL_Successful) then ret (ErrorCode, i)
  else if negb (response_Status Response =? REMOTE_NDIS_STATUS_SUCCESS)
  then ret (RNDIS_ERROR_LOGICAL_code, i)
  else ret (HOST_SENDCONTROL_Successful, set_DeviceMaxPacketSize (response_MaxTransferSize Response) i).

Definition RNDIS_Host_SetRNDISProperty (SetMessageResponse : bytes) (i : USB_ClassInfo_RNDIS_Host_t)
    (Oid : Z) (Buffer : bytes) (Length : Z) : M (Z * USB_ClassInfo_RNDIS_Host_t) :=
  if Z.of_nat (length Buffer) <? Length then undefined
  else
    let SetMessageData := set_message (rh_RequestID (rh_State i)) Oid Length Buffer in
    let i := next_RequestID i in
    '(ErrorCode, Response) ← rndis_exchange i SetMessageData (u16 (sizeof_RNDIS_Set_Message_t + Length))
                               SetMessageResponse sizeof_RNDIS_Set_Complete_t;
    if negb (ErrorCode =? HOST_SENDCONTROL_Successful) then ret (ErrorCode, i)
    else ret (response_code Response, i).

(** [QueryMessageResponseData] has room for the response and [MaxLength] bytes. *)
Definition RNDIS_Host_QueryRNDISProperty (QueryMessageResponseData : bytes) (i : USB_ClassInfo_RNDIS_Host_t)
    (Oid : Z) (Buffer : bytes) (MaxLength : Z) : M (Z * USB_ClassInfo_RNDIS_Host_t * bytes) :=
  let QueryMessage := query_message (rh_RequestID (rh_State i)) Oid in
  let i := next_RequestID i in
  '(ErrorCode, Response) ← rndis_exchange i QueryMessage sizeof_RNDIS_Query_Message_t
                             QueryMessageResponseData (u16 (sizeof_RNDIS_Query_Complete_t + MaxLength));
  if negb (ErrorCode =? HOST_SENDCONTROL_Successful) then ret (ErrorCode, i, Buffer)
  else if negb (response_Status Response =? REMOTE_NDIS_STATUS_SUCCESS)
  then ret (RNDIS_ERROR_LOGICAL_code, i, Buffer)
  else
    match query_data MaxLength Response Buffer with
    | Some Buffer => ret (HOST_SENDCONTROL_Successful, i, Buffer)
    | None => undefined
    end.

(** ** Packets *)

Definition RNDIS_Host_IsPacketReceived (i : USB_ClassInfo_RNDIS_Host_t) : M bool :=
  unless_host_offline (rh_IsActive (rh_State i)) false (
    Pipe_SelectPipe (pipe_Address (rh_DataINPipe i)) ;;
    Pipe_Unfreeze ;;
    PacketWaiting ← Pipe_IsINReceived;
    Pipe_Freeze ;;
    ret PacketWaiting).

(** Returned are the code, the buffer and [*PacketLength]. *)
Definition RNDIS_Host_ReadPacket (DeviceMessage : bytes) (i : USB_ClassInfo_RNDIS_Host_t) (Buffer : bytes)
    (PacketLength : Z) : M (Z * bytes * Z) :=
  unless_host_offline (rh_IsActive (rh_State i))
    (pipe_ready_code PIPE_READYWAIT_DeviceDisconnected, Buffer, PacketLength) (
    Pipe_SelectPipe (pipe_Address (rh_DataINPipe i)) ;;
    Pipe_Unfreeze ;;
    allowed ← Pipe_IsReadWriteAllowed;
    if negb allowed then
      received ← Pipe_IsINReceived;
      when received Pipe_ClearIN ;;
      Pipe_Freeze ;;
      ret (pipe_stream_code PIPE_RWSTREAM_NoError, Buffer, 0)
    else
      '(ErrorCode, _, DeviceMessage) ←
        Pipe_Read_Stream_LE DeviceMessage sizeof_RNDIS_Packet_Message_t None;
      match ErrorCode with
      | PIPE_RWSTREAM_NoError =>
          let PacketLength := u16 (le_val (member 12 4 DeviceMessage)) in
          Pipe_Discard_Stream
            (u16 (le_val (member 8 4 DeviceMessage) -
                  (sizeof_RNDIS_Packet_Message_t - sizeof_RNDIS_Message_Header_t))) None ;;
          '(_, _, Buffer) ← Pipe_Read_Stream_LE Buffer PacketLength None;
          n ← Pipe_BytesInPipe;
          when (n =? 0) Pipe_ClearIN ;;
          Pipe_Freeze ;;
          ret (pipe_stream_code PIPE_RWSTREAM_NoError, Buffer, PacketLength)
      | _ => ret (pipe_stream_code ErrorCode, Buffer, PacketLength)
      end).

(** The header is the one of the device driver. *)
Definition RNDIS_Host_SendPacket (i : USB_ClassInfo_RNDIS_Host_t) (Buffer : bytes) (PacketLength : Z) : M Z :=
  unless_host_offline (rh_IsActive (rh_State i)) (pipe_ready_code PIPE_READYWAIT_DeviceDisconnected) (
    Pipe_SelectPipe (pipe_Address (rh_DataOUTPipe i)) ;;
    Pipe_Unfreeze ;;
    '(ErrorCode, _) ← Pipe_Write_Stream_LE (packet_header PacketLength) sizeof_RNDIS_Packet_Message_t None;
    match ErrorCode with
    | PIPE_RWSTREAM_NoError =>
        Pipe_Write_Stream_LE Buffer PacketLength None ;;
        Pipe_ClearOUT ;;
        Pipe_Freeze ;;
        ret (pipe_stream_code PIPE_RWSTREAM_NoError)
    | _ => ret (pipe_stream_code ErrorCode)
    end).
End RNDISHost.

(** ** The host and the adapter

    A message buffer as a list of 32-bit words with further bytes behind them. *)

Lemma length_words l : length (words l) = (4 * length l)%nat.
Proof.
  induction l as [|x l IH]; [done|]. change (words (x :: l)) with (le_bytes 4 x ++ words l).
  rewrite length_app, length_le_bytes, IH. cbn [length]. lia.
Qed.

Lemma words_split l k x :
  l !! k = Some x -> words l = words (take k l) ++ le_bytes 4 x ++ words (drop (S k) l).
Proof.
  intros Hk. rewrite <- (take_drop_middle l k x Hk) at 1. unfold words. by rewrite flat_map_app.
Qed.

Lemma get32_words (k : nat) o l rest x :
  o = 4 * Z.of_nat k -> l !! k = Some x -> get32 o (words l ++ rest) = Some (u32 x).
Proof.
  intros -> Hk. apply lookup_lt_Some in Hk as Hlt. unfold get32. rewrite length_app, length_words.
  destruct (Z.leb_spec 0 (4 * Z.of_nat k)); [|lia]. destruct (Z.leb_spec (4 * Z.of_nat k + 4) (Z.of_nat (4 * length l + length rest))); [|lia].
  cbn [andb]. do 2 f_equal. rewrite (words_split l k x Hk), <- !app_assoc.
  replace (Z.to_nat (4 * Z.of_nat k)) with (length (words (take k l))) by (rewrite length_words, length_take; lia).
  rewrite drop_app_length. change 4%nat with (length (le_bytes 4 x)). rewrite take_app_length. apply le_val_bytes.
Qed.

Lemma put32_words (k : nat) o l rest x :
  o = 4 * Z.of_nat k -> (k < length l)%nat -> put32 o x (words l ++ rest) = Some (words (<[k:=x]> l) ++ rest).
Proof.
  intros -> Hk. destruct (lookup_lt_is_Some_2 l k Hk) as [y Hy]. unfold put32, put_bytes.
  rewrite length_app, length_words, length_le_bytes.
  destruct (Z.leb_spec 0 (4 * Z.of_nat k)); [|lia]. destruct (Z.leb_spec (4 * Z.of_nat k + Z.of_nat 4) (Z.of_nat (4 * length l + length rest))); [|lia].
  cbn [andb]. f_equal. rewrite (words_split l k y Hy), (words_split (<[k:=x]> l) k x) by (by apply list_lookup_insert_eq).
  rewrite take_insert_ge, drop_insert_lt, <- !app_assoc by lia.
  replace (Z.to_nat (4 * Z.of_nat k)) with (length (words (take k l))) by (rewrite length_words, length_take; lia).
  rewrite take_app_length. do 2 f_equal. rewrite <- drop_drop, drop_app_length. change 4%nat with (length (le_bytes 4 y)).
  by rewrite drop_app_length.
Qed.

Ltac on_words :=
  repeat match goal with
  | |- context [put32 ?o ?x (words ?l ++ ?r)] =>
      let k := eval vm_compute in (Z.to_nat (o / 4)) in
      rewrite (put32_words k o l r x) by (reflexivity || (cbn [length]; lia));
      cbn [insert list_insert]; cbv beta iota
  | |- context [get32 ?o (words ?l ++ ?r)] =>
      let k := eval vm_compute in (Z.to_nat (o / 4)) in
      erewrite (get32_words k o l r) by reflexivity; cbv beta iota
  end.

(** A message put at the start of the message buffer. *)
Definition over (Message b : bytes) : bytes := Message ++ drop (length Message) b.

Lemma over_words l b : over (words l) b = words l ++ drop (4 * length l) b.
Proof. unfold over. by rewrite length_words. Qed.

Lemma set_filter_message id x :
  set_message id OID_GEN_CURRENT_PACKET_FILTER 4 (le_bytes 4 x) =
    words [REMOTE_NDIS_SET_MSG; 32; id; OID_GEN_CURRENT_PACKET_FILTER; 4; 20; 0; x].
Proof. reflexivity. Qed.

Lemma set_filter_processed i id x rest :
  is_u32 x ->
  RNDIS_Device_ProcessRNDISControlMessage
    (set_MessageBuffer (words [REMOTE_NDIS_SET_MSG; 32; id; OID_GEN_CURRENT_PACKET_FILTER; 4; 20; 0; x] ++ rest) i) =
  Some (set_MessageBuffer
          (words [REMOTE_NDIS_SET_CMPLT; 16; u32 id; REMOTE_NDIS_STATUS_SUCCESS; 4; 20; 0; x] ++ rest)
          (set_CurrRNDISState (if x =? 0 then RNDIS_Initialized else RNDIS_Data_Initialized)
             (set_CurrPacketFilter x (set_ResponseReady true i)))).
Proof.
  intros Hx. unfold RNDIS_Device_ProcessRNDISControlMessage. cbn [MessageBuffer RNDIS_Config set_MessageBuffer].
  on_words. change (u32 REMOTE_NDIS_SET_MSG) with REMOTE_NDIS_SET_MSG. cbn [Z.eqb Pos.eqb REMOTE_NDIS_SET_MSG REMOTE_NDIS_INITIALIZE_MSG REMOTE_NDIS_HALT_MSG REMOTE_NDIS_QUERY_MSG].
  unfold process_SET. cbn [put_words]. cbv zeta. on_words. unfold RNDIS_Device_ProcessNDISSet.
  change (u32 OID_GEN_CURRENT_PACKET_FILTER =? OID_GEN_CURRENT_PACKET_FILTER) with true.
  change (u32 (sizeof_RNDIS_Message_Header_t + u32 20)) with 28. cbv iota. on_words.
  rewrite (wrap_id 32 x Hx). reflexivity.
Qed.

Lemma query_filter_processed i id w rest :
  RNDIS_Device_ProcessRNDISControlMessage
    (set_MessageBuffer (words [REMOTE_NDIS_QUERY_MSG; 28; id; OID_GEN_CURRENT_PACKET_FILTER; 0; 0; 0; w] ++ rest) i) =
  Some (set_MessageBuffer
          (words [REMOTE_NDIS_QUERY_CMPLT; 28; id; REMOTE_NDIS_STATUS_SUCCESS; 4; 16;
                  CurrPacketFilter (RNDIS_State i); w] ++ rest)
          (set_ResponseReady true i)).
Proof.
  unfold RNDIS_Device_ProcessRNDISControlMessage. cbn [MessageBuffer RNDIS_Config set_MessageBuffer].
  on_words. change (u32 REMOTE_NDIS_QUERY_MSG) with REMOTE_NDIS_QUERY_MSG.
  cbn [Z.eqb Pos.eqb REMOTE_NDIS_INITIALIZE_MSG REMOTE_NDIS_HALT_MSG REMOTE_NDIS_QUERY_MSG].
  unfold process_QUERY. cbv zeta. on_words. unfold RNDIS_Device_ProcessNDISQuery. cbv zeta.
  repeat match goal with |- context [u32 OID_GEN_CURRENT_PACKET_FILTER =? ?c] =>
    let v := eval vm_compute in (u32 OID_GEN_CURRENT_PACKET_FILTER =? c) in
    change (u32 OID_GEN_CURRENT_PACKET_FILTER =? c) with v end.
  cbn [orb]. cbv iota. change (put_bytes ?o (le_bytes 4 ?x)) with (put32 o x). on_words. rewrite length_le_bytes.
  cbn [put_words]. on_words. reflexivity.
Qed.

(** C28: the packet filter of an adapter, from the host and back.  Let the message that
    [RNDIS_Host_SetRNDISProperty] builds for the packet filter arrive in the message
    buffer of an adapter, over whatever the buffer held.  The device driver
    processes it without an access outside of the buffer, answers with a response of
    the size the host asks for, with the host's request ID and a status that the host
    takes for success, and the adapter transfers packets exactly if the filter is not
    0.  If the message of [RNDIS_Host_QueryRNDISProperty] arrives next, the response is
    again as long as the host asks for, and what the host copies out of it is the
    filter that was set. *)
Theorem RNDIS_filter_roundtrip i b id id' x Buffer :
  (32 <= length b)%nat -> (4 <= length Buffer)%nat -> is_u32 id -> is_u32 id' -> is_u32 x ->
  let oid := OID_GEN_CURRENT_PACKET_FILTER in
  exists i1 b1 i2 b2,
    RNDIS_Device_ProcessRNDISControlMessage (set_MessageBuffer (over (set_message id oid 4 (le_bytes 4 x)) b) i) = Some i1 /\
    MessageBuffer (RNDIS_Config i1) = Some b1 /\ length b1 = length b /\
    get32 off_MessageLength b1 = Some sizeof_RNDIS_Set_Complete_t /\ get32 off_RequestId b1 = Some id /\
    response_code (take 16 b1) = HOST_SENDCONTROL_Successful /\
    CurrRNDISState (RNDIS_State i1) = (if x =? 0 then RNDIS_Initialized else RNDIS_Data_Initialized) /\
    RNDIS_Device_ProcessRNDISControlMessage (set_MessageBuffer (over (query_message id' oid) b1) i1) = Some i2 /\
    MessageBuffer (RNDIS_Config i2) = Some b2 /\ length b2 = length b /\
    get32 off_MessageLength b2 = Some (u16 (sizeof_RNDIS_Query_Complete_t + 4)) /\ get32 off_RequestId b2 = Some id' /\
    response_code (take 28 b2) = HOST_SENDCONTROL_Successful /\
    query_data 4 (take 28 b2) Buffer = Some (le_bytes 4 x ++ drop 4 Buffer).
Proof.
  intros Hb HB Hid Hid' Hx oid.
  rewrite set_filter_message, over_words. cbn [length Nat.mul Nat.add].
  rewrite set_filter_processed by done. do 4 eexists. split; [done|]. split; [done|].
  split; [rewrite length_app, length_words, length_drop; cbn; lia|].
  on_words. rewrite (wrap_id 32 id Hid), (wrap_id 32 id Hid). repeat (split; [done|]).
  change (query_message id' oid) with (words [REMOTE_NDIS_QUERY_MSG; 28; id'; oid; 0; 0; 0]).
  rewrite over_words. cbn [length Nat.mul Nat.add].
  change (words [REMOTE_NDIS_QUERY_MSG; 28; id'; oid; 0; 0; 0] ++ drop 28 (words ?l ++ ?r))
    with (words [REMOTE_NDIS_QUERY_MSG; 28; id'; OID_GEN_CURRENT_PACKET_FILTER; 0; 0; 0; x] ++ r).
  rewrite query_filter_processed. split; [done|]. split; [done|].
  split; [rewrite length_app, length_words, length_drop; cbn; lia|].
  on_words. rewrite (wrap_id 32 id' Hid'). repeat (split; [done|]).
  unfold query_data, put_bytes. change (take (Z.to_nat 4) (drop 24 (take 28 (words ?l ++ ?r)))) with (le_bytes 4 x).
  rewrite length_le_bytes. destruct (Z.leb_spec (0 + Z.of_nat 4) (Z.of_nat (length Buffer))); [done|lia].
Qed.

(** The exchange with an adapter that holds no message yet. *)
Definition plain_adapter : USB_ClassInfo_RNDIS_Device_t :=
  {| RNDIS_Config :=
       {| RNDIS_ControlInterfaceNumber := 0;
          RNDIS_DataINEndpoint := {| ep_Address := 0x81; ep_Size := 64; ep_Type := EP_TYPE_BULK; ep_Banks := 1 |};
          RNDIS_DataOUTEndpoint := {| ep_Address := 0x02; ep_Size := 64; ep_Type := EP_TYPE_BULK; ep_Banks := 1 |};
          RNDIS_NotificationEndpoint := {| ep_Address := 0x83; ep_Size := 8; ep_Type := EP_TYPE_INTERRUPT; ep_Banks := 1 |};
          AdapterVendorDescription := [65; 0]; AdapterMACAddress := [2; 0; 0; 0; 0; 1];
          MessageBuffer := None; MessageBufferLength := 132 |};
     RNDIS_State := zero_RNDIS_State |}.

Lemma RNDIS_filter_roundtrip_witness :
  exists i1 b1 i2 b2,
    RNDIS_Device_ProcessRNDISControlMessage
      (set_MessageBuffer (over (set_message 7 OID_GEN_CURRENT_PACKET_FILTER 4 (le_bytes 4 15)) (replicate 132 0)) plain_adapter)
      = Some i1 /\
    MessageBuffer (RNDIS_Config i1) = Some b1 /\
    RNDIS_Device_ProcessRNDISControlMessage
      (set_MessageBuffer (over (query_message 8 OID_GEN_CURRENT_PACKET_FILTER) b1) i1) = Some i2 /\
    MessageBuffer (RNDIS_Config i2) = Some b2 /\ query_data 4 (take 28 b2) [1; 2; 3; 4; 5] = Some [15; 0; 0; 0; 5].
Proof.
  destruct (RNDIS_filter_roundtrip plain_adapter (replicate 132 0) 7 8 15 [1; 2; 3; 4; 5]
              ltac:(rewrite length_replicate; lia) ltac:(cbn; lia) ltac:(unfold fits; lia) ltac:(unfold fits; lia)
              ltac:(unfold fits; lia))
    as (i1 & b1 & i2 & b2 & H1 & H2 & _ & _ & _ & _ & _ & H3 & H4 & _ & _ & _ & _ & H5).
  exists i1, b1, i2, b2. split; [exact H1|]. split; [exact H2|]. split; [exact H3|]. split; [exact H4|exact H5].
Defined.
