(* ===== verification/AudioClassHost.v ===== *)
(** * The audio class driver of a host

    [LUFA/Drivers/USB/Class/Host/AudioClassHost.c] and [.h]. *)
From S2P Require Import Prelude Machine Rely CommonUtil StdDescriptors Descriptors ConfigDescriptors Endpoint ControlStream UsbController DeviceStandardReq EndpointStream ClassDriver UsbInterrupt Safety Pipe HostController HostStandardReq HostTask HostSafety PipeStream HostClass MIDIClassHost.

Definition AUDIO_CSCP_ControlSubclass := 0x01.
Definition AUDIO_CSCP_ControlProtocol := 0x00.
Definition AUDIO_CSCP_AudioStreamingSubclass := 0x02.

(** [enum AUDIO_Host_EnumerationFailure_ErrorCodes_t] *)
Inductive AUDIO_Host_EnumerationFailure_ErrorCodes_t : Set :=
  | AUDIO_ENUMERROR_NoError
  | AUDIO_ENUMERROR_InvalidConfigDescriptor
  | AUDIO_ENUMERROR_NoCompatibleInterfaceFound
  | AUDIO_ENUMERROR_PipeConfigurationFailed.

(** [State] and the whole of [USB_ClassInfo_Audio_Host_t]. *)
Record Audio_Host_State_t := {
  ah_IsActive : bool;
  ah_ControlInterfaceNumber : Z;
  StreamingInterfaceNumber : Z;
  EnabledStreamingAltIndex : Z
}.

Record USB_ClassInfo_Audio_Host_t := {
  ah_DataINPipe : USB_Pipe_Table_t;
  ah_DataOUTPipe : USB_Pipe_Table_t;
  ah_State : Audio_Host_State_t
}.

Definition zero_Audio_Host_State : Audio_Host_State_t :=
  {| ah_IsActive := false; ah_ControlInterfaceNumber := 0; StreamingInterfaceNumber := 0;
     EnabledStreamingAltIndex := 0 |}.

(** ** Binding an interface *)

(** The local pointers of [Audio_Host_ConfigurePipes]. *)
Record audio_search := {
  as_IN : option Z;
  as_OUT : option Z;
  AudioControlInterface : option Z;
  AudioStreamingInterface : option Z
}.

Section AudioHostPipes.
Context `{Env} (Data : bytes).

Definition DCOMP_Audio_Host_NextAudioControlInterface : Z -> M DSearch_Return_ErrorCodes_t :=
  next_interface_of Data AUDIO_CSCP_AudioClass AUDIO_CSCP_ControlSubclass AUDIO_CSCP_ControlProtocol.

Definition DCOMP_Audio_Host_NextAudioStreamInterface : Z -> M DSearch_Return_ErrorCodes_t :=
  next_interface_of Data AUDIO_CSCP_AudioClass AUDIO_CSCP_AudioStreamingSubclass AUDIO_CSCP_StreamingProtocol.

Definition isochronous_type (t : Z) : bool := t =? EP_TYPE_ISOCHRONOUS.
Definition DCOMP_Audio_Host_NextAudioInterfaceDataEndpoint : Z -> M DSearch_Return_ErrorCodes_t :=
  next_endpoint_of Data isochronous_type false.

(** A search that is only made when the control interface is known. *)
Definition if_control (v : audio_search) (Comparator : Z -> M DSearch_Return_ErrorCodes_t) (walk : Z * Z)
    : M (bool * (Z * Z)) :=
  match AudioControlInterface v with
  | None => ret (false, walk)
  | Some _ => '(r, walk) ← next_descriptor_comp Data Comparator walk; ret (found r, walk)
  end.

(** The next streaming interface, of this control interface or of the next one. *)
Definition next_streaming (walk : Z * Z) (v : audio_search) : M (option ((Z * Z) * audio_search)) :=
  let streaming walk control :=
    Some (walk, {| as_IN := None; as_OUT := None; AudioControlInterface := control;
                   AudioStreamingInterface := Some (snd walk) |}) in
  '(ok, walk) ← if_control v DCOMP_Audio_Host_NextAudioStreamInterface walk;
  if (ok : bool) then ret (streaming walk (AudioControlInterface v))
  else
    '(r, walk) ← next_descriptor_comp Data DCOMP_Audio_Host_NextAudioControlInterface walk;
    if negb (found r) then ret None
    else
      let control := Some (snd walk) in
      '(r, walk) ← next_descriptor_comp Data DCOMP_Audio_Host_NextAudioStreamInterface walk;
      ret (if negb (found r) then None else streaming walk control).

(** One round of the loop, for pipes with the addresses [INAddress] and [OUTAddress];
    an address of 0 is a pipe the application does not use. *)
Definition audio_search_round (INAddress OUTAddress : Z) (x : (Z * Z) * audio_search)
    : M ((Z * Z) * audio_search + option audio_search) :=
  let '(walk, v) := x in
  if negb ((negb (INAddress =? 0) && bool_decide (as_IN v = None)) ||
           (negb (OUTAddress =? 0) && bool_decide (as_OUT v = None))) then ret (inr (Some v))
  else
    '(ok, walk) ← if_control v DCOMP_Audio_Host_NextAudioInterfaceDataEndpoint walk;
    if negb ok then
      r ← next_streaming walk v;
      ret (match r with Some x => inl x | None => inr None end)
    else
      a ← field8 Data (snd walk) ep_EndpointAddress_offset;
      let IN := Z.land a ENDPOINT_DIR_MASK =? ENDPOINT_DIR_IN in
      ret (inl (walk,
        {| as_IN := if IN then Some (snd walk) else as_IN v;
           as_OUT := if IN then as_OUT v else Some (snd walk);
           AudioControlInterface := AudioControlInterface v;
           AudioStreamingInterface := AudioStreamingInterface v |})).

Definition set_pipe_Banks (n : Z) (e : USB_Pipe_Table_t) : USB_Pipe_Table_t :=
  {| pipe_Address := pipe_Address e; pipe_Size := pipe_Size e; pipe_EndpointAddress := pipe_EndpointAddress e;
     pipe_Type := pipe_Type e; pipe_Banks := n |}.

(** A null pointer is undefined behaviour where it is dereferenced: that is the case
    of a direction the application does not use. *)
Definition Audio_Host_ConfigurePipes (i : USB_ClassInfo_Audio_Host_t) (ConfigDescriptorSize : Z)
    : M (AUDIO_Host_EnumerationFailure_ErrorCodes_t * USB_ClassInfo_Audio_Host_t) :=
  let i := {| ah_DataINPipe := ah_DataINPipe i; ah_DataOUTPipe := ah_DataOUTPipe i;
              ah_State := zero_Audio_Host_State |} in
  t ← field8 Data 0 hdr_Type_offset;
  if negb (t =? DTYPE_Configuration) then ret (AUDIO_ENUMERROR_InvalidConfigDescriptor, i)
  else
    r ← loop fuel (audio_search_round (pipe_Address (ah_DataINPipe i)) (pipe_Address (ah_DataOUTPipe i)))
          ((ConfigDescriptorSize, 0),
           {| as_IN := None; as_OUT := None; AudioControlInterface := None; AudioStreamingInterface := None |});
    match r with
    | None => ret (AUDIO_ENUMERROR_NoCompatibleInterfaceFound, i)
    | Some {| as_IN := Some IN; as_OUT := Some OUT; AudioControlInterface := Some Control_;
              AudioStreamingInterface := Some Streaming |} =>
        eIN ← pipe_for Data EP_TYPE_ISOCHRONOUS IN (ah_DataINPipe i);
        let eIN := set_pipe_Banks 2 eIN in
        eOUT ← pipe_for Data EP_TYPE_ISOCHRONOUS OUT (ah_DataOUTPipe i);
        let eOUT := set_pipe_Banks 2 eOUT in
        ok ← configure_pipes [eIN; eOUT];
        if negb ok then
          ret (AUDIO_ENUMERROR_PipeConfigurationFailed,
               {| ah_DataINPipe := eIN; ah_DataOUTPipe := eOUT; ah_State := ah_State i |})
        else
          n ← field8 Data Control_ if_InterfaceNumber_offset;
          m ← field8 Data Streaming if_InterfaceNumber_offset;
          alt ← field8 Data Streaming if_AlternateSetting_offset;
          ret (AUDIO_ENUMERROR_NoError,
               {| ah_DataINPipe := eIN; ah_DataOUTPipe := eOUT;
                  ah_State := {| ah_IsActive := true; ah_ControlInterfaceNumber := n;
                                 StreamingInterfaceNumber := m; EnabledStreamingAltIndex := alt |} |})
    | Some _ => undefined
    end.
End AudioHostPipes.

(** ** Requests *)

Section AudioHost.
Context `{Env} (i : USB_ClassInfo_Audio_Host_t).

Definition Audio_Host_StartStopStreaming (EnableStreaming : bool) : M Z :=
  if negb (ah_IsActive (ah_State i)) then ret HOST_SENDCONTROL_DeviceDisconnected
  else
    '(ErrorCode, _) ← USB_Host_SetInterfaceAltSetting (StreamingInterfaceNumber (ah_State i))
                        (if EnableStreaming then EnabledStreamingAltIndex (ah_State i) else 0);
    ret ErrorCode.

Definition Audio_Host_GetSetEndpointProperty (DataPipeIndex EndpointProperty EndpointControl DataLength : Z)
    (Data : option bytes) : M (Z * option bytes) :=
  if negb (ah_IsActive (ah_State i)) then ret (HOST_SENDCONTROL_DeviceDisconnected, Data)
  else
    let RequestType :=
      Z.lor (Z.lor (if negb (Z.land EndpointProperty 0x80 =? 0) then REQDIR_DEVICETOHOST else REQDIR_HOSTTODEVICE)
               REQTYPE_CLASS) REQREC_ENDPOINT in
    Pipe_SelectPipe DataPipeIndex ;;
    EndpointAddress ← Pipe_GetBoundEndpointAddress;
    send_request RequestType EndpointProperty (u16 (Z.shiftl EndpointControl 8)) EndpointAddress DataLength Data.

(** ** Samples: the inline functions of [AudioClassHost.h] *)

Definition Audio_Host_IsSampleReceived : M bool :=
  unless_host_offline (ah_IsActive (ah_State i)) false (
    Pipe_SelectPipe (pipe_Address (ah_DataINPipe i)) ;;
    Pipe_Unfreeze ;;
    SampleReceived ← Pipe_IsINReceived;
    Pipe_Freeze ;;
    ret SampleReceived).

Definition Audio_Host_IsReadyForNextSample : M bool :=
  unless_host_offline (ah_IsActive (ah_State i)) false (
    Pipe_SelectPipe (pipe_Address (ah_DataOUTPipe i)) ;;
    Pipe_IsOUTReady).

(** [if (!(Pipe_BytesInPipe()))], after a sample was read. *)
Definition release_pipe_if_empty : M unit :=
  n ← Pipe_BytesInPipe;
  when (n =? 0) (Pipe_Unfreeze ;; Pipe_ClearIN ;; Pipe_Freeze).

Definition Audio_Host_ReadSample8 : M Z :=
  Sample ← Pipe_Read_8; release_pipe_if_empty ;; ret (sgn 8 Sample).

Definition Audio_Host_ReadSample16 : M Z :=
  Sample ← Pipe_Read_16_LE; release_pipe_if_empty ;; ret (sgn 16 Sample).

(** C leaves open which operand of [|] is evaluated first. *)
Definition Audio_Host_ReadSample24 (left_first : bool) : M Z :=
  '(x, y) ← (if left_first then x ← Pipe_Read_8; y ← Pipe_Read_16_LE; ret (x, y)
             else y ← Pipe_Read_16_LE; x ← Pipe_Read_8; ret (x, y));
  release_pipe_if_empty ;;
  ret (sgn 32 (Z.lor (Z.shiftl x 16) y)).

(** [if (!(Pipe_IsReadWriteAllowed()))], after a sample was written; the result of the
    wait is ignored. *)
Definition send_pipe_if_full : M unit :=
  allowed ← Pipe_IsReadWriteAllowed;
  when (negb allowed) (Pipe_Unfreeze ;; Pipe_ClearOUT ;; Pipe_WaitUntilReady ;; Pipe_Freeze).

Definition Audio_Host_WriteSample8 (Sample : Z) : M unit :=
  Pipe_Write_8 (u8 Sample) ;; send_pipe_if_full.

Definition Audio_Host_WriteSample16 (Sample : Z) : M unit :=
  Pipe_Write_16_LE (u16 Sample) ;; send_pipe_if_full.

Definition Audio_Host_WriteSample24 (Sample : Z) : M unit :=
  Pipe_Write_16_LE (u16 Sample) ;;
  Pipe_Write_8 (u8 (Z.shiftr Sample 16)) ;;
  send_pipe_if_full.
End AudioHost.
