(* ===== verification/AndroidAccessoryClassHost.v ===== *)
(** * The Android accessory class driver of a host

    [LUFA/Drivers/USB/Class/Host/AndroidAccessoryClassHost.c] and [.h]. *)
From S2P Require Import Prelude Machine Rely CommonUtil StdDescriptors Descriptors ConfigDescriptors Endpoint ControlStream UsbController DeviceStandardReq EndpointStream ClassDriver CDCClass UsbInterrupt Safety Pipe HostController HostStandardReq HostTask HostSafety PipeStream HostClass.

Definition ANDROID_ACCESSORY_PRODUCT_ID := 0x2D00.
Definition ANDROID_ACCESSORY_ADB_PRODUCT_ID := 0x2D01.
Definition AOA_CSCP_AOADataClass := 0xFF.
Definition AOA_CSCP_AOADataSubclass := 0xFF.
Definition AOA_CSCP_AOADataProtocol := 0x00.
Definition REQTYPE_VENDOR := Z.shiftl 2 5.
Definition AOA_REQ_GetAccessoryProtocol := 0x33.
Definition AOA_REQ_SendString := 0x34.
Definition AOA_REQ_StartAccessoryMode := 0x35.
Definition AOA_STRING_TOTAL_STRINGS := 6%nat.
Definition AOA_PROTOCOL_AccessoryV1 := 0x0001.
Definition AOA_PROTOCOL_AccessoryV2 := 0x0002.
Definition AOA_ERROR_LOGICAL_CMD_FAILED := 0x80.

(** [enum AOA_Host_EnumerationFailure_ErrorCodes_t] *)
Inductive AOA_Host_EnumerationFailure_ErrorCodes_t : Set :=
  | AOA_ENUMERROR_NoError
  | AOA_ENUMERROR_InvalidConfigDescriptor
  | AOA_ENUMERROR_NoCompatibleInterfaceFound
  | AOA_ENUMERROR_PipeConfigurationFailed.

(** [USB_ClassInfo_AOA_Host_t]; a property string is the object a pointer leads to,
    [None] for [NULL]. *)
Record USB_ClassInfo_AOA_Host_t := {
  oh_DataINPipe : USB_Pipe_Table_t;
  oh_DataOUTPipe : USB_Pipe_Table_t;
  PropertyStrings : list (option bytes);
  oh_IsActive : bool;
  oh_InterfaceNumber : Z
}.

Definition set_oh (IN OUT : USB_Pipe_Table_t) (active : bool) (n : Z) (i : USB_ClassInfo_AOA_Host_t) :=
  {| oh_DataINPipe := IN; oh_DataOUTPipe := OUT; PropertyStrings := PropertyStrings i; oh_IsActive := active;
     oh_InterfaceNumber := n |}.

(** The result and [*NeedModeSwitch]. *)
Definition AOA_Host_ValidateAccessoryDevice (DeviceDescriptor : USB_Descriptor_Device_t) (NeedModeSwitch : bool)
    : bool * bool :=
  if negb (hdr_Type (dev_Header DeviceDescriptor) =? DTYPE_Device) then (false, NeedModeSwitch)
  else (true, negb (dev_ProductID DeviceDescriptor =? ANDROID_ACCESSORY_PRODUCT_ID) &&
              negb (dev_ProductID DeviceDescriptor =? ANDROID_ACCESSORY_ADB_PRODUCT_ID)).

(** ** Binding an interface *)

Section AOAHostPipes.
Context `{Env} (Data : bytes).

Definition DCOMP_AOA_Host_NextAndroidAccessoryInterface : Z -> M DSearch_Return_ErrorCodes_t :=
  next_interface_of Data AOA_CSCP_AOADataClass AOA_CSCP_AOADataSubclass AOA_CSCP_AOADataProtocol.

Definition DCOMP_AOA_Host_NextInterfaceBulkEndpoint : Z -> M DSearch_Return_ErrorCodes_t :=
  next_endpoint_of Data bulk_type true.

(** The search of the first accessory interface; there is no second attempt. *)
Definition aoa_search (ConfigDescriptorSize : Z) : M (option endpoint_search) :=
  '(r, walk) ← next_descriptor_comp Data DCOMP_AOA_Host_NextAndroidAccessoryInterface (ConfigDescriptorSize, 0);
  if negb (found r) then ret None
  else
    loop fuel (endpoint_search_round Data both_found DCOMP_AOA_Host_NextInterfaceBulkEndpoint
                 (fun _ _ => ret None) (record_data Data)) (walk, new_interface (snd walk)).

Definition AOA_Host_ConfigurePipes (i : USB_ClassInfo_AOA_Host_t) (ConfigDescriptorSize : Z)
    : M (AOA_Host_EnumerationFailure_ErrorCodes_t * USB_ClassInfo_AOA_Host_t) :=
  let i := set_oh (oh_DataINPipe i) (oh_DataOUTPipe i) false 0 i in
  t ← field8 Data 0 hdr_Type_offset;
  if negb (t =? DTYPE_Configuration) then ret (AOA_ENUMERROR_InvalidConfigDescriptor, i)
  else
    r ← aoa_search ConfigDescriptorSize;
    match r with
    | None => ret (AOA_ENUMERROR_NoCompatibleInterfaceFound, i)
    | Some {| es_IN := Some IN; es_OUT := Some OUT; es_Interface := Some AOAInterface |} =>
        eIN ← pipe_for Data EP_TYPE_BULK IN (oh_DataINPipe i);
        eOUT ← pipe_for Data EP_TYPE_BULK OUT (oh_DataOUTPipe i);
        ok ← configure_pipes [eIN; eOUT];
        if negb ok then ret (AOA_ENUMERROR_PipeConfigurationFailed, set_oh eIN eOUT false 0 i)
        else
          n ← field8 Data AOAInterface if_InterfaceNumber_offset;
          ret (AOA_ENUMERROR_NoError, set_oh eIN eOUT true n i)
    | Some _ => undefined
    end.
End AOAHostPipes.

(** ** Accessory mode *)

Section AOAHost.
Context `{Env}.

Definition aoa_request (Direction : Z) : Z := Z.lor (Z.lor Direction REQTYPE_VENDOR) REQREC_DEVICE.

Definition AOA_Host_GetAccessoryProtocol (Protocol : bytes) : M (Z * option bytes) :=
  send_request (aoa_request REQDIR_DEVICETOHOST) AOA_REQ_GetAccessoryProtocol 0 0 2 (Some Protocol).

Definition AOA_Host_SendPropertyString (i : USB_ClassInfo_AOA_Host_t) (StringIndex : nat) : M Z :=
  match PropertyStrings i !! StringIndex with
  | None => undefined
  | Some String =>
      let String := default [0] String in
      match strlen String with
      | None => undefined
      | Some n =>
          '(ErrorCode, _) ←
            send_request (aoa_request REQDIR_HOSTTODEVICE) AOA_REQ_SendString 0 (Z.of_nat StringIndex) (u16 (n + 1))
              (Some String);
          ret ErrorCode
      end
  end.

(** [for (PropertyIndex = 0; ...)]: the [n] strings from [PropertyIndex] on. *)
Fixpoint send_property_strings (i : USB_ClassInfo_AOA_Host_t) (n PropertyIndex : nat) : M Z :=
  match n with
  | O => ret HOST_WAITERROR_Successful
  | S n =>
      ErrorCode ← AOA_Host_SendPropertyString i PropertyIndex;
      if negb (ErrorCode =? HOST_WAITERROR_Successful) then ret ErrorCode
      else send_property_strings i n (S PropertyIndex)
  end.

(** [AccessoryProtocol] is what the uninitialised local holds. *)
Definition AOA_Host_StartAccessoryMode (AccessoryProtocol : bytes) (i : USB_ClassInfo_AOA_Host_t) : M Z :=
  '(ErrorCode, Protocol) ← AOA_Host_GetAccessoryProtocol AccessoryProtocol;
  if negb (ErrorCode =? HOST_WAITERROR_Successful) then ret ErrorCode
  else
    let AccessoryProtocol := le_val (default [] Protocol) in
    if negb (AccessoryProtocol =? AOA_PROTOCOL_AccessoryV1) && negb (AccessoryProtocol =? AOA_PROTOCOL_AccessoryV2)
    then ret AOA_ERROR_LOGICAL_CMD_FAILED
    else
      ErrorCode ← send_property_strings i AOA_STRING_TOTAL_STRINGS 0;
      if negb (ErrorCode =? HOST_WAITERROR_Successful) then ret ErrorCode
      else
        '(ErrorCode, _) ←
          send_request (aoa_request REQDIR_HOSTTODEVICE) AOA_REQ_StartAccessoryMode 0 0 0 None;
        ret ErrorCode.

(** ** Data *)

Context (i : USB_ClassInfo_AOA_Host_t).

Definition aoa_disconnected : Z := pipe_ready_code PIPE_READYWAIT_DeviceDisconnected.

Definition AOA_Host_SendData (Buffer : bytes) (Length : Z) : M Z :=
  unless_host_offline (oh_IsActive i) aoa_disconnected (pipe_send_data (pipe_Address (oh_DataOUTPipe i)) Buffer Length).

Definition AOA_Host_SendString (String : bytes) : M Z :=
  unless_host_offline (oh_IsActive i) aoa_disconnected (pipe_send_string (pipe_Address (oh_DataOUTPipe i)) String).

Definition AOA_Host_SendByte (Data : Z) : M Z :=
  unless_host_offline (oh_IsActive i) aoa_disconnected (pipe_send_byte (pipe_Address (oh_DataOUTPipe i)) Data).

Definition AOA_Host_BytesReceived : M Z :=
  unless_host_offline (oh_IsActive i) 0 (pipe_bytes_received (pipe_Address (oh_DataINPipe i))).

Definition AOA_Host_ReceiveByte : M Z :=
  unless_host_offline (oh_IsActive i) (-1) (pipe_receive_byte (pipe_Address (oh_DataINPipe i))).

Definition AOA_Host_Flush : M Z :=
  unless_host_offline (oh_IsActive i) aoa_disconnected (pipe_flush (pipe_Address (oh_DataOUTPipe i))).

Definition AOA_Host_USBTask : M unit :=
  unless_host_offline (oh_IsActive i) tt (AOA_Host_Flush ;; ret tt).

(** ** The stdio callbacks *)

Context `{USB_Host_Application} (DataBuffer : bytes).

Definition AOA_Host_putchar (c : Z) : M Z :=
  ErrorCode ← AOA_Host_SendByte (u8 c);
  ret (if negb (ErrorCode =? 0) then FDEV_ERR else 0).

Definition AOA_Host_getchar : M Z :=
  ReceivedByte ← AOA_Host_ReceiveByte;
  ret (if ReceivedByte <? 0 then FDEV_EOF else ReceivedByte).

Definition AOA_Host_getchar_Blocking : M Z :=
  loop fuel (fun _ : unit =>
    ReceivedByte ← AOA_Host_ReceiveByte;
    if ReceivedByte <? 0 then
      h ← get_HostState;
      if h =? HOST_STATE_Unattached then ret (inr FDEV_EOF)
      else
        AOA_Host_USBTask ;;
        USB_HostTask DataBuffer ;;
        ret (inl tt)
    else ret (inr ReceivedByte)) tt.
End AOAHost.
