(* ===== verification/HostDriversSim.v ===== *)
(** * Hosts and their devices

    The printer, still image and CDC drivers of the host against simulated
    devices. *)
From S2P Require Import Prelude Machine Rely StdDescriptors Descriptors ConfigDescriptors Endpoint FrameWait EndpointStream MassStorageClass UsbController DeviceStandardReq UsbInterrupt Safety Pipe HostController HostStandardReq HostTask HostSafety PipeStream HostTransfer HostEnumeration HostSim PipeWait HostClass HostSearch HIDHostSim MassStorageClassHost MSHostSim CDCClass PrinterClassHost CDCClassHost StillImageClassHost.

(** ** A printer *)

(** A configuration with a unidirectional and a bidirectional setting of one
    interface, the second with an interrupt endpoint between its bulk endpoints. *)
Definition printer_header : bytes := [9; DTYPE_Configuration; 55; 0; 1; 1; 0; 0xC0; 50].
Definition printer_setting (alternate endpoints protocol : Z) : bytes :=
  [9; DTYPE_Interface; 0; alternate; endpoints; PRNT_CSCP_PrinterClass; PRNT_CSCP_PrinterSubclass; protocol; 0].
Definition endpoint_of (address attributes size : Z) : bytes := [7; DTYPE_Endpoint; address; attributes; size; 0; 0].
Definition printer_parts : list bytes :=
  [printer_setting 0 1 1; endpoint_of 0x01 EP_TYPE_BULK 64;
   printer_setting 1 3 PRNT_CSCP_BidirectionalProtocol; endpoint_of 0x01 EP_TYPE_BULK 64;
   endpoint_of 0x82 EP_TYPE_INTERRUPT 8; endpoint_of 0x83 EP_TYPE_BULK 32].

Definition printer : USB_ClassInfo_PRNT_Host_t :=
  {| ph_DataINPipe := blank_pipe 1; ph_DataOUTPipe := blank_pipe 2; ph_IsActive := false;
     ph_InterfaceNumber := 0; ph_AlternateSetting := 0 |}.

(** The second setting is bound. *)
Example printer_is_bound :
  match PRNT_Host_ConfigurePipes (H := disk_host) (printer_header ++ concat printer_parts ++ [0; 0]) printer 55 with_disk with
  | Done (code, i) _ => code = PRNT_ENUMERROR_NoError /\ ph_IsActive i = true /\ ph_AlternateSetting i = 1 /\
      pipe_EndpointAddress (ph_DataINPipe i) = 0x83 /\ pipe_Size (ph_DataINPipe i) = 32 /\
      pipe_EndpointAddress (ph_DataOUTPipe i) = 0x01
  | _ => False
  end.
Proof. vm_compute. done. Qed.


(** ** A camera

    Its response announces [n] bytes of parameters. *)

Definition camera_response (n : Z) : bytes :=
  le_bytes 4 (12 + n) ++ le_bytes 2 PIMA_CONTAINER_ResponseBlock ++ le_bytes 2 0x2001.
Definition camera (n : Z) : Env :=
  {| respond t r := match r with UPDATX => nth (reads_since_select t 0) (camera_response n) 0 | _ => disk_device t r end;
     async s := s; fuel := 1100 |}.
Definition camera_interface : USB_ClassInfo_SI_Host_t :=
  {| si_DataINPipe := blank_pipe 1; si_DataOUTPipe := blank_pipe 2; si_EventsPipe := blank_pipe 3;
     si_State := {| si_IsActive := true; si_InterfaceNumber := 0; IsSessionOpen := false; TransactionID := 0 |} |}.

(** A session is opened with a camera that sends no parameters, and the next
    container carries the transaction identifier 0. *)
Example camera_session_opens :
  match SI_Host_OpenSession (H := camera 0) camera_interface with_disk with
  | Done (code, i) _ => code = 0 /\ IsSessionOpen (si_State i) = true /\
      snd (stamp_transaction i (session_block 0x1003)) = session_block 0x1003 /\
      TransactionID (si_State (fst (stamp_transaction i (session_block 0x1003)))) = 1
  | _ => False
  end.
Proof. vm_compute. done. Qed.

(** With up to twelve bytes of parameters the response fits, with thirteen the
    driver writes past the end of the container. *)
Example camera_response_fits :
  match SI_Host_ReceiveBlockHeader (H := camera 12) camera_interface (replicate 24 0) with_disk with
  | Done (code, h) _ => code = 0 /\ response_refused h = false
  | _ => False
  end.
Proof. vm_compute. done. Qed.

Example camera_response_overflows :
  SI_Host_ReceiveBlockHeader (H := camera 13) camera_interface (replicate 24 0) with_disk = Undefined.
Proof. vm_compute. done. Qed.

(** ** A serial port *)

Definition serial_port : USB_ClassInfo_CDC_Host_t :=
  {| ch_DataINPipe := blank_pipe 1; ch_DataOUTPipe := blank_pipe 2; ch_NotificationPipe := blank_pipe 3;
     ch_State := {| ch_IsActive := true; ch_ControlInterfaceNumber := 0; ch_HostToDevice := 3; ch_DeviceToHost := 3;
                    ch_LineEncoding := {| BaudRateBPS := 9600; CharFormat := 0; ParityType := 0; DataBits := 8 |} |} |}.
Definition serial_session : list serial_call :=
  [call_HostTask; call_SetLineEncoding; call_SendString [72; 105; 0]; call_SendData [1; 2; 3] 3; call_USBTask;
   call_getchar_Blocking; call_Flush].

Lemma with_disk_ok : host_ok (Host with_disk).
Proof. constructor; vm_compute; try done. by left. Qed.

Lemma CDC_Host_session_safe_witness :
  wlp (run_calls (H := host_interrupted disk_host idle_host_app) ret (replicate 8 0) (replicate 8 0) serial_session
         serial_port)
    (fun i' s' => host_ok (Host s') /\ lines_ok i') with_disk.
Proof.
  apply (CDC_Host_session_safe (E := disk_host)).
  - exact disk_data.
  - intros. by apply runs_ret.
  - by apply runs_ret.
  - by apply runs_ret.
  - intros i Hi. by apply safe_ret.
  - exact zero_buffer8.
  - exact zero_buffer8.
  - repeat (apply List.Forall_cons; [|]); try exact I; [by exists 2|cbn; unfold fits; lia|constructor].
  - split; [cbn; unfold fits; lia|]. constructor; cbn; unfold fits; lia.
  - exact with_disk_ok.
Defined.
